(* ===== verification/_CoqProject ===== *)
-Q . S2P
Prelude.v
CString.v
CArray.v
Types.v
Numerals.v
Fat12.v
Fat12Dir.v
Fat12Open.v
Spinlock.v
Kernel.v
Kbd.v
Kalloc.v
Sched.v
Idle.v
Sleeplock.v
Ide.v
Apic.v
Disk.v
Bio.v
Pipe.v
Files.v
Console.v
Vm.v
Space.v
Mp.v
Proc.v
Fork.v
Syscall.v
Exec.v
Load.v
Trap.v
User.v
Printf.v
Umalloc.v
Shell.v
Run.v
Boot.v
