(* ===== verification/Prelude.v ===== *)
(** * A verification library for the UoDOS kernel

    UoDOS (src/UoDOS) is a small multiprocessor kernel for 32-bit x86, derived
    from xv6, with a read-only FAT12 file system.  This library translates its
    C code into Rocq functions, one definition for each C function (loops
    become fixpoints named after the function), and proves what the parts
    promise to each other and to the user.

    ** The program and the files

    The kernel is a stack of components; each file below models one, in the
    order of the dependencies.

    - Prelude (this file): machine integers, the monad [M] of computations that
      return, sleep, panic, fault or spin, C arrays as lists, the tactics and
      the hint databases.
    - CString: string.c and the string instructions of x86.h, on a memory
      [mem] of bytes with 32-bit addresses.  CArray: the same routines on
      arrays that the kernel keeps in structures, with a refinement theorem.
    - Types: param.h, bpb.h, fs.h, file.h.  Numerals: numbers as digits, for
      the two printf routines.
    - Fat12, Fat12Dir, Fat12Open: fs.c.  The code is written against two
      classes, [BlockCache] (bio.c as fs.c uses it) and [FileTable] (file.c as
      fs.c uses it), with the laws [BlockCacheLaws] and [FileSystemLaws] that
      the proofs rely on.  The specification of a volume ([chainData],
      [dirEntries], [resolve]) is a pure function of the sectors of the disk.
    - Spinlock: spinlock.c, the interrupt flag, the processors ([myCpu],
      [myProcess] of proc.c).  [Sync] is what one processor sees of the locks;
      [Machine] puts several processors side by side.
    - Kernel: the state [KState] of the kernel (the globals of all components),
      the port I/O of x86.h as a trace of events answered by the class
      [Hardware], and the class [Scheduler] that says what happens while a
      process is switched out.
    - Kalloc: kalloc.c, the free list threaded through the free pages.
    - Sched: sleep, wakeup, kill, sched, yield and scheduler of proc.c and the
      two page-table switches of vm.c.  Idle: what a processor does between two
      processes.
    - Sleeplock: sleeplock.c.  Ide: ide.c and ioapic.c.  Disk: the driver
      together with the scheduler and the interrupt, for a disk that obeys
      [DiskLaws].
    - Bio: bio.c; [kernelCache] is its instance of [BlockCache].
    - Pipe: pipe.c.  Files: file.c and the creation of pipes; [kernelFiles] is
      its instance of [FileTable].
    - Console: console.c, uart.c and the process listing of proc.c.  Kbd:
      kbd.c.  Apic: lapic.c, picirq.c.  Mp: mp.c, the search for processors in
      the tables of the BIOS.
    - Vm: vm.c, page tables in the bytes of memory.  Space: address spaces side
      by side, copied and released.
    - Proc: allocation, fork, exit, wait and growth of proc.c.  Fork: fork and
      wait over memory, files and processes together.
    - Syscall: syscall.c, sysfile.c, sysproc.c.  Exec: exec.c, pe.h and
      sys_exec.  Load: the loading of an executable through the file system.
    - Trap: trap.c and the descriptor tables of mmu.h and vm.c.
    - Boot: kernel_main.c and the first user process.
    - User: ulib.c, over the class [Calls] of system calls.  Printf: printf.c.
      Umalloc: umalloc.c.  Shell: the parser of sh.c.  Run: the command
      interpreter and prompt loop of sh.c, init.c and echo.c as interaction
      trees over the system calls, and the machine on which the processes of a
      command run interleaved.

    ** How code corresponds to definitions

    A C function is a definition of the same name.  Integers are [Z]; every
    operation that can leave the range of its C type is followed by the
    conversion of that type ([u8], [u16], [u32], [i32]).  Pointers to entries
    of the kernel's tables (processes, files, buffers, processors) are indices,
    null is [None]; other pointers are addresses.  Arrays with a fixed place in
    a structure are lists, and an access outside is the outcome [Fault].
    Memory that is reached through addresses (pages, page tables, kernel
    stacks) is [kmem].  Early returns and error codes are the values returned;
    [panic] is the outcome [Panic].  Reads of arrays that the caller passes
    return the bytes; arrays on the stack that the code does not initialise are
    arguments, so that theorems hold for whatever they contain.

    A process that sleeps ends the computation with [Sleep] unless [resume]
    says how it gets the processor back; Disk instantiates [resume] with the
    scheduler loop and the disk interrupt, so that the theorems about reading
    files are about the whole path from the system call's callee to the ports
    of the disk and back.

    ** What the theorems show

    - Files and disk: a path is resolved, and a file read, exactly as the
      sectors of the disk say, with the kernel's own cache, driver and
      scheduler below (Files, Bio, Disk, Fat12Open); which buffer the cache
      chooses and how its list is kept (Bio); the order of disk requests
      (Disk); mounting and the decoding of the FAT (Fat12Dir, Fat12).
    - Locks and sleeping: mutual exclusion and the interrupt discipline under
      every interleaving of processors (Spinlock), no lost wakeup (Sched).
    - Resources: the page allocator neither loses nor duplicates pages
      (Kalloc), file structures are counted exactly (Files), pipes are FIFO
      channels that return their page (Pipe, Files).
    - Memory: page-table entries, growing a process and copying into it, on
      the bytes of the page tables (Vm); a copied address space has the same
      bytes in frames of its own, and a released one gives back exactly its
      pages (Space).
    - Processes: allocation on every path, exit (Proc); fork duplicates a
      process, and wait returns everything an exited child had (Fork); the first
      process and its registers (Boot).
    - System calls and programs: arguments are checked against the size of the
      process (Syscall); exec reads the sections of a program from the disk
      into a new address space (Load) and lays out its stack (Exec).
    - Interrupts: the descriptor tables, preemption (Trap), the line editor of
      the console and the terminal it draws (Console), scan codes (Kbd).
    - User space: the heap (Umalloc), printf and number conversion (Printf), the
      library (User), the grammar of the shell (Shell), and that a command
      line, under every interleaving of its processes, ends and has started the
      programs it denotes with the right descriptors (Run).
    - The string routines are what their names promise (CString, CArray).
    - The theorems with kind "error" and some functional ones describe what the
      code does where it differs from what it means to do (unloaded sectors of
      the FAT, reads past a sector buffer, truncated directories, overflowing
      path parts, disk errors that count as success).

    ** Bounds and fuel

    Loops whose number of rounds is known in advance recurse on it.  Loops over
    user-chosen lengths take that length as fuel, and the theorems show that it
    is enough ([readClusters], [growPages], [copyOut], [freeRange]).  Loops
    that wait for another party are bounded by the parameters [polls] (a device
    status that is polled) and [wakeups] (a process that is woken without
    finding what it waits for); running out of them is the outcome [Spin],
    never a result, and the theorems that promise a result show that it is
    reached within any positive bound or state the bound they need.

    ** What is not modelled

    Assembler (context switch, trap entry, boot sector and loader, the first
    user program), the task state segment except for its stack pointer, the
    call stacks recorded in locks, memory ordering between processors, and the
    prototypes of defs.h.  Run takes the system calls of a command at their
    documented meaning (the lowest free descriptor, a wait that returns when a
    child has ended); it does not go down to the definitions of Syscall.  There
    is no theorem about [exec] as a whole, from the path to the committed image:
    its parts (opening, sections, stack) are covered one by one.  The error
    paths of [fork] and of the page-table copy are modelled and not proved. *)

From Stdlib Require Export ZArith Lia.
From stdpp Require Export base list numbers strings gmap.

Declare Scope uodos_scope.
Delimit Scope uodos_scope with uodos.
Open Scope Z_scope.

(** * Machine integers

    Every C integer is a [Z] kept in the range of its type; each operation of
    the C code that can leave the range is followed by the conversion of the
    type it is performed in. *)

Definition u8 (z : Z) : Z := z mod 256.
Definition u16 (z : Z) : Z := z mod 65536.
Definition u32 (z : Z) : Z := z mod 4294967296.

Definition i8 (z : Z) : Z := (z + 128) mod 256 - 128.
Definition i32 (z : Z) : Z := (z + 2147483648) mod 4294967296 - 2147483648.

(** The value of a C condition. *)
Definition truth (b : bool) : Z := if b then 1 else 0.

(** * Outcomes and the kernel monad

    A computation over a state [S] returns a value, puts the calling process
    to sleep, calls [panic] (which never returns), touches memory outside the
    object it was given, or loops for ever. *)

Inductive outcome (S A : Type) : Type :=
| Ret (a : A) (s : S)
| Sleep (s : S)
| Panic (msg : string)
| Fault (why : string)
| Spin.

Arguments Ret {S A} a s.
Arguments Sleep {S A} s.
Arguments Panic {S A} msg.
Arguments Fault {S A} why.
Arguments Spin {S A}.

Definition M (S A : Type) : Type := S -> outcome S A.

#[export] Instance M_ret (S : Type) : MRet (M S) := fun A a s => Ret a s.

#[export] Instance M_bind (S : Type) : MBind (M S) := fun A B k c s =>
  match c s with
  | Ret a s' => k a s'
  | Sleep s' => Sleep s'
  | Panic msg => Panic msg
  | Fault why => Fault why
  | Spin => Spin
  end.

Definition panic {S A : Type} (msg : string) : M S A := fun _ => Panic msg.
Definition fault {S A : Type} (why : string) : M S A := fun _ => Fault why.
Definition spin {S A : Type} : M S A := fun _ => Spin.
Definition gets {S A : Type} (f : S -> A) : M S A := fun s => Ret (f s) s.
Definition puts {S : Type} (f : S -> S) : M S unit := fun s => Ret tt (f s).

(** An access that the C program makes without a check of its own: [None] is
    an access outside the object. *)
Definition checked {S A : Type} (why : string) (o : option A) : M S A :=
  match o with
  | Some a => mret a
  | None => fault why
  end.

(** [returns c s a s']: the computation [c] started in [s] returns [a] in
    [s']. *)
Definition returns {S A : Type} (c : M S A) (s : S) (a : A) (s' : S) : Prop :=
  c s = Ret a s'.

(** * C arrays as lists *)

Definition rd {A : Type} (l : list A) (i : Z) : option A :=
  if (0 <=? i) then l !! Z.to_nat i else None.

Definition wr {A : Type} (l : list A) (i : Z) (v : A) : option (list A) :=
  if (0 <=? i) && (i <? Z.of_nat (length l)) then Some (<[Z.to_nat i := v]> l) else None.

(** [n] elements of [l] from index [o] on; [None] if they are not all there. *)
Definition slice {A : Type} (l : list A) (o n : Z) : option (list A) :=
  if (0 <=? o) && (0 <=? n) && (o + n <=? Z.of_nat (length l))
  then Some (take (Z.to_nat n) (drop (Z.to_nat o) l)) else None.

Definition le16 (l : list Z) (o : nat) : Z :=
  nth o l 0 + 256 * nth (o + 1) l 0.

Definition le32 (l : list Z) (o : nat) : Z :=
  nth o l 0 + 256 * nth (o + 1) l 0 + 65536 * nth (o + 2) l 0 + 16777216 * nth (o + 3) l 0.

(** * Tactics and hints *)

Create HintDb uodos discriminated.

Ltac zdiv := Z.to_euclidean_division_equations; lia.

Ltac bdestr :=
  repeat match goal with
  | H : andb _ _ = true |- _ => apply andb_true_iff in H; destruct H
  | H : orb _ _ = false |- _ => apply orb_false_iff in H; destruct H
  | H : negb _ = true |- _ => apply negb_true_iff in H
  | H : negb _ = false |- _ => apply negb_false_iff in H
  | H : Z.eqb _ _ = true |- _ => apply Z.eqb_eq in H
  | H : Z.eqb _ _ = false |- _ => apply Z.eqb_neq in H
  | H : Z.ltb _ _ = true |- _ => apply Z.ltb_lt in H
  | H : Z.ltb _ _ = false |- _ => apply Z.ltb_ge in H
  | H : Z.leb _ _ = true |- _ => apply Z.leb_le in H
  | H : Z.leb _ _ = false |- _ => apply Z.leb_gt in H
  end.

(** * Integer lemmas *)

Lemma u8_range z : 0 <= u8 z < 256.
Proof. unfold u8. zdiv. Qed.

Lemma u32_range z : 0 <= u32 z < 4294967296.
Proof. unfold u32. zdiv. Qed.

Lemma u32_small z : 0 <= z < 4294967296 -> u32 z = z.
Proof. intros. unfold u32. apply Z.mod_small. lia. Qed.

Lemma u8_small z : 0 <= z < 256 -> u8 z = z.
Proof. intros. unfold u8. apply Z.mod_small. lia. Qed.

Lemma u16_small z : 0 <= z < 65536 -> u16 z = z.
Proof. intros. unfold u16. apply Z.mod_small. lia. Qed.

Lemma i32_small z : -2147483648 <= z < 2147483648 -> i32 z = z.
Proof. intros. unfold i32. rewrite Z.mod_small; lia. Qed.

Lemma i8_small z : -128 <= z < 128 -> i8 z = z.
Proof. intros. unfold i8. rewrite Z.mod_small; lia. Qed.

Lemma u32_u32 z : u32 (u32 z) = u32 z.
Proof. unfold u32. apply Z.mod_mod. lia. Qed.

Lemma u32_add_l a b : u32 (u32 a + b) = u32 (a + b).
Proof. unfold u32. apply Zplus_mod_idemp_l. Qed.

Lemma u32_add_r a b : u32 (a + u32 b) = u32 (a + b).
Proof. unfold u32. apply Zplus_mod_idemp_r. Qed.

Lemma u32_sub_l a b : u32 (u32 a - b) = u32 (a - b).
Proof. unfold u32. apply Zminus_mod_idemp_l. Qed.

Lemma u32_sub_r a b : u32 (a - u32 b) = u32 (a - b).
Proof. unfold u32. apply Zminus_mod_idemp_r. Qed.

Lemma i32_range z : -2147483648 <= i32 z < 2147483648.
Proof. unfold i32. zdiv. Qed.

Lemma i32_sub_l a b : i32 (i32 a - b) = i32 (a - b).
Proof.
  unfold i32. f_equal. replace ((a + 2147483648) mod 4294967296 - 2147483648 - b + 2147483648) with ((a + 2147483648) mod 4294967296 - b) by lia.
  rewrite Zminus_mod_idemp_l. f_equal. lia.
Qed.

Create Rewrite HintDb u32.
#[export] Hint Rewrite u32_u32 u32_add_l u32_add_r u32_sub_l u32_sub_r : u32.
#[export] Hint Resolve u8_range u32_range : uodos.

(** * Monad lemmas *)

Lemma bind_Ret {S A B : Type} (c : M S A) (k : A -> M S B) s a s' :
  c s = Ret a s' -> (c ≫= k) s = k a s'.
Proof. unfold mbind, M_bind. intros ->. reflexivity. Qed.

Lemma bind_Sleep {S A B : Type} (c : M S A) (k : A -> M S B) s s' :
  c s = Sleep s' -> (c ≫= k) s = Sleep s'.
Proof. unfold mbind, M_bind. intros ->. reflexivity. Qed.

Lemma bind_Panic {S A B : Type} (c : M S A) (k : A -> M S B) s msg :
  c s = Panic msg -> (c ≫= k) s = Panic msg.
Proof. unfold mbind, M_bind. intros ->. reflexivity. Qed.

Lemma bind_mret {S A B : Type} (a : A) (k : A -> M S B) s : (mret a ≫= k) s = k a s.
Proof. reflexivity. Qed.

Lemma bind_gets {S A B : Type} (f : S -> A) (k : A -> M S B) s : (gets f ≫= k) s = k (f s) s.
Proof. reflexivity. Qed.

Lemma bind_puts {S B : Type} (f : S -> S) (k : unit -> M S B) s : (puts f ≫= k) s = k tt (f s).
Proof. reflexivity. Qed.

Lemma bind_checked {S A B : Type} why (a : A) (k : A -> M S B) s :
  (checked why (Some a) ≫= k) s = k a s.
Proof. reflexivity. Qed.

Create Rewrite HintDb monad.
#[export] Hint Rewrite @bind_mret @bind_gets @bind_puts @bind_checked : monad.

Lemma bind_Ret_inv {S A B : Type} (c : M S A) (k : A -> M S B) s b s2 :
  (c ≫= k) s = Ret b s2 -> exists a s1, c s = Ret a s1 /\ k a s1 = Ret b s2.
Proof. unfold mbind, M_bind. destruct (c s); naive_solver. Qed.

Lemma bind_assoc {S A B C : Type} (c : M S A) (f : A -> M S B) (g : B -> M S C) s :
  ((c ≫= f) ≫= g) s = (c ≫= fun a => f a ≫= g) s.
Proof. unfold mbind, M_bind. destruct (c s); reflexivity. Qed.

(** * Array lemmas *)

Lemma rd_Some {A} (l : list A) i v :
  rd l i = Some v <-> 0 <= i /\ l !! Z.to_nat i = Some v.
Proof. unfold rd. destruct (Z.leb_spec 0 i); naive_solver lia. Qed.

Lemma rd_lt {A} (l : list A) i v : rd l i = Some v -> 0 <= i < Z.of_nat (length l).
Proof. intros [? H%lookup_lt_Some]%rd_Some. lia. Qed.

Lemma rd_app_l {A} (l k : list A) i : i < Z.of_nat (length l) -> rd (l ++ k) i = rd l i.
Proof.
  intros. unfold rd. destruct (Z.leb_spec 0 i); [|done].
  apply lookup_app_l. lia.
Qed.

Lemma rd_app_r {A} (l k : list A) i :
  Z.of_nat (length l) <= i -> rd (l ++ k) i = rd k (i - Z.of_nat (length l)).
Proof.
  intros. unfold rd. rewrite (proj2 (Z.leb_le 0 i)), (proj2 (Z.leb_le 0 _)) by lia.
  rewrite lookup_app_r by lia. f_equal. lia.
Qed.

Lemma wr_Some {A} (l : list A) i v :
  0 <= i < Z.of_nat (length l) -> wr l i v = Some (<[Z.to_nat i := v]> l).
Proof. intros. unfold wr. destruct (Z.leb_spec 0 i), (Z.ltb_spec i (Z.of_nat (length l))); naive_solver lia. Qed.

Lemma wr_length {A} (l l' : list A) i v : wr l i v = Some l' -> length l' = length l.
Proof. unfold wr. case_match; [|done]. intros [= <-]. apply length_insert. Qed.

Lemma slice_Some {A} (l : list A) o n :
  0 <= o -> 0 <= n -> o + n <= Z.of_nat (length l) ->
  slice l o n = Some (take (Z.to_nat n) (drop (Z.to_nat o) l)).
Proof.
  intros. unfold slice.
  rewrite (proj2 (Z.leb_le 0 o)), (proj2 (Z.leb_le 0 n)), (proj2 (Z.leb_le (o + n) _)) by lia.
  reflexivity.
Qed.

Lemma slice_None {A} (l : list A) o n :
  0 <= o -> Z.of_nat (length l) < o + n -> slice l o n = None.
Proof.
  intros. unfold slice. rewrite (proj2 (Z.leb_gt (o + n) _)) by lia.
  rewrite andb_false_r. reflexivity.
Qed.

Lemma slice_length {A} (l k : list A) o n :
  slice l o n = Some k -> Z.of_nat (length k) = n.
Proof.
  unfold slice. case_match eqn:E; [|done]. intros [= <-]. bdestr.
  rewrite length_take, length_drop. lia.
Qed.
