(* ===== verification/CString.v ===== *)
(** string.c: the kernel's memory and string routines, on a byte-addressed
    32-bit memory.  The string instructions [rep stosb] and [rep stosl] of
    x86.h are the loops they execute.  Every routine that returns its
    destination pointer returns the new memory here. *)

From S2P Require Import Prelude.

(** A memory maps an address to the byte it holds. *)
Definition mem : Type := Z -> Z.

Definition upd (m : mem) (a v : Z) : mem := fun x => if x =? a then v else m x.

(** Pointer arithmetic on 32-bit addresses. *)
Definition padd (p k : Z) : Z := u32 (p + k).

Definition store32 (m : mem) (a w : Z) : mem :=
  upd (upd (upd (upd m a (u8 w)) (padd a 1) (u8 (Z.shiftr w 8)))
    (padd a 2) (u8 (Z.shiftr w 16))) (padd a 3) (u8 (Z.shiftr w 24)).

Definition load32 (m : mem) (a : Z) : Z :=
  m a + 256 * m (padd a 1) + 65536 * m (padd a 2) + 16777216 * m (padd a 3).

(** * The string instructions (x86.h) *)

Fixpoint storeSequenceOfBytes (m : mem) (addr data : Z) (cnt : nat) : mem :=
  match cnt with
  | O => m
  | S cnt => storeSequenceOfBytes (upd m addr (u8 data)) (padd addr 1) data cnt
  end.

Fixpoint storeSequenceOfDwords (m : mem) (addr data : Z) (cnt : nat) : mem :=
  match cnt with
  | O => m
  | S cnt => storeSequenceOfDwords (store32 m addr data) (padd addr 4) data cnt
  end.

(** * Blocks of memory *)

Definition memset (m : mem) (dst c n : Z) : mem :=
  if (Z.rem (i32 dst) 4 =? 0) && (n mod 4 =? 0) then
    let c := Z.land c 255 in
    storeSequenceOfDwords m dst
      (u32 (Z.lor (Z.lor (Z.lor (Z.shiftl c 24) (Z.shiftl c 16)) (Z.shiftl c 8)) c))
      (Z.to_nat (n / 4))
  else storeSequenceOfBytes m dst c (Z.to_nat n).

Fixpoint memcmp_loop (m : mem) (s1 s2 : Z) (n : nat) : Z :=
  match n with
  | O => 0
  | S n => if negb (m s1 =? m s2) then m s1 - m s2
           else memcmp_loop m (padd s1 1) (padd s2 1) n
  end.

Definition memcmp (m : mem) (v1 v2 n : Z) : Z := memcmp_loop m v1 v2 (Z.to_nat n).

(** The two loops of [memmove]: from the last byte down, and from the first
    byte up. *)
Fixpoint memmove_down (m : mem) (d s : Z) (n : nat) : mem :=
  match n with
  | O => m
  | S n => let d := padd d (-1) in let s := padd s (-1) in memmove_down (upd m d (m s)) d s n
  end.

Fixpoint memmove_up (m : mem) (d s : Z) (n : nat) : mem :=
  match n with
  | O => m
  | S n => memmove_up (upd m d (m s)) (padd d 1) (padd s 1) n
  end.

Definition memmove (m : mem) (dst src n : Z) : mem :=
  if (src <? dst) && (padd src n >? dst)
  then memmove_down m (padd dst n) (padd src n) (Z.to_nat n)
  else memmove_up m dst src (Z.to_nat n).

Definition memcpy (m : mem) (dst src n : Z) : mem := memmove m dst src n.

(** * Strings *)

Fixpoint strncmp_loop (m : mem) (p q : Z) (n : nat) : Z :=
  match n with
  | O => 0
  | S n' => if negb (m p =? 0) && (m p =? m q) then strncmp_loop m (padd p 1) (padd q 1) n'
            else m p - m q
  end.

Definition strncmp (m : mem) (p q n : Z) : Z := strncmp_loop m p q (Z.to_nat n).

Fixpoint strncpy_pad (m : mem) (s : Z) (n : nat) : mem :=
  match n with
  | O => m
  | S n => strncpy_pad (upd m s 0) (padd s 1) n
  end.

Fixpoint strncpy_loop (m : mem) (s t : Z) (n : nat) : mem :=
  match n with
  | O => m
  | S n => let m' := upd m s (m t) in
           if negb (m t =? 0) then strncpy_loop m' (padd s 1) (padd t 1) n
           else strncpy_pad m' (padd s 1) n
  end.

Definition strncpy (m : mem) (s t n : Z) : mem := strncpy_loop m s t (Z.to_nat n).

(** [n] is the counter before the loop's [--n]. *)
Fixpoint safestrcpy_loop (m : mem) (s t : Z) (n : nat) : mem :=
  match n with
  | S (S _ as n) => let m' := upd m s (m t) in
                    if negb (m t =? 0) then safestrcpy_loop m' (padd s 1) (padd t 1) n
                    else upd m' (padd s 1) 0
  | _ => upd m s 0
  end.

Definition safestrcpy (m : mem) (s t n : Z) : mem :=
  if n <=? 0 then m else safestrcpy_loop m s t (Z.to_nat n).

(** The loops below stop at a NUL byte, so they take the number of steps they
    may run; [None] says that the steps were used up. *)
Fixpoint strlen_loop (fuel : nat) (m : mem) (s n : Z) : option Z :=
  match fuel with
  | O => None
  | S fuel => if negb (m (padd s n) =? 0) then strlen_loop fuel m s (i32 (n + 1)) else Some n
  end.

Definition strlen (fuel : nat) (m : mem) (s : Z) : option Z := strlen_loop fuel m s 0.

Fixpoint strcmp_loop (fuel : nat) (m : mem) (str1 str2 : Z) : option Z :=
  match fuel with
  | O => None
  | S fuel =>
      let result := m str1 - m str2 in
      if (result =? 0) && negb (m str2 =? 0)
      then strcmp_loop fuel m (padd str1 1) (padd str2 1)
      else Some result
  end.

Definition strcmp (fuel : nat) (m : mem) (str1 str2 : Z) : option Z :=
  result ← strcmp_loop fuel m str1 str2;
  let result := if result <? 0 then -1 else result in
  let result := if result >? 0 then 1 else result in
  Some result.

Fixpoint strcpy (fuel : nat) (m : mem) (destination source : Z) : option mem :=
  match fuel with
  | O => None
  | S fuel =>
      let m' := upd m destination (m source) in
      if negb (m source =? 0) then strcpy fuel m' (padd destination 1) (padd source 1)
      else Some m'
  end.

(** [Some 0] is the null pointer: the character does not occur. *)
Fixpoint strchr (fuel : nat) (m : mem) (str character : Z) : option Z :=
  match fuel with
  | O => None
  | S fuel =>
      if i8 (m str) =? character then Some str
      else if negb (m str =? 0) then strchr fuel m (padd str 1) character
      else Some 0
  end.

(** * Strings in memory *)

(** The bytes [s] are stored from [p] on, without reaching the end of the
    address space. *)
Definition stored (m : mem) (p : Z) (s : list Z) : Prop :=
  0 <= p /\ p + Z.of_nat (length s) <= 4294967296 /\
  forall (i : nat) c, s !! i = Some c -> m (p + Z.of_nat i) = c.

(** A string: bytes other than NUL. *)
Definition nonul (s : list Z) : Prop := Forall (fun c => 0 < c < 256) s.

Definition cstring (m : mem) (p : Z) (s : list Z) : Prop :=
  stored m p (s ++ [0]) /\ nonul s.

(** Lexicographic comparison of two strings: the meaning of [strcmp]. *)
Fixpoint lexcmp (a b : list Z) : Z :=
  match a, b with
  | [], [] => 0
  | [], _ :: _ => -1
  | _ :: _, [] => 1
  | x :: a, y :: b => if x <? y then -1 else if y <? x then 1 else lexcmp a b
  end.

(** * Lemmas *)

Lemma padd_small p k : 0 <= p + k < 4294967296 -> padd p k = p + k.
Proof. apply u32_small. Qed.

Lemma upd_eq m a v : upd m a v a = v.
Proof. unfold upd. rewrite Z.eqb_refl. done. Qed.

Lemma upd_ne m a v x : x <> a -> upd m a v x = m x.
Proof. unfold upd. intros. rewrite (proj2 (Z.eqb_neq x a)); done. Qed.

Lemma storeSequenceOfBytes_spec n : forall m d c a,
  0 <= d -> d + Z.of_nat n <= 4294967296 ->
  storeSequenceOfBytes m d c n a =
    if (d <=? a) && (a <? d + Z.of_nat n) then u8 c else m a.
Proof.
  induction n as [|n IH]; intros m d c a Hd Hn; cbn [storeSequenceOfBytes].
  - destruct (Z.leb_spec d a), (Z.ltb_spec a (d + Z.of_nat 0)); simpl; lia || done.
  - destruct n as [|n'].
    { cbn [storeSequenceOfBytes]. unfold upd.
      destruct (Z.eqb_spec a d), (Z.leb_spec d a), (Z.ltb_spec a (d + Z.of_nat 1)); simpl; lia || done. }
    rewrite padd_small by lia. rewrite IH by lia. unfold upd.
    destruct (Z.eqb_spec a d), (Z.leb_spec d a), (Z.leb_spec (d + 1) a),
      (Z.ltb_spec a (d + Z.of_nat (S (S n')))), (Z.ltb_spec a (d + 1 + Z.of_nat (S n')));
      simpl; lia || done.
Qed.

(** Case analysis on the range tests of the specifications. *)
Ltac ranges :=
  repeat match goal with
  | |- context [Z.leb ?a ?b] => destruct (Z.leb_spec a b)
  | |- context [Z.ltb ?a ?b] => destruct (Z.ltb_spec a b)
  | |- context [Z.eqb ?a ?b] => destruct (Z.eqb_spec a b)
  end; cbn [andb]; try lia; try reflexivity.

(** All four bytes stored by [store32] of a repeated byte are that byte. *)
Lemma store32_spec m a w x :
  0 <= a -> a + 4 <= 4294967296 ->
  (forall k, 0 <= k < 4 -> u8 (Z.shiftr w (8 * k)) = u8 w) ->
  store32 m a w x = if (a <=? x) && (x <? a + 4) then u8 w else m x.
Proof.
  intros Ha Hb Hw. unfold store32. rewrite !padd_small by lia.
  pose proof (Hw 1 ltac:(lia)) as H1. pose proof (Hw 2 ltac:(lia)) as H2.
  pose proof (Hw 3 ltac:(lia)) as H3.
  change (8 * 1) with 8 in H1. change (8 * 2) with 16 in H2. change (8 * 3) with 24 in H3.
  rewrite H1, H2, H3. unfold upd. ranges.
Qed.

Lemma storeSequenceOfDwords_spec n : forall m d w a,
  0 <= d -> d + 4 * Z.of_nat n <= 4294967296 ->
  (forall k, 0 <= k < 4 -> u8 (Z.shiftr w (8 * k)) = u8 w) ->
  storeSequenceOfDwords m d w n a =
    if (d <=? a) && (a <? d + 4 * Z.of_nat n) then u8 w else m a.
Proof.
  induction n as [|n IH]; intros m d w a Hd Hn Hw; cbn [storeSequenceOfDwords].
  - ranges.
  - destruct n as [|n'].
    { cbn [storeSequenceOfDwords]. rewrite store32_spec by (done || lia). ranges. }
    rewrite padd_small by lia. rewrite IH by (done || lia).
    rewrite store32_spec by (done || lia). ranges.
Qed.

(** The word that [memset] stores repeats the byte. *)
Lemma memset_word c k :
  0 <= c < 256 -> 0 <= k < 4 ->
  u8 (Z.shiftr (u32 (Z.lor (Z.lor (Z.lor (Z.shiftl c 24) (Z.shiftl c 16)) (Z.shiftl c 8)) c)) (8 * k)) = c.
Proof.
  intros Hc Hk.
  assert (Hb : forall i, 8 <= i -> Z.testbit c i = false).
  { intros i Hi. destruct (Z.eq_dec c 0) as [->|]; [apply Z.bits_0|].
    apply Z.bits_above_log2; [lia|]. enough (Z.log2 c < 8) by lia.
    apply Z.log2_lt_pow2; lia. }
  unfold u8, u32. change 256 with (2 ^ 8). change 4294967296 with (2 ^ 32).
  apply Z.bits_inj'. intros i Hi.
  destruct (Z.lt_ge_cases i 8) as [Hi8|Hi8].
  - rewrite Z.mod_pow2_bits_low, Z.shiftr_spec, Z.mod_pow2_bits_low by lia.
    rewrite !Z.lor_spec, !Z.shiftl_spec by lia.
    assert (Hcase : k = 0 \/ k = 1 \/ k = 2 \/ k = 3) by lia.
    destruct Hcase as [->|[->|[->| ->]]].
    + rewrite !Z.testbit_neg_r by lia. rewrite !orb_false_l. f_equal. lia.
    + rewrite !(Z.testbit_neg_r c (i + 8 * 1 - 24)), !(Z.testbit_neg_r c (i + 8 * 1 - 16)) by lia.
      rewrite (Hb (i + 8 * 1)) by lia. rewrite orb_false_r. cbn [orb]. f_equal. lia.
    + rewrite !(Z.testbit_neg_r c (i + 8 * 2 - 24)) by lia.
      rewrite (Hb (i + 8 * 2)), (Hb (i + 8 * 2 - 8)) by lia. rewrite !orb_false_r. cbn [orb]. f_equal. lia.
    + rewrite (Hb (i + 8 * 3)), (Hb (i + 8 * 3 - 8)), (Hb (i + 8 * 3 - 16)) by lia.
      rewrite !orb_false_r. f_equal. lia.
  - rewrite Z.mod_pow2_bits_high, Hb by lia. done.
Qed.

Lemma u8_land c : u8 (Z.land c 255) = u8 c.
Proof.
  unfold u8. change 255 with (Z.ones 8). rewrite Z.land_ones by lia.
  change (2 ^ 8) with 256. apply Z.mod_mod. lia.
Qed.

Lemma land_byte c : 0 <= Z.land c 255 < 256.
Proof. change 255 with (Z.ones 8). rewrite Z.land_ones by lia. change (2 ^ 8) with 256. zdiv. Qed.

Lemma memset_fill m dst c n a :
  0 <= dst -> 0 <= n -> dst + n <= 4294967296 ->
  memset m dst c n a = if (dst <=? a) && (a <? dst + n) then u8 c else m a.
Proof.
  intros Hd Hn Hs. unfold memset.
  destruct ((Z.rem (i32 dst) 4 =? 0) && (n mod 4 =? 0)) eqn:E.
  - bdestr. cbv zeta.
    assert (Hw : forall k, 0 <= k < 4 -> _) by exact (fun k => memset_word _ k (land_byte c)).
    pose proof (Hw 0 ltac:(lia)) as H0'. change (8 * 0) with 0 in H0'. rewrite Z.shiftr_0_r in H0'.
    rewrite storeSequenceOfDwords_spec; [|lia|zdiv|].
    + rewrite H0'. rewrite <- (u8_small (Z.land c 255)) by apply land_byte. rewrite u8_land.
      replace (4 * Z.of_nat (Z.to_nat (n / 4))) with n by zdiv. done.
    + intros k Hk. rewrite Hw, H0' by lia. done.
  - rewrite storeSequenceOfBytes_spec, Z2Nat.id by lia. done.
Qed.

Lemma memmove_up_spec n : forall m d s a,
  0 <= d -> d + Z.of_nat n <= 4294967296 -> 0 <= s -> s + Z.of_nat n <= 4294967296 ->
  d <= s \/ s + Z.of_nat n <= d ->
  memmove_up m d s n a = if (d <=? a) && (a <? d + Z.of_nat n) then m (s + (a - d)) else m a.
Proof.
  induction n as [|n IH]; intros m d s a Hd Hdn Hs Hsn Hov; cbn [memmove_up].
  - ranges.
  - destruct n as [|n'].
    { cbn [memmove_up]. unfold upd. ranges. subst. f_equal. lia. }
    rewrite !padd_small by lia. rewrite IH by lia.
    unfold upd. ranges; subst; f_equal; lia.
Qed.

Lemma memmove_down_spec n : forall m d s a,
  0 <= d -> d + Z.of_nat n < 4294967296 -> 0 <= s -> s <= d ->
  memmove_down m (d + Z.of_nat n) (s + Z.of_nat n) n a =
    if (d <=? a) && (a <? d + Z.of_nat n) then m (s + (a - d)) else m a.
Proof.
  induction n as [|n IH]; intros m d s a Hd Hdn Hs Hov; cbn [memmove_down].
  - ranges.
  - rewrite !padd_small by lia. cbv zeta.
    replace (d + Z.of_nat (S n) + -1) with (d + Z.of_nat n) by lia.
    replace (s + Z.of_nat (S n) + -1) with (s + Z.of_nat n) by lia.
    rewrite IH by lia. unfold upd. ranges; subst; f_equal; lia.
Qed.

(** ** Strings in memory *)

Lemma stored_cons m p c s :
  stored m p (c :: s) <->
  0 <= p /\ m p = c /\ p + 1 + Z.of_nat (length s) <= 4294967296 /\ stored m (p + 1) s.
Proof.
  unfold stored. cbn [length]. split.
  - intros (Hp & Hl & H). repeat split; try lia.
    + rewrite <- (H 0%nat c eq_refl). f_equal. lia.
    + intros i x Hi. rewrite <- (H (S i) x Hi). f_equal. lia.
  - intros (Hp & Hc & Hl & _ & _ & H). repeat split; try lia.
    intros [|i] x Hi; simplify_eq/=; [f_equal; lia|].
    rewrite <- (H i x Hi). f_equal. lia.
Qed.

Lemma stored_frame m m' p s :
  stored m p s -> (forall a, p <= a < p + Z.of_nat (length s) -> m' a = m a) -> stored m' p s.
Proof.
  intros (? & ? & H) Hf. split; [done|split; [done|]].
  intros i c Hi. rewrite Hf; [by apply H|]. apply lookup_lt_Some in Hi. lia.
Qed.

Lemma cstring_nil m p : cstring m p [] <-> 0 <= p < 4294967296 /\ m p = 0.
Proof.
  unfold cstring. cbn [app]. rewrite stored_cons. unfold stored, nonul. cbn [length].
  split; [intros; lia|]. intros []. repeat split; try lia; [|constructor]. intros i c Hi. done.
Qed.

Lemma cstring_cons m p c s :
  cstring m p (c :: s) <->
  0 <= p /\ 0 < c < 256 /\ m p = c /\ p + 1 < 4294967296 /\ cstring m (p + 1) s.
Proof.
  unfold cstring, nonul. cbn [app]. rewrite stored_cons, Forall_cons, length_app. cbn [length].
  split; [intros ((? & ? & ? & ?) & ? & ?); split_and!; (done || lia)|].
  intros (? & ? & ? & ? & Hs & ?). pose proof Hs as (_ & Hl & _). rewrite length_app in Hl.
  cbn [length] in Hl. split_and!; (done || lia).
Qed.

Lemma cstring_frame m m' p s :
  cstring m p s -> (forall a, p <= a < p + Z.of_nat (length s) + 1 -> m' a = m a) -> cstring m' p s.
Proof.
  intros [H ?] Hf. split; [|done]. apply (stored_frame m); [done|].
  intros a. rewrite length_app. cbn [length]. intros. apply Hf. lia.
Qed.

Lemma cstring_bound m p s : cstring m p s -> 0 <= p /\ p + Z.of_nat (length s) < 4294967296.
Proof. intros [(? & ? & ?) _]. rewrite length_app in *. cbn [length] in *. lia. Qed.

(** Splitting a string hypothesis along the string it stores. *)
Ltac cstring_inv :=
  repeat match goal with
  | H : cstring _ _ [] |- _ => apply cstring_nil in H as [? ?]
  | H : cstring _ _ (_ :: _) |- _ => apply cstring_cons in H as (? & ? & ? & ? & ?)
  end.

Lemma strlen_loop_spec s : forall fuel m p n,
  cstring m (p + n) s -> (length s < fuel)%nat -> 0 <= n -> n + Z.of_nat (length s) < 2147483648 ->
  strlen_loop fuel m p n = Some (n + Z.of_nat (length s)).
Proof.
  induction s as [|c s IH]; intros [|fuel] m p n Hs Hf Hn Hl; cbn [length] in *; try lia;
    cbn [strlen_loop]; pose proof (cstring_bound _ _ _ Hs) as [??];
    rewrite padd_small by (cbn [length] in *; lia); cstring_inv.
  - rewrite (proj2 (Z.eqb_eq _ _)) by done. f_equal. lia.
  - rewrite (proj2 (Z.eqb_neq _ _)) by lia. rewrite i32_small by lia.
    rewrite IH; [f_equal; lia| |lia|lia|lia]. by rewrite Z.add_assoc.
Qed.

Lemma strcmp_loop_spec a : forall b fuel m p q,
  cstring m p a -> cstring m q b -> (length a < fuel)%nat ->
  exists r, strcmp_loop fuel m p q = Some r /\ Z.sgn r = lexcmp a b.
Proof.
  induction a as [|x a IH]; intros [|y b] [|fuel] m p q Ha Hb Hf; cbn [length] in *; try lia;
    cstring_inv; cbn [strcmp_loop lexcmp].
  - replace (m p - m q =? 0) with true by (symmetry; apply Z.eqb_eq; lia).
    replace (m q =? 0) with true by (symmetry; apply Z.eqb_eq; lia).
    eexists; split; [done|]. replace (m p - m q) with 0 by lia. done.
  - rewrite (proj2 (Z.eqb_neq _ _)) by lia. eexists; split; [done|]. apply Z.sgn_neg. lia.
  - rewrite (proj2 (Z.eqb_neq _ _)) by lia. eexists; split; [done|]. apply Z.sgn_pos. lia.
  - destruct (Z.ltb_spec x y), (Z.ltb_spec y x); try lia.
    + rewrite (proj2 (Z.eqb_neq _ _)) by lia. eexists; split; [done|]. apply Z.sgn_neg. lia.
    + rewrite (proj2 (Z.eqb_neq _ _)) by lia. eexists; split; [done|]. apply Z.sgn_pos. lia.
    + rewrite (proj2 (Z.eqb_eq (m p - m q) 0)), (proj2 (Z.eqb_neq (m q) 0)) by lia. cbn [andb negb].
      rewrite !padd_small by lia. apply IH; [done..|lia].
Qed.

Lemma strcpy_spec s : forall fuel m d p,
  cstring m p s -> (length s < fuel)%nat ->
  0 <= d -> d + Z.of_nat (length s) < 4294967296 ->
  d + Z.of_nat (length s) + 1 <= p \/ p + Z.of_nat (length s) + 1 <= d ->
  exists m', strcpy fuel m d p = Some m' /\ cstring m' d s /\
    forall a, ~ (d <= a <= d + Z.of_nat (length s)) -> m' a = m a.
Proof.
  induction s as [|c s IH]; intros [|fuel] m d p Hs Hf Hd Hl Hdis; cbn [length] in *; try lia;
    cstring_inv; cbn [strcpy].
  - rewrite (proj2 (Z.eqb_eq _ _)) by done. eexists; split; [done|]. split.
    + apply cstring_nil. rewrite upd_eq. lia.
    + intros. apply upd_ne. lia.
  - rewrite (proj2 (Z.eqb_neq _ _)) by lia. cbn [negb]. rewrite !padd_small by lia.
    destruct (IH fuel (upd m d (m p)) (d + 1) (p + 1)) as (m' & -> & Hs' & Hf'); try lia.
    { eapply cstring_frame; [done|]. intros. apply upd_ne. lia. }
    eexists; split; [done|]. split.
    + apply cstring_cons. rewrite Hf', upd_eq by lia. split_and!; (done || lia).
    + intros a Ha. rewrite Hf' by lia. apply upd_ne. lia.
Qed.

Lemma safestrcpy_loop_spec n : forall str m s t,
  cstring m t str -> 0 <= s -> s + Z.of_nat (S n) <= 4294967296 ->
  s + Z.of_nat (S n) <= t \/ t + Z.of_nat (length str) + 1 <= s ->
  cstring (safestrcpy_loop m s t (S n)) s (take n str) /\
  forall a, ~ (s <= a < s + Z.of_nat (S n)) -> safestrcpy_loop m s t (S n) a = m a.
Proof.
  induction n as [|n IH]; intros str m s t Hs H0 Hl Hdis.
  - cbn [safestrcpy_loop]. rewrite take_0, cstring_nil, upd_eq. split; [lia|].
    intros. apply upd_ne. lia.
  - cbn [safestrcpy_loop]. destruct str as [|c str]; cstring_inv.
    + rewrite (proj2 (Z.eqb_eq _ _)) by done. cbn [negb take]. rewrite !padd_small by lia. split.
      * apply cstring_nil. rewrite upd_ne, upd_eq by lia. lia.
      * intros. rewrite !upd_ne by lia. done.
    + rewrite (proj2 (Z.eqb_neq _ _)) by lia. cbn [negb take length] in *. rewrite !padd_small by lia.
      destruct (IH str (upd m s (m t)) (s + 1) (t + 1)) as [Hs' Hf']; try lia.
      { eapply cstring_frame; [done|]. intros. apply upd_ne. lia. }
      split.
      * apply cstring_cons. rewrite Hf', upd_eq by lia. split_and!; (done || lia).
      * intros a Ha. rewrite Hf' by lia. apply upd_ne. lia.
Qed.

Lemma strchr_spec s : forall fuel m p ch,
  cstring m p s -> (length s < fuel)%nat -> 0 < ch < 128 ->
  strchr fuel m p ch =
    match list_find (fun c => c = ch) s with
    | Some (i, _) => Some (p + Z.of_nat i)
    | None => Some 0
    end.
Proof.
  induction s as [|c s IH]; intros [|fuel] m p ch Hs Hf Hch; cbn [length] in *; try lia;
    cstring_inv; cbn [strchr list_find].
  - match goal with H : m p = 0 |- _ => rewrite H end.
    rewrite (proj2 (Z.eqb_neq (i8 0) ch)) by (change (i8 0) with 0; lia). done.
  - case_decide as Hc.
    + rewrite (proj2 (Z.eqb_eq _ _)); [f_equal; lia|]. rewrite i8_small by lia. lia.
    + rewrite (proj2 (Z.eqb_neq _ _)).
      2: { unfold i8. zdiv. }
      rewrite (proj2 (Z.eqb_neq _ _)) by lia. cbn [negb]. rewrite padd_small by lia.
      rewrite IH by (done || lia). destruct (list_find _ s) as [[i ?]|]; simpl; f_equal; lia.
Qed.

Lemma memcmp_loop_zero n : forall m p q,
  0 <= p -> p + Z.of_nat n <= 4294967296 -> 0 <= q -> q + Z.of_nat n <= 4294967296 ->
  memcmp_loop m p q n = 0 <-> forall k, 0 <= k < Z.of_nat n -> m (p + k) = m (q + k).
Proof.
  induction n as [|n IH]; intros m p q Hp Hpn Hq Hqn; cbn [memcmp_loop]; [split; intros; (done || lia)|].
  destruct (Z.eqb_spec (m p) (m q)) as [E|E]; cbn [negb].
  - destruct n as [|n'].
    { split; [|done]. intros _ k Hk. by replace k with 0 by lia; rewrite !Z.add_0_r. }
    rewrite !padd_small by lia. rewrite IH by lia. split.
    + intros H k Hk. destruct (Z.eq_dec k 0) as [->|]; [by rewrite !Z.add_0_r|].
      specialize (H (k - 1) ltac:(lia)).
      by replace (p + 1 + (k - 1)) with (p + k) in H by lia; replace (q + 1 + (k - 1)) with (q + k) in H by lia.
    + intros H k Hk. rewrite <- !Z.add_assoc. apply H. lia.
  - split; [lia|]. intros H. specialize (H 0 ltac:(lia)). rewrite !Z.add_0_r in H. lia.
Qed.

(** * Words in memory *)

Lemma load32_store32 m p w : 0 <= p -> p + 4 <= 4294967296 -> 0 <= w < 4294967296 -> load32 (store32 m p w) p = w.
Proof.
  intros Hp Hr Hw. unfold load32, store32. rewrite !padd_small by lia. unfold upd.
  rewrite !Z.eqb_refl.
  rewrite (proj2 (Z.eqb_neq p (p + 3))), (proj2 (Z.eqb_neq p (p + 2))), (proj2 (Z.eqb_neq p (p + 1))) by lia.
  rewrite (proj2 (Z.eqb_neq (p + 1) (p + 3))), (proj2 (Z.eqb_neq (p + 1) (p + 2))), (proj2 (Z.eqb_neq (p + 2) (p + 3))) by lia.
  unfold u8. rewrite !Z.shiftr_div_pow2 by lia.
  change (2 ^ 8) with 256. change (2 ^ 16) with 65536. change (2 ^ 24) with 16777216. zdiv.
Qed.

Lemma store32_outside m p w a : 0 <= p -> p + 4 <= 4294967296 -> ~ (p <= a < p + 4) -> store32 m p w a = m a.
Proof. intros Hp Hr Ha. unfold store32. rewrite !padd_small by lia. by rewrite !upd_ne by lia. Qed.

Definition mem_bytes (m : mem) : Prop := forall a, 0 <= m a < 256.

Lemma store32_bytes m a w : mem_bytes m -> mem_bytes (store32 m a w).
Proof. intros Hm x. unfold store32, upd. repeat case_match; try apply u8_range. apply Hm. Qed.

Lemma load32_range m a : mem_bytes m -> 0 <= load32 m a < 4294967296.
Proof.
  intros Hm. unfold load32. pose proof (Hm a). pose proof (Hm (padd a 1)). pose proof (Hm (padd a 2)). pose proof (Hm (padd a 3)). lia.
Qed.

Lemma store32_out m a w x : 0 <= a -> a + 4 <= 4294967296 -> ~ (a <= x < a + 4) -> store32 m a w x = m x.
Proof. intros. by rewrite store32_outside by lia. Qed.

Lemma load32_store32_other m a b w : 0 <= a -> a + 4 <= 4294967296 -> 0 <= b -> b + 4 <= 4294967296 ->
  a + 4 <= b \/ b + 4 <= a -> load32 (store32 m a w) b = load32 m b.
Proof. intros. unfold load32. rewrite !padd_small by lia. by rewrite !store32_out by lia. Qed.

Lemma load32_same m m' p : 0 <= p -> p + 4 <= 4294967296 -> (forall a, p <= a < p + 4 -> m' a = m a) -> load32 m' p = load32 m p.
Proof. intros Hp Hr Hm. unfold load32. by rewrite !padd_small, !Hm by lia. Qed.

(** * Properties *)

(** [memmove] of a block. *)
Lemma memmove_block m dst src n a :
  0 <= dst -> 0 <= src -> 0 <= n -> dst + n < 4294967296 -> src + n < 4294967296 ->
  memmove m dst src n a =
    if (dst <=? a) && (a <? dst + n) then m (src + (a - dst)) else m a.
Proof.
  intros Hd Hs Hn Hdn Hsn. unfold memmove. rewrite !padd_small, Z.gtb_ltb by lia.
  pose proof (Z2Nat.id n Hn) as E.
  destruct ((src <? dst) && (dst <? src + n)) eqn:Ho.
  - bdestr. rewrite <- E at 1 2. rewrite memmove_down_spec, E by lia. done.
  - rewrite memmove_up_spec, E; [done|lia..|].
    apply andb_false_iff in Ho as [Ho|Ho]; bdestr; lia.
Qed.

(** [memmove] copies: whatever the overlap of the two blocks, every byte
    of the destination block ends up with the byte the source block held
    before the call, and no byte outside the destination block changes. *)
Theorem memmove_copies m dst src n a :
  0 <= dst -> 0 <= src -> 0 <= n -> dst + n < 4294967296 -> src + n < 4294967296 ->
  memmove m dst src n a =
    if (dst <=? a) && (a <? dst + n) then m (src + (a - dst)) else m a.
Proof. apply memmove_block. Qed.

(** An overlapping move, one byte up: the copy has to run downwards. *)
Lemma memmove_copies_witness :
  memmove (fun a => a) 101 100 4 104 = 103.
Proof. rewrite (memmove_copies (fun a => a) 101 100 4 104) by lia. reflexivity. Defined.

(** [safestrcpy] with a positive size leaves the longest prefix that
    fits, always NUL-terminated, and writes nothing outside the [n] bytes of
    the destination. *)
Theorem safestrcpy_bounded m s t n str :
  cstring m t str -> 0 < n -> 0 <= s -> s + n <= 4294967296 ->
  s + n <= t \/ t + Z.of_nat (length str) + 1 <= s ->
  cstring (safestrcpy m s t n) s (take (Z.to_nat (n - 1)) str) /\
  forall a, ~ (s <= a < s + n) -> safestrcpy m s t n a = m a.
Proof.
  intros Hs Hn H0 Hl Hd. unfold safestrcpy. rewrite (proj2 (Z.leb_gt n 0)) by lia.
  replace (Z.to_nat n) with (S (Z.to_nat (n - 1))) by lia.
  destruct (safestrcpy_loop_spec (Z.to_nat (n - 1)) str m s t) as [H1 H2]; [done|lia..|].
  split; [done|]. intros a Ha. apply H2. lia.
Qed.

(** A memory that holds the string "abc" at 1000. *)
Definition abc_mem : mem :=
  upd (upd (upd (upd (fun _ => 7) 1000 97) 1001 98) 1002 99) 1003 0.

Lemma abc_cstring : cstring abc_mem 1000 [97; 98; 99].
Proof. rewrite !cstring_cons, cstring_nil. vm_compute. repeat split; congruence. Qed.

Lemma safestrcpy_bounded_witness :
  cstring (safestrcpy abc_mem 0 1000 3) 0 [97; 98] /\ safestrcpy abc_mem 0 1000 3 3 = 7.
Proof.
  destruct (safestrcpy_bounded abc_mem 0 1000 3 [97; 98; 99]) as [H1 H2];
    [exact abc_cstring|lia|lia|lia|lia|].
  split; [exact H1|]. rewrite H2 by lia. reflexivity.
Defined.

(** [strcmp] returns the three-way lexicographic comparison of the two
    strings as unsigned bytes, and one step more than the first string's
    length is enough for its loop. *)
Theorem strcmp_lexcmp fuel m p q a b :
  cstring m p a -> cstring m q b -> (length a < fuel)%nat ->
  strcmp fuel m p q = Some (lexcmp a b).
Proof.
  intros Ha Hb Hf. unfold strcmp. destruct (strcmp_loop_spec a b fuel m p q) as (r & -> & Hr); [done..|].
  cbn. rewrite <- Hr. destruct r; reflexivity.
Qed.

Lemma strcmp_lexcmp_witness :
  strcmp 4 abc_mem 1000 1001 = Some (-1).
Proof.
  apply (strcmp_lexcmp 4 abc_mem 1000 1001 [97; 98; 99] [98; 99]); [exact abc_cstring| |simpl; lia].
  rewrite !cstring_cons, cstring_nil. vm_compute. repeat split; congruence.
Defined.
