(* ===== verification/CArray.v ===== *)
(** string.c on C arrays.  A caller that passes two distinct arrays to a
    string routine sees them as lists: a pointer into an array is the list of
    the elements from there on, and [None] is an access past the end of an
    array.  The theorems show that the memory-level routines of CString
    compute the same arrays. *)

From S2P Require Import Prelude CString.

Fixpoint arr_strlen (s : list Z) : option Z :=
  match s with
  | [] => None
  | c :: s => if c =? 0 then Some 0 else Z.succ <$> arr_strlen s
  end.

Fixpoint arr_strcmp (str1 str2 : list Z) : option Z :=
  match str1, str2 with
  | x :: str1, y :: str2 =>
      if (x - y =? 0) && negb (y =? 0) then arr_strcmp str1 str2
      else Some (Z.sgn (x - y))
  | _, _ => None
  end.

Fixpoint arr_strcpy (destination source : list Z) : option (list Z) :=
  match destination, source with
  | _ :: destination, c :: source =>
      if c =? 0 then Some (c :: destination) else cons c <$> arr_strcpy destination source
  | _, _ => None
  end.

Fixpoint arr_safestrcpy_loop (s t : list Z) (n : nat) : option (list Z) :=
  match n with
  | S (S _ as n) =>
      match s, t with
      | _ :: s, c :: t =>
          if negb (c =? 0) then cons c <$> arr_safestrcpy_loop s t n
          else match s with _ :: s => Some (0 :: 0 :: s) | [] => None end
      | _, _ => None
      end
  | _ => match s with _ :: s => Some (0 :: s) | [] => None end
  end.

Definition arr_safestrcpy (s t : list Z) (n : Z) : option (list Z) :=
  if n <=? 0 then Some s else arr_safestrcpy_loop s t (Z.to_nat n).

(** * Lemmas *)

(** A string stored in an array, with whatever follows its NUL. *)
Lemma arr_strlen_app s r : nonul s -> arr_strlen (s ++ 0 :: r) = Some (Z.of_nat (length s)).
Proof.
  induction 1 as [|c s Hc _ IH]; [done|]. cbn [app arr_strlen length].
  rewrite (proj2 (Z.eqb_neq c 0)) by lia. rewrite IH. cbn. f_equal. lia.
Qed.

Lemma arr_strcmp_app a b r1 r2 :
  nonul a -> nonul b -> arr_strcmp (a ++ 0 :: r1) (b ++ 0 :: r2) = Some (lexcmp a b).
Proof.
  intros Ha. revert b. induction Ha as [|x a Hx _ IH]; intros b Hb;
    destruct Hb as [|y b Hy Hb]; cbn [app arr_strcmp lexcmp].
  - done.
  - rewrite (proj2 (Z.eqb_neq _ 0)) by lia. cbn [andb]. f_equal. apply Z.sgn_neg. lia.
  - rewrite (proj2 (Z.eqb_neq _ 0)) by lia. cbn [andb]. f_equal. apply Z.sgn_pos. lia.
  - destruct (Z.ltb_spec x y), (Z.ltb_spec y x); try lia.
    + rewrite (proj2 (Z.eqb_neq _ 0)) by lia. cbn [andb]. f_equal. apply Z.sgn_neg. lia.
    + rewrite (proj2 (Z.eqb_neq _ 0)) by lia. cbn [andb]. f_equal. apply Z.sgn_pos. lia.
    + rewrite (proj2 (Z.eqb_eq _ 0)), (proj2 (Z.eqb_neq y 0)) by lia. cbn [andb negb]. by apply IH.
Qed.

Lemma lexcmp_zero a : forall b, lexcmp a b = 0 <-> a = b.
Proof.
  induction a as [|x a IH]; intros [|y b]; cbn [lexcmp]; try done.
  destruct (Z.ltb_spec x y), (Z.ltb_spec y x); try lia; try (split; [done|]; intros [=]; lia).
  rewrite IH. split; [|naive_solver]. intros ->. f_equal. lia.
Qed.

Lemma arr_strcpy_app s : forall d r,
  nonul s -> (length s < length d)%nat ->
  arr_strcpy d (s ++ 0 :: r) = Some (s ++ 0 :: drop (S (length s)) d).
Proof.
  induction s as [|c s IH]; intros [|x d] r Hs Hl; cbn [length] in *; try lia.
  - done.
  - apply Forall_cons in Hs as [Hc Hs]. cbn [app arr_strcpy drop].
    rewrite (proj2 (Z.eqb_neq c 0)) by lia. rewrite IH by (done || lia). done.
Qed.

Lemma arr_strcpy_overflow s : forall d r,
  nonul s -> (length d <= length s)%nat -> arr_strcpy d (s ++ 0 :: r) = None.
Proof.
  induction s as [|c s IH]; intros [|x d] r Hs Hl; cbn [length] in *; try lia; try done.
  apply Forall_cons in Hs as [Hc Hs]. cbn [app arr_strcpy].
  rewrite (proj2 (Z.eqb_neq c 0)) by lia. rewrite IH by (done || lia). done.
Qed.

(** The bytes that [arr_safestrcpy] leaves after the string: the NULs it
    wrote and the old contents of the array. *)
Lemma arr_safestrcpy_loop_app n : forall s d r,
  nonul s -> (S n <= length d)%nat ->
  exists tl, arr_safestrcpy_loop d (s ++ 0 :: r) (S n) = Some (take n s ++ 0 :: tl) /\
    length (take n s ++ 0 :: tl) = length d.
Proof.
  induction n as [|n IH]; intros [|c s] [|x d] r Hs Hl; cbn [length] in *; try lia.
  - exists d. done.
  - exists d. done.
  - cbn [app arr_safestrcpy_loop take]. destruct d as [|y d]; [cbn [length] in *; lia|].
    exists (0 :: d). done.
  - apply Forall_cons in Hs as [Hc Hs]. cbn [app arr_safestrcpy_loop take].
    rewrite (proj2 (Z.eqb_neq c 0)) by lia. cbn [negb].
    destruct (IH s d r Hs ltac:(lia)) as (tl & -> & Hlen). exists tl. split; [done|].
    cbn [app length]. by rewrite Hlen.
Qed.

Lemma arr_safestrcpy_app s d r n :
  nonul s -> 0 < n <= Z.of_nat (length d) ->
  exists tl, arr_safestrcpy d (s ++ 0 :: r) n = Some (take (Z.to_nat (n - 1)) s ++ 0 :: tl) /\
    length (take (Z.to_nat (n - 1)) s ++ 0 :: tl) = length d.
Proof.
  intros Hs Hn. unfold arr_safestrcpy. rewrite (proj2 (Z.leb_gt n 0)) by lia.
  replace (Z.to_nat n) with (S (Z.to_nat (n - 1))) by lia.
  apply arr_safestrcpy_loop_app; [done|lia].
Qed.

(** * Refinement of the memory-level routines *)

Definition disjoint_blocks (p n q k : Z) : Prop := p + n <= q \/ q + k <= p.

Lemma stored_upd m p x l c :
  stored m p (x :: l) -> stored (upd m p c) p (c :: l).
Proof.
  rewrite !stored_cons, upd_eq. intros (? & ? & ? & ?). split_and!; try done.
  eapply stored_frame; [done|]. intros. apply upd_ne. lia.
Qed.

Lemma stored_upd_other m p l a c :
  stored m p l -> ~ (p <= a < p + Z.of_nat (length l)) -> stored (upd m a c) p l.
Proof. intros. eapply stored_frame; [done|]. intros. apply upd_ne. lia. Qed.

Lemma arr_strcpy_refines_gen src : forall dst dst' m d p fuel,
  stored m d dst -> stored m p src ->
  disjoint_blocks d (Z.of_nat (length dst)) p (Z.of_nat (length src)) ->
  arr_strcpy dst src = Some dst' -> (length src <= fuel)%nat ->
  exists m', strcpy fuel m d p = Some m' /\ stored m' d dst' /\
    forall a, ~ (d <= a < d + Z.of_nat (length dst)) -> m' a = m a.
Proof.
  unfold disjoint_blocks.
  induction src as [|c src IH]; intros [|x dst] dst' m d p [|fuel] Hd Hp Hdis H Hf;
    cbn [length arr_strcpy] in *; try done; try lia.
  pose proof Hd as (Hd0 & Hdx & Hdl & Hd')%stored_cons.
  pose proof Hp as (Hp0 & Hpc & Hpl & Hp')%stored_cons.
  cbn [strcpy]. rewrite Hpc. destruct (Z.eqb_spec c 0) as [Hc|Hc]; cbn [negb].
  - injection H as <-. eexists; split; [done|]. split; [by eapply stored_upd|]. intros. apply upd_ne. lia.
  - destruct (arr_strcpy dst src) as [r|] eqn:E; [|done]. injection H as <-.
    assert (length src <> 0)%nat by (destruct dst, src; done).
    assert (length dst <> 0)%nat by (destruct dst, src; done).
    rewrite !padd_small by lia.
    destruct (IH dst r (upd m d c) (d + 1) (p + 1) fuel) as (m' & -> & Hs' & Hf'); try done; try lia.
    { by apply stored_upd_other; [|lia]. }
    { apply stored_upd_other; [done|lia]. }
    eexists; split; [done|]. split.
    + apply stored_cons. rewrite Hf', upd_eq by lia.
      destruct Hs' as (? & ? & ?). split_and!; try done; lia.
    + intros a Ha. rewrite Hf' by lia. apply upd_ne. lia.
Qed.

Lemma arr_safestrcpy_loop_SS x s c t n :
  arr_safestrcpy_loop (x :: s) (c :: t) (S (S n)) =
    if negb (c =? 0) then cons c <$> arr_safestrcpy_loop s t (S n)
    else match s with _ :: s => Some (0 :: 0 :: s) | [] => None end.
Proof. reflexivity. Qed.

Lemma arr_safestrcpy_loop_refines n : forall src dst dst' m d p,
  stored m d dst -> stored m p src ->
  disjoint_blocks d (Z.of_nat (length dst)) p (Z.of_nat (length src)) ->
  arr_safestrcpy_loop dst src (S n) = Some dst' ->
  stored (safestrcpy_loop m d p (S n)) d dst' /\
    forall a, ~ (d <= a < d + Z.of_nat (length dst)) -> safestrcpy_loop m d p (S n) a = m a.
Proof.
  unfold disjoint_blocks.
  induction n as [|n IH]; intros src dst dst' m d p Hd Hp Hdis H.
  - cbn [arr_safestrcpy_loop safestrcpy_loop] in *. destruct dst as [|x dst]; simplify_eq/=.
    split; [by eapply stored_upd|]. intros. apply upd_ne. lia.
  - destruct dst as [|x dst], src as [|c src]; try done.
    rewrite arr_safestrcpy_loop_SS in H. cbn [safestrcpy_loop length] in *.
    pose proof Hd as (Hd0 & Hdx & Hdl & Hd')%stored_cons.
    pose proof Hp as (Hp0 & Hpc & Hpl & Hp')%stored_cons. rewrite Hpc.
    destruct (Z.eqb_spec c 0) as [->|Hc]; cbn [negb] in *.
    + destruct dst as [|y dst]; [done|]. injection H as <-. cbn [length] in *. rewrite padd_small by lia. split.
      * apply stored_cons. rewrite upd_ne, upd_eq by lia. cbn [length].
        split_and!; try done; try lia. eapply stored_upd. by apply stored_upd_other; [|lia].
      * intros. rewrite !upd_ne by lia. done.
    + destruct (arr_safestrcpy_loop dst src (S n)) as [r|] eqn:E; [|done]. injection H as <-.
      assert (length dst <> 0)%nat. { destruct dst; [|cbn [length]; lia]. by destruct n, src. }
      destruct (decide (length src = 0%nat)) as [Hz|Hz].
      { destruct src; [|done]. destruct n; [|by destruct dst].
        cbn [safestrcpy_loop]. rewrite padd_small by lia.
        destruct dst as [|y dst]; [done|]. injection E as <-. cbn [length] in *. split.
        * apply stored_cons. rewrite upd_ne, upd_eq by lia. cbn [length].
          split_and!; try done; try lia. eapply stored_upd. by apply stored_upd_other; [|lia].
        * intros. rewrite !upd_ne by lia. done. }
      rewrite !padd_small by lia.
      destruct (IH src dst r (upd m d c) (d + 1) (p + 1)) as (Hs' & Hf'); try done; try lia.
      { by apply stored_upd_other; [|lia]. }
      { apply stored_upd_other; [done|lia]. }
      split.
      * apply stored_cons. rewrite Hf', upd_eq by lia.
        destruct Hs' as (? & ? & ?). split_and!; try done; lia.
      * intros a Ha. rewrite Hf' by lia. apply upd_ne. lia.
Qed.

(** * Properties *)

(** The array view of [safestrcpy] is sound: when it stays inside the
    destination array, the memory-level routine called on two disjoint blocks
    that hold the arrays leaves exactly the array it computes, and changes no
    byte outside the destination array. *)
Theorem arr_safestrcpy_refines m d p dst src dst' n :
  stored m d dst -> stored m p src ->
  disjoint_blocks d (Z.of_nat (length dst)) p (Z.of_nat (length src)) ->
  arr_safestrcpy dst src n = Some dst' ->
  stored (safestrcpy m d p n) d dst' /\
  forall a, ~ (d <= a < d + Z.of_nat (length dst)) -> safestrcpy m d p n a = m a.
Proof.
  intros Hd Hp Hdis H. unfold arr_safestrcpy, safestrcpy in *.
  destruct (Z.leb_spec n 0); [injection H as <-; done|].
  replace (Z.to_nat n) with (S (Z.to_nat (n - 1))) in * by lia.
  by eapply arr_safestrcpy_loop_refines.
Qed.

Lemma abc_stored : stored abc_mem 1000 [97; 98; 99; 0].
Proof. apply abc_cstring. Qed.

Lemma arr_safestrcpy_refines_witness :
  stored (safestrcpy abc_mem 2000 1000 3) 2000 [97; 98; 0; 7].
Proof.
  apply (arr_safestrcpy_refines abc_mem 2000 1000 [7; 7; 7; 7] [97; 98; 99; 0] [97; 98; 0; 7] 3).
  - rewrite !stored_cons. unfold stored. cbn. repeat split; try lia. done.
  - exact abc_stored.
  - unfold disjoint_blocks. cbn. lia.
  - reflexivity.
Defined.
