(* ===== verification/Types.v ===== *)
(** The constants and structures of the kernel's headers: param.h, fs.h,
    bpb.h, file.h, stat.h and fcntl.h.  A structure read from a disk sector
    comes with the function that decodes it from its bytes. *)

From S2P Require Import Prelude.

(** * param.h *)

Definition NPROC : Z := 64.
Definition KSTACKSIZE : Z := 4096.
Definition NCPU : Z := 8.
Definition NOFILE : Z := 16.
Definition NFILE : Z := 100.
Definition NDEV : Z := 10.
Definition MAXARG : Z := 32.
Definition MAXOPBLOCKS : Z := 10.
Definition NBUF : Z := MAXOPBLOCKS * 3.
Definition MAXFATSIZE : Z := 10.
Definition MAXCWDSIZE : Z := 200.

(** * fcntl.h *)

Definition O_RDONLY : Z := 0.
Definition O_WRONLY : Z := 1.
Definition O_RDWR : Z := 2.
Definition O_CREATE : Z := 512.

(** * bpb.h *)

Record BIOSParameterBlock : Type := mkBpb {
  OEMName : list Z;
  BytesPerSector : Z;
  SectorsPerCluster : Z;
  ReservedSectors : Z;
  NumberOfFats : Z;
  NumDirEntries : Z;
  BpbNumSectors : Z;
  Media : Z;
  SectorsPerFat : Z;
  SectorsPerTrack : Z;
  HeadsPerCyl : Z;
  HiddenSectors : Z;
  LongSectors : Z
}.

Record BIOSParameterBlockExt : Type := mkBpbExt {
  SectorsPerFat32 : Z;
  ExtFlags : Z;
  Version : Z;
  RootCluster : Z;
  InfoCluster : Z;
  BackupBoot : Z;
  ExtReserved : list Z
}.

Record BootSector : Type := mkBootSector {
  Ignore : list Z;
  Bpb : BIOSParameterBlock;
  BpbExt : BIOSParameterBlockExt;
  Filler : list Z
}.

(** The packed structures as they lie in the 512 bytes of the sector. *)
Definition Bpb_of_bytes (l : list Z) : BIOSParameterBlock :=
  mkBpb (take 8 l) (le16 l 8) (nth 10 l 0) (le16 l 11) (nth 13 l 0) (le16 l 14) (le16 l 16)
    (nth 18 l 0) (le16 l 19) (le16 l 21) (le16 l 23) (le32 l 25) (le32 l 29).

Definition BpbExt_of_bytes (l : list Z) : BIOSParameterBlockExt :=
  mkBpbExt (le32 l 0) (le16 l 4) (le16 l 6) (le32 l 8) (le16 l 12) (le16 l 14)
    (map (fun k => le16 l (16 + 2 * k)) (seq 0 6)).

Definition BootSector_of_bytes (l : list Z) : BootSector :=
  mkBootSector (take 3 l) (Bpb_of_bytes (drop 3 l)) (BpbExt_of_bytes (drop 36 l)) (take 448 (drop 64 l)).

(** * fs.h *)

Record DirectoryEntry : Type := mkDirectoryEntry {
  Filename : list Z;
  Ext : list Z;
  Attrib : Z;
  Reserved : Z;
  TimeCreatedMs : Z;
  TimeCreated : Z;
  DateCreated : Z;
  DateLastAccessed : Z;
  FirstClusterHiBytes : Z;
  LastModTime : Z;
  LastModDate : Z;
  FirstCluster : Z;
  FileSize : Z
}.

(** The 32 bytes of an entry of a directory. *)
Definition DirectoryEntry_of_bytes (l : list Z) : DirectoryEntry :=
  mkDirectoryEntry (take 8 l) (take 3 (drop 8 l)) (nth 11 l 0) (nth 12 l 0) (nth 13 l 0) (le16 l 14)
    (le16 l 16) (le16 l 18) (le16 l 20) (le16 l 22) (le16 l 24) (le16 l 26) (le32 l 28).

Record MountInfo : Type := mkMountInfo {
  NumSectors : Z;
  FatOffset : Z;
  NumRootEntries : Z;
  RootOffset : Z;
  RootSize : Z;
  FatSize : Z;
  ClusterSize : Z
}.

(** * file.h *)

Inductive FileType : Type := FD_NONE | FD_PIPE | FD_FILE | FD_DIR | FD_DEVICE.

#[export] Instance FileType_eq_dec : EqDecision FileType.
Proof. solve_decision. Defined.

(** A [Pipe *] is the address of the page that holds the pipe; 0 is null. *)
Record File : Type := mkFile {
  Type_ : FileType;
  ReferenceCount : Z;
  Readable : Z;
  Writable : Z;
  PipePtr : Z;
  FileEntry : DirectoryEntry;
  FileName : list Z;
  Eof : Z;
  Position : Z;
  Size_ : Z;
  DeviceID : Z
}.

Definition set_Type_ (x : FileType) (f : File) : File :=
  mkFile x (ReferenceCount f) (Readable f) (Writable f) (PipePtr f) (FileEntry f) (FileName f) (Eof f) (Position f) (Size_ f) (DeviceID f).
Definition set_ReferenceCount (x : Z) (f : File) : File :=
  mkFile (Type_ f) x (Readable f) (Writable f) (PipePtr f) (FileEntry f) (FileName f) (Eof f) (Position f) (Size_ f) (DeviceID f).
Definition set_Readable (x : Z) (f : File) : File :=
  mkFile (Type_ f) (ReferenceCount f) x (Writable f) (PipePtr f) (FileEntry f) (FileName f) (Eof f) (Position f) (Size_ f) (DeviceID f).
Definition set_Writable (x : Z) (f : File) : File :=
  mkFile (Type_ f) (ReferenceCount f) (Readable f) x (PipePtr f) (FileEntry f) (FileName f) (Eof f) (Position f) (Size_ f) (DeviceID f).
Definition set_PipePtr (x : Z) (f : File) : File :=
  mkFile (Type_ f) (ReferenceCount f) (Readable f) (Writable f) x (FileEntry f) (FileName f) (Eof f) (Position f) (Size_ f) (DeviceID f).
Definition set_FileEntry (x : DirectoryEntry) (f : File) : File :=
  mkFile (Type_ f) (ReferenceCount f) (Readable f) (Writable f) (PipePtr f) x (FileName f) (Eof f) (Position f) (Size_ f) (DeviceID f).
Definition set_FileName (x : list Z) (f : File) : File :=
  mkFile (Type_ f) (ReferenceCount f) (Readable f) (Writable f) (PipePtr f) (FileEntry f) x (Eof f) (Position f) (Size_ f) (DeviceID f).
Definition set_Eof (x : Z) (f : File) : File :=
  mkFile (Type_ f) (ReferenceCount f) (Readable f) (Writable f) (PipePtr f) (FileEntry f) (FileName f) x (Position f) (Size_ f) (DeviceID f).
Definition set_Position (x : Z) (f : File) : File :=
  mkFile (Type_ f) (ReferenceCount f) (Readable f) (Writable f) (PipePtr f) (FileEntry f) (FileName f) (Eof f) x (Size_ f) (DeviceID f).
Definition set_Size_ (x : Z) (f : File) : File :=
  mkFile (Type_ f) (ReferenceCount f) (Readable f) (Writable f) (PipePtr f) (FileEntry f) (FileName f) (Eof f) (Position f) x (DeviceID f).
Definition set_DeviceID (x : Z) (f : File) : File :=
  mkFile (Type_ f) (ReferenceCount f) (Readable f) (Writable f) (PipePtr f) (FileEntry f) (FileName f) (Eof f) (Position f) (Size_ f) x.

Definition CONSOLE : Z := 0.
