(* ===== verification/Numerals.v ===== *)
(** The conversion of integers to text that printf.c and console.c write out,
    each with its own digits and its own character output: the loop over the
    digits with its array of 16 bytes, and the numerals it computes. *)

From S2P Require Import Prelude.

(** * Numbers as text *)

(** The do loop of [printInt]: digits are stored from [buf[i]] on, the lowest
    first; a store outside the array is [None].  A 32-bit number has at most
    32 digits. *)
Fixpoint digitLoop (fuel : nat) (digits : list Z) (x base : Z) (buf : list Z) (i : Z) : option (list Z * Z) :=
  match fuel with
  | O => None
  | S fuel =>
      d ← rd digits (x mod base);
      buf ← wr buf i d;
      let x := x / base in
      if x =? 0 then Some (buf, i + 1) else digitLoop fuel digits x base buf (i + 1)
  end.

(** The bytes that [printInt] puts out, in order; [buf] is its array of 16
    bytes. *)
Definition intText (digits buf : list Z) (xx base : Z) (sgn : bool) : option (list Z) :=
  let neg := sgn && (xx <? 0) in
  let x := if neg then u32 (- xx) else u32 xx in
  '(buf, i) ← digitLoop 32 digits x base buf 0;
  '(buf, i) ← (if neg then buf ← wr buf i 45; Some (buf, i + 1) else Some (buf, i));
  Some (reverse (take (Z.to_nat i) buf)).

(** * What the numbers are *)

(** The digits of [x], the lowest first. *)
Fixpoint lowDigits (fuel : nat) (x base : Z) : list Z :=
  match fuel with
  | O => []
  | S fuel => x mod base :: if x / base =? 0 then [] else lowDigits fuel (x / base) base
  end.

(** The number that a list of digits stands for, the highest first. *)
Definition valueOf (base : Z) (ds : list Z) : Z := foldl (fun n d => n * base + d) 0 ds.

Lemma valueOf_snoc base ds d : valueOf base (ds ++ [d]) = valueOf base ds * base + d.
Proof. unfold valueOf. by rewrite foldl_app. Qed.

Lemma lowDigits_spec k : forall fuel x base, 2 <= base -> 0 <= x < base ^ Z.of_nat k -> (0 < k <= fuel)%nat ->
  (0 < length (lowDigits fuel x base) <= k)%nat /\ valueOf base (reverse (lowDigits fuel x base)) = x /\
  Forall (fun d => 0 <= d < base) (lowDigits fuel x base) /\ (0 < x -> last (lowDigits fuel x base) <> Some 0).
Proof.
  induction k as [|k IH]; intros fuel x base Hb Hx Hk; [lia|]. destruct fuel as [|fuel]; [lia|]. cbn [lowDigits].
  assert (Hd : 0 <= x mod base < base) by (apply Z.mod_pos_bound; lia). assert (Hdm := Z.div_mod x base ltac:(lia)).
  destruct (Z.eqb_spec (x / base) 0) as [E|E].
  - assert (Ex : x mod base = x) by (rewrite E in Hdm; lia). cbn. rewrite Ex. split_and!; [lia|lia|lia|constructor; [lia|done]|intros ? [= E']; lia].
  - assert (0 <= x / base) by (apply Z.div_pos; lia).
    assert (Hx' : x / base < base ^ Z.of_nat k).
    { apply Z.div_lt_upper_bound; [lia|]. rewrite <- Z.pow_succ_r, <- Nat2Z.inj_succ by lia. lia. }
    assert (Hk0 : (0 < k)%nat) by (destruct k; [cbn in Hx'; lia|lia]).
    destruct (IH fuel (x / base) base Hb ltac:(lia) ltac:(lia)) as (Hl & Hv & Hf & Hlast).
    cbn [length]. split_and!; [lia|lia| |by constructor|].
    + rewrite reverse_cons, valueOf_snoc, Hv. lia.
    + intros _. rewrite last_cons. destruct (last (lowDigits fuel (x / base) base)) eqn:El; [apply Hlast; lia|].
      apply last_None in El. rewrite El in Hl. cbn in Hl. lia.
Qed.

(** The character of a digit. *)
Definition digitChar (digits : list Z) (d : Z) : Z := nth (Z.to_nat d) digits 0.

Lemma wr_next (a b : list Z) c v : b <> [] -> Z.of_nat (length a) = c ->
  wr (a ++ b) c v = Some (a ++ [v] ++ tail b).
Proof.
  intros Hb <-. destruct b as [|y b]; [done|]. rewrite wr_Some by (rewrite length_app; cbn; lia). f_equal.
  by rewrite Nat2Z.id, insert_app_r_alt, Nat.sub_diag.
Qed.

Lemma digitLoop_spec fuel : forall digits x base done rest,
  2 <= base <= Z.of_nat (length digits) -> 0 <= x ->
  (length (lowDigits fuel x base) <= length rest)%nat -> (0 < fuel)%nat -> x < base ^ Z.of_nat fuel ->
  digitLoop fuel digits x base (done ++ rest) (Z.of_nat (length done)) =
    Some (done ++ (digitChar digits <$> lowDigits fuel x base) ++ drop (length (lowDigits fuel x base)) rest,
          Z.of_nat (length done + length (lowDigits fuel x base))).
Proof.
  induction fuel as [|fuel IH]; intros digits x base done rest Hb Hx Hlen Hf Hsmall; [lia|]. cbn [digitLoop lowDigits] in *.
  assert (Hd : 0 <= x mod base < base) by (apply Z.mod_pos_bound; lia).
  assert (Hrd : rd digits (x mod base) = Some (digitChar digits (x mod base))).
  { apply rd_Some. split; [lia|]. destruct (lookup_lt_is_Some_2 digits (Z.to_nat (x mod base)) ltac:(lia)) as [c Ec].
    unfold digitChar. by rewrite nth_lookup, Ec. }
  rewrite Hrd. cbn [mbind option_bind]. destruct rest as [|y rest]; [cbn in Hlen; lia|]. rewrite wr_next by done. cbn [mbind option_bind tail].
  destruct (Z.eqb_spec (x / base) 0) as [E|E].
  - cbn. do 2 f_equal. lia.
  - assert (0 <= x / base) by (apply Z.div_pos; lia).
    assert (Hs : x / base < base ^ Z.of_nat fuel) by (apply Z.div_lt_upper_bound; [lia|]; rewrite <- Z.pow_succ_r, <- Nat2Z.inj_succ by lia; lia).
    assert (Hf' : (0 < fuel)%nat) by (destruct fuel; [cbn in Hs; lia|lia]).
    specialize (IH digits (x / base) base (done ++ [digitChar digits (x mod base)]) rest Hb ltac:(lia) ltac:(cbn in Hlen; lia) Hf' Hs).
    rewrite length_app in IH. cbn [length] in IH. rewrite <- app_assoc in IH.
    replace (Z.of_nat (length done) + 1) with (Z.of_nat (length done + 1)) by lia. rewrite IH. cbn [fmap list_fmap length drop app].
    rewrite <- app_assoc. cbn [app]. do 2 f_equal. lia.
Qed.

(** The text of a number: digits, and a sign in front. *)
Definition numeral (digits : list Z) (base x : Z) : list Z := digitChar digits <$> reverse (lowDigits 32 x base).

Definition decimal (digits : list Z) (xx : Z) : list Z :=
  if xx <? 0 then 45 :: numeral digits 10 (- xx) else numeral digits 10 xx.

(** The array of 16 bytes is large enough for the bases in use. *)
Lemma intText_eq digits buf xx base sgn : 10 <= base <= Z.of_nat (length digits) -> length buf = 16%nat ->
  -2147483648 <= xx < 2147483648 ->
  intText digits buf xx base sgn =
    Some (if sgn && (xx <? 0) then 45 :: numeral digits base (- xx) else numeral digits base (u32 xx)).
Proof.
  intros Hb Hl Hx. unfold intText. set (neg := sgn && (xx <? 0)). set (x := if neg then u32 (- xx) else u32 xx).
  assert (Hxr : 0 <= x < 4294967296) by (unfold x; destruct neg; apply u32_range).
  assert (Hpow : x < base ^ Z.of_nat 10).
  { apply Z.lt_le_trans with (10 ^ Z.of_nat 10); [cbn; lia|]. apply Z.pow_le_mono_l. lia. }
  destruct (lowDigits_spec 10 32 x base ltac:(lia) ltac:(lia) ltac:(lia)) as (Hlen & _).
  assert (H32 : x < base ^ Z.of_nat 32) by (apply Z.lt_le_trans with (base ^ Z.of_nat 10); [done|]; apply Z.pow_le_mono_r; lia).
  assert (E := digitLoop_spec 32 digits x base [] buf ltac:(lia) ltac:(lia) ltac:(lia) ltac:(lia) H32). cbn [app length Nat.add] in E.
  change (Z.of_nat 0) with 0 in E. rewrite E. clear E. cbn [mbind option_bind].
  assert (Hn : numeral digits base x = reverse (digitChar digits <$> lowDigits 32 x base)) by (unfold numeral; by rewrite fmap_reverse).
  set (ds := digitChar digits <$> lowDigits 32 x base) in *. set (k := length (lowDigits 32 x base)) in *.
  assert (Hds : length ds = k) by apply length_fmap. destruct neg eqn:En.
  - assert (Ex : x = - xx) by (unfold x; apply u32_small; unfold neg in En; bdestr; lia).
    rewrite wr_next; [|intros Ed%(f_equal length); rewrite length_drop in Ed; cbn [length] in Ed; lia|lia]. cbn [mbind option_bind].
    assert (Hl1 : length (ds ++ [45]) = S k) by (rewrite length_app, Hds; cbn [length]; lia).
    rewrite app_assoc, take_app_le, take_ge, reverse_snoc by lia. by rewrite <- Ex, Hn.
  - cbn [mbind option_bind]. fold x. by rewrite take_app_le, take_ge, Hn by lia.
Qed.
