(* ===== verification/Fat12.v ===== *)
(** fs.c, the FAT12 driver: mounting the volume, the file allocation table,
    reading clusters and files.  The driver reaches the disk only through the
    buffer cache, which is an interface here ([BlockCache]); the theorems hold
    of every cache that satisfies its laws ([BlockCacheLaws]). *)

From S2P Require Import Prelude CString CArray Types.

(** * The buffer cache, as fs.c uses it *)

Class BlockCache (S : Type) : Type := {
  handle : Type;
  diskBufferRead : Z -> Z -> M S handle;
  bufferData : handle -> S -> list Z;
  diskBufferRelease : handle -> M S unit
}.

(** [ok] is the cache's invariant between two accesses, [disk] the contents of
    device 0: a sector read is the sector of the disk, and releasing the
    buffer restores the invariant. *)
Class BlockCacheLaws (S : Type) `{BlockCache S} (ok : S -> Prop) (disk : Z -> list Z) : Prop := {
  disk_length sec : length (disk sec) = 512%nat;
  cache_read sec s :
    ok s -> 0 <= sec < 268435456 ->
    exists h s1 s2,
      diskBufferRead 0 sec s = Ret h s1 /\ bufferData h s1 = disk sec /\
      diskBufferRelease h s1 = Ret tt s2 /\ ok s2
}.

(** * The mounted volume *)

(** The globals of fs.c.  [fat i] is the byte at [(char * )fat + i]: the
    driver indexes the array without a bound. *)
Record Volume : Type := mkVolume {
  bootSector : BootSector;
  mountInfo : MountInfo;
  fat : Z -> Z
}.

Section Driver.
Context {S : Type} `{BlockCache S}.

(** ** Names *)

Definition islower (c : Z) : bool := (97 <=? c) && (c <=? 122).
Definition toupper (c : Z) : Z := if islower c then c + 65 - 97 else c.

(** The copying loop of [toDosFileName]: [i] counts up to the first dot, the
    ninth character or the end of the name. *)
Fixpoint dosBase (fuel : nat) (filename conv : list Z) (len filenameLength i : Z) : option (list Z * Z) :=
  match fuel with
  | O => None
  | Datatypes.S fuel =>
      if (i <? len) && (i <? filenameLength) then
        c ← rd filename i;
        if (c =? 46) || (i =? 8) then Some (conv, i)
        else conv ← wr conv i (toupper c); dosBase fuel filename conv len filenameLength (i + 1)
      else Some (conv, i)
  end.

(** The extension: three more characters, whatever they are. *)
Fixpoint dosExt (filename conv : list Z) (i k : Z) (n : nat) : option (list Z) :=
  match n with
  | O => Some conv
  | Datatypes.S n =>
      let i := i + 1 in
      c ← rd filename i;
      conv ← (if negb (c =? 0) then wr conv (k + 8) (toupper c) else Some conv);
      dosExt filename conv i (k + 1) n
  end.

(** [conv] is the 12-byte array [convertedFileName] on entry; neither pointer
    is null in any call of the driver. *)
Definition toDosFileName (filename conv : list Z) (filenameLength : Z) : option (list Z) :=
  if filenameLength >? 11 then Some conv
  else
    let conv := replicate (Z.to_nat filenameLength) 32 ++ drop (Z.to_nat filenameLength) conv in
    len ← arr_strlen filename;
    c0 ← rd filename 0;
    if (len =? 1) && (c0 =? 46) then wr conv 0 46
    else
      c1 ← (if (len =? 2) then rd filename 1 else Some 0);
      if (len =? 2) && (c0 =? 46) && (c1 =? 46) then
        conv ← wr conv 0 46; wr conv 1 46
      else
        '(conv, i) ← dosBase (Z.to_nat (filenameLength + 1)) filename conv len filenameLength 0;
        c ← rd filename i;
        if c =? 46 then dosExt filename conv i 0 3 else Some conv.

(** ** The file allocation table *)

Definition fsFat12GetNextCluster (v : Volume) (cluster : Z) : Z :=
  let fatOffset := u32 (cluster + cluster / 2) in
  let nextCluster := fat v fatOffset + 256 * fat v (fatOffset + 1) in
  let nextCluster := if negb (Z.land cluster 1 =? 0) then Z.shiftr nextCluster 4
                     else Z.land nextCluster 4095 in
  if nextCluster >=? 4088 then 0
  else if nextCluster =? 0 then 0
  else nextCluster.

(** ** Reading a cluster *)

(** The loop over the sectors of a cluster.  The result is what it stores at
    [buffer], in order. *)
Fixpoint readSectors (fuel : nat) (v : Volume) (sector offset size : Z) : M S (list Z) :=
  if negb (size >? 0) then mret []
  else match fuel with
  | O => spin
  | Datatypes.S fuel =>
      sectorContents ← diskBufferRead 0 sector;
      data ← gets (bufferData sectorContents);
      let bps := BytesPerSector (Bpb (bootSector v)) in
      let sectorContentsSize := if size <? bps then size else bps in
      chunk ← checked "fsFat12ReadCluster: past Data" (slice data offset sectorContentsSize);
      diskBufferRelease sectorContents;;
      rest ← readSectors fuel v (u32 (sector + 1)) 0 (u32 (size - sectorContentsSize));
      mret (chunk ++ rest)
  end.

Definition fsFat12ReadCluster (v : Volume) (deviceNumber clusterNumber offset size : Z) : M S (list Z * Z) :=
  let bpb := Bpb (bootSector v) in
  let mi := mountInfo v in
  let size := if size >? ClusterSize mi then ClusterSize mi else size in
  let offset := if offset >=? ClusterSize mi then 0 else offset in
  let size := if u32 (offset + size) >? ClusterSize mi then u32 (ClusterSize mi - offset) else size in
  let sector := u32 (RootOffset mi + RootSize mi + u32 (u32 (clusterNumber - 2) * SectorsPerCluster bpb)) in
  let '(sector, offset, size) :=
    if offset >? 0 then
      let sectorOffset := offset / BytesPerSector bpb in
      let sector := u32 (sector + sectorOffset) in
      let offset := offset mod BytesPerSector bpb in
      let left := u32 (ClusterSize mi - u32 (sectorOffset * BytesPerSector bpb + offset)) in
      (sector, offset, if size >? left then left else size)
    else (sector, offset, size) in
  let readSize := size in
  buffer ← readSectors (Z.to_nat size) v sector offset size;
  mret (buffer, readSize).

(** ** Reading a file *)

Fixpoint hopClusters (n : nat) (v : Volume) (cluster : Z) : Z :=
  match n with
  | O => cluster
  | Datatypes.S n => hopClusters n v (fsFat12GetNextCluster v cluster)
  end.

Fixpoint readClusters (fuel : nat) (v : Volume) (file : File)
    (currentCluster clusterOffset length totalRead : Z) (buffer : list Z) : M S (Z * list Z * File) :=
  if negb (length >? 0) then mret (totalRead, buffer, file)
  else match fuel with
  | O => spin
  | Datatypes.S fuel =>
      '(chunk, readLength) ← fsFat12ReadCluster v 0 currentCluster clusterOffset length;
      let buffer := buffer ++ chunk in
      let length := u32 (length - readLength) in
      let totalRead := u32 (totalRead + readLength) in
      let file := set_Position (u32 (Position file + readLength)) file in
      if (Position file >=? Size_ file) && bool_decide (Type_ file = FD_FILE)
      then mret (totalRead, buffer, set_Eof 1 file)
      else
        let currentCluster :=
          if u32 (clusterOffset + readLength) =? ClusterSize (mountInfo v)
          then fsFat12GetNextCluster v currentCluster else currentCluster in
        if currentCluster =? 0 then mret (totalRead, buffer, set_Eof 1 file)
        else readClusters fuel v file currentCluster 0 length totalRead buffer
  end.

(** [file] is the structure the caller's (non-null) pointer refers to; the
    result is the count returned, the bytes stored at [buffer] and the
    structure after the call. *)
Definition fsFat12Read (v : Volume) (file : File) (length : Z) : M S (Z * list Z * File) :=
  if bool_decide (Type_ file = FD_FILE \/ Type_ file = FD_DIR) && (Eof file =? 0) then
    let cs := ClusterSize (mountInfo v) in
    if cs =? 0 then fault "fsFat12Read: divide error"
    else
      let clusterHops := Position file / cs in
      let clusterOffset := Position file mod cs in
      let currentCluster := hopClusters (Z.to_nat clusterHops) v (FirstCluster (FileEntry file)) in
      readClusters (Z.to_nat length) v file currentCluster clusterOffset length 0 []
  else mret (0, [], file).

Definition fsFat12Close (file : File) : File := set_Type_ FD_NONE file.

End Driver.

(** * The contents of the volume *)

(** [n] sectors of the disk from [sec] on. *)
Fixpoint diskRange (disk : Z -> list Z) (sec : Z) (n : nat) : list Z :=
  match n with
  | O => []
  | S n => disk sec ++ diskRange disk (sec + 1) n
  end.

(** What mounting establishes of the volume's geometry. *)
Definition vol_ok (v : Volume) : Prop :=
  BytesPerSector (Bpb (bootSector v)) = 512 /\
  0 < SectorsPerCluster (Bpb (bootSector v)) < 256 /\
  ClusterSize (mountInfo v) = SectorsPerCluster (Bpb (bootSector v)) * 512 /\
  0 <= RootOffset (mountInfo v) < 33554432 /\
  0 <= RootSize (mountInfo v) < 8192.

Definition clusterStart (v : Volume) (c : Z) : Z :=
  RootOffset (mountInfo v) + RootSize (mountInfo v) + (c - 2) * SectorsPerCluster (Bpb (bootSector v)).

(** The bytes of cluster [c]. *)
Definition clusterData (disk : Z -> list Z) (v : Volume) (c : Z) : list Z :=
  diskRange disk (clusterStart v c) (Z.to_nat (SectorsPerCluster (Bpb (bootSector v)))).

(** [cs] are consecutive clusters of a chain of the FAT. *)
Fixpoint chain (v : Volume) (cs : list Z) : Prop :=
  match cs with
  | [] => True
  | c :: cs' =>
      2 <= c < 65536 /\
      match cs' with [] => True | c' :: _ => fsFat12GetNextCluster v c = c' end /\
      chain v cs'
  end.

(** The bytes of a chain: the abstract contents of a file. *)
Definition chainData (disk : Z -> list Z) (v : Volume) (cs : list Z) : list Z :=
  concat (map (clusterData disk v) cs).

(** A read of [n] bytes at offset [off] of a cluster that the sector loop
    serves: it starts on a sector boundary or stays inside one sector. *)
Definition sector_safe (off n : Z) : Prop :=
  off mod 512 = 0 \/ off mod 512 + n <= 512.

(** ** Lists *)

Lemma drop_app_add {A} (l k : list A) n : drop (length l + n) (l ++ k) = drop n k.
Proof. rewrite <- drop_drop, drop_app_length. done. Qed.

Lemma take_drop_app_l {A} (l k : list A) o n :
  (o + n <= length l)%nat -> take n (drop o (l ++ k)) = take n (drop o l).
Proof. intros. rewrite drop_app_le, take_app_le; [done| |]; rewrite ?length_drop; lia. Qed.

Lemma take_drop_app_r {A} (l k : list A) o n :
  (length l <= o)%nat -> take n (drop o (l ++ k)) = take n (drop (o - length l) k).
Proof. intros. rewrite drop_app_ge by lia. done. Qed.

(** A read that crosses from [l] into [k] is the end of [l] and the start of
    [k]. *)
Lemma take_drop_app_split {A} (l k : list A) o n :
  (o <= length l)%nat -> (length l <= o + n)%nat ->
  take n (drop o (l ++ k)) = drop o l ++ take (n - (length l - o)) k.
Proof.
  intros. rewrite drop_app_le by lia. rewrite take_app.
  rewrite take_ge by (rewrite length_drop; lia). by rewrite length_drop.
Qed.

Section ReadProofs.
Context {S : Type} `{BlockCache S} (ok : S -> Prop) (disk : Z -> list Z).
Context `{!BlockCacheLaws S ok disk}.

Lemma diskRange_length n : forall sec, length (diskRange disk sec n) = (512 * n)%nat.
Proof.
  induction n as [|n IH]; intros; cbn [diskRange]; [done|].
  rewrite length_app, IH, (disk_length (ok := ok)). lia.
Qed.

Lemma diskRange_drop k : forall sec n, (k <= n)%nat ->
  drop (512 * k) (diskRange disk sec n) = diskRange disk (sec + Z.of_nat k) (n - k).
Proof.
  induction k as [|k IH]; intros sec n Hk.
  - rewrite Nat.mul_0_r, drop_0. f_equal; lia.
  - destruct n as [|n]; [lia|]. cbn [diskRange].
    replace (512 * Datatypes.S k)%nat with (length (disk sec) + 512 * k)%nat
      by (rewrite (disk_length (ok := ok)); lia).
    rewrite drop_app_add, IH by lia. f_equal; lia.
Qed.

Lemma readSectors_spec fuel : forall v sec off size s (n : nat),
  ok s -> BytesPerSector (Bpb (bootSector v)) = 512 ->
  0 <= sec -> sec + Z.of_nat n <= 268435456 -> 0 <= off -> 0 <= size <= Z.of_nat fuel ->
  size < 4294967296 ->
  off = 0 \/ off + size <= 512 -> off + size <= 512 * Z.of_nat n ->
  exists s', readSectors fuel v sec off size s =
    Ret (take (Z.to_nat size) (drop (Z.to_nat off) (diskRange disk sec n))) s' /\ ok s'.
Proof.
  induction fuel as [|fuel IH]; intros v sec off size s n Hs Hb Hsec Hn Ho Hsz Hlt Hal Hfit.
  - exists s. replace size with 0 by lia. done.
  - cbn [readSectors]. rewrite Z.gtb_ltb. destruct (Z.ltb_spec 0 size) as [Hpos|Hz]; cbn [negb].
    2: { exists s. replace size with 0 by lia. done. }
    destruct n as [|n]; [lia|].
    destruct (cache_read (ok := ok) (disk := disk) sec s Hs ltac:(lia)) as (h & s1 & s2 & Hrd & Hd & Hrel & Hok).
    rewrite (bind_Ret _ _ _ _ _ Hrd). rewrite bind_gets, Hd.
    rewrite Hb. cbv zeta.
    set (c := if size <? 512 then size else 512).
    assert (Hc : c = Z.min size 512) by (unfold c; destruct (Z.ltb_spec size 512); lia).
    rewrite slice_Some by (rewrite ?(disk_length (ok := ok)); lia).
    rewrite bind_checked. rewrite (bind_Ret _ _ _ _ _ Hrel).
    rewrite u32_small by lia.
    destruct n as [|n].
    + replace (u32 (size - c)) with 0 by (rewrite u32_small; lia).
      exists s2. split; [|done]. rewrite (bind_Ret _ _ _ [] s2) by (by destruct fuel).
      rewrite app_nil_r. cbn [diskRange]. rewrite app_nil_r. replace c with size by lia. done.
    + rewrite (u32_small (size - c)) by lia.
      destruct (IH v (sec + 1) 0 (size - c) s2 (Datatypes.S n)) as (s3 & Hr & Hok3); try done; try lia.
      exists s3. split; [|done]. rewrite (bind_Ret _ _ _ _ _ Hr). cbn [diskRange]. unfold mret, M_ret.
      f_equal. rewrite drop_0. pose proof (disk_length (ok := ok) sec) as Hl.
      destruct (Z.le_gt_cases (off + size) 512).
      * replace (size - c) with 0 by lia. rewrite take_0, app_nil_r.
        replace c with size by lia. rewrite take_drop_app_l by lia. done.
      * replace off with 0 by lia. change (Z.to_nat 0) with 0%nat.
        rewrite take_drop_app_split by lia. rewrite !drop_0. f_equal.
        -- rewrite take_ge by lia. done.
        -- f_equal. lia.
Qed.

(** The size computations of [fsFat12ReadCluster], done. *)
Lemma fsFat12ReadCluster_unfold v c off size s :
  vol_ok v -> 2 <= c < 65536 ->
  0 <= off < ClusterSize (mountInfo v) -> 0 < size < 4294967296 ->
  let n := Z.min size (ClusterSize (mountInfo v) - off) in
  fsFat12ReadCluster v 0 c off size s =
    (buffer ← readSectors (Z.to_nat n) v (clusterStart v c + off / 512) (off mod 512) n;
     mret (buffer, n)) s.
Proof.
  intros (Hb & Hspc & Hcs & Hro & Hrs) Hc Hoff Hsize n.
  set (spc := SectorsPerCluster (Bpb (bootSector v))) in *.
  unfold fsFat12ReadCluster. fold spc. rewrite Hb. rewrite !Z.gtb_ltb, Z.geb_leb.
  set (CS := ClusterSize (mountInfo v)) in *. cbv zeta.
  rewrite (proj2 (Z.leb_gt CS off)) by lia.
  assert (E : (if CS <? u32 (off + (if CS <? size then CS else size)) then u32 (CS - off)
    else if CS <? size then CS else size) = n).
  { unfold n. destruct (Z.ltb_spec CS size); rewrite (u32_small (off + _)) by lia;
      match goal with |- context [Z.ltb CS ?x] => destruct (Z.ltb_spec CS x) end;
      rewrite ?u32_small by lia; lia. }
  rewrite E. clear E.
  assert (Hprod : 0 <= (c - 2) * spc <= 65533 * 255) by nia.
  assert (Hst : u32 (RootOffset (mountInfo v) + RootSize (mountInfo v) + u32 (u32 (c - 2) * spc))
    = clusterStart v c).
  { unfold clusterStart. fold spc. rewrite (u32_small (c - 2)) by lia.
    rewrite (u32_small ((c - 2) * spc)) by lia. rewrite u32_small by lia. done. }
  rewrite Hst. clear Hst.
  assert (Hst : 0 <= clusterStart v c < 4000000000) by (unfold clusterStart; fold spc; lia).
  destruct (Z.ltb_spec 0 off) as [Hp|Hp].
  - rewrite (u32_small (clusterStart v c + off / 512)) by zdiv.
    rewrite (u32_small (off / 512 * 512 + off mod 512)) by zdiv.
    rewrite u32_small by zdiv.
    rewrite (proj2 (Z.ltb_ge (CS - (off / 512 * 512 + off mod 512)) n)) by zdiv. done.
  - replace off with 0 in * by lia. change (0 / 512) with 0. change (0 mod 512) with 0.
    rewrite Z.add_0_r. done.
Qed.

Lemma clusterStart_bound v c :
  vol_ok v -> 2 <= c < 65536 ->
  0 <= clusterStart v c /\ clusterStart v c + SectorsPerCluster (Bpb (bootSector v)) <= 268435456.
Proof. intros (_ & ? & _ & ? & ?) ?. unfold clusterStart. nia. Qed.

Lemma fsFat12ReadCluster_spec v c off size s :
  ok s -> vol_ok v -> 2 <= c < 65536 ->
  0 <= off < ClusterSize (mountInfo v) -> 0 < size < 4294967296 ->
  let n := Z.min size (ClusterSize (mountInfo v) - off) in
  sector_safe off n ->
  exists s', fsFat12ReadCluster v 0 c off size s =
    Ret (take (Z.to_nat n) (drop (Z.to_nat off) (clusterData disk v c)), n) s' /\ ok s'.
Proof.
  intros Hs Hv Hc Hoff Hsize n Hsafe. rewrite fsFat12ReadCluster_unfold by done. fold n.
  pose proof (clusterStart_bound v c Hv Hc) as Hst.
  destruct Hv as (Hb & Hspc & Hcs & _).
  set (spc := SectorsPerCluster (Bpb (bootSector v))) in *.
  assert (Hdiv : 0 <= off / 512 < spc) by zdiv.
  destruct (readSectors_spec (Z.to_nat n) v (clusterStart v c + off / 512) (off mod 512) n s
    (Z.to_nat (spc - off / 512))) as (s' & Hr & Hok'); try done; try lia; try exact Hsafe; try zdiv.
  exists s'. split; [|done]. rewrite (bind_Ret _ _ _ _ _ Hr). unfold mret, M_ret.
  do 2 f_equal. f_equal. unfold clusterData. fold spc.
  replace (Z.to_nat (spc - off / 512)) with (Z.to_nat spc - Z.to_nat (off / 512))%nat by lia.
  rewrite <- (Z2Nat.id (off / 512)) at 1 by lia. rewrite <- diskRange_drop by lia.
  rewrite drop_drop. f_equal. zdiv.
Qed.

(** A read that is not [sector_safe] takes its first chunk past the end of
    the sector buffer. *)
Lemma fsFat12ReadCluster_past_data v c off size s :
  ok s -> vol_ok v -> 2 <= c < 65536 ->
  0 <= off < ClusterSize (mountInfo v) -> 0 < size < 4294967296 ->
  ~ sector_safe off (Z.min size (ClusterSize (mountInfo v) - off)) ->
  fsFat12ReadCluster v 0 c off size s = Fault "fsFat12ReadCluster: past Data".
Proof.
  intros Hs Hv Hc Hoff Hsize Hsafe. rewrite fsFat12ReadCluster_unfold by done.
  set (n := Z.min size _) in *. pose proof (clusterStart_bound v c Hv Hc) as Hst.
  destruct Hv as (Hb & Hspc & Hcs & _). unfold sector_safe in Hsafe.
  assert (Hsec : 0 <= clusterStart v c + off / 512 < 268435456) by zdiv.
  destruct (cache_read (ok := ok) (disk := disk) _ s Hs Hsec) as (h & s1 & s2 & Hrd & Hd & _).
  destruct (Z.to_nat n) as [|fuel] eqn:En; [lia|]. cbn [readSectors].
  rewrite Z.gtb_ltb, (proj2 (Z.ltb_lt 0 n)) by lia. cbn [negb]. rewrite bind_assoc.
  rewrite (bind_Ret _ _ _ _ _ Hrd), bind_assoc, bind_gets, Hd, Hb. cbv zeta.
  rewrite slice_None; [done|zdiv|]. rewrite (disk_length (ok := ok)).
  destruct (Z.ltb_spec n 512); zdiv.
Qed.

Lemma clusterData_length v c :
  vol_ok v -> Z.of_nat (length (clusterData disk v c)) = ClusterSize (mountInfo v).
Proof.
  intros (_ & ? & -> & _). unfold clusterData. rewrite diskRange_length. lia.
Qed.

Lemma chainData_cons v c cs :
  chainData disk v (c :: cs) = clusterData disk v c ++ chainData disk v cs.
Proof. reflexivity. Qed.

Lemma hopClusters_chain v k : forall cs c d,
  chain v cs -> cs !! 0%nat = Some c -> cs !! k = Some d ->
  hopClusters k v c = d /\ chain v (drop k cs).
Proof.
  induction k as [|k IH]; intros cs c d Hch H0 Hk.
  - cbn [hopClusters]. rewrite drop_0. naive_solver.
  - destruct cs as [|x [|y cs]]; [done| |].
    + apply lookup_lt_Some in Hk. cbn [length] in Hk. lia.
    + injection H0 as ->. destruct Hch as (_ & Hn & Hch). cbn [hopClusters drop]. rewrite Hn.
      by apply (IH _ _ d Hch).
Qed.

Lemma chainData_drop v k : forall cs off,
  vol_ok v -> (k <= length cs)%nat ->
  drop (k * Z.to_nat (ClusterSize (mountInfo v)) + off) (chainData disk v cs) =
    drop off (chainData disk v (drop k cs)).
Proof.
  induction k as [|k IH]; intros cs off Hv Hk; [by rewrite drop_0|].
  destruct cs as [|c cs]; cbn [length] in *; [lia|].
  rewrite chainData_cons. cbn [drop]. rewrite <- IH by (done || lia).
  pose proof (clusterData_length v c Hv) as Hl.
  replace (Datatypes.S k * Z.to_nat (ClusterSize (mountInfo v)) + off)%nat
    with (length (clusterData disk v c) + (k * Z.to_nat (ClusterSize (mountInfo v)) + off))%nat by lia.
  apply drop_app_add.
Qed.

(** What a read that stays inside the file leaves of the file structure. *)
Definition after_read (file : File) (len : Z) : File :=
  let file := set_Position (Position file + len) file in
  if Position file =? Size_ file then set_Eof 1 file else file.

Lemma readClusters_spec fuel : forall v file c cs off len total buffer s,
  ok s -> vol_ok v -> chain v (c :: cs) -> Type_ file = FD_FILE ->
  let CS := ClusterSize (mountInfo v) in
  0 <= off < CS -> 0 < len <= Z.of_nat fuel -> 0 <= total -> total + len < 4294967296 ->
  0 <= Position file -> Position file + len <= Size_ file -> Size_ file < 4294967296 ->
  Size_ file - Position file <= CS * Z.of_nat (length (c :: cs)) - off ->
  sector_safe off (Z.min len (CS - off)) ->
  exists s', readClusters fuel v file c off len total buffer s =
    Ret (total + len, buffer ++ take (Z.to_nat len) (drop (Z.to_nat off) (chainData disk v (c :: cs))),
         after_read file len) s' /\ ok s'.
Proof.
  induction fuel as [|fuel IH];
    intros v file c cs off len total buffer s Hs Hv Hch Hty CS Hoff Hlen Ht Htl Hpos Hps Hsz Hfit Hsafe; [lia|].
  pose proof Hch as (Hc & Hnext & Hch').
  pose proof (clusterData_length v c Hv) as Hcl. fold CS in Hcl.
  assert (HCS : 0 < CS < 4294967296) by (destruct Hv as (_ & ? & ? & _); lia).
  cbn [readClusters]. rewrite Z.gtb_ltb, (proj2 (Z.ltb_lt 0 len)) by lia. cbn [negb].
  destruct (fsFat12ReadCluster_spec v c off len s) as (s1 & Hr & Hs1); try done; [lia|].
  rewrite (bind_Ret _ _ _ _ _ Hr). cbv zeta. fold CS. fold CS in Hr.
  set (n := Z.min len (CS - off)) in *.
  replace (Type_ (set_Position _ file)) with (Type_ file) by reflexivity.
  replace (Size_ (set_Position _ file)) with (Size_ file) by reflexivity.
  replace (Position (set_Position (u32 (Position file + n)) file)) with (Position file + n)
    by (cbn; rewrite u32_small; lia).
  rewrite (u32_small (Position file + n)), (u32_small (total + n)), (u32_small (len - n)),
    (u32_small (off + n)), Z.geb_leb by lia.
  rewrite chainData_cons.
  destruct (Z.leb_spec (Size_ file) (Position file + n)) as [Hend|Hmore].
  - assert (len <= CS - off) by lia. assert (len <= CS - off) by lia. assert (n = len) as -> by lia.
    rewrite bool_decide_eq_true_2 by done. cbn [andb]. exists s1. split; [|done].
    rewrite take_drop_app_l by lia. unfold after_read. cbn [Position Size_ set_Position].
    rewrite (proj2 (Z.eqb_eq _ _)) by lia. done.
  - cbn [andb]. destruct (Z.eqb_spec (off + n) CS) as [Hb|Hb].
    + destruct cs as [|c' cs]; [cbn [length] in Hfit; lia|]. rewrite Hnext.
      pose proof Hch' as (Hc' & _ & _). rewrite (proj2 (Z.eqb_neq c' 0)) by lia.
      destruct (Z.eq_dec len n) as [El|El].
      * rewrite <- El in *. replace (len - len) with 0 by lia.
        exists s1. split; [|done]. rewrite take_drop_app_l by lia. unfold after_read.
        cbn [Position Size_ set_Position]. rewrite (proj2 (Z.eqb_neq _ _)) by lia. by destruct fuel.
      * destruct (IH v (set_Position (Position file + n) file) c' cs 0 (len - n) (total + n)
          (buffer ++ take (Z.to_nat n) (drop (Z.to_nat off) (clusterData disk v c))) s1) as (s2 & Hr2 & Hs2);
          try done; cbn [Position Size_ set_Position]; try (cbn [length] in *; lia).
        { by left. }
        exists s2. split; [|done]. rewrite Hr2. rewrite drop_0.
        rewrite take_drop_app_split by lia. rewrite <- app_assoc.
        replace (total + n + (len - n)) with (total + len) by lia.
        unfold after_read. cbn [Position Size_ set_Position].
        replace (Position file + n + (len - n)) with (Position file + len) by lia.
        rewrite (take_ge (drop _ _)) by (rewrite length_drop; lia).
        replace (Z.to_nat len - (length (clusterData disk v c) - Z.to_nat off))%nat
          with (Z.to_nat (len - n)) by lia. reflexivity.
    + rewrite (proj2 (Z.eqb_neq c 0)) by lia. assert (len <= CS - off) by lia. assert (n = len) as -> by lia.
      replace (len - len) with 0 by lia. exists s1. split; [|done].
      rewrite take_drop_app_l by lia. unfold after_read. cbn [Position Size_ set_Position].
      rewrite (proj2 (Z.eqb_neq _ _)) by lia. by destruct fuel.
Qed.

Lemma fsFat12Read_spec v file cs len s :
  ok s -> vol_ok v ->
  chain v cs -> cs !! 0%nat = Some (FirstCluster (FileEntry file)) ->
  Size_ file <= ClusterSize (mountInfo v) * Z.of_nat (length cs) ->
  Type_ file = FD_FILE -> Eof file = 0 ->
  0 < len -> 0 <= Position file -> Position file + len <= Size_ file -> Size_ file < 4294967296 ->
  sector_safe (Position file mod ClusterSize (mountInfo v))
    (Z.min len (ClusterSize (mountInfo v) - Position file mod ClusterSize (mountInfo v))) ->
  exists s',
    fsFat12Read v file len s =
      Ret (len, take (Z.to_nat len) (drop (Z.to_nat (Position file)) (chainData disk v cs)),
           after_read file len) s' /\
    ok s'.
Proof.
  intros Hs Hv Hch H0 Hcov Hty Heof Hlen Hpos Hps Hsz Hsafe.
  unfold fsFat12Read. rewrite bool_decide_eq_true_2 by (by left). rewrite Heof. cbn [andb Z.eqb].
  set (CS := ClusterSize (mountInfo v)) in *.
  assert (HCS : 0 < CS) by (destruct Hv as (_ & ? & ? & _); lia).
  rewrite (proj2 (Z.eqb_neq CS 0)) by lia. cbv zeta.
  set (k := Z.to_nat (Position file / CS)). set (off := Position file mod CS) in *.
  assert (Hk : Position file = CS * Z.of_nat k + off /\ 0 <= off < CS).
  { unfold k, off. pose proof (Z.div_mod (Position file) CS ltac:(lia)).
    pose proof (Z.mod_pos_bound (Position file) CS HCS). pose proof (Z.div_pos (Position file) CS Hpos HCS).
    lia. }
  assert (Hkl : (k < length cs)%nat) by nia.
  destruct (lookup_lt_is_Some_2 cs k Hkl) as [c Hc].
  destruct (hopClusters_chain v k cs _ c Hch H0 Hc) as [-> Hch'].
  pose proof (drop_S _ _ _ Hc) as Hd. rewrite Hd in Hch'.
  destruct (readClusters_spec (Z.to_nat len) v file c (drop (Datatypes.S k) cs) off len 0 [] s)
    as (s' & Hr & Hs'); try done; try lia.
  { fold CS. rewrite <- Hd, length_drop. nia. }
  exists s'. split; [|done]. rewrite Hr. rewrite <- Hd.
  rewrite <- (chainData_drop) by (done || lia). fold CS.
  replace (k * Z.to_nat CS + Z.to_nat off)%nat with (Z.to_nat (Position file)) by nia. done.
Qed.

(** A read in the first cluster that reaches the end of the file. *)
Lemma fsFat12Read_past_end v file len s :
  ok s -> vol_ok v -> 2 <= FirstCluster (FileEntry file) < 65536 ->
  Type_ file = FD_FILE -> Eof file = 0 ->
  0 < len -> 0 <= Position file -> Position file + len <= ClusterSize (mountInfo v) ->
  sector_safe (Position file) len ->
  Size_ file <= Position file + len ->
  exists s',
    fsFat12Read v file len s =
      Ret (len, take (Z.to_nat len) (drop (Z.to_nat (Position file))
                  (clusterData disk v (FirstCluster (FileEntry file)))),
           set_Eof 1 (set_Position (Position file + len) file)) s' /\
    ok s'.
Proof.
  intros Hs Hv Hc Hty Heof Hlen Hpos Hfit Hsafe Hover.
  unfold fsFat12Read. rewrite bool_decide_eq_true_2 by (by left). rewrite Heof. cbn [andb Z.eqb].
  set (CS := ClusterSize (mountInfo v)) in *.
  assert (HCS : 0 < CS < 4294967296) by (destruct Hv as (_ & ? & ? & _); lia).
  rewrite (proj2 (Z.eqb_neq CS 0)) by lia. cbv zeta.
  rewrite (Z.div_small (Position file) CS), (Z.mod_small (Position file) CS) by lia. cbn [Z.to_nat hopClusters].
  replace (Z.to_nat len) with (Datatypes.S (Z.to_nat (len - 1))) by lia. cbn [readClusters].
  rewrite Z.gtb_ltb, (proj2 (Z.ltb_lt 0 len)) by lia. cbn [negb].
  destruct (fsFat12ReadCluster_spec v (FirstCluster (FileEntry file)) (Position file) len s)
    as (s' & Hr & Hs'); fold CS; try done; try lia.
  { by replace (Z.min len (CS - Position file)) with len by lia. }
  fold CS in Hr. replace (Z.min len (CS - Position file)) with len in Hr by lia.
  exists s'. split; [|done]. rewrite (bind_Ret _ _ _ _ _ Hr). cbv zeta.
  cbn [Position Size_ Type_ set_Position]. rewrite (u32_small (Position file + len)) by lia.
  rewrite Z.geb_leb, (proj2 (Z.leb_le _ _)), bool_decide_eq_true_2 by (done || lia). cbn [andb].
  rewrite !u32_small by lia. replace (Datatypes.S (Z.to_nat (len - 1))) with (Z.to_nat len) by lia. done.
Qed.

End ReadProofs.

(** ** The table on disk *)

(** Byte [i] of a FAT12 table with the 12-bit entries [e]: three bytes hold
    two entries. *)
Definition fatByte (e : Z -> Z) (i : Z) : Z :=
  let k := i / 3 in
  if i mod 3 =? 0 then e (2 * k) mod 256
  else if i mod 3 =? 1 then e (2 * k) / 256 + 16 * (e (2 * k + 1) mod 16)
  else e (2 * k + 1) / 16.

Lemma land_4095 z : Z.land z 4095 = z mod 4096.
Proof. change 4095 with (Z.ones 12). apply Z.land_ones. lia. Qed.

Lemma land_1 z : Z.land z 1 = z mod 2.
Proof. change 1 with (Z.ones 1). apply Z.land_ones. lia. Qed.

Lemma fatByte_pair e k :
  (forall j, 0 <= e j < 4096) -> 0 <= k ->
  (fatByte e (3 * k) + 256 * fatByte e (3 * k + 1)) mod 4096 = e (2 * k) /\
  (fatByte e (3 * k + 1) + 256 * fatByte e (3 * k + 2)) / 16 = e (2 * k + 1).
Proof.
  intros He Hk. unfold fatByte. cbv zeta.
  replace (3 * k / 3) with k by zdiv. replace (3 * k mod 3) with 0 by zdiv.
  replace ((3 * k + 1) / 3) with k by zdiv. replace ((3 * k + 1) mod 3) with 1 by zdiv.
  replace ((3 * k + 2) / 3) with k by zdiv. replace ((3 * k + 2) mod 3) with 2 by zdiv.
  cbn [Z.eqb Pos.eqb]. pose proof (He (2 * k)). pose proof (He (2 * k + 1)).
  split; zdiv.
Qed.

(** * Properties *)

(** C39. The file allocation table round-trips: on a table that encodes the
    12-bit entries [e], [fsFat12GetNextCluster] returns the entry of the
    cluster, and 0 for an end-of-chain mark or a free entry. *)
Theorem fsFat12GetNextCluster_decodes v e cluster :
  (forall j, 0 <= e j < 4096) -> (forall i, 0 <= i -> fat v i = fatByte e i) ->
  0 <= cluster < 65536 ->
  fsFat12GetNextCluster v cluster =
    if (4088 <=? e cluster) || (e cluster =? 0) then 0 else e cluster.
Proof.
  intros He Hf Hc. unfold fsFat12GetNextCluster. rewrite u32_small by zdiv. cbv zeta.
  rewrite land_1, land_4095, Z.geb_leb, Z.shiftr_div_pow2 by lia. change (2 ^ 4) with 16.
  set (k := cluster / 2). destruct (fatByte_pair e k He ltac:(unfold k; zdiv)) as [Heven Hodd].
  assert (Hcase : cluster mod 2 = 0 /\ cluster = 2 * k \/ cluster mod 2 = 1 /\ cluster = 2 * k + 1)
    by (unfold k; zdiv).
  assert (Hn : (if negb (cluster mod 2 =? 0)
    then (fat v (cluster + k) + 256 * fat v (cluster + k + 1)) / 16
    else (fat v (cluster + k) + 256 * fat v (cluster + k + 1)) mod 4096) = e cluster).
  { destruct Hcase as [[-> E]|[-> E]]; cbn [Z.eqb negb]; rewrite !Hf by lia; rewrite E.
    - replace (2 * k + k) with (3 * k) by lia. done.
    - replace (2 * k + 1 + k) with (3 * k + 1) by lia.
      replace (3 * k + 1 + 1) with (3 * k + 2) by lia. done. }
  rewrite Hn. destruct (4088 <=? e cluster); [done|]. by destruct (e cluster =? 0).
Qed.

(** A read is not cut off at the end of the file: any read that stays in
    the first cluster returns the [len] bytes asked for, also when fewer bytes
    of the file are left, and only then sets end-of-file. *)
Theorem fsFat12Read_not_clipped {S : Type} `{BlockCache S} (ok : S -> Prop) (disk : Z -> list Z)
    `{!BlockCacheLaws S ok disk} (v : Volume) (file : File) (len : Z) (s : S) :
  ok s -> vol_ok v -> 2 <= FirstCluster (FileEntry file) < 65536 ->
  Type_ file = FD_FILE -> Eof file = 0 ->
  0 < len -> 0 <= Position file -> Position file + len <= ClusterSize (mountInfo v) ->
  sector_safe (Position file) len ->
  Size_ file < Position file + len ->
  exists s',
    fsFat12Read v file len s =
      Ret (len, take (Z.to_nat len) (drop (Z.to_nat (Position file))
                  (clusterData disk v (FirstCluster (FileEntry file)))),
           set_Eof 1 (set_Position (Position file + len) file)) s' /\
    ok s'.
Proof. intros. apply (fsFat12Read_past_end ok disk); (done || lia). Qed.

(** A cluster read that starts inside a sector and runs past its end
    copies beyond the 512 bytes of the sector buffer. *)
Theorem fsFat12ReadCluster_unaligned {S : Type} `{BlockCache S} (ok : S -> Prop) (disk : Z -> list Z)
    `{!BlockCacheLaws S ok disk} (v : Volume) (c off size : Z) (s : S) :
  ok s -> vol_ok v -> 2 <= c < 65536 ->
  0 <= off < ClusterSize (mountInfo v) -> 0 < size < 4294967296 ->
  off mod 512 <> 0 -> 512 < off mod 512 + Z.min size (ClusterSize (mountInfo v) - off) ->
  fsFat12ReadCluster v 0 c off size s = Fault "fsFat12ReadCluster: past Data".
Proof.
  intros. apply (fsFat12ReadCluster_past_data ok disk); try done. unfold sector_safe. lia.
Qed.

(** * A concrete volume *)

(** A disk read directly, without a cache. *)
Definition directCache (disk : Z -> list Z) : BlockCache unit :=
  {| handle := Z;
     diskBufferRead := fun _ sec => mret sec;
     bufferData := fun sec _ => disk sec;
     diskBufferRelease := fun _ => mret tt |}.

Lemma directCache_laws disk :
  (forall sec, length (disk sec) = 512%nat) ->
  @BlockCacheLaws unit (directCache disk) (fun _ => True) disk.
Proof. intros Hl. split; [exact Hl|]. intros sec [] _ _. exists sec, tt, tt. done. Qed.

(** The geometry of the repository's disk image, and a table with the chain
    5, 6. *)
Definition demoBpb : BIOSParameterBlock :=
  mkBpb (replicate 8 32) 512 8 8 2 512 20160 248 8 63 16 1 0.

Definition demoEntries (c : Z) : Z := if c =? 5 then 6 else if c =? 6 then 4095 else 0.

Definition demoVolume : Volume :=
  mkVolume (mkBootSector [] demoBpb (mkBpbExt 0 0 0 0 0 0 []) [])
    (mkMountInfo 20160 8 512 24 32 8 4096) (fatByte demoEntries).

Definition demoDisk (sec : Z) : list Z := replicate 512 (sec mod 256).

Lemma demoDisk_length sec : length (demoDisk sec) = 512%nat.
Proof. apply length_replicate. Qed.

Definition demoEntry (size : Z) : DirectoryEntry :=
  mkDirectoryEntry (replicate 8 65) (replicate 3 66) 32 0 0 0 0 0 0 0 0 5 size.

Definition demoFile (size pos : Z) : File :=
  mkFile FD_FILE 1 1 0 0 (demoEntry size) [] 0 pos size 0.

Lemma demo_ok : vol_ok demoVolume.
Proof. vm_compute. repeat split; congruence. Qed.

Lemma fsFat12GetNextCluster_decodes_witness :
  fsFat12GetNextCluster demoVolume 5 = 6 /\ fsFat12GetNextCluster demoVolume 6 = 0.
Proof.
  split.
  - rewrite (fsFat12GetNextCluster_decodes demoVolume demoEntries 5); try done.
    intros j. unfold demoEntries. repeat case_match; lia.
  - rewrite (fsFat12GetNextCluster_decodes demoVolume demoEntries 6); try done.
    intros j. unfold demoEntries. repeat case_match; lia.
Defined.

(** Five bytes are left, 512 are returned. *)
Lemma fsFat12Read_not_clipped_witness :
  exists out f s', @fsFat12Read unit (directCache demoDisk) demoVolume (demoFile 5 0) 512 tt = Ret (512, out, f) s'.
Proof.
  destruct (@fsFat12Read_not_clipped unit (directCache demoDisk) (fun _ => True) demoDisk
    (directCache_laws demoDisk demoDisk_length) demoVolume (demoFile 5 0) 512 tt I demo_ok)
    as (s' & H & _); try (vm_compute; congruence).
  - cbn. lia.
  - left. reflexivity.
  - eexists _, _, s'. exact H.
Defined.

(** 40 bytes at offset 500, as [exec] reads a section header. *)
Lemma fsFat12ReadCluster_unaligned_witness :
  @fsFat12ReadCluster unit (directCache demoDisk) demoVolume 0 5 500 40 tt =
    Fault "fsFat12ReadCluster: past Data".
Proof.
  apply (@fsFat12ReadCluster_unaligned unit (directCache demoDisk) (fun _ => True) demoDisk
    (directCache_laws demoDisk demoDisk_length) demoVolume 5 500 40 tt I demo_ok); (lia || vm_compute; (congruence || split; congruence)).
Defined.
