(* ===== verification/Fat12Dir.v ===== *)
(** fs.c, second part: mounting the volume, looking names up in directories
    and opening paths.  Besides the buffer cache the code here uses the file
    table of file.c, again as an interface ([FileTable]).

    Arrays on the stack that the code does not initialise ([path], [pathPart],
    [buf]) are arguments: what they hold before the call is arbitrary. *)

From S2P Require Import Prelude CString CArray Types Fat12.

(** * The file table, as fs.c uses it *)

(** A [File *] is the index of its slot; [None] is the null pointer. *)
Class FileTable (S : Type) : Type := {
  allocateFileStructure : M S (option nat);
  fileClose : nat -> M S unit;
  files : S -> list File;
  set_files : list File -> S -> S
}.

Section Lookup.
Context {S : Type} `{BlockCache S} `{FileTable S}.

(** Access through a [File *]. *)
Definition getFile (p : nat) : M S File :=
  fs ← gets files; checked "File: bad pointer" (fs !! p).

Definition putFile (p : nat) (f : File) : M S unit :=
  puts (fun s => set_files (<[p := f]> (files s)) s).

(** ** Mounting *)

(** [memmove] of [data] to the byte [o] of an array seen as a function. *)
Definition blockStore (f : Z -> Z) (o : Z) (data : list Z) : Z -> Z :=
  fun i => if (o <=? i) && (i <? o + Z.of_nat (length data)) then nth (Z.to_nat (i - o)) data 0 else f i.

(** [&fat + fatOffset] steps in units of the whole array, [512 * MAXFATSIZE]
    bytes. *)
Fixpoint loadFat (n : nat) (fatBytes : Z -> Z) (sector fatOffset : Z) : M S (Z -> Z) :=
  match n with
  | O => mret fatBytes
  | Datatypes.S n =>
      fatContents ← diskBufferRead 0 sector;
      data ← gets (bufferData fatContents);
      data ← checked "fsFat12Initialise: Data" (slice data 0 512);
      let fatBytes := blockStore fatBytes (fatOffset * (512 * MAXFATSIZE)) data in
      diskBufferRelease fatContents;;
      loadFat n fatBytes (u32 (sector + 1)) (u32 (fatOffset + 512))
  end.

(** [fatBytes] is the memory from the array [fat] on before the call. *)
Definition fsFat12Initialise (fatBytes : Z -> Z) : M S Volume :=
  bpb ← diskBufferRead 0 0;
  data ← gets (bufferData bpb);
  let boot := BootSector_of_bytes data in
  diskBufferRelease bpb;;
  let b := Bpb boot in
  if negb (BytesPerSector b =? 512) then panic "Sector size != 512"
  else
    let mi := mkMountInfo (BpbNumSectors b) (ReservedSectors b) (NumDirEntries b)
                (u32 (NumberOfFats b * SectorsPerFat b + ReservedSectors b))
                (u32 (NumDirEntries b * 32 / BytesPerSector b))
                (SectorsPerFat b)
                (u32 (SectorsPerCluster b * BytesPerSector b)) in
    if FatSize mi >? MAXFATSIZE then panic "FAT too large"
    else
      fatBytes ← loadFat (Z.to_nat (FatSize mi)) fatBytes (u32 (FatOffset mi)) 0;
      mret (mkVolume boot mi fatBytes).

(** ** File structures *)

Definition fsFat12CreateFileStructure (directoryEntry : DirectoryEntry) (filename : list Z) : M S (option nat) :=
  file ← allocateFileStructure;
  match file with
  | None => mret None
  | Some p =>
      f ← getFile p;
      name ← checked "fsFat12CreateFileStructure: Name" (arr_strcpy (FileName f) filename);
      putFile p (set_Type_ FD_FILE (set_Eof 0 (set_Position 0 (set_Size_ (FileSize directoryEntry)
        (set_FileEntry directoryEntry (set_FileName name f))))));;
      mret (Some p)
  end.

(** ** Looking a name up *)

(** The 8.3 name of [nameToFind]; every byte of the array is written. *)
Definition dosName (nameToFind : list Z) : M S (list Z) :=
  conv ← checked "toDosFileName" (toDosFileName nameToFind (replicate 12 0) 11);
  checked "dosFileName" (wr conv 11 0).

(** The 11 name bytes of an entry, NUL-terminated: the array [name]. *)
Definition entryName (entry : list Z) : list Z := take 11 entry ++ [0].

(** The entries of a sector of the root directory from [data] on; an entry
    whose first byte is 0 is skipped. *)
Fixpoint scanRoot (n : nat) (data dosFileName : list Z) : option (option DirectoryEntry) :=
  match n with
  | O => Some None
  | Datatypes.S n =>
      entry ← slice data 0 32;
      c ← rd entry 0;
      found ← (if negb (c =? 0) then r ← arr_strcmp dosFileName (entryName entry); Some (r =? 0)
               else Some false);
      if (found : bool) then Some (Some (DirectoryEntry_of_bytes entry))
      else scanRoot n (drop 32 data) dosFileName
  end.

Fixpoint scanRootSectors (n : nat) (sector : Z) (dosFileName : list Z) : M S (option DirectoryEntry) :=
  match n with
  | O => mret None
  | Datatypes.S n =>
      buf ← diskBufferRead 0 sector;
      data ← gets (bufferData buf);
      found ← checked "fsFat12FindInRootDirectory" (scanRoot 16 data dosFileName);
      diskBufferRelease buf;;
      match found with
      | Some e => mret (Some e)
      | None => scanRootSectors n (u32 (sector + 1)) dosFileName
      end
  end.

(** [None]: returns 0; [Some e]: returns 1 and stores [e]. *)
Definition fsFat12FindInRootDirectory (v : Volume) (nameToFind : list Z) : M S (option DirectoryEntry) :=
  dosFileName ← dosName nameToFind;
  let rootDirectorySectorCount := NumRootEntries (mountInfo v) / 16 in
  scanRootSectors (Z.to_nat rootDirectorySectorCount) (RootOffset (mountInfo v)) dosFileName.

(** The entries of the buffer of a subdirectory: every entry is compared. *)
Fixpoint scanSub (n : nat) (buf dosFileName : list Z) : option (option DirectoryEntry) :=
  match n with
  | O => Some None
  | Datatypes.S n =>
      entry ← slice buf 0 32;
      r ← arr_strcmp (entryName entry) dosFileName;
      if r =? 0 then Some (Some (DirectoryEntry_of_bytes entry))
      else scanSub n (drop 32 buf) dosFileName
  end.

Fixpoint subDirectoryLoop (fuel : nat) (v : Volume) (p : nat) (buf dosFileName : list Z) : M S (option DirectoryEntry) :=
  subDirectory ← getFile p;
  if negb (Eof subDirectory =? 0) then mret None
  else match fuel with
  | O => spin
  | Datatypes.S fuel =>
      '(_, bytes, subDirectory) ← fsFat12Read v subDirectory 512;
      putFile p subDirectory;;
      let buf := bytes ++ drop (length bytes) buf in
      found ← checked "fsFat12FindInSubDirectory" (scanSub 16 buf dosFileName);
      match found with
      | Some e => mret (Some e)
      | None => subDirectoryLoop fuel v p buf dosFileName
      end
  end.

(** [foundDirectoryEntry] is the entry of the directory to search; the number
    of rounds of the loop is bounded by its size in sectors. *)
Definition fsFat12FindInSubDirectory (v : Volume) (nameToFind buf : list Z) (foundDirectoryEntry : DirectoryEntry) : M S (option DirectoryEntry) :=
  subDirectory ← fsFat12CreateFileStructure foundDirectoryEntry [0];
  dosFileName ← dosName nameToFind;
  match subDirectory with
  | None => fault "fsFat12FindInSubDirectory: null subDirectory"
  | Some p =>
      found ← subDirectoryLoop (Z.to_nat (FileSize foundDirectoryEntry / 512 + 1)) v p buf dosFileName;
      fileClose p;;
      mret found
  end.

(** ** Paths *)

(** The position of the first separator or NUL of [path]. *)
Fixpoint partEnd (path : list Z) : option (Z * Z) :=
  match path with
  | [] => None
  | c :: path =>
      if negb (c =? 0) && negb (c =? 92) && negb (c =? 47)
      then '(n, e) ← partEnd path; Some (n + 1, e)
      else Some (0, c)
  end.

(** The array [pathPart] after the call and the value returned. *)
Definition fsGetPathPart (path pathPart : list Z) : option (list Z * Z) :=
  '(partLength, c) ← partEnd path;
  pathPart ← arr_strcpy pathPart path;
  pathPart ← wr pathPart partLength 0;
  Some (pathPart, if c =? 0 then 0 else partLength).

(** The loop of [fsFat12Open].  [path] is the array from [p] on; [dir] is
    [None] while the root directory is to be searched. *)
Fixpoint openLoop (fuel : nat) (v : Volume) (path pathPart buf filename : list Z) (directory : Z) (dir : option DirectoryEntry) : M S (option nat) :=
  match fuel with
  | O => spin
  | Datatypes.S fuel =>
      '(pathPart, partLength) ← checked "fsGetPathPart" (fsGetPathPart path pathPart);
      found ← match dir with
              | None => fsFat12FindInRootDirectory v pathPart
              | Some d => fsFat12FindInSubDirectory v pathPart buf d
              end;
      match found with
      | None => mret None
      | Some e =>
          if partLength =? 0 then
            if (directory =? 1) && negb (Attrib e =? 16) then mret None
            else
              fileStructure ← fsFat12CreateFileStructure e filename;
              (if directory =? 1 then
                 match fileStructure with
                 | None => fault "fsFat12Open: null fileStructure"
                 | Some p => f ← getFile p; putFile p (set_Type_ FD_DIR f)
                 end
               else mret tt);;
              mret fileStructure
          else if negb (Attrib e =? 16) then mret None
          else openLoop fuel v (drop (Z.to_nat (partLength + 1)) path) pathPart buf filename directory (Some e)
      end
  end.

(** The full path: [filename] itself if it starts with a separator, or the
    current directory followed by [filename]. *)
Definition fullPath (cwd filename path : list Z) : option (list Z) :=
  c ← rd filename 0;
  if (c =? 92) || (c =? 47) then arr_safestrcpy path filename MAXCWDSIZE
  else
    path ← arr_safestrcpy path cwd MAXCWDSIZE;
    cwdLen ← arr_strlen cwd;
    tl ← arr_safestrcpy (drop (Z.to_nat cwdLen) path) filename (MAXCWDSIZE - cwdLen);
    Some (take (Z.to_nat cwdLen) path ++ tl).

(** [path] (255 bytes), [pathPart] (20 bytes) and [buf] (512 bytes) are the
    uninitialised arrays on the stack. *)
Definition fsFat12Open (v : Volume) (cwd filename path pathPart buf : list Z) (directory : Z) : M S (option nat) :=
  path ← checked "fsFat12Open: path" (fullPath cwd filename path);
  openLoop (length path) v (drop 1 path) pathPart buf filename directory None.

End Lookup.

(** * Specifications *)

Definition bytes (l : list Z) : Prop := Forall (fun c => 0 <= c < 256) l.

Lemma nth_byte l o : bytes l -> 0 <= nth o l 0 < 256.
Proof.
  intros Hl. destruct (nth_in_or_default o l 0) as [Hin| ->]; [|lia].
  unfold bytes in Hl. rewrite List.Forall_forall in Hl. by apply Hl.
Qed.

Lemma le16_byte l o : bytes l -> 0 <= le16 l o < 65536.
Proof. intros Hl. unfold le16. pose proof (nth_byte l o Hl). pose proof (nth_byte l (o + 1) Hl). lia. Qed.

Lemma bytes_drop l n : bytes l -> bytes (drop n l).
Proof. apply Forall_drop. Qed.

(** The boot sector's parameter block, on a disk. *)
Definition diskBpb (disk : Z -> list Z) : BIOSParameterBlock := Bpb (BootSector_of_bytes (disk 0)).

Lemma diskBpb_ranges disk : bytes (disk 0) ->
  let b := diskBpb disk in
  0 <= SectorsPerCluster b < 256 /\ 0 <= NumberOfFats b < 256 /\
  0 <= ReservedSectors b < 65536 /\ 0 <= NumDirEntries b < 65536 /\ 0 <= SectorsPerFat b < 65536.
Proof.
  intros Hb b. unfold b, diskBpb, BootSector_of_bytes, Bpb_of_bytes.
  cbn [Bpb SectorsPerCluster NumberOfFats ReservedSectors NumDirEntries SectorsPerFat].
  split_and!; first [apply nth_byte | apply le16_byte]; by apply bytes_drop.
Qed.

Section MountProofs.
Context {S : Type} `{BlockCache S} (ok : S -> Prop) (disk : Z -> list Z).
Context `{!BlockCacheLaws S ok disk}.

(** Past the first sector the loop stores outside the array. *)
Lemma loadFat_outside n : forall f sec off s,
  ok s -> 0 <= sec -> sec + Z.of_nat n < 268435456 -> 512 <= off -> off + 512 * Z.of_nat n < 4294967296 ->
  exists f' s', loadFat n f sec off s = Ret f' s' /\ ok s' /\ forall i, i < 5120 -> f' i = f i.
Proof.
  induction n as [|n IH]; intros f sec off s Hs Hsec Hn Hoff Hlim; cbn [loadFat].
  - eexists _, s. done.
  - destruct (cache_read (ok := ok) (disk := disk) sec s Hs ltac:(lia)) as (h & s1 & s2 & Hrd & Hd & Hrel & Hok).
    rewrite (bind_Ret _ _ _ _ _ Hrd), bind_gets, Hd.
    pose proof (disk_length (ok := ok) (disk := disk) sec) as Hl.
    rewrite slice_Some by lia. rewrite bind_checked. cbv zeta. rewrite (bind_Ret _ _ _ _ _ Hrel).
    rewrite (u32_small (sec + 1)), (u32_small (off + 512)) by lia.
    destruct (IH (blockStore f (off * (512 * MAXFATSIZE)) (take (Z.to_nat 512) (drop (Z.to_nat 0) (disk sec))))
      (sec + 1) (off + 512) s2) as (f' & s' & -> & Hok' & Hf'); try done; try lia.
    eexists _, s'. split; [done|]. split; [done|]. intros i Hi. rewrite Hf' by done.
    unfold blockStore, MAXFATSIZE. rewrite (proj2 (Z.leb_gt _ _)) by lia. done.
Qed.

Lemma loadFat_spec n f sec s :
  ok s -> 0 <= sec -> sec + Z.of_nat n < 268435456 -> 0 < Z.of_nat n < 1000 ->
  exists f' s', loadFat n f sec 0 s = Ret f' s' /\ ok s' /\
    forall i, 0 <= i < 5120 -> f' i = if i <? 512 then nth (Z.to_nat i) (disk sec) 0 else f i.
Proof.
  intros Hs Hsec Hn Hn0. destruct n as [|n]; [lia|]. cbn [loadFat].
  destruct (cache_read (ok := ok) (disk := disk) sec s Hs ltac:(lia)) as (h & s1 & s2 & Hrd & Hd & Hrel & Hok).
  rewrite (bind_Ret _ _ _ _ _ Hrd), bind_gets, Hd.
  pose proof (disk_length (ok := ok) (disk := disk) sec) as Hl.
  rewrite slice_Some by lia. rewrite bind_checked. cbv zeta. rewrite (bind_Ret _ _ _ _ _ Hrel).
  change (Z.to_nat 0) with 0%nat. rewrite drop_0, take_ge by lia.
  rewrite (u32_small (sec + 1)), (u32_small (0 + 512)) by lia.
  destruct (loadFat_outside n (blockStore f (0 * (512 * MAXFATSIZE)) (disk sec)) (sec + 1) (0 + 512) s2)
    as (f' & s' & -> & Hok' & Hf'); try done; try lia.
  eexists _, s'. split; [done|]. split; [done|]. intros i Hi. rewrite Hf' by lia.
  unfold blockStore. rewrite (proj2 (Z.leb_le _ _)) by lia. rewrite Hl.
  replace (0 * (512 * MAXFATSIZE) + Z.of_nat 512) with 512 by reflexivity.
  replace (i - 0 * (512 * MAXFATSIZE)) with i by lia. done.
Qed.

Lemma fsFat12Initialise_spec f s :
  ok s -> bytes (disk 0) ->
  let b := diskBpb disk in
  BytesPerSector b = 512 -> 0 < SectorsPerFat b <= MAXFATSIZE -> 0 < SectorsPerCluster b ->
  exists v s', fsFat12Initialise f s = Ret v s' /\ ok s' /\ vol_ok v /\
    bootSector v = BootSector_of_bytes (disk 0) /\
    mountInfo v = mkMountInfo (BpbNumSectors b) (ReservedSectors b) (NumDirEntries b)
      (NumberOfFats b * SectorsPerFat b + ReservedSectors b) (NumDirEntries b * 32 / 512)
      (SectorsPerFat b) (SectorsPerCluster b * 512) /\
    forall i, 0 <= i < 5120 ->
      fat v i = if i <? 512 then nth (Z.to_nat i) (disk (ReservedSectors b)) 0 else f i.
Proof.
  intros Hs Hb b Hbps Hspf Hspc. pose proof (diskBpb_ranges disk Hb) as Hr. fold b in Hr.
  destruct Hr as (? & ? & ? & ? & ?). unfold MAXFATSIZE in Hspf.
  unfold fsFat12Initialise.
  destruct (cache_read (ok := ok) (disk := disk) 0 s Hs ltac:(lia)) as (h & s1 & s2 & Hrd & Hd & Hrel & Hok).
  rewrite (bind_Ret _ _ _ _ _ Hrd), bind_gets, Hd. cbv zeta. rewrite (bind_Ret _ _ _ _ _ Hrel).
  change (Bpb (BootSector_of_bytes (disk 0))) with b.
  rewrite Hbps. change (negb (512 =? 512)) with false. cbn [FatSize FatOffset].
  rewrite Z.gtb_ltb, (proj2 (Z.ltb_ge MAXFATSIZE (SectorsPerFat b))) by (unfold MAXFATSIZE; lia).
  rewrite (u32_small (SectorsPerCluster b * 512)), (u32_small (NumDirEntries b * 32 / 512)) by zdiv.
  rewrite (u32_small (NumberOfFats b * SectorsPerFat b + ReservedSectors b)) by nia.
  rewrite (u32_small (ReservedSectors b)) by lia.
  destruct (loadFat_spec (Z.to_nat (SectorsPerFat b)) f (ReservedSectors b) s2)
    as (f' & s' & Hlf & Hok' & Hf'); try done; try lia.
  rewrite (bind_Ret _ _ _ _ _ Hlf). eexists _, s'. split; [done|]. split; [done|].
  cbn [bootSector mountInfo fat]. split; [|done].
  unfold vol_ok. cbn [bootSector mountInfo ClusterSize RootOffset RootSize].
  change (Bpb (BootSector_of_bytes (disk 0))) with b. split_and!; try done; try lia; try nia; zdiv.
Qed.

End MountProofs.

(** * Properties: mounting *)

(** C38. Mounting a FAT12 volume: from a boot sector with 512-byte sectors and
    a table of at most [MAXFATSIZE] sectors, [fsFat12Initialise] returns with
    the geometry of the boot sector, which satisfies the driver's invariant
    [vol_ok]; but only the first sector of the table reaches the array [fat],
    whose other bytes keep what they held. *)
Theorem fsFat12Initialise_mounts {S : Type} `{BlockCache S} (ok : S -> Prop) (disk : Z -> list Z)
    `{!BlockCacheLaws S ok disk} (f : Z -> Z) (s : S) :
  ok s -> bytes (disk 0) ->
  BytesPerSector (diskBpb disk) = 512 ->
  0 < SectorsPerFat (diskBpb disk) <= MAXFATSIZE -> 0 < SectorsPerCluster (diskBpb disk) ->
  exists v s', fsFat12Initialise f s = Ret v s' /\ ok s' /\ vol_ok v /\
    bootSector v = BootSector_of_bytes (disk 0) /\
    mountInfo v = mkMountInfo (BpbNumSectors (diskBpb disk)) (ReservedSectors (diskBpb disk))
      (NumDirEntries (diskBpb disk))
      (NumberOfFats (diskBpb disk) * SectorsPerFat (diskBpb disk) + ReservedSectors (diskBpb disk))
      (NumDirEntries (diskBpb disk) * 32 / 512)
      (SectorsPerFat (diskBpb disk)) (SectorsPerCluster (diskBpb disk) * 512) /\
    forall i, 0 <= i < 512 * MAXFATSIZE ->
      fat v i = if i <? 512 then nth (Z.to_nat i) (disk (ReservedSectors (diskBpb disk))) 0 else f i.
Proof. intros. by apply (fsFat12Initialise_spec ok disk). Qed.

(** C40. What the missing sectors of the table mean: after mounting with the
    array [fat] zero, as it is when the kernel starts, every cluster from 342
    to 3412 looks like the end of its chain, whatever the table on disk
    says. *)
Theorem fsFat12Initialise_truncates_chains {S : Type} `{BlockCache S} (ok : S -> Prop) (disk : Z -> list Z)
    `{!BlockCacheLaws S ok disk} (s : S) (cluster : Z) :
  ok s -> bytes (disk 0) ->
  BytesPerSector (diskBpb disk) = 512 ->
  0 < SectorsPerFat (diskBpb disk) <= MAXFATSIZE -> 0 < SectorsPerCluster (diskBpb disk) ->
  342 <= cluster <= 3412 ->
  exists v s', fsFat12Initialise (fun _ => 0) s = Ret v s' /\ fsFat12GetNextCluster v cluster = 0.
Proof.
  intros Hs Hb Hbps Hspf Hspc Hc.
  destruct (fsFat12Initialise_spec ok disk (fun _ => 0) s) as (v & s' & Hr & _ & _ & _ & _ & Hf); try done.
  exists v, s'. split; [done|]. unfold fsFat12GetNextCluster. rewrite u32_small by zdiv. cbv zeta.
  rewrite !Hf by zdiv. rewrite !(proj2 (Z.ltb_ge _ 512)) by zdiv.
  by destruct (negb _).
Qed.

(** * Names *)

Lemma wr_app_mid {A} (l r : list A) x y : wr (l ++ x :: r) (Z.of_nat (length l)) y = Some (l ++ y :: r).
Proof.
  rewrite wr_Some by (rewrite length_app; cbn [length]; lia). rewrite Nat2Z.id.
  f_equal. replace (length l) with (length l + 0)%nat at 1 by lia. by rewrite insert_app_r.
Qed.

Lemma rd_app_mid {A} (l r : list A) x : rd (l ++ x :: r) (Z.of_nat (length l)) = Some x.
Proof. rewrite rd_app_r by lia. by rewrite Z.sub_diag. Qed.

(** A byte of the extension: blank where the code leaves the blank. *)
Definition dosChar (c : Z) : Z := if c =? 0 then 32 else toupper c.

Definition pad8 (base : list Z) : list Z := map toupper base ++ replicate (8 - length base) 32.

Definition nodots (s : list Z) : Prop := Forall (fun c => c <> 46) s.

Lemma dosBase_spec b : forall pre dn rest tl fuel len,
  nodots b -> length dn = length pre -> (length b <= length rest)%nat ->
  (length pre + length b <= 8)%nat -> (length b < fuel)%nat ->
  Z.of_nat (length pre + length b) <= len ->
  (len = Z.of_nat (length pre + length b) \/
   exists c tl', tl = c :: tl' /\ (c = 46 \/ (length pre + length b = 8)%nat)) ->
  dosBase fuel (pre ++ b ++ tl) (dn ++ rest) len 11 (Z.of_nat (length pre)) =
    Some (dn ++ map toupper b ++ drop (length b) rest, Z.of_nat (length pre + length b)).
Proof.
  induction b as [|c b IH]; intros pre dn rest tl [|fuel] len Hnd Hdn Hrest H8 Hf Hlen Hstop;
    cbn [length map app] in *; try lia.
  - rewrite Nat.add_0_r in *. cbn [dosBase].
    destruct (Z.ltb_spec (Z.of_nat (length pre)) len) as [Hi|Hi]; [|done].
    destruct Hstop as [?|(c & tl' & -> & Hc)]; [lia|].
    rewrite (proj2 (Z.ltb_lt _ 11)) by lia. cbn [andb]. rewrite rd_app_mid. cbn.
    destruct (Z.eqb_spec c 46), (Z.eqb_spec (Z.of_nat (length pre)) 8); cbn [orb]; try done. lia.
  - apply Forall_cons in Hnd as [Hc Hnd]. cbn [dosBase].
    rewrite !(proj2 (Z.ltb_lt _ _)) by lia. cbn [andb]. rewrite rd_app_mid. cbn [mbind option_bind].
    rewrite (proj2 (Z.eqb_neq c 46)), (proj2 (Z.eqb_neq _ 8)) by lia. cbn [orb].
    destruct rest as [|x rest]; cbn [length] in *; [lia|]. rewrite <- Hdn, wr_app_mid, Hdn.
    cbn [mbind option_bind].
    replace (pre ++ c :: b ++ tl) with ((pre ++ [c]) ++ b ++ tl) by (by rewrite <- app_assoc).
    replace (dn ++ toupper c :: rest) with ((dn ++ [toupper c]) ++ rest) by (by rewrite <- app_assoc).
    replace (Z.of_nat (length pre) + 1) with (Z.of_nat (length (pre ++ [c])))
      by (rewrite length_app; cbn [length]; lia).
    assert (E : (length (pre ++ [c]) + length b = length pre + S (length b))%nat)
      by (rewrite length_app; cbn [length]; lia).
    rewrite IH; rewrite ?E, ?length_app; cbn [length]; try done; try lia.
    by rewrite <- app_assoc.
Qed.

Lemma dosExt_spec n : forall pre x tl dn r k,
  k + 8 = Z.of_nat (length dn) -> (n <= length tl)%nat ->
  dosExt (pre ++ x :: tl) (dn ++ replicate n 32 ++ r) (Z.of_nat (length pre)) k n =
    Some (dn ++ map dosChar (take n tl) ++ r).
Proof.
  induction n as [|n IH]; intros pre x tl dn r k Hk Hn; [done|].
  destruct tl as [|c tl]; cbn [length] in *; [lia|].
  cbn [dosExt replicate app take map]. cbv zeta.
  replace (pre ++ x :: c :: tl) with ((pre ++ [x]) ++ c :: tl) by (by rewrite <- app_assoc).
  replace (Z.of_nat (length pre) + 1) with (Z.of_nat (length (pre ++ [x])))
    by (rewrite length_app; cbn [length]; lia).
  rewrite rd_app_mid. cbn [mbind option_bind].
  assert (W : (if negb (c =? 0) then wr (dn ++ 32 :: replicate n 32 ++ r) (k + 8) (toupper c)
    else Some (dn ++ 32 :: replicate n 32 ++ r)) = Some ((dn ++ [dosChar c]) ++ replicate n 32 ++ r)).
  { rewrite <- app_assoc. unfold dosChar. rewrite Hk. destruct (c =? 0); cbn [negb]; [done|]. by rewrite wr_app_mid. }
  rewrite W. cbn [mbind option_bind]. rewrite IH; [by rewrite <- app_assoc| |lia].
  rewrite length_app. cbn [length]. lia.
Qed.

(** A name [base] without dots, at most 8 characters: blanks for the
    extension. *)
Lemma toDosFileName_base base r conv :
  nonul base -> nodots base -> (1 <= length base <= 8)%nat -> length conv = 12%nat ->
  toDosFileName (base ++ 0 :: r) conv 11 = Some (pad8 base ++ [32; 32; 32] ++ drop 11 conv).
Proof.
  intros Hn Hd Hl Hc. unfold toDosFileName. change (11 >? 11) with false. cbv zeta.
  rewrite arr_strlen_app by done. cbn [mbind option_bind].
  destruct base as [|c0 base]; cbn [length] in Hl; [lia|].
  pose proof Hd as [Hc0 _]%Forall_cons.
  change (rd ((c0 :: base) ++ 0 :: r) 0) with (Some c0). cbn [mbind option_bind].
  rewrite (proj2 (Z.eqb_neq c0 46)) by done. rewrite !andb_false_r.
  assert (Hc1 : exists c1, (if Z.of_nat (length (c0 :: base)) =? 2 then rd ((c0 :: base) ++ 0 :: r) 1 else Some 0) = Some c1).
  { case_match; [|eauto]. destruct base; eauto. }
  destruct Hc1 as [c1 ->]. cbn [mbind option_bind].
  rewrite ?andb_false_r. cbn [andb].
  pose proof (dosBase_spec (c0 :: base) [] [] (replicate (Z.to_nat 11) 32 ++ drop (Z.to_nat 11) conv) (0 :: r) (Z.to_nat (11 + 1))
    (Z.of_nat (length (c0 :: base)))) as Hb. cbn [app length Nat.add] in Hb. change (Z.of_nat 0) with 0 in Hb.
  cbn [app length]. change (Z.to_nat 11) with 11%nat in *. rewrite Hb; cbn [length]; try done; try lia.
  2: { rewrite length_app, length_replicate. lia. }
  cbn [mbind option_bind].
  pose proof (rd_app_mid (c0 :: base) r 0) as Hrd. cbn [app length] in Hrd. rewrite Hrd. cbn [mbind option_bind Z.eqb].
  f_equal. unfold pad8. cbn [map length app]. f_equal. rewrite <- app_assoc. f_equal.
  rewrite drop_app_le by (rewrite length_replicate; lia). rewrite drop_replicate.
  replace (11 - S (length base))%nat with ((8 - S (length base)) + 3)%nat by lia.
  rewrite replicate_add, <- app_assoc. done.
Qed.

(** A name with an extension: the three characters after the dot, whatever
    they are. *)
Lemma toDosFileName_dot base tl conv len :
  nodots base -> (1 <= length base <= 8)%nat -> length conv = 12%nat -> (3 <= length tl)%nat ->
  arr_strlen (base ++ 46 :: tl) = Some len -> Z.of_nat (length base) < len ->
  toDosFileName (base ++ 46 :: tl) conv 11 = Some (pad8 base ++ map dosChar (take 3 tl) ++ drop 11 conv).
Proof.
  intros Hd Hl Hc Htl Hlen Hlt. unfold toDosFileName. change (11 >? 11) with false. cbv zeta.
  rewrite Hlen. cbn [mbind option_bind].
  destruct base as [|c0 base]; cbn [length] in Hl; [lia|].
  pose proof Hd as [Hc0 _]%Forall_cons.
  change (rd ((c0 :: base) ++ 46 :: tl) 0) with (Some c0). cbn [mbind option_bind].
  rewrite (proj2 (Z.eqb_neq c0 46)) by done. rewrite !andb_false_r.
  assert (Hc1 : exists c1, (if len =? 2 then rd ((c0 :: base) ++ 46 :: tl) 1 else Some 0) = Some c1).
  { case_match; [|eauto]. destruct base; eauto. }
  destruct Hc1 as [c1 ->]. cbn [mbind option_bind].
  rewrite ?andb_false_r. cbn [andb].
  pose proof (dosBase_spec (c0 :: base) [] [] (replicate (Z.to_nat 11) 32 ++ drop (Z.to_nat 11) conv) (46 :: tl) (Z.to_nat (11 + 1)) len) as Hb.
  cbn [app length Nat.add] in Hb. change (Z.of_nat 0) with 0 in Hb. cbn [app]. change (Z.to_nat 11) with 11%nat in *.
  rewrite Hb; cbn [length] in *; try done; try lia.
  2: { rewrite length_app, length_replicate. lia. }
  2: { right. eauto. }
  cbn [mbind option_bind].
  pose proof (rd_app_mid (c0 :: base) tl 46) as Hrd. cbn [app length] in Hrd. rewrite Hrd. cbn [mbind option_bind Z.eqb Pos.eqb].
  pose proof (dosExt_spec 3 (c0 :: base) 46 tl (pad8 (c0 :: base)) (drop 11 conv) 0) as He.
  cbn [app length] in He. rewrite <- He; [|unfold pad8; rewrite length_app, length_map, length_replicate; cbn [length]; lia|lia].
  f_equal. unfold pad8. cbn [map length app]. f_equal. rewrite <- app_assoc. f_equal.
  rewrite drop_app_le by (rewrite length_replicate; lia). rewrite drop_replicate.
  replace (11 - S (length base))%nat with ((8 - S (length base)) + 3)%nat by lia.
  rewrite replicate_add, <- app_assoc. done.
Qed.

(** * A concrete disk *)

(** The boot sector of the repository's disk image. *)
Definition demoBoot : list Z :=
  [235; 60; 144] ++ replicate 8 32 ++
  [0; 2; 8; 8; 0; 2; 0; 2; 192; 78; 248; 8; 0; 63; 0; 16; 0; 1; 0; 0; 0; 0; 0; 0; 0] ++ replicate 476 0.

(** A 32-byte directory entry. *)
Definition demoEntryBytes (name : list Z) (attrib cluster : Z) : list Z :=
  name ++ [attrib] ++ replicate 14 0 ++ [cluster mod 256; cluster / 256] ++ replicate 4 0.

(** A root directory with the directory [BIN] in cluster 5, which holds the
    file [SH.EXE]. *)
Definition demoVol (sec : Z) : list Z :=
  if sec =? 0 then demoBoot
  else if sec =? 24 then demoEntryBytes ([66; 73; 78] ++ replicate 8 32) 16 5 ++ replicate 480 0
  else if sec =? 80 then replicate 32 0 ++ demoEntryBytes ([83; 72] ++ replicate 6 32 ++ [69; 88; 69]) 32 9 ++ replicate 448 0
  else replicate 512 (sec mod 256).

Lemma demoVol_length sec : length (demoVol sec) = 512%nat.
Proof. unfold demoVol. repeat case_match; reflexivity. Qed.

Lemma demoVol_boot : bytes (demoVol 0).
Proof. unfold bytes. apply Forall_forall. intros x Hx. vm_compute in Hx. repeat (apply elem_of_cons in Hx as [->|Hx]; [lia|]). by apply not_elem_of_nil in Hx. Qed.

Lemma fsFat12Initialise_mounts_witness :
  exists v, @fsFat12Initialise unit (directCache demoVol) (fun _ => 0) tt = Ret v tt /\
    mountInfo v = mkMountInfo 20160 8 512 24 32 8 4096 /\ fat v 100 = 8 /\ fat v 600 = 0.
Proof.
  destruct (@fsFat12Initialise_mounts unit (directCache demoVol) (fun _ => True) demoVol
    (directCache_laws demoVol demoVol_length) (fun _ => 0) tt I demoVol_boot) as (v & s' & Hr & _ & _ & _ & Hm & Hf);
    [vm_compute; reflexivity | vm_compute; split; congruence | vm_compute; reflexivity |].
  exists v. destruct s'. split; [exact Hr|]. split; [exact Hm|].
  split; (rewrite Hf; [reflexivity|split; [lia|vm_compute; reflexivity]]).
Defined.

Lemma fsFat12Initialise_truncates_chains_witness :
  exists v s', @fsFat12Initialise unit (directCache demoVol) (fun _ => 0) tt = Ret v s' /\
    fsFat12GetNextCluster v 1000 = 0.
Proof.
  apply (@fsFat12Initialise_truncates_chains unit (directCache demoVol) (fun _ => True) demoVol
    (directCache_laws demoVol demoVol_length) tt 1000 I demoVol_boot);
    [vm_compute; reflexivity | vm_compute; split; congruence | vm_compute; reflexivity | lia].
Defined.
