(* ===== verification/Fat12Open.v ===== *)
(** fs.c, third part: what looking up and opening compute.  The specification
    is a function from the bytes of the disk: a directory is the list of its
    32-byte entries, a path is resolved by looking its parts up one after the
    other ([resolve]).  The theorems hold of every buffer cache and file table
    that satisfy [FileSystemLaws]. *)

From S2P Require Import Prelude CString CArray Types Fat12 Fat12Dir.

(** * Directories *)

(** The first [n] entries of the bytes of a directory. *)
Fixpoint dirEntries (n : nat) (data : list Z) : list (list Z) :=
  match n with
  | O => []
  | S n => take 32 data :: dirEntries n (drop 32 data)
  end.

Lemma dirEntries_take n : forall data m rest, (32 * n <= m <= length data)%nat ->
  dirEntries n (take m data ++ rest) = dirEntries n data.
Proof.
  induction n as [|n IH]; intros data m rest Hm; [done|]. cbn [dirEntries].
  rewrite take_app_le by (rewrite length_take; lia). rewrite take_take, Nat.min_l by lia. f_equal.
  rewrite drop_app_le by (rewrite length_take; lia). rewrite skipn_firstn_comm.
  apply IH. rewrite length_drop. lia.
Qed.

(** The first entry whose 11 name bytes are [name]. *)
Definition lookupEntries (name : list Z) (es : list (list Z)) : option DirectoryEntry :=
  DirectoryEntry_of_bytes <$> List.find (fun e => bool_decide (take 11 e = name)) es.

Lemma lookupEntries_app name es es' :
  lookupEntries name (es ++ es') =
    match lookupEntries name es with Some e => Some e | None => lookupEntries name es' end.
Proof.
  unfold lookupEntries. induction es as [|e es IH]; cbn [app List.find]; [done|].
  by case_bool_decide.
Qed.

(** A name as the lookups compare it. *)
Definition dos11 (name : list Z) : Prop := nonul name /\ length name = 11%nat.

(** [strcmp] on two NUL-terminated arrays of the same length tells whether
    they are equal, when one of them has no other NUL. *)
Lemma arr_strcmp_names a : forall b, nonul a -> length b = length a ->
  exists r, arr_strcmp (a ++ [0]) (b ++ [0]) = Some r /\ (r =? 0) = bool_decide (b = a).
Proof.
  induction a as [|x a IH]; intros [|y b] Hn Hl; try done.
  - by exists 0.
  - apply Forall_cons in Hn as [Hx Hn]. cbn [app arr_strcmp].
    destruct (Z.eqb_spec (x - y) 0) as [E|E].
    + assert (y = x) as -> by lia. rewrite (proj2 (Z.eqb_neq x 0)) by lia. cbn [andb negb].
      destruct (IH b Hn ltac:(by injection Hl)) as (r & -> & Hr). exists r. split; [done|].
      rewrite Hr. apply bool_decide_ext. naive_solver.
    + cbn [andb]. exists (Z.sgn (x - y)). split; [done|]. rewrite bool_decide_eq_false_2 by naive_solver lia.
      destruct (Z.eqb_spec (Z.sgn (x - y)) 0); [lia|done].
Qed.

Lemma arr_strcmp_names_flip a : forall b, nonul a -> length b = length a ->
  exists r, arr_strcmp (b ++ [0]) (a ++ [0]) = Some r /\ (r =? 0) = bool_decide (b = a).
Proof.
  induction a as [|x a IH]; intros [|y b] Hn Hl; try done.
  - by exists 0.
  - apply Forall_cons in Hn as [Hx Hn]. cbn [app arr_strcmp].
    destruct (Z.eqb_spec (y - x) 0) as [E|E].
    + assert (y = x) as -> by lia. rewrite (proj2 (Z.eqb_neq x 0)) by lia. cbn [andb negb].
      destruct (IH b Hn ltac:(by injection Hl)) as (r & -> & Hr). exists r. split; [done|].
      rewrite Hr. apply bool_decide_ext. naive_solver.
    + cbn [andb]. exists (Z.sgn (y - x)). split; [done|]. rewrite bool_decide_eq_false_2 by naive_solver lia.
      destruct (Z.eqb_spec (Z.sgn (y - x)) 0); [lia|done].
Qed.

Lemma scanSub_lookup n name : forall data,
  dos11 name -> (32 * n <= length data)%nat ->
  scanSub n data (name ++ [0]) = Some (lookupEntries name (dirEntries n data)).
Proof.
  induction n as [|n IH]; intros data [Hn Hl] Hd; [done|]. cbn [scanSub dirEntries].
  rewrite slice_Some by lia. cbn [mbind option_bind]. change (Z.to_nat 0) with 0%nat. rewrite drop_0.
  change (Z.to_nat 32) with 32%nat. unfold entryName.
  destruct (arr_strcmp_names_flip name (take 11 (take 32 data)) Hn) as (r & -> & Hr).
  { rewrite !length_take. lia. }
  cbn [mbind option_bind]. rewrite Hr. unfold lookupEntries. cbn [List.find].
  case_bool_decide; [done|]. rewrite IH; [done|done|]. rewrite length_drop. lia.
Qed.

(** The root directory is scanned with the test for an unused entry, which a
    match passes anyway. *)
Lemma scanRoot_lookup n name : forall data,
  dos11 name -> (32 * n <= length data)%nat ->
  scanRoot n data (name ++ [0]) = Some (lookupEntries name (dirEntries n data)).
Proof.
  induction n as [|n IH]; intros data [Hn Hl] Hd; [done|]. cbn [scanRoot dirEntries].
  rewrite slice_Some by lia. cbn [mbind option_bind]. change (Z.to_nat 0) with 0%nat. rewrite drop_0.
  change (Z.to_nat 32) with 32%nat. unfold entryName.
  destruct (arr_strcmp_names name (take 11 (take 32 data)) Hn) as (r & E & Hr).
  { rewrite !length_take. lia. }
  rewrite E. cbn [mbind option_bind]. rewrite Hr. unfold lookupEntries. cbn [List.find].
  assert (IH' := IH (drop 32 data) (conj Hn Hl)). unfold lookupEntries in IH'.
  rewrite length_drop in IH'.
  destruct data as [|c data]; [cbn [length] in Hd; lia|]. change (rd (take 32 (c :: data)) 0) with (Some c).
  cbn [mbind option_bind]. destruct (Z.eqb_spec c 0) as [->|Hc]; cbn [negb].
  - rewrite bool_decide_eq_false_2; [apply IH'; lia|]. destruct name as [|x name]; [done|].
    intros Heq. apply Forall_cons in Hn as [Hx _]. cbn in Heq. injection Heq as <- _. lia.
  - cbn [mbind option_bind]. case_bool_decide; [done|]. apply IH'. lia.
Qed.

(** * Path parts *)

Definition isSep (c : Z) : bool := (c =? 92) || (c =? 47).

Definition plain (part : list Z) : Prop := nonul part /\ Forall (fun c => isSep c = false) part.

(** The parts of a path that have an 8.3 name, and the name. *)
Inductive partName : list Z -> list Z -> Prop :=
| part_base base :
    nonul base -> nodots base -> (1 <= length base <= 8)%nat -> partName base (pad8 base ++ [32; 32; 32])
| part_ext base ext :
    nonul base -> nonul ext -> nodots base -> (1 <= length base <= 8)%nat -> length ext = 3%nat ->
    partName (base ++ 46 :: ext) (pad8 base ++ map toupper ext)
| part_dot : partName [46] (46 :: replicate 10 32)
| part_dotdot : partName [46; 46] (46 :: 46 :: replicate 9 32).

(** [part] in the array [pathPart] is looked up as [name]. *)
Definition dosNamed (part name : list Z) : Prop :=
  toDosFileName part (replicate 12 0) 11 = Some (name ++ [0]) /\ dos11 name.

Lemma toupper_nonul l : nonul l -> nonul (map toupper l).
Proof.
  intros Hl. apply Forall_map. eapply Forall_impl; [exact Hl|]. intros c Hc. cbn in *.
  unfold toupper, islower. case_match; bdestr; lia.
Qed.

Lemma pad8_nonul base : nonul base -> nonul (pad8 base).
Proof. intros. apply Forall_app. split; [by apply toupper_nonul|]. by apply Forall_replicate. Qed.

Lemma pad8_length base : (length base <= 8)%nat -> length (pad8 base) = 8%nat.
Proof. intros. unfold pad8. rewrite length_app, length_map, length_replicate. lia. Qed.

Lemma map_dosChar l : nonul l -> map dosChar l = map toupper l.
Proof.
  intros Hl. induction Hl as [|c l Hc _ IH]; [done|]. cbn [map]. rewrite IH. f_equal.
  unfold dosChar. by rewrite (proj2 (Z.eqb_neq c 0)) by lia.
Qed.

(** Whatever follows the part in the array. *)
Lemma partName_dosNamed part name r : partName part name -> dosNamed (part ++ 0 :: r) name.
Proof.
  intros [base Hn Hd Hl|base ext Hn Hx Hd Hl Hlx| |].
  - split; [rewrite toDosFileName_base by done; by rewrite <- app_assoc|]. split.
    + apply Forall_app. split; [by apply pad8_nonul|]. repeat constructor; lia.
    + rewrite length_app, pad8_length; cbn [length]; lia.
  - split.
    + rewrite <- app_assoc. cbn [app]. rewrite (toDosFileName_dot base _ _ (Z.of_nat (length base + 4))); try done.
      * rewrite take_app_le, take_ge, map_dosChar by (done || lia). by rewrite <- app_assoc.
      * rewrite length_app. lia.
      * replace (base ++ 46 :: ext ++ 0 :: r) with ((base ++ 46 :: ext) ++ 0 :: r) by (by rewrite <- app_assoc).
        rewrite arr_strlen_app; [f_equal; rewrite length_app; cbn [length]; lia|].
        apply Forall_app. split; [done|]. by constructor.
      * lia.
    + split.
      * apply Forall_app. split; [by apply pad8_nonul|by apply toupper_nonul].
      * rewrite length_app, pad8_length, length_map; lia.
  - split; [done|]. split; [|done]. constructor; [lia|]. by apply Forall_replicate.
  - split; [done|]. split; [|done]. do 2 (constructor; [lia|]). by apply Forall_replicate.
Qed.

Lemma partEnd_app part c rest : plain part -> (c =? 0) || isSep c = true ->
  partEnd (part ++ c :: rest) = Some (Z.of_nat (length part), c).
Proof.
  intros [Hn Hp] Hc. induction Hp as [|x part Hx _ IH]; cbn [app partEnd length].
  - unfold isSep in Hc. destruct (c =? 0), (c =? 92), (c =? 47); done.
  - apply Forall_cons in Hn as [Hx0 Hn]. unfold isSep in Hx. bdestr.
    rewrite !(proj2 (Z.eqb_neq x _)) by lia. cbn [negb andb]. rewrite IH by done. cbn. do 2 f_equal. lia.
Qed.

(** The last part of a path. *)
Lemma fsGetPathPart_last part junk pp :
  plain part -> (length part < length pp)%nat ->
  exists tl, fsGetPathPart (part ++ 0 :: junk) pp = Some (part ++ 0 :: tl, 0) /\
    length (part ++ 0 :: tl) = length pp.
Proof.
  intros Hp Hl. unfold fsGetPathPart. rewrite partEnd_app by done. cbn [mbind option_bind].
  rewrite arr_strcpy_app by (by destruct Hp || done). cbn [mbind option_bind].
  rewrite wr_app_mid. eexists. split; [done|]. rewrite length_app. cbn [length]. rewrite length_drop. lia.
Qed.

(** A part before a separator: the array also receives the rest of the
    path. *)
Lemma fsGetPathPart_dir part sep more junk pp :
  plain part -> isSep sep = true -> 0 < sep < 256 -> nonul more ->
  (length part + 1 + length more < length pp)%nat ->
  exists tl, fsGetPathPart (part ++ sep :: more ++ 0 :: junk) pp = Some (part ++ 0 :: tl, Z.of_nat (length part)) /\
    length (part ++ 0 :: tl) = length pp.
Proof.
  intros Hp Hsep Hs Hm Hl. unfold fsGetPathPart. rewrite partEnd_app by (done || by rewrite Hsep, orb_true_r).
  cbn [mbind option_bind].
  replace (part ++ sep :: more ++ 0 :: junk) with ((part ++ sep :: more) ++ 0 :: junk) by (by rewrite <- app_assoc).
  assert (Hlm : length (part ++ sep :: more) = (length part + 1 + length more)%nat)
    by (rewrite length_app; cbn [length]; lia).
  rewrite arr_strcpy_app; [|apply Forall_app; split; [by destruct Hp|by constructor]|lia].
  cbn [mbind option_bind]. rewrite <- app_assoc. cbn [app]. rewrite wr_app_mid. cbn [mbind option_bind].
  rewrite (proj2 (Z.eqb_neq sep 0)) by lia. eexists. split; [done|].
  rewrite length_app. cbn [length]. rewrite length_app. cbn [length]. rewrite length_drop. lia.
Qed.

(** The rest of the path is copied whole: if it does not fit, the copy leaves
    the array. *)
Lemma fsGetPathPart_overflow str junk pp :
  nonul str -> (length pp <= length str)%nat -> fsGetPathPart (str ++ 0 :: junk) pp = None.
Proof.
  intros Hn Hl. unfold fsGetPathPart. rewrite arr_strcpy_overflow by done.
  by destruct (partEnd _) as [[]|].
Qed.

(** * What the lookups need of the cache and the file table *)

(** The slot [allocateFileStructure] hands out. *)
Definition firstFree (l : list File) : option nat :=
  fst <$> list_find (fun f => ReferenceCount f = 0) l.

(** [fs_ok s]: the cache and the table are in order and unlocked. *)
Class FileSystemLaws (S : Type) `{BlockCache S} `{FileTable S} (fs_ok : S -> Prop) (disk : Z -> list Z) : Prop := {
  fs_cache (l : list File) : BlockCacheLaws S (fun s => fs_ok s /\ files s = l) disk;
  fs_names s : fs_ok s -> Forall (fun f => length (FileName f) = 256%nat) (files s);
  fs_set l s :
    fs_ok s -> length l = length (files s) -> Forall (fun f => length (FileName f) = 256%nat) l ->
    fs_ok (set_files l s) /\ files (set_files l s) = l;
  fs_alloc s p f :
    fs_ok s -> firstFree (files s) = Some p -> files s !! p = Some f ->
    exists s', allocateFileStructure s = Ret (Some p) s' /\ fs_ok s' /\
      files s' = <[p := set_ReferenceCount 1 f]> (files s);
  fs_close s p f :
    fs_ok s -> files s !! p = Some f -> Type_ f = FD_FILE -> ReferenceCount f = 1 ->
    exists s', fileClose p s = Ret tt s' /\ fs_ok s' /\
      files s' = <[p := set_Type_ FD_NONE (set_ReferenceCount 0 f)]> (files s)
}.

(** Two tables with the same open files: a free slot may hold anything. *)
Definition same_open (l l' : list File) : Prop :=
  Forall2 (fun f f' => ReferenceCount f' = ReferenceCount f /\ (ReferenceCount f <> 0 -> f' = f)) l l'.

#[export] Instance same_open_refl : Reflexive same_open.
Proof. intros l. apply Forall2_same_length_lookup. naive_solver. Qed.

#[export] Instance same_open_trans : Transitive same_open.
Proof.
  intros l1 l2 l3 H12 H23. unfold same_open in *. rewrite Forall2_same_length_lookup in *.
  destruct H12 as [L12 H12], H23 as [L23 H23]. split; [lia|]. intros i x z Hx Hz.
  destruct (lookup_lt_is_Some_2 l2 i) as [y Hy].
  { apply lookup_lt_Some in Hx. lia. }
  destruct (H12 i x y Hx Hy) as [E1 F1], (H23 i y z Hy Hz) as [E2 F2]. split; [lia|].
  intros Hnz. rewrite F2 by lia. by apply F1.
Qed.

Lemma same_open_free l p f f' :
  l !! p = Some f -> ReferenceCount f = 0 -> ReferenceCount f' = 0 -> same_open l (<[p := f']> l).
Proof.
  intros Hp Hf Hf'. apply Forall2_same_length_lookup. rewrite length_insert. split; [done|].
  intros i x y Hx Hy. apply list_lookup_insert_Some in Hy as [(<- & <- & _)|(_ & Hy)]; [|naive_solver].
  assert (x = f) as -> by congruence. naive_solver lia.
Qed.

Lemma same_open_firstFree l l' : same_open l l' -> firstFree l' = firstFree l.
Proof.
  intros Hs. unfold firstFree. induction Hs as [|f f' l l' [E _] _ IH]; [done|].
  cbn [list_find]. do 2 case_decide; try (exfalso; lia); [done|].
  revert IH. destruct (list_find _ l) as [[]|], (list_find _ l') as [[]|]; cbn; intros IH; simplify_eq/=; done.
Qed.

Lemma firstFree_lookup l p : firstFree l = Some p -> exists f, l !! p = Some f /\ ReferenceCount f = 0.
Proof.
  unfold firstFree. destruct (list_find _ l) as [[i f]|] eqn:E; [|done]. intros [= <-].
  apply list_find_Some in E as (Hi & Hf & _). eauto.
Qed.

(** * The specification of lookup and open *)

(** The entries of [n] sectors of the root directory. *)
Fixpoint sectorEntries (disk : Z -> list Z) (sec : Z) (n : nat) : list (list Z) :=
  match n with
  | O => []
  | S n => dirEntries 16 (disk sec) ++ sectorEntries disk (sec + 1) n
  end.

Definition rootEntries (disk : Z -> list Z) (v : Volume) : list (list Z) :=
  sectorEntries disk (RootOffset (mountInfo v)) (Z.to_nat (NumRootEntries (mountInfo v) / 16)).

(** The entries of a subdirectory that a lookup sees: those of the first
    sector of its first cluster. *)
Definition visibleEntries (disk : Z -> list Z) (v : Volume) (d : DirectoryEntry) : list (list Z) :=
  dirEntries 16 (clusterData disk v (FirstCluster d)).

Definition lookupIn (disk : Z -> list Z) (v : Volume) (dir : option DirectoryEntry) (name : list Z) : option DirectoryEntry :=
  lookupEntries name (match dir with None => rootEntries disk v | Some d => visibleEntries disk v d end).

(** Every part but the last has to be a directory. *)
Fixpoint resolve (disk : Z -> list Z) (v : Volume) (dir : option DirectoryEntry) (names : list (list Z)) : option DirectoryEntry :=
  match names with
  | [] => None
  | [name] => lookupIn disk v dir name
  | name :: names =>
      e ← lookupIn disk v dir name;
      if Attrib e =? 16 then resolve disk v (Some e) names else None
  end.

(** A directory as a FAT12 volume has it: its entry has size 0. *)
Definition dir_ok (e : DirectoryEntry) : Prop := FileSize e = 0 /\ 2 <= FirstCluster e < 65536.

(** All directories that [resolve] goes through are such. *)
Fixpoint dirs_ok (disk : Z -> list Z) (v : Volume) (dir : option DirectoryEntry) (names : list (list Z)) : Prop :=
  match names with
  | [] | [_] => True
  | name :: names =>
      match lookupIn disk v dir name with
      | Some e => Attrib e = 16 -> dir_ok e /\ dirs_ok disk v (Some e) names
      | None => True
      end
  end.

(** The structure [fsFat12CreateFileStructure] fills. *)
Definition opened (e : DirectoryEntry) (name : list Z) (f : File) : File :=
  set_Type_ FD_FILE (set_Eof 0 (set_Position 0 (set_Size_ (FileSize e)
    (set_FileEntry e (set_FileName name (set_ReferenceCount 1 f)))))).

(** The parts of a path, with separators between them. *)
Fixpoint joinPath (sep : Z) (parts : list (list Z)) : list Z :=
  match parts with
  | [] => []
  | [part] => part
  | part :: parts => part ++ sep :: joinPath sep parts
  end.

Lemma joinPath_nonul sep parts : 0 < sep < 256 -> Forall plain parts -> nonul (joinPath sep parts).
Proof.
  intros Hs. induction 1 as [|part parts [Hp _] Hps IH]; [constructor|]. cbn [joinPath].
  destruct parts; [done|]. apply Forall_app. split; [done|]. by constructor.
Qed.

Lemma joinPath_parts sep parts names :
  Forall2 partName parts names -> (length parts <= length (joinPath sep parts))%nat.
Proof.
  induction 1 as [|part name parts names Hp Hps IH]; [done|]. cbn [joinPath].
  assert (1 <= length part)%nat by (destruct Hp; rewrite ?length_app; cbn [length]; lia).
  destruct parts; [done|]. rewrite length_app. cbn [length] in *. lia.
Qed.

(** What opening leaves: without an entry, or with one that is not the
    directory asked for, the null pointer and the open files as they were;
    otherwise slot [p], filled from the entry, and the other open files as
    they were. *)
Definition open_post {S : Type} `{FileTable S} (fs_ok : S -> Prop) (s : S) (p : nat) (fn : list Z)
    (directory : Z) (found : option DirectoryEntry) (res : option nat) (s' : S) : Prop :=
  fs_ok s' /\
  match found with
  | Some e =>
      if (directory =? 1) && negb (Attrib e =? 16) then res = None /\ same_open (files s) (files s')
      else res = Some p /\
        exists f, files s' !! p = Some f /\
          Type_ f = (if directory =? 1 then FD_DIR else FD_FILE) /\ ReferenceCount f = 1 /\
          FileEntry f = e /\ Size_ f = FileSize e /\ Position f = 0 /\ Eof f = 0 /\
          (exists tl, FileName f = fn ++ 0 :: tl) /\
          forall q g, files s !! q = Some g -> ReferenceCount g <> 0 -> files s' !! q = Some g
  | None => res = None /\ same_open (files s) (files s')
  end.

Section OpenProofs.
Context {S : Type} `{BlockCache S} `{FileTable S} (fs_ok : S -> Prop) (disk : Z -> list Z).
Context `{!FileSystemLaws S fs_ok disk}.

(** What a lookup leaves of the state. *)
Definition quiet (s s' : S) : Prop := fs_ok s' /\ same_open (files s) (files s').

Lemma quiet_trans s s1 s2 : quiet s s1 -> quiet s1 s2 -> quiet s s2.
Proof. intros [_ H1] [H2 H3]. split; [done|]. by transitivity (files s1). Qed.

Lemma dosName_named part name (s : S) : dosNamed part name -> dosName part s = Ret (name ++ [0]) s.
Proof.
  intros [Hd [_ Hl]]. unfold dosName. rewrite Hd, bind_checked.
  replace 11 with (Z.of_nat (length name)) by lia. by rewrite wr_app_mid.
Qed.

Lemma scanRootSectors_spec name : dos11 name -> forall n sec s,
  fs_ok s -> 0 <= sec -> sec + Z.of_nat n <= 268435456 ->
  exists s', scanRootSectors n sec (name ++ [0]) s = Ret (lookupEntries name (sectorEntries disk sec n)) s' /\
    fs_ok s' /\ files s' = files s.
Proof.
  intros Hn. induction n as [|n IH]; intros sec s Hs Hsec Hlim; cbn [scanRootSectors sectorEntries].
  - by exists s.
  - pose proof (fs_cache (files s)) as L.
    destruct (cache_read (BlockCacheLaws := L) sec s (conj Hs eq_refl) ltac:(lia))
      as (h & s1 & s2 & Hrd & Hd & Hrel & Hok & Hfiles).
    rewrite (bind_Ret _ _ _ _ _ Hrd), bind_gets, Hd.
    rewrite scanRoot_lookup by (done || rewrite (disk_length (BlockCacheLaws := L)); lia).
    rewrite bind_checked, (bind_Ret _ _ _ _ _ Hrel), lookupEntries_app.
    destruct (lookupEntries name (dirEntries 16 (disk sec))) as [e|]; [by exists s2|].
    rewrite u32_small by lia. destruct (IH (sec + 1) s2 Hok) as (s' & -> & Hs' & Hf); [lia|lia|].
    exists s'. split; [done|]. by rewrite Hf.
Qed.

Lemma findInRoot_spec v part name s :
  fs_ok s -> dosNamed part name ->
  0 <= RootOffset (mountInfo v) -> 0 <= NumRootEntries (mountInfo v) ->
  RootOffset (mountInfo v) + NumRootEntries (mountInfo v) < 268435456 ->
  exists s', fsFat12FindInRootDirectory v part s = Ret (lookupIn disk v None name) s' /\
    fs_ok s' /\ files s' = files s.
Proof.
  intros Hs Hn Hro Hre Hlim. unfold fsFat12FindInRootDirectory.
  rewrite (bind_Ret _ _ _ _ _ (dosName_named part name s Hn)). cbv zeta.
  apply scanRootSectors_spec; [by destruct Hn|done|lia|].
  assert (0 <= NumRootEntries (mountInfo v) / 16 <= NumRootEntries (mountInfo v)) by zdiv. lia.
Qed.

Lemma getFile_lookup p f s : files s !! p = Some f -> getFile p s = Ret f s.
Proof. intros Hp. unfold getFile. by rewrite bind_gets, Hp. Qed.

(** Storing through a [File *]. *)
Lemma putFile_spec p f s :
  fs_ok s -> (p < length (files s))%nat -> length (FileName f) = 256%nat ->
  exists s', putFile p f s = Ret tt s' /\ fs_ok s' /\ files s' = <[p := f]> (files s).
Proof.
  intros Hs Hp Hf. unfold putFile, puts.
  destruct (fs_set (<[p := f]> (files s)) s Hs) as [Hok Hfiles].
  - by rewrite length_insert.
  - apply Forall_insert; [by apply fs_names|done].
  - eauto.
Qed.

Lemma create_spec e fn r s p :
  fs_ok s -> firstFree (files s) = Some p -> nonul fn -> (length fn < 256)%nat ->
  exists f s', files s !! p = Some f /\ ReferenceCount f = 0 /\
    fsFat12CreateFileStructure e (fn ++ 0 :: r) s = Ret (Some p) s' /\ fs_ok s' /\
    files s' = <[p := opened e (fn ++ 0 :: drop (length fn + 1) (FileName f)) f]> (files s).
Proof.
  intros Hs Hp Hfn Hl. destruct (firstFree_lookup _ _ Hp) as (f & Hf & Hrc).
  destruct (fs_alloc s p f Hs Hp Hf) as (s1 & Ha & Hs1 & Hfs1).
  pose proof (lookup_lt_Some _ _ _ Hf) as Hlt.
  pose proof (proj1 (Forall_lookup _ _) (fs_names s Hs) p f Hf) as Hname. cbn in Hname.
  unfold fsFat12CreateFileStructure. rewrite (bind_Ret _ _ _ _ _ Ha).
  rewrite (bind_Ret _ _ _ _ _ (getFile_lookup p (set_ReferenceCount 1 f) s1
    ltac:(rewrite Hfs1; by apply list_lookup_insert_eq))).
  cbn [FileName set_ReferenceCount]. rewrite arr_strcpy_app by (done || lia). rewrite bind_checked.
  edestruct (putFile_spec p) as (s2 & Hput & Hs2 & Hfs2); [exact Hs1| | |rewrite (bind_Ret _ _ _ _ _ Hput)].
  - by rewrite Hfs1, length_insert.
  - cbn. rewrite length_app. cbn [length]. rewrite length_drop. lia.
  - exists f, s2. split_and!; try done. rewrite Hfs2, Hfs1, list_insert_insert_eq.
    unfold opened. by rewrite Nat.add_1_r.
Qed.

(** One round: the entries of the first sector, then end of file. *)
Lemma subDirectoryLoop_spec v p f buf name s n :
  fs_ok s -> vol_ok v -> files s !! p = Some f -> dos11 name ->
  Type_ f = FD_FILE -> Eof f = 0 -> Position f = 0 -> Size_ f = 0 ->
  2 <= FirstCluster (FileEntry f) < 65536 ->
  exists s', subDirectoryLoop (Datatypes.S n) v p buf (name ++ [0]) s =
      Ret (lookupEntries name (dirEntries 16 (clusterData disk v (FirstCluster (FileEntry f))))) s' /\
    fs_ok s' /\ files s' = <[p := set_Eof 1 (set_Position 512 f)]> (files s).
Proof.
  intros Hs Hv Hf Hn Hty Heof Hpos Hsz Hfc. cbn [subDirectoryLoop].
  pose proof (lookup_lt_Some _ _ _ Hf) as Hlt.
  pose proof (proj1 (Forall_lookup _ _) (fs_names s Hs) p f Hf) as Hname. cbn in Hname.
  rewrite (bind_Ret _ _ _ _ _ (getFile_lookup p f s Hf)), Heof. cbn [negb Z.eqb].
  pose proof (fs_cache (files s)) as L.
  assert (HCS : 512 <= ClusterSize (mountInfo v)) by (destruct Hv as (_ & ? & -> & _); lia).
  destruct (fsFat12Read_past_end _ disk v f 512 s (conj Hs eq_refl) Hv Hfc Hty Heof)
    as (s1 & Hr & Hs1 & Hfs1); try lia; [left; by rewrite Hpos|].
  rewrite (bind_Ret _ _ _ _ _ Hr), Hpos. change (Z.to_nat 0) with 0%nat. rewrite drop_0.
  change (Z.to_nat 512) with 512%nat. change (0 + 512) with 512.
  set (f' := set_Eof 1 (set_Position 512 f)).
  destruct (putFile_spec p f' s1 Hs1) as (s2 & Hput & Hs2 & Hfs2); [by rewrite Hfs1|done|].
  rewrite (bind_Ret _ _ _ _ _ Hput).
  pose proof (clusterData_length _ disk v (FirstCluster (FileEntry f)) Hv) as Hcl.
  set (cd := clusterData disk v (FirstCluster (FileEntry f))) in *.
  assert (Ht : length (take 512 cd) = 512%nat) by (rewrite length_take; lia).
  cbv zeta. rewrite scanSub_lookup by (done || rewrite length_app; lia). rewrite bind_checked.
  rewrite dirEntries_take by lia.
  exists s2. split; [|by rewrite Hfs2, Hfs1].
  destruct (lookupEntries name (dirEntries 16 cd)); [done|].
  destruct n; cbn [subDirectoryLoop]; rewrite (bind_Ret _ _ _ _ _ (getFile_lookup p f' s2
    ltac:(rewrite Hfs2, Hfs1; by apply list_lookup_insert_eq))); done.
Qed.

Lemma findInSub_spec v part name buf d p s :
  fs_ok s -> vol_ok v -> firstFree (files s) = Some p -> dosNamed part name -> dir_ok d ->
  exists s', fsFat12FindInSubDirectory v part buf d s = Ret (lookupIn disk v (Some d) name) s' /\ quiet s s'.
Proof.
  intros Hs Hv Hp Hn [Hsz Hfc]. unfold fsFat12FindInSubDirectory.
  destruct (create_spec d [] [] s p Hs Hp ltac:(constructor) ltac:(cbn; lia)) as (f & s1 & Hf & Hrc & Hc & Hs1 & Hfs1).
  pose proof (lookup_lt_Some _ _ _ Hf) as Hlt.
  cbn [app] in Hc. rewrite (bind_Ret _ _ _ _ _ Hc), (bind_Ret _ _ _ _ _ (dosName_named part name s1 Hn)).
  rewrite Hsz. change (Z.to_nat (0 / 512 + 1)) with 1%nat.
  set (f1 := opened d _ f) in Hfs1.
  assert (Hf1 : files s1 !! p = Some f1) by (rewrite Hfs1; by apply list_lookup_insert_eq).
  destruct (subDirectoryLoop_spec v p f1 buf name s1 0 Hs1 Hv Hf1) as (s2 & Hl & Hs2 & Hfs2);
    try done; [by destruct Hn|].
  rewrite (bind_Ret _ _ _ _ _ Hl).
  set (f2 := set_Eof 1 (set_Position 512 f1)) in Hfs2.
  assert (Hf2 : files s2 !! p = Some f2).
  { rewrite Hfs2. apply list_lookup_insert_eq. rewrite Hfs1, length_insert. done. }
  destruct (fs_close s2 p f2 Hs2 Hf2) as (s3 & Hcl & Hs3 & Hfs3); [done|done|].
  rewrite (bind_Ret _ _ _ _ _ Hcl). exists s3. split; [done|]. split; [done|].
  rewrite Hfs3, Hfs2, Hfs1, !list_insert_insert_eq. by apply (same_open_free _ _ f).
Qed.

(** Looking one part up, in the root directory or in [d]. *)
Lemma lookup_spec v (dir : option DirectoryEntry) part name buf p s :
  fs_ok s -> vol_ok v -> 0 <= NumRootEntries (mountInfo v) < 65536 ->
  firstFree (files s) = Some p -> dosNamed part name -> (forall d, dir = Some d -> dir_ok d) ->
  exists s', match dir with
             | None => fsFat12FindInRootDirectory v part
             | Some d => fsFat12FindInSubDirectory v part buf d
             end s = Ret (lookupIn disk v dir name) s' /\ quiet s s'.
Proof.
  intros Hs Hv Hre Hp Hn Hd. destruct dir as [d|].
  - eapply findInSub_spec; eauto.
  - pose proof Hv as (_ & _ & _ & ? & _).
    destruct (findInRoot_spec v part name s Hs Hn) as (s' & Hr & Hs' & Hf); try lia.
    exists s'. split; [done|]. split; [done|]. by rewrite Hf.
Qed.

(** The end of [fsFat12Open]: a structure for the entry found. *)
Lemma finish_spec e fn junk directory p s :
  fs_ok s -> firstFree (files s) = Some p -> nonul fn -> (length fn < 256)%nat ->
  exists res s',
    (if (directory =? 1) && negb (Attrib e =? 16) then mret None
     else
       fileStructure ← fsFat12CreateFileStructure e (fn ++ 0 :: junk);
       (if directory =? 1 then
          match fileStructure with
          | None => fault "fsFat12Open: null fileStructure"
          | Some p => f ← getFile p; putFile p (set_Type_ FD_DIR f)
          end
        else mret tt);;
       mret fileStructure) s = Ret res s' /\
    open_post fs_ok s p fn directory (Some e) res s'.
Proof.
  intros Hs Hp Hfn Hl. unfold open_post.
  destruct ((directory =? 1) && negb (Attrib e =? 16)); [by exists None, s|].
  destruct (create_spec e fn junk s p Hs Hp Hfn Hl) as (f & s1 & Hf & Hrc & Hc & Hs1 & Hfs1).
  pose proof (lookup_lt_Some _ _ _ Hf) as Hlt.
  rewrite (bind_Ret _ _ _ _ _ Hc). set (f1 := opened e _ f) in Hfs1.
  assert (Hf1 : files s1 !! p = Some f1) by (rewrite Hfs1; by apply list_lookup_insert_eq).
  destruct (directory =? 1).
  - assert (Hn1 : length (FileName (set_Type_ FD_DIR f1)) = 256%nat)
      by exact (proj1 (Forall_lookup _ _) (fs_names s1 Hs1) p f1 Hf1).
    destruct (putFile_spec p (set_Type_ FD_DIR f1) s1 Hs1) as (s2 & Hput & Hs2 & Hfs2); [by eapply lookup_lt_Some|done|].
    rewrite bind_assoc, (bind_Ret _ _ _ _ _ (getFile_lookup p f1 s1 Hf1)), (bind_Ret _ _ _ _ _ Hput).
    exists (Some p), s2. split; [done|]. split; [done|]. split; [done|].
    exists (set_Type_ FD_DIR f1). rewrite Hfs2, Hfs1, list_insert_insert_eq, list_lookup_insert_eq by done.
    split_and!; try done; [by eexists|]. intros q g Hq Hg. rewrite list_lookup_insert_ne; [done|congruence].
  - rewrite bind_mret. exists (Some p), s1. split; [done|]. split; [done|]. split; [done|].
    exists f1. rewrite Hfs1, list_lookup_insert_eq by done.
    split_and!; try done; [by eexists|]. intros q g Hq Hg. rewrite list_lookup_insert_ne; [done|congruence].
Qed.

Lemma same_open_lookup l l' q f : same_open l l' -> l !! q = Some f -> ReferenceCount f <> 0 -> l' !! q = Some f.
Proof.
  intros Hl Hq Hf. destruct (Forall2_lookup_l _ _ _ _ _ Hl Hq) as (f' & Hq' & _ & E). by rewrite Hq', E.
Qed.

Lemma open_post_quiet s s1 p fn directory r res s' :
  quiet s s1 -> open_post fs_ok s1 p fn directory r res s' -> open_post fs_ok s p fn directory r res s'.
Proof.
  intros [_ Hq] [Hok Hr]. split; [done|]. destruct r as [e|].
  - destruct ((directory =? 1) && negb (Attrib e =? 16)).
    + destruct Hr as [? ?]. split; [done|]. by transitivity (files s1).
    + destruct Hr as (? & f & ? & ? & ? & ? & ? & ? & ? & ? & Hrest). split; [done|]. exists f. split_and!; try done.
      intros q g Hg Hnz. apply Hrest; [|done]. by apply (same_open_lookup (files s)).
  - destruct Hr as [? ?]. split; [done|]. by transitivity (files s1).
Qed.

Lemma openLoop_spec v sep fn fj directory p buf : isSep sep = true -> 0 < sep < 256 ->
  vol_ok v -> 0 <= NumRootEntries (mountInfo v) < 65536 -> nonul fn -> (length fn < 256)%nat ->
  forall parts names, Forall2 partName parts names -> Forall plain parts ->
  forall fuel dir pp junk s, parts <> [] -> (length parts <= fuel)%nat ->
  (length (joinPath sep parts) < length pp)%nat ->
  fs_ok s -> firstFree (files s) = Some p ->
  (forall d, dir = Some d -> dir_ok d) -> dirs_ok disk v dir names ->
  exists res s', openLoop fuel v (joinPath sep parts ++ 0 :: junk) pp buf (fn ++ 0 :: fj) directory dir s = Ret res s' /\
    open_post fs_ok s p fn directory (resolve disk v dir names) res s'.
Proof.
  intros Hsep Hsr Hv Hre Hfn Hfl parts names HF. induction HF as [|part name parts names Hpn HF IH]; [done|].
  intros Hpl fuel dir pp junk s _ Hfuel Hlen Hs Hp Hdir Hdirs.
  apply Forall_cons in Hpl as [Hpart Hpl]. destruct fuel as [|fuel]; [cbn [length] in Hfuel; lia|].
  cbn [openLoop]. destruct HF as [|part2 name2 parts names Hpn2 HF].
  - cbn [joinPath] in *. destruct (fsGetPathPart_last part junk pp Hpart Hlen) as (tl & -> & _).
    rewrite bind_checked.
    destruct (lookup_spec v dir _ name buf p s Hs Hv Hre Hp (partName_dosNamed part name tl Hpn) Hdir) as (s1 & Hl & Hq).
    rewrite (bind_Ret _ _ _ _ _ Hl). cbn [resolve].
    destruct (lookupIn disk v dir name) as [e|].
    + cbn [Z.eqb]. destruct (finish_spec e fn fj directory p s1) as (res & s2 & Hr & Hpost); try done.
      { by destruct Hq. } { destruct Hq as [_ Hq]. by rewrite (same_open_firstFree _ _ Hq). }
      exists res, s2. split; [exact Hr|]. by apply (open_post_quiet s s1).
    + exists None, s1. split; [done|]. by destruct Hq.
  - assert (Ej : joinPath sep (part :: part2 :: parts) = part ++ sep :: joinPath sep (part2 :: parts)) by done.
    rewrite Ej in *. rewrite length_app in Hlen. cbn [length] in Hlen.
    assert (Hj : nonul (joinPath sep (part2 :: parts))) by (by apply joinPath_nonul).
    rewrite <- app_assoc. cbn [app].
    destruct (fsGetPathPart_dir part sep (joinPath sep (part2 :: parts)) junk pp) as (tl & -> & Hppl); try done; [lia|].
    rewrite bind_checked.
    destruct (lookup_spec v dir _ name buf p s Hs Hv Hre Hp (partName_dosNamed part name tl Hpn) Hdir) as (s1 & Hl & Hq).
    rewrite (bind_Ret _ _ _ _ _ Hl). cbn [resolve]. cbn [dirs_ok] in Hdirs.
    destruct (lookupIn disk v dir name) as [e|]; [|exists None, s1; split; [done|]; by destruct Hq].
    cbn [mbind option_bind].
    rewrite (proj2 (Z.eqb_neq (Z.of_nat (length part)) 0)) by (destruct Hpn; rewrite ?length_app; cbn [length]; lia).
    destruct (Z.eqb_spec (Attrib e) 16) as [Ha|Ha]; cbn [negb]; [|exists None, s1; split; [done|]; by destruct Hq].
    destruct (Hdirs Ha) as [Hde Hdirs'].
    replace (Z.to_nat (Z.of_nat (length part) + 1)) with (length part + 1)%nat by lia.
    rewrite drop_app_add. cbn [drop].
    edestruct (IH Hpl fuel (Some e) (part ++ 0 :: tl) junk s1) as (res & s2 & Hr & Hpost);
      try done; try (cbn [length] in *; lia).
    + by destruct Hq.
    + destruct Hq as [_ Hq]. by rewrite (same_open_firstFree _ _ Hq).
    + by intros d [= <-].
    + exists res, s2. split; [exact Hr|]. by apply (open_post_quiet s s1).
Qed.

End OpenProofs.

(** * Full paths *)

(** The path that [fsFat12Open] walks. *)
Definition pathOf (cwd filename : list Z) : list Z :=
  match filename with
  | c :: _ => if isSep c then filename else cwd ++ filename
  | [] => cwd
  end.

Lemma fullPath_spec cwd cj fn fj path :
  nonul cwd -> nonul fn -> length path = 255%nat -> Z.of_nat (length (pathOf cwd fn)) < MAXCWDSIZE ->
  exists tl, fullPath (cwd ++ 0 :: cj) (fn ++ 0 :: fj) path = Some (pathOf cwd fn ++ 0 :: tl) /\
    length (pathOf cwd fn ++ 0 :: tl) = 255%nat.
Proof.
  unfold MAXCWDSIZE. intros Hc Hf Hp Hl.
  assert (Hcopy : forall s r d n, nonul s -> 0 < n <= Z.of_nat (length d) -> Z.of_nat (length s) < n ->
    exists tl, arr_safestrcpy d (s ++ 0 :: r) n = Some (s ++ 0 :: tl) /\ length (s ++ 0 :: tl) = length d).
  { intros s r d n Hs Hn Hsn. destruct (arr_safestrcpy_app s d r n Hs Hn) as (tl & E & El).
    rewrite take_ge in E, El by lia. eauto. }
  assert (Hrel : forall c, rd (fn ++ 0 :: fj) 0 = Some c -> isSep c = false ->
    Z.of_nat (length (cwd ++ fn)) < 200 ->
    exists tl, fullPath (cwd ++ 0 :: cj) (fn ++ 0 :: fj) path = Some ((cwd ++ fn) ++ 0 :: tl) /\
      length ((cwd ++ fn) ++ 0 :: tl) = 255%nat).
  { intros c Hrd Hs Hlen. unfold fullPath. rewrite Hrd. cbn [mbind option_bind]. unfold isSep in Hs. rewrite Hs.
    rewrite length_app in Hlen. unfold MAXCWDSIZE.
    destruct (Hcopy cwd cj path 200 Hc) as (tl & -> & Htl); [lia|lia|]. cbn [mbind option_bind].
    rewrite arr_strlen_app by done. cbn [mbind option_bind]. rewrite Nat2Z.id, drop_app_length, take_app_length.
    rewrite length_app in Htl. cbn [length] in Htl.
    destruct (Hcopy fn fj (0 :: tl) (200 - Z.of_nat (length cwd)) Hf) as (tl2 & -> & Htl2);
      [cbn [length]; lia|lia|].
    cbn [mbind option_bind]. exists tl2. rewrite <- app_assoc. split; [done|].
    rewrite length_app, Htl2. cbn [length]. lia. }
  destruct fn as [|c fn]; cbn [pathOf] in *.
  - rewrite app_nil_r in Hrel. by apply (Hrel 0).
  - destruct (isSep c) eqn:Hsep; [|by apply (Hrel c)].
    unfold fullPath. change (rd ((c :: fn) ++ 0 :: fj) 0) with (Some c). cbn [mbind option_bind].
    unfold isSep in Hsep. rewrite Hsep. unfold MAXCWDSIZE. rewrite <- Hp. apply Hcopy; [done|lia|lia].
Qed.

Section OpenSpec.
Context {S : Type} `{BlockCache S} `{FileTable S} (fs_ok : S -> Prop) (disk : Z -> list Z).
Context `{!FileSystemLaws S fs_ok disk}.

Lemma fsFat12Open_spec (v : Volume) (cwd cj fn fj path pathPart buf : list Z) (directory lead sep : Z)
    (parts names : list (list Z)) (p : nat) (s : S) :
  fs_ok s -> vol_ok v -> 0 <= NumRootEntries (mountInfo v) < 65536 ->
  firstFree (files s) = Some p ->
  nonul cwd -> nonul fn -> length path = 255%nat -> length pathPart = 20%nat ->
  pathOf cwd fn = lead :: joinPath sep parts ->
  isSep sep = true -> 0 < sep < 256 -> parts <> [] -> Forall plain parts -> Forall2 partName parts names ->
  (length (joinPath sep parts) < 20)%nat ->
  dirs_ok disk v None names ->
  exists res s',
    fsFat12Open v (cwd ++ 0 :: cj) (fn ++ 0 :: fj) path pathPart buf directory s = Ret res s' /\
    open_post fs_ok s p fn directory (resolve disk v None names) res s'.
Proof.
  intros Hs Hv Hre Hp Hc Hf Hpath Hpp Hpo Hsep Hsr Hne Hpl HF Hlen Hdirs. unfold fsFat12Open.
  assert (Hlp : length (pathOf cwd fn) = Datatypes.S (length (joinPath sep parts))) by (by rewrite Hpo).
  destruct (fullPath_spec cwd cj fn fj path) as (tl & -> & Htl); try done; [unfold MAXCWDSIZE; lia|].
  rewrite bind_checked, Htl, Hpo. cbn [app drop]. rewrite drop_0.
  assert (length parts <= 255)%nat by (pose proof (joinPath_parts sep parts names HF); lia).
  assert (length fn < 256)%nat.
  { destruct fn as [|c fn]; [cbn; lia|]. cbn [pathOf] in Hlp. destruct (isSep c); rewrite ?length_app in Hlp; lia. }
  eapply openLoop_spec; eauto; [lia|done].
Qed.

End OpenSpec.

(** * Properties: lookup and open *)

Section Properties.
Context {S : Type} `{BlockCache S} `{FileTable S} (fs_ok : S -> Prop) (disk : Z -> list Z).
Context `{!FileSystemLaws S fs_ok disk}.

(** A path of 20 or more characters after its first one does not fit the
    array [pathPart]: [fsFat12Open] writes past its end before it has looked
    anything up. *)
Theorem fsFat12Open_overflows (v : Volume) (cwd cj fn fj path pathPart buf rest : list Z) (directory lead : Z) (s : S) :
  nonul cwd -> nonul fn -> length path = 255%nat -> length pathPart = 20%nat ->
  pathOf cwd fn = lead :: rest -> (20 <= length rest < 199)%nat ->
  fsFat12Open v (cwd ++ 0 :: cj) (fn ++ 0 :: fj) path pathPart buf directory s = Fault "fsGetPathPart".
Proof.
  intros Hc Hf Hpath Hpp Hpo Hlen. unfold fsFat12Open.
  assert (Hlp : length (pathOf cwd fn) = Datatypes.S (length rest)) by (by rewrite Hpo).
  destruct (fullPath_spec cwd cj fn fj path) as (tl & -> & Htl); try done; [unfold MAXCWDSIZE; lia|].
  rewrite bind_checked, Htl, Hpo. cbn [app drop].
  change 255%nat with (Datatypes.S 254). generalize 254%nat. intros fuel. cbn [openLoop]. rewrite drop_0.
  rewrite fsGetPathPart_overflow; [done| |lia].
  assert (Hn : nonul (pathOf cwd fn)).
  { unfold pathOf. destruct fn as [|c fn]; [done|]. case_match; [done|]. by apply Forall_app. }
  rewrite Hpo in Hn. by apply Forall_cons in Hn as [_ Hn].
Qed.

(** Looking a name up in a subdirectory, whose entry has size 0 on a FAT12
    volume: the result is the first entry of that name among the 16 entries of
    the directory's first sector; further entries are never read.  The file
    table has the same open files afterwards. *)
Theorem fsFat12FindInSubDirectory_first_sector (v : Volume) (part name buf : list Z) (d : DirectoryEntry) (p : nat) (s : S) :
  fs_ok s -> vol_ok v -> firstFree (files s) = Some p -> dosNamed part name -> dir_ok d ->
  exists s', fsFat12FindInSubDirectory v part buf d s =
      Ret (lookupEntries name (dirEntries 16 (clusterData disk v (FirstCluster d)))) s' /\
    fs_ok s' /\ same_open (files s) (files s').
Proof. intros. by apply (findInSub_spec fs_ok disk v part name buf d p s). Qed.

End Properties.

(** The name conversion reads past the end of a name with a one-character
    extension: the byte after the NUL, which in the array [pathPart] is the
    next part of the path, becomes the third character of the extension. *)
Theorem toDosFileName_stale (base r : list Z) (x y : Z) :
  nonul base -> nodots base -> (1 <= length base <= 8)%nat -> 0 < x < 256 -> 0 < y < 256 ->
  toDosFileName (base ++ 46 :: x :: 0 :: y :: r) (replicate 12 0) 11 =
    Some (pad8 base ++ [toupper x; 32; toupper y] ++ [0]).
Proof.
  intros Hn Hd Hl Hx Hy. rewrite (toDosFileName_dot base _ _ (Z.of_nat (length base + 2))); try done; try lia.
  - cbn [take map]. unfold dosChar. by rewrite (proj2 (Z.eqb_neq x 0)), (proj2 (Z.eqb_neq y 0)) by lia.
  - cbn [length]. lia.
  - replace (base ++ 46 :: x :: 0 :: y :: r) with ((base ++ [46; x]) ++ 0 :: y :: r) by (by rewrite <- app_assoc).
    rewrite arr_strlen_app; [f_equal; rewrite length_app; cbn [length]; lia|].
    apply Forall_app. split; [done|]. repeat constructor; lia.
Qed.

(** * A concrete file system *)

(** A file table alone, with the disk read directly. *)
Definition tableCache (disk : Z -> list Z) : BlockCache (list File) :=
  {| handle := Z;
     diskBufferRead := fun _ sec => mret sec;
     bufferData := fun sec _ => disk sec;
     diskBufferRelease := fun _ => mret tt |}.

Definition tableFiles : FileTable (list File) :=
  {| allocateFileStructure := fun l =>
       match firstFree l with
       | Some p => Ret (Some p) (alter (set_ReferenceCount 1) p l)
       | None => Ret None l
       end;
     fileClose := fun p l => Ret tt (alter (fun f => set_Type_ FD_NONE (set_ReferenceCount 0 f)) p l);
     files := fun l => l;
     set_files := fun l _ => l |}.

Definition tableOk (l : list File) : Prop := Forall (fun f => length (FileName f) = 256%nat) l.

Lemma alter_insert {A} (g : A -> A) (l : list A) p x : l !! p = Some x -> alter g p l = <[p := g x]> l.
Proof.
  intros Hp. apply list_eq. intros q. destruct (decide (p = q)) as [<-|Hpq].
  - rewrite list_lookup_alter_eq, Hp, list_lookup_insert_eq; [done|]. by eapply lookup_lt_Some.
  - by rewrite list_lookup_alter_ne, list_lookup_insert_ne.
Qed.

Lemma tableLaws disk : (forall sec, length (disk sec) = 512%nat) ->
  @FileSystemLaws (list File) (tableCache disk) tableFiles tableOk disk.
Proof.
  intros Hd. split.
  - intros l. split; [exact Hd|]. intros sec s [Hs <-] _. exists sec, s, s. done.
  - done.
  - done.
  - intros s p f Hs Hp Hf. eexists. cbn [allocateFileStructure files tableFiles] in *. rewrite Hp, (alter_insert _ _ _ f) by done.
    split_and!; [done| |done]. apply Forall_insert; [done|]. exact (proj1 (Forall_lookup _ _) Hs p f Hf).
  - intros s p f Hs Hf _ _. eexists. cbn [fileClose files tableFiles] in *. rewrite (alter_insert _ _ _ f) by done.
    split_and!; [done| |done]. apply Forall_insert; [done|]. exact (proj1 (Forall_lookup _ _) Hs p f Hf).
Qed.

Definition freeFile : File :=
  mkFile FD_NONE 0 0 0 0 (demoEntry 0) (replicate 256 0) 0 0 0 0.

Lemma freeFile_ok n : tableOk (replicate n freeFile).
Proof. by apply Forall_replicate. Qed.

Definition binShPath : list Z := [47; 98; 105; 110; 47; 115; 104; 46; 101; 120; 101].
Definition binParts : list (list Z) := [[98; 105; 110]; [115; 104; 46; 101; 120; 101]].
Definition binNames : list (list Z) :=
  [[66; 73; 78] ++ replicate 8 32; [83; 72] ++ replicate 6 32 ++ [69; 88; 69]].

Ltac nums := repeat (apply Forall_cons; split; [(lia || reflexivity || split; lia)|]); apply Forall_nil; exact I.

Lemma binParts_named : Forall2 partName binParts binNames.
Proof.
  constructor; [|constructor; [|constructor]].
  - apply (part_base [98; 105; 110]); [nums|nums|cbn; lia].
  - apply (part_ext [115; 104] [101; 120; 101]); [nums|nums|nums|cbn; lia|reflexivity].
Qed.

Lemma binParts_plain : Forall plain binParts.
Proof. repeat (apply Forall_cons; split; [split; nums|]). by apply Forall_nil. Qed.

(** [/abcdefghijklmnopqrstu] is 21 characters after the slash. *)
Lemma fsFat12Open_overflows_witness :
  @fsFat12Open (list File) (tableCache demoVol) tableFiles demoVolume
    [47; 0] ((47 :: map Z.of_nat (seq 97 21)) ++ [0]) (replicate 255 7) (replicate 20 7) (replicate 512 7) 0
    (replicate 3 freeFile) = Fault "fsGetPathPart".
Proof.
  apply (@fsFat12Open_overflows (list File) (tableCache demoVol) tableFiles
    demoVolume [47] [] (47 :: map Z.of_nat (seq 97 21)) [] (replicate 255 7) (replicate 20 7) (replicate 512 7)
    (map Z.of_nat (seq 97 21)) 0 47); try reflexivity; try nums; cbn; lia.
Defined.

Lemma fsFat12FindInSubDirectory_first_sector_witness :
  exists e s', @fsFat12FindInSubDirectory (list File) (tableCache demoVol) tableFiles demoVolume
      ([115; 104; 46; 101; 120; 101] ++ [0]) (replicate 512 7)
      (DirectoryEntry_of_bytes (demoEntryBytes ([66; 73; 78] ++ replicate 8 32) 16 5)) (replicate 3 freeFile) =
    Ret (Some e) s' /\ FirstCluster e = 9.
Proof.
  destruct (@fsFat12FindInSubDirectory_first_sector (list File) (tableCache demoVol) tableFiles tableOk demoVol
    (tableLaws demoVol demoVol_length) demoVolume ([115; 104; 46; 101; 120; 101] ++ [0]) ([83; 72] ++ replicate 6 32 ++ [69; 88; 69])
    (replicate 512 7) (DirectoryEntry_of_bytes (demoEntryBytes ([66; 73; 78] ++ replicate 8 32) 16 5)) 0 (replicate 3 freeFile))
    as (s' & Hr & _).
  - exact (freeFile_ok 3).
  - exact demo_ok.
  - reflexivity.
  - split; [vm_compute; reflexivity|]. split; [nums|reflexivity].
  - vm_compute. repeat split; congruence.
  - eexists _, s'. split; [exact Hr|]. vm_compute. reflexivity.
Defined.

(** The path [a.b/c]: [A.B C] is looked up. *)
Lemma toDosFileName_stale_witness :
  toDosFileName [97; 46; 98; 0; 99; 0] (replicate 12 0) 11 =
    Some ([65; 32; 32; 32; 32; 32; 32; 32] ++ [66; 32; 67] ++ [0]).
Proof. apply (toDosFileName_stale [97] [0] 98 99); [nums|nums|cbn; lia|lia|lia]. Defined.
