(* ===== verification/Spinlock.v ===== *)
(** spinlock.c and the part of proc.c that identifies the current processor.

    The state is what the locks touch: the per-processor structures [cpus],
    the locks by name, and of the processor that executes the code its local
    APIC identifier and the interrupt flag of its EFLAGS register.  The call
    stacks that [spinlockAcquire] records in [Pcs] for debugging are left
    out: nothing reads them but a debugger. *)

From S2P Require Import Prelude Types.

(** * State *)

(** The locks of the kernel: the static ones, the one of the pipe in page [a]
    and the one inside the sleep lock of disk buffer [i]. *)
Inductive LockId : Type :=
| L_processTable | L_kernelMemory | L_FileTable | L_diskBufferCache | L_ide | L_cons | L_ticks
| L_pipe (a : Z) | L_buffer (i : nat).

#[export] Instance LockId_eq_dec : EqDecision LockId.
Proof. solve_decision. Defined.

#[export] Instance LockId_countable : Countable LockId.
Proof.
  refine (inj_countable' (fun l => match l with
    | L_processTable => inl 0%nat | L_kernelMemory => inl 1%nat | L_FileTable => inl 2%nat
    | L_diskBufferCache => inl 3%nat | L_ide => inl 4%nat | L_cons => inl 5%nat | L_ticks => inl 6%nat
    | L_pipe a => inr (inl a) | L_buffer i => inr (inr i) end)
    (fun x => match x with
    | inl 0%nat => L_processTable | inl 1%nat => L_kernelMemory | inl 2%nat => L_FileTable
    | inl 3%nat => L_diskBufferCache | inl 4%nat => L_ide | inl 5%nat => L_cons | inl _ => L_ticks
    | inr (inl a) => L_pipe a | inr (inr i) => L_buffer i end) _).
  by intros [].
Defined.

(** A [Cpu *] is an index into [cpus]; [None] is the null pointer. *)
Record Spinlock : Type := mkSpinlock {
  Locked : Z;
  LockName : string;
  LockCpu : option nat
}.

(** [CpuProcess]: the index of the process in the process table. *)
Record Cpu : Type := mkCpu {
  Apicid : Z;
  Started : Z;
  CliDepth : Z;
  InterruptsEnabled : Z;
  CpuProcess : option nat
}.

Definition set_CliDepth (x : Z) (c : Cpu) : Cpu :=
  mkCpu (Apicid c) (Started c) x (InterruptsEnabled c) (CpuProcess c).
Definition set_InterruptsEnabled (x : Z) (c : Cpu) : Cpu :=
  mkCpu (Apicid c) (Started c) (CliDepth c) x (CpuProcess c).
Definition set_CpuProcess (x : option nat) (c : Cpu) : Cpu :=
  mkCpu (Apicid c) (Started c) (CliDepth c) (InterruptsEnabled c) x.

Record Sync : Type := mkSync {
  cpus : list Cpu;
  ncpu : Z;
  apicid : Z;
  iflag : bool;
  locks : gmap LockId Spinlock
}.

Definition set_cpus (x : list Cpu) (y : Sync) : Sync := mkSync x (ncpu y) (apicid y) (iflag y) (locks y).
Definition set_iflag (x : bool) (y : Sync) : Sync := mkSync (cpus y) (ncpu y) (apicid y) x (locks y).
Definition set_locks (x : gmap LockId Spinlock) (y : Sync) : Sync := mkSync (cpus y) (ncpu y) (apicid y) (iflag y) x.

Definition FL_IF : Z := 512.

(** * The processor *)

(** Of EFLAGS only the interrupt flag. *)
Definition readExtendedFlags : M Sync Z := gets (fun y => if iflag y then FL_IF else 0).
Definition disableInterrupts : M Sync unit := puts (set_iflag false).
Definition enableInterrupts : M Sync unit := puts (set_iflag true).

(** The search of [myCpu] in the first [n] processors from [i] on. *)
Fixpoint findCpu (n : nat) (i : nat) (cs : list Cpu) (id : Z) : option (option nat) :=
  match n with
  | O => Some None
  | S n =>
      match cs with
      | [] => None
      | c :: cs => if Apicid c =? id then Some (Some i) else findCpu n (S i) cs id
      end
  end.

Definition myCpu : M Sync nat :=
  eflags ← readExtendedFlags;
  if negb (Z.land eflags FL_IF =? 0) then panic "myCpu called with interrupts enabled"
  else
    y ← gets id;
    found ← checked "myCpu: cpus" (findCpu (Z.to_nat (ncpu y)) 0 (cpus y) (apicid y));
    match found with
    | Some i => mret i
    | None => panic "unknown apicid"
    end.

Definition cpuId : M Sync Z := c ← myCpu; mret (Z.of_nat c).

Definition getCpu (i : nat) : M Sync Cpu := cs ← gets cpus; checked "cpus" (cs !! i).
Definition putCpu (i : nat) (c : Cpu) : M Sync unit := puts (fun y => set_cpus (<[i := c]> (cpus y)) y).

(** * Nested interrupt disabling *)

Definition pushCli : M Sync unit :=
  eflags ← readExtendedFlags;
  disableInterrupts;;
  i ← myCpu;
  c ← getCpu i;
  (if CliDepth c =? 0 then putCpu i (set_InterruptsEnabled (Z.land eflags FL_IF) c) else mret tt);;
  c ← getCpu i;
  putCpu i (set_CliDepth (i32 (CliDepth c + 1)) c).

Definition popCli : M Sync unit :=
  eflags ← readExtendedFlags;
  if negb (Z.land eflags FL_IF =? 0) then panic "popCli - interruptible"
  else
    i ← myCpu;
    c ← getCpu i;
    let c := set_CliDepth (i32 (CliDepth c - 1)) c in
    putCpu i c;;
    if CliDepth c <? 0 then panic "popCli"
    else if (CliDepth c =? 0) && negb (InterruptsEnabled c =? 0) then enableInterrupts
    else mret tt.

Definition myProcess : M Sync (option nat) :=
  pushCli;;
  i ← myCpu;
  c ← getCpu i;
  let p := CpuProcess c in
  popCli;;
  mret p.

(** * Locks *)

Definition getLock (l : LockId) : M Sync Spinlock := m ← gets locks; checked "lock" (m !! l).
Definition putLock (l : LockId) (x : Spinlock) : M Sync unit := puts (fun y => set_locks (<[l := x]> (locks y)) y).

Definition spinlockInitialise (l : LockId) (name : string) : M Sync unit := putLock l (mkSpinlock 0 name None).

(** [lock->Locked && lock->Cpu == myCpu()]: the processor is asked only if the
    lock is taken. *)
Definition isHolding (l : LockId) : M Sync bool :=
  lk ← getLock l;
  if Locked lk =? 0 then mret false
  else i ← myCpu; mret (bool_decide (LockCpu lk = Some i)).

(** The exchange either finds the lock free or never will: nothing else runs
    in between on this processor. *)
Definition spinlockAcquire (l : LockId) : M Sync unit :=
  pushCli;;
  h ← isHolding l;
  if (h : bool) then panic "spinlockAcquire"
  else
    lk ← getLock l;
    if negb (Locked lk =? 0) then spin
    else
      putLock l (mkSpinlock 1 (LockName lk) (LockCpu lk));;
      i ← myCpu;
      lk ← getLock l;
      putLock l (mkSpinlock (Locked lk) (LockName lk) (Some i)).

Definition spinlockRelease (l : LockId) : M Sync unit :=
  h ← isHolding l;
  if negb (h : bool) then panic "spinlockRelease"
  else
    lk ← getLock l;
    putLock l (mkSpinlock (Locked lk) (LockName lk) None);;
    lk ← getLock l;
    putLock l (mkSpinlock 0 (LockName lk) (LockCpu lk));;
    popCli.

(** * What the operations compute *)

(** The executing processor is [c], described by [cp]. *)
Definition cpu_is (y : Sync) (c : nat) (cp : Cpu) : Prop :=
  findCpu (Z.to_nat (ncpu y)) 0 (cpus y) (apicid y) = Some (Some c) /\ cpus y !! c = Some cp.

Definition irq_bit (b : bool) : Z := if b then FL_IF else 0.

(** Whether interrupts were on is remembered at depth 0 only. *)
Definition remember (b : bool) (cp : Cpu) : Cpu :=
  if CliDepth cp =? 0 then set_InterruptsEnabled (irq_bit b) cp else cp.

Definition atCpu (f : Cpu -> Cpu) (y : Sync) : Sync :=
  match findCpu (Z.to_nat (ncpu y)) 0 (cpus y) (apicid y) with
  | Some (Some c) => set_cpus (alter f c (cpus y)) y
  | _ => y
  end.

(** The states after [pushCli] and after a matched pair [pushCli], [popCli]. *)
Definition push (y : Sync) : Sync :=
  set_iflag false (atCpu (fun cp => set_CliDepth (CliDepth cp + 1) (remember (iflag y) cp)) y).

Definition settle (y : Sync) : Sync := atCpu (remember (iflag y)) y.

(** Interrupts are off inside a [pushCli] section, and [n] more sections can be
    entered without overflow of the depth. *)
Definition balanced (n : Z) (y : Sync) : Prop :=
  exists c cp, cpu_is y c cp /\ 0 <= CliDepth cp /\ CliDepth cp + n <= 2147483647 /\
    (iflag y = true -> CliDepth cp = 0).

Definition lockFree (y : Sync) (l : LockId) : Prop :=
  exists nm, locks y !! l = Some (mkSpinlock 0 nm None).

(** The state after acquiring [l]. *)
Definition acq (l : LockId) (y : Sync) : Sync :=
  match findCpu (Z.to_nat (ncpu y)) 0 (cpus y) (apicid y), locks y !! l with
  | Some (Some c), Some lk => set_locks (<[l := mkSpinlock 1 (LockName lk) (Some c)]> (locks y)) (push y)
  | _, _ => push y
  end.

Lemma findCpu_insert n : forall i cs k c c' id,
  cs !! k = Some c -> Apicid c' = Apicid c -> findCpu n i (<[k := c']> cs) id = findCpu n i cs id.
Proof.
  induction n as [|n IH]; intros i [|x cs] [|k] c c' id Hk Ha; try done; cbn in *.
  - simplify_eq. by rewrite Ha.
  - case_match; [done|]. by apply (IH _ _ _ c).
Qed.

Lemma findCpu_lookup n : forall i cs id c, findCpu n i cs id = Some (Some c) ->
  exists cp, cs !! (c - i)%nat = Some cp /\ Apicid cp = id /\ (i <= c)%nat.
Proof.
  induction n as [|n IH]; intros i [|x cs] id c Hf; try done; cbn in Hf.
  destruct (Z.eqb_spec (Apicid x) id).
  - simplify_eq. exists x. by rewrite Nat.sub_diag.
  - destruct (IH _ _ _ _ Hf) as (cp & Hcp & Hid & Hle). exists cp.
    replace (c - i)%nat with (S (c - S i))%nat by lia. split_and!; [done|done|lia].
Qed.

Lemma irq_bit_land b : Z.land (irq_bit b) FL_IF = irq_bit b.
Proof. by destruct b. Qed.

Lemma alter_at {A} (f : A -> A) (l : list A) c x : l !! c = Some x -> alter f c l = <[c := f x]> l.
Proof. intros Hc. apply list_eq. intros i. destruct (decide (c = i)) as [<-|].
  - rewrite list_lookup_alter_eq, Hc, list_lookup_insert_eq by (by eapply lookup_lt_Some). done.
  - by rewrite list_lookup_alter_ne, list_lookup_insert_ne.
Qed.

Section CpuLemmas.
Context (y : Sync) (c : nat) (cp : Cpu) (Hc : cpu_is y c cp).

Lemma cpu_is_update cp' b m :
  Apicid cp' = Apicid cp -> cpu_is (mkSync (<[c := cp']> (cpus y)) (ncpu y) (apicid y) b m) c cp'.
Proof.
  destruct Hc as [Hf Hl]. intros Ha. split; cbn.
  - by rewrite (findCpu_insert _ _ _ _ cp).
  - apply list_lookup_insert_eq. by eapply lookup_lt_Some.
Qed.

Lemma myCpu_eq : iflag y = false -> myCpu y = Ret c y.
Proof.
  intros Hi. unfold myCpu, readExtendedFlags. rewrite bind_gets, Hi, Z.land_0_l. cbn [Z.eqb negb].
  rewrite bind_gets. unfold id. destruct Hc as [-> _]. done.
Qed.

Lemma myCpu_interruptible : iflag y = true -> myCpu y = Panic "myCpu called with interrupts enabled".
Proof. intros Hi. unfold myCpu, readExtendedFlags. by rewrite !bind_gets, Hi. Qed.

Lemma getCpu_eq : getCpu c y = Ret cp y.
Proof. unfold getCpu. rewrite bind_gets. destruct Hc as [_ ->]. done. Qed.

Lemma atCpu_eq f : atCpu f y = set_cpus (<[c := f cp]> (cpus y)) y.
Proof. unfold atCpu. destruct Hc as [-> Hl]. by rewrite (alter_at _ _ _ cp). Qed.

End CpuLemmas.

Lemma pushCli_eq y : balanced 1 y -> pushCli y = Ret tt (push y).
Proof.
  intros (c & cp & Hc & Hd & Hd' & _). unfold pushCli, readExtendedFlags, disableInterrupts. rewrite bind_gets, bind_puts.
  set (y1 := set_iflag false y). assert (Hc1 : cpu_is y1 c cp) by exact Hc.
  rewrite (bind_Ret _ _ _ _ _ (myCpu_eq y1 c cp Hc1 eq_refl)), (bind_Ret _ _ _ _ _ (getCpu_eq y1 c cp Hc1)).
  fold (irq_bit (iflag y)). rewrite irq_bit_land.
  assert (Hput : (if CliDepth cp =? 0 then putCpu c (set_InterruptsEnabled (irq_bit (iflag y)) cp) else mret tt) y1
    = Ret tt (set_cpus (<[c := remember (iflag y) cp]> (cpus y)) y1)).
  { unfold remember, putCpu, puts. case_match; [done|].
    destruct Hc as [_ Hl]. rewrite list_insert_id by done. by destruct y. }
  rewrite (bind_Ret _ _ _ _ _ Hput).
  set (cp2 := remember (iflag y) cp).
  assert (Hc2 : cpu_is (set_cpus (<[c := cp2]> (cpus y)) y1) c cp2).
  { apply (cpu_is_update y c cp Hc). unfold cp2, remember. by case_match. }
  rewrite (bind_Ret _ _ _ _ _ (getCpu_eq _ c cp2 Hc2)).
  unfold putCpu, puts, push. rewrite (atCpu_eq y c cp Hc). fold cp2.
  assert (E : CliDepth cp2 = CliDepth cp) by (unfold cp2, remember; by case_match).
  rewrite E, i32_small by lia. unfold set_cpus, set_iflag. cbn. by rewrite list_insert_insert_eq.
Qed.

(** [popCli] in general. *)
Definition pop (y : Sync) (c : nat) (cp : Cpu) : Sync :=
  mkSync (<[c := set_CliDepth (CliDepth cp - 1) cp]> (cpus y)) (ncpu y) (apicid y)
    ((CliDepth cp =? 1) && negb (InterruptsEnabled cp =? 0)) (locks y).

Lemma popCli_eq y c cp :
  cpu_is y c cp -> iflag y = false -> 0 < CliDepth cp <= 2147483647 -> popCli y = Ret tt (pop y c cp).
Proof.
  intros Hc Hi Hd. unfold popCli, readExtendedFlags. rewrite bind_gets, Hi, Z.land_0_l. cbn [Z.eqb negb].
  rewrite (bind_Ret _ _ _ _ _ (myCpu_eq y c cp Hc Hi)), (bind_Ret _ _ _ _ _ (getCpu_eq y c cp Hc)).
  cbv zeta. cbn [CliDepth InterruptsEnabled set_CliDepth]. rewrite i32_small by lia.
  unfold putCpu. rewrite bind_puts. rewrite (proj2 (Z.ltb_ge _ 0)) by lia. unfold pop.
  replace (CliDepth cp - 1 =? 0) with (CliDepth cp =? 1) by (destruct (Z.eqb_spec (CliDepth cp) 1), (Z.eqb_spec (CliDepth cp - 1) 0); lia).
  case_match; [done|]. unfold mret, M_ret, set_cpus. by rewrite Hi.
Qed.

Lemma popCli_unmatched y c cp :
  cpu_is y c cp -> iflag y = false -> CliDepth cp = 0 -> popCli y = Panic "popCli".
Proof.
  intros Hc Hi Hd. unfold popCli, readExtendedFlags. rewrite bind_gets, Hi, Z.land_0_l. cbn [Z.eqb negb].
  rewrite (bind_Ret _ _ _ _ _ (myCpu_eq y c cp Hc Hi)), (bind_Ret _ _ _ _ _ (getCpu_eq y c cp Hc)), Hd. done.
Qed.

(** ** Matched pairs *)

Section Pairs.
Context (y : Sync) (c : nat) (cp : Cpu) (Hc : cpu_is y c cp).

Lemma push_eq : push y =
  mkSync (<[c := set_CliDepth (CliDepth cp + 1) (remember (iflag y) cp)]> (cpus y)) (ncpu y) (apicid y) false (locks y).
Proof. unfold push. by rewrite (atCpu_eq y c cp Hc). Qed.

Lemma settle_eq : settle y = set_cpus (<[c := remember (iflag y) cp]> (cpus y)) y.
Proof. unfold settle. by rewrite (atCpu_eq y c cp Hc). Qed.

Lemma push_cpu : cpu_is (push y) c (set_CliDepth (CliDepth cp + 1) (remember (iflag y) cp)).
Proof. rewrite push_eq. apply (cpu_is_update y c cp Hc). unfold remember. by case_match. Qed.

Lemma settle_cpu : cpu_is (settle y) c (remember (iflag y) cp).
Proof. rewrite settle_eq. apply (cpu_is_update y c cp Hc). unfold remember. by case_match. Qed.

Lemma acq_eq l lk : locks y !! l = Some lk ->
  acq l y = set_locks (<[l := mkSpinlock 1 (LockName lk) (Some c)]> (locks y)) (push y).
Proof. intros Hl. unfold acq. destruct Hc as [-> _]. by rewrite Hl. Qed.

Lemma remember_depth b : CliDepth (remember b cp) = CliDepth cp.
Proof. unfold remember. by case_match. Qed.

Lemma remember_twice b d : CliDepth cp = 0 \/ b = d -> remember b (remember d cp) = remember b cp.
Proof. intros Hb. unfold remember. destruct (CliDepth cp =? 0) eqn:E; cbn; by rewrite E. Qed.

(** A push and a pop: the flag is restored. *)
Lemma pop_push m : 0 <= CliDepth cp -> (iflag y = true -> CliDepth cp = 0) ->
  pop (set_locks m (push y)) c (set_CliDepth (CliDepth cp + 1) (remember (iflag y) cp)) = set_locks m (settle y).
Proof.
  intros Hd Hi. rewrite settle_eq, push_eq. unfold pop, set_locks. cbn.
  rewrite list_insert_insert_eq. f_equal.
  - f_equal. unfold remember, set_CliDepth, set_InterruptsEnabled. case_match; destruct cp; cbn; f_equal; lia.
  - unfold remember. destruct (iflag y) eqn:Ei.
    + rewrite (Hi eq_refl). done.
    + destruct (Z.eqb_spec (CliDepth cp) 0) as [E|E]; [by rewrite E|].
      rewrite (proj2 (Z.eqb_neq _ 1)) by lia. done.
Qed.

End Pairs.

Lemma settle_locks y : locks (settle y) = locks y.
Proof. unfold settle, atCpu. by repeat case_match. Qed.

Lemma settle_iflag y : iflag (settle y) = iflag y.
Proof. unfold settle, atCpu. by repeat case_match. Qed.

Lemma settle_set_locks m y : settle (set_locks m y) = set_locks m (settle y).
Proof. unfold settle, atCpu. cbn. by repeat case_match. Qed.

Lemma push_set_locks m y : push (set_locks m y) = set_locks m (push y).
Proof. unfold push, atCpu. cbn. by repeat case_match. Qed.

Lemma settle_settle y : settle (settle y) = settle y.
Proof.
  destruct (findCpu (Z.to_nat (ncpu y)) 0 (cpus y) (apicid y)) as [[c|]|] eqn:E.
  - destruct (findCpu_lookup _ _ _ _ _ E) as (cp & Hl & _). rewrite Nat.sub_0_r in Hl.
    assert (Hc : cpu_is y c cp) by done.
    rewrite (settle_eq _ _ _ (settle_cpu y c cp Hc)), settle_iflag, (settle_eq y c cp Hc).
    unfold set_cpus. cbn. rewrite list_insert_insert_eq, remember_twice by (by right). done.
  - unfold settle at 1. unfold atCpu. unfold settle, atCpu. by rewrite E, E.
  - unfold settle at 1. unfold atCpu. unfold settle, atCpu. by rewrite E, E.
Qed.

Lemma push_settle y : push (settle y) = push y.
Proof.
  destruct (findCpu (Z.to_nat (ncpu y)) 0 (cpus y) (apicid y)) as [[c|]|] eqn:E.
  - destruct (findCpu_lookup _ _ _ _ _ E) as (cp & Hl & _). rewrite Nat.sub_0_r in Hl.
    assert (Hc : cpu_is y c cp) by done.
    rewrite (push_eq _ _ _ (settle_cpu y c cp Hc)), settle_iflag, (push_eq y c cp Hc), (settle_eq y c cp Hc).
    cbn. rewrite list_insert_insert_eq, remember_twice, remember_depth by (by right). done.
  - f_equal. unfold settle, atCpu. by rewrite E.
  - f_equal. unfold settle, atCpu. by rewrite E.
Qed.

Lemma settle_findCpu y :
  findCpu (Z.to_nat (ncpu (settle y))) 0 (cpus (settle y)) (apicid (settle y)) =
  findCpu (Z.to_nat (ncpu y)) 0 (cpus y) (apicid y).
Proof.
  destruct (findCpu (Z.to_nat (ncpu y)) 0 (cpus y) (apicid y)) as [[c|]|] eqn:E.
  - destruct (findCpu_lookup _ _ _ _ _ E) as (cp & Hl & _). rewrite Nat.sub_0_r in Hl.
    destruct (settle_cpu y c cp (conj E Hl)) as [-> _]. done.
  - unfold settle, atCpu. by rewrite E, E.
  - unfold settle, atCpu. by rewrite E, E.
Qed.

Lemma acq_settle l y : acq l (settle y) = acq l y.
Proof.
  unfold acq. by rewrite settle_findCpu, settle_locks, push_settle.
Qed.

Lemma settle_balanced n y : balanced n y -> balanced n (settle y).
Proof.
  intros (c & cp & Hc & Hd). exists c, (remember (iflag y) cp).
  rewrite remember_depth, settle_iflag. split; [by apply settle_cpu|done].
Qed.

Lemma acq_balanced n l y : 0 <= n -> balanced (n + 1) y -> balanced n (acq l y).
Proof.
  intros Hn (c & cp & Hc & Hd & Hd' & _). exists c, (set_CliDepth (CliDepth cp + 1) (remember (iflag y) cp)).
  assert (Hp := push_cpu y c cp Hc). split_and!.
  - unfold acq. repeat case_match; done.
  - cbn. lia.
  - cbn. lia.
  - unfold acq. repeat case_match; done.
Qed.

Lemma balanced_weaken n m y : m <= n -> balanced n y -> balanced m y.
Proof. intros Hm (c & cp & Hc & Hd & Hd' & Hi). exists c, cp. split_and!; try done. lia. Qed.

(** ** Acquiring and releasing *)

Lemma isHolding_free l y : lockFree y l -> isHolding l y = Ret false y.
Proof. intros [nm Hl]. unfold isHolding, getLock. by rewrite bind_assoc, bind_gets, Hl. Qed.

Lemma isHolding_held l y c cp k nm o :
  cpu_is y c cp -> iflag y = false -> locks y !! l = Some (mkSpinlock k nm o) -> k <> 0 ->
  isHolding l y = Ret (bool_decide (o = Some c)) y.
Proof.
  intros Hc Hi Hl Hk. unfold isHolding, getLock. rewrite bind_assoc, bind_gets, Hl, bind_checked. cbn [Locked].
  rewrite (proj2 (Z.eqb_neq k 0)) by done. by rewrite (bind_Ret _ _ _ _ _ (myCpu_eq y c cp Hc Hi)).
Qed.

Lemma getLock_eq l y lk : locks y !! l = Some lk -> getLock l y = Ret lk y.
Proof. intros Hl. unfold getLock. by rewrite bind_gets, Hl. Qed.

Lemma acquire_eq l y : balanced 1 y -> lockFree y l -> spinlockAcquire l y = Ret tt (acq l y).
Proof.
  intros Hb [nm Hl]. unfold spinlockAcquire. rewrite (bind_Ret _ _ _ _ _ (pushCli_eq y Hb)).
  destruct Hb as (c & cp & Hc & _). rewrite (acq_eq y c cp Hc l _ Hl).
  pose proof (push_cpu y c cp Hc) as Hp. rewrite (push_eq y c cp Hc) in *.
  assert (Hl' : locks (mkSync (<[c := set_CliDepth (CliDepth cp + 1) (remember (iflag y) cp)]> (cpus y)) (ncpu y) (apicid y) false (locks y)) !! l
    = Some (mkSpinlock 0 nm None)) by done.
  rewrite (bind_Ret _ _ _ _ _ (isHolding_free l _ (ex_intro _ nm Hl'))), (bind_Ret _ _ _ _ _ (getLock_eq l _ _ Hl')).
  cbn [Locked LockName LockCpu Z.eqb negb]. unfold putLock. rewrite bind_puts.
  erewrite (bind_Ret myCpu); [|by eapply myCpu_eq].
  erewrite (bind_Ret (getLock l)); [|apply getLock_eq; apply lookup_insert_eq].
  unfold puts, set_locks. cbn. by rewrite insert_insert_eq.
Qed.

Lemma release_eq l y c cp nm :
  cpu_is y c cp -> iflag y = false -> 0 < CliDepth cp <= 2147483647 ->
  locks y !! l = Some (mkSpinlock 1 nm (Some c)) ->
  spinlockRelease l y = Ret tt (pop (set_locks (<[l := mkSpinlock 0 nm None]> (locks y)) y) c cp).
Proof.
  intros Hc Hi Hd Hl. unfold spinlockRelease.
  rewrite (bind_Ret _ _ _ _ _ (isHolding_held l y c cp 1 nm (Some c) Hc Hi Hl ltac:(done))).
  rewrite bool_decide_eq_true_2 by done. cbn [negb].
  rewrite (bind_Ret _ _ _ _ _ (getLock_eq l y _ Hl)). unfold putLock. rewrite bind_puts.
  erewrite (bind_Ret (getLock l)); [|apply getLock_eq; apply lookup_insert_eq].
  rewrite bind_puts. cbn [LockName LockCpu Locked].
  rewrite (popCli_eq _ c cp); [|done|done|done].
  unfold pop, set_locks. cbn. by rewrite insert_insert_eq.
Qed.

(** Acquire and release, with the lock's own section in between. *)
Lemma release_acq l y : balanced 1 y -> lockFree y l -> spinlockRelease l (acq l y) = Ret tt (settle y).
Proof.
  intros (c & cp & Hc & Hd & Hd' & Hi) [nm Hl]. rewrite (acq_eq y c cp Hc l _ Hl). cbn [LockName].
  rewrite (release_eq l _ c (set_CliDepth (CliDepth cp + 1) (remember (iflag y) cp)) nm).
  - f_equal. cbn [locks set_locks]. rewrite insert_insert_eq, insert_id by done.
    change (set_locks ?m (set_locks _ ?x)) with (set_locks m x).
    rewrite (pop_push y c cp Hc) by done. rewrite <- (settle_locks y). by destruct (settle y).
  - exact (push_cpu y c cp Hc).
  - rewrite (push_eq y c cp Hc). done.
  - cbn. lia.
  - apply lookup_insert_eq.
Qed.

(** Releasing the outer of two locks first, as [sleep] does. *)
Lemma release_outer l k y : l <> k -> balanced 2 y -> lockFree y l -> lockFree y k ->
  spinlockRelease l (acq k (acq l y)) = Ret tt (acq k y).
Proof.
  intros Hlk Hb [nl Hl] [nk Hk]. destruct (acq_balanced 1 l y ltac:(lia) Hb) as (c & cp & Hc & Hd & Hd' & Hi).
  destruct Hb as (c0 & cp0 & Hc0 & Hd0 & Hd0' & Hi0).
  rewrite (acq_eq _ _ _ Hc0 k _ Hk). cbn [LockName].
  assert (El := acq_eq _ _ _ Hc0 l _ Hl). cbn [LockName] in El.
  assert (Hp0 := push_cpu _ _ _ Hc0).
  assert (Hkl : locks (acq l y) !! k = Some (mkSpinlock 0 nk None)).
  { rewrite El. cbn. rewrite lookup_insert_ne by done. done. }
  assert (Hp : cpu_is (acq l y) c0 (set_CliDepth (CliDepth cp0 + 1) (remember (iflag y) cp0))) by (rewrite El; exact Hp0).
  assert (Hif : iflag (acq l y) = false) by (rewrite El, (push_eq _ _ _ Hc0); done).
  rewrite (acq_eq _ _ _ Hp k _ Hkl). cbn [LockName].
  erewrite (release_eq l); [|exact (push_cpu _ _ _ Hp)| | |].
  - f_equal. cbn [locks set_locks]. change (set_locks ?m (set_locks _ ?x)) with (set_locks m x).
    rewrite (pop_push _ _ _ Hp); [|cbn; lia|by rewrite Hif].
    assert (Hs : settle (acq l y) = acq l y).
    { rewrite (settle_eq _ _ _ Hp). unfold remember at 1. cbn. rewrite (proj2 (Z.eqb_neq _ 0)) by lia.
      destruct Hp as [_ Hp]. rewrite list_insert_id by done. by destruct (acq l y). }
    rewrite Hs, El. unfold set_locks. cbn. f_equal. rewrite insert_insert_ne by done. f_equal.
    rewrite insert_insert_eq, insert_id; done.
  - rewrite (push_eq _ _ _ Hp). done.
  - cbn. lia.
  - cbn. rewrite lookup_insert_ne by done. rewrite El. apply lookup_insert_eq.
Qed.

Lemma myProcess_eq y c cp : balanced 1 y -> cpu_is y c cp -> myProcess y = Ret (CpuProcess cp) (settle y).
Proof.
  intros Hb Hc. unfold myProcess. rewrite (bind_Ret _ _ _ _ _ (pushCli_eq y Hb)).
  destruct Hb as (c' & cp' & Hc' & Hd & Hd' & Hi). assert (c' = c /\ cp' = cp) as [-> ->].
  { destruct Hc as [E F], Hc' as [E' F']. split; congruence. }
  pose proof (push_cpu y c cp Hc) as Hp.
  rewrite (bind_Ret _ _ _ _ _ (myCpu_eq _ _ _ Hp ltac:(by rewrite (push_eq y c cp Hc)))).
  rewrite (bind_Ret _ _ _ _ _ (getCpu_eq _ _ _ Hp)). cbv zeta.
  erewrite (bind_Ret popCli); [|apply (popCli_eq _ _ _ Hp); [by rewrite (push_eq y c cp Hc)|cbn; lia]].
  assert (E := pop_push y c cp Hc (locks y) Hd Hi).
  replace (set_locks (locks y) (push y)) with (push y) in E by (rewrite (push_eq y c cp Hc); done).
  rewrite E. unfold mret, M_ret. f_equal.
  - cbn. unfold remember. by case_match.
  - rewrite <- (settle_locks y). by destruct (settle y).
Qed.

(** ** The error paths *)

Lemma acquire_held l y c cp nm : balanced 1 y -> cpu_is y c cp ->
  locks y !! l = Some (mkSpinlock 1 nm (Some c)) -> spinlockAcquire l y = Panic "spinlockAcquire".
Proof.
  intros Hb Hc Hl. unfold spinlockAcquire. rewrite (bind_Ret _ _ _ _ _ (pushCli_eq y Hb)).
  pose proof (push_cpu y c cp Hc) as Hp.
  erewrite (bind_Ret (isHolding l)).
  2: { eapply isHolding_held; [exact Hp| | |]; [by rewrite (push_eq y c cp Hc)|by rewrite (push_eq y c cp Hc)|done]. }
  by rewrite bool_decide_eq_true_2.
Qed.

Lemma acquire_contended l y c cp nm d : balanced 1 y -> cpu_is y c cp -> d <> c ->
  locks y !! l = Some (mkSpinlock 1 nm (Some d)) -> spinlockAcquire l y = Spin.
Proof.
  intros Hb Hc Hd Hl. unfold spinlockAcquire. rewrite (bind_Ret _ _ _ _ _ (pushCli_eq y Hb)).
  pose proof (push_cpu y c cp Hc) as Hp.
  assert (Hl' : locks (push y) !! l = Some (mkSpinlock 1 nm (Some d))) by (by rewrite (push_eq y c cp Hc)).
  erewrite (bind_Ret (isHolding l)).
  2: { eapply isHolding_held; [exact Hp|by rewrite (push_eq y c cp Hc)|exact Hl'|done]. }
  rewrite bool_decide_eq_false_2 by congruence. by rewrite (bind_Ret _ _ _ _ _ (getLock_eq l _ _ Hl')).
Qed.

Lemma release_unheld l y : lockFree y l -> spinlockRelease l y = Panic "spinlockRelease".
Proof. intros Hl. unfold spinlockRelease. by rewrite (bind_Ret _ _ _ _ _ (isHolding_free l y Hl)). Qed.

Lemma release_other l y c cp nm d : cpu_is y c cp -> d <> c ->
  locks y !! l = Some (mkSpinlock 1 nm (Some d)) ->
  exists msg, spinlockRelease l y = Panic msg.
Proof.
  intros Hc Hd Hl. unfold spinlockRelease. destruct (iflag y) eqn:Hi.
  - exists "myCpu called with interrupts enabled". unfold isHolding. rewrite bind_assoc.
    rewrite (bind_Ret _ _ _ _ _ (getLock_eq l y _ Hl)). cbn [Locked Z.eqb].
    unfold mbind, M_bind. by rewrite (myCpu_interruptible y Hi).
  - exists "spinlockRelease". rewrite (bind_Ret _ _ _ _ _ (isHolding_held l y c cp 1 nm (Some d) Hc Hi Hl ltac:(done))).
    by rewrite bool_decide_eq_false_2 by congruence.
Qed.

(** * Several processors *)

(** All processors share [cpus] and the locks; each has its own interrupt
    flag. *)
Record Machine : Type := mkMachine {
  m_cpus : list Cpu;
  m_iflags : list bool;
  m_locks : gmap LockId Spinlock
}.

(** The machine as processor [c] sees it, and the machine after [c] has run to
    the state [y]. *)
Definition view (m : Machine) (c : nat) : option Sync :=
  cp ← m_cpus m !! c; b ← m_iflags m !! c;
  Some (mkSync (m_cpus m) (Z.of_nat (length (m_cpus m))) (Apicid cp) b (m_locks m)).

Definition merge (m : Machine) (c : nat) (y : Sync) : Machine :=
  mkMachine (cpus y) (<[c := iflag y]> (m_iflags m)) (locks y).

(** Processors acquire and release locks in any order and interleaving; the
    set records which acquisitions have not been released. *)
Inductive lock_step : Machine * gset (nat * LockId) -> Machine * gset (nat * LockId) -> Prop :=
| step_acquire m held c l y y' :
    view m c = Some y -> spinlockAcquire l y = Ret tt y' ->
    lock_step (m, held) (merge m c y', {[(c, l)]} ∪ held)
| step_release m held c l y y' :
    view m c = Some y -> spinlockRelease l y = Ret tt y' ->
    lock_step (m, held) (merge m c y', held ∖ {[(c, l)]}).

Definition heldBy (held : gset (nat * LockId)) (c : nat) : gset (nat * LockId) :=
  filter (fun x => x.1 = c) held.

(** The invariant: a lock is taken exactly when one processor holds it, the
    depth of a processor is the number of its locks, and its interrupts are
    off while it has any. *)
Record machine_ok (m : Machine) (held : gset (nat * LockId)) : Prop := {
  ok_apicid : NoDup (Apicid <$> m_cpus m);
  ok_iflags : length (m_iflags m) = length (m_cpus m);
  ok_size : Z.of_nat (size (m_locks m)) < 2147483647;
  ok_depth c cp : m_cpus m !! c = Some cp -> CliDepth cp = Z.of_nat (size (heldBy held c));
  ok_irq c cp : m_cpus m !! c = Some cp -> CliDepth cp <> 0 -> m_iflags m !! c = Some false;
  ok_lock l lk : m_locks m !! l = Some lk ->
    (Locked lk = 0 /\ LockCpu lk = None /\ forall c, (c, l) ∉ held) \/
    (exists c, Locked lk = 1 /\ LockCpu lk = Some c /\ forall d, (d, l) ∈ held <-> d = c);
  ok_held c l : (c, l) ∈ held -> is_Some (m_locks m !! l)
}.

Lemma findCpu_nodup cs : forall n i c cp, NoDup (Apicid <$> cs) -> (length cs <= n)%nat ->
  cs !! c = Some cp -> findCpu n i cs (Apicid cp) = Some (Some (i + c)%nat).
Proof.
  induction cs as [|x cs IH]; intros [|n] i [|c] cp Hnd Hn Hc; try done; cbn in *; try lia; simplify_eq.
  - rewrite Z.eqb_refl. by rewrite Nat.add_0_r.
  - apply NoDup_cons in Hnd as [Hx Hnd].
    destruct (Z.eqb_spec (Apicid x) (Apicid cp)) as [E|E].
    + exfalso. apply Hx. rewrite E. apply list_elem_of_fmap. exists cp. split; [done|].
      by eapply list_elem_of_lookup_2.
    + rewrite (IH n (S i) c cp) by (done || lia). do 2 f_equal. lia.
Qed.

Lemma heldBy_add held c l : heldBy ({[(c, l)]} ∪ held) c = {[(c, l)]} ∪ heldBy held c.
Proof. apply set_eq. intros x. unfold heldBy. set_solver. Qed.

Lemma heldBy_add_ne held c d l : d <> c -> heldBy ({[(d, l)]} ∪ held) c = heldBy held c.
Proof. intros Hd. apply set_eq. intros x. unfold heldBy. set_solver. Qed.

Lemma heldBy_remove held c l : heldBy (held ∖ {[(c, l)]}) c = heldBy held c ∖ {[(c, l)]}.
Proof. apply set_eq. intros x. unfold heldBy. set_solver. Qed.

Lemma heldBy_remove_ne held c d l : d <> c -> heldBy (held ∖ {[(d, l)]}) c = heldBy held c.
Proof. intros Hd. apply set_eq. intros x. unfold heldBy. set_solver. Qed.

Lemma heldBy_map held c : size (heldBy held c) = size (set_map snd (heldBy held c) : gset LockId).
Proof.
  induction held as [|[d l] held Hn IH] using set_ind_L; [done|].
  destruct (decide (d = c)) as [->|Hd].
  - rewrite heldBy_add, set_map_union_L, set_map_singleton_L.
    rewrite !size_union, !size_singleton, IH; [done| |]; unfold heldBy; set_solver.
  - by rewrite heldBy_add_ne.
Qed.

Lemma heldBy_size m held c : machine_ok m held -> (size (heldBy held c) <= size (m_locks m))%nat.
Proof.
  intros Hok. rewrite <- (size_dom (m_locks m)), heldBy_map.
  apply subseteq_size. intros l Hl. apply elem_of_map in Hl as ([d l'] & -> & Hl).
  apply elem_of_filter in Hl as [_ Hl]. apply elem_of_dom. by eapply ok_held.
Qed.

Lemma view_ok m held c y : machine_ok m held -> view m c = Some y ->
  exists cp, cpu_is y c cp /\ m_cpus m !! c = Some cp /\ m_iflags m !! c = Some (iflag y) /\
    y = mkSync (m_cpus m) (Z.of_nat (length (m_cpus m))) (Apicid cp) (iflag y) (m_locks m) /\ balanced 1 y.
Proof.
  intros Hok Hv. unfold view in Hv. destruct (m_cpus m !! c) as [cp|] eqn:Hc; [|done].
  cbn in Hv. destruct (m_iflags m !! c) as [b|] eqn:Hb; [|done]. cbn in Hv. simplify_eq. exists cp.
  assert (Hcp : cpu_is (mkSync (m_cpus m) (Z.of_nat (length (m_cpus m))) (Apicid cp) b (m_locks m)) c cp).
  { split; [|done]. cbn. rewrite Nat2Z.id. rewrite (findCpu_nodup (m_cpus m) _ 0 c cp); [done| |lia|done]. apply Hok. }
  split_and!; try done. exists c, cp. rewrite (ok_depth m held Hok c cp Hc).
  pose proof (heldBy_size m held c Hok). pose proof (ok_size m held Hok).
  split_and!; [done|lia|lia|]. intros Hi. cbn in Hi. subst b.
  destruct (Z.eq_dec (CliDepth cp) 0) as [E|E]; [by rewrite <- (ok_depth m held Hok c cp Hc)|].
  rewrite (ok_irq m held Hok c cp Hc E) in Hb. done.
Qed.

(** A processor's own update of its structure and flag. *)
Lemma machine_ok_cpu m held held' c cp cp' b m' :
  machine_ok m held -> m_cpus m !! c = Some cp -> Apicid cp' = Apicid cp ->
  CliDepth cp' = Z.of_nat (size (heldBy held' c)) -> (CliDepth cp' <> 0 -> b = false) ->
  (forall d, d <> c -> heldBy held' d = heldBy held d) -> size m' = size (m_locks m) ->
  (forall l lk, m' !! l = Some lk ->
    (Locked lk = 0 /\ LockCpu lk = None /\ forall c, (c, l) ∉ held') \/
    (exists c, Locked lk = 1 /\ LockCpu lk = Some c /\ forall d, (d, l) ∈ held' <-> d = c)) ->
  (forall d l, (d, l) ∈ held' -> is_Some (m' !! l)) ->
  machine_ok (mkMachine (<[c := cp']> (m_cpus m)) (<[c := b]> (m_iflags m)) m') held'.
Proof.
  intros Hok Hc Ha Hd Hb Hheld Hs Hl Hh. pose proof (lookup_lt_Some _ _ _ Hc) as Hlt.
  split; cbn; try done.
  - rewrite list_fmap_insert, list_insert_id; [apply Hok|]. rewrite list_lookup_fmap, Hc, Ha. done.
  - rewrite !length_insert. apply Hok.
  - rewrite Hs. apply Hok.
  - intros d dp Hdp. apply list_lookup_insert_Some in Hdp as [(<- & <- & _)|(Hne & Hdp)]; [done|].
    rewrite Hheld by done. by apply Hok.
  - intros d dp Hdp Hnz. apply list_lookup_insert_Some in Hdp as [(<- & <- & _)|(Hne & Hdp)].
    + rewrite list_lookup_insert_eq; [by rewrite Hb|]. by rewrite (ok_iflags m held Hok).
    + rewrite list_lookup_insert_ne by done. by apply (ok_irq m held Hok d dp).
Qed.

Lemma acquire_preserves m held c l y y' : machine_ok m held -> view m c = Some y ->
  spinlockAcquire l y = Ret tt y' -> machine_ok (merge m c y') ({[(c, l)]} ∪ held).
Proof.
  intros Hok Hv Hr. destruct (view_ok m held c y Hok Hv) as (cp & Hcp & Hc & Hi & Ey & Hb).
  assert (El : locks y = m_locks m) by (by rewrite Ey).
  destruct (m_locks m !! l) as [lk|] eqn:Hl.
  2: { exfalso. revert Hr. unfold spinlockAcquire. rewrite (bind_Ret _ _ _ _ _ (pushCli_eq y Hb)).
       unfold isHolding, getLock. rewrite !bind_assoc, bind_gets, (push_eq _ _ _ Hcp). cbn [locks]. by rewrite El, Hl. }
  destruct lk as [k nm o]. destruct (ok_lock m held Hok l _ Hl) as [(E1 & E2 & Hfree)|(d & E1 & E2 & Hheld)]; cbn in *; subst.
  - rewrite (acquire_eq l y Hb) in Hr by (exists nm; congruence). injection Hr as <-.
    assert (Hly : locks y !! l = Some (mkSpinlock 0 nm None)) by congruence.
    rewrite (acq_eq _ _ _ Hcp l _ Hly), (push_eq _ _ _ Hcp). unfold merge. cbn. rewrite El.
    replace (cpus y) with (m_cpus m) by (by rewrite Ey).
    apply (machine_ok_cpu m held _ c cp); try done.
    + cbn. unfold remember. by case_match.
    + cbn. rewrite heldBy_add, size_union, size_singleton.
      * rewrite (ok_depth m held Hok c cp Hc). lia.
      * apply disjoint_singleton_l. intros Hin. apply elem_of_filter in Hin as [_ Hin]. by apply (Hfree c).
    + intros d Hd. by apply heldBy_add_ne.
    + rewrite map_size_insert, Hl. done.
    + intros l' lk' Hl'. apply lookup_insert_Some in Hl' as [[<- <-]|[Hne Hl']].
      * right. exists c. split_and!; try done. intros d. split; [|set_solver].
        intros [Hin|Hin]%elem_of_union; [set_solver|]. by destruct (Hfree d).
      * destruct (ok_lock m held Hok l' lk' Hl') as [(? & ? & Hf)|(d & ? & ? & Hf)].
        -- left. split_and!; try done. intros d. specialize (Hf d). set_solver.
        -- right. exists d. split_and!; try done. intros e. rewrite <- Hf. set_solver.
    + intros d l' [Hin|Hin]%elem_of_union.
      * apply elem_of_singleton in Hin. simplify_eq. by rewrite lookup_insert_eq.
      * apply lookup_insert_is_Some'. right. by eapply (ok_held m held Hok).
  - exfalso. destruct (decide (d = c)) as [->|Hd].
    + rewrite (acquire_held l y c cp nm) in Hr by (done || congruence). done.
    + rewrite (acquire_contended l y c cp nm d) in Hr by (done || congruence). done.
Qed.

Lemma release_preserves m held c l y y' : machine_ok m held -> view m c = Some y ->
  spinlockRelease l y = Ret tt y' -> machine_ok (merge m c y') (held ∖ {[(c, l)]}).
Proof.
  intros Hok Hv Hr. destruct (view_ok m held c y Hok Hv) as (cp & Hcp & Hc & Hi & Ey & Hb).
  assert (El : locks y = m_locks m) by (by rewrite Ey).
  destruct (m_locks m !! l) as [lk|] eqn:Hl.
  2: { exfalso. revert Hr. unfold spinlockRelease, isHolding, getLock. rewrite !bind_assoc, bind_gets. by rewrite El, Hl. }
  destruct lk as [k nm o]. destruct (ok_lock m held Hok l _ Hl) as [(E1 & E2 & Hfree)|(d & E1 & E2 & Hheld)]; cbn in *; subst.
  { rewrite (release_unheld l y) in Hr by (exists nm; congruence). done. }
  assert (Hly : locks y !! l = Some (mkSpinlock 1 nm (Some d))) by congruence.
  destruct (decide (d = c)) as [->|Hd].
  2: { destruct (release_other l y c cp nm d Hcp Hd Hly) as [msg E]. rewrite E in Hr. done. }
  assert (Hin : (c, l) ∈ heldBy held c) by (apply elem_of_filter; split; [done|by apply Hheld]).
  assert (Hpos : (0 < size (heldBy held c))%nat) by (destruct (size (heldBy held c)) eqn:E; [apply size_empty_inv in E; set_solver|lia]).
  pose proof (ok_depth m held Hok c cp Hc) as Hdep. pose proof (heldBy_size m held c Hok) as Hsz. pose proof (ok_size m held Hok) as Hmax.
  assert (Hif : iflag y = false).
  { rewrite (ok_irq m held Hok c cp Hc) in Hi by lia. congruence. }
  rewrite (release_eq l y c cp nm Hcp Hif) in Hr by (done || lia). injection Hr as <-.
  unfold merge, pop. cbn. rewrite El. replace (cpus y) with (m_cpus m) by (by rewrite Ey).
  apply (machine_ok_cpu m held _ c cp); try done.
  - cbn. rewrite heldBy_remove, size_difference, size_singleton by set_solver. lia.
  - cbn. intros Hnz. rewrite (proj2 (Z.eqb_neq (CliDepth cp) 1)) by lia. done.
  - intros d Hd. by apply heldBy_remove_ne.
  - rewrite map_size_insert, Hl. done.
  - intros l' lk' Hl'. apply lookup_insert_Some in Hl' as [[<- <-]|[Hne Hl']].
    + left. split_and!; try done. intros d Hin'. apply elem_of_difference in Hin' as [Hin' Hn].
      apply Hheld in Hin'. set_solver.
    + destruct (ok_lock m held Hok l' lk' Hl') as [(? & ? & Hf)|(d & ? & ? & Hf)].
      * left. split_and!; try done. intros d. specialize (Hf d). set_solver.
      * right. exists d. split_and!; try done. intros e. rewrite <- Hf. set_solver.
  - intros d l' [Hin' _]%elem_of_difference. apply lookup_insert_is_Some'. right. by eapply (ok_held m held Hok).
Qed.

(** * Properties *)


(** What [spinlockAcquire] does on every branch: it takes a free lock,
    panics on one that this processor already holds, and spins for ever on one
    that another processor holds as long as nobody else runs; a release after
    an acquisition restores the interrupt flag and the depth. *)
Theorem spinlockAcquire_outcome (l : LockId) (y : Sync) (c : nat) (cp : Cpu) (nm : string) (holder : option nat) :
  balanced 1 y -> cpu_is y c cp ->
  locks y !! l = Some (mkSpinlock (match holder with Some _ => 1 | None => 0 end) nm holder) ->
  spinlockAcquire l y =
    match holder with
    | None => Ret tt (acq l y)
    | Some d => if decide (d = c) then Panic "spinlockAcquire" else Spin
    end /\
  (holder = None -> spinlockRelease l (acq l y) = Ret tt (settle y) /\
                    iflag (settle y) = iflag y /\ locks (settle y) = locks y).
Proof.
  intros Hb Hc Hl. destruct holder as [d|].
  - split; [|done]. case_decide; [subst; by apply (acquire_held l y c cp nm)|by apply (acquire_contended l y c cp nm d)].
  - assert (Hf : lockFree y l) by (by exists nm). split; [by apply acquire_eq|]. intros _.
    split; [by apply release_acq|]. split; [apply settle_iflag|apply settle_locks].
Qed.

(** * Concrete machines *)

Definition demoCpu (id : Z) : Cpu := mkCpu id 1 0 0 None.

Definition demoMachine : Machine :=
  mkMachine [demoCpu 0; demoCpu 4] [true; true] {[L_ide := mkSpinlock 0 "ide" None]}.

Lemma demoMachine_ok : machine_ok demoMachine ∅.
Proof.
  split; cbn.
  - apply NoDup_cons. split; [set_solver|]. apply NoDup_singleton.
  - done.
  - rewrite map_size_singleton. lia.
  - intros [|[|c]] cp E; try done; injection E as <-; reflexivity.
  - intros [|[|c]] cp E Hn; try done; injection E as <-; by destruct Hn.
  - intros l lk Hl. apply lookup_singleton_Some in Hl as [<- <-]. left. split_and!; [done|done|]. intros c. apply not_elem_of_empty.
  - intros c l Hin. set_solver.
Qed.

Definition demoSync : Sync := mkSync [demoCpu 0; demoCpu 4] 2 4 true {[L_ide := mkSpinlock 0 "ide" None]}.

Lemma demoSync_balanced : balanced 1 demoSync.
Proof. exists 1%nat, (demoCpu 4). split_and!; [by split|done|done|done]. Qed.


Lemma spinlockAcquire_outcome_witness :
  spinlockAcquire L_ide demoSync = Ret tt (acq L_ide demoSync) /\
  spinlockRelease L_ide (acq L_ide demoSync) = Ret tt (settle demoSync).
Proof.
  destruct (spinlockAcquire_outcome L_ide demoSync 1 (demoCpu 4) "ide" None demoSync_balanced) as [H1 H2];
    [split; reflexivity|reflexivity|].
  split; [exact H1|]. apply H2. reflexivity.
Defined.
