(* ===== verification/Kernel.v ===== *)
(** The state of the kernel: the structures of proc.h, pipe.c, buf.h and the
    globals of the components, and the two things outside the source that the
    code reaches: the devices behind the I/O ports ([Hardware]) and what the
    rest of the system does while the current process is switched out
    ([Scheduler]). *)

From S2P Require Import Prelude CString Types Fat12 Spinlock.

(** * Processes (proc.h) *)

Inductive procstate : Type := UNUSED | EMBRYO | SLEEPING | RUNNABLE | RUNNING | ZOMBIE.

#[export] Instance procstate_eq_dec : EqDecision procstate.
Proof. solve_decision. Defined.

(** The addresses the kernel sleeps on: a process, a disk buffer, the sleep
    lock of a disk buffer, the two counters of the pipe in page [a], the
    console input and the clock. *)
Inductive ChanId : Type :=
| Ch_process (p : nat) | Ch_buffer (b : nat) | Ch_sleeplock (b : nat)
| Ch_readCount (a : Z) | Ch_writeCount (a : Z) | Ch_input | Ch_ticks.

#[export] Instance ChanId_eq_dec : EqDecision ChanId.
Proof. solve_decision. Defined.

(** A [Process *] is an index into the process table, a [File *] one into the
    file table, a null pointer is [None]; the other pointers are addresses. *)
Record Process : Type := mkProcess {
  MemorySize : Z;
  PageTable : Z;
  KernelStack : Z;
  State : procstate;
  ProcessId : Z;
  Parent : option nat;
  Trapframe : Z;
  Context_ : Z;
  Chan : option ChanId;
  IsKilled : Z;
  OpenFile : list (option nat);
  Cwd : list Z;
  ProcName : list Z
}.

Definition set_MemorySize (x : Z) (s : Process) : Process :=
  mkProcess x (PageTable s) (KernelStack s) (State s) (ProcessId s) (Parent s) (Trapframe s) (Context_ s) (Chan s) (IsKilled s) (OpenFile s) (Cwd s) (ProcName s).
Definition set_PageTable (x : Z) (s : Process) : Process :=
  mkProcess (MemorySize s) x (KernelStack s) (State s) (ProcessId s) (Parent s) (Trapframe s) (Context_ s) (Chan s) (IsKilled s) (OpenFile s) (Cwd s) (ProcName s).
Definition set_KernelStack (x : Z) (s : Process) : Process :=
  mkProcess (MemorySize s) (PageTable s) x (State s) (ProcessId s) (Parent s) (Trapframe s) (Context_ s) (Chan s) (IsKilled s) (OpenFile s) (Cwd s) (ProcName s).
Definition set_State (x : procstate) (s : Process) : Process :=
  mkProcess (MemorySize s) (PageTable s) (KernelStack s) x (ProcessId s) (Parent s) (Trapframe s) (Context_ s) (Chan s) (IsKilled s) (OpenFile s) (Cwd s) (ProcName s).
Definition set_ProcessId (x : Z) (s : Process) : Process :=
  mkProcess (MemorySize s) (PageTable s) (KernelStack s) (State s) x (Parent s) (Trapframe s) (Context_ s) (Chan s) (IsKilled s) (OpenFile s) (Cwd s) (ProcName s).
Definition set_Parent (x : option nat) (s : Process) : Process :=
  mkProcess (MemorySize s) (PageTable s) (KernelStack s) (State s) (ProcessId s) x (Trapframe s) (Context_ s) (Chan s) (IsKilled s) (OpenFile s) (Cwd s) (ProcName s).
Definition set_Trapframe (x : Z) (s : Process) : Process :=
  mkProcess (MemorySize s) (PageTable s) (KernelStack s) (State s) (ProcessId s) (Parent s) x (Context_ s) (Chan s) (IsKilled s) (OpenFile s) (Cwd s) (ProcName s).
Definition set_Context_ (x : Z) (s : Process) : Process :=
  mkProcess (MemorySize s) (PageTable s) (KernelStack s) (State s) (ProcessId s) (Parent s) (Trapframe s) x (Chan s) (IsKilled s) (OpenFile s) (Cwd s) (ProcName s).
Definition set_Chan (x : option ChanId) (s : Process) : Process :=
  mkProcess (MemorySize s) (PageTable s) (KernelStack s) (State s) (ProcessId s) (Parent s) (Trapframe s) (Context_ s) x (IsKilled s) (OpenFile s) (Cwd s) (ProcName s).
Definition set_IsKilled (x : Z) (s : Process) : Process :=
  mkProcess (MemorySize s) (PageTable s) (KernelStack s) (State s) (ProcessId s) (Parent s) (Trapframe s) (Context_ s) (Chan s) x (OpenFile s) (Cwd s) (ProcName s).
Definition set_OpenFile (x : list (option nat)) (s : Process) : Process :=
  mkProcess (MemorySize s) (PageTable s) (KernelStack s) (State s) (ProcessId s) (Parent s) (Trapframe s) (Context_ s) (Chan s) (IsKilled s) x (Cwd s) (ProcName s).
Definition set_Cwd (x : list Z) (s : Process) : Process :=
  mkProcess (MemorySize s) (PageTable s) (KernelStack s) (State s) (ProcessId s) (Parent s) (Trapframe s) (Context_ s) (Chan s) (IsKilled s) (OpenFile s) x (ProcName s).
Definition set_ProcName (x : list Z) (s : Process) : Process :=
  mkProcess (MemorySize s) (PageTable s) (KernelStack s) (State s) (ProcessId s) (Parent s) (Trapframe s) (Context_ s) (Chan s) (IsKilled s) (OpenFile s) (Cwd s) x.

(** * Pipes (pipe.c) *)

Definition PIPESIZE : Z := 512.

(** The lock of the pipe in page [a] is [L_pipe a]. *)
Record Pipe : Type := mkPipe {
  PipeData : list Z;
  ReadCount : Z;
  WriteCount : Z;
  ReadOpen : Z;
  WriteOpen : Z
}.

Definition set_PipeData (x : list Z) (s : Pipe) : Pipe :=
  mkPipe x (ReadCount s) (WriteCount s) (ReadOpen s) (WriteOpen s).
Definition set_ReadCount (x : Z) (s : Pipe) : Pipe :=
  mkPipe (PipeData s) x (WriteCount s) (ReadOpen s) (WriteOpen s).
Definition set_WriteCount (x : Z) (s : Pipe) : Pipe :=
  mkPipe (PipeData s) (ReadCount s) x (ReadOpen s) (WriteOpen s).
Definition set_ReadOpen (x : Z) (s : Pipe) : Pipe :=
  mkPipe (PipeData s) (ReadCount s) (WriteCount s) x (WriteOpen s).
Definition set_WriteOpen (x : Z) (s : Pipe) : Pipe :=
  mkPipe (PipeData s) (ReadCount s) (WriteCount s) (ReadOpen s) x.

(** * Disk buffers (buf.h) *)

(** Pointers between buffers are indices; the list head of the cache is the
    buffer after the last one.  The spin lock inside the sleep lock of buffer
    [i] is [L_buffer i]. *)
Record Sleeplock : Type := mkSleeplock {
  SlLocked : Z;
  SlName : string;
  SlPid : Z
}.

Definition set_SlLocked (x : Z) (s : Sleeplock) : Sleeplock :=
  mkSleeplock x (SlName s) (SlPid s).
Definition set_SlName (x : string) (s : Sleeplock) : Sleeplock :=
  mkSleeplock (SlLocked s) x (SlPid s).
Definition set_SlPid (x : Z) (s : Sleeplock) : Sleeplock :=
  mkSleeplock (SlLocked s) (SlName s) x.

Record DiskBuffer : Type := mkDiskBuffer {
  Flags : Z;
  Device : Z;
  SectorNumber : Z;
  Lock : Sleeplock;
  BufReferenceCount : Z;
  Previous : nat;
  Next : nat;
  QueueNext : option nat;
  BufData : list Z
}.

Definition set_Flags (x : Z) (s : DiskBuffer) : DiskBuffer :=
  mkDiskBuffer x (Device s) (SectorNumber s) (Lock s) (BufReferenceCount s) (Previous s) (Next s) (QueueNext s) (BufData s).
Definition set_Device (x : Z) (s : DiskBuffer) : DiskBuffer :=
  mkDiskBuffer (Flags s) x (SectorNumber s) (Lock s) (BufReferenceCount s) (Previous s) (Next s) (QueueNext s) (BufData s).
Definition set_SectorNumber (x : Z) (s : DiskBuffer) : DiskBuffer :=
  mkDiskBuffer (Flags s) (Device s) x (Lock s) (BufReferenceCount s) (Previous s) (Next s) (QueueNext s) (BufData s).
Definition set_Lock (x : Sleeplock) (s : DiskBuffer) : DiskBuffer :=
  mkDiskBuffer (Flags s) (Device s) (SectorNumber s) x (BufReferenceCount s) (Previous s) (Next s) (QueueNext s) (BufData s).
Definition set_BufReferenceCount (x : Z) (s : DiskBuffer) : DiskBuffer :=
  mkDiskBuffer (Flags s) (Device s) (SectorNumber s) (Lock s) x (Previous s) (Next s) (QueueNext s) (BufData s).
Definition set_Previous (x : nat) (s : DiskBuffer) : DiskBuffer :=
  mkDiskBuffer (Flags s) (Device s) (SectorNumber s) (Lock s) (BufReferenceCount s) x (Next s) (QueueNext s) (BufData s).
Definition set_Next (x : nat) (s : DiskBuffer) : DiskBuffer :=
  mkDiskBuffer (Flags s) (Device s) (SectorNumber s) (Lock s) (BufReferenceCount s) (Previous s) x (QueueNext s) (BufData s).
Definition set_QueueNext (x : option nat) (s : DiskBuffer) : DiskBuffer :=
  mkDiskBuffer (Flags s) (Device s) (SectorNumber s) (Lock s) (BufReferenceCount s) (Previous s) (Next s) x (BufData s).
Definition set_BufData (x : list Z) (s : DiskBuffer) : DiskBuffer :=
  mkDiskBuffer (Flags s) (Device s) (SectorNumber s) (Lock s) (BufReferenceCount s) (Previous s) (Next s) (QueueNext s) x.

(** * Port input and output *)

Inductive IoEvent : Type :=
| InByte (port value : Z)
| OutByte (port value : Z)
| InSequence (port : Z) (data : list Z)
| OutSequence (port : Z) (data : list Z)
| ReadRegister (address value : Z)
| WriteRegister (address value : Z)
| Message (text : string).

(** The devices: the answer to a read of a port or of a register mapped into
    memory depends on everything that happened before, the latest event first.
    [polls] bounds how often a driver that polls a status asks for it; a
    device that stays busy longer is taken to stay busy for ever. *)
Class Hardware : Type := {
  portByte : list IoEvent -> Z -> Z;
  portSequence : list IoEvent -> Z -> Z -> list Z;
  registerWord : list IoEvent -> Z -> Z;
  polls : nat
}.

(** * Console (console.c, kbd.c, uart.c) *)

(** [panicked], [cons.Locking], the ring buffer [input] with its three
    indices, the modifier keys that [kbdgetc] keeps in its static variable, and
    whether there is a serial line. *)
Record ConsoleState : Type := mkConsoleState {
  panicked : Z;
  Locking : Z;
  inputBuf : list Z;
  input_r : Z;
  input_w : Z;
  input_e : Z;
  kbdShift : Z;
  uart : Z
}.

Definition set_panicked (x : Z) (s : ConsoleState) : ConsoleState :=
  mkConsoleState x (Locking s) (inputBuf s) (input_r s) (input_w s) (input_e s) (kbdShift s) (uart s).
Definition set_Locking (x : Z) (s : ConsoleState) : ConsoleState :=
  mkConsoleState (panicked s) x (inputBuf s) (input_r s) (input_w s) (input_e s) (kbdShift s) (uart s).
Definition set_inputBuf (x : list Z) (s : ConsoleState) : ConsoleState :=
  mkConsoleState (panicked s) (Locking s) x (input_r s) (input_w s) (input_e s) (kbdShift s) (uart s).
Definition set_input_r (x : Z) (s : ConsoleState) : ConsoleState :=
  mkConsoleState (panicked s) (Locking s) (inputBuf s) x (input_w s) (input_e s) (kbdShift s) (uart s).
Definition set_input_w (x : Z) (s : ConsoleState) : ConsoleState :=
  mkConsoleState (panicked s) (Locking s) (inputBuf s) (input_r s) x (input_e s) (kbdShift s) (uart s).
Definition set_input_e (x : Z) (s : ConsoleState) : ConsoleState :=
  mkConsoleState (panicked s) (Locking s) (inputBuf s) (input_r s) (input_w s) x (kbdShift s) (uart s).
Definition set_kbdShift (x : Z) (s : ConsoleState) : ConsoleState :=
  mkConsoleState (panicked s) (Locking s) (inputBuf s) (input_r s) (input_w s) (input_e s) x (uart s).
Definition set_uart (x : Z) (s : ConsoleState) : ConsoleState :=
  mkConsoleState (panicked s) (Locking s) (inputBuf s) (input_r s) (input_w s) (input_e s) (kbdShift s) x.

(** * Descriptors (mmu.h) *)

Record gatedesc : Type := mkGate {
  off_15_0 : Z; gate_cs : Z; gate_args : Z; gate_rsv1 : Z; gate_type : Z; gate_s : Z; gate_dpl : Z; gate_p : Z; off_31_16 : Z
}.

Record Segdesc : Type := mkSegdesc {
  lim_15_0 : Z; base_15_0 : Z; base_23_16 : Z; seg_type : Z; seg_s : Z; seg_dpl : Z; seg_p : Z;
  lim_19_16 : Z; seg_avl : Z; seg_rsv1 : Z; seg_db : Z; seg_g : Z; base_31_24 : Z
}.

(** * The kernel *)

(** [kmem]: the bytes of memory, by kernel virtual address; [cr3] and [esp0]:
    the page table register and the kernel stack in the task state segment of
    the executing processor; [ticks]: the clock of trap.c;
    [localApic] and [ioapicid]: what mp.c found; [idt]: the interrupt
    descriptors, [idtLoaded]: whether the processor uses them; [gdts]: the
    segment descriptors of each processor, [gdtr]: those that the executing one
    uses; [cr2]: the address of the last page fault; [imageFileHeader]: the bytes
    of the header that exec.c keeps in a global. *)
Record KState : Type := mkKState {
  sync : Sync;
  kmem : mem;
  UseLock : Z;
  FreeList : Z;
  processTable : list Process;
  initproc : option nat;
  nextpid : Z;
  fileTable : list File;
  pipes : gmap Z Pipe;
  diskBufferCache : list DiskBuffer;
  idequeue : option nat;
  havedisk1 : Z;
  io : list IoEvent;
  volume : Volume;
  kernelPageDirectory : Z;
  cr3 : Z;
  esp0 : Z;
  ticks : Z;
  console : ConsoleState;
  localApic : Z;
  ioapicid : Z;
  idt : list gatedesc;
  idtLoaded : Z;
  gdts : gmap nat (list Segdesc);
  gdtr : option nat;
  cr2 : Z;
  imageFileHeader : list Z
}.

Definition set_sync (x : Sync) (s : KState) : KState :=
  mkKState x (kmem s) (UseLock s) (FreeList s) (processTable s) (initproc s) (nextpid s) (fileTable s) (pipes s) (diskBufferCache s) (idequeue s) (havedisk1 s) (io s) (volume s) (kernelPageDirectory s) (cr3 s) (esp0 s) (ticks s) (console s) (localApic s) (ioapicid s) (idt s) (idtLoaded s) (gdts s) (gdtr s) (cr2 s) (imageFileHeader s).
Definition set_kmem (x : mem) (s : KState) : KState :=
  mkKState (sync s) x (UseLock s) (FreeList s) (processTable s) (initproc s) (nextpid s) (fileTable s) (pipes s) (diskBufferCache s) (idequeue s) (havedisk1 s) (io s) (volume s) (kernelPageDirectory s) (cr3 s) (esp0 s) (ticks s) (console s) (localApic s) (ioapicid s) (idt s) (idtLoaded s) (gdts s) (gdtr s) (cr2 s) (imageFileHeader s).
Definition set_UseLock (x : Z) (s : KState) : KState :=
  mkKState (sync s) (kmem s) x (FreeList s) (processTable s) (initproc s) (nextpid s) (fileTable s) (pipes s) (diskBufferCache s) (idequeue s) (havedisk1 s) (io s) (volume s) (kernelPageDirectory s) (cr3 s) (esp0 s) (ticks s) (console s) (localApic s) (ioapicid s) (idt s) (idtLoaded s) (gdts s) (gdtr s) (cr2 s) (imageFileHeader s).
Definition set_FreeList (x : Z) (s : KState) : KState :=
  mkKState (sync s) (kmem s) (UseLock s) x (processTable s) (initproc s) (nextpid s) (fileTable s) (pipes s) (diskBufferCache s) (idequeue s) (havedisk1 s) (io s) (volume s) (kernelPageDirectory s) (cr3 s) (esp0 s) (ticks s) (console s) (localApic s) (ioapicid s) (idt s) (idtLoaded s) (gdts s) (gdtr s) (cr2 s) (imageFileHeader s).
Definition set_processTable (x : list Process) (s : KState) : KState :=
  mkKState (sync s) (kmem s) (UseLock s) (FreeList s) x (initproc s) (nextpid s) (fileTable s) (pipes s) (diskBufferCache s) (idequeue s) (havedisk1 s) (io s) (volume s) (kernelPageDirectory s) (cr3 s) (esp0 s) (ticks s) (console s) (localApic s) (ioapicid s) (idt s) (idtLoaded s) (gdts s) (gdtr s) (cr2 s) (imageFileHeader s).
Definition set_initproc (x : option nat) (s : KState) : KState :=
  mkKState (sync s) (kmem s) (UseLock s) (FreeList s) (processTable s) x (nextpid s) (fileTable s) (pipes s) (diskBufferCache s) (idequeue s) (havedisk1 s) (io s) (volume s) (kernelPageDirectory s) (cr3 s) (esp0 s) (ticks s) (console s) (localApic s) (ioapicid s) (idt s) (idtLoaded s) (gdts s) (gdtr s) (cr2 s) (imageFileHeader s).
Definition set_nextpid (x : Z) (s : KState) : KState :=
  mkKState (sync s) (kmem s) (UseLock s) (FreeList s) (processTable s) (initproc s) x (fileTable s) (pipes s) (diskBufferCache s) (idequeue s) (havedisk1 s) (io s) (volume s) (kernelPageDirectory s) (cr3 s) (esp0 s) (ticks s) (console s) (localApic s) (ioapicid s) (idt s) (idtLoaded s) (gdts s) (gdtr s) (cr2 s) (imageFileHeader s).
Definition set_fileTable (x : list File) (s : KState) : KState :=
  mkKState (sync s) (kmem s) (UseLock s) (FreeList s) (processTable s) (initproc s) (nextpid s) x (pipes s) (diskBufferCache s) (idequeue s) (havedisk1 s) (io s) (volume s) (kernelPageDirectory s) (cr3 s) (esp0 s) (ticks s) (console s) (localApic s) (ioapicid s) (idt s) (idtLoaded s) (gdts s) (gdtr s) (cr2 s) (imageFileHeader s).
Definition set_pipes (x : gmap Z Pipe) (s : KState) : KState :=
  mkKState (sync s) (kmem s) (UseLock s) (FreeList s) (processTable s) (initproc s) (nextpid s) (fileTable s) x (diskBufferCache s) (idequeue s) (havedisk1 s) (io s) (volume s) (kernelPageDirectory s) (cr3 s) (esp0 s) (ticks s) (console s) (localApic s) (ioapicid s) (idt s) (idtLoaded s) (gdts s) (gdtr s) (cr2 s) (imageFileHeader s).
Definition set_diskBufferCache (x : list DiskBuffer) (s : KState) : KState :=
  mkKState (sync s) (kmem s) (UseLock s) (FreeList s) (processTable s) (initproc s) (nextpid s) (fileTable s) (pipes s) x (idequeue s) (havedisk1 s) (io s) (volume s) (kernelPageDirectory s) (cr3 s) (esp0 s) (ticks s) (console s) (localApic s) (ioapicid s) (idt s) (idtLoaded s) (gdts s) (gdtr s) (cr2 s) (imageFileHeader s).
Definition set_idequeue (x : option nat) (s : KState) : KState :=
  mkKState (sync s) (kmem s) (UseLock s) (FreeList s) (processTable s) (initproc s) (nextpid s) (fileTable s) (pipes s) (diskBufferCache s) x (havedisk1 s) (io s) (volume s) (kernelPageDirectory s) (cr3 s) (esp0 s) (ticks s) (console s) (localApic s) (ioapicid s) (idt s) (idtLoaded s) (gdts s) (gdtr s) (cr2 s) (imageFileHeader s).
Definition set_havedisk1 (x : Z) (s : KState) : KState :=
  mkKState (sync s) (kmem s) (UseLock s) (FreeList s) (processTable s) (initproc s) (nextpid s) (fileTable s) (pipes s) (diskBufferCache s) (idequeue s) x (io s) (volume s) (kernelPageDirectory s) (cr3 s) (esp0 s) (ticks s) (console s) (localApic s) (ioapicid s) (idt s) (idtLoaded s) (gdts s) (gdtr s) (cr2 s) (imageFileHeader s).
Definition set_io (x : list IoEvent) (s : KState) : KState :=
  mkKState (sync s) (kmem s) (UseLock s) (FreeList s) (processTable s) (initproc s) (nextpid s) (fileTable s) (pipes s) (diskBufferCache s) (idequeue s) (havedisk1 s) x (volume s) (kernelPageDirectory s) (cr3 s) (esp0 s) (ticks s) (console s) (localApic s) (ioapicid s) (idt s) (idtLoaded s) (gdts s) (gdtr s) (cr2 s) (imageFileHeader s).
Definition set_volume (x : Volume) (s : KState) : KState :=
  mkKState (sync s) (kmem s) (UseLock s) (FreeList s) (processTable s) (initproc s) (nextpid s) (fileTable s) (pipes s) (diskBufferCache s) (idequeue s) (havedisk1 s) (io s) x (kernelPageDirectory s) (cr3 s) (esp0 s) (ticks s) (console s) (localApic s) (ioapicid s) (idt s) (idtLoaded s) (gdts s) (gdtr s) (cr2 s) (imageFileHeader s).
Definition set_kernelPageDirectory (x : Z) (s : KState) : KState :=
  mkKState (sync s) (kmem s) (UseLock s) (FreeList s) (processTable s) (initproc s) (nextpid s) (fileTable s) (pipes s) (diskBufferCache s) (idequeue s) (havedisk1 s) (io s) (volume s) x (cr3 s) (esp0 s) (ticks s) (console s) (localApic s) (ioapicid s) (idt s) (idtLoaded s) (gdts s) (gdtr s) (cr2 s) (imageFileHeader s).
Definition set_cr3 (x : Z) (s : KState) : KState :=
  mkKState (sync s) (kmem s) (UseLock s) (FreeList s) (processTable s) (initproc s) (nextpid s) (fileTable s) (pipes s) (diskBufferCache s) (idequeue s) (havedisk1 s) (io s) (volume s) (kernelPageDirectory s) x (esp0 s) (ticks s) (console s) (localApic s) (ioapicid s) (idt s) (idtLoaded s) (gdts s) (gdtr s) (cr2 s) (imageFileHeader s).
Definition set_esp0 (x : Z) (s : KState) : KState :=
  mkKState (sync s) (kmem s) (UseLock s) (FreeList s) (processTable s) (initproc s) (nextpid s) (fileTable s) (pipes s) (diskBufferCache s) (idequeue s) (havedisk1 s) (io s) (volume s) (kernelPageDirectory s) (cr3 s) x (ticks s) (console s) (localApic s) (ioapicid s) (idt s) (idtLoaded s) (gdts s) (gdtr s) (cr2 s) (imageFileHeader s).
Definition set_ticks (x : Z) (s : KState) : KState :=
  mkKState (sync s) (kmem s) (UseLock s) (FreeList s) (processTable s) (initproc s) (nextpid s) (fileTable s) (pipes s) (diskBufferCache s) (idequeue s) (havedisk1 s) (io s) (volume s) (kernelPageDirectory s) (cr3 s) (esp0 s) x (console s) (localApic s) (ioapicid s) (idt s) (idtLoaded s) (gdts s) (gdtr s) (cr2 s) (imageFileHeader s).
Definition set_console (x : ConsoleState) (s : KState) : KState :=
  mkKState (sync s) (kmem s) (UseLock s) (FreeList s) (processTable s) (initproc s) (nextpid s) (fileTable s) (pipes s) (diskBufferCache s) (idequeue s) (havedisk1 s) (io s) (volume s) (kernelPageDirectory s) (cr3 s) (esp0 s) (ticks s) x (localApic s) (ioapicid s) (idt s) (idtLoaded s) (gdts s) (gdtr s) (cr2 s) (imageFileHeader s).
Definition set_localApic (x : Z) (s : KState) : KState :=
  mkKState (sync s) (kmem s) (UseLock s) (FreeList s) (processTable s) (initproc s) (nextpid s) (fileTable s) (pipes s) (diskBufferCache s) (idequeue s) (havedisk1 s) (io s) (volume s) (kernelPageDirectory s) (cr3 s) (esp0 s) (ticks s) (console s) x (ioapicid s) (idt s) (idtLoaded s) (gdts s) (gdtr s) (cr2 s) (imageFileHeader s).
Definition set_ioapicid (x : Z) (s : KState) : KState :=
  mkKState (sync s) (kmem s) (UseLock s) (FreeList s) (processTable s) (initproc s) (nextpid s) (fileTable s) (pipes s) (diskBufferCache s) (idequeue s) (havedisk1 s) (io s) (volume s) (kernelPageDirectory s) (cr3 s) (esp0 s) (ticks s) (console s) (localApic s) x (idt s) (idtLoaded s) (gdts s) (gdtr s) (cr2 s) (imageFileHeader s).
Definition set_idt (x : list gatedesc) (s : KState) : KState :=
  mkKState (sync s) (kmem s) (UseLock s) (FreeList s) (processTable s) (initproc s) (nextpid s) (fileTable s) (pipes s) (diskBufferCache s) (idequeue s) (havedisk1 s) (io s) (volume s) (kernelPageDirectory s) (cr3 s) (esp0 s) (ticks s) (console s) (localApic s) (ioapicid s) x (idtLoaded s) (gdts s) (gdtr s) (cr2 s) (imageFileHeader s).
Definition set_idtLoaded (x : Z) (s : KState) : KState :=
  mkKState (sync s) (kmem s) (UseLock s) (FreeList s) (processTable s) (initproc s) (nextpid s) (fileTable s) (pipes s) (diskBufferCache s) (idequeue s) (havedisk1 s) (io s) (volume s) (kernelPageDirectory s) (cr3 s) (esp0 s) (ticks s) (console s) (localApic s) (ioapicid s) (idt s) x (gdts s) (gdtr s) (cr2 s) (imageFileHeader s).
Definition set_gdts (x : gmap nat (list Segdesc)) (s : KState) : KState :=
  mkKState (sync s) (kmem s) (UseLock s) (FreeList s) (processTable s) (initproc s) (nextpid s) (fileTable s) (pipes s) (diskBufferCache s) (idequeue s) (havedisk1 s) (io s) (volume s) (kernelPageDirectory s) (cr3 s) (esp0 s) (ticks s) (console s) (localApic s) (ioapicid s) (idt s) (idtLoaded s) x (gdtr s) (cr2 s) (imageFileHeader s).
Definition set_gdtr (x : option nat) (s : KState) : KState :=
  mkKState (sync s) (kmem s) (UseLock s) (FreeList s) (processTable s) (initproc s) (nextpid s) (fileTable s) (pipes s) (diskBufferCache s) (idequeue s) (havedisk1 s) (io s) (volume s) (kernelPageDirectory s) (cr3 s) (esp0 s) (ticks s) (console s) (localApic s) (ioapicid s) (idt s) (idtLoaded s) (gdts s) x (cr2 s) (imageFileHeader s).
Definition set_cr2 (x : Z) (s : KState) : KState :=
  mkKState (sync s) (kmem s) (UseLock s) (FreeList s) (processTable s) (initproc s) (nextpid s) (fileTable s) (pipes s) (diskBufferCache s) (idequeue s) (havedisk1 s) (io s) (volume s) (kernelPageDirectory s) (cr3 s) (esp0 s) (ticks s) (console s) (localApic s) (ioapicid s) (idt s) (idtLoaded s) (gdts s) (gdtr s) x (imageFileHeader s).
Definition set_imageFileHeader (x : list Z) (s : KState) : KState :=
  mkKState (sync s) (kmem s) (UseLock s) (FreeList s) (processTable s) (initproc s) (nextpid s) (fileTable s) (pipes s) (diskBufferCache s) (idequeue s) (havedisk1 s) (io s) (volume s) (kernelPageDirectory s) (cr3 s) (esp0 s) (ticks s) (console s) (localApic s) (ioapicid s) (idt s) (idtLoaded s) (gdts s) (gdtr s) (cr2 s) x.

(** [resume]: what runs between the moment the current process gives up the
    processor and the moment it is given back; [None] if that never happens.
    [wakeups] bounds how often a process is woken up without finding what it
    waits for; a process that waits longer is taken to wait for ever. *)
Class Scheduler : Type := {
  resume : KState -> option KState;
  wakeups : nat
}.

(** The operations on the locks and processors, in the kernel's state. *)
Definition locked {A : Type} (c : M Sync A) : M KState A := fun s =>
  match c (sync s) with
  | Ret a y => Ret a (set_sync y s)
  | Sleep y => Sleep (set_sync y s)
  | Panic msg => Panic msg
  | Fault why => Fault why
  | Spin => Spin
  end.

Definition acquire (l : LockId) : M KState unit := locked (spinlockAcquire l).
Definition release (l : LockId) : M KState unit := locked (spinlockRelease l).
Definition currentProcess : M KState (option nat) := locked myProcess.

Definition getProcess (p : nat) : M KState Process :=
  l ← gets processTable; checked "Process: bad pointer" (l !! p).
Definition putProcess (p : nat) (x : Process) : M KState unit :=
  puts (fun s => set_processTable (<[p := x]> (processTable s)) s).

Definition getPipe (a : Z) : M KState Pipe :=
  m ← gets pipes; checked "Pipe: bad pointer" (m !! a).
Definition putPipe (a : Z) (x : Pipe) : M KState unit :=
  puts (fun s => set_pipes (<[a := x]> (pipes s)) s).

Definition getBuffer (b : nat) : M KState DiskBuffer :=
  l ← gets diskBufferCache; checked "DiskBuffer: bad pointer" (l !! b).
Definition putBuffer (b : nat) (x : DiskBuffer) : M KState unit :=
  puts (fun s => set_diskBufferCache (<[b := x]> (diskBufferCache s)) s).

Section Ports.
Context `{Hardware}.

Definition inputByteFromPort (port : Z) : M KState Z :=
  h ← gets io;
  let data := u8 (portByte h port) in
  puts (set_io (InByte port data :: h));; mret data.

Definition outputByteToPort (port data : Z) : M KState unit :=
  puts (fun s => set_io (OutByte port (u8 data) :: io s) s).

(** [cnt] double words, as bytes. *)
Definition inputSequenceFromPort (port cnt : Z) : M KState (list Z) :=
  h ← gets io;
  let data := take (Z.to_nat (4 * cnt)) (portSequence h port cnt ++ replicate (Z.to_nat (4 * cnt)) 0) in
  puts (set_io (InSequence port data :: h));; mret data.

Definition outputSequenceToPort (port : Z) (data : list Z) : M KState unit :=
  puts (fun s => set_io (OutSequence port data :: io s) s).

Definition readRegister (address : Z) : M KState Z :=
  h ← gets io;
  let data := u32 (registerWord h address) in
  puts (set_io (ReadRegister address data :: h));; mret data.

Definition writeRegister (address data : Z) : M KState unit :=
  puts (fun s => set_io (WriteRegister address (u32 data) :: io s) s).

Lemma bind_inputByte {B} port (k : Z -> M KState B) s :
  (inputByteFromPort port ≫= k) s = k (u8 (portByte (io s) port)) (set_io (InByte port (u8 (portByte (io s) port)) :: io s) s).
Proof. done. Qed.

Lemma bind_outputByte {B} port data (k : unit -> M KState B) s :
  (outputByteToPort port data ≫= k) s = k tt (set_io (OutByte port (u8 data) :: io s) s).
Proof. done. Qed.

End Ports.

(** [cprintf] of a fixed text, as one event; see Console for what it sends to
    the screen and the serial line. *)
Definition message (text : string) : M KState unit := puts (fun s => set_io (Message text :: io s) s).

(** A slot that has just been stored. *)
Ltac slot_stored := cbn; apply list_lookup_insert_eq; rewrite ?length_insert; assumption.

Lemma bind_getBuffer {B} b x (k : DiskBuffer -> M KState B) s :
  diskBufferCache s !! b = Some x -> (getBuffer b ≫= k) s = k x s.
Proof. intros Hb. unfold getBuffer. by rewrite bind_assoc, bind_gets, Hb. Qed.

Lemma bind_putBuffer {B} b x (k : unit -> M KState B) s :
  (putBuffer b x ≫= k) s = k tt (set_diskBufferCache (<[b := x]> (diskBufferCache s)) s).
Proof. done. Qed.

(** * Critical sections *)

(** [settled s]: the state after a lock has been taken and released. *)
Definition settled (s : KState) : KState := set_sync (settle (sync s)) s.

Definition entered (l : LockId) (s : KState) : KState := set_sync (acq l (sync s)) s.

Lemma acquire_entered l s : balanced 1 (sync s) -> lockFree (sync s) l -> acquire l s = Ret tt (entered l s).
Proof. intros Hb Hl. unfold acquire, locked. by rewrite acquire_eq. Qed.

(** [s'] is the state of a section entered from [s]. *)
Lemma release_settled l s s' : balanced 1 (sync s) -> lockFree (sync s) l ->
  sync s' = acq l (sync s) -> release l s' = Ret tt (set_sync (settle (sync s)) s').
Proof. intros Hb Hl E. unfold release, locked. by rewrite E, release_acq. Qed.

Lemma currentProcess_eq s c cp : balanced 1 (sync s) -> cpu_is (sync s) c cp ->
  currentProcess s = Ret (CpuProcess cp) (settled s).
Proof. intros Hb Hc. unfold currentProcess, locked. by rewrite (myProcess_eq _ c cp). Qed.

Lemma acq_locks_other l k y : l <> k -> locks (acq l y) !! k = locks y !! k.
Proof.
  intros Hlk. unfold acq, push, atCpu. repeat case_match; cbn; try done; by rewrite lookup_insert_ne.
Qed.

Lemma acq_lockFree l k y : l <> k -> lockFree y k -> lockFree (acq l y) k.
Proof. intros Hlk [nm Hk]. exists nm. by rewrite acq_locks_other. Qed.

Lemma settle_lockFree k y : lockFree y k -> lockFree (settle y) k.
Proof. intros [nm Hk]. exists nm. by rewrite settle_locks. Qed.

Lemma settle_acq l y : balanced 1 y -> settle (acq l y) = acq l y.
Proof.
  intros (c & cp & Hc & Hd & Hd' & Hi).
  assert (Hp : cpu_is (acq l y) c (set_CliDepth (CliDepth cp + 1) (remember (iflag y) cp))).
  { assert (H := push_cpu y c cp Hc). unfold acq. repeat case_match; done. }
  rewrite (settle_eq _ _ _ Hp). unfold remember at 1. cbn. rewrite (proj2 (Z.eqb_neq _ 0)) by lia.
  destruct Hp as [_ Hp]. rewrite list_insert_id by done. by destruct (acq l y).
Qed.

#[export] Hint Resolve settle_lockFree settle_balanced : uodos.

(** * A concrete state *)

(** One processor, which runs process 0 with pid 1; the other slots are
    unused; all locks are free. *)
Definition freeLocks (ls : list LockId) : gmap LockId Spinlock :=
  list_to_map ((fun l => (l, mkSpinlock 0 "" None)) <$> ls).

Lemma freeLocks_free ls l y : l ∈ ls -> locks y = freeLocks ls -> lockFree y l.
Proof.
  intros Hl E. exists "". rewrite E. clear E. unfold freeLocks. induction ls as [|k ls IH]; [by apply not_elem_of_nil in Hl|].
  cbn. destruct (decide (k = l)) as [->|Hne]; [apply lookup_insert_eq|]. rewrite lookup_insert_ne by done.
  apply IH. apply elem_of_cons in Hl as [->|Hl]; done.
Qed.

Definition demoLockList : list LockId :=
  [L_processTable; L_kernelMemory; L_FileTable; L_diskBufferCache; L_ide; L_cons; L_ticks; L_pipe 2155872256] ++
  (L_buffer <$> seq 0 30).

Definition unusedProcess : Process :=
  mkProcess 0 0 0 UNUSED 0 None 0 0 None 0 (replicate 16 None) (replicate 200 0) (replicate 16 0).

Definition demoProcess : Process :=
  set_KernelStack 2155876352 (set_PageTable 2155880448 (set_State RUNNING (set_ProcessId 1 unusedProcess))).

Definition demoKernelSync : Sync := mkSync [mkCpu 0 1 0 0 (Some 0%nat)] 1 0 true (freeLocks demoLockList).

Definition demoConsole : ConsoleState := mkConsoleState 0 1 (replicate 128 0) 0 0 0 0 1.

Definition demoKernel : KState :=
  mkKState demoKernelSync (fun _ => 0) 1 0 (demoProcess :: replicate 63 unusedProcess) (Some 0%nat) 2
    [] ∅ [] None 0 [] demoVolume 0 0 0 0 demoConsole 4276092928 0 [] 0 ∅ None 0 [].

Lemma demoKernel_balanced n : n <= 2147483647 -> balanced n demoKernelSync.
Proof. intros Hn. exists 0%nat, (mkCpu 0 1 0 0 (Some 0%nat)). split_and!; [by split|done|cbn; lia|done]. Qed.

Lemma demoKernel_free l : l ∈ demoLockList -> lockFree demoKernelSync l.
Proof. intros Hl. by apply (freeLocks_free demoLockList). Qed.
