(* ===== verification/Kbd.v ===== *)
(** kbd.c and kbd.h: scan codes of the keyboard and the characters they stand
    for.  [kbdShift] holds the modifier keys, which [kbdgetc] keeps in a static
    variable. *)

From S2P Require Import Prelude CString Types Spinlock Kernel.

(** * Tables (kbd.h) *)

Definition KBSTATP : Z := 100.
Definition KBS_DIB : Z := 1.
Definition KBDATAP : Z := 96.

Definition SHIFT : Z := 1.
Definition CTL : Z := 2.
Definition ALT : Z := 4.
Definition CAPSLOCK : Z := 8.
Definition NUMLOCK : Z := 16.
Definition SCROLLLOCK : Z := 32.
Definition E0ESC : Z := 64.

(** A table of 256 bytes: the first entries, and others at given places. *)
Definition table (entries : list Z) (others : list (nat * Z)) : list Z :=
  map u8 (foldl (fun t '(i, v) => <[i := v]> t) (take 256 (entries ++ replicate 256 0)) others).

Definition shiftcode : list Z := table [] [(29, CTL); (42, SHIFT); (54, SHIFT); (56, ALT); (157, CTL); (184, ALT)]%nat.

Definition togglecode : list Z := table [] [(58, CAPSLOCK); (69, NUMLOCK); (70, SCROLLLOCK)]%nat.

Definition normalmap : list Z := table
  [0; 27; 49; 50; 51; 52; 53; 54; 55; 56; 57; 48; 45; 61; 8; 9;
   113; 119; 101; 114; 116; 121; 117; 105; 111; 112; 91; 93; 10; 0; 97; 115;
   100; 102; 103; 104; 106; 107; 108; 59; 39; 96; 0; 92; 122; 120; 99; 118;
   98; 110; 109; 44; 46; 47; 0; 42; 0; 32; 0; 0; 0; 0; 0; 0;
   0; 0; 0; 0; 0; 0; 0; 55; 56; 57; 45; 52; 53; 54; 43; 49;
   50; 51; 48; 46; 0; 0; 0; 0]
  [(156%nat, 10); (181%nat, 47); (200%nat, 226); (208%nat, 227); (201%nat, 230); (209%nat, 231); (203%nat, 228); (205%nat, 229); (151%nat, 224); (207%nat, 225); (210%nat, 232); (211%nat, 233)].

Definition shiftmap : list Z := table
  [0; 27; 33; 64; 35; 36; 37; 94; 38; 42; 40; 41; 95; 43; 8; 9;
   81; 87; 69; 82; 84; 89; 85; 73; 79; 80; 123; 125; 10; 0; 65; 83;
   68; 70; 71; 72; 74; 75; 76; 58; 34; 126; 0; 124; 90; 88; 67; 86;
   66; 78; 77; 60; 62; 63; 0; 42; 0; 32; 0; 0; 0; 0; 0; 0;
   0; 0; 0; 0; 0; 0; 0; 55; 56; 57; 45; 52; 53; 54; 43; 49;
   50; 51; 48; 46; 0; 0; 0; 0]
  [(156%nat, 10); (181%nat, 47); (200%nat, 226); (208%nat, 227); (201%nat, 230); (209%nat, 231); (203%nat, 228); (205%nat, 229); (151%nat, 224); (207%nat, 225); (210%nat, 232); (211%nat, 233)].

Definition ctlmap : list Z := table
  [0; 0; 0; 0; 0; 0; 0; 0; 0; 0; 0; 0; 0; 0; 0; 0;
   17; 23; 5; 18; 20; 25; 21; 9; 15; 16; 0; 0; 13; 0; 1; 19;
   4; 6; 7; 8; 10; 11; 12; 0; 0; 0; 0; 28; 26; 24; 3; 22;
   2; 14; 13; 0; 0; -17; 0; 0]
  [(156%nat, 13); (181%nat, -17); (200%nat, 226); (208%nat, 227); (201%nat, 230); (209%nat, 231); (203%nat, 228); (205%nat, 229); (151%nat, 224); (207%nat, 225); (210%nat, 232); (211%nat, 233)].

Definition charcode : list (list Z) := [normalmap; shiftmap; ctlmap; ctlmap].

(** * Reading a key (kbd.c) *)

Section Kbd.
Context `{Hardware}.

Definition getShift : M KState Z := gets (fun s => kbdShift (console s)).
Definition putShift (x : Z) : M KState unit := puts (fun s => set_console (set_kbdShift x (console s)) s).

Definition kbdgetc : M KState Z :=
  st ← inputByteFromPort KBSTATP;
  if Z.land st KBS_DIB =? 0 then mret (-1)
  else
    data ← inputByteFromPort KBDATAP;
    shift ← getShift;
    if data =? 224 then putShift (Z.lor shift E0ESC);; mret 0
    else if negb (Z.land data 128 =? 0) then
      let data := if negb (Z.land shift E0ESC =? 0) then data else Z.land data 127 in
      code ← checked "kbdgetc: shiftcode" (rd shiftcode data);
      putShift (Z.land shift (Z.lnot (Z.lor code E0ESC)));;
      mret 0
    else
      let '(data, shift) := if negb (Z.land shift E0ESC =? 0) then (Z.lor data 128, Z.land shift (Z.lnot E0ESC)) else (data, shift) in
      code ← checked "kbdgetc: shiftcode" (rd shiftcode data);
      toggle ← checked "kbdgetc: togglecode" (rd togglecode data);
      let shift := Z.lxor (Z.lor shift code) toggle in
      putShift shift;;
      map_ ← checked "kbdgetc: charcode" (rd charcode (Z.land shift (Z.lor CTL SHIFT)));
      c ← checked "kbdgetc: charcode" (rd map_ data);
      mret (if negb (Z.land shift CAPSLOCK =? 0) then
              if (97 <=? c) && (c <=? 122) then c + (65 - 97)
              else if (65 <=? c) && (c <=? 90) then c + (97 - 65)
              else c
            else c).

End Kbd.

(** * What the keys mean *)

(** The reference: a pressed key with the modifiers [shift], which say whether
    it is an extended key (E0), and which of Shift, Ctrl and Caps Lock are
    on. *)
Definition held (shift bit : Z) : bool := negb (Z.land shift bit =? 0).

Definition isLetter (c : Z) : bool := (97 <=? c) && (c <=? 122).

(** A plain key that is a letter gives the letter, capital if exactly one of
    Shift and Caps Lock is on, and the control character under Ctrl. *)
Definition letterFor (shift letter : Z) : Z :=
  if held shift CTL then letter - 96
  else if xorb (held shift SHIFT) (held shift CAPSLOCK) then letter - 32
  else letter.

(** One scan code that is not a release, as a function: the character and the new modifiers. *)
Definition keyDown (shift data : Z) : Z * Z :=
  let '(data, shift) := if held shift E0ESC then (Z.lor data 128, Z.land shift (Z.lnot E0ESC)) else (data, shift) in
  let shift := Z.lxor (Z.lor shift (nth (Z.to_nat data) shiftcode 0)) (nth (Z.to_nat data) togglecode 0) in
  let c := nth (Z.to_nat data) (nth (Z.to_nat (Z.land shift 3)) charcode []) 0 in
  (if held shift CAPSLOCK then
     if (97 <=? c) && (c <=? 122) then c - 32 else if (65 <=? c) && (c <=? 90) then c + 32 else c
   else c, shift).

Definition keyUp (shift data : Z) : Z :=
  Z.land shift (Z.lnot (Z.lor (nth (Z.to_nat (if held shift E0ESC then data else Z.land data 127)) shiftcode 0) E0ESC)).

(** All modifiers and all scan codes. *)
Definition range (n : nat) : list Z := Z.of_nat <$> seq 0 n.

Lemma range_elem n z : 0 <= z < Z.of_nat n -> z ∈ range n.
Proof. intros Hz. unfold range. apply list_elem_of_fmap. exists (Z.to_nat z). split; [lia|]. apply elem_of_seq. lia. Qed.

Lemma forallb_range2 n m (f : Z -> Z -> bool) a b :
  forallb (fun a => forallb (f a) (range m)) (range n) = true -> 0 <= a < Z.of_nat n -> 0 <= b < Z.of_nat m -> f a b = true.
Proof.
  intros Hf Ha Hb. rewrite forallb_forall in Hf. specialize (Hf a (proj1 (list_elem_of_In _ _) (range_elem _ _ Ha))). cbn in Hf.
  rewrite forallb_forall in Hf. by apply Hf, list_elem_of_In, range_elem.
Qed.

Definition keyInRange (shift data : Z) : bool :=
  let '(c, shift') := keyDown shift data in
  (0 <=? c) && (c <? 256) && (0 <=? shift') && (shift' <? 128) && (0 <=? keyUp shift data) && (keyUp shift data <? 64).

Lemma key_in_range shift data : 0 <= shift < 128 -> 0 <= data < 256 -> keyInRange shift data = true.
Proof. apply (forallb_range2 128 256). vm_compute. reflexivity. Qed.

Definition letterCorrect (shift data : Z) : bool :=
  implb (isLetter (nth (Z.to_nat data) normalmap 0)) (bool_decide (keyDown shift data = (letterFor shift (nth (Z.to_nat data) normalmap 0), shift))).

Lemma letter_correct shift data : 0 <= shift < 64 -> 0 <= data < 128 -> letterCorrect shift data = true.
Proof. apply (forallb_range2 64 128). vm_compute. reflexivity. Qed.

(** The number of characters a table holds. *)
Lemma tables_full : Forall (fun t => length t = 256%nat) [shiftcode; togglecode; normalmap; shiftmap; ctlmap].
Proof. repeat constructor; vm_compute; reflexivity. Qed.

Lemma rd_table t d : t ∈ [shiftcode; togglecode; normalmap; shiftmap; ctlmap] -> 0 <= d < 256 -> rd t d = Some (nth (Z.to_nat d) t 0).
Proof.
  intros Ht Hd. pose proof (proj1 (Forall_forall _ _) tables_full t Ht) as Hl. cbn beta in Hl. apply rd_Some. split; [lia|].
  destruct (lookup_lt_is_Some_2 t (Z.to_nat d)) as [x Hx]; [lia|]. by rewrite nth_lookup, Hx.
Qed.

Lemma rd_charcode k : 0 <= k < 4 -> exists t, rd charcode k = Some t /\ t = nth (Z.to_nat k) charcode [] /\ t ∈ [shiftcode; togglecode; normalmap; shiftmap; ctlmap].
Proof.
  intros Hk. assert (k = 0 \/ k = 1 \/ k = 2 \/ k = 3) as Hcase by lia.
  destruct Hcase as [->|[->|[->| ->]]]; eexists; (split; [reflexivity|split; [reflexivity|]]); rewrite !elem_of_cons; auto 10.
Qed.

Lemma shift_low x : 0 <= Z.land x 3 < 4.
Proof. change 3 with (Z.ones 2). rewrite Z.land_ones by lia. apply Z.mod_pos_bound. lia. Qed.

Section KbdProofs.
Context `{Hardware}.

(** A scan code is waiting, and the state after it has been read. *)
Definition pending (s : KState) (data : Z) (s1 : KState) : Prop :=
  exists st, st = u8 (portByte (io s) KBSTATP) /\ Z.land st KBS_DIB <> 0 /\
    data = u8 (portByte (InByte KBSTATP st :: io s) KBDATAP) /\ s1 = set_io (InByte KBDATAP data :: InByte KBSTATP st :: io s) s.

Definition withShift (x : Z) (s : KState) : KState := set_console (set_kbdShift x (console s)) s.

Lemma kbdgetc_eq s data s1 : pending s data s1 -> 0 <= kbdShift (console s) < 128 ->
  kbdgetc s = if data =? 224 then Ret 0 (withShift (Z.lor (kbdShift (console s)) E0ESC) s1)
              else if 128 <=? data then Ret 0 (withShift (keyUp (kbdShift (console s)) data) s1)
              else Ret (keyDown (kbdShift (console s)) data).1 (withShift (keyDown (kbdShift (console s)) data).2 s1).
Proof.
  intros (st & Est & Hst & Ed & ->) Hsh. unfold kbdgetc. rewrite bind_inputByte, <- Est, (proj2 (Z.eqb_neq _ _) Hst), bind_inputByte.
  cbn [io set_io]. rewrite <- Ed.
  unfold getShift at 1. rewrite bind_gets. change (console (set_io _ (set_io _ s))) with (console s). set (x := kbdShift (console s)) in *.
  assert (Hd : 0 <= data < 256) by (rewrite Ed; apply u8_range). destruct (Z.eqb_spec data 224) as [->|Hne]; [done|].
  assert (Hbit : (Z.land data 128 =? 0) = negb (128 <=? data)) by (apply Bool.eqb_prop; revert Hd; generalize data; intros d Hd; refine (forallb_range2 1 256 (fun _ d => Bool.eqb (Z.land d 128 =? 0) (negb (128 <=? d))) 0 d eq_refl _ _); lia).
  rewrite Hbit, negb_involutive. destruct (Z.leb_spec 128 data) as [Hup|Hdown].
  - set (d := if negb (Z.land x E0ESC =? 0) then data else Z.land data 127). assert (Hd' : 0 <= d < 256).
    { unfold d. case_match; [lia|]. change 127 with (Z.ones 7). rewrite Z.land_ones by lia. pose proof (Z.mod_pos_bound data (2 ^ 7) ltac:(lia)). lia. }
    rewrite (rd_table shiftcode d), bind_checked by (set_solver || lia). done.
  - unfold keyDown, held. destruct (negb (Z.land x E0ESC =? 0)) eqn:Ee.
    + assert (Hd' : 0 <= Z.lor data 128 < 256).
      { assert (Hb := forallb_range2 1 256 (fun _ d => (0 <=? Z.lor d 128) && (Z.lor d 128 <? 256)) 0 data eq_refl ltac:(lia) ltac:(lia)). cbn in Hb. bdestr. lia. }
      rewrite (rd_table shiftcode), (rd_table togglecode), !bind_checked by (set_solver || lia). unfold putShift. rewrite bind_puts.
      change (Z.lor CTL SHIFT) with 3. match goal with |- context [rd charcode (Z.land ?y 3)] => destruct (rd_charcode (Z.land y 3) (shift_low y)) as (t & -> & Et & Ht) end.
      rewrite bind_checked, (rd_table t), bind_checked by (done || lia). rewrite Et. done.
    + rewrite (rd_table shiftcode), (rd_table togglecode), !bind_checked by (set_solver || lia). unfold putShift. rewrite bind_puts.
      change (Z.lor CTL SHIFT) with 3. match goal with |- context [rd charcode (Z.land ?y 3)] => destruct (rd_charcode (Z.land y 3) (shift_low y)) as (t & -> & Et & Ht) end.
      rewrite bind_checked, (rd_table t), bind_checked by (done || lia). rewrite Et. done.
Qed.

End KbdProofs.

(** C29. Reading a key: with a scan code waiting, [kbdgetc] stays inside its
    tables and returns a character code; the modifier state stays within its
    seven bits; and the key of a letter gives that letter, capital if exactly
    one of Shift and Caps Lock is on, or the control character if Ctrl is
    held, and leaves the modifiers as they are. *)
Theorem kbdgetc_decodes `{Hardware} (s s1 : KState) (data : Z) :
  pending s data s1 -> 0 <= kbdShift (console s) < 128 ->
  exists c x, kbdgetc s = Ret c (withShift x s1) /\ 0 <= c < 256 /\ 0 <= x < 128 /\
    (data < 128 -> kbdShift (console s) < E0ESC -> isLetter (nth (Z.to_nat data) normalmap 0) = true ->
       c = letterFor (kbdShift (console s)) (nth (Z.to_nat data) normalmap 0) /\ x = kbdShift (console s)).
Proof.
  intros Hp Hsh. assert (Hd : 0 <= data < 256) by (destruct Hp as (st & _ & _ & -> & _); apply u8_range).
  rewrite (kbdgetc_eq s data s1 Hp Hsh). set (x := kbdShift (console s)) in *. pose proof (key_in_range x data Hsh Hd) as Hr.
  unfold keyInRange in Hr. destruct (keyDown x data) as [c x'] eqn:Ek. bdestr. destruct (Z.eqb_spec data 224) as [->|Hne].
  - exists 0, (Z.lor x E0ESC). assert (Hor : 0 <= Z.lor x 64 < 128).
    { assert (Hb := forallb_range2 1 128 (fun _ d => (0 <=? Z.lor d 64) && (Z.lor d 64 <? 128)) 0 x eq_refl ltac:(lia) ltac:(lia)). cbn in Hb. bdestr. lia. }
    split_and!; [done|lia|lia|apply Hor|apply Hor|lia].
  - destruct (Z.leb_spec 128 data) as [Hup|Hdown].
    + exists 0, (keyUp x data). split_and!; [done|lia|lia|lia|lia|lia].
    + exists c, x'. split_and!; [done|lia|lia|lia|lia|]. intros _ Hx Hlet. pose proof (letter_correct x data ltac:(unfold E0ESC in *; lia) ltac:(lia)) as Hl.
      unfold letterCorrect in Hl. rewrite Hlet, Ek in Hl. cbn [implb] in Hl. apply bool_decide_eq_true in Hl. by injection Hl as -> ->.
Qed.

(** A keyboard on which the keys [codes] are pressed one after the other. *)
Definition codesRead (h : list IoEvent) : nat :=
  length (List.filter (fun e => match e with InByte 96 _ => true | _ => false end) h).

Definition keyboardPort (codes : list Z) (h : list IoEvent) (port : Z) : Z :=
  if port =? KBSTATP then truth (codesRead h <? length codes)%nat
  else if port =? KBDATAP then nth (codesRead h) codes 0
  else 0.

Definition demoKeyboard : Hardware :=
  {| portByte := keyboardPort [42; 30]; portSequence := fun _ _ _ => []; registerWord := fun _ _ => 0; polls := 8 |}.

(** Shift, then the key of a: a capital letter. *)
Lemma kbdgetc_decodes_witness :
  let s := withShift SHIFT (set_io [InByte 96 42; InByte 100 1] demoKernel) in
  exists c x, @kbdgetc demoKeyboard s = Ret c (withShift x (set_io [InByte 96 30; InByte 100 1; InByte 96 42; InByte 100 1] s)) /\ c = 65 /\ x = SHIFT.
Proof.
  intros s. assert (Hp : @pending demoKeyboard s 30 (set_io [InByte 96 30; InByte 100 1; InByte 96 42; InByte 100 1] s)) by (exists 1; split_and!; done).
  destruct (@kbdgetc_decodes demoKeyboard s _ 30 Hp ltac:(cbn; unfold SHIFT; lia)) as (c & x & E & _ & _ & Hl). exists c, x.
  split; [exact E|]. destruct (Hl ltac:(lia) ltac:(vm_compute; reflexivity) eq_refl) as [-> ->]. split; reflexivity.
Defined.
