(* ===== verification/Kalloc.v ===== *)
(** kalloc.c, the allocator of physical pages.  The free pages are linked
    through their own first words in memory; the theorems relate that list to
    a list of page addresses. *)

From S2P Require Import Prelude CString Types Spinlock Kernel.

(** * memlayout.h, mmu.h *)

Definition PHYSTOP : Z := 234881024.
Definition KERNBASE : Z := 2147483648.
Definition PGSIZE : Z := 4096.

Definition V2P (a : Z) : Z := u32 (a - KERNBASE).
Definition PGROUNDUP (sz : Z) : Z := Z.land (u32 (sz + PGSIZE - 1)) (Z.lnot (PGSIZE - 1)).
Definition PGROUNDDOWN (a : Z) : Z := Z.land a (Z.lnot (PGSIZE - 1)).

Section Allocator.
(** The address after the kernel image, from the linker script. *)
Context (kernelEnd : Z).

Definition freePhysicalMemoryPage (v : Z) : M KState unit :=
  if negb (v mod PGSIZE =? 0) || (v <? kernelEnd) || (V2P v >=? PHYSTOP) then panic "freePhysicalMemoryPage"
  else
    puts (fun s => set_kmem (memset (kmem s) v 1 PGSIZE) s);;
    useLock ← gets UseLock;
    (if negb (useLock =? 0) then acquire L_kernelMemory else mret tt);;
    puts (fun s => set_kmem (store32 (kmem s) v (FreeList s)) s);;
    puts (set_FreeList v);;
    useLock ← gets UseLock;
    if negb (useLock =? 0) then release L_kernelMemory else mret tt.

Definition allocatePhysicalMemoryPage : M KState Z :=
  useLock ← gets UseLock;
  (if negb (useLock =? 0) then acquire L_kernelMemory else mret tt);;
  r ← gets FreeList;
  (if negb (r =? 0) then puts (fun s => set_FreeList (load32 (kmem s) r) s) else mret tt);;
  useLock ← gets UseLock;
  (if negb (useLock =? 0) then release L_kernelMemory else mret tt);;
  mret r.

(** The loop of [freeMemoryRange]; each round advances by a page. *)
Fixpoint freeRange (fuel : nat) (p vend : Z) : M KState unit :=
  if negb (u32 (p + PGSIZE) <=? vend) then mret tt
  else match fuel with
  | O => spin
  | S fuel => freePhysicalMemoryPage p;; freeRange fuel (u32 (p + PGSIZE)) vend
  end.

Definition freeMemoryRange (vstart vend : Z) : M KState unit :=
  freeRange (Z.to_nat (vend / PGSIZE + 1)) (PGROUNDUP vstart) vend.

Definition initialiseLowerkernelMemory (vstart vend : Z) : M KState unit :=
  locked (spinlockInitialise L_kernelMemory "kernelMemory");;
  puts (set_UseLock 0);;
  freeMemoryRange vstart vend.

Definition initialiseRestOfkernelMemory (vstart vend : Z) : M KState unit :=
  freeMemoryRange vstart vend;;
  puts (set_UseLock 1).

(** * The free list *)

Definition page_ok (p : Z) : Prop :=
  0 < p /\ p mod PGSIZE = 0 /\ kernelEnd <= p /\ KERNBASE <= p < KERNBASE + PHYSTOP.

Fixpoint freeChain (m : mem) (head : Z) (l : list Z) : Prop :=
  match l with
  | [] => head = 0
  | p :: l => head = p /\ freeChain m (load32 m p) l
  end.

(** The allocator's abstraction: [l] are the free pages, the next one to be
    handed out first. *)
Definition free_pages (s : KState) (l : list Z) : Prop :=
  freeChain (kmem s) (FreeList s) l /\ Forall page_ok l /\ NoDup l.

(** The lock can be taken, or is not used yet. *)
Definition kmem_ready (s : KState) : Prop :=
  UseLock s = 0 \/ (balanced 1 (sync s) /\ lockFree (sync s) L_kernelMemory).

(** The state after the lock has been used. *)
Definition kmem_settled (s : KState) : KState := if UseLock s =? 0 then s else settled s.

Definition in_page (p a : Z) : Prop := p <= a < p + PGSIZE.

Lemma page_ok_range p : page_ok p -> 0 <= p /\ p + PGSIZE < 4294967296.
Proof. unfold page_ok, KERNBASE, PHYSTOP, PGSIZE. lia. Qed.

Lemma page_guard p : page_ok p -> negb (p mod PGSIZE =? 0) || (p <? kernelEnd) || (V2P p >=? PHYSTOP) = false.
Proof.
  unfold page_ok, V2P, KERNBASE, PHYSTOP. intros (? & Hm & Hk & ?).
  rewrite Hm, (proj2 (Z.ltb_ge _ _)) by lia. rewrite u32_small, Z.geb_leb by lia.
  rewrite (proj2 (Z.leb_gt _ _)) by lia. done.
Qed.

Lemma pages_disjoint p q a : page_ok p -> page_ok q -> p <> q -> in_page p a -> ~ in_page q a.
Proof. unfold page_ok, in_page, PGSIZE. intros. zdiv. Qed.

Lemma load32_frame m m' p : 0 <= p -> p + PGSIZE < 4294967296 ->
  (forall a, in_page p a -> m' a = m a) -> load32 m' p = load32 m p.
Proof. unfold in_page, PGSIZE. intros Hp Hr Hm. unfold load32. by rewrite !padd_small, !Hm by lia. Qed.

(** Writes outside the free pages leave the list alone: the owners of the
    other pages may store what they like. *)
Lemma freeChain_frame m m' l : forall head,
  Forall page_ok l -> (forall p a, p ∈ l -> in_page p a -> m' a = m a) ->
  freeChain m head l -> freeChain m' head l.
Proof.
  induction l as [|p l IH]; intros head Hok Hm Hc; [done|].
  apply Forall_cons in Hok as [Hp Hok]. destruct Hc as [-> Hc]. split; [done|].
  destruct (page_ok_range p Hp). rewrite (load32_frame m m' p); [|lia|lia|intros a Ha; apply (Hm p); [set_solver|done]].
  apply IH; [done| |done]. intros q a Hq. apply Hm. set_solver.
Qed.

(** * What the operations do *)

(** Entering and leaving the section around the list, with or without the
    lock. *)
Definition kmem_entered (s : KState) : KState := if UseLock s =? 0 then s else entered L_kernelMemory s.

Lemma kmem_enter s : kmem_ready s ->
  (if negb (UseLock s =? 0) then acquire L_kernelMemory else mret tt) s = Ret tt (kmem_entered s).
Proof.
  intros Hr. unfold kmem_entered. destruct (Z.eqb_spec (UseLock s) 0) as [E|E]; cbn [negb]; [done|].
  destruct Hr as [?|[Hb Hl]]; [done|]. by apply acquire_entered.
Qed.

Lemma kmem_leave s s' : kmem_ready s -> sync s' = sync (kmem_entered s) -> UseLock s' = UseLock s ->
  (if negb (UseLock s' =? 0) then release L_kernelMemory else mret tt) s' =
    Ret tt (set_sync (sync (kmem_settled s)) s').
Proof.
  intros Hr Es Eu. unfold kmem_entered, kmem_settled in *. rewrite Eu.
  destruct (Z.eqb_spec (UseLock s) 0) as [E|E]; cbn [negb].
  - rewrite <- Es. by destruct s'.
  - destruct Hr as [?|[Hb Hl]]; [done|]. by rewrite (release_settled _ s).
Qed.

Lemma free_eq v s : page_ok v -> kmem_ready s ->
  freePhysicalMemoryPage v s =
    Ret tt (set_FreeList v (set_kmem (store32 (memset (kmem s) v 1 PGSIZE) v (FreeList s)) (kmem_settled s))).
Proof.
  intros Hv Hr. unfold freePhysicalMemoryPage. rewrite page_guard, bind_puts, bind_gets by done.
  set (s1 := set_kmem _ s). assert (Hr1 : kmem_ready s1) by exact Hr.
  rewrite (bind_Ret _ _ _ _ _ (kmem_enter s1 Hr1)), !bind_puts, bind_gets.
  rewrite (kmem_leave s1); [|done|done|].
  - f_equal. unfold kmem_entered, kmem_settled. cbn. by destruct (UseLock s =? 0).
  - unfold kmem_entered. cbn. by destruct (UseLock s =? 0).
Qed.

Lemma alloc_eq s : kmem_ready s ->
  allocatePhysicalMemoryPage s =
    Ret (FreeList s) (set_FreeList (if FreeList s =? 0 then 0 else load32 (kmem s) (FreeList s)) (kmem_settled s)).
Proof.
  intros Hr. unfold allocatePhysicalMemoryPage. rewrite bind_gets, (bind_Ret _ _ _ _ _ (kmem_enter s Hr)), bind_gets.
  assert (E : FreeList (kmem_entered s) = FreeList s /\ kmem (kmem_entered s) = kmem s /\ UseLock (kmem_entered s) = UseLock s)
    by (unfold kmem_entered; by destruct (UseLock s =? 0)).
  destruct E as (E1 & E2 & E3). rewrite E1.
  assert (P : forall r, r = FreeList s ->
    (if negb (r =? 0) then puts (fun s => set_FreeList (load32 (kmem s) r) s) else mret tt) (kmem_entered s) =
    Ret tt (set_FreeList (if r =? 0 then 0 else load32 (kmem s) r) (kmem_entered s))).
  { intros r Hr0. destruct (Z.eqb_spec r 0) as [E0|E0]; cbn [negb].
    - replace 0 with (FreeList (kmem_entered s)) by congruence. by destruct (kmem_entered s).
    - unfold puts. by rewrite E2. }
  rewrite (bind_Ret _ _ _ _ _ (P _ eq_refl)), bind_gets.
  erewrite bind_Ret; [|apply (kmem_leave s); [done|done|exact E3]]. unfold mret, M_ret. f_equal.
  unfold kmem_entered, kmem_settled. by destruct (UseLock s =? 0).
Qed.

(** Freeing puts the page in front of the list. *)
Lemma free_spec v s l : free_pages s l -> page_ok v -> v ∉ l -> kmem_ready s ->
  exists s', freePhysicalMemoryPage v s = Ret tt s' /\ free_pages s' (v :: l) /\
    (forall a, ~ in_page v a -> kmem s' a = kmem s a) /\ (forall a, v + 4 <= a < v + PGSIZE -> kmem s' a = 1) /\
    s' = set_FreeList v (set_kmem (kmem s') (kmem_settled s)).
Proof.
  intros (Hc & Hok & Hnd) Hv Hn Hr. destruct (page_ok_range v Hv). unfold PGSIZE in *.
  eexists. split; [by apply free_eq|].
  assert (Hout : forall a, ~ in_page v a -> store32 (memset (kmem s) v 1 4096) v (FreeList s) a = kmem s a).
  { unfold in_page, PGSIZE. intros a Ha. rewrite store32_outside by lia. rewrite memset_fill by lia.
    destruct (Z.leb_spec v a), (Z.ltb_spec a (v + 4096)); cbn [andb]; lia. }
  assert (Hm : kmem (set_FreeList v (set_kmem (store32 (memset (kmem s) v 1 PGSIZE) v (FreeList s)) (kmem_settled s))) =
    store32 (memset (kmem s) v 1 4096) v (FreeList s)) by (unfold kmem_settled; by destruct (UseLock s =? 0)).
  assert (Hf : 0 <= FreeList s < 4294967296).
  { destruct l as [|p l]; cbn in Hc; [lia|]. destruct Hc as [-> _]. apply Forall_cons in Hok as [Hp _].
    destruct (page_ok_range p Hp). unfold PGSIZE in *. lia. }
  split_and!; rewrite ?Hm; try done.
  - split_and!.
    + rewrite Hm. split; [done|]. rewrite load32_store32 by lia.
      apply (freeChain_frame (kmem s)); try done. intros p a Hp Ha. apply Hout.
      apply (pages_disjoint p v); try done; [by apply (proj1 (Forall_forall _ _) Hok)|congruence].
    + by constructor.
    + by constructor.
  - intros a Ha. rewrite store32_outside by lia. rewrite memset_fill by lia.
    rewrite (proj2 (Z.leb_le _ _)), (proj2 (Z.ltb_lt _ _)) by lia. done.
Qed.

Lemma alloc_spec s p l : free_pages s (p :: l) -> kmem_ready s ->
  exists s', allocatePhysicalMemoryPage s = Ret p s' /\ free_pages s' l /\ p ∉ l /\ page_ok p /\
    s' = set_FreeList (load32 (kmem s) p) (kmem_settled s).
Proof.
  intros ((E & Hc) & Hok & Hnd) Hr. apply Forall_cons in Hok as [Hp Hok]. apply NoDup_cons in Hnd as [Hn Hnd].
  rewrite alloc_eq by done. rewrite E, (proj2 (Z.eqb_neq p 0)) by (destruct Hp; lia).
  eexists. split; [done|]. split_and!; try done.
  unfold free_pages. replace (kmem _) with (kmem s) by (unfold kmem_settled; by destruct (UseLock s =? 0)).
  by split_and!.
Qed.

Lemma alloc_empty s : free_pages s [] -> kmem_ready s ->
  allocatePhysicalMemoryPage s = Ret 0 (kmem_settled s).
Proof.
  intros (E & _) Hr. cbn in E. rewrite alloc_eq by done. rewrite E. cbn [Z.eqb].
  assert (E' : FreeList (kmem_settled s) = 0) by (unfold kmem_settled; by destruct (UseLock s =? 0)).
  f_equal. rewrite <- E'. by destruct (kmem_settled s).
Qed.

(** The pages from [p] up to [vend]. *)
Fixpoint pagesFrom (n : nat) (p : Z) : list Z :=
  match n with
  | O => []
  | S n => p :: pagesFrom n (p + PGSIZE)
  end.

Lemma pagesFrom_ge n : forall p q, q ∈ pagesFrom n p -> p <= q.
Proof.
  unfold PGSIZE. induction n as [|n IH]; intros p q Hq; [by apply not_elem_of_nil in Hq|].
  cbn [pagesFrom] in Hq. apply elem_of_cons in Hq as [->|Hq]; [lia|]. apply IH in Hq. unfold PGSIZE in Hq. lia.
Qed.

(** With the lock out of use, as during initialisation. *)
Lemma freeRange_spec n : forall fuel p vend s l,
  UseLock s = 0 -> free_pages s l -> (n <= fuel)%nat ->
  0 <= p -> p + PGSIZE * Z.of_nat n <= vend < p + PGSIZE * Z.of_nat n + PGSIZE -> vend <= KERNBASE + PHYSTOP ->
  p mod PGSIZE = 0 -> KERNBASE <= p -> kernelEnd <= p -> (forall q, q ∈ l -> q < p) ->
  exists s', freeRange fuel p vend s = Ret tt s' /\ UseLock s' = 0 /\ free_pages s' (rev (pagesFrom n p) ++ l) /\
    sync s' = sync s.
Proof.
  unfold PGSIZE, KERNBASE, PHYSTOP.
  induction n as [|n IH]; intros fuel p vend s l Hu Hf Hfu Hp Hv Hmax Hm Hb Hk Hl.
  - assert (E : negb (u32 (p + PGSIZE) <=? vend) = true).
    { unfold PGSIZE. rewrite u32_small, (proj2 (Z.leb_gt _ _)) by lia. done. }
    exists s. destruct fuel; cbn [freeRange]; rewrite E; done.
  - destruct fuel as [|fuel]; [lia|]. cbn [freeRange]. change (u32 (p + PGSIZE)) with (u32 (p + 4096)).
    rewrite u32_small, (proj2 (Z.leb_le _ _)) by lia. cbn [negb].
    assert (Hok : page_ok p) by (unfold page_ok, KERNBASE, PHYSTOP, PGSIZE; lia).
    destruct (free_spec p s l Hf Hok) as (s1 & Hr & Hf1 & _ & _ & Es1); [intros Hin%Hl; lia|by left|].
    assert (Eu : kmem_settled s = s) by (unfold kmem_settled; by rewrite Hu). rewrite Eu in Es1.
    rewrite (bind_Ret _ _ _ _ _ Hr).
    destruct (IH fuel (p + 4096) vend s1 (p :: l)) as (s2 & Hr2 & Hu2 & Hf2 & Es2); try done; try lia.
    + by rewrite Es1.
    + zdiv.
    + intros q [->|Hq]%elem_of_cons; [lia|]. apply Hl in Hq. lia.
    + exists s2. split; [done|]. split; [done|]. cbn [pagesFrom rev]. rewrite <- app_assoc. split; [done|].
      rewrite Es2, Es1. done.
Qed.

Lemma PGROUNDUP_spec a : 0 <= a -> a + PGSIZE < 4294967296 ->
  PGROUNDUP a mod PGSIZE = 0 /\ a <= PGROUNDUP a < a + PGSIZE.
Proof.
  unfold PGSIZE. intros Ha Hr. unfold PGROUNDUP, PGSIZE. rewrite u32_small by lia.
  change (Z.lnot (4096 - 1)) with (Z.lnot (Z.ones 12)). rewrite <- Z.ldiff_land, Z.ldiff_ones_r by lia.
  rewrite Z.shiftr_div_pow2, Z.shiftl_mul_pow2 by lia. change (2 ^ 12) with 4096. zdiv.
Qed.

End Allocator.

(** * Properties *)

(** A client of the allocator: it owns the pages it was given, stores into them
    at will and gives them back. *)
Inductive client_step (kernelEnd : Z) : KState * list Z -> KState * list Z -> Prop :=
| client_alloc s owned p s' :
    allocatePhysicalMemoryPage s = Ret p s' -> p <> 0 ->
    client_step kernelEnd (s, owned) (s', p :: owned)
| client_free s owned1 p owned2 s' :
    freePhysicalMemoryPage kernelEnd p s = Ret tt s' ->
    client_step kernelEnd (s, owned1 ++ p :: owned2) (s', owned1 ++ owned2)
| client_store s owned m' :
    (forall a, (forall p, p ∈ owned -> ~ in_page p a) -> m' a = kmem s a) ->
    client_step kernelEnd (s, owned) (set_kmem m' s, owned).

(** The free pages and the owned ones are all different. *)
Definition client_ok (kernelEnd : Z) (pages : list Z) (x : KState * list Z) : Prop :=
  kmem_ready x.1 /\
  exists l, free_pages kernelEnd x.1 l /\ Forall (page_ok kernelEnd) x.2 /\ l ++ x.2 ≡ₚ pages.

Lemma kmem_settled_ready s x m : kmem_ready s -> kmem_ready (set_FreeList x (set_kmem m (kmem_settled s))).
Proof.
  unfold kmem_ready, kmem_settled. intros [E|[Hb Hl]].
  - rewrite E. by left.
  - destruct (Z.eqb_spec (UseLock s) 0); [by left|]. right. cbn. split; [by apply settle_balanced|by apply settle_lockFree].
Qed.

Lemma kmem_settled_kmem s : kmem (kmem_settled s) = kmem s.
Proof. unfold kmem_settled. by destruct (UseLock s =? 0). Qed.

Lemma kmem_settled_ready' s x : kmem_ready s -> kmem_ready (set_FreeList x (kmem_settled s)).
Proof. intros Hr. exact (kmem_settled_ready s x (kmem s) Hr). Qed.

Lemma client_step_ok kernelEnd pages x x' : NoDup pages ->
  client_ok kernelEnd pages x -> client_step kernelEnd x x' -> client_ok kernelEnd pages x'.
Proof.
  intros Hnd (Hr & l & Hf & Hown & Hperm) Hstep.
  destruct Hstep as [s owned p s' Ha Hp|s owned1 p owned2 s' Hfr|s owned m' Hm]; cbn in *.
  - destruct l as [|q l]; [rewrite (alloc_empty kernelEnd) in Ha by done; congruence|].
    destruct (alloc_spec kernelEnd s q l Hf Hr) as (s1 & Ha1 & Hf1 & Hq & Hqok & Es). rewrite Ha1 in Ha.
    injection Ha as -> ->. split; [cbn; rewrite Es; by apply kmem_settled_ready'|].
    exists l. split_and!; [done|by constructor|]. cbn. rewrite <- Hperm. cbn. by rewrite Permutation_middle.
  - apply Forall_app in Hown as [Ho1 Ho2]. apply Forall_cons in Ho2 as [Hp Ho2].
    assert (Hn : p ∉ l).
    { assert (Hnd' : NoDup (l ++ owned1 ++ p :: owned2)) by (by rewrite Hperm).
      apply NoDup_app in Hnd' as (_ & Hd & _). intros Hin. apply (Hd p Hin). set_solver. }
    destruct (free_spec kernelEnd p s l Hf Hp Hn Hr) as (s1 & Hf1 & Hl1 & _ & _ & Es). rewrite Hf1 in Hfr.
    injection Hfr as ->. split; [cbn; rewrite Es; by apply kmem_settled_ready|].
    exists (p :: l). split_and!; [done|by apply Forall_app|]. rewrite <- Hperm. cbn. solve_Permutation.
  - split; [exact Hr|]. exists l. split_and!; [|done|done].
    destruct Hf as (Hc & Hok & Hndl). split_and!; [|done|done]. cbn.
    apply (freeChain_frame kernelEnd (kmem s)); [done| |done]. intros q a Hq Ha. apply Hm. intros p Hpo Hpa.
    assert (Hne : q <> p).
    { intros ->. assert (Hnd' : NoDup (l ++ owned)) by (by rewrite Hperm).
      apply NoDup_app in Hnd' as (_ & Hd & _). by apply (Hd p). }
    apply (pages_disjoint kernelEnd q p a); try done; [by apply (proj1 (Forall_forall _ _) Hok)|by apply (proj1 (Forall_forall _ _) Hown)].
Qed.

(** C8. The page allocator never hands out a page that is in use and never
    loses one: whatever the client allocates, frees and writes into its own
    pages, the pages it owns and the pages on the free list together are
    always exactly the initial pages, each once. *)
Theorem kalloc_exclusive (kernelEnd : Z) (s s' : KState) (pages owned : list Z) :
  free_pages kernelEnd s pages -> kmem_ready s -> rtc (client_step kernelEnd) (s, []) (s', owned) ->
  exists l, free_pages kernelEnd s' l /\ NoDup (l ++ owned) /\ l ++ owned ≡ₚ pages.
Proof.
  intros Hf Hr Hrun. assert (Hnd : NoDup pages) by apply Hf.
  assert (Hok : client_ok kernelEnd pages (s', owned)).
  { revert Hrun. apply (rtc_ind_r (client_ok kernelEnd pages)).
    - split; [done|]. exists pages. cbn. by rewrite app_nil_r.
    - intros x y _ Hs Hx. by eapply client_step_ok. }
  destruct Hok as (_ & l & Hl & _ & Hp). exists l. split_and!; [done| |done]. by rewrite Hp.
Qed.

(** Freeing: a page goes to the front of the list, filled with ones behind
    its link, and the rest of memory is untouched; an address that is not that
    of a page between the kernel's end and the top of memory is refused with a
    panic. *)
Theorem freePhysicalMemoryPage_outcome (kernelEnd v : Z) (s : KState) (l : list Z) :
  KERNBASE < kernelEnd -> 0 <= v < 4294967296 -> free_pages kernelEnd s l -> v ∉ l -> kmem_ready s ->
  (page_ok kernelEnd v /\
   exists s', freePhysicalMemoryPage kernelEnd v s = Ret tt s' /\ free_pages kernelEnd s' (v :: l) /\
     (forall a, ~ in_page v a -> kmem s' a = kmem s a) /\ (forall a, v + 4 <= a < v + PGSIZE -> kmem s' a = 1)) \/
  (~ page_ok kernelEnd v /\ freePhysicalMemoryPage kernelEnd v s = Panic "freePhysicalMemoryPage").
Proof.
  intros Hk Hv Hf Hn Hr.
  destruct (negb (v mod PGSIZE =? 0) || (v <? kernelEnd) || (V2P v >=? PHYSTOP)) eqn:E.
  - right. split; [intros Hp; by rewrite (page_guard kernelEnd v Hp) in E|]. unfold freePhysicalMemoryPage. by rewrite E.
  - left. assert (Hp : page_ok kernelEnd v).
    { unfold page_ok, V2P, KERNBASE, PHYSTOP in *. bdestr. rewrite Z.geb_leb in *. bdestr.
      rewrite u32_small in * by lia. lia. }
    split; [done|]. destruct (free_spec kernelEnd v s l Hf Hp Hn Hr) as (s' & ? & ? & ? & ? & _). eauto 10.
Qed.

(** At boot the allocator receives every whole page of the range it is
    given, and nothing else. *)
Theorem initialiseLower_frees (kernelEnd vstart vend : Z) (s : KState) (n : nat) :
  FreeList s = 0 -> KERNBASE < kernelEnd -> kernelEnd <= vstart -> vend <= KERNBASE + PHYSTOP ->
  vstart + PGSIZE < 4294967296 ->
  PGROUNDUP vstart + PGSIZE * Z.of_nat n <= vend < PGROUNDUP vstart + PGSIZE * Z.of_nat n + PGSIZE ->
  exists s', initialiseLowerkernelMemory kernelEnd vstart vend s = Ret tt s' /\
    free_pages kernelEnd s' (rev (pagesFrom n (PGROUNDUP vstart))) /\ UseLock s' = 0.
Proof.
  unfold KERNBASE, PHYSTOP. intros Hf Hk Hs Hv Hr Hn. unfold initialiseLowerkernelMemory.
  destruct (PGROUNDUP_spec vstart) as [Hm Hb]; [lia|done|].
  rewrite (bind_Ret _ _ _ tt (set_sync (set_locks (<[L_kernelMemory := mkSpinlock 0 "kernelMemory" None]> (locks (sync s))) (sync s)) s)) by done.
  rewrite bind_puts. unfold freeMemoryRange.
  edestruct (freeRange_spec kernelEnd n (Z.to_nat (vend / PGSIZE + 1)) (PGROUNDUP vstart) vend) as (s' & Hr' & Hu & Hl & _);
    [..|exists s'; rewrite app_nil_r in Hl; done]; try done; unfold PGSIZE, KERNBASE, PHYSTOP in *; try lia.
  - split_and!; [exact Hf|constructor|constructor].
  - zdiv.
  - intros q Hq. by apply not_elem_of_nil in Hq.
Qed.

(** * Concrete runs *)

Definition demoEnd : Z := 2148532224.

(** The allocator before its lock is in use. *)
Definition demoPages : KState := set_UseLock 0 demoKernel.

Lemma demoPages_empty : free_pages demoEnd demoPages [].
Proof. split_and!; [reflexivity|constructor|constructor]. Qed.

Lemma demoPages_ready : kmem_ready demoKernel.
Proof. right. split; [apply demoKernel_balanced; lia|apply demoKernel_free; unfold demoLockList; set_solver]. Qed.

Lemma freePhysicalMemoryPage_outcome_witness :
  exists s', freePhysicalMemoryPage demoEnd 2155872256 demoKernel = Ret tt s' /\ free_pages demoEnd s' [2155872256].
Proof.
  destruct (freePhysicalMemoryPage_outcome demoEnd 2155872256 demoKernel []) as [(_ & s' & H1 & H2 & _)|[H _]].
  - reflexivity.
  - lia.
  - split_and!; [reflexivity|constructor|constructor].
  - apply not_elem_of_nil.
  - exact demoPages_ready.
  - exists s'. split; [exact H1|exact H2].
  - exfalso. apply H. vm_compute. repeat split; congruence.
Defined.

Lemma demoPage_ok : page_ok demoEnd 2155872256.
Proof. vm_compute. repeat split; congruence. Qed.

(** One page is freed, then a client allocates it. *)
Lemma kalloc_exclusive_witness :
  exists s0 s1 l, allocatePhysicalMemoryPage s0 = Ret 2155872256 s1 /\ free_pages demoEnd s1 l /\ l ++ [2155872256] ≡ₚ [2155872256].
Proof.
  destruct (free_spec demoEnd 2155872256 demoPages [] demoPages_empty demoPage_ok (not_elem_of_nil _) (or_introl eq_refl))
    as (s0 & _ & Hf & _ & _ & Es).
  assert (Hr : kmem_ready s0) by (left; rewrite Es; reflexivity).
  destruct (alloc_spec demoEnd s0 2155872256 [] Hf Hr) as (s1 & Ha & _).
  destruct (kalloc_exclusive demoEnd s0 s1 [2155872256] [2155872256] Hf Hr) as (l & Hl & _ & Hp).
  - apply rtc_once, (client_alloc demoEnd s0 [] 2155872256 s1 Ha). lia.
  - exists s0, s1, l. split; [exact Ha|]. split; [exact Hl|exact Hp].
Defined.

Lemma initialiseLower_frees_witness :
  exists s', initialiseLowerkernelMemory demoEnd 2148532225 2148544512 demoKernel = Ret tt s' /\
    free_pages demoEnd s' [2148540416; 2148536320].
Proof.
  destruct (initialiseLower_frees demoEnd 2148532225 2148544512 demoKernel 2) as (s' & H1 & H2 & _);
    [reflexivity|reflexivity|unfold demoEnd; lia|unfold KERNBASE, PHYSTOP; lia|unfold PGSIZE; lia|vm_compute; split; congruence|].
  exists s'. split; [exact H1|exact H2].
Defined.
