(* ===== verification/Sched.v ===== *)
(** proc.c, first part: giving up the processor, sleeping and waking up.

    [swtch] is assembly and leaves the code of this process: what happens until
    the process runs again is the [resume] of the [Scheduler] class.  A
    process that is never resumed ends in the outcome [Sleep]. *)

From S2P Require Import Prelude CString Types Spinlock Kernel Kalloc.

(** * Waking up *)

Definition wake1 (chan : option ChanId) (p : Process) : Process :=
  if bool_decide (State p = SLEEPING) && bool_decide (Chan p = chan) then set_State RUNNABLE p else p.

Definition wakeup1 (chan : option ChanId) : M KState unit :=
  puts (fun s => set_processTable (map (wake1 chan) (processTable s)) s).

Definition wakeup (chan : option ChanId) : M KState unit :=
  acquire L_processTable;; wakeup1 chan;; release L_processTable.

(** The first process with this pid, from slot [i] on. *)
Fixpoint findPid (i : nat) (l : list Process) (pid : Z) : option nat :=
  match l with
  | [] => None
  | p :: l => if ProcessId p =? pid then Some i else findPid (S i) l pid
  end.

Definition kill (pid : Z) : M KState Z :=
  acquire L_processTable;;
  l ← gets processTable;
  match findPid 0 l pid with
  | Some i =>
      p ← getProcess i;
      putProcess i (set_IsKilled 1 p);;
      p ← getProcess i;
      (if bool_decide (State p = SLEEPING) then putProcess i (set_State RUNNABLE p) else mret tt);;
      release L_processTable;;
      mret 0
  | None => release L_processTable;; mret (-1)
  end.

(** * Switching *)

Section Switch.
Context `{Scheduler}.

Definition swtch : M KState unit := fun s =>
  match resume s with
  | Some s' => Ret tt s'
  | None => Sleep s
  end.

Definition sched : M KState unit :=
  p ← currentProcess;
  h ← locked (isHolding L_processTable);
  if negb (h : bool) then panic "sched processTable.Lock"
  else
    i ← locked myCpu;
    c ← locked (getCpu i);
    if negb (CliDepth c =? 1) then panic "sched locks"
    else
      p ← checked "sched: null process" p;
      x ← getProcess p;
      if bool_decide (State x = RUNNING) then panic "sched running"
      else
        eflags ← locked readExtendedFlags;
        if negb (Z.land eflags FL_IF =? 0) then panic "sched interruptible"
        else
          i ← locked myCpu;
          c ← locked (getCpu i);
          let intena := InterruptsEnabled c in
          swtch;;
          i ← locked myCpu;
          c ← locked (getCpu i);
          locked (putCpu i (set_InterruptsEnabled intena c)).

Definition yield : M KState unit :=
  acquire L_processTable;;
  p ← currentProcess;
  p ← checked "yield: null process" p;
  x ← getProcess p;
  putProcess p (set_State RUNNABLE x);;
  sched;;
  release L_processTable.

Definition sleep (chan : ChanId) (lk : option LockId) : M KState unit :=
  p ← currentProcess;
  match p, lk with
  | None, _ => panic "sleep"
  | _, None => panic "sleep without lk"
  | Some p, Some lk =>
      (if negb (bool_decide (lk = L_processTable))
       then acquire L_processTable;; release lk else mret tt);;
      x ← getProcess p;
      putProcess p (set_Chan (Some chan) x);;
      x ← getProcess p;
      putProcess p (set_State SLEEPING x);;
      sched;;
      x ← getProcess p;
      putProcess p (set_Chan None x);;
      if negb (bool_decide (lk = L_processTable))
      then release L_processTable;; acquire lk else mret tt
  end.

End Switch.

(** * The scheduler *)

(** vm.c.  Of the task state segment the kernel stack pointer; the descriptor
    and the remaining fields are the same for every process. *)
Definition switchToKernelVirtualMemory : M KState unit :=
  puts (fun s => set_cr3 (V2P (kernelPageDirectory s)) s).

Definition switchToUserVirtualMemory (p : option nat) : M KState unit :=
  match p with
  | None => panic "switchToUserVirtualMemory: no process"
  | Some p =>
      x ← getProcess p;
      if KernelStack x =? 0 then panic "switchToUserVirtualMemory: no kstack"
      else if PageTable x =? 0 then panic "switchToUserVirtualMemory: no pgdir"
      else
        locked pushCli;;
        i ← locked myCpu;
        puts (set_esp0 (u32 (KernelStack x + KSTACKSIZE)));;
        puts (set_cr3 (V2P (PageTable x)));;
        locked popCli
  end.

Definition setCpuProcess (c : nat) (p : option nat) : M KState unit :=
  x ← locked (getCpu c); locked (putCpu c (set_CpuProcess p x)).

(** The loop over the process table from slot [i] on, up to the [swtch] to the
    process it chooses; [None] at the end of the table. *)
Fixpoint schedulerScan (n : nat) (c i : nat) : M KState (option nat) :=
  match n with
  | O => mret None
  | S n =>
      p ← getProcess i;
      if negb (bool_decide (State p = RUNNABLE)) then schedulerScan n c (S i)
      else
        setCpuProcess c (Some i);;
        switchToUserVirtualMemory (Some i);;
        p ← getProcess i;
        putProcess i (set_State RUNNING p);;
        mret (Some i)
  end.

(** From the return of process [p] to the scheduler on to its next choice; the
    rest of the table is searched first, then the table is unlocked, interrupts
    are on and one of them arrives ([handler]), and the search starts again. *)
Definition interrupted (handler : M KState unit) : M KState unit :=
  locked disableInterrupts;; handler;; locked enableInterrupts.

Definition schedulerRound (handler : M KState unit) (c p : nat) : M KState (option nat) :=
  switchToKernelVirtualMemory;;
  setCpuProcess c None;;
  r ← schedulerScan (Z.to_nat NPROC - S p) c (S p);
  match r with
  | Some q => mret (Some q)
  | None =>
      release L_processTable;;
      locked enableInterrupts;;
      interrupted handler;;
      acquire L_processTable;;
      schedulerScan (Z.to_nat NPROC) c 0
  end.

(** * What the operations do *)

Lemma wakeup_eq chan s : balanced 1 (sync s) -> lockFree (sync s) L_processTable ->
  wakeup chan s = Ret tt (set_processTable (map (wake1 chan) (processTable s)) (settled s)).
Proof.
  intros Hb Hl. unfold wakeup. rewrite (bind_Ret _ _ _ _ _ (acquire_entered _ s Hb Hl)).
  unfold wakeup1. rewrite bind_puts. by rewrite (release_settled _ s).
Qed.

(** Inside the section of another lock. *)
Lemma wakeup_inside l chan s y : l <> L_processTable -> sync s = acq l y -> balanced 2 y -> lockFree y L_processTable ->
  wakeup chan s = Ret tt (set_processTable (map (wake1 chan) (processTable s)) s).
Proof.
  intros Hl Es Hb Hf. rewrite wakeup_eq.
  - unfold settled. rewrite Es, settle_acq by (by apply (balanced_weaken 2)). rewrite <- Es. by destruct s.
  - rewrite Es. by apply (acq_balanced 1).
  - rewrite Es. by apply acq_lockFree.
Qed.

Lemma findPid_spec l pid : forall i,
  match findPid i l pid with
  | Some k => exists p, (i <= k)%nat /\ l !! (k - i)%nat = Some p /\ ProcessId p = pid
  | None => Forall (fun p => ProcessId p <> pid) l
  end.
Proof.
  induction l as [|p l IH]; intros i; cbn [findPid]; [constructor|].
  destruct (Z.eqb_spec (ProcessId p) pid) as [E|E].
  - exists p. by rewrite Nat.sub_diag.
  - specialize (IH (S i)). destruct (findPid (S i) l pid) as [k|].
    + destruct IH as (q & Hk & Hq & Hid). exists q. replace (k - i)%nat with (S (k - S i)) by lia. split_and!; [lia|done|done].
    + by constructor.
Qed.

(** A killed process, woken if it slept. *)
Definition killed (p : Process) : Process :=
  let p := set_IsKilled 1 p in if bool_decide (State p = SLEEPING) then set_State RUNNABLE p else p.

Lemma kill_eq pid s : balanced 1 (sync s) -> lockFree (sync s) L_processTable ->
  kill pid s = match findPid 0 (processTable s) pid with
               | Some i => Ret 0 (set_processTable (alter killed i (processTable s)) (settled s))
               | None => Ret (-1) (settled s)
               end.
Proof.
  intros Hb Hl. unfold kill. rewrite (bind_Ret _ _ _ _ _ (acquire_entered _ s Hb Hl)), bind_gets.
  change (processTable (entered L_processTable s)) with (processTable s).
  pose proof (findPid_spec (processTable s) pid 0) as Hp. destruct (findPid 0 (processTable s) pid) as [i|].
  - destruct Hp as (p & _ & Hi & _). rewrite Nat.sub_0_r in Hi. pose proof (lookup_lt_Some _ _ _ Hi) as Hlt.
    unfold getProcess, putProcess. rewrite bind_assoc, bind_gets. change (processTable (entered L_processTable s)) with (processTable s).
    rewrite Hi, bind_checked, bind_puts, bind_assoc, bind_gets. cbn [processTable set_processTable].
    change (processTable (entered L_processTable s)) with (processTable s).
    rewrite list_lookup_insert_eq by done. rewrite bind_checked. rewrite (alter_at _ _ _ p) by done. unfold killed. cbv zeta.
    case_bool_decide.
    + rewrite bind_puts. erewrite bind_Ret; [|by apply (release_settled _ s)]. cbn. by rewrite list_insert_insert_eq.
    + rewrite bind_mret. erewrite bind_Ret; [|by apply (release_settled _ s)]. done.
  - erewrite bind_Ret; [|by apply (release_settled _ s)]. done.
Qed.

(** ** Sleeping *)

(** The processor runs process [p] and holds no lock. *)
Definition thread (y : Sync) (p : nat) : Prop :=
  exists c cp, cpu_is y c cp /\ CliDepth cp = 0 /\ CpuProcess cp = Some p.

Lemma thread_balanced n y p : n <= 2147483647 -> thread y p -> balanced n y.
Proof. intros Hn (c & cp & Hc & Hd & _). exists c, cp. split_and!; [done|lia|lia|done]. Qed.

Lemma thread_settle y p : thread y p -> thread (settle y) p.
Proof.
  intros (c & cp & Hc & Hd & Hp). exists c, (remember (iflag y) cp). split; [by apply settle_cpu|].
  unfold remember. by case_match.
Qed.

Lemma thread_set_iflag b y p : thread y p -> thread (set_iflag b y) p.
Proof. intros (c & cp & Hc & Hd & Hp). by exists c, cp. Qed.

Lemma acq_cpu l y c cp : cpu_is y c cp ->
  cpu_is (acq l y) c (set_CliDepth (CliDepth cp + 1) (remember (iflag y) cp)).
Proof. intros Hc. assert (H := push_cpu y c cp Hc). unfold acq. repeat case_match; done. Qed.

Lemma acq_iflag l y : iflag (acq l y) = false.
Proof. unfold acq. repeat case_match; done. Qed.

(** Inside a section the current process is the same. *)
Lemma currentProcess_section l s y p : sync s = acq l y -> thread y p ->
  currentProcess s = Ret (Some p) s.
Proof.
  intros Es Ht. pose proof (thread_balanced 2 y p ltac:(lia) Ht) as Hb. destruct Ht as (c & cp & Hc & Hd & Hp).
  rewrite (currentProcess_eq s c (set_CliDepth (CliDepth cp + 1) (remember (iflag y) cp))).
  - unfold settled. rewrite Es, settle_acq by (by apply (balanced_weaken 2)). rewrite <- Es. f_equal; [|by destruct s].
    cbn. unfold remember. by case_match.
  - rewrite Es. by apply (acq_balanced 1).
  - rewrite Es. by apply acq_cpu.
Qed.

(** Restoring the interrupt state of this thread. *)
Lemma acq_set_iflag l y b c cp : cpu_is y c cp -> CliDepth cp = 0 ->
  acq l (set_iflag b y) = atCpu (set_InterruptsEnabled (irq_bit b)) (acq l y).
Proof.
  intros Hc Hd. rewrite (atCpu_eq _ _ _ (acq_cpu l y c cp Hc)).
  unfold acq, push. cbn [set_iflag ncpu cpus apicid locks iflag].
  destruct Hc as [Hf Hl]. rewrite Hf. unfold atCpu. cbn [set_iflag ncpu cpus apicid locks iflag]. rewrite Hf.
  unfold remember.
  destruct (locks y !! l); unfold set_locks, set_cpus, set_iflag; cbn; rewrite (alter_at _ _ _ cp Hl), Hd; cbn;
    rewrite (alter_at _ _ _ cp Hl), ?Hd; cbn; rewrite list_insert_insert_eq; done.
Qed.

Section SleepProofs.
Context `{Scheduler}.

(** The state in which process [p] has gone to sleep on [chan]. *)
Definition asleep (p : nat) (chan : ChanId) (y : Sync) (s : KState) : KState :=
  set_sync (acq L_processTable y)
    (set_processTable (alter (fun x => set_State SLEEPING (set_Chan (Some chan) x)) p (processTable s)) s).

(** The state in which [p] comes back: the process table is locked by its
    processor again. *)
Definition back (p : nat) (lk : LockId) (y' : Sync) (s' : KState) : Prop :=
  sync s' = acq L_processTable y' /\ thread y' p /\ lockFree y' L_processTable /\ lockFree y' lk /\
  is_Some (processTable s' !! p).

Definition awake (p : nat) (lk : LockId) (y y' : Sync) (s' : KState) : KState :=
  set_sync (acq lk (set_iflag (iflag y) y'))
    (set_processTable (alter (set_Chan None) p (processTable s')) s').

Lemma locked_Ret {A} (c : M Sync A) s a y' : c (sync s) = Ret a y' -> locked c s = Ret a (set_sync y' s).
Proof. unfold locked. by intros ->. Qed.

Lemma set_sync_id s : set_sync (sync s) s = s.
Proof. by destruct s. Qed.

Lemma getProcess_eq p x s : processTable s !! p = Some x -> getProcess p s = Ret x s.
Proof. intros Hp. unfold getProcess. by rewrite bind_gets, Hp. Qed.

Lemma bind_putProcess {B} p x (k : unit -> M KState B) s :
  (putProcess p x ≫= k) s = k tt (set_processTable (<[p := x]> (processTable s)) s).
Proof. done. Qed.

Lemma sched_spec p x y s :
  sync s = acq L_processTable y -> thread y p -> lockFree y L_processTable ->
  processTable s !! p = Some x -> State x <> RUNNING ->
  sched s = match resume s with
            | None => Sleep s
            | Some s' =>
                (i ← locked myCpu; c ← locked (getCpu i);
                 locked (putCpu i (set_InterruptsEnabled (irq_bit (iflag y)) c))) s'
            end.
Proof.
  intros Es Ht [nm Hl] Hp Hx. unfold sched.
  rewrite (bind_Ret _ _ _ _ _ (currentProcess_section _ s y p Es Ht)).
  destruct Ht as (c & cp & Hc & Hd & Hpr). pose proof (acq_cpu L_processTable y c cp Hc) as Ha.
  assert (Hi := acq_iflag L_processTable y).
  assert (Hh : locked (isHolding L_processTable) s = Ret true s).
  { erewrite locked_Ret; [|rewrite Es; apply (isHolding_held _ _ c _ 1 nm (Some c) Ha); [done| |done]].
    - rewrite <- Es, set_sync_id. by rewrite bool_decide_eq_true_2.
    - rewrite (acq_eq _ _ _ Hc _ _ Hl). apply lookup_insert_eq. }
  rewrite (bind_Ret _ _ _ _ _ Hh). cbn [negb].
  assert (Hm : locked myCpu s = Ret c s).
  { erewrite locked_Ret; [|rewrite Es; by eapply myCpu_eq]. by rewrite <- Es, set_sync_id. }
  assert (Hg : locked (getCpu c) s = Ret (set_CliDepth (CliDepth cp + 1) (remember (iflag y) cp)) s).
  { erewrite locked_Ret; [|rewrite Es; by eapply getCpu_eq]. by rewrite <- Es, set_sync_id. }
  rewrite (bind_Ret _ _ _ _ _ Hm), (bind_Ret _ _ _ _ _ Hg). cbn [CliDepth set_CliDepth]. rewrite Hd.
  change (0 + 1 =? 1) with true. cbn [negb].
  rewrite bind_checked, (bind_Ret _ _ _ _ _ (getProcess_eq p x s Hp)), bool_decide_eq_false_2 by done.
  assert (He : locked readExtendedFlags s = Ret 0 s).
  { unfold locked, readExtendedFlags, gets. rewrite Es, Hi. by rewrite <- Es, set_sync_id. }
  rewrite (bind_Ret _ _ _ _ _ He). rewrite Z.land_0_l. cbn [Z.eqb negb].
  rewrite (bind_Ret _ _ _ _ _ Hm), (bind_Ret _ _ _ _ _ Hg). cbv zeta.
  unfold swtch. unfold mbind at 1, M_bind at 1. destruct (resume s); [|done].
  unfold remember. rewrite Hd. done.
Qed.

(** The part of [sched] after the switch, when the process is back. *)
Lemma sched_back b p y' s' : sync s' = acq L_processTable y' -> thread y' p ->
  (i ← locked myCpu; c ← locked (getCpu i);
   locked (putCpu i (set_InterruptsEnabled (irq_bit b) c))) s' =
  Ret tt (set_sync (acq L_processTable (set_iflag b y')) s').
Proof.
  intros Es (c & cp & Hc & Hd & Hpr). pose proof (acq_cpu L_processTable y' c cp Hc) as Ha.
  erewrite bind_Ret; [|apply locked_Ret; rewrite Es; apply (myCpu_eq _ _ _ Ha), acq_iflag]. rewrite <- Es, set_sync_id.
  erewrite bind_Ret; [|apply locked_Ret; rewrite Es; apply (getCpu_eq _ _ _ Ha)]. rewrite <- Es, set_sync_id.
  erewrite locked_Ret; [|unfold putCpu, puts; reflexivity]. rewrite Es, (acq_set_iflag _ _ b c cp Hc Hd).
  by rewrite (atCpu_eq _ _ _ Ha).
Qed.

Lemma sleep_spec chan lk p y s :
  sync s = acq lk y -> thread y p -> lk <> L_processTable -> lockFree y lk -> lockFree y L_processTable ->
  is_Some (processTable s !! p) ->
  match resume (asleep p chan y s) with
  | None => sleep chan (Some lk) s = Sleep (asleep p chan y s)
  | Some s' => forall y', back p lk y' s' -> sleep chan (Some lk) s = Ret tt (awake p lk y y' s')
  end.
Proof.
  intros Es Ht Hlk Hl Hpt [x Hx].
  pose proof (thread_balanced 2 y p ltac:(lia) Ht) as Hb. pose proof (lookup_lt_Some _ _ _ Hx) as Hlt.
  assert (E : sleep chan (Some lk) s =
    (sched;; x ← getProcess p; putProcess p (set_Chan None x);; release L_processTable;; acquire lk) (asleep p chan y s)).
  { unfold sleep. rewrite (bind_Ret _ _ _ _ _ (currentProcess_section _ s y p Es Ht)).
    rewrite bool_decide_eq_false_2 by done. cbn [negb].
    assert (Hacq : (acquire L_processTable;; release lk) s = Ret tt (set_sync (acq L_processTable y) s)).
    { erewrite bind_Ret; [|apply acquire_entered; rewrite Es].
      - unfold release, locked, entered. cbn [sync set_sync]. rewrite Es, release_outer; done.
      - by apply (acq_balanced 1).
      - by apply acq_lockFree. }
    rewrite (bind_Ret _ _ _ _ _ Hacq).
    erewrite bind_Ret; [|by apply getProcess_eq]. rewrite bind_putProcess.
    erewrite bind_Ret; [|apply getProcess_eq; cbn; by apply list_lookup_insert_eq]. rewrite bind_putProcess.
    unfold asleep. rewrite (alter_at _ _ _ x) by done. cbn. by rewrite list_insert_insert_eq. }
  assert (Hlook : processTable (asleep p chan y s) !! p = Some (set_State SLEEPING (set_Chan (Some chan) x)))
    by (cbn; by rewrite list_lookup_alter_eq, Hx).
  assert (Hsched := sched_spec p _ y (asleep p chan y s) eq_refl Ht Hpt Hlook ltac:(done)).
  rewrite E. destruct (resume (asleep p chan y s)) as [s'|]; [|by apply bind_Sleep].
  intros y' (Es' & Ht' & Hpt' & Hlk' & [x' Hx']). rewrite (sched_back _ p y' s' Es' Ht') in Hsched.
  rewrite (bind_Ret _ _ _ _ _ Hsched).
  set (y2 := set_iflag (iflag y) y'). assert (Ht2 : thread y2 p) by (by apply thread_set_iflag).
  pose proof (thread_balanced 2 y2 p ltac:(lia) Ht2) as Hb2.
  erewrite bind_Ret; [|apply getProcess_eq; exact Hx']. rewrite bind_putProcess.
  assert (Hrel := release_settled L_processTable (set_sync y2 s')).
  erewrite bind_Ret; [|apply Hrel; [by apply (balanced_weaken 2)|done|reflexivity]].
  rewrite acquire_entered; [|cbn; apply settle_balanced; by apply (balanced_weaken 2)|cbn; by apply settle_lockFree].
  unfold entered, awake. cbn. rewrite acq_settle, (alter_at _ _ _ x') by done. done.
Qed.

End SleepProofs.

(** * Properties *)


(** [wakeup] makes runnable exactly the processes that sleep on the
    channel; every other process is unchanged, and so is the rest of the
    kernel. *)
Theorem wakeup_exact (chan : ChanId) (s : KState) :
  balanced 1 (sync s) -> lockFree (sync s) L_processTable ->
  exists l, wakeup (Some chan) s = Ret tt (set_processTable l (settled s)) /\ length l = length (processTable s) /\
    forall i p, processTable s !! i = Some p ->
      l !! i = Some (if decide (State p = SLEEPING /\ Chan p = Some chan) then set_State RUNNABLE p else p).
Proof.
  intros Hb Hl. eexists. split; [by apply wakeup_eq|]. split; [apply length_map|].
  intros i p Hp. change (map ?f ?l) with (f <$> l). rewrite list_lookup_fmap, Hp. cbn. unfold wake1.
  case_decide as E.
  - destruct E as [E1 E2]. by rewrite !bool_decide_eq_true_2.
  - destruct (bool_decide_reflect (State p = SLEEPING)), (bool_decide_reflect (Chan p = Some chan)); cbn; naive_solver.
Qed.

(** [kill] returns -1 if no process has the pid; otherwise it marks the
    first one that has it and makes it runnable if it sleeps, and returns 0. *)
Theorem kill_outcome (pid : Z) (s : KState) :
  balanced 1 (sync s) -> lockFree (sync s) L_processTable ->
  (kill pid s = Ret (-1) (settled s) /\ Forall (fun p => ProcessId p <> pid) (processTable s)) \/
  (exists i p, processTable s !! i = Some p /\ ProcessId p = pid /\
     kill pid s = Ret 0 (set_processTable (<[i := killed p]> (processTable s)) (settled s)) /\
     IsKilled (killed p) = 1 /\ State (killed p) <> SLEEPING).
Proof.
  intros Hb Hl. rewrite (kill_eq pid s Hb Hl). pose proof (findPid_spec (processTable s) pid 0) as Hf.
  destruct (findPid 0 (processTable s) pid) as [i|]; [right|by left].
  destruct Hf as (p & _ & Hp & Hpid). rewrite Nat.sub_0_r in Hp. exists i, p. split_and!; try done.
  - by rewrite (alter_at _ _ _ p).
  - unfold killed. by case_bool_decide.
  - unfold killed. by case_bool_decide.
Qed.

(** * Concrete runs *)

Lemma demoKernel_thread : thread demoKernelSync 0.
Proof. exists 0%nat, (mkCpu 0 1 0 0 (Some 0%nat)). split; [split; reflexivity|]. done. Qed.

Lemma demoKernel_table : lockFree demoKernelSync L_processTable.
Proof. apply demoKernel_free. unfold demoLockList. set_solver. Qed.

Lemma demoKernel_ide : lockFree demoKernelSync L_ide.
Proof. apply demoKernel_free. unfold demoLockList. set_solver. Qed.

(** Nobody ever wakes the process up. *)
Definition demoAlone : Scheduler := {| resume := fun _ => None; wakeups := 0 |}.


Lemma wakeup_exact_witness :
  exists l, wakeup (Some Ch_ticks) (set_processTable [set_Chan (Some Ch_ticks) (set_State SLEEPING demoProcess); demoProcess] demoKernel) =
      Ret tt (set_processTable l (settled demoKernel)) /\
    State <$> l !! 0%nat = Some RUNNABLE /\ State <$> l !! 1%nat = Some RUNNING.
Proof.
  destruct (wakeup_exact Ch_ticks (set_processTable [set_Chan (Some Ch_ticks) (set_State SLEEPING demoProcess); demoProcess] demoKernel))
    as (l & H1 & _ & H2); [apply demoKernel_balanced; lia|exact demoKernel_table|].
  exists l. split; [exact H1|]. split; [rewrite (H2 0%nat _ eq_refl)|rewrite (H2 1%nat _ eq_refl)]; reflexivity.
Defined.

Lemma kill_outcome_witness :
  exists s', kill 1 demoKernel = Ret 0 s'.
Proof.
  destruct (kill_outcome 1 demoKernel) as [[_ H]|(i & p & _ & _ & H & _)];
    [apply demoKernel_balanced; lia|exact demoKernel_table| |eexists; exact H].
  exfalso. apply Forall_cons in H as [H _]. apply H. reflexivity.
Defined.
