(* ===== verification/Idle.v ===== *)
(** The scheduler around one process: the process goes to sleep, no other
    process is runnable, an interrupt handler runs and makes it runnable
    again.  This is the [Scheduler] that the disk driver is proved correct
    with. *)

From S2P Require Import Prelude Types Spinlock Kernel Kalloc Sched.

(** The processor is [c] and holds no lock. *)
Definition idle (c : nat) (y : Sync) : Prop := exists cp, cpu_is y c cp /\ CliDepth cp = 0.

Lemma idle_settle c y : idle c y -> idle c (settle y).
Proof. intros (cp & Hc & Hd). exists (remember (iflag y) cp). split; [by apply settle_cpu|]. by rewrite remember_depth. Qed.

Lemma idle_set_iflag c b y : idle c y -> idle c (set_iflag b y).
Proof. intros (cp & Hc & Hd). by exists cp. Qed.

Lemma idle_balanced n c y : n <= 2147483647 -> idle c y -> balanced n y.
Proof. intros Hn (cp & Hc & Hd). exists c, cp. split_and!; [done|lia|lia|done]. Qed.

Lemma thread_idle y p : thread y p -> exists c, idle c y.
Proof. intros (c & cp & Hc & Hd & _). by exists c, cp. Qed.

(** Processor [c] runs process [p] and holds no lock. *)
Definition runsOn (c p : nat) (y : Sync) : Prop :=
  exists cp, cpu_is y c cp /\ CliDepth cp = 0 /\ CpuProcess cp = Some p.

Lemma runsOn_thread c p y : runsOn c p y -> thread y p.
Proof. intros (cp & ?). by exists c, cp. Qed.

Lemma runsOn_idle c p y : runsOn c p y -> idle c y.
Proof. intros (cp & Hc & Hd & _). by exists cp. Qed.

Lemma runsOn_settle c p y : runsOn c p y -> runsOn c p (settle y).
Proof.
  intros (cp & Hc & Hd & Hp). exists (remember (iflag y) cp). split; [by apply settle_cpu|].
  unfold remember. by case_match.
Qed.

Lemma runsOn_set_iflag c p b y : runsOn c p y -> runsOn c p (set_iflag b y).
Proof. intros (cp & ?). by exists cp. Qed.

(** Giving the processor a process. *)
Definition giveCpu (c : nat) (p : option nat) (y : Sync) : Sync := set_cpus (alter (set_CpuProcess p) c (cpus y)) y.

Lemma giveCpu_cpu c p y cp : cpu_is y c cp -> cpu_is (giveCpu c p y) c (set_CpuProcess p cp).
Proof.
  intros Hc. unfold giveCpu. rewrite (alter_at _ _ _ cp (proj2 Hc)). by apply (cpu_is_update y c cp Hc).
Qed.

Lemma giveCpu_idle c p y : idle c y -> idle c (giveCpu c p y).
Proof. intros (cp & Hc & Hd). exists (set_CpuProcess p cp). split; [by apply giveCpu_cpu|done]. Qed.

Lemma giveCpu_runsOn c p y : idle c y -> runsOn c p (giveCpu c (Some p) y).
Proof. intros (cp & Hc & Hd). exists (set_CpuProcess (Some p) cp). split; [by apply giveCpu_cpu|done]. Qed.

Lemma giveCpu_acq c p l y : idle c y -> giveCpu c p (acq l y) = acq l (giveCpu c p y).
Proof.
  intros (cp & Hc & Hd). pose proof (giveCpu_cpu c p y cp Hc) as Hg.
  assert (Hpush : giveCpu c p (push y) = push (giveCpu c p y)).
  { rewrite (push_eq _ _ _ Hc), (push_eq _ _ _ Hg). unfold giveCpu. cbn.
    pose proof (lookup_lt_Some _ _ _ (proj2 Hc)) as Hlt.
    rewrite (alter_at _ _ _ (set_CliDepth (CliDepth cp + 1) (remember (iflag y) cp))) by (by apply list_lookup_insert_eq).
    rewrite (alter_at _ _ _ cp (proj2 Hc)), !list_insert_insert_eq. unfold set_cpus. cbn. do 3 f_equal.
    unfold remember. cbn. rewrite Hd. done. }
  unfold acq. destruct Hg as [-> _]. destruct Hc as [-> _].
  change (locks (giveCpu c p y)) with (locks y). rewrite <- Hpush. by destruct (locks y !! l).
Qed.

Lemma setCpuProcess_eq c p l y s : sync s = acq l y -> idle c y ->
  setCpuProcess c p s = Ret tt (set_sync (acq l (giveCpu c p y)) s).
Proof.
  intros Es Hi. pose proof Hi as (cp & Hc & Hd). pose proof (acq_cpu l y c cp Hc) as Ha. unfold setCpuProcess.
  erewrite bind_Ret; [|apply locked_Ret; rewrite Es; apply (getCpu_eq _ _ _ Ha)]. rewrite <- Es, set_sync_id.
  erewrite locked_Ret; [|unfold putCpu, puts; reflexivity]. rewrite Es, <- giveCpu_acq by done.
  unfold giveCpu. by rewrite (alter_at _ _ _ _ (proj2 Ha)).
Qed.

(** [pushCli] and [popCli] inside a section change nothing. *)
Lemma pushpop_section l y : balanced 2 y ->
  pushCli (acq l y) = Ret tt (push (acq l y)) /\ popCli (push (acq l y)) = Ret tt (acq l y).
Proof.
  intros Hb. pose proof (acq_balanced 1 l y ltac:(lia) Hb) as Hb1. split; [by apply pushCli_eq|].
  pose proof Hb1 as (c & cp & Hc & Hd & Hd' & Hi).
  rewrite (popCli_eq _ _ _ (push_cpu _ _ _ Hc)); [|by rewrite (push_eq _ _ _ Hc)|cbn; lia].
  assert (E := pop_push _ c cp Hc (locks (acq l y)) Hd Hi).
  replace (set_locks (locks (acq l y)) (push (acq l y))) with (push (acq l y)) in E by (rewrite (push_eq _ _ _ Hc); done).
  rewrite E, settle_acq by (by apply (balanced_weaken 2)). f_equal. by destruct (acq l y).
Qed.

Lemma switchToUser_eq l y s p x : sync s = acq l y -> balanced 2 y -> processTable s !! p = Some x ->
  KernelStack x <> 0 -> PageTable x <> 0 ->
  switchToUserVirtualMemory (Some p) s =
    Ret tt (set_cr3 (V2P (PageTable x)) (set_esp0 (u32 (KernelStack x + KSTACKSIZE)) s)).
Proof.
  intros Es Hb Hp Hk Ht. unfold switchToUserVirtualMemory.
  rewrite (bind_Ret _ _ _ _ _ (getProcess_eq p x s Hp)).
  rewrite (proj2 (Z.eqb_neq _ _) Hk), (proj2 (Z.eqb_neq _ _) Ht).
  destruct (pushpop_section l y Hb) as [Hpush Hpop].
  erewrite bind_Ret; [|apply locked_Ret; rewrite Es; exact Hpush].
  destruct (acq_balanced 1 l y ltac:(lia) Hb) as (c & cp & Hc & _).
  erewrite bind_Ret; [|apply locked_Ret; cbn; apply (myCpu_eq _ _ _ (push_cpu _ _ _ Hc)); by rewrite (push_eq _ _ _ Hc)].
  rewrite !bind_puts. erewrite locked_Ret; [|cbn; exact Hpop]. rewrite <- Es. by destruct s.
Qed.

(** A search that finds nothing, and one that finds slot [p]. *)
Lemma schedulerScan_none n : forall c i s,
  (i + n <= length (processTable s))%nat ->
  (forall q x, (i <= q < i + n)%nat -> processTable s !! q = Some x -> State x <> RUNNABLE) ->
  schedulerScan n c i s = Ret None s.
Proof.
  induction n as [|n IH]; intros c i s Hlen Hn; [done|]. cbn [schedulerScan].
  destruct (lookup_lt_is_Some_2 (processTable s) i) as [x Hx]; [lia|].
  rewrite (bind_Ret _ _ _ _ _ (getProcess_eq i x s Hx)).
  rewrite bool_decide_eq_false_2 by (apply (Hn i); [lia|done]). cbn [negb].
  apply IH; [lia|]. intros q z Hq. apply Hn. lia.
Qed.

Lemma schedulerScan_find n : forall c i s p x y,
  sync s = acq L_processTable y -> idle c y ->
  (i <= p < i + n)%nat -> processTable s !! p = Some x -> State x = RUNNABLE ->
  KernelStack x <> 0 -> PageTable x <> 0 ->
  (forall q z, (i <= q < p)%nat -> processTable s !! q = Some z -> State z <> RUNNABLE) ->
  schedulerScan n c i s = Ret (Some p)
    (set_sync (acq L_processTable (giveCpu c (Some p) y))
      (set_processTable (<[p := set_State RUNNING x]> (processTable s))
        (set_cr3 (V2P (PageTable x)) (set_esp0 (u32 (KernelStack x + KSTACKSIZE)) s)))).
Proof.
  induction n as [|n IH]; intros c i s p x y Es Hi Hp Hx Hrun Hk Ht Hq; [lia|]. cbn [schedulerScan].
  destruct (decide (i = p)) as [->|Hip].
  - rewrite (bind_Ret _ _ _ _ _ (getProcess_eq p x s Hx)), bool_decide_eq_true_2 by done. cbn [negb].
    rewrite (bind_Ret _ _ _ _ _ (setCpuProcess_eq c (Some p) _ y s Es Hi)).
    erewrite bind_Ret; [|apply (switchToUser_eq L_processTable (giveCpu c (Some p) y) _ p x); try done].
    2: { eapply idle_balanced; [|by apply giveCpu_idle]. lia. }
    erewrite bind_Ret; [|by apply getProcess_eq]. by rewrite bind_putProcess.
  - destruct (lookup_lt_is_Some_2 (processTable s) i) as [z Hz]; [apply lookup_lt_Some in Hx; lia|].
    rewrite (bind_Ret _ _ _ _ _ (getProcess_eq i z s Hz)).
    rewrite bool_decide_eq_false_2 by (apply (Hq i); [lia|done]). cbn [negb].
    apply IH; try done; [lia|]. intros q w Hqw. apply Hq. lia.
Qed.

(** The state in which the handler starts, from the state [s] in which the
    process has given up the processor. *)
Definition atInterrupt (c : nat) (y : Sync) (s : KState) : KState :=
  set_sync (set_iflag false (settle (giveCpu c None y))) (set_cr3 (V2P (kernelPageDirectory s)) s).

Lemma schedulerRound_spec handler c p y s s3 x :
  sync s = acq L_processTable y -> idle c y -> lockFree y L_processTable ->
  length (processTable s) = Z.to_nat NPROC -> (p < Z.to_nat NPROC)%nat ->
  (forall q z, (p < q)%nat -> processTable s !! q = Some z -> State z <> RUNNABLE) ->
  handler (atInterrupt c y s) = Ret tt s3 -> sync s3 = settle (sync (atInterrupt c y s)) ->
  processTable s3 !! p = Some x -> State x = RUNNABLE -> KernelStack x <> 0 -> PageTable x <> 0 ->
  (forall q z, (q < p)%nat -> processTable s3 !! q = Some z -> State z <> RUNNABLE) ->
  exists y', runsOn c p y' /\ locks y' = locks y /\
    schedulerRound handler c p s = Ret (Some p)
      (set_sync (acq L_processTable y')
        (set_processTable (<[p := set_State RUNNING x]> (processTable s3))
          (set_cr3 (V2P (PageTable x)) (set_esp0 (u32 (KernelStack x + KSTACKSIZE)) s3)))).
Proof.
  intros Es Hi Hf Hlen Hp Hrest Hh Es3 Hx Hrun Hk Ht Hq.
  set (y1 := settle (giveCpu c None y)). set (y3 := set_iflag true (settle (set_iflag false y1))).
  assert (Hi1 : idle c y1) by (by apply idle_settle, giveCpu_idle).
  assert (Hi3 : idle c y3) by (by apply idle_set_iflag, idle_settle, idle_set_iflag).
  assert (Hl3 : locks y3 = locks y) by (unfold y3; cbn; rewrite settle_locks; cbn; unfold y1; by rewrite settle_locks).
  exists (giveCpu c (Some p) y3). split; [by apply giveCpu_runsOn|]. split; [done|].
  unfold schedulerRound, switchToKernelVirtualMemory. rewrite bind_puts.
  set (s1 := set_cr3 _ s). rewrite (bind_Ret _ _ _ _ _ (setCpuProcess_eq c None _ y s1 Es Hi)).
  erewrite bind_Ret; [|apply schedulerScan_none; cbn; [rewrite Hlen; lia|intros q z Hqz; apply Hrest; lia]]. cbv iota.
  assert (Hb := idle_balanced 2 c _ ltac:(lia) (giveCpu_idle c None y Hi)).
  erewrite bind_Ret; [|apply (release_settled _ (set_sync (giveCpu c None y) s1)); [by apply (balanced_weaken 2)|done|done]].
  cbn [sync set_sync]. fold y1.
  erewrite bind_Ret; [|apply locked_Ret; reflexivity].
  assert (Hint : interrupted handler (set_sync (set_iflag true y1) s1) = Ret tt (set_sync y3 s3)).
  { unfold interrupted. erewrite bind_Ret; [|apply locked_Ret; reflexivity].
    erewrite bind_Ret; [|exact Hh]. erewrite locked_Ret; [|reflexivity]. rewrite Es3. done. }
  erewrite bind_Ret; [|exact Hint].
  erewrite bind_Ret; [|apply acquire_entered; cbn; [by eapply idle_balanced; [lia|]; eauto|]].
  2: { destruct Hf as [nm Hf]. exists nm. by rewrite Hl3. }
  rewrite (schedulerScan_find _ c 0 _ p x y3); try done; [cbn; lia|].
  intros q z Hqp. apply Hq. lia.
Qed.
