(* ===== verification/Sleeplock.v ===== *)
(** sleeplock.c.  The kernel's sleep locks are those of the disk buffers, so a
    sleep lock is named by the index of its buffer. *)

From S2P Require Import Prelude Types Spinlock Kernel Sched.

Definition getSleeplock (b : nat) : M KState Sleeplock := x ← getBuffer b; mret (Lock x).
Definition putSleeplock (b : nat) (lk : Sleeplock) : M KState unit := x ← getBuffer b; putBuffer b (set_Lock lk x).

Definition sleeplockInitialise (b : nat) (name : string) : M KState unit :=
  locked (spinlockInitialise (L_buffer b) "sleep lock");;
  putSleeplock b (mkSleeplock 0 name 0).

Section Sleeplocks.
Context `{Scheduler}.

Fixpoint sleeplockWait (fuel : nat) (b : nat) : M KState unit :=
  lk ← getSleeplock b;
  if SlLocked lk =? 0 then mret tt
  else match fuel with
  | O => spin
  | S fuel => sleep (Ch_sleeplock b) (Some (L_buffer b));; sleeplockWait fuel b
  end.

Definition sleeplockAcquire (b : nat) : M KState unit :=
  acquire (L_buffer b);;
  sleeplockWait wakeups b;;
  lk ← getSleeplock b;
  putSleeplock b (set_SlLocked 1 lk);;
  p ← currentProcess;
  p ← checked "sleeplockAcquire: null process" p;
  x ← getProcess p;
  lk ← getSleeplock b;
  putSleeplock b (set_SlPid (ProcessId x) lk);;
  release (L_buffer b).

End Sleeplocks.

Definition sleeplockRelease (b : nat) : M KState unit :=
  acquire (L_buffer b);;
  lk ← getSleeplock b;
  putSleeplock b (set_SlLocked 0 lk);;
  lk ← getSleeplock b;
  putSleeplock b (set_SlPid 0 lk);;
  wakeup (Some (Ch_sleeplock b));;
  release (L_buffer b).

Definition isHoldingSleeplock (b : nat) : M KState Z :=
  acquire (L_buffer b);;
  lk ← getSleeplock b;
  let r := SlLocked lk in
  release (L_buffer b);;
  mret r.

(** * What the operations do *)

(** Process [p] runs and holds none of the locks [ls]. *)
Definition runs (p : nat) (ls : list LockId) (s : KState) : Prop :=
  thread (sync s) p /\ Forall (lockFree (sync s)) ls /\ is_Some (processTable s !! p).

Lemma runs_balanced n p ls s : n <= 2147483647 -> runs p ls s -> balanced n (sync s).
Proof. intros Hn [Ht _]. by eapply thread_balanced. Qed.

Lemma runs_free p ls l s : runs p ls s -> l ∈ ls -> lockFree (sync s) l.
Proof. intros (_ & Hf & _) Hl. rewrite Forall_forall in Hf. by apply Hf. Qed.

Lemma bind_getSleeplock {B} b x (k : Sleeplock -> M KState B) s :
  diskBufferCache s !! b = Some x -> (getSleeplock b ≫= k) s = k (Lock x) s.
Proof. intros Hb. unfold getSleeplock. rewrite bind_assoc, (bind_getBuffer b x) by done. done. Qed.

Lemma bind_putSleeplock {B} b x lk (k : unit -> M KState B) s :
  diskBufferCache s !! b = Some x ->
  (putSleeplock b lk ≫= k) s = k tt (set_diskBufferCache (<[b := set_Lock lk x]> (diskBufferCache s)) s).
Proof. intros Hb. unfold putSleeplock. rewrite bind_assoc, (bind_getBuffer b x) by done. done. Qed.

(** A wakeup inside a section. *)
Lemma wakeup_section l chan s y : sync s = acq l y -> balanced 2 y -> l <> L_processTable ->
  lockFree y L_processTable ->
  wakeup chan s = Ret tt (set_processTable (map (wake1 chan) (processTable s)) s).
Proof.
  intros Es Hb Hl Hf. rewrite wakeup_eq.
  - unfold settled. rewrite Es, settle_acq by (by apply (balanced_weaken 2)). by rewrite <- Es, set_sync_id.
  - rewrite Es. by apply (acq_balanced 1).
  - rewrite Es. by apply acq_lockFree.
Qed.

Definition lockedBy (pid : Z) (x : DiskBuffer) : DiskBuffer :=
  set_Lock (mkSleeplock 1 (SlName (Lock x)) pid) x.

Definition unlocked (x : DiskBuffer) : DiskBuffer := set_Lock (mkSleeplock 0 (SlName (Lock x)) 0) x.

Lemma isHoldingSleeplock_eq b x s : balanced 1 (sync s) -> lockFree (sync s) (L_buffer b) ->
  diskBufferCache s !! b = Some x -> isHoldingSleeplock b s = Ret (SlLocked (Lock x)) (settled s).
Proof.
  intros Hb Hl Hx. unfold isHoldingSleeplock. rewrite (bind_Ret _ _ _ _ _ (acquire_entered _ s Hb Hl)).
  rewrite (bind_getSleeplock b x) by done. cbv zeta. erewrite bind_Ret; [|by apply (release_settled _ s)]. done.
Qed.

(** An uncontended acquisition. *)
Lemma sleeplockAcquire_eq `{Scheduler} b x p proc s :
  thread (sync s) p -> lockFree (sync s) (L_buffer b) -> diskBufferCache s !! b = Some x ->
  processTable s !! p = Some proc -> SlLocked (Lock x) = 0 ->
  sleeplockAcquire b s =
    Ret tt (set_diskBufferCache (<[b := lockedBy (ProcessId proc) x]> (diskBufferCache s)) (settled s)).
Proof.
  intros Ht Hl Hx Hp Hu. pose proof (thread_balanced 1 _ _ ltac:(lia) Ht) as Hb. pose proof (lookup_lt_Some _ _ _ Hx) as Hlt.
  unfold sleeplockAcquire. rewrite (bind_Ret _ _ _ _ _ (acquire_entered _ s Hb Hl)).
  assert (Hw : forall n, sleeplockWait n b (entered (L_buffer b) s) = Ret tt (entered (L_buffer b) s)).
  { intros [|n]; cbn [sleeplockWait]; rewrite (bind_getSleeplock b x), Hu by done; done. }
  rewrite (bind_Ret _ _ _ _ _ (Hw _)), (bind_getSleeplock b x), (bind_putSleeplock b x) by done.
  set (s1 := set_diskBufferCache _ _).
  rewrite (bind_Ret _ _ _ _ _ (currentProcess_section (L_buffer b) s1 (sync s) p eq_refl Ht)), bind_checked.
  erewrite bind_Ret; [|apply getProcess_eq; exact Hp].
  erewrite bind_getSleeplock; [|slot_stored].
  erewrite bind_putSleeplock; [|slot_stored].
  rewrite (release_settled _ s) by done. unfold s1, settled, lockedBy. cbn. by rewrite list_insert_insert_eq.
Qed.

Lemma sleeplockRelease_eq b x s :
  balanced 2 (sync s) -> lockFree (sync s) (L_buffer b) -> lockFree (sync s) L_processTable ->
  diskBufferCache s !! b = Some x ->
  sleeplockRelease b s =
    Ret tt (set_processTable (map (wake1 (Some (Ch_sleeplock b))) (processTable s))
      (set_diskBufferCache (<[b := unlocked x]> (diskBufferCache s)) (settled s))).
Proof.
  intros Hb Hl Hpt Hx. assert (Hb1 : balanced 1 (sync s)) by (by apply (balanced_weaken 2)).
  pose proof (lookup_lt_Some _ _ _ Hx) as Hlt.
  unfold sleeplockRelease. rewrite (bind_Ret _ _ _ _ _ (acquire_entered _ s Hb1 Hl)).
  rewrite (bind_getSleeplock b x), (bind_putSleeplock b x) by done.
  erewrite bind_getSleeplock; [|slot_stored].
  erewrite bind_putSleeplock; [|slot_stored].
  erewrite bind_Ret; [|by apply (wakeup_section (L_buffer b) _ _ (sync s))].
  rewrite (release_settled _ s) by done. unfold settled, unlocked. cbn. by rewrite list_insert_insert_eq.
Qed.
