(* ===== verification/Ide.v ===== *)
(** ide.c, the disk driver, and the two registers of ioapic.c it uses.  The
    driver talks to the disk over I/O ports; every byte goes into the history
    [io] of the kernel's state, and the disk's answers come from the
    [Hardware] class. *)

From S2P Require Import Prelude Types Spinlock Kernel Sched Sleeplock.

Definition B_VALID : Z := 2.
Definition B_DIRTY : Z := 4.
Definition BSIZE : Z := 512.
Definition SECTOR_SIZE : Z := 512.

Definition IDE_BUSY : Z := 128.
Definition IDE_READY : Z := 64.
Definition IDE_DRIVEFAULT : Z := 32.
Definition IDE_ERROR : Z := 1.

Definition IDE_CMD_READ : Z := 32.
Definition IDE_CMD_WRITE : Z := 48.
Definition IDE_CMD_READMULTIPLE : Z := 196.
Definition IDE_CMD_WRITEMULTIPLE : Z := 197.

(** traps.h *)
Definition T_IRQ0 : Z := 32.
Definition IRQ_IDE : Z := 14.

(** * The I/O APIC (ioapic.c) *)

Definition IOAPIC : Z := 4273995776.
Definition REG_ID : Z := 0.
Definition REG_VER : Z := 1.
Definition REG_TABLE : Z := 16.
Definition INT_DISABLED : Z := 65536.

Section Driver.
Context `{Hardware} `{Scheduler}.

(** The structure has [Reg] at offset 0 and [Data] at offset 16. *)
Definition ioApicRead (reg : Z) : M KState Z := writeRegister IOAPIC reg;; readRegister (IOAPIC + 16).
Definition ioApicWrite (reg data : Z) : M KState unit := writeRegister IOAPIC reg;; writeRegister (IOAPIC + 16) data.

Fixpoint ioApicMaskAll (n : nat) (i : Z) : M KState unit :=
  match n with
  | O => mret tt
  | S n =>
      ioApicWrite (REG_TABLE + 2 * i) (Z.lor INT_DISABLED (T_IRQ0 + i));;
      ioApicWrite (REG_TABLE + 2 * i + 1) 0;;
      ioApicMaskAll n (i + 1)
  end.

(** [ioapicid] is what mp.c found. *)
Definition ioApicInitialise (ioapicid : Z) : M KState unit :=
  ver ← ioApicRead REG_VER;
  let maxintr := Z.land (Z.shiftr ver 16) 255 in
  id ← ioApicRead REG_ID;
  (if negb (Z.shiftr id 24 =? ioapicid) then message "ioApicInitialise: id isn't equal to ioapicid; not a MP" else mret tt);;
  ioApicMaskAll (Z.to_nat (maxintr + 1)) 0.

Definition ioApicEnable (irq cpunum : Z) : M KState unit :=
  ioApicWrite (REG_TABLE + 2 * irq) (T_IRQ0 + irq);;
  ioApicWrite (REG_TABLE + 2 * irq + 1) (Z.shiftl cpunum 24).

(** * The driver *)

Fixpoint ideWaitLoop (fuel : nat) : M KState Z :=
  match fuel with
  | O => spin
  | S fuel =>
      status ← inputByteFromPort 503;
      if Z.land status (Z.lor IDE_BUSY IDE_READY) =? IDE_READY then mret status else ideWaitLoop fuel
  end.

Definition ideWait (checkForError : bool) : M KState Z :=
  status ← ideWaitLoop polls;
  if checkForError && negb (Z.land status (Z.lor IDE_DRIVEFAULT IDE_ERROR) =? 0) then mret (-1) else mret 0.

Fixpoint ideProbe (n : nat) : M KState unit :=
  match n with
  | O => mret tt
  | S n =>
      status ← inputByteFromPort 503;
      if negb (status =? 0) then puts (set_havedisk1 1) else ideProbe n
  end.

Definition ideInitialise : M KState unit :=
  locked (spinlockInitialise L_ide "ide");;
  n ← gets (fun s => ncpu (sync s));
  ioApicEnable IRQ_IDE (n - 1);;
  ideWait false;;
  outputByteToPort 502 (Z.lor 224 (Z.shiftl 1 4));;
  ideProbe 1000;;
  outputByteToPort 502 (Z.lor 224 (Z.shiftl 0 4)).

(** [sector_per_block] is 1, so the commands are those for single sectors. *)
Definition ideStartRequest (b : option nat) : M KState unit :=
  match b with
  | None => panic "ideStartRequest"
  | Some b =>
      x ← getBuffer b;
      let sector_per_block := BSIZE / SECTOR_SIZE in
      let sector := i32 (SectorNumber x * sector_per_block) in
      let readCmd := if sector_per_block =? 1 then IDE_CMD_READ else IDE_CMD_READMULTIPLE in
      let writeCmd := if sector_per_block =? 1 then IDE_CMD_WRITE else IDE_CMD_WRITEMULTIPLE in
      if sector_per_block >? 7 then panic "ideStartRequest"
      else
        ideWait false;;
        outputByteToPort 1014 0;;
        outputByteToPort 498 sector_per_block;;
        outputByteToPort 499 (Z.land sector 255);;
        outputByteToPort 500 (Z.land (Z.shiftr sector 8) 255);;
        outputByteToPort 501 (Z.land (Z.shiftr sector 16) 255);;
        outputByteToPort 502 (Z.lor (Z.lor 224 (Z.shiftl (Z.land (Device x) 1) 4)) (Z.land (Z.shiftr sector 24) 15));;
        if negb (Z.land (Flags x) B_DIRTY =? 0) then
          outputByteToPort 503 writeCmd;;
          outputSequenceToPort 496 (BufData x)
        else outputByteToPort 503 readCmd
  end.

(** If the disk reports an error the data of the buffer stays as it is, and the
    buffer is marked valid all the same. *)
Definition ideInterruptHandler : M KState unit :=
  acquire L_ide;;
  q ← gets idequeue;
  match q with
  | None => release L_ide
  | Some b =>
      x ← getBuffer b;
      puts (set_idequeue (QueueNext x));;
      (if Z.land (Flags x) B_DIRTY =? 0 then
         r ← ideWait true;
         if r >=? 0 then data ← inputSequenceFromPort 496 (BSIZE / 4); x ← getBuffer b; putBuffer b (set_BufData data x)
         else mret tt
       else mret tt);;
      x ← getBuffer b;
      putBuffer b (set_Flags (Z.lor (Flags x) B_VALID) x);;
      x ← getBuffer b;
      putBuffer b (set_Flags (Z.land (Flags x) (Z.lnot B_DIRTY)) x);;
      wakeup (Some (Ch_buffer b));;
      q ← gets idequeue;
      match q with
      | Some c => ideStartRequest (Some c)
      | None => mret tt
      end;;
      release L_ide
  end.

(** The end of the queue: [pp] is [None] for [&idequeue] and [Some i] for the
    [QueueNext] of buffer [i]. *)
Fixpoint queueEnd (fuel : nat) (l : list DiskBuffer) (first : option nat) (pp : option nat) : option (option nat) :=
  let here := match pp with None => Some first | Some i => x ← l !! i; Some (QueueNext x) end in
  match here with
  | None => None
  | Some None => Some pp
  | Some (Some i) => match fuel with O => None | S fuel => queueEnd fuel l first (Some i) end
  end.

Fixpoint ideWaitDone (fuel : nat) (b : nat) : M KState unit :=
  x ← getBuffer b;
  if Z.land (Flags x) (Z.lor B_VALID B_DIRTY) =? B_VALID then mret tt
  else match fuel with
  | O => spin
  | S fuel => sleep (Ch_buffer b) (Some L_ide);; ideWaitDone fuel b
  end.

Definition ideReadWrite (b : nat) : M KState unit :=
  h ← isHoldingSleeplock b;
  if h =? 0 then panic "ideReadWrite: DiskBuffer not locked"
  else
    x ← getBuffer b;
    if Z.land (Flags x) (Z.lor B_VALID B_DIRTY) =? B_VALID then panic "ideReadWrite: nothing to do"
    else
      have1 ← gets havedisk1;
      if negb (Device x =? 0) && (have1 =? 0) then panic "ideReadWrite: ide disk 1 not present"
      else
        acquire L_ide;;
        x ← getBuffer b;
        putBuffer b (set_QueueNext None x);;
        l ← gets diskBufferCache;
        q ← gets idequeue;
        pp ← checked "ideReadWrite: queue" (queueEnd (length l) l q None);
        match pp with
        | None => puts (set_idequeue (Some b))
        | Some i => x ← getBuffer i; putBuffer i (set_QueueNext (Some b) x)
        end;;
        q ← gets idequeue;
        (if bool_decide (q = Some b) then ideStartRequest (Some b) else mret tt);;
        ideWaitDone wakeups b;;
        release L_ide.

End Driver.

(** * The disk *)

Section Disk.
Context `{Hardware}.

(** Polling the status: the last status and the history with all that were
    read. *)
Fixpoint polled (fuel : nat) (h : list IoEvent) : option (Z * list IoEvent) :=
  match fuel with
  | O => None
  | S fuel =>
      let status := u8 (portByte h 503) in
      let h := InByte 503 status :: h in
      if Z.land status (Z.lor IDE_BUSY IDE_READY) =? IDE_READY then Some (status, h) else polled fuel h
  end.

(** The bytes that ask for sector [n] of disk 0, the latest first. *)
Definition readCommand (n : Z) (h : list IoEvent) : list IoEvent :=
  OutByte 503 IDE_CMD_READ :: OutByte 502 (224 + n / 16777216) :: OutByte 501 (n / 65536 mod 256) ::
  OutByte 500 (n / 256 mod 256) :: OutByte 499 (n mod 256) :: OutByte 498 1 :: OutByte 1014 0 :: h.

Lemma ideWaitLoop_eq fuel : forall s,
  ideWaitLoop fuel s = match polled fuel (io s) with
                       | Some (status, h) => Ret status (set_io h s)
                       | None => Spin
                       end.
Proof.
  induction fuel as [|fuel IH]; intros s; [done|]. cbn [ideWaitLoop polled]. unfold inputByteFromPort.
  rewrite bind_assoc, bind_gets. cbv zeta. rewrite bind_assoc, bind_puts, bind_mret.
  case_match; [done|]. by rewrite IH.
Qed.

End Disk.

(** A disk without errors that holds [disk]: it becomes ready, and after a read
    command it delivers the sector. *)
Class DiskLaws `{Hardware} (disk : Z -> list Z) : Prop := {
  disk_sector n : length (disk n) = 512%nat;
  disk_ready h : exists status h', polled polls h = Some (status, h') /\
    Z.land status (Z.lor IDE_DRIVEFAULT IDE_ERROR) = 0;
  disk_read n h status h' :
    0 <= n < 268435456 -> polled polls (readCommand n h) = Some (status, h') ->
    portSequence h' 496 128 = disk n
}.

Section DiskProofs.
Context `{Hardware} (disk : Z -> list Z) `{!DiskLaws disk}.

Lemma ideWait_eq chk s : exists status h', polled polls (io s) = Some (status, h') /\ ideWait chk s = Ret 0 (set_io h' s).
Proof.
  destruct (disk_ready (disk := disk) (io s)) as (status & h' & Hp & He). exists status, h'. split; [done|].
  unfold ideWait. erewrite bind_Ret; [|rewrite ideWaitLoop_eq, Hp; reflexivity]. rewrite He. by rewrite andb_false_r.
Qed.

Lemma land_255 z : Z.land z 255 = z mod 256.
Proof. change 255 with (Z.ones 8). by apply Z.land_ones. Qed.

Lemma sector_bytes n : 0 <= n < 268435456 ->
  u8 (Z.land n 255) = n mod 256 /\ u8 (Z.land (Z.shiftr n 8) 255) = n / 256 mod 256 /\
  u8 (Z.land (Z.shiftr n 16) 255) = n / 65536 mod 256 /\
  u8 (Z.lor (Z.lor 224 (Z.shiftl (Z.land 0 1) 4)) (Z.land (Z.shiftr n 24) 15)) = 224 + n / 16777216.
Proof.
  intros Hn. rewrite !land_255, !Z.shiftr_div_pow2 by lia.
  change (2 ^ 8) with 256. change (2 ^ 16) with 65536. change (2 ^ 24) with 16777216.
  rewrite !u8_small by zdiv. split_and!; try done.
  change (Z.lor 224 (Z.shiftl (Z.land 0 1) 4)) with 224.
  assert (Hk : 0 <= n / 16777216 < 16) by zdiv.
  replace (Z.land (n / 16777216) 15) with (n / 16777216) by (change 15 with (Z.ones 4); rewrite Z.land_ones by lia; zdiv).
  generalize dependent (n / 16777216). intros k Hk.
  assert (Hc : k = 0 \/ k = 1 \/ k = 2 \/ k = 3 \/ k = 4 \/ k = 5 \/ k = 6 \/ k = 7 \/ k = 8 \/ k = 9 \/ k = 10 \/
    k = 11 \/ k = 12 \/ k = 13 \/ k = 14 \/ k = 15) by lia.
  repeat (destruct Hc as [->|Hc]; [reflexivity|]). by subst.
Qed.

(** Starting a read. *)
Lemma ideStartRequest_read b x s :
  diskBufferCache s !! b = Some x -> Device x = 0 -> Z.land (Flags x) B_DIRTY = 0 -> 0 <= SectorNumber x < 268435456 ->
  exists h, ideStartRequest (Some b) s = Ret tt (set_io (readCommand (SectorNumber x) h) s).
Proof.
  intros Hb Hd Hf Hs. unfold ideStartRequest. rewrite (bind_getBuffer b x) by done.
  change (BSIZE / SECTOR_SIZE) with 1. cbv zeta. rewrite Z.mul_1_r, i32_small by lia.
  change (1 >? 7) with false. change (1 =? 1) with true. cbv iota.
  destruct (ideWait_eq false s) as (status & h & _ & Hw). exists h. rewrite (bind_Ret _ _ _ _ _ Hw).
  unfold outputByteToPort. rewrite !bind_puts. rewrite Hf. cbn [Z.eqb negb]. unfold puts.
  destruct (sector_bytes (SectorNumber x) Hs) as (E1 & E2 & E3 & E4). rewrite Hd, E1, E2, E3, E4. reflexivity.
Qed.

(** The interrupt at the end of a read. *)
Lemma ideInterrupt_read b x y h s :
  sync s = y -> balanced 2 y -> lockFree y L_ide -> lockFree y L_processTable ->
  idequeue s = Some b -> diskBufferCache s !! b = Some x -> QueueNext x = None ->
  Flags x = 0 -> 0 <= SectorNumber x < 268435456 -> io s = readCommand (SectorNumber x) h ->
  exists h', ideInterruptHandler s =
    Ret tt (set_sync (settle y) (set_processTable (map (wake1 (Some (Ch_buffer b))) (processTable s))
      (set_diskBufferCache (<[b := set_Flags B_VALID (set_BufData (disk (SectorNumber x)) x)]> (diskBufferCache s))
        (set_idequeue None (set_io h' s))))).
Proof.
  intros Es Hb Hl Hpt Hq Hx Hn Hf Hs Hio. pose proof (lookup_lt_Some _ _ _ Hx) as Hlt.
  assert (Hb1 : balanced 1 y) by (by apply (balanced_weaken 2)). subst y.
  unfold ideInterruptHandler. rewrite (bind_Ret _ _ _ _ _ (acquire_entered _ s Hb1 Hl)), bind_gets.
  change (idequeue (entered L_ide s)) with (idequeue s). rewrite Hq. cbv iota.
  rewrite (bind_getBuffer b x) by done. rewrite bind_puts, Hn, Hf.
  change (Z.land 0 B_DIRTY =? 0) with true. cbv iota.
  set (s1 := set_idequeue None (entered L_ide s)).
  destruct (ideWait_eq true s1) as (status & h' & Hp & Hw). change (io s1) with (io s) in Hp. rewrite Hio in Hp.
  rewrite bind_assoc, (bind_Ret _ _ _ _ _ Hw). change (0 >=? 0) with true. cbv iota.
  rewrite bind_assoc. unfold inputSequenceFromPort at 1. rewrite bind_assoc, bind_gets. cbv zeta.
  rewrite bind_assoc, bind_puts, bind_mret. cbn [io set_io]. change (BSIZE / 4) with 128.
  rewrite (disk_read _ _ _ _ Hs Hp). rewrite take_app_length' by (rewrite disk_sector; reflexivity).
  rewrite bind_assoc, (bind_getBuffer b x), bind_putBuffer by done.
  erewrite bind_getBuffer; [|slot_stored]. rewrite bind_putBuffer.
  erewrite bind_getBuffer; [|slot_stored]. rewrite bind_putBuffer.
  erewrite bind_Ret; [|by apply (wakeup_section L_ide _ _ (sync s))].
  rewrite bind_gets. cbn [idequeue set_processTable set_diskBufferCache set_io]. cbv iota. unfold s1 at 1. cbn [idequeue set_idequeue]. cbv iota.
  rewrite bind_mret. rewrite (release_settled _ s) by done.
  eexists. unfold s1, settled. cbn. rewrite !list_insert_insert_eq. cbn [Flags set_Flags set_BufData]. rewrite Hf. reflexivity.
Qed.

End DiskProofs.
