(* ===== verification/Apic.v ===== *)
(** lapic.c and picirq.c: the local interrupt controller of a processor, whose
    registers are words of memory at [localApic], the two old interrupt
    controllers, which are switched off, and the clock in the CMOS.  Every
    access goes into the history [io]; what is read comes from [Hardware]. *)

From S2P Require Import Prelude CString Types Spinlock Kernel Ide.

(** * The local APIC (lapic.c) *)

(** The registers, as indices of words. *)
Definition APIC_ID : Z := 8.
Definition VER : Z := 12.
Definition TPR : Z := 32.
Definition EOI : Z := 44.
Definition SVR : Z := 60.
Definition ENABLE : Z := 256.
Definition ESR : Z := 160.
Definition ICRLO : Z := 192.
Definition INIT : Z := 1280.
Definition STARTUP : Z := 1536.
Definition DELIVS : Z := 4096.
Definition ASSERT : Z := 16384.
Definition LEVEL : Z := 32768.
Definition BCAST : Z := 524288.
Definition ICRHI : Z := 196.
Definition TIMER : Z := 200.
Definition X1 : Z := 11.
Definition PERIODIC : Z := 131072.
Definition PCINT : Z := 208.
Definition LINT0 : Z := 212.
Definition LINT1 : Z := 216.
Definition ERROR : Z := 220.
Definition MASKED : Z := 65536.
Definition TICR : Z := 224.
Definition TDCR : Z := 248.

(** traps.h *)
Definition IRQ_TIMER : Z := 0.
Definition IRQ_KBD : Z := 1.
Definition IRQ_COM1 : Z := 4.
Definition IRQ_ERROR : Z := 19.
Definition IRQ_SPURIOUS : Z := 31.

Section Apic.
Context `{Hardware}.

(** [localApic[index]] *)
Definition localApicRead (index : Z) : M KState Z := a ← gets localApic; readRegister (padd a (4 * index)).

(** A write is followed by a read that waits for it to finish. *)
Definition localApicWrite (index value : Z) : M KState unit :=
  a ← gets localApic;
  writeRegister (padd a (4 * index)) value;;
  localApicRead APIC_ID;;
  mret tt.

(** Until the interrupt is delivered. *)
Fixpoint waitDelivered (fuel : nat) : M KState unit :=
  v ← localApicRead ICRLO;
  if Z.land v DELIVS =? 0 then mret tt
  else match fuel with
  | O => spin
  | S fuel => waitDelivered fuel
  end.

Definition localApicInitialise : M KState unit :=
  a ← gets localApic;
  if a =? 0 then mret tt
  else
    localApicWrite SVR (Z.lor ENABLE (T_IRQ0 + IRQ_SPURIOUS));;
    localApicWrite TDCR X1;;
    localApicWrite TIMER (Z.lor PERIODIC (T_IRQ0 + IRQ_TIMER));;
    localApicWrite TICR 10000000;;
    localApicWrite LINT0 MASKED;;
    localApicWrite LINT1 MASKED;;
    v ← localApicRead VER;
    (if 4 <=? Z.land (Z.shiftr v 16) 255 then localApicWrite PCINT MASKED else mret tt);;
    localApicWrite ERROR (T_IRQ0 + IRQ_ERROR);;
    localApicWrite ESR 0;;
    localApicWrite ESR 0;;
    localApicWrite EOI 0;;
    localApicWrite ICRHI 0;;
    localApicWrite ICRLO (Z.lor (Z.lor BCAST INIT) LEVEL);;
    waitDelivered polls;;
    localApicWrite TPR 0.

Definition localApicId : M KState Z :=
  a ← gets localApic;
  if a =? 0 then mret 0
  else v ← localApicRead APIC_ID; mret (Z.shiftr v 24).

Definition localApicEndOfInterrupt : M KState unit :=
  a ← gets localApic;
  if negb (a =? 0) then localApicWrite EOI 0 else mret tt.

(** A 16-bit store. *)
Definition storeHalf (a v : Z) : M KState unit :=
  puts (fun s => set_kmem (upd (upd (kmem s) a (v mod 256)) (padd a 1) (v / 256 mod 256)) s).

Definition CMOS_PORT : Z := 112.
Definition CMOS_RETURN : Z := 113.

(** The start-up interrupt, sent [n] times. *)
Fixpoint sendStartup (n : nat) (apicid addr : Z) : M KState unit :=
  match n with
  | O => mret tt
  | S n =>
      localApicWrite ICRHI (i32 (Z.shiftl apicid 24));;
      localApicWrite ICRLO (Z.lor STARTUP (Z.shiftr addr 12));;
      sendStartup n apicid addr
  end.

(** The warm reset vector is at P2V(0x467). *)
Definition localApicStartup (apicid addr : Z) : M KState unit :=
  outputByteToPort CMOS_PORT 15;;
  outputByteToPort (CMOS_PORT + 1) 10;;
  storeHalf 2147484775 0;;
  storeHalf 2147484777 (Z.shiftr addr 4);;
  localApicWrite ICRHI (i32 (Z.shiftl apicid 24));;
  localApicWrite ICRLO (Z.lor (Z.lor INIT LEVEL) ASSERT);;
  localApicWrite ICRLO (Z.lor INIT LEVEL);;
  sendStartup 2 apicid addr.

(** * The clock *)

Definition CMOS_STATA : Z := 10.
Definition CMOS_STATB : Z := 11.
Definition CMOS_UIP : Z := 128.

Definition SECS : Z := 0.
Definition MINS : Z := 2.
Definition HOURS : Z := 4.
Definition DAY : Z := 7.
Definition MONTH : Z := 8.
Definition YEAR : Z := 9.

Record RtcDate : Type := mkRtcDate { second : Z; minute : Z; hour : Z; day : Z; month : Z; year : Z }.

#[export] Instance RtcDate_eq_dec : EqDecision RtcDate.
Proof. solve_decision. Defined.

Definition cmosRead (reg : Z) : M KState Z := outputByteToPort CMOS_PORT reg;; inputByteFromPort CMOS_RETURN.

Definition cmosGetRealTimeClock : M KState RtcDate :=
  s ← cmosRead SECS; mi ← cmosRead MINS; h ← cmosRead HOURS;
  d ← cmosRead DAY; mo ← cmosRead MONTH; y ← cmosRead YEAR;
  mret (mkRtcDate s mi h d mo y).

(** Two equal readings with no update in progress between them. *)
Fixpoint stableTime (fuel : nat) : M KState RtcDate :=
  match fuel with
  | O => spin
  | S fuel =>
      t1 ← cmosGetRealTimeClock;
      a ← cmosRead CMOS_STATA;
      if negb (Z.land a CMOS_UIP =? 0) then stableTime fuel
      else
        t2 ← cmosGetRealTimeClock;
        if bool_decide (t1 = t2) then mret t1 else stableTime fuel
  end.

Definition CONV (x : Z) : Z := Z.shiftr x 4 * 10 + Z.land x 15.

Definition cmosTime : M KState RtcDate :=
  sb ← cmosRead CMOS_STATB;
  let bcd := Z.land sb 4 =? 0 in
  t ← stableTime polls;
  let t := if bcd then mkRtcDate (CONV (second t)) (CONV (minute t)) (CONV (hour t)) (CONV (day t)) (CONV (month t)) (CONV (year t)) else t in
  mret (mkRtcDate (second t) (minute t) (hour t) (day t) (month t) (year t + 2000)).

(** * The old controllers (picirq.c) *)

Definition IO_PIC1 : Z := 32.
Definition IO_PIC2 : Z := 160.

Definition picSendCommand (cmd picNum : Z) : M KState unit :=
  if 1 <? picNum then mret tt else outputByteToPort (if picNum =? 1 then 160 else 32) cmd.

Definition picSendData (data picNum : Z) : M KState unit :=
  if 1 <? picNum then mret tt else outputByteToPort (if picNum =? 1 then 161 else 33) data.

Definition I86_PIC_ReadData (picNum : Z) : M KState Z :=
  if 1 <? picNum then mret 0 else inputByteFromPort (if picNum =? 1 then 161 else 33).

Definition I86_PIC_Initialise (base0 base1 : Z) : M KState unit :=
  let icw := 0 in
  let icw := Z.lor (Z.land icw (Z.lnot 16)) 16 in
  let icw := Z.lor (Z.land icw (Z.lnot 1)) 1 in
  picSendCommand icw 0;;
  picSendCommand icw 1;;
  picSendData base0 0;;
  picSendData base1 1;;
  picSendData 4 0;;
  picSendData 2 1;;
  let icw := Z.lor (Z.land icw (Z.lnot 1)) 1 in
  picSendData icw 0;;
  picSendData icw 1.

Definition picInitialise : M KState unit :=
  I86_PIC_Initialise 96 104;;
  outputByteToPort (IO_PIC1 + 1) 255;;
  outputByteToPort (IO_PIC2 + 1) 255.

End Apic.
