(* ===== verification/Disk.v ===== *)
(** A disk read from end to end: the process that reads starts the request and
    goes to sleep, the scheduler finds nothing else to run, the disk interrupts,
    the handler stores the sector and wakes the process up, and the scheduler
    gives the processor back. *)

From S2P Require Import Prelude Types Spinlock Kernel Kalloc Sched Idle Sleeplock Ide.

(** The scheduler while process [p] of processor [c] waits for the disk. *)
Definition diskScheduler `{Hardware} (c p : nat) : Scheduler :=
  {| resume := fun s =>
       match schedulerRound ideInterruptHandler c p s with
       | Ret (Some q) s' => if decide (q = p) then Some s' else None
       | _ => None
       end;
     wakeups := 1 |}.

(** * The process table of a single active process *)

(** A process that neither runs nor waits for the disk. *)
Definition quiet_proc (z : Process) : Prop :=
  State z <> RUNNABLE /\
  (State z = SLEEPING -> forall b, Chan z <> Some (Ch_buffer b) /\ Chan z <> Some (Ch_sleeplock b)).

Definition table_at (p : nat) (x : Process) (t : list Process) : Prop :=
  length t = Z.to_nat NPROC /\ t !! p = Some x /\ KernelStack x <> 0 /\ PageTable x <> 0 /\
  forall q z, q <> p -> t !! q = Some z -> quiet_proc z.

Lemma table_at_alter p x t f : table_at p x t ->
  KernelStack (f x) = KernelStack x -> PageTable (f x) = PageTable x -> table_at p (f x) (alter f p t).
Proof.
  intros (Hl & Hp & Hk & Ht & Hq) Ek Et. split_and!.
  - by rewrite length_alter.
  - by rewrite list_lookup_alter_eq, Hp.
  - by rewrite Ek.
  - by rewrite Et.
  - intros q z Hne Hz. rewrite list_lookup_alter_ne in Hz by done. by apply (Hq q).
Qed.

Lemma table_at_wake p x t b : table_at p x t ->
  table_at p (wake1 (Some (Ch_buffer b)) x) (map (wake1 (Some (Ch_buffer b))) t) /\
  table_at p (wake1 (Some (Ch_sleeplock b)) x) (map (wake1 (Some (Ch_sleeplock b))) t).
Proof.
  intros (Hl & Hp & Hk & Ht & Hq).
  assert (Hgen : forall ch, (ch = Ch_buffer b \/ ch = Ch_sleeplock b) ->
    table_at p (wake1 (Some ch) x) (map (wake1 (Some ch)) t)).
  { intros ch Hch. change (map ?f ?l) with (f <$> l). split_and!.
    - by rewrite length_fmap.
    - by rewrite list_lookup_fmap, Hp.
    - unfold wake1. by case_match.
    - unfold wake1. by case_match.
    - intros q z Hne Hz. rewrite list_lookup_fmap in Hz. destruct (t !! q) as [z'|] eqn:Ez; [|done]. cbn in Hz.
      pose proof (Hq q z' Hne Ez) as Hqz. injection Hz as <-. unfold wake1.
      destruct (bool_decide_reflect (State z' = SLEEPING)) as [Es|]; [|done].
      destruct (bool_decide_reflect (Chan z' = Some ch)) as [Ec|]; [|done].
      destruct Hqz as [_ Hqz]. destruct (Hqz Es b) as [H1 H2]. destruct Hch as [->| ->]; done. }
  split; apply Hgen; [by left|by right].
Qed.

Lemma table_at_insert p x x' t : table_at p x t -> KernelStack x' = KernelStack x -> PageTable x' = PageTable x ->
  table_at p x' (<[p := x']> t).
Proof.
  intros Ht Ek Et. pose proof (table_at_alter p x t (fun _ => x') Ht Ek Et) as Ha.
  by rewrite (alter_at _ _ _ x) in Ha by apply Ht.
Qed.

(** * Reading a sector *)

Section DiskRead.
Context `{Hardware} (disk : Z -> list Z) `{!DiskLaws disk} (c p : nat).

(** One round of the scheduler, with the disk's interrupt. *)
Lemma diskScheduler_resume y s b x proc h :
  sync s = acq L_processTable y -> runsOn c p y ->
  lockFree y L_ide -> lockFree y L_processTable -> table_at p proc (processTable s) ->
  State proc = SLEEPING -> Chan proc = Some (Ch_buffer b) ->
  idequeue s = Some b -> diskBufferCache s !! b = Some x -> QueueNext x = None ->
  Flags x = 0 -> 0 <= SectorNumber x < 268435456 -> io s = readCommand (SectorNumber x) h ->
  exists y' t h' a e,
    @resume (diskScheduler c p) s =
      Some (set_sync (acq L_processTable y') (set_processTable t
        (set_diskBufferCache (<[b := set_Flags B_VALID (set_BufData (disk (SectorNumber x)) x)]> (diskBufferCache s))
          (set_idequeue None (set_io h' (set_cr3 a (set_esp0 e s))))))) /\
    runsOn c p y' /\ locks y' = locks y /\ table_at p (set_State RUNNING (set_State RUNNABLE proc)) t.
Proof.
  intros Es Hr Hl Hpt Ht Hst Hch Hq Hx Hn Hf Hs Hio.
  set (s2 := atInterrupt c y s). set (yi := sync s2).
  assert (Hii : idle c yi) by (apply idle_set_iflag, idle_settle, giveCpu_idle; by eapply runsOn_idle).
  assert (Hfree : forall l, lockFree y l -> lockFree yi l).
  { intros l [nm Hnm]. exists nm. unfold yi, s2, atInterrupt. cbn. by rewrite settle_locks. }
  destruct (ideInterrupt_read disk b x yi h s2) as (h' & Hint); try done; try (by apply Hfree).
  { by eapply idle_balanced; [lia|]. }
  destruct (table_at_wake p proc (processTable s) b Ht) as [Hw _].
  assert (Hpw : wake1 (Some (Ch_buffer b)) proc = set_State RUNNABLE proc).
  { unfold wake1. by rewrite !bool_decide_eq_true_2. }
  rewrite Hpw in Hw. destruct Hw as (Hwl & Hwp & Hwk & Hwt & Hwq).
  assert (Hplt : (p < Z.to_nat NPROC)%nat) by (rewrite <- Hwl; by eapply lookup_lt_Some).
  destruct (schedulerRound_spec ideInterruptHandler c p y s _ (set_State RUNNABLE proc) Es (runsOn_idle _ _ _ Hr) Hpt
    (proj1 Ht) Hplt ltac:(intros q z Hqp Hz; destruct Ht as (_ & _ & _ & _ & Ht); apply (Ht q z ltac:(lia) Hz))
    Hint eq_refl Hwp eq_refl Hwk Hwt) as (y' & Ht' & Hl' & Hround).
  { intros q z Hqp Hz. apply (Hwq q z); [lia|done]. }
  cbn [resume diskScheduler]. rewrite Hround, decide_True by done.
  exists y', (<[p := set_State RUNNING (set_State RUNNABLE proc)]> (map (wake1 (Some (Ch_buffer b))) (processTable s))), h'.
  do 2 eexists. split_and!.
  - reflexivity.
  - done.
  - done.
  - split_and!; [by rewrite length_insert|apply list_lookup_insert_eq; by rewrite Hwl|done|done|].
    intros q z Hne Hz. rewrite list_lookup_insert_ne in Hz by done. by apply (Hwq q).
Qed.

(** What a disk operation leaves of the state: the buffers are [bufs]; process
    [p] runs as before; the rest of the kernel is untouched. *)
Definition after_disk (s : KState) (bufs : list DiskBuffer) (s' : KState) : Prop :=
  exists y t h a e,
    s' = set_sync y (set_processTable t (set_diskBufferCache bufs (set_io h (set_cr3 a (set_esp0 e s))))) /\
    runsOn c p y /\ locks y = locks (sync s) /\ exists proc, table_at p proc t /\ State proc = RUNNING.

Lemma ideReadWrite_read b x proc s :
  runsOn c p (sync s) -> lockFree (sync s) L_ide -> lockFree (sync s) L_processTable -> lockFree (sync s) (L_buffer b) ->
  table_at p proc (processTable s) -> idequeue s = None ->
  diskBufferCache s !! b = Some x -> SlLocked (Lock x) <> 0 ->
  Flags x = 0 -> Device x = 0 -> 0 <= SectorNumber x < 268435456 ->
  exists s', @ideReadWrite _ (diskScheduler c p) b s = Ret tt s' /\
    after_disk s (<[b := set_Flags B_VALID (set_BufData (disk (SectorNumber x)) (set_QueueNext None x))]> (diskBufferCache s)) s'.
Proof.
  intros Hr Hl Hpt Hlb Ht Hq Hx Hlk Hf Hd Hs. pose proof (lookup_lt_Some _ _ _ Hx) as Hlt.
  pose proof (thread_balanced 2 _ _ ltac:(lia) (runsOn_thread _ _ _ Hr)) as Hb2.
  assert (Hb : balanced 1 (sync s)) by (by apply (balanced_weaken 2)).
  unfold ideReadWrite. rewrite (bind_Ret _ _ _ _ _ (isHoldingSleeplock_eq b x s Hb Hlb Hx)).
  rewrite (proj2 (Z.eqb_neq _ 0) Hlk). rewrite (bind_getBuffer b x), Hf by done.
  change (Z.land 0 (Z.lor B_VALID B_DIRTY) =? B_VALID) with false. cbv iota. rewrite bind_gets, Hd. cbn [negb andb Z.eqb].
  set (y0 := settle (sync s)). assert (Hr0 : runsOn c p y0) by (by apply runsOn_settle).
  pose proof (runsOn_thread _ _ _ Hr0) as Ht0. pose proof (thread_balanced 2 _ _ ltac:(lia) Ht0) as Hb0.
  assert (Hl0 : lockFree y0 L_ide) by (by apply settle_lockFree). assert (Hpt0 : lockFree y0 L_processTable) by (by apply settle_lockFree).
  erewrite bind_Ret; [|apply acquire_entered; [by apply (balanced_weaken 2)|done]].
  rewrite (bind_getBuffer b x), bind_putBuffer, !bind_gets by done. cbn [idequeue set_diskBufferCache entered set_sync settled]. rewrite Hq.
  set (x1 := set_QueueNext None x). set (bufs1 := <[b := x1]> (diskBufferCache s)).
  assert (Hqe : forall n l, queueEnd n l None None = Some None) by (intros [|n] l; done). rewrite Hqe, bind_checked. cbv iota.
  rewrite bind_puts, bind_gets. cbn [idequeue set_idequeue]. rewrite bool_decide_eq_true_2 by done.
  set (s1 := set_idequeue (Some b) _).
  assert (Hx1 : diskBufferCache s1 !! b = Some x1) by slot_stored.
  destruct (ideStartRequest_read disk b x1 s1 Hx1) as (h & Hreq); try done; [by cbn; rewrite Hf|].
  rewrite (bind_Ret _ _ _ _ _ Hreq). set (s2 := set_io _ s1).
  assert (Es2 : sync s2 = acq L_ide y0) by done.
  assert (Hw : exists s5, @sleep (diskScheduler c p) (Ch_buffer b) (Some L_ide) s2 = Ret tt s5 /\ exists y' t h' a e,
    s5 = set_sync (acq L_ide (set_iflag (iflag y0) y')) (set_processTable t
      (set_diskBufferCache (<[b := set_Flags B_VALID (set_BufData (disk (SectorNumber x)) x1)]> (diskBufferCache s))
        (set_io h' (set_cr3 a (set_esp0 e s))))) /\
    runsOn c p y' /\ locks y' = locks y0 /\ exists proc', table_at p proc' t /\ State proc' = RUNNING).
  { pose proof (@sleep_spec (diskScheduler c p) (Ch_buffer b) L_ide p y0 s2 Es2 Ht0 ltac:(done) Hl0 Hpt0) as Hsl.
    set (s3 := asleep p (Ch_buffer b) y0 s2) in *.
    pose proof (table_at_alter p proc (processTable s) (fun z => set_State SLEEPING (set_Chan (Some (Ch_buffer b)) z)) Ht eq_refl eq_refl) as Ht3.
    destruct (diskScheduler_resume y0 s3 b x1 (set_State SLEEPING (set_Chan (Some (Ch_buffer b)) proc)) h) as (y' & t & h' & a & e & Hres & Hr' & Hlk' & Ht');
      try done.
    rewrite Hres in Hsl. eexists. split.
    - apply (Hsl ltac:(destruct Ht as (_ & Hpp & _); by exists proc) y').
      split_and!; try done; [by eapply runsOn_thread| | |].
      + destruct Hpt0 as [nm E]. exists nm. by rewrite Hlk'.
      + destruct Hl0 as [nm E]. exists nm. by rewrite Hlk'.
      + destruct Ht' as (_ & E & _). by eexists.
    - exists y', (alter (set_Chan None) p t), h', a, e. split_and!; try done.
      + unfold awake, s3, asleep, s2, s1, entered, settled. cbn. rewrite list_insert_insert_eq. rewrite <- Hq. by destruct s.
      + eexists. split; [apply table_at_alter; [exact Ht'|done|done]|done]. }
  destruct Hw as (s5 & Hsleep & y' & t & h' & a & e & Es5 & Hr' & Hlk' & proc' & Ht' & Hrun').
  cbn [wakeups diskScheduler ideWaitDone].
  erewrite bind_Ret.
  2: { rewrite (bind_getBuffer b x1) by exact Hx1. cbn [Flags set_QueueNext x1]. rewrite Hf.
       change (Z.land 0 (Z.lor B_VALID B_DIRTY) =? B_VALID) with false. cbv iota. rewrite (bind_Ret _ _ _ _ _ Hsleep).
       erewrite bind_getBuffer; [|rewrite Es5; slot_stored]. cbn [Flags set_Flags]. change (Z.land B_VALID (Z.lor B_VALID B_DIRTY) =? B_VALID) with true.
       reflexivity. }
  set (y2 := set_iflag (iflag y0) y'). assert (Hr2 : runsOn c p y2) by (by apply runsOn_set_iflag).
  erewrite (release_settled _ (set_sync y2 s5)).
  2: { eapply thread_balanced; [|by eapply runsOn_thread]. lia. }
  2: { destruct Hl0 as [nm E]. exists nm. cbn. by rewrite Hlk'. }
  2: { rewrite Es5. done. }
  eexists. split; [reflexivity|]. exists (settle y2), t, h', a, e. rewrite Es5. split_and!.
  - cbn. done.
  - by apply runsOn_settle.
  - rewrite settle_locks. cbn. rewrite Hlk'. unfold y0. by rewrite settle_locks.
  - eauto.
Qed.

End DiskRead.

(** * The request queue *)

(** The buffers linked from [first] through [QueueNext]. *)
Fixpoint queueIs (l : list DiskBuffer) (first : option nat) (q : list nat) : Prop :=
  match q with
  | [] => first = None
  | b :: q => first = Some b /\ exists x, l !! b = Some x /\ queueIs l (QueueNext x) q
  end.

Lemma queueEnd_at l first q : forall fuel pp,
  match pp with None => queueIs l first q | Some i => exists x, l !! i = Some x /\ queueIs l (QueueNext x) q end ->
  (length q <= fuel)%nat ->
  queueEnd fuel l first pp = Some (match List.last (Some <$> q) None with None => pp | Some e => Some e end).
Proof.
  induction q as [|b q IH]; intros fuel pp Hq Hf.
  - destruct pp as [i|]; cbn in Hq.
    + destruct Hq as (x & Hx & Hn). destruct fuel; cbn [queueEnd]; rewrite Hx; cbn; by rewrite Hn.
    + subst first. by destruct fuel.
  - destruct fuel as [|fuel]; [cbn in Hf; lia|].
    assert (Hb : exists x, l !! b = Some x /\ queueIs l (QueueNext x) q).
    { destruct pp as [i|]; cbn in Hq; [by destruct Hq as (x & _ & _ & ?)|by destruct Hq as [_ ?]]. }
    assert (Hstep : queueEnd (S fuel) l first pp = queueEnd fuel l first (Some b)).
    { destruct pp as [i|]; cbn in Hq; cbn [queueEnd].
      - destruct Hq as (x & Hx & E & _). rewrite Hx. cbn. by rewrite E.
      - by destruct Hq as [-> _]. }
    rewrite Hstep, (IH fuel (Some b)) by (done || cbn in Hf; lia). f_equal.
    destruct q as [|e q _] using rev_ind; [done|]. rewrite app_comm_cons, !fmap_app. cbn [fmap list_fmap].
    by rewrite !last_last.
Qed.

Lemma queueEnd_spec l first q fuel : queueIs l first q -> (length q <= fuel)%nat ->
  queueEnd fuel l first None = Some (List.last (Some <$> q) None).
Proof. intros Hq Hf. rewrite (queueEnd_at l first q fuel None) by done. by destruct (List.last _ None). Qed.

(** Linking [b] behind the last buffer of the queue. *)
Lemma queue_append l b x q : forall first e,
  queueIs l first (q ++ [e]) -> NoDup (q ++ [e]) -> b ∉ q ++ [e] -> l !! b = Some x ->
  queueIs (alter (set_QueueNext (Some b)) e (<[b := set_QueueNext None x]> l)) first ((q ++ [e]) ++ [b]).
Proof.
  induction q as [|a q IH]; intros first e Hq Hnd Hb Hx; cbn [app] in *.
  - destruct Hq as (-> & xe & Hxe & Hn). cbn in Hn. cbn [queueIs]. split; [done|].
    assert (Hbe : b <> e) by set_solver. exists (set_QueueNext (Some b) xe). split_and!.
    + rewrite list_lookup_alter_eq, list_lookup_insert_ne by done. by rewrite Hxe.
    + done.
    + exists (set_QueueNext None x). rewrite list_lookup_alter_ne, list_lookup_insert_eq by (done || by eapply lookup_lt_Some). done.
  - destruct Hq as (-> & xa & Hxa & Hq). apply NoDup_cons in Hnd as [Ha Hnd]. cbn [queueIs]. split; [done|].
    exists xa. split.
    + rewrite list_lookup_alter_ne by set_solver. rewrite list_lookup_insert_ne by set_solver. done.
    + apply IH; [done|done|set_solver|done].
Qed.

(** * Properties *)

(** Reading a sector with the disk idle: [ideReadWrite] sends the read
    command, sleeps, and after the scheduler has run the interrupt handler
    returns with the sector in the buffer, the buffer valid, all locks as
    before and the queue empty again. *)
Theorem ideReadWrite_reads `{Hardware} (disk : Z -> list Z) `{!DiskLaws disk} (c p b : nat) (x : DiskBuffer) (proc : Process) (s : KState) :
  runsOn c p (sync s) -> lockFree (sync s) L_ide -> lockFree (sync s) L_processTable -> lockFree (sync s) (L_buffer b) ->
  table_at p proc (processTable s) -> idequeue s = None ->
  diskBufferCache s !! b = Some x -> SlLocked (Lock x) <> 0 ->
  Flags x = 0 -> Device x = 0 -> 0 <= SectorNumber x < 268435456 ->
  exists s' x', @ideReadWrite _ (diskScheduler c p) b s = Ret tt s' /\
    diskBufferCache s' = <[b := x']> (diskBufferCache s) /\ Flags x' = B_VALID /\ BufData x' = disk (SectorNumber x) /\
    idequeue s' = None /\ locks (sync s') = locks (sync s) /\ runsOn c p (sync s').
Proof.
  intros Hr Hl Hpt Hlb Ht Hq Hx Hlk Hf Hd Hs.
  destruct (ideReadWrite_read disk c p b x proc s Hr Hl Hpt Hlb Ht Hq Hx Hlk Hf Hd Hs) as (s' & Hrw & y & t & h & a & e & -> & Hry & Hly & _).
  eexists _, _. split; [exact Hrw|]. split_and!; done.
Qed.

(** With the disk busy, [ideReadWrite] only appends its buffer to the end of
    the queue, without touching the disk, and goes to sleep on the buffer with
    the driver's lock released: requests are served in the order of their
    arrival. *)
Theorem ideReadWrite_queues `{Hardware} (sch : Scheduler) (c p b e : nat) (x : DiskBuffer) (q : list nat) (s : KState) :
  (forall s, resume s = None) -> (0 < wakeups)%nat ->
  runsOn c p (sync s) -> lockFree (sync s) L_ide -> lockFree (sync s) L_processTable -> lockFree (sync s) (L_buffer b) ->
  is_Some (processTable s !! p) ->
  queueIs (diskBufferCache s) (idequeue s) (q ++ [e]) -> NoDup (q ++ [e]) -> b ∉ q ++ [e] ->
  (length (q ++ [e]) <= length (diskBufferCache s))%nat ->
  diskBufferCache s !! b = Some x -> SlLocked (Lock x) <> 0 -> Flags x = 0 -> Device x = 0 ->
  exists s', ideReadWrite b s = Sleep s' /\
    queueIs (diskBufferCache s') (idequeue s') ((q ++ [e]) ++ [b]) /\ io s' = io s /\ lockFree (sync s') L_ide /\
    option_map State (processTable s' !! p) = Some SLEEPING /\ option_map Chan (processTable s' !! p) = Some (Some (Ch_buffer b)).
Proof.
  intros Hno Hw Hr Hl Hpt Hlb [proc Hp] Hq Hnd Hb Hlen Hx Hlk Hf Hd. pose proof (lookup_lt_Some _ _ _ Hx) as Hlt.
  pose proof (thread_balanced 2 _ _ ltac:(lia) (runsOn_thread _ _ _ Hr)) as Hb2.
  assert (Hb1 : balanced 1 (sync s)) by (by apply (balanced_weaken 2)).
  unfold ideReadWrite. rewrite (bind_Ret _ _ _ _ _ (isHoldingSleeplock_eq b x s Hb1 Hlb Hx)).
  rewrite (proj2 (Z.eqb_neq _ 0) Hlk). rewrite (bind_getBuffer b x), Hf by done.
  change (Z.land 0 (Z.lor B_VALID B_DIRTY) =? B_VALID) with false. cbv iota. rewrite bind_gets, Hd. cbn [negb andb Z.eqb].
  set (y0 := settle (sync s)). assert (Ht0 : thread y0 p) by (eapply runsOn_thread, runsOn_settle; exact Hr).
  pose proof (thread_balanced 2 _ _ ltac:(lia) Ht0) as Hb0.
  assert (Hl0 : lockFree y0 L_ide) by (by apply settle_lockFree). assert (Hpt0 : lockFree y0 L_processTable) by (by apply settle_lockFree).
  erewrite bind_Ret; [|apply acquire_entered; [by apply (balanced_weaken 2)|done]].
  rewrite (bind_getBuffer b x), bind_putBuffer, !bind_gets by done. cbn [idequeue diskBufferCache set_diskBufferCache entered set_sync settled].
  set (l1 := <[b := set_QueueNext None x]> (diskBufferCache s)).
  assert (Hq1 : queueIs l1 (idequeue s) (q ++ [e])).
  { clear -Hq Hb Hlt. revert Hq Hb. generalize (idequeue s). generalize (q ++ [e]). intros q'. induction q' as [|a q' IH]; intros first Hq Hb; [done|].
    destruct Hq as (-> & xa & Hxa & Hq). split; [done|]. exists xa. split; [|apply IH; [done|set_solver]].
    unfold l1. rewrite list_lookup_insert_ne by set_solver. done. }
  rewrite (queueEnd_spec _ _ _ _ Hq1) by (unfold l1; by rewrite length_insert). rewrite bind_checked, fmap_app. cbn [fmap list_fmap]. rewrite last_last.
  assert (He : is_Some (l1 !! e)).
  { clear -Hq1. revert Hq1. generalize (idequeue s). induction q as [|a q IH]; intros first Hq1; cbn in Hq1; destruct Hq1 as (_ & xa & Hxa & Hq1); [by exists xa|by eapply IH]. }
  destruct He as [xe Hxe]. rewrite bind_assoc, (bind_getBuffer e xe) by done. rewrite bind_putBuffer, bind_gets.
  cbn [idequeue diskBufferCache set_diskBufferCache].
  assert (Hfst : idequeue s <> Some b) by (destruct q; cbn in Hq; destruct Hq as [-> _]; set_solver).
  rewrite bool_decide_eq_false_2 by done. rewrite bind_mret. set (s2 := set_diskBufferCache _ _).
  destruct wakeups as [|w] eqn:Ew; [lia|]. cbn [ideWaitDone].
  assert (Hxb : diskBufferCache s2 !! b = Some (set_QueueNext None x)).
  { unfold s2. cbn. rewrite list_lookup_insert_ne by set_solver. unfold l1. by apply list_lookup_insert_eq. }
  pose proof (sleep_spec (Ch_buffer b) L_ide p y0 s2 eq_refl Ht0 ltac:(done) Hl0 Hpt0 (ex_intro _ proc Hp)) as Hsl. rewrite Hno in Hsl.
  exists (asleep p (Ch_buffer b) y0 s2). split_and!.
  - apply bind_Sleep. rewrite (bind_getBuffer b (set_QueueNext None x)) by done. cbn [Flags set_QueueNext]. rewrite Hf.
    change (Z.land 0 (Z.lor B_VALID B_DIRTY) =? B_VALID) with false. cbv iota. by apply bind_Sleep.
  - cbn. rewrite <- (alter_at _ _ _ xe Hxe). by apply queue_append.
  - done.
  - cbn. by apply acq_lockFree.
  - cbn. by rewrite list_lookup_alter_eq, Hp.
  - cbn. by rewrite list_lookup_alter_eq, Hp.
Qed.

(** A read that the disk reports as failed: the handler leaves the data of
    the buffer as it was and still marks the buffer valid and wakes its owner,
    so that the caller takes stale bytes for the sector. *)
Theorem ideInterrupt_error_valid `{Hardware} (b : nat) (x : DiskBuffer) (status : Z) (h' : list IoEvent) (s : KState) :
  balanced 2 (sync s) -> lockFree (sync s) L_ide -> lockFree (sync s) L_processTable ->
  idequeue s = Some b -> diskBufferCache s !! b = Some x -> QueueNext x = None -> Flags x = 0 ->
  polled polls (io s) = Some (status, h') -> Z.land status (Z.lor IDE_DRIVEFAULT IDE_ERROR) <> 0 ->
  exists s', ideInterruptHandler s = Ret tt s' /\
    diskBufferCache s' = <[b := set_Flags B_VALID x]> (diskBufferCache s) /\ idequeue s' = None.
Proof.
  intros Hb Hl Hpt Hq Hx Hn Hf Hp He. pose proof (lookup_lt_Some _ _ _ Hx) as Hlt.
  assert (Hb1 : balanced 1 (sync s)) by (by apply (balanced_weaken 2)).
  unfold ideInterruptHandler. rewrite (bind_Ret _ _ _ _ _ (acquire_entered _ s Hb1 Hl)), bind_gets.
  change (idequeue (entered L_ide s)) with (idequeue s). rewrite Hq. cbv iota.
  rewrite (bind_getBuffer b x) by done. rewrite bind_puts, Hn, Hf.
  change (Z.land 0 B_DIRTY =? 0) with true. cbv iota. set (s1 := set_idequeue None (entered L_ide s)).
  assert (Hw : ideWait true s1 = Ret (-1) (set_io h' s1)).
  { unfold ideWait. erewrite bind_Ret; [|rewrite ideWaitLoop_eq; cbn [io s1 set_idequeue entered set_sync]; rewrite Hp; reflexivity].
    rewrite (proj2 (Z.eqb_neq _ 0) He). done. }
  rewrite bind_assoc, (bind_Ret _ _ _ _ _ Hw). change (-1 >=? 0) with false. cbv iota. rewrite bind_mret.
  rewrite (bind_getBuffer b x) by done. rewrite bind_putBuffer.
  erewrite bind_getBuffer; [|slot_stored]. rewrite bind_putBuffer.
  erewrite bind_Ret; [|by apply (wakeup_section L_ide _ _ (sync s))].
  rewrite bind_gets. cbn [idequeue set_processTable set_diskBufferCache set_io]. unfold s1 at 1. cbn [idequeue set_idequeue]. cbv iota.
  rewrite bind_mret. rewrite (release_settled _ s) by done. eexists. split; [done|]. cbn. rewrite list_insert_insert_eq.
  split; [|done]. cbn [Flags set_Flags]. rewrite Hf. by destruct x.
Qed.

(** * Concrete runs *)

(** A disk that answers every status with the given byte. *)
Definition statusHardware (status : Z) (data : list Z) : Hardware :=
  {| portByte := fun _ _ => status; portSequence := fun _ _ _ => data; registerWord := fun _ _ => 0; polls := 1 |}.

Definition zeroSector : list Z := replicate 512 0.

Lemma statusHardware_laws : @DiskLaws (statusHardware 64 zeroSector) (fun _ => zeroSector).
Proof.
  split; [reflexivity| |].
  - intros h. exists 64, (InByte 503 64 :: h). done.
  - done.
Qed.

Definition oneBuffer (pid : Z) : DiskBuffer := mkDiskBuffer 0 0 7 (mkSleeplock pid "buffer" 1) 1 0 0 None zeroSector.

Lemma demo_quiet : table_at 0 demoProcess (demoProcess :: replicate 63 unusedProcess).
Proof.
  split_and!; [reflexivity|reflexivity|discriminate|discriminate|]. intros [|q] z Hq Hz; [done|].
  change (replicate 63 unusedProcess !! q = Some z) in Hz. apply lookup_replicate in Hz as [-> _].
  split; [done|]. intros E. discriminate E.
Qed.

Lemma demo_runsOn : runsOn 0 0 demoKernelSync.
Proof. exists (mkCpu 0 1 0 0 (Some 0%nat)). split; [split; reflexivity|]. done. Qed.

Lemma demo_buffer_lock i : (i < 30)%nat -> lockFree demoKernelSync (L_buffer i).
Proof.
  intros Hi. apply demoKernel_free. unfold demoLockList. apply elem_of_app. right. apply list_elem_of_fmap.
  exists i. split; [done|]. apply elem_of_seq. lia.
Qed.

Lemma ideReadWrite_reads_witness :
  exists s' x', @ideReadWrite (statusHardware 64 zeroSector) (@diskScheduler (statusHardware 64 zeroSector) 0 0) 0
      (set_diskBufferCache [oneBuffer 1] demoKernel) = Ret tt s' /\ diskBufferCache s' = [x'] /\ BufData x' = zeroSector.
Proof.
  destruct (@ideReadWrite_reads (statusHardware 64 zeroSector) (fun _ => zeroSector) statusHardware_laws 0 0 0 (oneBuffer 1) demoProcess
    (set_diskBufferCache [oneBuffer 1] demoKernel) demo_runsOn demoKernel_ide demoKernel_table (demo_buffer_lock 0 ltac:(lia)) demo_quiet)
    as (s' & x' & H1 & H2 & _ & H3 & _); [reflexivity|reflexivity|discriminate|reflexivity|reflexivity|cbn; lia|].
  exists s', x'. split; [exact H1|]. split; [exact H2|exact H3].
Defined.

Lemma ideReadWrite_queues_witness :
  exists s', @ideReadWrite (statusHardware 64 zeroSector) {| resume := fun _ => None; wakeups := 1 |} 0
      (set_idequeue (Some 1%nat) (set_diskBufferCache [oneBuffer 1; oneBuffer 1] demoKernel)) = Sleep s' /\
    queueIs (diskBufferCache s') (idequeue s') [1%nat; 0%nat].
Proof.
  destruct (@ideReadWrite_queues (statusHardware 64 zeroSector) {| resume := fun _ => None; wakeups := 1 |} 0 0 0 1 (oneBuffer 1) []
    (set_idequeue (Some 1%nat) (set_diskBufferCache [oneBuffer 1; oneBuffer 1] demoKernel)) (fun _ => eq_refl) ltac:(cbn; lia)
    demo_runsOn demoKernel_ide demoKernel_table (demo_buffer_lock 0 ltac:(lia))) as (s' & H1 & H2 & _).
  - eexists. reflexivity.
  - split; [reflexivity|]. exists (oneBuffer 1). split; reflexivity.
  - apply NoDup_singleton.
  - set_solver.
  - cbn. lia.
  - reflexivity.
  - discriminate.
  - reflexivity.
  - reflexivity.
  - exists s'. split; [exact H1|exact H2].
Defined.

Lemma ideInterrupt_error_valid_witness :
  exists s', @ideInterruptHandler (statusHardware 65 zeroSector) (set_idequeue (Some 0%nat) (set_diskBufferCache [oneBuffer 1] demoKernel)) = Ret tt s' /\
    diskBufferCache s' = [set_Flags B_VALID (oneBuffer 1)].
Proof.
  destruct (@ideInterrupt_error_valid (statusHardware 65 zeroSector) 0 (oneBuffer 1) 65 [InByte 503 65]
    (set_idequeue (Some 0%nat) (set_diskBufferCache [oneBuffer 1] demoKernel)) (demoKernel_balanced 2 ltac:(lia)) demoKernel_ide demoKernel_table)
    as (s' & H1 & H2 & _); try reflexivity; [discriminate|].
  exists s'. split; [exact H1|exact H2].
Defined.
