(* ===== verification/Bio.v ===== *)
(** bio.c, the buffer cache: disk buffers in a doubly linked list, the most
    recently used first.  The list is related to the list of its elements
    ([ring]); the theorems show that the cache keeps it in order and that it
    is a [BlockCache] for the FAT12 driver. *)

From S2P Require Import Prelude Types Fat12 Spinlock Kernel Kalloc Sched Idle Sleeplock Ide Disk.

(** The list head, after the buffers. *)
Definition HEAD : nat := Z.to_nat NBUF.

(** * Operations *)

Definition nextOf (b : nat) : M KState nat := x ← getBuffer b; mret (Next x).
Definition previousOf (b : nat) : M KState nat := x ← getBuffer b; mret (Previous x).
Definition setNext (b v : nat) : M KState unit := x ← getBuffer b; putBuffer b (set_Next v x).
Definition setPrevious (b v : nat) : M KState unit := x ← getBuffer b; putBuffer b (set_Previous v x).

(** The four assignments that put [b] in front of the list; the code has them
    in two places, once with the initialisation of a lock in between. *)
Fixpoint initBuffers (n : nat) (b : nat) : M KState unit :=
  match n with
  | O => mret tt
  | S n =>
      h ← nextOf HEAD; setNext b h;;
      setPrevious b HEAD;;
      sleeplockInitialise b "buffer";;
      h ← nextOf HEAD; setPrevious h b;;
      setNext HEAD b;;
      initBuffers n (S b)
  end.

Definition diskBufferCacheInitialise : M KState unit :=
  locked (spinlockInitialise L_diskBufferCache "diskBufferCache");;
  setPrevious HEAD HEAD;;
  setNext HEAD HEAD;;
  initBuffers (Z.to_nat NBUF) 0.

(** The two searches: forward for the sector, backward for an unused buffer.
    [Some None]: the end of the list was reached. *)
Fixpoint findCached (fuel : nat) (l : list DiskBuffer) (dev sectorNumber : Z) (b : nat) : option (option nat) :=
  if decide (b = HEAD) then Some None
  else match fuel with
  | O => None
  | S fuel =>
      x ← l !! b;
      if (Device x =? dev) && (SectorNumber x =? sectorNumber) then Some (Some b)
      else findCached fuel l dev sectorNumber (Next x)
  end.

Fixpoint findUnused (fuel : nat) (l : list DiskBuffer) (b : nat) : option (option nat) :=
  if decide (b = HEAD) then Some None
  else match fuel with
  | O => None
  | S fuel =>
      x ← l !! b;
      if (BufReferenceCount x =? 0) && (Z.land (Flags x) B_DIRTY =? 0) then Some (Some b)
      else findUnused fuel l (Previous x)
  end.

Section Cache.
Context `{Hardware} `{Scheduler}.

Definition diskBufferGet (dev sectorNumber : Z) : M KState nat :=
  acquire L_diskBufferCache;;
  l ← gets diskBufferCache;
  first ← nextOf HEAD;
  r ← checked "diskBufferGet" (findCached (length l) l dev sectorNumber first);
  match r with
  | Some b =>
      x ← getBuffer b;
      putBuffer b (set_BufReferenceCount (u32 (BufReferenceCount x + 1)) x);;
      release L_diskBufferCache;;
      sleeplockAcquire b;;
      mret b
  | None =>
      last ← previousOf HEAD;
      r ← checked "diskBufferGet" (findUnused (length l) l last);
      match r with
      | Some b =>
          x ← getBuffer b;
          putBuffer b (set_BufReferenceCount 1 (set_Flags 0 (set_SectorNumber sectorNumber (set_Device dev x))));;
          release L_diskBufferCache;;
          sleeplockAcquire b;;
          mret b
      | None => panic "diskBufferGet: no buffers"
      end
  end.

Definition diskBufferRead (dev sectorNumber : Z) : M KState nat :=
  b ← diskBufferGet dev sectorNumber;
  x ← getBuffer b;
  (if Z.land (Flags x) B_VALID =? 0 then ideReadWrite b else mret tt);;
  mret b.

Definition diskBufferWrite (b : nat) : M KState unit :=
  h ← isHoldingSleeplock b;
  if h =? 0 then panic "diskBufferWrite"
  else
    x ← getBuffer b;
    putBuffer b (set_Flags (Z.lor (Flags x) B_DIRTY) x);;
    ideReadWrite b.

End Cache.

(** [b] is taken out of the list and put in front. *)
Definition relink (b : nat) : M KState unit :=
  n ← nextOf b; p ← previousOf b; setPrevious n p;;
  p ← previousOf b; n ← nextOf b; setNext p n;;
  h ← nextOf HEAD; setNext b h;;
  setPrevious b HEAD;;
  h ← nextOf HEAD; setPrevious h b;;
  setNext HEAD b.

Definition diskBufferRelease (b : nat) : M KState unit :=
  h ← isHoldingSleeplock b;
  if h =? 0 then panic "diskBufferRelease"
  else
    sleeplockRelease b;;
    acquire L_diskBufferCache;;
    x ← getBuffer b;
    putBuffer b (set_BufReferenceCount (u32 (BufReferenceCount x - 1)) x);;
    x ← getBuffer b;
    (if BufReferenceCount x =? 0 then relink b else mret tt);;
    release L_diskBufferCache.

(** * The list *)

Definition nxt (l : list DiskBuffer) (i : nat) : nat := match l !! i with Some x => Next x | None => 0%nat end.
Definition prv (l : list DiskBuffer) (i : nat) : nat := match l !! i with Some x => Previous x | None => 0%nat end.

(** From [p] the links lead through [l] to [q], and back. *)
Fixpoint dll (nx pv : nat -> nat) (p : nat) (l : list nat) (q : nat) : Prop :=
  match l with
  | [] => nx p = q /\ pv q = p
  | b :: l => nx p = b /\ pv b = p /\ dll nx pv b l q
  end.

Definition fupd (f : nat -> nat) (i v : nat) : nat -> nat := fun j => if decide (j = i) then v else f j.

Lemma dll_frame nx pv nx' pv' l : forall p q,
  (forall j, j ∈ p :: l -> nx' j = nx j) -> (forall j, j ∈ l ++ [q] -> pv' j = pv j) ->
  dll nx pv p l q -> dll nx' pv' p l q.
Proof.
  induction l as [|b l IH]; intros p q Hn Hp; cbn.
  - intros [E1 E2]. rewrite Hn, Hp by set_solver. done.
  - intros (E1 & E2 & Hd). rewrite Hn, Hp by set_solver. split_and!; try done.
    apply IH; [intros j Hj; apply Hn; set_solver|intros j Hj; apply Hp; set_solver|done].
Qed.

Lemma dll_mid nx pv l1 : forall p b l2 q, dll nx pv p (l1 ++ b :: l2) q ->
  pv b ∈ p :: l1 /\ nx b ∈ l2 ++ [q] /\ dll nx pv b l2 q.
Proof.
  induction l1 as [|a l1 IH]; intros p b l2 q Hd; cbn in Hd.
  - destruct Hd as (E1 & E2 & Hd). split_and!; [rewrite E2; set_solver| |done].
    destruct l2; cbn in Hd; destruct Hd as [-> _]; set_solver.
  - destruct Hd as (E1 & E2 & Hd). destruct (IH _ _ _ _ Hd) as (H1 & H2 & H3). split_and!; [set_solver|done|done].
Qed.

Lemma dll_remove nx pv l1 : forall p b l2 q,
  dll nx pv p (l1 ++ b :: l2) q -> NoDup (p :: l1 ++ b :: l2) -> q ∉ l1 ++ b :: l2 ->
  dll (fupd nx (pv b) (nx b)) (fupd pv (nx b) (pv b)) p (l1 ++ l2) q.
Proof.
  induction l1 as [|a l1 IH]; intros p b l2 q Hd Hnd Hq; cbn in Hd.
  - destruct Hd as (E1 & E2 & Hd). rewrite E2. unfold fupd. cbn [app].
    cbn [app] in Hnd. apply NoDup_cons in Hnd as [Hp Hnd]. apply NoDup_cons in Hnd as [Hb Hnd].
    destruct l2 as [|d l2]; cbn in Hd |- *.
    + destruct Hd as [E3 E4]. rewrite E3. by rewrite !decide_True.
    + destruct Hd as (E3 & E4 & Hd). rewrite E3. rewrite !decide_True by done. split_and!; try done.
      apply NoDup_cons in Hnd as [Hd2 _].
      apply (dll_frame nx pv); [| |done]; intros j Hj; rewrite decide_False; try done; intros ->; set_solver.
  - destruct Hd as (E1 & E2 & Hd). cbn [app] in Hnd, Hq |- *. apply NoDup_cons in Hnd as [Hp Hnd].
    destruct (dll_mid _ _ _ _ _ _ _ Hd) as (H1 & H2 & _). cbn [dll]. split_and!.
    + unfold fupd. rewrite decide_False; [done|]. intros ->. set_solver.
    + unfold fupd. rewrite decide_False; [done|]. intros ->.
      apply NoDup_cons in Hnd as [Ha _]. set_solver.
    + apply IH; [done|done|]. set_solver.
Qed.

Lemma dll_insert nx pv p l q b :
  dll nx pv p l q -> NoDup (p :: l) -> q ∉ l -> b ∉ p :: l -> b <> q ->
  dll (fupd (fupd nx b (nx p)) p b) (fupd (fupd pv b p) (nx p) b) p (b :: l) q.
Proof.
  intros Hd Hnd Hq Hb Hbq. cbn [dll]. apply NoDup_cons in Hnd as [Hp Hnd].
  assert (Hn : nx p ∈ l ++ [q]) by (destruct l; cbn in Hd; destruct Hd as [-> _]; set_solver).
  split_and!.
  - unfold fupd. by rewrite decide_True.
  - unfold fupd. rewrite decide_False, decide_True by (done || intros ->; set_solver). done.
  - destruct l as [|d l]; cbn in Hd |- *.
    + destruct Hd as [E1 E2]. unfold fupd. rewrite E1. rewrite decide_False, !decide_True by (done || set_solver). done.
    + destruct Hd as (E1 & E2 & Hd). unfold fupd. rewrite E1.
      rewrite decide_False, !decide_True by (done || set_solver). split_and!; try done.
      apply NoDup_cons in Hnd as [Hd2 _].
      apply (dll_frame nx pv); [| |done]; intros j Hj; rewrite !decide_False; try done; intros ->; set_solver.
Qed.

(** The buffers form the list [order], from the head on. *)
Definition ring (l : list DiskBuffer) (order : list nat) : Prop :=
  length l = S HEAD /\ dll (nxt l) (prv l) HEAD order HEAD /\ order ≡ₚ seq 0 HEAD.

Lemma ring_nodup l order : ring l order -> NoDup (HEAD :: order) /\ forall b, b ∈ order <-> (b < HEAD)%nat.
Proof.
  intros (_ & _ & Hp).
  assert (Hin : forall b, b ∈ order <-> (b < HEAD)%nat) by (intros b; rewrite Hp, elem_of_seq; lia).
  split; [|done]. apply NoDup_cons. split; [rewrite Hin; lia|]. rewrite Hp. apply NoDup_seq.
Qed.

Lemma ring_links l l' order : length l' = length l ->
  (forall j, (j <= HEAD)%nat -> nxt l' j = nxt l j) -> (forall j, (j <= HEAD)%nat -> prv l' j = prv l j) ->
  ring l order -> ring l' order.
Proof.
  intros Hl Hn Hp Hr. pose proof (ring_nodup _ _ Hr) as [_ Hin]. destruct Hr as (Hlen & Hd & Hperm).
  split_and!; [lia| |done]. apply (dll_frame (nxt l) (prv l)); [| |done].
  - intros j Hj. apply Hn. apply elem_of_cons in Hj as [->|Hj]; [lia|]. apply Hin in Hj. lia.
  - intros j Hj. apply Hp. apply elem_of_app in Hj as [Hj|Hj]; [apply Hin in Hj; lia|]. apply list_elem_of_singleton in Hj. lia.
Qed.

(** A change of a buffer that leaves its links alone. *)
Lemma ring_insert l order b x x' : l !! b = Some x -> Next x' = Next x -> Previous x' = Previous x ->
  ring l order -> ring (<[b := x']> l) order.
Proof.
  intros Hb En Ep. apply ring_links; [by rewrite length_insert| |]; intros j _; unfold nxt, prv;
    (destruct (decide (b = j)) as [<-|Hne];
      [rewrite list_lookup_insert_eq by (by eapply lookup_lt_Some); rewrite Hb; congruence
      |by rewrite list_lookup_insert_ne]).
Qed.

(** ** Updates of links *)

Definition links_only (l l' : list DiskBuffer) : Prop :=
  length l' = length l /\
  forall j x, l !! j = Some x -> exists n p, l' !! j = Some (set_Next n (set_Previous p x)).

Lemma links_only_refl l : links_only l l.
Proof. split; [done|]. intros j x Hj. exists (Next x), (Previous x). by destruct x. Qed.

Lemma links_only_alter l l' b f :
  (forall x, exists n p, f x = set_Next n (set_Previous p x)) ->
  links_only l l' -> links_only l (alter f b l').
Proof.
  intros Hf [Hl H]. split; [by rewrite length_alter|]. intros j x Hj. destruct (H j x Hj) as (n & p & E).
  destruct (decide (b = j)) as [<-|Hne].
  - rewrite list_lookup_alter_eq, E. cbn. destruct (Hf (set_Next n (set_Previous p x))) as (n' & p' & ->).
    by exists n', p'.
  - rewrite list_lookup_alter_ne by done. eauto.
Qed.

Lemma links_set_next v x : exists n p, set_Next v x = set_Next n (set_Previous p x).
Proof. exists v, (Previous x). by destruct x. Qed.

Lemma links_set_previous v x : exists n p, set_Previous v x = set_Next n (set_Previous p x).
Proof. exists (Next x), v. by destruct x. Qed.

Lemma nxt_alter_next l b v j : (b < length l)%nat -> nxt (alter (set_Next v) b l) j = fupd (nxt l) b v j.
Proof.
  intros Hb. unfold nxt, fupd. destruct (decide (j = b)) as [->|Hne].
  - rewrite list_lookup_alter_eq. destruct (lookup_lt_is_Some_2 l b Hb) as [x ->]. done.
  - by rewrite list_lookup_alter_ne.
Qed.

Lemma prv_alter_next l b v j : prv (alter (set_Next v) b l) j = prv l j.
Proof.
  unfold prv. destruct (decide (j = b)) as [->|Hne]; [|by rewrite list_lookup_alter_ne].
  rewrite list_lookup_alter_eq. by destruct (l !! b).
Qed.

Lemma prv_alter_previous l b v j : (b < length l)%nat -> prv (alter (set_Previous v) b l) j = fupd (prv l) b v j.
Proof.
  intros Hb. unfold prv, fupd. destruct (decide (j = b)) as [->|Hne].
  - rewrite list_lookup_alter_eq. destruct (lookup_lt_is_Some_2 l b Hb) as [x ->]. done.
  - by rewrite list_lookup_alter_ne.
Qed.

Lemma nxt_alter_previous l b v j : nxt (alter (set_Previous v) b l) j = nxt l j.
Proof.
  unfold nxt. destruct (decide (j = b)) as [->|Hne]; [|by rewrite list_lookup_alter_ne].
  rewrite list_lookup_alter_eq. by destruct (l !! b).
Qed.

Lemma bind_nextOf {B} b (k : nat -> M KState B) s : (b < length (diskBufferCache s))%nat ->
  (nextOf b ≫= k) s = k (nxt (diskBufferCache s) b) s.
Proof.
  intros Hb. destruct (lookup_lt_is_Some_2 _ _ Hb) as [x Hx]. unfold nextOf, nxt.
  rewrite bind_assoc, (bind_getBuffer b x) by done. by rewrite Hx.
Qed.

Lemma bind_previousOf {B} b (k : nat -> M KState B) s : (b < length (diskBufferCache s))%nat ->
  (previousOf b ≫= k) s = k (prv (diskBufferCache s) b) s.
Proof.
  intros Hb. destruct (lookup_lt_is_Some_2 _ _ Hb) as [x Hx]. unfold previousOf, prv.
  rewrite bind_assoc, (bind_getBuffer b x) by done. by rewrite Hx.
Qed.

Lemma setNext_eq b v s : (b < length (diskBufferCache s))%nat ->
  setNext b v s = Ret tt (set_diskBufferCache (alter (set_Next v) b (diskBufferCache s)) s).
Proof.
  intros Hb. destruct (lookup_lt_is_Some_2 _ _ Hb) as [x Hx]. unfold setNext.
  rewrite (bind_getBuffer b x) by done. by rewrite (alter_at _ _ _ x).
Qed.

Lemma setPrevious_eq b v s : (b < length (diskBufferCache s))%nat ->
  setPrevious b v s = Ret tt (set_diskBufferCache (alter (set_Previous v) b (diskBufferCache s)) s).
Proof.
  intros Hb. destruct (lookup_lt_is_Some_2 _ _ Hb) as [x Hx]. unfold setPrevious.
  rewrite (bind_getBuffer b x) by done. by rewrite (alter_at _ _ _ x).
Qed.

(** ** Searches *)

Definition matches (l : list DiskBuffer) (dev sec : Z) (b : nat) : bool :=
  match l !! b with Some x => (Device x =? dev) && (SectorNumber x =? sec) | None => false end.

Definition unused (l : list DiskBuffer) (b : nat) : bool :=
  match l !! b with Some x => (BufReferenceCount x =? 0) && (Z.land (Flags x) B_DIRTY =? 0) | None => false end.

(** The forward search finds the first match of the list. *)
Lemma findCached_spec l dev sec order : forall p fuel,
  dll (nxt l) (prv l) p order HEAD -> (length order <= fuel)%nat ->
  (forall b, b ∈ order -> (b < HEAD)%nat /\ (b < length l)%nat) ->
  findCached fuel l dev sec (nxt l p) = Some (List.find (matches l dev sec) order).
Proof.
  induction order as [|b order IH]; intros p fuel Hd Hf Hin; cbn in Hd.
  - destruct Hd as [-> _]. destruct fuel; cbn [findCached]; by rewrite decide_True.
  - destruct Hd as (-> & _ & Hd). destruct fuel as [|fuel]; [cbn in Hf; lia|]. cbn [findCached List.find].
    destruct (Hin b) as [Hb Hbl]; [set_solver|]. rewrite decide_False by lia.
    destruct (lookup_lt_is_Some_2 l b Hbl) as [x Hx]. rewrite Hx. cbn [mbind option_bind].
    unfold matches at 1. rewrite Hx. destruct ((Device x =? dev) && (SectorNumber x =? sec)); [done|].
    replace (Next x) with (nxt l b) by (unfold nxt; by rewrite Hx).
    apply IH; [done|cbn in Hf; lia|]. intros c Hc. apply Hin. set_solver.
Qed.

(** The backward search finds the last unused one. *)
Lemma findUnused_spec l order : forall q fuel,
  dll (nxt l) (prv l) HEAD order q -> (length order <= fuel)%nat ->
  (forall b, b ∈ order -> (b < HEAD)%nat /\ (b < length l)%nat) ->
  findUnused fuel l (prv l q) = Some (List.find (unused l) (rev order)).
Proof.
  induction order as [|b order IH] using rev_ind; intros q fuel Hd Hf Hin.
  - cbn in Hd. destruct Hd as [_ ->]. destruct fuel; cbn [findUnused rev]; by rewrite decide_True.
  - pose proof (dll_mid _ _ _ _ _ _ _ Hd) as (_ & _ & Hbq). cbn in Hbq. destruct Hbq as [_ ->].
    rewrite length_app in Hf. cbn in Hf. destruct fuel as [|fuel]; [lia|]. cbn [findUnused].
    destruct (Hin b) as [Hb Hbl]; [set_solver|]. rewrite decide_False by lia.
    destruct (lookup_lt_is_Some_2 l b Hbl) as [x Hx]. rewrite Hx. cbn [mbind option_bind].
    rewrite rev_app_distr. cbn [rev app List.find]. unfold unused at 1. rewrite Hx.
    destruct ((BufReferenceCount x =? 0) && (Z.land (Flags x) B_DIRTY =? 0)); [done|].
    replace (Previous x) with (prv l b) by (unfold prv; by rewrite Hx).
    apply IH; [|lia|intros c Hc; apply Hin; set_solver].
    clear IH Hf Hin. revert Hd. generalize HEAD. induction order as [|a order IH]; intros h; cbn; [naive_solver|].
    intros (E1 & E2 & Hd). split_and!; [done|done|]. by apply IH.
Qed.

(** ** Moving a buffer to the front *)

Lemma dll_ext nx pv nx' pv' p l q :
  (forall j, nx' j = nx j) -> (forall j, pv' j = pv j) -> dll nx pv p l q -> dll nx' pv' p l q.
Proof. intros Hn Hp. apply dll_frame; intros; auto. Qed.

(** The assignments that put [b], which is not in the list, in front. *)
Lemma insert_front l order b :
  dll (nxt l) (prv l) HEAD order HEAD -> NoDup (HEAD :: order) -> b ∉ HEAD :: order ->
  length l = S HEAD -> (b < HEAD)%nat -> (forall c, c ∈ order -> (c < HEAD)%nat) ->
  let h := nxt l HEAD in
  let l' := alter (set_Next b) HEAD (alter (set_Previous b) h (alter (set_Previous HEAD) b (alter (set_Next h) b l))) in
  dll (nxt l') (prv l') HEAD (b :: order) HEAD /\ links_only l l' /\
  nxt (alter (set_Previous HEAD) b (alter (set_Next h) b l)) HEAD = h /\ (h < S HEAD)%nat.
Proof.
  intros Hd Hnd Hb Hlen Hbl Hin h l'.
  assert (Hh : (h < S HEAD)%nat).
  { unfold h. destruct order as [|d order]; cbn in Hd; destruct Hd as [-> _]; [lia|]. pose proof (Hin d ltac:(set_solver)). lia. }
  split_and!; [| | |done].
  - eapply dll_ext; [| |apply (dll_insert _ _ _ _ _ b Hd Hnd)]; [| |by apply NoDup_cons in Hnd as [? _]|done|lia].
    + intros j. unfold l'. rewrite nxt_alter_next by (rewrite !length_alter; lia). unfold fupd.
      destruct (decide (j = HEAD)); [done|]. rewrite !nxt_alter_previous, nxt_alter_next by lia. done.
    + intros j. unfold l'. rewrite prv_alter_next, prv_alter_previous by (rewrite !length_alter; lia). unfold fupd.
      destruct (decide (j = h)) as [->|]; [by rewrite decide_True|]. rewrite decide_False by done.
      rewrite prv_alter_previous by (rewrite !length_alter; lia). unfold fupd. by rewrite prv_alter_next.
  - unfold l'. repeat (apply links_only_alter; [intros; (apply links_set_next || apply links_set_previous)|]).
    apply links_only_refl.
  - rewrite nxt_alter_previous, nxt_alter_next by lia. unfold fupd. by rewrite decide_False by lia.
Qed.

Lemma relink_spec b l1 l2 s : ring (diskBufferCache s) (l1 ++ b :: l2) ->
  exists l', relink b s = Ret tt (set_diskBufferCache l' s) /\ links_only (diskBufferCache s) l' /\
    ring l' (b :: l1 ++ l2).
Proof.
  intros Hr. pose proof (ring_nodup _ _ Hr) as [Hnd Hin]. pose proof Hr as (Hlen & Hd & Hperm).
  set (l := diskBufferCache s) in *.
  assert (Hb : (b < HEAD)%nat) by (apply Hin; set_solver).
  destruct (dll_mid _ _ _ _ _ _ _ Hd) as (Hpb & Hnb & _).
  assert (Hpl : (prv l b < S HEAD)%nat).
  { apply elem_of_cons in Hpb as [->|Hpb]; [lia|]. pose proof (proj1 (Hin (prv l b)) ltac:(set_solver)). lia. }
  assert (Hnl : (nxt l b < S HEAD)%nat).
  { apply elem_of_app in Hnb as [Hnb|Hnb]; [pose proof (proj1 (Hin (nxt l b)) ltac:(set_solver)); lia|].
    apply list_elem_of_singleton in Hnb. lia. }
  assert (Hbn : b <> nxt l b).
  { intros E. rewrite <- E in Hnb. apply NoDup_cons in Hnd as [_ Hnd]. apply NoDup_app in Hnd as (_ & _ & Hnd).
    apply NoDup_cons in Hnd as [Hnd _]. apply elem_of_app in Hnb as [?|Hnb]; [done|]. apply list_elem_of_singleton in Hnb. lia. }
  set (la := alter (set_Next (nxt l b)) (prv l b) (alter (set_Previous (prv l b)) (nxt l b) l)).
  assert (Hla : dll (nxt la) (prv la) HEAD (l1 ++ l2) HEAD).
  { eapply dll_ext; [| |apply (dll_remove _ _ _ _ _ _ _ Hd Hnd); by apply NoDup_cons in Hnd as [? _]].
    - intros j. unfold la. rewrite nxt_alter_next by (rewrite length_alter; lia). unfold fupd. by rewrite nxt_alter_previous.
    - intros j. unfold la. rewrite prv_alter_next, prv_alter_previous by lia. done. }
  assert (Hnd' : NoDup (b :: HEAD :: l1 ++ l2)).
  { apply NoDup_cons in Hnd as [Hh Hnd]. rewrite <- Permutation_middle in Hnd. apply NoDup_cons in Hnd as [Hbn' Hnd].
    apply NoDup_cons. split; [apply not_elem_of_cons; split; [lia|done]|]. apply NoDup_cons. split; [set_solver|done]. }
  apply NoDup_cons in Hnd' as [Hbn' Hnd'].
  destruct (insert_front la (l1 ++ l2) b Hla Hnd' Hbn') as (Hring & Hlinks & Hh & Hhl).
  { unfold la. by rewrite !length_alter. } { done. } { intros c Hc. apply Hin. set_solver. }
  exists (alter (set_Next b) HEAD (alter (set_Previous b) (nxt la HEAD)
    (alter (set_Previous HEAD) b (alter (set_Next (nxt la HEAD)) b la)))). split; [|split].
  - unfold relink. rewrite bind_nextOf, bind_previousOf by (fold l; lia). fold l.
    erewrite bind_Ret; [|apply setPrevious_eq; fold l; lia].
    rewrite bind_previousOf, bind_nextOf by (cbn; rewrite length_alter; fold l; lia). cbn [diskBufferCache set_diskBufferCache]. fold l.
    rewrite prv_alter_previous, nxt_alter_previous by lia. unfold fupd at 1. rewrite decide_False by done.
    erewrite bind_Ret; [|apply setNext_eq; cbn; rewrite length_alter; fold l; lia]. cbn [diskBufferCache set_diskBufferCache]. fold l la.
    assert (Hlal : length la = S HEAD) by (unfold la; by rewrite !length_alter).
    rewrite bind_nextOf by (cbn; lia). cbn [diskBufferCache set_diskBufferCache].
    erewrite bind_Ret; [|apply setNext_eq; cbn; lia]. cbn [diskBufferCache set_diskBufferCache].
    erewrite bind_Ret; [|apply setPrevious_eq; cbn; rewrite length_alter; lia]. cbn [diskBufferCache set_diskBufferCache].
    rewrite bind_nextOf by (cbn; rewrite !length_alter; lia). cbn [diskBufferCache set_diskBufferCache]. rewrite Hh.
    erewrite bind_Ret; [|apply setPrevious_eq; cbn; rewrite !length_alter; lia]. cbn [diskBufferCache set_diskBufferCache].
    rewrite setNext_eq by (cbn; rewrite !length_alter; lia). reflexivity.
  - destruct Hlinks as [Hll Hlinks]. split.
    { rewrite ?length_alter. unfold la. by rewrite ?length_alter. }
    intros j x Hj. assert (Hl0 : links_only l la).
    { unfold la. repeat (apply links_only_alter; [intros; (apply links_set_next || apply links_set_previous)|]). apply links_only_refl. }
    destruct Hl0 as [_ Hl0]. destruct (Hl0 j x Hj) as (n & p & E). destruct (Hlinks j _ E) as (n' & p' & E').
    exists n', p'. rewrite E'. done.
  - split_and!; [|done|].
    + rewrite ?length_alter. unfold la. by rewrite ?length_alter.
    + rewrite <- Hperm. apply Permutation_middle.
Qed.

(** * The cache as a whole *)

(** A buffer that nobody uses: valid buffers hold their sector of disk 0. *)
Record buffer_ok (disk : Z -> list Z) (x : DiskBuffer) : Prop := {
  buf_unreferenced : BufReferenceCount x = 0;
  buf_unlocked : SlLocked (Lock x) = 0;
  buf_flags : Flags x = 0 \/ Flags x = B_VALID;
  buf_data : Flags x = B_VALID -> Device x = 0 -> BufData x = disk (SectorNumber x)
}.

Definition cacheLocks : list LockId := [L_diskBufferCache; L_ide; L_processTable] ++ (L_buffer <$> seq 0 HEAD).

Record cache_ok (disk : Z -> list Z) (c p : nat) (s : KState) : Prop := {
  cache_runs : runsOn c p (sync s);
  cache_locks l : l ∈ cacheLocks -> lockFree (sync s) l;
  cache_table : exists proc, table_at p proc (processTable s) /\ State proc = RUNNING;
  cache_idle : idequeue s = None;
  cache_ring : exists order, ring (diskBufferCache s) order;
  cache_buffers i x : (i < HEAD)%nat -> diskBufferCache s !! i = Some x -> buffer_ok disk x
}.

Lemma cacheLocks_buffer b : (b < HEAD)%nat -> L_buffer b ∈ cacheLocks.
Proof.
  intros Hb. unfold cacheLocks. apply elem_of_app. right. apply list_elem_of_fmap. exists b. split; [done|].
  apply elem_of_seq. lia.
Qed.

(** Releasing the last reference: the buffer is unlocked and becomes the first
    of the list. *)
Lemma diskBufferRelease_spec c p b x l1 l2 proc s :
  runsOn c p (sync s) -> (forall l, l ∈ cacheLocks -> lockFree (sync s) l) -> table_at p proc (processTable s) ->
  State proc = RUNNING -> ring (diskBufferCache s) (l1 ++ b :: l2) -> diskBufferCache s !! b = Some x ->
  SlLocked (Lock x) = 1 -> BufReferenceCount x = 1 ->
  exists s' l', diskBufferRelease b s = Ret tt s' /\ after_disk c p s l' s' /\ ring l' (b :: l1 ++ l2) /\
    links_only (<[b := set_BufReferenceCount 0 (unlocked x)]> (diskBufferCache s)) l'.
Proof.
  intros Hr Hl Ht Hrun Hring Hx Hlk Hrc. pose proof (ring_nodup _ _ Hring) as [_ Hin].
  assert (Hb : (b < HEAD)%nat) by (apply Hin; set_solver). pose proof (lookup_lt_Some _ _ _ Hx) as Hlt.
  assert (Hfree : forall l, l ∈ cacheLocks -> lockFree (settle (sync s)) l) by (intros; by apply settle_lockFree, Hl).
  assert (Hlb := cacheLocks_buffer b Hb).
  pose proof (thread_balanced 2 _ _ ltac:(lia) (runsOn_thread _ _ _ Hr)) as Hb2.
  assert (Hs2 : balanced 2 (settle (sync s))) by (by apply settle_balanced).
  unfold diskBufferRelease. erewrite bind_Ret; [|apply (isHoldingSleeplock_eq b x); [by apply (balanced_weaken 2)|by apply Hl|done]].
  rewrite Hlk. cbn [Z.eqb].
  erewrite bind_Ret; [|apply (sleeplockRelease_eq b x (settled s)); [done|by apply Hfree|apply Hfree; set_solver|done]].
  set (t := map _ (processTable (settled s))).
  set (s1 := set_processTable t _). assert (Es1 : sync s1 = settle (sync s)) by (apply settle_settle).
  erewrite bind_Ret; [|apply acquire_entered; rewrite Es1; [by apply (balanced_weaken 2)|apply Hfree; set_solver]].
  erewrite bind_getBuffer; [|slot_stored]. rewrite bind_putBuffer. cbn [BufReferenceCount unlocked set_Lock]. rewrite Hrc.
  change (u32 (1 - 1)) with 0. erewrite bind_getBuffer; [|slot_stored]. cbn [BufReferenceCount set_BufReferenceCount Z.eqb].
  cbv iota. set (s2 := set_diskBufferCache _ (entered _ s1)).
  assert (Hbufs : diskBufferCache s2 = <[b := set_BufReferenceCount 0 (unlocked x)]> (diskBufferCache s)).
  { unfold s2, s1, settled. cbn. by rewrite list_insert_insert_eq. }
  destruct (relink_spec b l1 l2 s2) as (l' & Hrel & Hlinks & Hring').
  { rewrite Hbufs. by eapply ring_insert. }
  rewrite (bind_Ret _ _ _ _ _ Hrel). rewrite (release_settled _ s1); [|rewrite Es1; by apply (balanced_weaken 2)|rewrite Es1; apply Hfree; set_solver|done].
  rewrite Hbufs in Hlinks. eexists _, l'. split; [done|]. split_and!; [|done|done].
  exists (settle (settle (sync s))), t, (io s), (cr3 s), (esp0 s). split_and!.
  - rewrite Es1. unfold s2, s1, settled. by destruct s.
  - by do 2 apply runsOn_settle.
  - by rewrite !settle_locks.
  - destruct (table_at_wake p proc (processTable s) b Ht) as [_ Ht']. eexists. split; [exact Ht'|].
    unfold wake1. by rewrite Hrun.
Qed.

Section CacheProofs.
Context `{Hardware} (disk : Z -> list Z) `{!DiskLaws disk} (c p : nat).

(** A buffer in use by the caller. *)
Definition taken (sec : Z) (x : DiskBuffer) : Prop :=
  Device x = 0 /\ SectorNumber x = sec /\ BufReferenceCount x = 1 /\ SlLocked (Lock x) = 1.

Lemma get_finish b x s : cache_ok disk c p s -> (b < HEAD)%nat -> is_Some (diskBufferCache s !! b) ->
  SlLocked (Lock x) = 0 ->
  exists pid,
    (putBuffer b x;; release L_diskBufferCache;; @sleeplockAcquire (diskScheduler c p) b;; mret b) (entered L_diskBufferCache s) =
    Ret b (set_diskBufferCache (<[b := lockedBy pid x]> (diskBufferCache s)) (settled s)).
Proof.
  intros Hok Hb [x0 Hx0] Hu. pose proof (cache_runs _ _ _ _ Hok) as Hr. pose proof (runsOn_thread _ _ _ Hr) as Ht.
  pose proof (thread_balanced 1 _ _ ltac:(lia) Ht) as Hb1. pose proof (lookup_lt_Some _ _ _ Hx0) as Hlt.
  assert (Hl : lockFree (sync s) L_diskBufferCache) by (apply (cache_locks _ _ _ _ Hok); set_solver).
  destruct (cache_table _ _ _ _ Hok) as (proc & Htab & _).
  rewrite bind_putBuffer. erewrite bind_Ret; [|by apply (release_settled _ s)].
  exists (ProcessId proc). set (s1 := set_sync _ _).
  erewrite bind_Ret; [|apply (sleeplockAcquire_eq b x p proc s1)].
  - unfold mret, M_ret. f_equal. unfold s1, settled. cbn. by rewrite list_insert_insert_eq, settle_settle.
  - by apply thread_settle.
  - apply settle_lockFree, (cache_locks _ _ _ _ Hok). by apply cacheLocks_buffer.
  - slot_stored.
  - apply Htab.
  - done.
Qed.

Lemma find_matches l order dev sec b : List.find (matches l dev sec) order = Some b ->
  b ∈ order /\ exists x, l !! b = Some x /\ Device x = dev /\ SectorNumber x = sec.
Proof.
  intros Hf. apply List.find_some in Hf as [Hin Hm]. split; [by apply list_elem_of_In|].
  unfold matches in Hm. destruct (l !! b) as [x|]; [|done]. exists x. bdestr. done.
Qed.

(** The buffer that a lookup of sector [sec] yields: the one that caches it or
    else the least recently used. *)
Definition chosen (l : list DiskBuffer) (order : list nat) (sec : Z) : option nat :=
  match List.find (matches l 0 sec) order with
  | Some b => Some b
  | None => List.last (Some <$> order) None
  end.

Lemma diskBufferGet_spec sec order s : cache_ok disk c p s -> ring (diskBufferCache s) order -> 0 <= sec < 268435456 ->
  exists b x, chosen (diskBufferCache s) order sec = Some b /\ @diskBufferGet (diskScheduler c p) 0 sec s =
      Ret b (set_diskBufferCache (<[b := x]> (diskBufferCache s)) (settled s)) /\
    (b < HEAD)%nat /\ taken sec x /\ (Flags x = 0 \/ Flags x = B_VALID /\ BufData x = disk sec) /\
    exists x0, diskBufferCache s !! b = Some x0 /\ Next x = Next x0 /\ Previous x = Previous x0.
Proof.
  intros Hok Hring Hsec.
  pose proof (ring_nodup _ _ Hring) as [Hnd Hin]. pose proof Hring as (Hlen & Hd & Hperm).
  pose proof (thread_balanced 1 _ _ ltac:(lia) (runsOn_thread _ _ _ (cache_runs _ _ _ _ Hok))) as Hb1.
  assert (Hl : lockFree (sync s) L_diskBufferCache) by (apply (cache_locks _ _ _ _ Hok); set_solver).
  assert (Hlo : length order = HEAD) by (rewrite Hperm; apply length_seq).
  assert (Hbound : forall b, b ∈ order -> (b < HEAD)%nat /\ (b < length (diskBufferCache s))%nat) by (intros b Hb%Hin; lia).
  unfold diskBufferGet. rewrite (bind_Ret _ _ _ _ _ (acquire_entered _ s Hb1 Hl)), bind_gets.
  rewrite bind_nextOf by (cbn; lia). cbn [diskBufferCache entered set_sync].
  rewrite (findCached_spec _ 0 sec order HEAD) by (done || lia). rewrite bind_checked.
  unfold chosen. destruct (List.find (matches (diskBufferCache s) 0 sec) order) as [b|] eqn:Hfind.
  - apply find_matches in Hfind as (Hbo & x & Hx & Hdev & Hs). apply Hin in Hbo.
    pose proof (cache_buffers _ _ _ _ Hok b x Hbo Hx) as [Hrc Hu Hf Hdat].
    rewrite (bind_getBuffer b x) by done. rewrite Hrc. change (u32 (0 + 1)) with 1.
    destruct (get_finish b (set_BufReferenceCount 1 x) s Hok Hbo (ex_intro _ x Hx) Hu) as (pid & ->).
    exists b. eexists. split; [done|]. split; [done|]. split_and!; [done|done| |].
    + destruct Hf as [Hf|Hf]; [by left|right]. split; [done|]. cbn. rewrite <- Hs. by apply Hdat.
    + by exists x.
  - rewrite bind_previousOf by (cbn; lia). cbn [diskBufferCache entered set_sync].
    rewrite (findUnused_spec _ order HEAD) by (done || lia). rewrite bind_checked.
    assert (Hun : exists b, b ∈ order /\ List.find (unused (diskBufferCache s)) (rev order) = Some b /\
      List.last (Some <$> order) None = Some b).
    { assert (Hall : forall b, b ∈ order -> unused (diskBufferCache s) b = true).
      { intros b Hb. apply Hbound in Hb as [Hb1' Hb2]. destruct (lookup_lt_is_Some_2 _ _ Hb2) as [x Hx].
        unfold unused. rewrite Hx. destruct (cache_buffers _ _ _ _ Hok b x Hb1' Hx) as [Hrc _ Hf _]. rewrite Hrc.
        by destruct Hf as [-> | ->]. }
      destruct (rev order) as [|b rest] eqn:Er.
      - apply (f_equal length) in Er. rewrite length_rev, Hlo in Er. done.
      - exists b. assert (b ∈ order) by (apply list_elem_of_In, in_rev; rewrite Er; by left). split; [done|]. cbn. rewrite Hall by done. split; [done|].
        apply (f_equal (@rev nat)) in Er. rewrite rev_involutive in Er. rewrite Er. cbn [rev]. rewrite fmap_app. cbn. apply last_last. }
    destruct Hun as (b & Hbo & -> & Hlast). apply Hin in Hbo.
    destruct (lookup_lt_is_Some_2 (diskBufferCache s) b ltac:(lia)) as [x Hx].
    rewrite (bind_getBuffer b x) by done.
    pose proof (cache_buffers _ _ _ _ Hok b x Hbo Hx) as [Hrc Hu Hf Hdat].
    edestruct (get_finish b (set_BufReferenceCount 1 (set_Flags 0 (set_SectorNumber sec (set_Device 0 x)))) s Hok Hbo (ex_intro _ x Hx)) as (pid & ->); [done|].
    exists b. eexists. split; [done|]. split; [done|]. split_and!; [done|done|by left|by exists x].
Qed.

(** Reading a sector: the buffer returned holds it. *)
Lemma diskBufferRead_spec sec s : cache_ok disk c p s -> 0 <= sec < 268435456 ->
  exists b x s1, @diskBufferRead _ (diskScheduler c p) 0 sec s = Ret b s1 /\
    after_disk c p s (<[b := x]> (diskBufferCache s)) s1 /\
    (b < HEAD)%nat /\ taken sec x /\ Flags x = B_VALID /\ BufData x = disk sec /\
    exists x0, diskBufferCache s !! b = Some x0 /\ Next x = Next x0 /\ Previous x = Previous x0.
Proof.
  intros Hok Hsec. destruct (cache_ring _ _ _ _ Hok) as (order & Hring).
  destruct (diskBufferGet_spec sec order s Hok Hring Hsec) as (b & x & _ & Hget & Hb & Ht & Hf & x0 & Hx0 & En & Ep).
  pose proof (lookup_lt_Some _ _ _ Hx0) as Hlt. destruct (cache_table _ _ _ _ Hok) as (proc & Htab & Hrun).
  unfold diskBufferRead. rewrite (bind_Ret _ _ _ _ _ Hget).
  set (s1 := set_diskBufferCache _ _). assert (Hx : diskBufferCache s1 !! b = Some x) by slot_stored.
  rewrite (bind_getBuffer b x) by done.
  destruct Hf as [Hf|[Hf Hdat]]; rewrite Hf.
  - change (Z.land 0 B_VALID =? 0) with true. cbv iota. destruct Ht as (Hdev & Hs & Hrc & Hlk).
    assert (Hfree : forall l, l ∈ cacheLocks -> lockFree (sync s1) l)
      by (intros l Hl; apply settle_lockFree; by apply (cache_locks _ _ _ _ Hok)).
    destruct (ideReadWrite_read disk c p b x proc s1) as (s2 & Hrw & Hafter); try done.
    + apply runsOn_settle. apply (cache_runs _ _ _ _ Hok).
    + apply Hfree. set_solver.
    + apply Hfree. set_solver.
    + apply Hfree. by apply cacheLocks_buffer.
    + apply (cache_idle _ _ _ _ Hok).
    + by rewrite Hlk.
    + by rewrite Hs.
    + erewrite bind_Ret; [|exact Hrw].
      exists b, (set_Flags B_VALID (set_BufData (disk (SectorNumber x)) (set_QueueNext None x))), s2. split; [done|]. split_and!; try done.
      * destruct Hafter as (y & t & h & a & e & -> & Hr & Hl & Hp). exists y, t, h, a, e. split_and!; try done.
        -- unfold s1, settled. cbn. by rewrite list_insert_insert_eq.
        -- rewrite Hl. unfold s1, settled. cbn. apply settle_locks.
      * cbn. by rewrite Hs.
      * by exists x0.
  - change (Z.land B_VALID B_VALID =? 0) with false. cbv iota. rewrite bind_mret.
    eexists b, x, s1. split; [done|]. split_and!; try done; [|by exists x0].
    exists (settle (sync s)), (processTable s), (io s), (cr3 s), (esp0 s). split_and!.
    + unfold s1, settled. by destruct s.
    + apply runsOn_settle. apply (cache_runs _ _ _ _ Hok).
    + apply settle_locks.
    + by exists proc.
Qed.

Lemma after_disk_locks s l s' k : after_disk c p s l s' -> lockFree (sync s) k -> lockFree (sync s') k.
Proof. intros (y & t & h & a & e & -> & _ & El & _) [nm Hk]. exists nm. cbn. by rewrite El. Qed.

(** Reading a sector and releasing its buffer. *)
Lemma cache_read_release sec s : cache_ok disk c p s -> 0 <= sec < 268435456 ->
  exists b s1 s2, @diskBufferRead _ (diskScheduler c p) 0 sec s = Ret b s1 /\
    (exists x, diskBufferCache s1 !! b = Some x /\ BufData x = disk sec) /\
    diskBufferRelease b s1 = Ret tt s2 /\ cache_ok disk c p s2 /\ (exists l, after_disk c p s l s2).
Proof.
  intros Hok Hsec. destruct (diskBufferRead_spec sec s Hok Hsec)
    as (b & x & s1 & Hread & Hafter & Hb & (Hdev & Hs & Hrc & Hlk) & Hf & Hdat & x0 & Hx0 & En & Ep).
  pose proof (lookup_lt_Some _ _ _ Hx0) as Hlt. destruct (cache_ring _ _ _ _ Hok) as (order & Hring).
  pose proof (ring_nodup _ _ Hring) as [_ Hin].
  destruct (list_elem_of_split order b) as (l1 & l2 & ->); [by apply Hin|].
  pose proof Hafter as (y & t & h & a & e & Es1 & Hr & Hl & proc & Ht & Hrun).
  assert (Hfree : forall l, l ∈ cacheLocks -> lockFree (sync s1) l).
  { intros l Hlin. eapply after_disk_locks; [exact Hafter|]. by apply (cache_locks _ _ _ _ Hok). }
  assert (Hx1 : diskBufferCache s1 !! b = Some x) by (rewrite Es1; slot_stored).
  destruct (diskBufferRelease_spec c p b x l1 l2 proc s1) as (s2 & l' & Hrel & Hafter2 & Hring2 & Hlinks); try done.
  { by rewrite Es1. } { by rewrite Es1. } { rewrite Es1. by eapply ring_insert. }
  pose proof Hafter2 as (y2 & t2 & h2 & a2 & e2 & Es2 & Hr2 & Hl2 & proc2 & Ht2 & Hrun2).
  exists b, s1, s2. split_and!; [done|by exists x|done| |].
  - split.
    + by rewrite Es2.
    + intros l Hlin. eapply after_disk_locks; [exact Hafter2|]. by apply Hfree.
    + exists proc2. by rewrite Es2.
    + rewrite Es2, Es1. apply (cache_idle _ _ _ _ Hok).
    + exists (b :: l1 ++ l2). by rewrite Es2.
    + intros i z Hi Hz. rewrite Es2 in Hz. cbn in Hz. rewrite Es1 in Hlinks. cbn in Hlinks. rewrite list_insert_insert_eq in Hlinks.
      destruct Hlinks as [_ Hlinks]. destruct (decide (i = b)) as [->|Hne].
      * destruct (Hlinks b (set_BufReferenceCount 0 (unlocked x))) as (n & q & E); [slot_stored|]. rewrite E in Hz. injection Hz as <-.
        split; cbn; [done|done|by right|]. intros _ _. by rewrite Hdat, Hs.
      * destruct (lookup_lt_is_Some_2 (diskBufferCache s) i) as [w Hw]; [destruct Hring as [-> _]; lia|].
        destruct (Hlinks i w) as (n & q & E); [by rewrite list_lookup_insert_ne|]. rewrite E in Hz. injection Hz as <-.
        destruct (cache_buffers _ _ _ _ Hok i w Hi Hw) as [? ? ? ?]. split; done.
  - exists l', y2, t2, h2, a2, e2. rewrite Es2, Es1. split_and!; try done.
    + rewrite Hl2, Es1. cbn. done.
    + by exists proc2.
Qed.

End CacheProofs.

(** * The cache for the FAT12 driver *)

Definition kernelCache `{Hardware} (c p : nat) : BlockCache KState :=
  {| Fat12.handle := nat;
     Fat12.diskBufferRead := @diskBufferRead _ (diskScheduler c p);
     Fat12.bufferData := fun b s => match diskBufferCache s !! b with Some x => BufData x | None => [] end;
     Fat12.diskBufferRelease := diskBufferRelease |}.

(** Disk reads change the buffers, the processor and the processes that wait,
    and nothing else. *)
Definition disk_only (s0 s : KState) : Prop :=
  exists y t l h a e, s = set_sync y (set_processTable t (set_diskBufferCache l (set_io h (set_cr3 a (set_esp0 e s0))))) /\
    locks y = locks (sync s0).

#[export] Instance disk_only_refl : Reflexive disk_only.
Proof. intros s. exists (sync s), (processTable s), (diskBufferCache s), (io s), (cr3 s), (esp0 s). split; [by destruct s|done]. Qed.

#[export] Instance disk_only_trans : Transitive disk_only.
Proof.
  intros s1 s2 s3 (y & t & l & h & a & e & -> & E) (y' & t' & l' & h' & a' & e' & -> & E'). exists y', t', l', h', a', e'. split; [done|].
  rewrite E'. exact E.
Qed.

Lemma after_disk_only c p s l s' : after_disk c p s l s' -> disk_only s s'.
Proof. intros (y & t & h & a & e & -> & _ & E & _). by exists y, t, l, h, a, e. Qed.

Lemma kernelCache_laws `{Hardware} (disk : Z -> list Z) `{!DiskLaws disk} (c p : nat) (s0 : KState) :
  @BlockCacheLaws KState (kernelCache c p) (fun s => cache_ok disk c p s /\ disk_only s0 s) disk.
Proof.
  split; [apply disk_sector|]. intros sec s [Hok Hf] Hsec.
  destruct (cache_read_release disk c p sec s Hok Hsec) as (b & s1 & s2 & Hr & (x & Hx & Hd) & Hrel & Hok2 & l2 & Hafter).
  exists b, s1, s2. cbn. rewrite Hx. split_and!; try done. transitivity s; [done|by eapply after_disk_only].
Qed.

(** ** Initialisation *)

Lemma nxt_alter_lock l b v j : nxt (alter (set_Lock v) b l) j = nxt l j.
Proof.
  unfold nxt. destruct (decide (j = b)) as [->|Hne]; [|by rewrite list_lookup_alter_ne].
  rewrite list_lookup_alter_eq. by destruct (l !! b).
Qed.

Lemma prv_alter_lock l b v j : prv (alter (set_Lock v) b l) j = prv l j.
Proof.
  unfold prv. destruct (decide (j = b)) as [->|Hne]; [|by rewrite list_lookup_alter_ne].
  rewrite list_lookup_alter_eq. by destruct (l !! b).
Qed.

Lemma sleeplockInitialise_eq b name s : (b < length (diskBufferCache s))%nat ->
  sleeplockInitialise b name s =
    Ret tt (set_diskBufferCache (alter (set_Lock (mkSleeplock 0 name 0)) b (diskBufferCache s))
      (set_sync (set_locks (<[L_buffer b := mkSpinlock 0 "sleep lock" None]> (locks (sync s))) (sync s)) s)).
Proof.
  intros Hb. destruct (lookup_lt_is_Some_2 _ _ Hb) as [x Hx]. unfold sleeplockInitialise.
  erewrite bind_Ret; [|apply locked_Ret; reflexivity]. unfold putSleeplock.
  rewrite (bind_getBuffer b x) by done. by rewrite (alter_at _ _ _ x).
Qed.

(** The sleep lock word of a buffer. *)
Definition lockWord (l : list DiskBuffer) (i : nat) : option Z := (fun x => SlLocked (Lock x)) <$> l !! i.

Lemma lockWord_alter l b f i : (forall x, Lock (f x) = Lock x) -> lockWord (alter f b l) i = lockWord l i.
Proof.
  intros Hf. unfold lockWord. destruct (decide (i = b)) as [->|Hne]; [|by rewrite list_lookup_alter_ne].
  rewrite list_lookup_alter_eq. destruct (l !! b); [|done]. cbn. by rewrite Hf.
Qed.

Lemma initBuffers_spec n : forall b order s,
  length (diskBufferCache s) = S HEAD -> (b + n = HEAD)%nat ->
  dll (nxt (diskBufferCache s)) (prv (diskBufferCache s)) HEAD order HEAD -> order = rev (seq 0 b) ->
  (forall i, (i < b)%nat -> lockFree (sync s) (L_buffer i)) -> (forall i, (i < b)%nat -> lockWord (diskBufferCache s) i = Some 0) ->
  exists s', initBuffers n b s = Ret tt s' /\ ring (diskBufferCache s') (rev (seq 0 HEAD)) /\
    (forall i, (i < HEAD)%nat -> lockFree (sync s') (L_buffer i)) /\
    (forall i, (i < HEAD)%nat -> lockWord (diskBufferCache s') i = Some 0).
Proof.
  induction n as [|n IH]; intros b order s Hlen Hb Hd -> Hfree Hlk.
  - exists s. replace HEAD with b by lia. split_and!; try done. split_and!; [lia| |].
    + replace b with HEAD by lia. by replace b with HEAD in Hd by lia.
    + replace b with HEAD by lia. symmetry. apply Permutation_rev.
  - cbn [initBuffers]. set (l := diskBufferCache s) in *.
    assert (Hin : forall j, j ∈ rev (seq 0 b) <-> (j < b)%nat).
    { intros j. rewrite <- (Permutation_rev (seq 0 b)). rewrite elem_of_seq. lia. }
    assert (Hnd : NoDup (HEAD :: rev (seq 0 b))).
    { apply NoDup_cons. split; [rewrite Hin; lia|]. rewrite <- Permutation_rev. apply NoDup_seq. }
    destruct (insert_front l (rev (seq 0 b)) b Hd Hnd) as (Hring & Hlinks & Hh & Hhl); try done.
    { apply not_elem_of_cons. rewrite Hin. lia. } { lia. } { intros j Hj%Hin. lia. }
    rewrite bind_nextOf by (fold l; lia). fold l. set (h := nxt l HEAD) in *.
    erewrite bind_Ret; [|apply setNext_eq; fold l; lia]. fold l.
    erewrite bind_Ret; [|apply setPrevious_eq; cbn; rewrite length_alter; lia]. cbn [diskBufferCache set_diskBufferCache].
    erewrite bind_Ret; [|apply sleeplockInitialise_eq; cbn; rewrite !length_alter; lia]. cbn [diskBufferCache set_diskBufferCache].
    rewrite bind_nextOf by (cbn; rewrite !length_alter; lia). cbn [diskBufferCache set_diskBufferCache]. rewrite nxt_alter_lock, Hh.
    erewrite bind_Ret; [|apply setPrevious_eq; cbn; rewrite !length_alter; lia]. cbn [diskBufferCache set_diskBufferCache].
    erewrite bind_Ret; [|apply setNext_eq; cbn; rewrite !length_alter; lia]. cbn [diskBufferCache set_diskBufferCache sync set_sync].
    apply (IH (S b) (b :: rev (seq 0 b))); cbn [diskBufferCache set_diskBufferCache].
    + by rewrite !length_alter.
    + lia.
    + eapply dll_ext; [| |exact Hring].
      * intros j. rewrite !nxt_alter_next by (rewrite !length_alter; lia). unfold fupd. rewrite !nxt_alter_previous, nxt_alter_lock, !nxt_alter_previous. done.
      * intros j. rewrite !prv_alter_next, !prv_alter_previous by (rewrite !length_alter; lia). unfold fupd. rewrite prv_alter_lock.
        by rewrite prv_alter_previous by (rewrite !length_alter; lia).
    + by rewrite seq_S, rev_app_distr.
    + intros i Hi. cbn. destruct (decide (i = b)) as [->|Hne].
      * exists "sleep lock". cbn. apply lookup_insert_eq.
      * destruct (Hfree i ltac:(lia)) as [nm E]. exists nm. cbn. rewrite lookup_insert_ne by congruence. done.
    + intros i Hi. rewrite !(lockWord_alter _ HEAD), (lockWord_alter _ h) by done. unfold lockWord.
      destruct (decide (i = b)) as [->|Hne].
      * rewrite list_lookup_alter_eq. destruct (lookup_lt_is_Some_2 (alter (set_Previous HEAD) b (alter (set_Next h) b l)) b) as [x ->]; [|done].
        rewrite !length_alter. lia.
      * rewrite !list_lookup_alter_ne by done. apply Hlk. lia.
Qed.

Lemma cacheInitialise_spec s : length (diskBufferCache s) = S HEAD ->
  exists s', diskBufferCacheInitialise s = Ret tt s' /\ ring (diskBufferCache s') (rev (seq 0 HEAD)) /\
    (forall i, (i < HEAD)%nat -> lockFree (sync s') (L_buffer i)) /\
    (forall i, (i < HEAD)%nat -> lockWord (diskBufferCache s') i = Some 0).
Proof.
  intros Hlen. unfold diskBufferCacheInitialise. erewrite bind_Ret; [|apply locked_Ret; reflexivity].
  erewrite bind_Ret; [|apply setPrevious_eq; cbn; lia]. cbn [diskBufferCache set_diskBufferCache set_sync].
  erewrite bind_Ret; [|apply setNext_eq; cbn; rewrite length_alter; lia]. cbn [diskBufferCache set_diskBufferCache set_sync].
  apply (initBuffers_spec _ 0 []); cbn [diskBufferCache set_diskBufferCache set_sync].
  - by rewrite !length_alter.
  - done.
  - cbn [dll]. rewrite nxt_alter_next, prv_alter_next, prv_alter_previous by (rewrite ?length_alter; lia).
    unfold fupd. by rewrite !decide_True.
  - done.
  - intros i Hi. lia.
  - intros i Hi. lia.
Qed.

(** * Properties *)

(** C3. The buffer cache, the disk driver and the scheduler together implement
    the block cache that the FAT12 driver is written against: for a disk that
    works, reading any sector of disk 0 and releasing the buffer returns, the
    buffer holds that sector, and the invariant of the cache holds again; the
    file table is not touched. *)
Theorem kernelCache_implements `{Hardware} (disk : Z -> list Z) `{!DiskLaws disk} (c p : nat) (sec : Z) (s : KState) :
  cache_ok disk c p s -> 0 <= sec < 268435456 ->
  exists b s1 s2, @diskBufferRead _ (diskScheduler c p) 0 sec s = Ret b s1 /\
    (exists x, diskBufferCache s1 !! b = Some x /\ BufData x = disk sec) /\
    diskBufferRelease b s1 = Ret tt s2 /\ cache_ok disk c p s2 /\ fileTable s2 = fileTable s.
Proof.
  intros Hok Hsec. destruct (cache_read_release disk c p sec s Hok Hsec) as (b & s1 & s2 & ? & ? & ? & ? & l & Hafter).
  exists b, s1, s2. split_and!; try done. destruct Hafter as (y & t & h & a & e & -> & _). done.
Qed.

(** Which buffer a lookup takes: one that already caches the sector or else
    the least recently used one, the last of the list; no other buffer is
    changed. *)
Theorem diskBufferGet_lru `{Hardware} (disk : Z -> list Z) `{!DiskLaws disk} (c p : nat) (sec : Z) (order : list nat) (s : KState) :
  cache_ok disk c p s -> ring (diskBufferCache s) order -> 0 <= sec < 268435456 ->
  exists b x, chosen (diskBufferCache s) order sec = Some b /\
    @diskBufferGet (diskScheduler c p) 0 sec s =
      Ret b (set_diskBufferCache (<[b := x]> (diskBufferCache s)) (settled s)) /\
    Device x = 0 /\ SectorNumber x = sec /\ BufReferenceCount x = 1 /\ SlLocked (Lock x) = 1.
Proof.
  intros Hok Hring Hsec. destruct (diskBufferGet_spec disk c p sec order s Hok Hring Hsec) as (b & x & Hc & Hg & _ & (? & ? & ? & ?) & _).
  by exists b, x.
Qed.

(** Releasing the last reference to a buffer moves it to the front of the
    list of recently used buffers, in the links in both directions, and
    unlocks it; everything else in the buffers stays. *)
Theorem diskBufferRelease_moves_front (c p : nat) (b : nat) (x : DiskBuffer) (l1 l2 : list nat) (proc : Process) (s : KState) :
  runsOn c p (sync s) -> (forall l, l ∈ cacheLocks -> lockFree (sync s) l) -> table_at p proc (processTable s) ->
  State proc = RUNNING -> ring (diskBufferCache s) (l1 ++ b :: l2) -> diskBufferCache s !! b = Some x ->
  SlLocked (Lock x) = 1 -> BufReferenceCount x = 1 ->
  exists s', diskBufferRelease b s = Ret tt s' /\ ring (diskBufferCache s') (b :: l1 ++ l2) /\
    links_only (<[b := set_BufReferenceCount 0 (unlocked x)]> (diskBufferCache s)) (diskBufferCache s').
Proof.
  intros. destruct (diskBufferRelease_spec c p b x l1 l2 proc s) as (s' & l' & Hrel & Hafter & Hring & Hlinks); try done.
  exists s'. destruct Hafter as (y & t & h & a & e & -> & _). done.
Qed.

(** The initialisation of the cache links all buffers into one list and
    leaves every buffer unlocked. *)
Theorem diskBufferCacheInitialise_ring (s : KState) :
  length (diskBufferCache s) = S HEAD ->
  exists s', diskBufferCacheInitialise s = Ret tt s' /\ ring (diskBufferCache s') (rev (seq 0 HEAD)) /\
    (forall i, (i < HEAD)%nat -> lockFree (sync s') (L_buffer i)) /\
    (forall i, (i < HEAD)%nat -> lockWord (diskBufferCache s') i = Some 0).
Proof. apply cacheInitialise_spec. Qed.


(** * A concrete disk and kernel *)

(** The sector that the last command addressed. *)
Fixpoint lastOut (h : list IoEvent) (port : Z) : Z :=
  match h with
  | [] => 0
  | OutByte q v :: h => if q =? port then v else lastOut h port
  | _ :: h => lastOut h port
  end.

Definition demoSector (h : list IoEvent) : Z :=
  lastOut h 499 + 256 * lastOut h 500 + 65536 * lastOut h 501 + 16777216 * (lastOut h 502 - 224).

(** A disk that is always ready. *)
Definition demoHardware (disk : Z -> list Z) : Hardware :=
  {| portByte := fun _ _ => 64; portSequence := fun h _ _ => disk (demoSector h);
     registerWord := fun _ _ => 0; polls := 1 |}.

Lemma demoHardware_laws disk : (forall n, length (disk n) = 512%nat) -> @DiskLaws (demoHardware disk) disk.
Proof.
  intros Hl. split.
  - exact Hl.
  - intros h. exists 64, (InByte 503 64 :: h). done.
  - intros n h status h' Hn Hp. cbn in Hp. injection Hp as <- <-. cbn [portSequence demoHardware]. f_equal.
    unfold demoSector. cbn [lastOut readCommand Z.eqb Pos.eqb]. zdiv.
Qed.

Definition demoBuffer (i : nat) : DiskBuffer :=
  mkDiskBuffer 0 0 0 (mkSleeplock 0 "buffer" 0) 0 (if decide (i = 29)%nat then HEAD else S i)
    (if decide (i = 0)%nat then HEAD else pred i) None (replicate 512 0).

Definition demoHeadBuffer : DiskBuffer :=
  mkDiskBuffer 0 0 0 (mkSleeplock 0 "" 0) 0 0 29 None [].

Definition demoBuffers : list DiskBuffer := (demoBuffer <$> seq 0 30) ++ [demoHeadBuffer].

Definition demoCacheKernel : KState := set_diskBufferCache demoBuffers demoKernel.

Lemma demo_ring : ring demoBuffers (rev (seq 0 HEAD)).
Proof. split_and!; [reflexivity|vm_compute; repeat split|symmetry; apply Permutation_rev]. Qed.

Lemma demo_buffers i x : (i < HEAD)%nat -> demoBuffers !! i = Some x -> x = demoBuffer i.
Proof.
  intros Hi Hx. change HEAD with 30%nat in Hi. unfold demoBuffers in Hx.
  rewrite lookup_app_l in Hx by (rewrite length_fmap, length_seq; exact Hi).
  rewrite list_lookup_fmap, lookup_seq_lt in Hx by exact Hi. cbn in Hx. by injection Hx as <-.
Qed.

Lemma demo_cache_ok disk : cache_ok disk 0 0 demoCacheKernel.
Proof.
  split.
  - exists (mkCpu 0 1 0 0 (Some 0%nat)). split; [split; reflexivity|]. done.
  - intros l Hl. apply demoKernel_free. unfold cacheLocks in Hl. change HEAD with 30%nat in Hl.
    apply elem_of_app in Hl as [Hl|Hl]; apply elem_of_app; [left; set_solver|by right].
  - exists demoProcess. split; [exact demo_quiet|done].
  - done.
  - exists (rev (seq 0 HEAD)). exact demo_ring.
  - intros i x Hi Hx. rewrite (demo_buffers i x Hi Hx). split; [done|done|by left|discriminate].
Qed.

Lemma kernelCache_implements_witness :
  exists b s1 s2, @diskBufferRead (demoHardware demoDisk) (@diskScheduler (demoHardware demoDisk) 0 0) 0 7 demoCacheKernel = Ret b s1 /\
    diskBufferRelease b s1 = Ret tt s2.
Proof.
  destruct (@kernelCache_implements (demoHardware demoDisk) demoDisk (demoHardware_laws demoDisk demoDisk_length) 0 0 7
    demoCacheKernel (demo_cache_ok demoDisk) ltac:(lia)) as (b & s1 & s2 & H1 & _ & H2 & _).
  exists b, s1, s2. split; [exact H1|exact H2].
Defined.

Lemma diskBufferGet_lru_witness :
  exists b x, chosen demoBuffers (rev (seq 0 HEAD)) 7 = Some b /\
    @diskBufferGet (@diskScheduler (demoHardware demoDisk) 0 0) 0 7 demoCacheKernel =
      Ret b (set_diskBufferCache (<[b := x]> demoBuffers) (settled demoCacheKernel)).
Proof.
  destruct (@diskBufferGet_lru (demoHardware demoDisk) demoDisk (demoHardware_laws demoDisk demoDisk_length) 0 0 7
    (rev (seq 0 HEAD)) demoCacheKernel (demo_cache_ok demoDisk) demo_ring ltac:(lia)) as (b & x & H1 & H2 & _).
  exists b, x. split; [exact H1|exact H2].
Defined.

Lemma diskBufferRelease_moves_front_witness :
  exists s', diskBufferRelease 5 (set_diskBufferCache (<[5%nat := set_BufReferenceCount 1 (lockedBy 1 (demoBuffer 5))]> demoBuffers) demoCacheKernel) = Ret tt s' /\
    ring (diskBufferCache s') (5%nat :: rev (seq 6 24) ++ rev (seq 0 5)).
Proof.
  destruct (diskBufferRelease_moves_front 0 0 5 (set_BufReferenceCount 1 (lockedBy 1 (demoBuffer 5))) (rev (seq 6 24)) (rev (seq 0 5)) demoProcess
    (set_diskBufferCache (<[5%nat := set_BufReferenceCount 1 (lockedBy 1 (demoBuffer 5))]> demoBuffers) demoCacheKernel)) as (s' & H1 & H2 & _).
  - apply (cache_runs _ _ _ _ (demo_cache_ok demoDisk)).
  - apply (cache_locks _ _ _ _ (demo_cache_ok demoDisk)).
  - exact demo_quiet.
  - reflexivity.
  - apply (ring_insert demoBuffers _ 5 (demoBuffer 5)); [reflexivity|reflexivity|reflexivity|exact demo_ring].
  - reflexivity.
  - reflexivity.
  - reflexivity.
  - exists s'. split; [exact H1|exact H2].
Defined.

Lemma diskBufferCacheInitialise_ring_witness :
  exists s', diskBufferCacheInitialise demoCacheKernel = Ret tt s' /\ ring (diskBufferCache s') (rev (seq 0 HEAD)).
Proof.
  destruct (diskBufferCacheInitialise_ring demoCacheKernel) as (s' & H1 & H2 & _); [reflexivity|].
  exists s'. split; [exact H1|exact H2].
Defined.

