(* ===== verification/Pipe.v ===== *)
(** pipe.c, except for [pipealloc] (see Files): a pipe is a ring of 512 bytes
    with two 32-bit counters that are allowed to wrap around.  The theorems
    relate it to a queue of bytes.

    The pipe in page [a] is [pipes s !! a]; giving the page back ends the life
    of the pipe and of its lock.  The bytes that the caller passes or receives
    through [addr] are lists. *)

From S2P Require Import Prelude CString Types Spinlock Kernel Kalloc Sched.

Section Operations.
Context (kernelEnd : Z) `{Scheduler}.

(** [freePhysicalMemoryPage((char * )p)]. *)
Definition freePipePage (a : Z) : M KState unit :=
  freePhysicalMemoryPage kernelEnd a;;
  puts (fun s => set_pipes (delete a (pipes s)) (set_sync (set_locks (delete (L_pipe a) (locks (sync s))) (sync s)) s)).

Definition pipeclose (a : Z) (writable : Z) : M KState unit :=
  acquire (L_pipe a);;
  p ← getPipe a;
  (if negb (writable =? 0) then
     putPipe a (set_WriteOpen 0 p);;
     wakeup (Some (Ch_readCount a))
   else
     putPipe a (set_ReadOpen 0 p);;
     wakeup (Some (Ch_writeCount a)));;
  p ← getPipe a;
  if (ReadOpen p =? 0) && (WriteOpen p =? 0) then
    release (L_pipe a);;
    freePipePage a
  else release (L_pipe a).

(** [myProcess()->IsKilled] *)
Definition currentKilled : M KState bool :=
  p ← currentProcess;
  p ← checked "pipe: null process" p;
  x ← getProcess p;
  mret (negb (IsKilled x =? 0)).

(** The inner loop of [pipewrite]: [true] if it returns -1 from the function. *)
Fixpoint pipeWaitSpace (fuel : nat) (a : Z) : M KState bool :=
  p ← getPipe a;
  if negb (WriteCount p =? u32 (ReadCount p + PIPESIZE)) then mret false
  else
    stop ← (if ReadOpen p =? 0 then mret true else currentKilled);
    if (stop : bool) then release (L_pipe a);; mret true
    else match fuel with
    | O => spin
    | S fuel =>
        wakeup (Some (Ch_readCount a));;
        sleep (Ch_writeCount a) (Some (L_pipe a));;
        pipeWaitSpace fuel a
    end.

Definition putByte (a : Z) (c : Z) : M KState unit :=
  p ← getPipe a;
  data ← checked "pipewrite: Data" (wr (PipeData p) (WriteCount p mod PIPESIZE) c);
  putPipe a (set_PipeData data (set_WriteCount (u32 (WriteCount p + 1)) p)).

(** The bytes still to be written. *)
Fixpoint pipeWriteLoop (a : Z) (bytes : list Z) : M KState bool :=
  match bytes with
  | [] => mret false
  | c :: bytes =>
      stop ← pipeWaitSpace wakeups a;
      if (stop : bool) then mret true
      else putByte a c;; pipeWriteLoop a bytes
  end.

Definition pipewrite (a : Z) (addr : list Z) (n : Z) : M KState Z :=
  acquire (L_pipe a);;
  bytes ← checked "pipewrite: addr" (slice addr 0 (Z.max 0 n));
  stop ← pipeWriteLoop a bytes;
  if (stop : bool) then mret (-1)
  else
    wakeup (Some (Ch_readCount a));;
    release (L_pipe a);;
    mret n.

Fixpoint pipeWaitData (fuel : nat) (a : Z) : M KState bool :=
  p ← getPipe a;
  if negb ((ReadCount p =? WriteCount p) && negb (WriteOpen p =? 0)) then mret false
  else
    stop ← currentKilled;
    if (stop : bool) then release (L_pipe a);; mret true
    else match fuel with
    | O => spin
    | S fuel => sleep (Ch_readCount a) (Some (L_pipe a));; pipeWaitData fuel a
    end.

Definition getByte (a : Z) : M KState Z :=
  p ← getPipe a;
  c ← checked "piperead: Data" (rd (PipeData p) (ReadCount p mod PIPESIZE));
  putPipe a (set_ReadCount (u32 (ReadCount p + 1)) p);;
  mret c.

(** At most [n] bytes. *)
Fixpoint pipeReadLoop (n : nat) (a : Z) : M KState (list Z) :=
  match n with
  | O => mret []
  | S n =>
      p ← getPipe a;
      if ReadCount p =? WriteCount p then mret []
      else c ← getByte a; rest ← pipeReadLoop n a; mret (c :: rest)
  end.

(** The value returned and the bytes stored at [addr]. *)
Definition piperead (a : Z) (n : Z) : M KState (Z * list Z) :=
  acquire (L_pipe a);;
  stop ← pipeWaitData wakeups a;
  if (stop : bool) then mret (-1, [])
  else
    bytes ← pipeReadLoop (Z.to_nat n) a;
    wakeup (Some (Ch_writeCount a));;
    release (L_pipe a);;
    mret (Z.of_nat (length bytes), bytes).

End Operations.

(** * The pipe as a queue *)

(** The counters are below [2^32] and at most 512 apart. *)
Definition pipe_ok (p : Pipe) : Prop :=
  length (PipeData p) = 512%nat /\ 0 <= ReadCount p < 4294967296 /\ 0 <= WriteCount p < 4294967296 /\
  u32 (WriteCount p - ReadCount p) <= 512.

Definition pipeLen (p : Pipe) : Z := u32 (WriteCount p - ReadCount p).

(** [n] bytes of the ring from counter [r] on. *)
Fixpoint ringBytes (data : list Z) (n : nat) (r : Z) : list Z :=
  match n with
  | O => []
  | S n => nth (Z.to_nat (r mod 512)) data 0 :: ringBytes data n (r + 1)
  end.

(** The bytes written and not yet read, the oldest first. *)
Definition contents (p : Pipe) : list Z := ringBytes (PipeData p) (Z.to_nat (pipeLen p)) (ReadCount p).

Lemma ringBytes_length data n : forall r, length (ringBytes data n r) = n.
Proof. induction n as [|n IH]; intros r; cbn; [done|]. by rewrite IH. Qed.

Lemma contents_length p : Z.of_nat (length (contents p)) = pipeLen p.
Proof. unfold contents. rewrite ringBytes_length. unfold pipeLen. pose proof (u32_range (WriteCount p - ReadCount p)). lia. Qed.

(** Wrap-around of the counters is invisible: 512 divides [2^32]. *)
Lemma ringBytes_u32 data n : forall r, ringBytes data n (u32 r) = ringBytes data n r.
Proof.
  induction n as [|n IH]; intros r; cbn [ringBytes]; [done|]. f_equal.
  - f_equal. f_equal. unfold u32. zdiv.
  - rewrite <- (IH (u32 r + 1)), u32_add_l, IH. done.
Qed.

Lemma ringBytes_snoc data n : forall r, ringBytes data (S n) r = ringBytes data n r ++ [nth (Z.to_nat ((r + Z.of_nat n) mod 512)) data 0].
Proof.
  induction n as [|n IH]; intros r; [cbn; by rewrite Z.add_0_r|].
  change (ringBytes data (S (S n)) r) with (nth (Z.to_nat (r mod 512)) data 0 :: ringBytes data (S n) (r + 1)).
  rewrite IH. cbn [ringBytes app]. by replace (r + 1 + Z.of_nat n) with (r + Z.of_nat (S n)) by lia.
Qed.

Lemma ringBytes_insert data n c : forall r w,
  length data = 512%nat -> (n < 512)%nat -> (forall k, 0 <= k < Z.of_nat n -> (r + k) mod 512 <> w mod 512) ->
  ringBytes (<[Z.to_nat (w mod 512) := c]> data) n r = ringBytes data n r.
Proof.
  induction n as [|n IH]; intros r w Hl Hn Hd; cbn [ringBytes]; [done|]. f_equal.
  - rewrite !nth_lookup, list_lookup_insert_ne; [done|]. specialize (Hd 0 ltac:(lia)). rewrite Z.add_0_r in Hd. zdiv.
  - apply IH; [done|lia|]. intros k Hk. specialize (Hd (k + 1) ltac:(lia)). by replace (r + 1 + k) with (r + (k + 1)) by lia.
Qed.

(** Putting and taking a byte. *)
Definition pushed (c : Z) (p : Pipe) : Pipe :=
  set_PipeData (<[Z.to_nat (WriteCount p mod 512) := c]> (PipeData p)) (set_WriteCount (u32 (WriteCount p + 1)) p).

Definition popped (p : Pipe) : Pipe := set_ReadCount (u32 (ReadCount p + 1)) p.

Lemma pushed_spec c p : pipe_ok p -> pipeLen p < 512 ->
  pipe_ok (pushed c p) /\ contents (pushed c p) = contents p ++ [c] /\ pipeLen (pushed c p) = pipeLen p + 1.
Proof.
  intros (Hd & Hr & Hw & Hle) Hlt. unfold pipeLen in Hlt.
  assert (Hlen : pipeLen (pushed c p) = pipeLen p + 1).
  { unfold pipeLen. cbn. unfold u32 in *. zdiv. }
  assert (Hpos : 0 <= pipeLen p) by (unfold pipeLen; pose proof (u32_range (WriteCount p - ReadCount p)); lia).
  split_and!; [|unfold contents; rewrite Hlen|done].
  - split_and!; cbn; [by rewrite length_insert|lia|lia|unfold u32; zdiv|unfold u32; zdiv|].
    change (u32 (u32 (WriteCount p + 1) - ReadCount p)) with (pipeLen (pushed c p)). unfold pipeLen in *. lia.
  - replace (Z.to_nat (pipeLen p + 1)) with (S (Z.to_nat (pipeLen p))) by lia. cbn [PipeData pushed set_PipeData ReadCount set_WriteCount].
    rewrite ringBytes_snoc. f_equal.
    + apply ringBytes_insert; [done|unfold pipeLen in *; lia|]. intros k Hk. unfold pipeLen in *. unfold u32 in *. zdiv.
    + f_equal. replace (Z.to_nat ((ReadCount p + Z.of_nat (Z.to_nat (pipeLen p))) mod 512)) with (Z.to_nat (WriteCount p mod 512)).
      * rewrite nth_lookup, list_lookup_insert_eq by (rewrite Hd; zdiv). done.
      * f_equal. rewrite Z2Nat.id by lia. unfold pipeLen, u32. zdiv.
Qed.

Lemma popped_spec p : pipe_ok p -> 0 < pipeLen p ->
  pipe_ok (popped p) /\
  contents p = nth (Z.to_nat (ReadCount p mod 512)) (PipeData p) 0 :: contents (popped p) /\
  pipeLen (popped p) = pipeLen p - 1.
Proof.
  intros (Hd & Hr & Hw & Hle) Hlt. unfold pipeLen in Hlt.
  assert (Hlen : pipeLen (popped p) = pipeLen p - 1) by (unfold pipeLen; cbn; unfold u32 in *; zdiv).
  split_and!; [|unfold contents; rewrite Hlen|done].
  - split_and!; cbn; [done|unfold u32; zdiv|unfold u32; zdiv|lia|lia|].
    change (u32 (WriteCount p - u32 (ReadCount p + 1))) with (pipeLen (popped p)). unfold pipeLen in *. lia.
  - unfold pipeLen at 1. replace (Z.to_nat (u32 (WriteCount p - ReadCount p))) with (S (Z.to_nat (pipeLen p - 1))) by (unfold pipeLen; lia).
    cbn [ringBytes PipeData popped set_ReadCount ReadCount]. by rewrite ringBytes_u32.
Qed.

(** * What the operations do *)

Definition pushes (p : Pipe) (bytes : list Z) : Pipe := fold_left (fun p c => pushed c p) bytes p.

Fixpoint pops (n : nat) (p : Pipe) : Pipe := match n with O => p | S n => pops n (popped p) end.

Lemma pushes_spec bytes : forall p, pipe_ok p -> pipeLen p + Z.of_nat (length bytes) <= 512 ->
  pipe_ok (pushes p bytes) /\ contents (pushes p bytes) = contents p ++ bytes /\
  pipeLen (pushes p bytes) = pipeLen p + Z.of_nat (length bytes).
Proof.
  induction bytes as [|c bytes IH]; intros p Hp Hl; cbn [pushes fold_left length] in *.
  - by rewrite app_nil_r, Z.add_0_r.
  - destruct (pushed_spec c p Hp ltac:(lia)) as (Hp' & Hc & Hn).
    destruct (IH (pushed c p) Hp' ltac:(lia)) as (H1 & H2 & H3). fold (pushes (pushed c p) bytes) in *.
    split_and!; [done| |lia]. rewrite H2, Hc. by rewrite <- app_assoc.
Qed.

Lemma pops_spec n : forall p, pipe_ok p -> Z.of_nat n <= pipeLen p ->
  pipe_ok (pops n p) /\ contents p = take n (contents p) ++ contents (pops n p) /\ pipeLen (pops n p) = pipeLen p - Z.of_nat n.
Proof.
  induction n as [|n IH]; intros p Hp Hn; cbn [pops].
  - rewrite Z.sub_0_r. done.
  - destruct (popped_spec p Hp ltac:(lia)) as (Hp' & Hc & Hl).
    destruct (IH (popped p) Hp' ltac:(lia)) as (H1 & H2 & H3). split_and!; [done| |lia].
    rewrite Hc at 1 2. cbn [take app]. by f_equal.
Qed.

Lemma pushes_open bytes : forall p, ReadOpen (pushes p bytes) = ReadOpen p /\ WriteOpen (pushes p bytes) = WriteOpen p.
Proof. induction bytes as [|c bytes IH]; intros p; [done|]. cbn. fold (pushes (pushed c p) bytes). by destruct (IH (pushed c p)) as [-> ->]. Qed.

(** The pipe is full exactly when the counters differ by its size. *)
Lemma full_test p : pipe_ok p -> (WriteCount p =? u32 (ReadCount p + PIPESIZE)) = (pipeLen p =? 512).
Proof.
  intros (_ & Hr & Hw & Hle). unfold pipeLen, PIPESIZE in *.
  destruct (Z.eqb_spec (WriteCount p) (u32 (ReadCount p + 512))) as [E|E],
    (Z.eqb_spec (u32 (WriteCount p - ReadCount p)) 512) as [F|F]; try done; exfalso; unfold u32 in *; zdiv.
Qed.

Lemma empty_test p : pipe_ok p -> (ReadCount p =? WriteCount p) = (pipeLen p =? 0).
Proof.
  intros (_ & Hr & Hw & Hle). unfold pipeLen in *.
  destruct (Z.eqb_spec (ReadCount p) (WriteCount p)) as [E|E],
    (Z.eqb_spec (u32 (WriteCount p - ReadCount p)) 0) as [F|F]; try done; exfalso; unfold u32 in *; zdiv.
Qed.

Lemma bind_getPipe {B} a p (k : Pipe -> M KState B) s : pipes s !! a = Some p -> (getPipe a ≫= k) s = k p s.
Proof. intros Hp. unfold getPipe. by rewrite bind_assoc, bind_gets, Hp. Qed.

Lemma putByte_eq a c p s : pipes s !! a = Some p -> pipe_ok p ->
  putByte a c s = Ret tt (set_pipes (<[a := pushed c p]> (pipes s)) s).
Proof.
  intros Hp (Hd & _ & Hw & _). unfold putByte. rewrite (bind_getPipe a p) by done. unfold PIPESIZE.
  rewrite wr_Some by (rewrite Hd; zdiv). by rewrite bind_checked.
Qed.

Lemma getByte_eq a p s : pipes s !! a = Some p -> pipe_ok p ->
  getByte a s = Ret (nth (Z.to_nat (ReadCount p mod 512)) (PipeData p) 0) (set_pipes (<[a := popped p]> (pipes s)) s).
Proof.
  intros Hp (Hd & Hr & _). unfold getByte. rewrite (bind_getPipe a p) by done. unfold PIPESIZE.
  assert (Hrd : rd (PipeData p) (ReadCount p mod 512) = Some (nth (Z.to_nat (ReadCount p mod 512)) (PipeData p) 0)).
  { apply rd_Some. split; [zdiv|]. rewrite nth_lookup. destruct (lookup_lt_is_Some_2 (PipeData p) (Z.to_nat (ReadCount p mod 512))) as [x ->]; [rewrite Hd; zdiv|done]. }
  rewrite Hrd, bind_checked. done.
Qed.

Section PipeProofs.
Context `{Scheduler}.

Lemma pipeWaitSpace_free fuel a p s : pipes s !! a = Some p -> pipe_ok p -> pipeLen p < 512 ->
  pipeWaitSpace fuel a s = Ret false s.
Proof.
  intros Hp Hok Hl. destruct fuel; cbn [pipeWaitSpace]; rewrite (bind_getPipe a p), full_test by done;
    rewrite (proj2 (Z.eqb_neq _ _)) by lia; done.
Qed.

(** As long as there is space, bytes go in. *)
Lemma pipeWriteLoop_fill a b1 : forall b2 p s, pipes s !! a = Some p -> pipe_ok p ->
  pipeLen p + Z.of_nat (length b1) <= 512 ->
  pipeWriteLoop a (b1 ++ b2) s = pipeWriteLoop a b2 (set_pipes (<[a := pushes p b1]> (pipes s)) s).
Proof.
  induction b1 as [|c b1 IH]; intros b2 p s Hp Hok Hl; cbn [app length] in *.
  - cbn [pushes fold_left]. rewrite insert_id by done. by destruct s.
  - cbn [pipeWriteLoop]. erewrite bind_Ret; [|apply (pipeWaitSpace_free _ a p); [done|done|lia]]. cbv iota.
    rewrite (bind_Ret _ _ _ _ _ (putByte_eq a c p s Hp Hok)).
    destruct (pushed_spec c p Hok ltac:(lia)) as (Hok' & _ & Hn).
    rewrite (IH b2 (pushed c p)); [|cbn; apply lookup_insert_eq|done|lia]. cbn. by rewrite insert_insert_eq.
Qed.

Lemma pipeReadLoop_eq a n : forall p s, pipes s !! a = Some p -> pipe_ok p ->
  let k := Nat.min n (Z.to_nat (pipeLen p)) in
  pipeReadLoop n a s = Ret (take n (contents p)) (set_pipes (<[a := pops k p]> (pipes s)) s).
Proof.
  induction n as [|n IH]; intros p s Hp Hok k; unfold k; clear k.
  - cbn. rewrite insert_id by done. by destruct s.
  - assert (Hpos : 0 <= pipeLen p) by (unfold pipeLen; pose proof (u32_range (WriteCount p - ReadCount p)); lia).
    cbn [pipeReadLoop]. rewrite (bind_getPipe a p), empty_test by done. destruct (Z.eqb_spec (pipeLen p) 0) as [E|E].
    + rewrite E, Nat.min_0_r. cbn [pops]. rewrite insert_id by done. unfold contents. rewrite E. by destruct s.
    + destruct (popped_spec p Hok ltac:(lia)) as (Hok' & Hc & Hn).
      rewrite (bind_Ret _ _ _ _ _ (getByte_eq a p s Hp Hok)).
      erewrite bind_Ret; [|apply (IH (popped p)); [cbn; apply lookup_insert_eq|done]].
      rewrite Hc. unfold mret, M_ret. cbn [take]. f_equal. rewrite Hn.
      replace (Nat.min (S n) (Z.to_nat (pipeLen p))) with (S (Nat.min n (Z.to_nat (pipeLen p - 1)))) by lia.
      cbn. by rewrite insert_insert_eq.
Qed.

(** A write that fits. *)
Lemma pipewrite_fits a p addr n s :
  balanced 2 (sync s) -> lockFree (sync s) (L_pipe a) -> lockFree (sync s) L_processTable ->
  pipes s !! a = Some p -> pipe_ok p -> 0 <= n <= Z.of_nat (length addr) -> pipeLen p + n <= 512 ->
  pipewrite a addr n s = Ret n (set_processTable (map (wake1 (Some (Ch_readCount a))) (processTable s))
    (set_pipes (<[a := pushes p (take (Z.to_nat n) addr)]> (pipes s)) (settled s))).
Proof.
  intros Hb Hl Hpt Hp Hok Hn Hfit. assert (Hb1 : balanced 1 (sync s)) by (by apply (balanced_weaken 2)).
  unfold pipewrite. rewrite (bind_Ret _ _ _ _ _ (acquire_entered _ s Hb1 Hl)).
  rewrite Z.max_r, slice_Some by lia. rewrite bind_checked. change (Z.to_nat 0) with 0%nat. rewrite drop_0.
  erewrite bind_Ret.
  2: { rewrite <- (app_nil_r (take (Z.to_nat n) addr)).
       rewrite (pipeWriteLoop_fill a _ [] p); [reflexivity|done|done|rewrite length_take; lia]. }
  cbv iota.
  erewrite bind_Ret; [|by apply (wakeup_inside (L_pipe a) _ _ (sync s))].
  erewrite bind_Ret; [|by apply (release_settled _ s)]. done.
Qed.

(** A read that need not wait. *)
Lemma piperead_ready a p n s :
  balanced 2 (sync s) -> lockFree (sync s) (L_pipe a) -> lockFree (sync s) L_processTable ->
  pipes s !! a = Some p -> pipe_ok p -> (0 < pipeLen p \/ WriteOpen p = 0) ->
  let k := Nat.min (Z.to_nat n) (Z.to_nat (pipeLen p)) in
  piperead a n s = Ret (Z.of_nat k, take (Z.to_nat n) (contents p))
    (set_processTable (map (wake1 (Some (Ch_writeCount a))) (processTable s))
      (set_pipes (<[a := pops k p]> (pipes s)) (settled s))).
Proof.
  intros Hb Hl Hpt Hp Hok Hr k. assert (Hb1 : balanced 1 (sync s)) by (by apply (balanced_weaken 2)).
  unfold piperead. rewrite (bind_Ret _ _ _ _ _ (acquire_entered _ s Hb1 Hl)).
  assert (Hw : forall fuel, pipeWaitData fuel a (entered (L_pipe a) s) = Ret false (entered (L_pipe a) s)).
  { intros fuel. assert (E : negb ((ReadCount p =? WriteCount p) && negb (WriteOpen p =? 0)) = true).
    { rewrite empty_test by done. destruct Hr as [Hr| ->]; [by rewrite (proj2 (Z.eqb_neq _ 0)) by lia|by rewrite andb_false_r]. }
    destruct fuel; cbn [pipeWaitData]; rewrite (bind_getPipe a p) by done; by rewrite E. }
  rewrite (bind_Ret _ _ _ _ _ (Hw _)). cbv iota.
  erewrite bind_Ret; [|by apply (pipeReadLoop_eq a _ p)].
  erewrite bind_Ret; [|by apply (wakeup_inside (L_pipe a) _ _ (sync s))].
  erewrite bind_Ret; [|by apply (release_settled _ s)]. unfold mret, M_ret. f_equal. f_equal.
  rewrite length_take. pose proof (contents_length p). lia.
Qed.

End PipeProofs.

(** * Properties *)

Definition pipe_ready (a : Z) (s : KState) : Prop :=
  balanced 2 (sync s) /\ lockFree (sync s) (L_pipe a) /\ lockFree (sync s) L_processTable.

(** Any process may write and read the pipe in page [a], in any order; between
    two calls the rest of the kernel may change.  The logs hold what was
    written and what was read. *)
Inductive pipe_step `{Scheduler} (a : Z) : KState * list Z * list Z -> KState * list Z * list Z -> Prop :=
| pipe_writes s0 s s' p addr n written read :
    pipes s !! a = pipes s0 !! a -> pipe_ready a s -> pipes s !! a = Some p ->
    0 <= n <= Z.of_nat (length addr) -> pipeLen p + n <= 512 ->
    pipewrite a addr n s = Ret n s' ->
    pipe_step a (s0, written, read) (s', written ++ take (Z.to_nat n) addr, read)
| pipe_reads s0 s s' p n k bytes written read :
    pipes s !! a = pipes s0 !! a -> pipe_ready a s -> pipes s !! a = Some p ->
    (0 < pipeLen p \/ WriteOpen p = 0) ->
    piperead a n s = Ret (k, bytes) s' ->
    pipe_step a (s0, written, read) (s', written, read ++ bytes).


(** A write that does not fit fills the pipe first.  If the read end is
    closed it then gives the lock back and returns -1; if not, and nobody
    resumes it, it sleeps on the write counter with the lock released, after
    it has woken the readers up. *)
Theorem pipewrite_overfull `{Scheduler} (a : Z) (pr : nat) (proc : Process) (p : Pipe) (addr : list Z) (n : Z) (s : KState) :
  thread (sync s) pr -> lockFree (sync s) (L_pipe a) -> lockFree (sync s) L_processTable ->
  processTable s !! pr = Some proc -> IsKilled proc = 0 -> State proc = RUNNING ->
  pipes s !! a = Some p -> pipe_ok p -> 0 <= n <= Z.of_nat (length addr) -> 512 < pipeLen p + n ->
  let full := pushes p (take (Z.to_nat (512 - pipeLen p)) addr) in
  contents full = contents p ++ take (Z.to_nat (512 - pipeLen p)) addr /\
  (ReadOpen p = 0 -> pipewrite a addr n s = Ret (-1) (set_pipes (<[a := full]> (pipes s)) (settled s))) /\
  (ReadOpen p <> 0 -> (0 < wakeups)%nat -> (forall s, resume s = None) ->
   exists s', pipewrite a addr n s = Sleep s' /\ pipes s' !! a = Some full /\ lockFree (sync s') (L_pipe a) /\
     option_map State (processTable s' !! pr) = Some SLEEPING /\
     option_map Chan (processTable s' !! pr) = Some (Some (Ch_writeCount a))).
Proof.
  intros Ht Hl Hpt Hpr Hk Hrun Hp Hok Hn Hover full.
  pose proof (thread_balanced 2 _ _ ltac:(lia) Ht) as Hb. assert (Hb1 : balanced 1 (sync s)) by (by apply (balanced_weaken 2)).
  assert (Hle : 0 <= pipeLen p <= 512) by (destruct Hok as (_ & _ & _ & ?); unfold pipeLen; pose proof (u32_range (WriteCount p - ReadCount p)); lia).
  set (sp := Z.to_nat (512 - pipeLen p)) in *.
  destruct (pushes_spec (take sp addr) p Hok) as (Hok' & Hc' & Hlen'); [rewrite length_take; lia|]. fold full in Hok', Hc', Hlen'.
  assert (Hfull : pipeLen full = 512) by (rewrite Hlen', length_take; unfold sp; lia).
  split; [done|].
  set (s1 := set_pipes (<[a := full]> (pipes s)) (entered (L_pipe a) s)).
  assert (Hsplit : exists c rest, take (Z.to_nat n) addr = take sp addr ++ c :: rest).
  { destruct (lookup_lt_is_Some_2 addr sp) as [c Hc]; [unfold sp; lia|].
    exists c, (take (Z.to_nat n - S sp) (drop (S sp) addr)).
    rewrite <- (take_drop_middle addr sp c Hc) at 1. rewrite take_app, length_take_le by (unfold sp; lia).
    rewrite (take_ge (take sp addr)) by (rewrite length_take; unfold sp; lia).
    replace (Z.to_nat n - sp)%nat with (S (Z.to_nat n - S sp)) by (unfold sp; lia). done. }
  destruct Hsplit as (c & rest & Hsplit).
  assert (Hstart : pipewrite a addr n s =
    (stop ← pipeWriteLoop a (c :: rest); if (stop : bool) then mret (-1) else wakeup (Some (Ch_readCount a));; release (L_pipe a);; mret n) s1).
  { unfold pipewrite. rewrite (bind_Ret _ _ _ _ _ (acquire_entered _ s Hb1 Hl)).
    rewrite Z.max_r, slice_Some by lia. rewrite bind_checked. change (Z.to_nat 0) with 0%nat. rewrite drop_0, Hsplit.
    unfold mbind at 1 2, M_bind at 1 2. rewrite (pipeWriteLoop_fill a _ (c :: rest) p); [done|done|done|rewrite length_take; unfold sp; lia]. }
  rewrite Hstart. cbn [pipeWriteLoop].
  assert (Hp1 : pipes s1 !! a = Some full) by (cbn; apply lookup_insert_eq).
  destruct (pushes_open (take sp addr) p) as [Hro _]. fold full in Hro.
  split.
  - intros Hclosed. assert (Hws : forall fuel, pipeWaitSpace fuel a s1 = Ret true (set_pipes (<[a := full]> (pipes s)) (settled s))).
    { intros fuel. destruct fuel; cbn [pipeWaitSpace]; rewrite (bind_getPipe a full), full_test, Hfull, Hro, Hclosed by done; cbn [Z.eqb Pos.eqb negb];
        rewrite bind_mret; cbv iota; erewrite bind_Ret by (by apply (release_settled _ s)); done. }
    rewrite bind_assoc, (bind_Ret _ _ _ _ _ (Hws _)). cbv iota. rewrite bind_mret. done.
  - intros Hopen Hw Hno. destruct wakeups as [|w] eqn:Ew; [lia|]. cbn [pipeWaitSpace].
    set (s2 := set_processTable (map (wake1 (Some (Ch_readCount a))) (processTable s)) s1).
    assert (Hproc2 : processTable s2 !! pr = Some proc).
    { cbn. change (map ?f ?l) with (f <$> l). rewrite list_lookup_fmap, Hpr. cbn. unfold wake1. by rewrite Hrun. }
    pose proof (sleep_spec (Ch_writeCount a) (L_pipe a) pr (sync s) s2 eq_refl Ht ltac:(done) Hl Hpt (ex_intro _ proc Hproc2)) as Hsl.
    rewrite Hno in Hsl. exists (asleep pr (Ch_writeCount a) (sync s) s2). split_and!.
    + apply bind_Sleep, bind_Sleep. rewrite (bind_getPipe a full), full_test, Hfull, Hro by done. cbn [Z.eqb Pos.eqb negb].
      rewrite (proj2 (Z.eqb_neq _ 0) Hopen).
      assert (Hck : currentKilled s1 = Ret false s1).
      { unfold currentKilled. rewrite (bind_Ret _ _ _ _ _ (currentProcess_section (L_pipe a) s1 (sync s) pr eq_refl Ht)), bind_checked.
        erewrite bind_Ret; [|apply getProcess_eq; exact Hpr]. by rewrite Hk. }
      rewrite (bind_Ret _ _ _ _ _ Hck). cbv iota. erewrite bind_Ret; [|by apply (wakeup_inside (L_pipe a) _ _ (sync s))].
      by apply bind_Sleep.
    + cbn. apply lookup_insert_eq.
    + cbn. by apply acq_lockFree.
    + cbn. change (map ?f ?l) with (f <$> l). rewrite list_lookup_alter_eq, list_lookup_fmap, Hpr. done.
    + cbn. change (map ?f ?l) with (f <$> l). rewrite list_lookup_alter_eq, list_lookup_fmap, Hpr. done.
Qed.

(** A pipe whose counters are about to wrap around. *)
Definition demoPipe (readOpen : Z) : Pipe := mkPipe (replicate 512 0) 4294967295 4294967295 readOpen 1.

Definition demoPipeKernel (readOpen : Z) : KState := set_pipes {[ 2155872256 := demoPipe readOpen ]} demoKernel.

Lemma demoPipe_ok readOpen : pipe_ok (demoPipe readOpen).
Proof. split_and!; vm_compute; done. Qed.

Lemma demoPipe_ready : pipe_ready 2155872256 demoKernel.
Proof.
  split_and!; [by apply demoKernel_balanced|apply demoKernel_free; unfold demoLockList; set_solver|apply demoKernel_table].
Qed.


Lemma pipewrite_overfull_witness :
  exists s', @pipewrite demoAlone 2155872256 (replicate 600 65) 600 (demoPipeKernel 0) = Ret (-1) s' /\
    pipeLen <$> pipes s' !! 2155872256 = Some 512.
Proof.
  destruct demoPipe_ready as (Hb & Hl & Hpt).
  destruct (@pipewrite_overfull demoAlone 2155872256 0 demoProcess (demoPipe 0) (replicate 600 65) 600 (demoPipeKernel 0)
    demoKernel_thread Hl Hpt eq_refl eq_refl eq_refl ltac:(reflexivity) (demoPipe_ok 0) ltac:(vm_compute; split; discriminate) ltac:(vm_compute; reflexivity)) as (_ & H & _).
  eexists. split; [apply H; reflexivity|]. cbn [pipes set_pipes]. rewrite lookup_insert_eq. vm_compute. reflexivity.
Defined.

(** * Closing *)

(** The pipe with one end closed, and the counter whose sleepers are woken. *)
Definition endClosed (w : Z) (p : Pipe) : Pipe := if w =? 0 then set_ReadOpen 0 p else set_WriteOpen 0 p.
Definition endChan (a w : Z) : ChanId := if w =? 0 then Ch_writeCount a else Ch_readCount a.

Lemma pipeclose_eq kernelEnd a w p s :
  balanced 2 (sync s) -> lockFree (sync s) (L_pipe a) -> lockFree (sync s) L_processTable -> pipes s !! a = Some p ->
  let p' := endClosed w p in
  let s' := set_processTable (map (wake1 (Some (endChan a w))) (processTable s)) (set_pipes (<[a := p']> (pipes s)) (settled s)) in
  pipeclose kernelEnd a w s =
    if (ReadOpen p' =? 0) && (WriteOpen p' =? 0) then freePipePage kernelEnd a s' else Ret tt s'.
Proof.
  intros Hb Hl Hpt Hp p' s'. assert (Hb1 : balanced 1 (sync s)) by (by apply (balanced_weaken 2)).
  unfold pipeclose. rewrite (bind_Ret _ _ _ _ _ (acquire_entered _ s Hb1 Hl)), (bind_getPipe a p) by done.
  erewrite bind_Ret.
  2: { instantiate (1 := set_processTable (map (wake1 (Some (endChan a w))) (processTable s)) (set_pipes (<[a := p']> (pipes s)) (entered (L_pipe a) s))).
       instantiate (1 := tt). unfold p', endClosed, endChan, putPipe. destruct (w =? 0); cbn [negb]; rewrite bind_puts;
       rewrite (wakeup_inside (L_pipe a) _ _ (sync s)); done. }
  rewrite (bind_getPipe a p') by (cbn; apply lookup_insert_eq).
  destruct ((ReadOpen p' =? 0) && (WriteOpen p' =? 0)).
  - erewrite bind_Ret; [|by apply (release_settled _ s)]. done.
  - erewrite release_settled; done.
Qed.

(** Closing one end of a pipe wakes up whoever sleeps on the other end.  As
    long as that other end is open the pipe and its bytes stay; closing the
    second end gives the page back to the allocator, and the pipe with its lock
    is gone. *)
Theorem pipeclose_outcome (kernelEnd a w : Z) (p : Pipe) (free : list Z) (s : KState) :
  balanced 2 (sync s) -> lockFree (sync s) (L_pipe a) -> lockFree (sync s) L_processTable -> lockFree (sync s) L_kernelMemory ->
  pipes s !! a = Some p -> free_pages kernelEnd s free -> page_ok kernelEnd a -> a ∉ free ->
  exists s', pipeclose kernelEnd a w s = Ret tt s' /\
    processTable s' = map (wake1 (Some (if w =? 0 then Ch_writeCount a else Ch_readCount a))) (processTable s) /\
    ((if w =? 0 then WriteOpen p else ReadOpen p) <> 0 ->
      contents <$> pipes s' !! a = Some (contents p) /\ free_pages kernelEnd s' free) /\
    ((if w =? 0 then WriteOpen p else ReadOpen p) = 0 ->
      pipes s' !! a = None /\ locks (sync s') !! L_pipe a = None /\ free_pages kernelEnd s' (a :: free)).
Proof.
  intros Hb Hl Hpt Hkm Hp Hfree Hok Ha. rewrite (pipeclose_eq kernelEnd a w p) by done. cbv zeta.
  set (p' := endClosed w p). set (s1 := set_processTable _ _).
  set (other := if w =? 0 then WriteOpen p else ReadOpen p).
  assert (E : (ReadOpen p' =? 0) && (WriteOpen p' =? 0) = (other =? 0)).
  { unfold p', endClosed, other. destruct (w =? 0); cbn [ReadOpen WriteOpen set_ReadOpen set_WriteOpen Z.eqb]; [done|by rewrite andb_true_r]. }
  rewrite E. destruct (Z.eqb_spec other 0) as [E0|E0].
  - assert (Hr : kmem_ready s1) by (right; split; [apply settle_balanced, (balanced_weaken 2); done|by apply settle_lockFree]).
    destruct (free_spec kernelEnd a s1 free Hfree Hok Ha Hr) as (s2 & Hf & Hfp & _ & _ & Es2).
    assert (Ept : processTable s2 = processTable s1) by (rewrite Es2; unfold kmem_settled; by destruct (UseLock s1 =? 0)).
    eexists. split; [unfold freePipePage; rewrite (bind_Ret _ _ _ _ _ Hf); reflexivity|].
    cbn. split_and!; [exact Ept|done|]. intros _. split_and!; [apply lookup_delete_eq|apply lookup_delete_eq|exact Hfp].
  - exists s1. split_and!; [done|done| |done]. intros _. split; [|exact Hfree].
    cbn [pipes s1 set_processTable set_pipes]. rewrite lookup_insert_eq. cbn. f_equal. unfold p', endClosed. by destruct (w =? 0).
Qed.

Lemma pipeclose_outcome_witness :
  exists s', pipeclose demoEnd 2155872256 1 (demoPipeKernel 0) = Ret tt s' /\ free_pages demoEnd s' [2155872256].
Proof.
  destruct demoPipe_ready as (Hb & Hl & Hpt).
  destruct (pipeclose_outcome demoEnd 2155872256 1 (demoPipe 0) [] (demoPipeKernel 0) Hb Hl Hpt) as (s' & H & _ & _ & H2).
  - apply demoKernel_free. unfold demoLockList. set_solver.
  - reflexivity.
  - exact demoPages_empty.
  - exact demoPage_ok.
  - apply not_elem_of_nil.
  - exists s'. split; [exact H|]. apply H2. reflexivity.
Defined.
