(* ===== verification/Files.v ===== *)
(** file.c, the table of open files, and the two functions of pipe.c that
    work on it.  The file table is the implementation of the interface that
    the FAT12 driver uses ([Fat12Dir.FileTable]); together with the buffer
    cache it gives the theorems about opening files a concrete kernel.

    A [File *] is the index of its slot. *)

From S2P Require Import Prelude CString CArray Types Fat12 Fat12Dir Fat12Open Spinlock Kernel Kalloc Sched Idle Sleeplock Ide Disk Bio Pipe.

(** * Operations *)

Definition getSlot (p : nat) : M KState File :=
  l ← gets fileTable; checked "File: bad pointer" (l !! p).

Definition putSlot (p : nat) (f : File) : M KState unit :=
  puts (fun s => set_fileTable (<[p := f]> (fileTable s)) s).

Definition filesInitialise : M KState unit :=
  locked (spinlockInitialise L_FileTable "FileTable");;
  acquire L_FileTable;;
  puts (fun s => set_fileTable (map (set_ReferenceCount 0) (fileTable s)) s);;
  release L_FileTable.

(** The first free slot, from slot [i] on. *)
Fixpoint findFree (i : nat) (l : list File) : option nat :=
  match l with
  | [] => None
  | f :: l => if ReferenceCount f =? 0 then Some i else findFree (S i) l
  end.

Definition allocateFileStructure : M KState (option nat) :=
  acquire L_FileTable;;
  l ← gets fileTable;
  match findFree 0 l with
  | Some p =>
      f ← getSlot p;
      putSlot p (set_ReferenceCount 1 f);;
      release L_FileTable;;
      mret (Some p)
  | None => release L_FileTable;; mret None
  end.

Definition fileDup (p : nat) : M KState nat :=
  acquire L_FileTable;;
  f ← getSlot p;
  if ReferenceCount f <? 1 then panic "fileDup"
  else
    putSlot p (set_ReferenceCount (i32 (ReferenceCount f + 1)) f);;
    release L_FileTable;;
    mret p.

Section Operations.
Context (kernelEnd : Z).

(** [ff] is the copy on the stack; [fsFat12Close] changes only that copy. *)
Definition fileClose (p : nat) : M KState unit :=
  acquire L_FileTable;;
  f ← getSlot p;
  if ReferenceCount f <? 1 then panic "fileClose"
  else
    let f := set_ReferenceCount (i32 (ReferenceCount f - 1)) f in
    putSlot p f;;
    if ReferenceCount f >? 0 then release L_FileTable
    else
      let ff := f in
      putSlot p (set_Type_ FD_NONE (set_ReferenceCount 0 f));;
      release L_FileTable;;
      match Type_ ff with
      | FD_PIPE => pipeclose kernelEnd (PipePtr ff) (Writable ff)
      | FD_FILE | FD_DIR => let _ := fsFat12Close ff in mret tt
      | _ => mret tt
      end.

Definition fileStat (p : nat) : M KState Z :=
  f ← getSlot p;
  if bool_decide (Type_ f = FD_FILE \/ Type_ f = FD_DIR) then mret 0 else mret (-1).

(** [p = 0] is the null pointer. *)
Definition freepiperesources (p : Z) (f0 f1 : option nat) : M KState unit :=
  (if negb (p =? 0) then freePhysicalMemoryPage kernelEnd p else mret tt);;
  match f0 with Some f => fileClose f | None => mret tt end;;
  match f1 with Some f => fileClose f | None => mret tt end.

(** [Data] of the structure in page [a], after the 52 bytes of the lock. *)
Definition pageData (m : mem) (a : Z) : list Z := map (fun i => m (a + 52 + Z.of_nat i)) (seq 0 512).

(** The result and what is stored at [f0] and [f1]. *)
Definition pipealloc : M KState (Z * option nat * option nat) :=
  f0 ← allocateFileStructure;
  f1 ← match f0 with None => mret None | Some _ => allocateFileStructure end;
  match f0, f1 with
  | Some f, Some g =>
      p ← allocatePhysicalMemoryPage;
      if p =? 0 then freepiperesources 0 f0 f1;; mret (-1, f0, f1)
      else
        puts (fun s => set_pipes (<[p := mkPipe (pageData (kmem s) p) 0 0 1 1]> (pipes s)) s);;
        locked (spinlockInitialise (L_pipe p) "Pipe");;
        x ← getSlot f;
        putSlot f (set_PipePtr p (set_Writable 0 (set_Readable 1 (set_Type_ FD_PIPE x))));;
        x ← getSlot g;
        putSlot g (set_PipePtr p (set_Writable 1 (set_Readable 0 (set_Type_ FD_PIPE x))));;
        mret (0, f0, f1)
  | _, _ => freepiperesources 0 f0 f1;; mret (-1, f0, f1)
  end.

(** An entry of [devices]: a function pointer may be null. *)
Record Device : Type := mkDevice {
  read : option (nat -> Z -> M KState (Z * list Z));
  write : option (nat -> list Z -> Z -> M KState Z)
}.

Context (devices : list Device) `{Scheduler} `{BlockCache KState}.

(** The value returned and the bytes stored at [addr]. *)
Definition fileRead (p : nat) (n : Z) : M KState (Z * list Z) :=
  f ← getSlot p;
  if Readable f =? 0 then mret (-1, [])
  else match Type_ f with
  | FD_DEVICE =>
      d ← checked "fileRead: devices" (rd devices (DeviceID f));
      g ← checked "fileRead: read" (read d);
      g p n
  | FD_PIPE => piperead (PipePtr f) n
  | FD_FILE | FD_DIR =>
      v ← gets volume;
      '(r, bytes, f) ← fsFat12Read v f (u32 n);
      putSlot p f;;
      mret (i32 r, bytes)
  | FD_NONE => panic "fileRead"
  end.

Definition fileWrite (p : nat) (addr : list Z) (n : Z) : M KState Z :=
  f ← getSlot p;
  if Writable f =? 0 then mret (-1)
  else match Type_ f with
  | FD_DEVICE =>
      d ← checked "fileWrite: devices" (rd devices (DeviceID f));
      g ← checked "fileWrite: write" (write d);
      g p addr n
  | FD_PIPE => pipewrite (PipePtr f) addr n
  | _ => panic "fileWrite"
  end.

End Operations.

(** * What the operations do *)

Lemma findFree_spec l : forall i, findFree i l = option_map (fun p => (i + p)%nat) (firstFree l).
Proof.
  unfold firstFree. induction l as [|f l IH]; intros i; cbn [findFree list_find]; [done|].
  destruct (Z.eqb_spec (ReferenceCount f) 0) as [E|E].
  - rewrite decide_True by done. cbn. f_equal. lia.
  - rewrite decide_False, IH by done. destruct (list_find _ l) as [[j g]|]; cbn; [|done]. f_equal. lia.
Qed.

Lemma findFree_firstFree l : findFree 0 l = firstFree l.
Proof. rewrite findFree_spec. by destruct (firstFree l). Qed.

Lemma firstFree_Some l p : firstFree l = Some p -> exists f, l !! p = Some f /\ ReferenceCount f = 0.
Proof.
  unfold firstFree. intros ([j f] & Hf & E)%fmap_Some. apply list_find_Some in Hf. cbn in E. subst. naive_solver.
Qed.

Lemma firstFree_None l : firstFree l = None -> Forall (fun f => ReferenceCount f <> 0) l.
Proof. unfold firstFree. intros E%fmap_None%list_find_None. done. Qed.

Lemma bind_getSlot {B} p f (k : File -> M KState B) s : fileTable s !! p = Some f -> (getSlot p ≫= k) s = k f s.
Proof. intros Hp. unfold getSlot. by rewrite bind_assoc, bind_gets, Hp. Qed.

Lemma bind_putSlot {B} p f (k : unit -> M KState B) s :
  (putSlot p f ≫= k) s = k tt (set_fileTable (<[p := f]> (fileTable s)) s).
Proof. done. Qed.

(** The table's lock can be taken. *)
Definition table_ready (s : KState) : Prop := balanced 1 (sync s) /\ lockFree (sync s) L_FileTable.

Lemma alloc_file_eq s : table_ready s ->
  allocateFileStructure s = match firstFree (fileTable s) with
    | Some p => Ret (Some p) (set_fileTable (alter (set_ReferenceCount 1) p (fileTable s)) (settled s))
    | None => Ret None (settled s)
    end.
Proof.
  intros [Hb Hl]. unfold allocateFileStructure. rewrite (bind_Ret _ _ _ _ _ (acquire_entered _ s Hb Hl)), bind_gets, findFree_firstFree.
  change (fileTable (entered L_FileTable s)) with (fileTable s). destruct (firstFree (fileTable s)) as [p|] eqn:E.
  - apply firstFree_Some in E as (f & Hf & _). rewrite (bind_getSlot p f), bind_putSlot by done.
    erewrite bind_Ret; [|by apply (release_settled _ s)]. by rewrite (alter_insert _ _ _ f) by done.
  - erewrite bind_Ret; [|by apply (release_settled _ s)]. done.
Qed.

Lemma dup_eq p f s : table_ready s -> fileTable s !! p = Some f ->
  fileDup p s = if ReferenceCount f <? 1 then Panic "fileDup"
    else Ret p (set_fileTable (<[p := set_ReferenceCount (i32 (ReferenceCount f + 1)) f]> (fileTable s)) (settled s)).
Proof.
  intros [Hb Hl] Hp. unfold fileDup. rewrite (bind_Ret _ _ _ _ _ (acquire_entered _ s Hb Hl)), (bind_getSlot p f) by done.
  case_match; [done|]. rewrite bind_putSlot. erewrite bind_Ret; [|by apply (release_settled _ s)]. done.
Qed.

(** Closing: what is left to do is closing the pipe of the last reference. *)
Definition closed (f : File) : File := set_Type_ FD_NONE (set_ReferenceCount 0 f).

Lemma close_eq kernelEnd p f s : table_ready s -> fileTable s !! p = Some f -> -2147483647 <= ReferenceCount f < 2147483648 ->
  fileClose kernelEnd p s =
    if ReferenceCount f <? 1 then Panic "fileClose"
    else if ReferenceCount f >? 1 then
      Ret tt (set_fileTable (<[p := set_ReferenceCount (ReferenceCount f - 1) f]> (fileTable s)) (settled s))
    else
      let s' := set_fileTable (<[p := closed f]> (fileTable s)) (settled s) in
      if decide (Type_ f = FD_PIPE) then pipeclose kernelEnd (PipePtr f) (Writable f) s' else Ret tt s'.
Proof.
  intros [Hb Hl] Hp Hr. unfold fileClose. rewrite (bind_Ret _ _ _ _ _ (acquire_entered _ s Hb Hl)), (bind_getSlot p f) by done.
  case_match; bdestr; [done|]. rewrite i32_small, bind_putSlot by lia. cbn [ReferenceCount set_ReferenceCount].
  rewrite !Z.gtb_ltb. destruct (Z.ltb_spec 1 (ReferenceCount f)) as [E|E].
  - rewrite (proj2 (Z.ltb_lt _ _)) by lia. erewrite (release_settled _ s); done.
  - rewrite (proj2 (Z.ltb_ge _ _)) by lia. cbn zeta. rewrite bind_putSlot.
    erewrite bind_Ret; [|by apply (release_settled _ s)]. cbn [Type_ set_ReferenceCount fileTable set_fileTable entered set_sync].
    rewrite list_insert_insert_eq. destruct (Type_ f) eqn:Et; case_decide; done.
Qed.

(** * Operations that leave the table alone *)

Definition keeps {A X : Type} (g : KState -> X) (c : M KState A) : Prop :=
  forall s a s', c s = Ret a s' -> g s' = g s.

Section Keeps.
Context {X : Type} (g : KState -> X).

Lemma keeps_bind {A B} (c : M KState A) (k : A -> M KState B) :
  keeps g c -> (forall a, keeps g (k a)) -> keeps g (c ≫= k).
Proof. intros Hc Hk s b s2 (a & s1 & H1 & H2)%bind_Ret_inv. rewrite (Hk a _ _ _ H2). by eapply Hc. Qed.

Lemma keeps_mret {A} (a : A) : keeps g (mret a).
Proof. by intros s b s' [= _ <-]. Qed.

Lemma keeps_gets {A} (f : KState -> A) : keeps g (gets f).
Proof. by intros s b s' [= _ <-]. Qed.

Lemma keeps_puts f : (forall s, g (f s) = g s) -> keeps g (puts f).
Proof. intros Hf s b s' [= _ <-]. apply Hf. Qed.

Lemma keeps_checked {A} why (o : option A) : keeps g (checked why o).
Proof. destruct o; [apply keeps_mret|by intros s b s']. Qed.

Lemma keeps_panic {A} why : keeps g (@panic KState A why).
Proof. by intros s b s'. Qed.

Lemma keeps_locked {A} (c : M Sync A) : (forall y s, g (set_sync y s) = g s) -> keeps g (locked c).
Proof. intros Hg s a s'. unfold locked. destruct (c (sync s)); intros; simplify_eq. apply Hg. Qed.
End Keeps.

#[export] Hint Resolve keeps_mret keeps_gets keeps_checked keeps_panic : uodos.

Ltac keeps_tac :=
  repeat first
    [ apply keeps_bind; [|intros ?] | apply keeps_locked; by intros | apply keeps_puts; by intros
    | by auto with uodos | case_match ].

Lemma freePage_keeps kernelEnd a : keeps fileTable (freePhysicalMemoryPage kernelEnd a).
Proof. unfold freePhysicalMemoryPage, acquire, release. keeps_tac. Qed.

Lemma wakeup_keeps chan : keeps fileTable (wakeup chan).
Proof. unfold wakeup, wakeup1, acquire, release. keeps_tac. Qed.

#[export] Hint Resolve freePage_keeps wakeup_keeps : uodos.

Lemma pipeclose_keeps kernelEnd a w : keeps fileTable (pipeclose kernelEnd a w).
Proof. unfold pipeclose, freePipePage, getPipe, putPipe, acquire, release. keeps_tac. Qed.

Lemma acquire_keeps l : keeps fileTable (acquire l).
Proof. unfold acquire. keeps_tac. Qed.

Lemma release_keeps l : keeps fileTable (release l).
Proof. unfold release. keeps_tac. Qed.

(** * Reference counting *)

(** [H : (c ≫= k) s = Ret a s']: the first step returns. *)
Tactic Notation "step" ident(H) "as" ident(a) ident(s) ident(E) := apply bind_Ret_inv in H as (a & s & E & H).

Lemma getSlot_inv p f s s' : getSlot p s = Ret f s' -> s' = s /\ fileTable s !! p = Some f.
Proof.
  unfold getSlot. rewrite bind_gets. destruct (fileTable s !! p) as [g|]; [|done]. by intros [= <- <-].
Qed.

Lemma alloc_file_inv o s s' : allocateFileStructure s = Ret o s' -> o = firstFree (fileTable s) /\
  fileTable s' = match o with Some p => alter (set_ReferenceCount 1) p (fileTable s) | None => fileTable s end.
Proof.
  unfold allocateFileStructure. intros H. step H as u s1 E1. apply acquire_keeps in E1. rewrite bind_gets, findFree_firstFree, E1 in H.
  destruct (firstFree (fileTable s)) as [p|].
  - step H as f s2 E2. apply getSlot_inv in E2 as [-> Hf]. rewrite bind_putSlot in H. step H as w s3 E3. apply release_keeps in E3.
    injection H as <- <-. split; [done|]. rewrite E1 in Hf. rewrite E3. cbn. by rewrite E1, (alter_insert _ _ _ f).
  - step H as w s3 E3. apply release_keeps in E3. injection H as <- <-. split; [done|]. by rewrite E3.
Qed.

Lemma dup_inv p q s s' : fileDup p s = Ret q s' -> exists f, fileTable s !! p = Some f /\
  fileTable s' = <[p := set_ReferenceCount (i32 (ReferenceCount f + 1)) f]> (fileTable s).
Proof.
  unfold fileDup. intros H. step H as u s1 E1. apply acquire_keeps in E1. step H as f s2 E2.
  apply getSlot_inv in E2 as [-> Hf]. rewrite E1 in Hf. exists f. split; [done|].
  case_match; [done|]. rewrite bind_putSlot in H. step H as w s3 E3. apply release_keeps in E3. injection H as _ <-.
  rewrite E3. cbn. by rewrite E1.
Qed.

(** Closing leaves one reference less. *)
Lemma close_inv kernelEnd p s s' : fileClose kernelEnd p s = Ret tt s' -> exists f g, fileTable s !! p = Some f /\
  fileTable s' = <[p := g]> (fileTable s) /\
  (-2147483647 <= ReferenceCount f < 2147483648 -> ReferenceCount g = ReferenceCount f - 1).
Proof.
  unfold fileClose. intros H. step H as u s1 E1. apply acquire_keeps in E1. step H as f s2 E2.
  apply getSlot_inv in E2 as [-> Hf]. rewrite E1 in Hf. exists f. destruct (ReferenceCount f <? 1) eqn:Ef; [done|]. bdestr.
  rewrite bind_putSlot in H. cbn [ReferenceCount set_ReferenceCount] in H. destruct (i32 (ReferenceCount f - 1) >? 0) eqn:Eg.
  - apply release_keeps in H. eexists. split; [done|]. rewrite H. cbn. rewrite E1. split; [done|]. cbn. intros. by rewrite i32_small by lia.
  - cbv zeta in H. rewrite bind_putSlot in H. step H as w s3 E3. apply release_keeps in E3. cbn in E3.
    rewrite E1, list_insert_insert_eq in E3. exists (closed (set_ReferenceCount (i32 (ReferenceCount f - 1)) f)). split; [done|]. split.
    + transitivity (fileTable s3); [|done]. cbn [Type_ set_ReferenceCount] in H.
      destruct (Type_ f); try (by injection H as <-). by apply pipeclose_keeps in H.
    + intros Hr. cbn. rewrite i32_small in Eg by lia. rewrite Z.gtb_ltb in Eg. bdestr. lia.
Qed.

(** Clients of the table: [h] are the references they hold. Between the
    operations they may do anything with the files except count references. *)
Inductive file_step (kernelEnd : Z) : KState * list nat -> KState * list nat -> Prop :=
| file_allocates s s' o h : allocateFileStructure s = Ret o s' -> file_step kernelEnd (s, h) (s', option_list o ++ h)
| file_dups s s' p h : p ∈ h -> Z.of_nat (length h) < 2147483647 -> fileDup p s = Ret p s' -> file_step kernelEnd (s, h) (s', p :: h)
| file_closes s s' p h1 h2 : Z.of_nat (length (h1 ++ p :: h2)) < 2147483648 ->
    fileClose kernelEnd p s = Ret tt s' -> file_step kernelEnd (s, h1 ++ p :: h2) (s', h1 ++ h2)
| file_uses s s' h : map ReferenceCount (fileTable s') = map ReferenceCount (fileTable s) -> file_step kernelEnd (s, h) (s', h).

Definition held (p : nat) (h : list nat) : Z := Z.of_nat (count_occ Nat.eq_dec h p).

(** Every slot counts the references to it; every reference is to a slot. *)
Definition counted (s : KState) (h : list nat) : Prop :=
  (forall p f, fileTable s !! p = Some f -> ReferenceCount f = held p h) /\
  (forall p, p ∈ h -> (p < length (fileTable s))%nat).

Lemma held_cons p q h : held p (q :: h) = (if decide (p = q) then 1 else 0) + held p h.
Proof. unfold held. cbn. destruct (Nat.eq_dec q p), (decide (p = q)); subst; try done; lia. Qed.

Lemma held_app p h1 h2 : held p (h1 ++ h2) = held p h1 + held p h2.
Proof. unfold held. rewrite count_occ_app. lia. Qed.

Lemma held_pos p h : 0 < held p h <-> p ∈ h.
Proof. unfold held. rewrite list_elem_of_In, (count_occ_In Nat.eq_dec). lia. Qed.

Lemma held_le p h : held p h <= Z.of_nat (length h).
Proof. unfold held. pose proof (count_occ_bound Nat.eq_dec p h). lia. Qed.

(** One slot changes. *)
Lemma counted_insert s s' p f g h h' : counted s h -> fileTable s !! p = Some f -> fileTable s' = <[p := g]> (fileTable s) ->
  ReferenceCount g = held p h' -> (forall q, q <> p -> held q h' = held q h) -> counted s' h'.
Proof.
  intros [Hc Hin] Hp E Hg Ho. pose proof (lookup_lt_Some _ _ _ Hp) as Hlt. split.
  - intros q x. rewrite E. intros Hq. apply list_lookup_insert_Some in Hq as [(<- & <- & _)|[Hne Hq]]; [done|].
    rewrite Ho by done. by apply Hc.
  - intros q Hq. rewrite E, length_insert. destruct (decide (q = p)) as [->|Hne]; [done|]. apply Hin, held_pos.
    rewrite <- Ho by done. by apply held_pos.
Qed.

Lemma file_step_counted kernelEnd x x' : file_step kernelEnd x x' -> counted x.1 x.2 -> counted x'.1 x'.2.
Proof.
  intros [s s' o h H|s s' p h Hp Hlen H|s s' p h1 h2 Hlen H|s s' h E] [Hc Hin]; cbn [fst snd] in *.
  - apply alloc_file_inv in H as [-> E]. destruct (firstFree (fileTable s)) as [p|] eqn:F.
    + change (option_list (Some p) ++ h) with (p :: h). apply firstFree_Some in F as (f & Hf & Hz). rewrite (alter_insert _ _ _ f) in E by done.
      apply (counted_insert s s' p f (set_ReferenceCount 1 f) h); try done.
      * rewrite held_cons, decide_True, <- (Hc p f), Hz by done. done.
      * intros q Hq. by rewrite held_cons, decide_False.
    + split; by rewrite E.
  - apply dup_inv in H as (f & Hf & E). pose proof (Hc p f Hf) as Hr. pose proof (held_le p h).
    eapply (counted_insert s s' p f _ h); [done|done|exact E| |].
    + cbn. rewrite held_cons, decide_True, Hr by done. unfold held in *. rewrite i32_small by lia. lia.
    + intros q Hq. by rewrite held_cons, decide_False.
  - apply close_inv in H as (f & g & Hf & E & Hg). pose proof (Hc p f Hf) as Hr. pose proof (held_le p (h1 ++ p :: h2)) as Hle.
    rewrite held_app, held_cons, decide_True in Hr, Hle by done. assert (0 <= held p h1 /\ 0 <= held p h2) by (unfold held; lia).
    eapply (counted_insert s s' p f g (h1 ++ p :: h2)); [done|done|exact E| |].
    + rewrite held_app. rewrite Hg by lia. lia.
    + intros q Hq. by rewrite !held_app, held_cons, decide_False.
  - split.
    + intros p f' Hp. assert (Hm : map ReferenceCount (fileTable s') !! p = Some (ReferenceCount f')).
      { change (map ?f ?l) with (f <$> l). by rewrite list_lookup_fmap, Hp. }
      rewrite E in Hm. change (map ?f ?l) with (f <$> l) in Hm. rewrite list_lookup_fmap in Hm.
      destruct (fileTable s !! p) as [f|] eqn:Hf; [|done]. injection Hm as <-. by apply Hc.
    + apply (f_equal length) in E. rewrite !length_map in E. intros p Hp. rewrite E. by apply Hin.
Qed.

(** * The file table for the FAT12 driver *)

Definition kernelFiles (kernelEnd : Z) : FileTable KState :=
  {| Fat12Dir.allocateFileStructure := allocateFileStructure;
     Fat12Dir.fileClose := fileClose kernelEnd;
     Fat12Dir.files := fileTable;
     Fat12Dir.set_files := set_fileTable |}.

(** The file system is at rest: the cache is, the table is unlocked. *)
Record files_ok (disk : Z -> list Z) (c p : nat) (s : KState) : Prop := {
  files_cache : cache_ok disk c p s;
  files_lock : lockFree (sync s) L_FileTable;
  files_names : Forall (fun f => length (FileName f) = 256%nat) (fileTable s)
}.

Lemma files_ready disk c p s : files_ok disk c p s -> table_ready s.
Proof.
  intros [Hc Hl _]. split; [|done]. apply (thread_balanced 1 _ p); [lia|]. eapply runsOn_thread, cache_runs, Hc.
Qed.

Lemma cache_ok_settled disk c p s : cache_ok disk c p s -> cache_ok disk c p (settled s).
Proof.
  intros [H1 H2 H3 H4 H5 H6]. split; try done; [by apply runsOn_settle|]. intros l Hl. by apply settle_lockFree, H2.
Qed.

Lemma cache_ok_fileTable disk c p s l : cache_ok disk c p s -> cache_ok disk c p (set_fileTable l s).
Proof. intros [H1 H2 H3 H4 H5 H6]. by split. Qed.

Lemma files_ok_set disk c p s l : files_ok disk c p s -> Forall (fun f => length (FileName f) = 256%nat) l ->
  files_ok disk c p (set_fileTable l s).
Proof. intros [H1 H2 H3] Hl. split; [by apply cache_ok_fileTable|done|done]. Qed.

Lemma files_ok_settled disk c p s : files_ok disk c p s -> files_ok disk c p (settled s).
Proof. intros [H1 H2 H3]. split; [by apply cache_ok_settled|by apply settle_lockFree|done]. Qed.

Section Laws.
Context `{Hardware} (disk : Z -> list Z) `{!DiskLaws disk} (c p : nat) (kernelEnd : Z).

Lemma kernelFiles_cache l :
  @BlockCacheLaws KState (kernelCache c p) (fun s => files_ok disk c p s /\ fileTable s = l) disk.
Proof.
  split; [apply disk_sector|]. intros sec s [[Hok Hl Hn] Hf] Hsec.
  destruct (cache_read_release disk c p sec s Hok Hsec) as (b & s1 & s2 & Hr & (x & Hx & Hd) & Hrel & Hok2 & l2 & Hafter).
  exists b, s1, s2. cbn. rewrite Hx. assert (Et : fileTable s2 = fileTable s) by (by destruct Hafter as (y & t & h & a & e & -> & _)).
  split_and!; try done; [|by rewrite Et]. split; [done|by eapply after_disk_locks|by rewrite Et].
Qed.

(** The kernel's file table and buffer cache do for the driver what it relies
    on. *)
Lemma kernelFiles_laws :
  @FileSystemLaws KState (kernelCache c p) (kernelFiles kernelEnd) (files_ok disk c p) disk.
Proof.
  split; cbn [files set_files Fat12Dir.allocateFileStructure Fat12Dir.fileClose kernelFiles].
  - exact kernelFiles_cache.
  - intros s Hs. apply Hs.
  - intros l s Hs _ Hl. split; [|done]. by apply files_ok_set.
  - intros s q f Hs Hq Hf. eexists. split; [by rewrite alloc_file_eq, Hq by (by eapply files_ready)|].
    rewrite (alter_insert _ _ _ f) by done. split; [|done]. apply files_ok_set; [by apply files_ok_settled|].
    apply Forall_insert; [apply Hs|]. exact (proj1 (Forall_lookup _ _) (files_names _ _ _ _ Hs) q f Hf).
  - intros s q f Hs Hf Ht Hr. eexists. split.
    + rewrite (close_eq kernelEnd q f); [|by eapply files_ready|done|lia]. rewrite Hr, Ht. cbn. reflexivity.
    + split; [|done]. apply files_ok_set; [by apply files_ok_settled|].
      apply Forall_insert; [apply Hs|]. exact (proj1 (Forall_lookup _ _) (files_names _ _ _ _ Hs) q f Hf).
Qed.

End Laws.

(** * Properties *)



(** * Making a pipe *)

Lemma table_ready_settled s : table_ready s -> table_ready (settled s).
Proof. intros [Hb Hl]. split; [by apply settle_balanced|by apply settle_lockFree]. Qed.

(** Closing a slot that was just allocated. *)
Lemma close_fresh kernelEnd p f s : table_ready s -> fileTable s !! p = Some f -> ReferenceCount f = 1 -> Type_ f <> FD_PIPE ->
  fileClose kernelEnd p s = Ret tt (set_fileTable (<[p := closed f]> (fileTable s)) (settled s)).
Proof.
  intros Hr Hp Hc Ht. rewrite (close_eq kernelEnd p f) by (done || lia). rewrite Hc. cbn. by rewrite decide_False.
Qed.

Lemma same_open_undo l p f : l !! p = Some f -> ReferenceCount f = 0 ->
  same_open l (<[p := closed (set_ReferenceCount 1 f)]> l).
Proof. intros Hp Hz. by eapply same_open_free. Qed.

(** No slot that is free still says it is a pipe. *)
Definition no_stale_pipe (l : list File) : Prop := Forall (fun f => ReferenceCount f = 0 -> Type_ f <> FD_PIPE) l.

Lemma firstFree_again l p q f : firstFree (<[p := set_ReferenceCount 1 f]> l) = Some q -> l !! p = Some f ->
  q <> p /\ exists g, l !! q = Some g /\ ReferenceCount g = 0.
Proof.
  intros (g & Hg & Hz)%firstFree_Some Hp. apply list_lookup_insert_Some in Hg as [(<- & <- & _)|[Hne Hg]]; [done|].
  split; [done|]. by exists g.
Qed.

(** The ends of the pipe in page [a]. *)
Definition readEnd (a : Z) (f : File) : File := set_PipePtr a (set_Writable 0 (set_Readable 1 (set_Type_ FD_PIPE (set_ReferenceCount 1 f)))).
Definition writeEnd (a : Z) (f : File) : File := set_PipePtr a (set_Writable 1 (set_Readable 0 (set_Type_ FD_PIPE (set_ReferenceCount 1 f)))).

Lemma pageData_fresh m a : pipe_ok (mkPipe (pageData m a) 0 0 1 1) /\ contents (mkPipe (pageData m a) 0 0 1 1) = [].
Proof. split; [|done]. split_and!; [done|cbn; lia|cbn; lia|cbn; lia|cbn; lia|vm_compute; discriminate]. Qed.

Lemma insert_pair {A} (l : list A) p q x x' y y' : p <> q ->
  <[q := y']> (<[p := x']> (<[q := y]> (<[p := x]> l))) = <[q := y']> (<[p := x']> l).
Proof. intros Hne. by rewrite (list_insert_insert_ne _ p q), !list_insert_insert_eq. Qed.

Section PipeAlloc.
Context (kernelEnd : Z) (s : KState) (free : list Z).
Context (Hr : table_ready s) (Hkm : lockFree (sync s) L_kernelMemory).
Context (Hfree : free_pages kernelEnd s free) (Hst : no_stale_pipe (fileTable s)).

Lemma pipealloc_no_slot : firstFree (fileTable s) = None -> pipealloc kernelEnd s = Ret (-1, None, None) (settled s).
Proof.
  intros F. unfold pipealloc. erewrite bind_Ret; [|rewrite alloc_file_eq, F by done; reflexivity]. done.
Qed.

Lemma stale_free p f : fileTable s !! p = Some f -> ReferenceCount f = 0 -> Type_ f <> FD_PIPE.
Proof. intros Hp. exact (proj1 (Forall_lookup _ _) Hst p f Hp). Qed.

Lemma pipealloc_one_slot p f : firstFree (fileTable s) = Some p -> fileTable s !! p = Some f -> ReferenceCount f = 0 ->
  firstFree (<[p := set_ReferenceCount 1 f]> (fileTable s)) = None ->
  exists s', pipealloc kernelEnd s = Ret (-1, Some p, None) s' /\ same_open (fileTable s) (fileTable s') /\
    free_pages kernelEnd s' free.
Proof.
  intros F Hp Hz G. pose proof (lookup_lt_Some _ _ _ Hp) as Hlt. unfold pipealloc.
  erewrite bind_Ret; [|rewrite alloc_file_eq, F, (alter_insert _ _ _ f) by done; reflexivity].
  set (s1 := set_fileTable _ _). assert (Hr1 : table_ready s1) by (by apply table_ready_settled).
  erewrite bind_Ret; [|rewrite alloc_file_eq by done; cbn [fileTable s1 set_fileTable]; rewrite G; reflexivity].
  unfold freepiperesources. cbn [Z.eqb negb]. rewrite !bind_assoc, bind_mret, bind_assoc.
  erewrite bind_Ret; [|apply (close_fresh kernelEnd p (set_ReferenceCount 1 f)); [by apply table_ready_settled|slot_stored|done|exact (stale_free p f Hp Hz)]].
  eexists. split; [reflexivity|]. cbn. rewrite list_insert_insert_eq. split; [by apply same_open_undo|done].
Qed.

Lemma pipealloc_two_slots p f q g : firstFree (fileTable s) = Some p -> fileTable s !! p = Some f -> ReferenceCount f = 0 ->
  firstFree (<[p := set_ReferenceCount 1 f]> (fileTable s)) = Some q -> q <> p -> fileTable s !! q = Some g -> ReferenceCount g = 0 ->
  match free with
  | [] => exists s', pipealloc kernelEnd s = Ret (-1, Some p, Some q) s' /\ same_open (fileTable s) (fileTable s') /\
      free_pages kernelEnd s' []
  | a :: rest => exists s', pipealloc kernelEnd s = Ret (0, Some p, Some q) s' /\
      fileTable s' = <[q := writeEnd a g]> (<[p := readEnd a f]> (fileTable s)) /\ free_pages kernelEnd s' rest /\
      pipes s' = <[a := mkPipe (pageData (kmem s) a) 0 0 1 1]> (pipes s) /\ lockFree (sync s') (L_pipe a)
  end.
Proof.
  intros F Hp Hz G Hne Hq Hz2. pose proof (lookup_lt_Some _ _ _ Hp). pose proof (lookup_lt_Some _ _ _ Hq).
  set (f1 := set_ReferenceCount 1 f). set (g1 := set_ReferenceCount 1 g).
  set (s1 := set_fileTable (<[p := f1]> (fileTable s)) (settled s)).
  assert (Hr1 : table_ready s1) by (by apply table_ready_settled).
  set (s2 := set_fileTable (<[q := g1]> (<[p := f1]> (fileTable s))) (settled s1)).
  assert (Hr2 : table_ready s2) by (by apply table_ready_settled).
  assert (E1 : allocateFileStructure s = Ret (Some p) s1) by (by rewrite alloc_file_eq, F, (alter_insert _ _ _ f)).
  assert (E2 : allocateFileStructure s1 = Ret (Some q) s2).
  { rewrite alloc_file_eq by done. cbn [fileTable s1 set_fileTable]. fold f1 in G. rewrite G, (alter_insert _ _ _ g); [done|].
    by rewrite list_lookup_insert_ne. }
  assert (Hkr : kmem_ready s2) by (right; split; [apply Hr2|by do 2 apply settle_lockFree]).
  assert (Hfp : free_pages kernelEnd s2 free) by exact Hfree.
  assert (Hs2p : fileTable s2 !! p = Some f1) by (cbn; rewrite list_lookup_insert_ne by done; by apply list_lookup_insert_eq).
  assert (Hs2q : fileTable s2 !! q = Some g1) by slot_stored.
  assert (Hks : forall x : KState, fileTable (kmem_settled x) = fileTable x) by (intros x; unfold kmem_settled; by destruct (UseLock x =? 0)).
  unfold pipealloc. rewrite (bind_Ret _ _ _ _ _ E1), (bind_Ret _ _ _ _ _ E2). destruct free as [|a rest].
  - rewrite (bind_Ret _ _ _ _ _ (alloc_empty kernelEnd s2 Hfp Hkr)). change (0 =? 0) with true. cbv iota.
    set (s3 := kmem_settled s2). assert (Hr3 : table_ready s3).
    { unfold s3, kmem_settled. destruct (UseLock s2 =? 0); [done|]. by apply table_ready_settled. }
    unfold freepiperesources. change (negb (0 =? 0)) with false. cbv iota. rewrite !bind_assoc, bind_mret, bind_assoc.
    erewrite bind_Ret; [|apply (close_fresh kernelEnd p f1 s3); [done|by unfold s3; rewrite Hks|done|exact (stale_free p f Hp Hz)]].
    rewrite ?bind_assoc. erewrite bind_Ret; [|apply (close_fresh kernelEnd q g1); [by apply table_ready_settled| |done|exact (stale_free q g Hq Hz2)]].
    2: { cbn. unfold s3. rewrite Hks, list_lookup_insert_ne; done. }
    eexists. split; [reflexivity|]. split.
    + cbn. unfold s3. rewrite Hks. cbn. rewrite insert_pair by done.
      transitivity (<[p := closed f1]> (fileTable s)); [by apply same_open_undo|]. apply same_open_undo; [by rewrite list_lookup_insert_ne|done].
    + unfold free_pages, s3, kmem_settled in *. cbn. by destruct (UseLock s =? 0).
  - destruct (alloc_spec kernelEnd s2 a rest Hfp Hkr) as (s3 & E3 & Hrest & _ & Hpage & Es3).
    rewrite (bind_Ret _ _ _ _ _ E3), (proj2 (Z.eqb_neq a 0)) by (destruct Hpage; lia). rewrite bind_puts.
    assert (Et3 : fileTable s3 = fileTable s2) by (rewrite Es3; cbn; apply Hks).
    assert (Em3 : kmem s3 = kmem s /\ pipes s3 = pipes s) by (rewrite Es3; unfold kmem_settled; cbn; by destruct (UseLock s =? 0)).
    erewrite bind_Ret; [|reflexivity].
    erewrite (bind_getSlot p f1); [|cbn; by rewrite Et3]. rewrite bind_putSlot.
    erewrite (bind_getSlot q g1); [|cbn; by rewrite Et3, list_lookup_insert_ne]. rewrite bind_putSlot.
    destruct Em3 as [Em3 Ep3]. eexists. split; [reflexivity|]. cbn. rewrite Et3, Em3, Ep3. split_and!; [|exact Hrest|done|].
    + cbn. rewrite insert_pair by done. done.
    + eexists. cbn. apply lookup_insert_eq.
Qed.

End PipeAlloc.

(** Making a pipe either succeeds, with an empty pipe in a page that was
    free, a read end and a write end in two slots that were free, the other
    slots unchanged and the pipe's lock free, or fails because there are fewer
    than two free slots or no free page, and then nothing is lost: the open
    files and the free pages are the same as before. *)
Theorem pipealloc_outcome (kernelEnd : Z) (free : list Z) (s : KState) :
  table_ready s -> lockFree (sync s) L_kernelMemory -> free_pages kernelEnd s free -> no_stale_pipe (fileTable s) ->
  exists r f0 f1 s', pipealloc kernelEnd s = Ret (r, f0, f1) s' /\
    ((r = 0 /\ exists a rest p q f g pipe, free = a :: rest /\ f0 = Some p /\ f1 = Some q /\ p <> q /\
        fileTable s !! p = Some f /\ ReferenceCount f = 0 /\ fileTable s !! q = Some g /\ ReferenceCount g = 0 /\
        fileTable s' = <[q := writeEnd a g]> (<[p := readEnd a f]> (fileTable s)) /\ free_pages kernelEnd s' rest /\
        pipes s' !! a = Some pipe /\ pipe_ok pipe /\ contents pipe = [] /\ ReadOpen pipe = 1 /\ WriteOpen pipe = 1 /\
        lockFree (sync s') (L_pipe a)) \/
     (r = -1 /\ same_open (fileTable s) (fileTable s') /\ free_pages kernelEnd s' free /\
        (free = [] \/ forall p q f g, p <> q -> fileTable s !! p = Some f -> fileTable s !! q = Some g ->
           ReferenceCount f <> 0 \/ ReferenceCount g <> 0))).
Proof.
  intros Hr Hkm Hfree Hst. destruct (firstFree (fileTable s)) as [p|] eqn:F.
  2: { eexists _, _, _, _. split; [by apply pipealloc_no_slot|]. right. split_and!; try done. right.
       intros p q f g _ Hp _. left. apply firstFree_None in F. exact (proj1 (Forall_lookup _ _) F p f Hp). }
  destruct (firstFree_Some _ _ F) as (f & Hp & Hz).
  destruct (firstFree (<[p := set_ReferenceCount 1 f]> (fileTable s))) as [q|] eqn:G.
  - destruct (firstFree_again _ _ _ _ G Hp) as (Hne & g & Hq & Hz2).
    pose proof (pipealloc_two_slots kernelEnd s free Hr Hkm Hfree Hst p f q g F Hp Hz G Hne Hq Hz2) as Hcase.
    destruct free as [|a rest].
    + destruct Hcase as (s' & E & Hs & Hf). eexists _, _, _, s'. split; [exact E|]. right. split_and!; try done. by left.
    + destruct Hcase as (s' & E & Ht & Hf & Hpipe & Hlk). eexists _, _, _, s'. split; [exact E|]. left. split; [done|].
      destruct (pageData_fresh (kmem s) a). exists a, rest, p, q, f, g, (mkPipe (pageData (kmem s) a) 0 0 1 1).
      split_and!; try done. by rewrite Hpipe, lookup_insert_eq.
  - destruct (pipealloc_one_slot kernelEnd s free Hr Hfree Hst p f F Hp Hz G) as (s' & E & Hs & Hf).
    eexists _, _, _, s'. split; [exact E|]. right. split_and!; try done. right. intros i j x y Hij Hi Hj.
    pose proof (firstFree_None _ G) as G'. rewrite Forall_lookup in G'.
    destruct (decide (i = p)) as [->|Hi'].
    + right. apply (G' j). by rewrite list_lookup_insert_ne.
    + left. apply (G' i). by rewrite list_lookup_insert_ne.
Qed.

(** * A concrete kernel with files *)

Definition demoFileKernel : KState := set_fileTable (replicate 3 freeFile) demoCacheKernel.

Lemma demo_files_ok disk : files_ok disk 0 0 demoFileKernel.
Proof.
  split; [apply cache_ok_fileTable, demo_cache_ok|apply demoKernel_free; unfold demoLockList; set_solver|exact (freeFile_ok 3)].
Qed.


Lemma demoFile_ready : table_ready demoFileKernel.
Proof. exact (files_ready _ _ _ _ (demo_files_ok demoDisk)). Qed.


Lemma pipealloc_outcome_witness :
  exists p q s', pipealloc demoEnd (set_FreeList 2155872256 demoFileKernel) = Ret (0, Some p, Some q) s' /\ p <> q /\
    contents <$> pipes s' !! 2155872256 = Some [] /\ free_pages demoEnd s' [].
Proof.
  destruct (pipealloc_outcome demoEnd [2155872256] (set_FreeList 2155872256 demoFileKernel)) as (r & f0 & f1 & s' & E & H).
  - exact demoFile_ready.
  - apply demoKernel_free. unfold demoLockList. set_solver.
  - split_and!; [split; reflexivity|constructor; [exact demoPage_ok|constructor]|apply NoDup_singleton].
  - repeat constructor; discriminate.
  - destruct H as [(-> & a & rest & p & q & f & g & pipe & [= <- <-] & -> & -> & Hne & Hp & Hzp & Hq & Hzq & Ht & Hf & Hpipe & _ & Hc & _)
      |(_ & _ & _ & [H|H])]; [|discriminate|destruct (H 0%nat 1%nat freeFile freeFile); done].
    exists p, q, s'. split; [exact E|]. split; [exact Hne|]. split; [by rewrite Hpipe; cbn; rewrite Hc|exact Hf].
Defined.
