(* ===== verification/Console.v ===== *)
(** console.c and uart.c: output to the screen and the serial line, and the
    input buffer with its line editing; also [processDump] of proc.c and
    [getProcessCallStack] of spinlock.c, which print through it.

    The screen is the memory at [crt], its cursor is kept by the display
    controller behind two ports.  A format is a list of characters, and an
    argument of [cprintf] is a word or the string that the word points to.
    [panic] is elsewhere the outcome [Panic]; [panic_] is what it shows. *)

From S2P Require Import Prelude CString Types Numerals Spinlock Kernel Sched Ide Apic Kbd Pipe Files.

(** The characters of a literal. *)
Definition chars (s : string) : list Z := (fun a => Z.of_N (Ascii.N_of_ascii a)) <$> String.list_ascii_of_string s.

Fixpoint upToNul (l : list Z) : list Z :=
  match l with
  | [] => []
  | c :: l => if c =? 0 then [] else c :: upToNul l
  end.

Definition COM1 : Z := 1016.
Definition CRTPORT : Z := 980.
Definition BACKSPACE : Z := 256.
Definition INPUT_BUF : Z := 128.

(** P2V(0xb8000) *)
Definition crt : Z := 2148237312.

(** "0123456789abcdef" *)
Definition lowerDigits : list Z := [48; 49; 50; 51; 52; 53; 54; 55; 56; 57; 97; 98; 99; 100; 101; 102].

(** An argument of [cprintf]. *)
Inductive Arg : Type := Num (w : Z) | Str (s : list Z).

Section Console.
Context `{Hardware} `{Scheduler}.

Definition getConsole {A} (f : ConsoleState -> A) : M KState A := gets (fun s => f (console s)).
Definition putConsole (f : ConsoleState -> ConsoleState) : M KState unit := puts (fun s => set_console (f (console s)) s).

(** * The serial line (uart.c) *)

(** At most [n] looks at the status. *)
Fixpoint uartWait (n : nat) : M KState unit :=
  match n with
  | O => mret tt
  | S n => st ← inputByteFromPort (COM1 + 5); if Z.land st 32 =? 0 then uartWait n else mret tt
  end.

Definition uartputc (c : Z) : M KState unit :=
  u ← getConsole uart;
  if u =? 0 then mret tt
  else uartWait 128;; outputByteToPort COM1 c.

Definition uartgetc : M KState Z :=
  u ← getConsole uart;
  if u =? 0 then mret (-1)
  else
    st ← inputByteFromPort (COM1 + 5);
    if Z.land st 1 =? 0 then mret (-1) else inputByteFromPort COM1.

Fixpoint uartPuts (l : list Z) : M KState unit :=
  match l with
  | [] => mret tt
  | c :: l => uartputc c;; uartPuts l
  end.

Definition uartinit : M KState unit :=
  outputByteToPort (COM1 + 2) 0;;
  outputByteToPort (COM1 + 3) 128;;
  outputByteToPort (COM1 + 0) (115200 / 9600);;
  outputByteToPort (COM1 + 1) 0;;
  outputByteToPort (COM1 + 3) 3;;
  outputByteToPort (COM1 + 4) 0;;
  outputByteToPort (COM1 + 1) 1;;
  st ← inputByteFromPort (COM1 + 5);
  if st =? 255 then mret tt
  else
    putConsole (set_uart 1);;
    inputByteFromPort (COM1 + 2);;
    inputByteFromPort (COM1 + 0);;
    ioApicEnable IRQ_COM1 0;;
    uartPuts (chars "xv6..." ++ [10]).

(** * The screen *)

(** [crt[pos] = v] *)
Definition storeCell (pos v : Z) : M KState unit := storeHalf (padd crt (2 * pos)) v.

Definition cgaputc (c : Z) : M KState unit :=
  outputByteToPort CRTPORT 14;;
  hi ← inputByteFromPort (CRTPORT + 1);
  outputByteToPort CRTPORT 15;;
  lo ← inputByteFromPort (CRTPORT + 1);
  let pos := Z.lor (Z.shiftl hi 8) lo in
  pos ← (if c =? 10 then mret (pos + (80 - pos mod 80))
         else if c =? BACKSPACE then mret (if 0 <? pos then pos - 1 else pos)
         else storeCell pos (Z.lor (Z.land c 255) 1792);; mret (pos + 1));
  if (pos <? 0) || (25 * 80 <? pos) then panic "pos under/overflow"
  else
    pos ← (if 24 <=? pos / 80 then
             puts (fun s => set_kmem (memmove (kmem s) crt (padd crt 160) (2 * 23 * 80)) s);;
             let pos := pos - 80 in
             puts (fun s => set_kmem (memset (kmem s) (padd crt (2 * pos)) 0 (2 * (24 * 80 - pos))) s);;
             mret pos
           else mret pos);
    outputByteToPort CRTPORT 14;;
    outputByteToPort (CRTPORT + 1) (Z.shiftr pos 8);;
    outputByteToPort CRTPORT 15;;
    outputByteToPort (CRTPORT + 1) pos;;
    storeCell pos (Z.lor 32 1792).

Definition consputc (c : Z) : M KState unit :=
  p ← getConsole panicked;
  if negb (p =? 0) then locked disableInterrupts;; spin
  else
    (if c =? BACKSPACE then uartputc 8;; uartputc 32;; uartputc 8 else uartputc c);;
    cgaputc c.

Fixpoint consPuts (l : list Z) : M KState unit :=
  match l with
  | [] => mret tt
  | c :: l => consputc c;; consPuts l
  end.

(** * Formatted output *)

Definition printInt (xx base : Z) (sign : bool) : M KState unit :=
  l ← checked "printInt: buf" (intText lowerDigits (replicate 16 0) xx base sign);
  consPuts l.

(** [*argp++] as a word and as a string. *)
Definition wordArg (args : list Arg) : M KState (Z * list Arg) :=
  match args with
  | Num w :: args => mret (w, args)
  | _ => fault "cprintf: argument"
  end.

Definition stringArg (args : list Arg) : M KState (list Z * list Arg) :=
  match args with
  | Num w :: args => if w =? 0 then mret (chars "(null)", args) else fault "cprintf: argument"
  | Str l :: args => mret (l, args)
  | [] => fault "cprintf: argument"
  end.

Fixpoint cprintfLoop (fmt : list Z) (args : list Arg) : M KState unit :=
  match fmt with
  | [] => mret tt
  | c :: fmt =>
      if negb (c =? 37) then consputc c;; cprintfLoop fmt args
      else match fmt with
      | [] => mret tt
      | c :: fmt =>
          if c =? 100 then '(w, args) ← wordArg args; printInt (i32 w) 10 true;; cprintfLoop fmt args
          else if (c =? 120) || (c =? 112) then '(w, args) ← wordArg args; printInt (i32 w) 16 false;; cprintfLoop fmt args
          else if c =? 115 then '(l, args) ← stringArg args; consPuts (i8 <$> l);; cprintfLoop fmt args
          else if c =? 37 then consputc 37;; cprintfLoop fmt args
          else consputc 37;; consputc c;; cprintfLoop fmt args
      end
  end.

Definition cprintf (fmt : option (list Z)) (args : list Arg) : M KState unit :=
  locking ← getConsole Locking;
  (if negb (locking =? 0) then acquire L_cons else mret tt);;
  fmt ← match fmt with None => panic "null fmt" | Some fmt => mret fmt end;
  cprintfLoop fmt args;;
  (if negb (locking =? 0) then release L_cons else mret tt).

(** The return addresses on the stack from the frame [ebp] on. *)
Fixpoint callStack (n : nat) (ebp : Z) : M KState (list Z) :=
  match n with
  | O => mret []
  | S n' =>
      if (ebp =? 0) || (ebp <? 2147483648) || (ebp =? 4294967295) then mret (replicate n 0)
      else
        m ← gets kmem;
        l ← callStack n' (load32 m ebp);
        mret (load32 m (padd ebp 4) :: l)
  end.

Definition getProcessCallStack (v : Z) : M KState (list Z) := callStack 10 (padd v (-8)).

Fixpoint printAddresses (l : list Z) : M KState unit :=
  match l with
  | [] => mret tt
  | pc :: l => cprintf (Some (chars " %p")) [Num pc];; printAddresses l
  end.

(** [here] is the address of the parameter of [panic]. *)
Definition panic_ (here : Z) (s : list Z) : M KState unit :=
  locked disableInterrupts;;
  putConsole (set_Locking 0);;
  id ← localApicId;
  cprintf (Some (chars "localApicId %d: panic: ")) [Num id];;
  cprintf (Some s) [];;
  cprintf (Some [10]) [];;
  pcs ← getProcessCallStack here;
  printAddresses pcs;;
  putConsole (set_panicked 1);;
  spin.

Definition stateName (p : procstate) : list Z :=
  chars (match p with
         | UNUSED => "unused" | EMBRYO => "embryo" | SLEEPING => "sleep "
         | RUNNABLE => "Runnable" | RUNNING => "Running" | ZOMBIE => "zombie"
         end).

Fixpoint dumpProcesses (l : list Process) : M KState unit :=
  match l with
  | [] => mret tt
  | p :: l =>
      if bool_decide (State p = UNUSED) then dumpProcesses l
      else
        cprintf (Some (chars "%d %s %s")) [Num (ProcessId p); Str (stateName (State p)); Str (upToNul (ProcName p))];;
        (if bool_decide (State p = SLEEPING) then
           m ← gets kmem;
           pc ← getProcessCallStack (padd (load32 m (padd (Context_ p) 12)) 8);
           printAddresses (upToNul pc)
         else mret tt);;
        cprintf (Some [10]) [];;
        dumpProcesses l
  end.

Definition processDump : M KState unit :=
  cprintf (Some [10]) [];;
  l ← gets processTable;
  dumpProcesses l.

(** * Input *)

(** [input.buf[i % INPUT_BUF]] *)
Definition inputAt (i : Z) : M KState Z :=
  b ← getConsole inputBuf;
  checked "input.buf" (rd b (i mod INPUT_BUF)).

(** The loop of Control-U. *)
Fixpoint killLine (fuel : nat) : M KState unit :=
  e ← getConsole input_e;
  w ← getConsole input_w;
  if e =? w then mret tt
  else
    c ← inputAt (u32 (e - 1));
    if c =? 10 then mret tt
    else match fuel with
    | O => spin
    | S fuel => putConsole (set_input_e (u32 (e - 1)));; consputc BACKSPACE;; killLine fuel
    end.

(** The switch on the character; [true] if it asks for the process listing. *)
Definition consoleKey (c : Z) : M KState bool :=
  if c =? 16 then mret true
  else if c =? 21 then killLine 128;; mret false
  else if (c =? 8) || (c =? 127) then
    e ← getConsole input_e;
    w ← getConsole input_w;
    (if negb (e =? w) then putConsole (set_input_e (u32 (e - 1)));; consputc BACKSPACE else mret tt);;
    mret false
  else
    e ← getConsole input_e;
    r ← getConsole input_r;
    (if negb (c =? 0) && (u32 (e - r) <? INPUT_BUF) then
       let c := if c =? 13 then 10 else c in
       b ← getConsole inputBuf;
       b ← checked "input.buf" (wr b (e mod INPUT_BUF) (u8 c));
       putConsole (fun x => set_inputBuf b (set_input_e (u32 (e + 1)) x));;
       consputc c;;
       e ← getConsole input_e;
       r ← getConsole input_r;
       if (c =? 10) || (c =? 4) || (e =? u32 (r + INPUT_BUF)) then
         putConsole (set_input_w e);;
         wakeup (Some Ch_input)
       else mret tt
     else mret tt);;
    mret false.

Fixpoint consoleKeys (fuel : nat) (getc : M KState Z) (doprocdump : bool) : M KState bool :=
  c ← getc;
  if c <? 0 then mret doprocdump
  else match fuel with
  | O => spin
  | S fuel => d ← consoleKey c; consoleKeys fuel getc (doprocdump || d)
  end.

Definition consoleInterrupt (getc : M KState Z) : M KState unit :=
  acquire L_cons;;
  doprocdump ← consoleKeys polls getc false;
  release L_cons;;
  if (doprocdump : bool) then processDump else mret tt.

Definition keyboardInterrupt : M KState unit := consoleInterrupt kbdgetc.
Definition uartintr : M KState unit := consoleInterrupt uartgetc.

(** Until there is a character, or [true] if the function returns -1. *)
Fixpoint waitInput (fuel : nat) : M KState bool :=
  r ← getConsole input_r;
  w ← getConsole input_w;
  if negb (r =? w) then mret false
  else
    stop ← currentKilled;
    if (stop : bool) then release L_cons;; mret true
    else match fuel with
    | O => spin
    | S fuel => sleep Ch_input (Some L_cons);; waitInput fuel
    end.

(** [n] bytes are still wanted and [got] have been stored: the bytes, or
    [None] if the function has returned -1. *)
Fixpoint readLoop (n : nat) (got : list Z) : M KState (option (list Z)) :=
  match n with
  | O => mret (Some got)
  | S n =>
      stop ← waitInput wakeups;
      if (stop : bool) then mret None
      else
        r ← getConsole input_r;
        c ← inputAt r;
        putConsole (set_input_r (u32 (r + 1)));;
        if c =? 4 then
          (if negb (length got =? 0)%nat then putConsole (fun x => set_input_r (u32 (input_r x - 1)) x) else mret tt);;
          mret (Some got)
        else if c =? 10 then mret (Some (got ++ [c]))
        else readLoop n (got ++ [c])
  end.

(** The value returned and the bytes stored at [dst]. *)
Definition consoleRead (n : Z) : M KState (Z * list Z) :=
  acquire L_cons;;
  got ← readLoop (Z.to_nat n) [];
  match got with
  | None => mret (-1, [])
  | Some got => release L_cons;; mret (Z.of_nat (length got), got)
  end.

Definition consoleWrite (buf : list Z) (n : Z) : M KState Z :=
  acquire L_cons;;
  bytes ← checked "consoleWrite: buf" (slice buf 0 (Z.max 0 n));
  consPuts bytes;;
  release L_cons;;
  mret n.

(** The entry of [devices] that [consoleInitialise] fills. *)
Definition consoleDevice : Device := mkDevice (Some (fun _ n => consoleRead n)) (Some (fun _ buf n => consoleWrite buf n)).

Definition consoleInitialise : M KState Device :=
  locked (spinlockInitialise L_cons "console");;
  putConsole (set_Locking 1);;
  ioApicEnable IRQ_KBD 0;;
  mret consoleDevice.

End Console.

(** * The display controller *)

(** The register the controller is addressed with, and the last value written
    to register [r], from the history of the ports. *)
Fixpoint crtIndex (h : list IoEvent) : Z :=
  match h with
  | [] => 0
  | OutByte p v :: h => if p =? CRTPORT then v else crtIndex h
  | _ :: h => crtIndex h
  end.

Fixpoint crtRegister (r : Z) (h : list IoEvent) : Z :=
  match h with
  | [] => 0
  | OutByte p v :: h => if (p =? CRTPORT + 1) && (crtIndex h =? r) then u8 v else crtRegister r h
  | _ :: h => crtRegister r h
  end.

Definition cursor (h : list IoEvent) : Z := crtRegister 14 h * 256 + crtRegister 15 h.

(** The controller gives back what was written to its registers. *)
Definition crtLaw `{Hardware} : Prop := forall h, portByte h (CRTPORT + 1) = crtRegister (crtIndex h) h.

(** * The screen as cells *)

Definition cell (m : mem) (i : Z) : Z := m (crt + 2 * i) + 256 * m (crt + 2 * i + 1).

(** The reference: 24 rows of 80 cells and a cursor.  A character is drawn at
    the cursor in white on black; behind the last row the rows move up by
    one; the cell under the cursor is blank. *)
Definition advance (c pos : Z) : Z :=
  if c =? 10 then pos + (80 - pos mod 80) else if c =? BACKSPACE then Z.max 0 (pos - 1) else pos + 1.

Definition draw (c pos : Z) (f : Z -> Z) : Z -> Z :=
  if (c =? 10) || (c =? BACKSPACE) then f else fun i => if i =? pos then 1792 + c mod 256 else f i.

Definition scroll (pos : Z) (f : Z -> Z) : Z -> Z :=
  if pos =? 1920 then fun i => if i <? 1840 then f (i + 80) else if i <? 1920 then 0 else f i else f.

Definition restPos (pos : Z) : Z := if pos =? 1920 then 1840 else pos.

Definition terminalPos (c pos : Z) : Z := restPos (advance c pos).

Definition terminalCells (c pos : Z) (f : Z -> Z) : Z -> Z :=
  let p := advance c pos in fun i => if i =? restPos p then 1824 else scroll p (draw c pos f) i.

Lemma terminalPos_range c pos : 0 <= pos < 1920 -> 0 <= terminalPos c pos < 1920.
Proof.
  intros Hp. unfold terminalPos, restPos, advance. destruct (c =? 10), (c =? BACKSPACE); case_match eqn:E; bdestr; zdiv.
Qed.

Lemma advance_range c pos : 0 <= pos < 1920 -> 0 <= advance c pos <= 1920.
Proof. intros Hp. unfold advance. destruct (c =? 10), (c =? BACKSPACE); zdiv. Qed.

(** A cell written. *)
Definition setCell (pos v : Z) (m : mem) : mem := upd (upd m (padd crt (2 * pos)) (v mod 256)) (padd (padd crt (2 * pos)) 1) (v / 256 mod 256).

(** What memory holds after a character. *)
Definition drawMem (c pos : Z) (m : mem) : mem :=
  if (c =? 10) || (c =? BACKSPACE) then m else setCell pos (Z.lor (Z.land c 255) 1792) m.

Definition scrollMem (pos : Z) (m : mem) : mem :=
  if 24 <=? pos / 80 then memset (memmove m crt (padd crt 160) (2 * 23 * 80)) (padd crt (2 * (pos - 80))) 0 (2 * (24 * 80 - (pos - 80))) else m.

Definition screenMem (c pos : Z) (m : mem) : mem :=
  setCell (terminalPos c pos) 1824 (scrollMem (advance c pos) (drawMem c pos m)).

Lemma crt_addr k : 0 <= k < 4096 -> padd crt k = crt + k.
Proof. intros Hk. unfold padd, crt. apply u32_small. lia. Qed.

Lemma setCell_cell pos v m i : 0 <= pos < 2000 -> 0 <= v < 65536 -> 0 <= i < 2000 ->
  cell (setCell pos v m) i = if i =? pos then v else cell m i.
Proof.
  intros Hp Hv Hi. unfold cell, setCell, upd. rewrite crt_addr by lia. replace (padd (crt + 2 * pos) 1) with (crt + 2 * pos + 1) by (unfold padd, crt; rewrite u32_small; lia).
  destruct (Z.eqb_spec i pos) as [->|Hne].
  - rewrite Z.eqb_refl, (proj2 (Z.eqb_neq (crt + 2 * pos) (crt + 2 * pos + 1))), Z.eqb_refl by lia. rewrite (Z.mod_small (v / 256)) by zdiv. zdiv.
  - by rewrite !(proj2 (Z.eqb_neq _ _)) by lia.
Qed.

Lemma setCell_outside pos v m a : 0 <= pos < 2000 -> ~ crt <= a < crt + 4000 -> setCell pos v m a = m a.
Proof.
  intros Hp Ha. unfold setCell, upd. rewrite crt_addr by lia. replace (padd (crt + 2 * pos) 1) with (crt + 2 * pos + 1) by (unfold padd, crt; rewrite u32_small; lia).
  by rewrite !(proj2 (Z.eqb_neq _ _)) by lia.
Qed.

Lemma attribute c : Z.lor (Z.land c 255) 1792 = 1792 + c mod 256.
Proof.
  change 255 with (Z.ones 8). rewrite Z.land_ones by lia. change (2 ^ 8) with 256. pose proof (Z.mod_pos_bound c 256 ltac:(lia)) as Hc.
  rewrite Z.lor_comm. assert (Hb := forallb_range2 1 256 (fun _ d => Z.lor 1792 d =? 1792 + d) 0 (c mod 256) eq_refl ltac:(lia) ltac:(lia)). cbn beta in Hb. by apply Z.eqb_eq.
Qed.

Lemma drawMem_spec c pos m : 0 <= pos < 1920 ->
  (forall i, 0 <= i < 2000 -> cell (drawMem c pos m) i = draw c pos (cell m) i) /\ (forall a, ~ crt <= a < crt + 4000 -> drawMem c pos m a = m a).
Proof.
  intros Hp. unfold drawMem, draw. destruct ((c =? 10) || (c =? BACKSPACE)); [done|]. rewrite attribute. pose proof (Z.mod_pos_bound c 256 ltac:(lia)).
  split; [intros i Hi; by rewrite setCell_cell by lia|intros a Ha; apply setCell_outside; [lia|done]].
Qed.

Lemma scrollMem_spec pos m : 0 <= pos <= 1920 ->
  (forall i, 0 <= i < 2000 -> cell (scrollMem pos m) i = scroll pos (cell m) i) /\ (forall a, ~ crt <= a < crt + 4000 -> scrollMem pos m a = m a).
Proof.
  intros Hp. unfold scrollMem, scroll. destruct (Z.leb_spec 24 (pos / 80)) as [H1|H1], (Z.eqb_spec pos 1920) as [->|H2]; try zdiv; [|done].
  change (2 * (1920 - 80)) with 3680. change (2 * (24 * 80 - (1920 - 80))) with 160. change (2 * 23 * 80) with 3680. rewrite !crt_addr by lia.
  assert (Hm : forall a, memset (memmove m crt (crt + 160) 3680) (crt + 3680) 0 160 a =
    if (crt + 3680 <=? a) && (a <? crt + 3680 + 160) then 0 else if (crt <=? a) && (a <? crt + 3680) then m (crt + 160 + (a - crt)) else m a).
  { intros a. rewrite memset_fill, memmove_block by (unfold crt; lia). done. }
  split.
  - intros i Hi. unfold cell. rewrite !Hm. destruct (Z.ltb_spec i 1840) as [H3|H3]; [|destruct (Z.ltb_spec i 1920) as [H4|H4]];
      repeat match goal with |- context [?x <=? ?y] => destruct (Z.leb_spec x y); try lia | |- context [?x <? ?y] => destruct (Z.ltb_spec x y); try lia end; cbn [andb]; try done.
    f_equal; [f_equal; lia|do 2 f_equal; lia].
  - intros a Ha. rewrite Hm. destruct (Z.leb_spec (crt + 3680) a), (Z.ltb_spec a (crt + 3680 + 160)), (Z.leb_spec crt a), (Z.ltb_spec a (crt + 3680)); cbn; try done; lia.
Qed.

Lemma screenMem_spec c pos m : 0 <= pos < 1920 ->
  (forall i, 0 <= i < 2000 -> cell (screenMem c pos m) i = terminalCells c pos (cell m) i) /\ (forall a, ~ crt <= a < crt + 4000 -> screenMem c pos m a = m a).
Proof.
  intros Hp. pose proof (advance_range c pos Hp) as Ha. pose proof (terminalPos_range c pos Hp) as Ht.
  destruct (drawMem_spec c pos m Hp) as [Hd1 Hd2], (scrollMem_spec (advance c pos) (drawMem c pos m) Ha) as [Hs1 Hs2]. unfold screenMem. split.
  - intros i Hi. rewrite setCell_cell by lia. unfold terminalCells. fold (terminalPos c pos). destruct (i =? terminalPos c pos); [done|].
    rewrite Hs1 by done. unfold scroll. case_match; [|by apply Hd1]. repeat case_match; bdestr; try done; apply Hd1; lia.
  - intros a Ho. rewrite setCell_outside by (lia || done). rewrite Hs2 by done. by apply Hd2.
Qed.

(** * Putting a character *)

(** Events of the display controller and of the serial line. *)
Definition display (e : IoEvent) : Prop :=
  match e with
  | InByte p _ | OutByte p _ => p ∈ [CRTPORT; CRTPORT + 1; COM1; COM1 + 5]
  | _ => False
  end.

Definition shows (h h' : list IoEvent) : Prop := exists l, h' = l ++ h /\ Forall display l.

Lemma shows_refl h : shows h h.
Proof. by exists []. Qed.

Lemma shows_trans h1 h2 h3 : shows h1 h2 -> shows h2 h3 -> shows h1 h3.
Proof. intros (l & -> & Hl) (k & -> & Hk). exists (k ++ l). rewrite app_assoc. split; [done|]. by apply Forall_app. Qed.

Lemma shows_cons e h : display e -> shows h (e :: h).
Proof. intros He. exists [e]. split; [done|]. by constructor. Qed.

Lemma crtRegister_range r h : 0 <= crtRegister r h < 256.
Proof. induction h as [|e h IH]; cbn; [lia|]. destruct e; try done. case_match; [apply u8_range|done]. Qed.

Lemma bytes_lor hi lo : 0 <= hi < 256 -> 0 <= lo < 256 -> Z.lor (Z.shiftl hi 8) lo = hi * 256 + lo.
Proof.
  intros Hh Hl. apply Z.eqb_eq. revert Hh Hl. apply (forallb_range2 256 256 (fun hi lo => Z.lor (Z.shiftl hi 8) lo =? hi * 256 + lo)). vm_compute. reflexivity.
Qed.

(** The cursor after its two registers have been written. *)
Lemma cursor_written h pos : 0 <= pos < 65536 ->
  cursor (OutByte (CRTPORT + 1) (u8 pos) :: OutByte CRTPORT (u8 15) :: OutByte (CRTPORT + 1) (u8 (Z.shiftr pos 8)) :: OutByte CRTPORT (u8 14) :: h) = pos.
Proof.
  intros Hp. unfold cursor. cbn [crtRegister crtIndex]. rewrite !Z.eqb_refl. change (CRTPORT =? CRTPORT + 1) with false. change (CRTPORT + 1 =? CRTPORT) with false.
  change (u8 15 =? 14) with false. change (u8 14 =? 14) with true. change (u8 15 =? 15) with true. cbn [andb]. unfold u8.
  rewrite Z.shiftr_div_pow2 by lia. change (2 ^ 8) with 256. zdiv.
Qed.

Section PutProofs.
Context `{Hardware} `{Scheduler} (Hcrt : crtLaw).

Lemma cgaputc_eq c s : 0 <= cursor (io s) < 1920 ->
  exists h, cgaputc c s = Ret tt (set_io h (set_kmem (screenMem c (cursor (io s)) (kmem s)) s)) /\ shows (io s) h /\ cursor h = terminalPos c (cursor (io s)).
Proof.
  intros Hpos. unfold cgaputc. rewrite bind_outputByte, bind_inputByte, bind_outputByte, bind_inputByte. cbn [io set_io].
  rewrite !Hcrt. cbn [crtIndex crtRegister andb]. rewrite !Z.eqb_refl. change (CRTPORT =? CRTPORT + 1) with false. cbn [andb].
  change (u8 14) with 14. change (u8 15) with 15. rewrite !(u8_small (crtRegister _ _)) by apply crtRegister_range.
  rewrite bytes_lor by apply crtRegister_range. fold (cursor (io s)). set (pos := cursor (io s)) in *. cbv zeta.
  match goal with |- context [(_ ≫= _) ?t] => set (s1 := t) end.
  assert (E1 : (if c =? 10 then mret (pos + (80 - pos mod 80)) else if c =? BACKSPACE then mret (if 0 <? pos then pos - 1 else pos)
    else storeCell pos (Z.lor (Z.land c 255) 1792);; mret (pos + 1)) s1 = Ret (advance c pos) (set_kmem (drawMem c pos (kmem s)) s1)).
  { unfold advance, drawMem. destruct (c =? 10); [by destruct s|]. destruct (c =? BACKSPACE); [|done]. cbn [orb].
    replace (Z.max 0 (pos - 1)) with (if 0 <? pos then pos - 1 else pos) by (destruct (Z.ltb_spec 0 pos); lia). by destruct s. }
  rewrite (bind_Ret _ _ _ _ _ E1). clear E1. pose proof (advance_range c pos Hpos) as Ha. set (p1 := advance c pos) in *.
  rewrite (proj2 (Z.ltb_ge p1 0)), (proj2 (Z.ltb_ge (25 * 80) p1)) by lia. cbn [orb].
  match goal with |- context [(_ ≫= ?k) ?t] => set (k1 := k); set (s2 := t) end.
  assert (E2 : (if 24 <=? p1 / 80 then puts (fun s0 => set_kmem (memmove (kmem s0) crt (padd crt 160) (2 * 23 * 80)) s0);;
      puts (fun s0 => set_kmem (memset (kmem s0) (padd crt (2 * (p1 - 80))) 0 (2 * (24 * 80 - (p1 - 80)))) s0);; mret (p1 - 80) else mret p1) s2 =
    Ret (restPos p1) (set_kmem (scrollMem p1 (drawMem c pos (kmem s))) s2)).
  { unfold restPos, scrollMem. assert (Hrow : (24 <=? p1 / 80) = (p1 =? 1920)) by (destruct (Z.leb_spec 24 (p1 / 80)), (Z.eqb_spec p1 1920); zdiv || done).
    rewrite Hrow. destruct (Z.eqb_spec p1 1920) as [E|_]; [rewrite !bind_puts; cbn [kmem set_kmem s2]; by rewrite E|by destruct s]. }
  rewrite (bind_Ret _ _ _ _ _ E2). clear E2. unfold k1. fold (terminalPos c pos). pose proof (terminalPos_range c pos Hpos) as Ht.
  rewrite !bind_outputByte. set (p2 := terminalPos c pos) in *.
  exists (OutByte (CRTPORT + 1) (u8 p2) :: OutByte CRTPORT (u8 15) :: OutByte (CRTPORT + 1) (u8 (Z.shiftr p2 8)) :: OutByte CRTPORT (u8 14) :: io s1).
  split; [done|]. split; [|apply cursor_written; lia]. unfold s1. cbn [io set_io].
  match goal with |- shows _ ?h => exists (take 8 h) end. split; [done|]. cbn [take].
  repeat (apply Forall_cons; split; [unfold display; rewrite !elem_of_cons; auto|]). done.
Qed.

(** The serial line does not move the cursor. *)
Lemma uartWait_eq n : forall s, exists h, uartWait n s = Ret tt (set_io h s) /\ shows (io s) h /\ cursor h = cursor (io s).
Proof.
  induction n as [|n IH]; intros s; cbn [uartWait]; [exists (io s); split_and!; [by destruct s|apply shows_refl|done]|].
  rewrite bind_inputByte. set (e := InByte _ _). assert (He : shows (io s) (e :: io s)) by (apply shows_cons; cbn; rewrite !elem_of_cons; auto).
  case_match; [|by exists (e :: io s)]. destruct (IH (set_io (e :: io s) s)) as (h & E & Hs & Hc). exists h. rewrite E. split_and!; [done|by eapply shows_trans|done].
Qed.

Lemma uartputc_eq c s : exists h, uartputc c s = Ret tt (set_io h s) /\ shows (io s) h /\ cursor h = cursor (io s).
Proof.
  unfold uartputc, getConsole. rewrite bind_gets. case_match; [exists (io s); split_and!; [by destruct s|apply shows_refl|done]|].
  destruct (uartWait_eq 128 s) as (h & E & Hs & Hc). rewrite (bind_Ret _ _ _ _ _ E). exists (OutByte COM1 (u8 c) :: h). split_and!; [done| |done].
  eapply shows_trans; [exact Hs|]. apply shows_cons. cbn. rewrite !elem_of_cons. auto.
Qed.

Lemma consputc_eq c s : panicked (console s) = 0 -> 0 <= cursor (io s) < 1920 ->
  exists h, consputc c s = Ret tt (set_io h (set_kmem (screenMem c (cursor (io s)) (kmem s)) s)) /\ shows (io s) h /\ cursor h = terminalPos c (cursor (io s)).
Proof.
  intros Hpan Hpos. unfold consputc, getConsole. rewrite bind_gets, Hpan. cbn [Z.eqb negb].
  assert (Hser : exists h, (if c =? BACKSPACE then uartputc 8;; uartputc 32;; uartputc 8 else uartputc c) s = Ret tt (set_io h s) /\ shows (io s) h /\ cursor h = cursor (io s)).
  { case_match; [|apply uartputc_eq]. destruct (uartputc_eq 8 s) as (h1 & E1 & Hs1 & Hc1). rewrite (bind_Ret _ _ _ _ _ E1).
    destruct (uartputc_eq 32 (set_io h1 s)) as (h2 & E2 & Hs2 & Hc2). rewrite (bind_Ret _ _ _ _ _ E2).
    destruct (uartputc_eq 8 (set_io h2 (set_io h1 s))) as (h3 & E3 & Hs3 & Hc3). exists h3. rewrite E3. cbn [io set_io] in *.
    split_and!; [done|by eapply shows_trans; [|eapply shows_trans]|congruence]. }
  destruct Hser as (h & E & Hs & Hc). rewrite (bind_Ret _ _ _ _ _ E). destruct (cgaputc_eq c (set_io h s)) as (h' & E' & Hs' & Hc'); [cbn [io set_io]; lia|].
  exists h'. rewrite E'. cbn [io set_io kmem] in *. rewrite Hc in *. split_and!; [done|by eapply shows_trans|done].
Qed.

(** [s'] differs from [s] by what was shown. *)
Definition output (s s' : KState) : Prop :=
  exists h m, s' = set_io h (set_kmem m s) /\ shows (io s) h /\ 0 <= cursor h < 1920 /\ (forall a, ~ crt <= a < crt + 4000 -> m a = kmem s a).

Lemma output_refl s : 0 <= cursor (io s) < 1920 -> output s s.
Proof. intros Hc. exists (io s), (kmem s). split_and!; [by destruct s|apply shows_refl|lia|lia|done]. Qed.

Lemma output_trans s1 s2 s3 : output s1 s2 -> output s2 s3 -> output s1 s3.
Proof.
  intros (h & m & -> & Hs & Hc & Hm) (h' & m' & -> & Hs' & Hc' & Hm'). cbn in *. exists h', m'. split_and!; [done|by eapply shows_trans|lia|lia|].
  intros a Ha. by rewrite Hm', Hm.
Qed.

Lemma consputc_output c s : panicked (console s) = 0 -> 0 <= cursor (io s) < 1920 -> exists s', consputc c s = Ret tt s' /\ output s s'.
Proof.
  intros Hpan Hpos. destruct (consputc_eq c s Hpan Hpos) as (h & E & Hs & Hc). eexists. split; [exact E|]. eexists h, _. split; [done|].
  pose proof (terminalPos_range c _ Hpos). split_and!; [done|lia|lia|by apply screenMem_spec].
Qed.

Lemma consPuts_output l : forall s, panicked (console s) = 0 -> 0 <= cursor (io s) < 1920 -> exists s', consPuts l s = Ret tt s' /\ output s s'.
Proof.
  induction l as [|c l IH]; intros s Hpan Hpos; cbn [consPuts]; [exists s; split; [done|by apply output_refl]|].
  destruct (consputc_output c s Hpan Hpos) as (s1 & E1 & Ho1). rewrite (bind_Ret _ _ _ _ _ E1). pose proof Ho1 as (h & m & -> & Hs & Hc & Hm).
  destruct (IH (set_io h (set_kmem m s)) Hpan Hc) as (s2 & E2 & Ho2). exists s2. split; [done|]. by eapply output_trans.
Qed.
End PutProofs.

(** * Lines *)

(** The ring buffer holds the characters [q], which may be read, and behind
    them the line that is being edited.  The counters wrap around at 2^32. *)
Record ring (x : ConsoleState) (q line : list Z) : Prop := {
  in_size : length (inputBuf x) = 128%nat;
  in_r : 0 <= input_r x < 4294967296;
  in_w : input_w x = u32 (input_r x + Z.of_nat (length q));
  in_e : input_e x = u32 (input_r x + Z.of_nat (length q + length line));
  in_fits : Z.of_nat (length q + length line) <= 128;
  in_bytes : forall i c, (q ++ line) !! i = Some c -> nth (Z.to_nat ((input_r x + Z.of_nat i) mod 128)) (inputBuf x) 0 = c
}.

(** A line that is being edited has no newline. *)
Definition inputs (x : ConsoleState) (q line : list Z) : Prop := ring x q line /\ Forall (fun c => c <> 10) line.

(** The reference for line editing: characters go to the line; Control-U
    deletes it, backspace its last character; return, Control-D and a full
    buffer hand the line over. *)
Definition edit (st : list Z * list Z) (c : Z) : list Z * list Z :=
  let '(q, line) := st in
  if c =? 16 then (q, line)
  else if c =? 21 then (q, [])
  else if (c =? 8) || (c =? 127) then (q, take (length line - 1) line)
  else if negb (c =? 0) && (Z.of_nat (length q + length line) <? 128) then
    let c := if c =? 13 then 10 else c in
    let line := line ++ [c] in
    if (c =? 10) || (c =? 4) || (length q + length line =? 128)%nat then (q ++ line, []) else (q, line)
  else (q, line).

Lemma ring_step a b : 0 <= a < 4294967296 -> 0 <= b <= 128 -> (u32 (a + b) mod 128) = (a + b) mod 128.
Proof. intros Ha Hb. unfold u32. zdiv. Qed.

Lemma ring_gap x q line : ring x q line -> u32 (input_e x - input_r x) = Z.of_nat (length q + length line).
Proof. intros [Hs Hr Hw He Hf _]. rewrite He, u32_sub_l. replace (input_r x + _ - input_r x) with (Z.of_nat (length q + length line)) by lia. apply u32_small. lia. Qed.

Lemma ring_same x q line : ring x q line -> (input_e x =? input_w x) = bool_decide (line = []).
Proof.
  intros [Hs Hr Hw He Hf _]. rewrite He, Hw. destruct line as [|c line]; cbn [length] in *.
  - rewrite Nat.add_0_r, Z.eqb_refl. done.
  - apply Z.eqb_neq. unfold u32. zdiv.
Qed.

Lemma ring_full x q line : ring x q line -> (input_e x =? u32 (input_r x + INPUT_BUF)) = (length q + length line =? 128)%nat.
Proof.
  intros [Hs Hr Hw He Hf _]. rewrite He. unfold INPUT_BUF. destruct (Nat.eqb_spec (length q + length line) 128) as [->|Hne]; [apply Z.eqb_refl|].
  apply Z.eqb_neq. unfold u32. zdiv.
Qed.

(** The last character of the line, and the line without it. *)
Lemma ring_last x q line c : ring x q (line ++ [c]) ->
  rd (inputBuf x) (u32 (input_e x - 1) mod INPUT_BUF) = Some c /\ ring (set_input_e (u32 (input_e x - 1)) x) q line.
Proof.
  intros [Hs Hr Hw He Hf Hb]. rewrite length_app in He, Hf. cbn [length] in He, Hf.
  assert (Hi : u32 (input_e x - 1) = u32 (input_r x + Z.of_nat (length q + length line))) by (rewrite He, u32_sub_l; f_equal; lia). split.
  - rewrite Hi. unfold INPUT_BUF. rewrite ring_step by lia. apply rd_Some. split; [zdiv|].
    specialize (Hb (length q + length line)%nat c ltac:(rewrite app_assoc, <- length_app, lookup_app_r, Nat.sub_diag by done; done)).
    destruct (lookup_lt_is_Some_2 (inputBuf x) (Z.to_nat ((input_r x + Z.of_nat (length q + length line)) mod 128))) as [y Hy]; [rewrite Hs; zdiv|].
    rewrite nth_lookup, Hy in Hb. cbn in Hb. by rewrite Hy, Hb.
  - split; cbn; [done|done|done|done|lia|]. intros i d Hd. apply Hb. rewrite app_assoc. by apply lookup_app_l_Some.
Qed.

(** A character behind the line. *)
Lemma ring_add x q line c : ring x q line -> Z.of_nat (length q + length line) < 128 ->
  wr (inputBuf x) (input_e x mod INPUT_BUF) c = Some (<[Z.to_nat (input_e x mod 128) := c]> (inputBuf x)) /\
  ring (set_inputBuf (<[Z.to_nat (input_e x mod 128) := c]> (inputBuf x)) (set_input_e (u32 (input_e x + 1)) x)) q (line ++ [c]).
Proof.
  intros [Hs Hr Hw He Hf Hb] Hlt. split; [unfold INPUT_BUF; apply wr_Some; rewrite Hs; zdiv|].
  split; cbn; rewrite ?length_insert, ?length_app; cbn [length]; [done|done|done|rewrite He, u32_add_l; f_equal; lia|lia|].
  intros i d Hd. rewrite app_assoc in Hd. rewrite He, ring_step by lia. set (k := (length q + length line)%nat) in *.
  apply lookup_app_Some in Hd as [Hd|[Hi Hd]].
  - assert (Hik : (i < k)%nat) by (unfold k; rewrite <- length_app; by eapply lookup_lt_Some).
    rewrite nth_lookup, list_lookup_insert_ne by zdiv. rewrite <- nth_lookup. by apply Hb.
  - rewrite length_app in *. fold k in Hi, Hd. assert (i = k) as ->. { apply list_lookup_singleton_Some in Hd as [? _]. lia. }
    rewrite Nat.sub_diag in Hd. injection Hd as ->. rewrite nth_lookup, list_lookup_insert_eq by (rewrite Hs; zdiv). done.
Qed.

(** Handing the line over. *)
Lemma ring_commit x q line : ring x q line -> ring (set_input_w (input_e x) x) (q ++ line) [].
Proof.
  intros [Hs Hr Hw He Hf Hb]. split; cbn; rewrite ?app_nil_r, ?length_app, ?Nat.add_0_r; done.
Qed.

(** Taking the first character that may be read. *)
Lemma ring_take x c q line : ring x (c :: q) line ->
  rd (inputBuf x) (input_r x mod INPUT_BUF) = Some c /\ ring (set_input_r (u32 (input_r x + 1)) x) q line.
Proof.
  intros [Hs Hr Hw He Hf Hb]. cbn [length] in *. split.
  - unfold INPUT_BUF. apply rd_Some. split; [zdiv|]. specialize (Hb 0%nat c eq_refl). rewrite Z.add_0_r in Hb.
    destruct (lookup_lt_is_Some_2 (inputBuf x) (Z.to_nat (input_r x mod 128))) as [y Hy]; [rewrite Hs; zdiv|]. rewrite nth_lookup, Hy in Hb. cbn in Hb. by rewrite Hy, Hb.
  - split; cbn; [done|apply u32_range|rewrite u32_add_l, Hw; f_equal; lia|rewrite u32_add_l, He; f_equal; lia|lia|].
    intros i d Hd. specialize (Hb (S i) d Hd). rewrite <- Hb. f_equal. f_equal. unfold u32. zdiv.
Qed.

(** The two ways the state changes on an interrupt: something is shown and the
    buffer changes, and sleepers on the input are woken. *)
Definition keyed (s s' : KState) : Prop :=
  exists h m x pt, s' = set_console x (set_processTable pt (set_io h (set_kmem m s))) /\ shows (io s) h /\ 0 <= cursor h < 1920 /\
    (forall a, ~ crt <= a < crt + 4000 -> m a = kmem s a) /\
    panicked x = panicked (console s) /\ Locking x = Locking (console s) /\ kbdShift x = kbdShift (console s) /\ uart x = uart (console s) /\
    input_r x = input_r (console s) /\ (pt = processTable s \/ pt = map (wake1 (Some Ch_input)) (processTable s)).

Lemma wake1_twice chan p : wake1 chan (wake1 chan p) = wake1 chan p.
Proof.
  unfold wake1 at 2 3. destruct (bool_decide (State p = SLEEPING) && bool_decide (Chan p = chan)) eqn:E; unfold wake1; [done|by rewrite E].
Qed.

Lemma keyed_refl s : 0 <= cursor (io s) < 1920 -> keyed s s.
Proof. intros Hc. exists (io s), (kmem s), (console s), (processTable s). split; [by destruct s|]. split; [apply shows_refl|]. by auto 20. Qed.

Lemma keyed_trans s1 s2 s3 : keyed s1 s2 -> keyed s2 s3 -> keyed s1 s3.
Proof.
  intros (h & m & x & pt & -> & Hs & Hc & Hm & E1 & E2 & E3 & E4 & E5 & Hpt) (h' & m' & x' & pt' & -> & Hs' & Hc' & Hm' & F1 & F2 & F3 & F4 & F5 & Hpt'). cbn in *.
  exists h', m', x', pt'. split; [done|]. split; [by eapply shows_trans|]. split; [done|]. split; [intros a Ha; by rewrite Hm', Hm|].
  repeat (split; [congruence|]). destruct Hpt as [->| ->], Hpt' as [->| ->]; auto. right. rewrite map_map. apply map_ext. intros. apply wake1_twice.
Qed.

Section KeyProofs.
Context `{Hardware} `{Scheduler} (Hcrt : crtLaw).

Definition ready (s : KState) (q line : list Z) : Prop :=
  inputs (console s) q line /\ panicked (console s) = 0 /\ 0 <= cursor (io s) < 1920.

(** Changing the buffer and showing a character. *)
Lemma put_shown c f s : panicked (console s) = 0 -> 0 <= cursor (io s) < 1920 ->
  (forall x, panicked (f x) = panicked x /\ Locking (f x) = Locking x /\ kbdShift (f x) = kbdShift x /\ uart (f x) = uart x /\ input_r (f x) = input_r x) ->
  exists s', (putConsole f;; consputc c) s = Ret tt s' /\ keyed s s' /\ console s' = f (console s) /\ 0 <= cursor (io s') < 1920.
Proof.
  intros Hpan Hc Hf. destruct (Hf (console s)) as (F1 & F2 & F3 & F4 & F5). unfold putConsole. rewrite bind_puts. set (s1 := set_console (f (console s)) s).
  destruct (consputc_output Hcrt c s1 ltac:(by rewrite <- Hpan, <- F1) Hc) as (s' & E & h & m & -> & Hs & Hc' & Hm). exists (set_io h (set_kmem m s1)).
  split; [done|]. split; [|done]. exists h, m, (f (console s)), (processTable s). split; [by destruct s|]. by auto 20.
Qed.

Lemma killLine_spec n : forall q line s, ready s q line -> (length line <= n)%nat ->
  exists s', killLine n s = Ret tt s' /\ keyed s s' /\ ready s' q [].
Proof.
  induction n as [|n IH]; intros q line s ([Hr Hl] & Hpan & Hc) Hn; cbn [killLine]; unfold getConsole; rewrite !bind_gets, (ring_same _ _ _ Hr).
  - destruct line; [|cbn in Hn; lia]. exists s. split; [done|]. split; [by apply keyed_refl|done].
  - destruct line as [|c line _] using rev_ind; [exists s; split; [done|]; split; [by apply keyed_refl|done]|].
    rewrite bool_decide_eq_false_2 by (by destruct line). destruct (ring_last _ _ _ _ Hr) as [Erd Hr']. unfold inputAt at 1, getConsole. rewrite bind_assoc, bind_gets, Erd, bind_checked.
    apply Forall_app in Hl as [Hl Hc10]. apply Forall_cons in Hc10 as [Hc10 _]. rewrite (proj2 (Z.eqb_neq c 10) Hc10). rewrite <- bind_assoc.
    destruct (put_shown BACKSPACE (set_input_e (u32 (input_e (console s) - 1))) s Hpan Hc ltac:(done)) as (s1 & E1 & Hk1 & Hx1 & Hc1). rewrite (bind_Ret _ _ _ _ _ E1).
    rewrite length_app in Hn. cbn in Hn. destruct (IH q line s1) as (s2 & E2 & Hk2 & Hr2); [|lia|].
    + split_and!; [split; [by rewrite Hx1|done]|by rewrite Hx1|lia|lia].
    + exists s2. split; [done|]. split; [by eapply keyed_trans|done].
Qed.

Lemma consoleKey_spec c q line s y : ready s q line -> 0 <= c < 256 ->
  sync s = acq L_cons y -> balanced 2 y -> lockFree y L_processTable ->
  exists s', consoleKey c s = Ret (c =? 16) s' /\ keyed s s' /\ ready s' (edit (q, line) c).1 (edit (q, line) c).2.
Proof.
  intros Hready Hc256 Es Hb Hpt. pose proof Hready as ([Hr Hl] & Hpan & Hc). unfold consoleKey, edit.
  destruct (Z.eqb_spec c 16) as [->|H16]; [exists s; split; [done|]; split; [by apply keyed_refl|done]|].
  destruct (Z.eqb_spec c 21) as [->|H21].
  { destruct (killLine_spec 128 q line s Hready) as (s' & E & Hk & Hr'); [destruct Hr; lia|]. rewrite (bind_Ret _ _ _ _ _ E). by exists s'. }
  destruct ((c =? 8) || (c =? 127)) eqn:Ebs.
  { unfold getConsole. rewrite !bind_gets, (ring_same _ _ _ Hr). destruct line as [|d line _] using rev_ind.
    - exists s. split; [done|]. split; [by apply keyed_refl|done].
    - rewrite bool_decide_eq_false_2 by (by destruct line). cbn [negb]. destruct (ring_last _ _ _ _ Hr) as [_ Hr'].
      destruct (put_shown BACKSPACE (set_input_e (u32 (input_e (console s) - 1))) s Hpan Hc ltac:(done)) as (s1 & E1 & Hk1 & Hx1 & Hc1).
      rewrite (bind_Ret _ _ _ _ _ E1). exists s1. split; [done|]. split; [done|]. cbn [fst snd]. rewrite length_app, Nat.add_sub, take_app_length.
      apply Forall_app in Hl as [Hl _]. split_and!; [split; [by rewrite Hx1|done]|by rewrite Hx1|lia|lia]. }
  unfold getConsole. rewrite !bind_gets, (ring_gap _ _ _ Hr). unfold INPUT_BUF at 1.
  destruct (negb (c =? 0) && (Z.of_nat (length q + length line) <? 128)) eqn:Efit; [|exists s; split; [done|]; split; [by apply keyed_refl|done]].
  bdestr. cbv zeta. set (d := if c =? 13 then 10 else c). assert (Hd : 0 <= d < 256) by (unfold d; case_match; lia).
  rewrite bind_assoc, bind_gets. destruct (ring_add _ _ _ d Hr ltac:(lia)) as [Ewr Hr']. rewrite (u8_small d) by lia. rewrite Ewr. rewrite !bind_assoc, bind_checked. rewrite bind_assoc.
  set (f := fun x => set_inputBuf _ (set_input_e _ x)) in *.
  destruct (put_shown d f s Hpan Hc ltac:(done)) as (s1 & E1 & Hk1 & Hx1 & Hc1). unfold putConsole in E1 |- *. rewrite bind_puts in E1. rewrite bind_puts, bind_assoc, (bind_Ret _ _ _ _ _ E1).
  rewrite bind_assoc, bind_gets, bind_assoc, bind_gets, Hx1. change (set_inputBuf _ (set_input_e _ (console s))) with (f (console s)) in Hr'.
  rewrite (ring_full _ _ _ Hr'). destruct ((d =? 10) || (d =? 4) || (length q + length (line ++ [d]) =? 128)%nat) eqn:Eend.
  - rewrite bind_assoc, bind_puts. set (s2 := set_console (set_input_w (input_e (f (console s))) (console s1)) s1).
    pose proof Hk1 as (h & m & x & pt & -> & Hs & Hch & Hm & F). assert (Es2 : sync s2 = acq L_cons y) by exact Es.
    rewrite (bind_Ret _ _ _ _ _ (wakeup_inside L_cons (Some Ch_input) s2 y ltac:(done) Es2 Hb Hpt)).
    eexists. split; [reflexivity|]. cbn [fst snd]. split.
    + eapply keyed_trans; [exact Hk1|]. eexists h, m, _, _. split; [unfold s2; reflexivity|]. split; [apply shows_refl|]. split; [done|]. split; [done|]. cbn in Hx1. cbn. by auto 20.
    + cbn in Hx1. subst x. split; [split; [exact (ring_commit _ _ _ Hr')|done]|]. split; [exact Hpan|exact Hch].
  - rewrite bind_mret. exists s1. split; [done|]. split; [done|]. cbn [fst snd]. split_and!; [split; [by rewrite Hx1|]|by rewrite Hx1|lia|lia].
    apply Forall_app. split; [done|]. apply Forall_cons. split; [|done]. intros ->. done.
Qed.
End KeyProofs.

(** * Interrupts *)

(** What an interrupt changes: the screen and the ports, the buffer, the
    modifier keys, and the processes that sleep on the input. *)
Definition handled (s s' : KState) : Prop :=
  exists h m x pt, s' = set_console x (set_processTable pt (set_io h (set_kmem m s))) /\ 0 <= cursor h < 1920 /\
    (forall a, ~ crt <= a < crt + 4000 -> m a = kmem s a) /\ panicked x = panicked (console s) /\ Locking x = Locking (console s) /\
    input_r x = input_r (console s) /\ (pt = processTable s \/ pt = map (wake1 (Some Ch_input)) (processTable s)).

Lemma keyed_handled s s' : keyed s s' -> handled s s'.
Proof. intros (h & m & x & pt & -> & _ & Hc & Hm & E1 & E2 & E3 & E4 & E5 & Hpt). exists h, m, x, pt. by auto 20. Qed.

Lemma handled_trans s1 s2 s3 : handled s1 s2 -> handled s2 s3 -> handled s1 s3.
Proof.
  intros (h & m & x & pt & -> & Hc & Hm & E1 & E2 & E3 & Hpt) (h' & m' & x' & pt' & -> & Hc' & Hm' & F1 & F2 & F3 & Hpt'). cbn in *.
  exists h', m', x', pt'. split; [done|]. split; [done|]. split; [intros a Ha; by rewrite Hm', Hm|].
  repeat (split; [congruence|]). destruct Hpt as [->| ->], Hpt' as [->| ->]; auto. right. rewrite map_map. apply map_ext. intros. apply wake1_twice.
Qed.

Lemma handled_sync s s' : handled s s' -> sync s' = sync s.
Proof. by intros (h & m & x & pt & -> & _). Qed.

(** What reading a character changes. *)
Definition polled (s s' : KState) : Prop := exists x h, s' = withShift x (set_io h s) /\ cursor h = cursor (io s).

Lemma polled_handled s s' : 0 <= cursor (io s) < 1920 -> polled s s' -> handled s s'.
Proof. intros Hc (x & h & -> & E). exists h, (kmem s), (set_kbdShift x (console s)), (processTable s). rewrite E. split; [by destruct s|]. by auto 20. Qed.

Lemma polled_ready s s' q line : polled s s' -> ready s q line -> ready s' q line.
Proof.
  intros (x & h & -> & E) ([Hr Hl] & Hp & Hc). split_and!; [split; [|done]|done|cbn; lia|cbn; lia].
  destruct Hr as [Hs Hr Hw He Hf Hb]. by split.
Qed.

Section InterruptProofs.
Context `{Hardware} `{Scheduler} (Hcrt : crtLaw).

(** A source of characters in the states [inv]: [input s] are the ones that
    wait. *)
Definition delivers (getc : M KState Z) (input : KState -> list Z) (inv : KState -> Prop) : Prop :=
  forall s, inv s -> Forall (fun c => 0 <= c < 256) (input s) /\
    (exists s', getc s = Ret (match input s with [] => -1 | c :: _ => c end) s' /\ polled s s' /\ input s' = tail (input s) /\ inv s') /\
    (forall s', keyed s s' -> input s' = input s /\ inv s').

Lemma consoleKeys_spec getc input inv fuel : delivers getc input inv -> forall s q line d y, inv s -> ready s q line ->
  sync s = acq L_cons y -> balanced 2 y -> lockFree y L_processTable -> (length (input s) <= fuel)%nat ->
  exists s', consoleKeys fuel getc d s = Ret (d || existsb (Z.eqb 16) (input s)) s' /\ handled s s' /\
    ready s' (foldl edit (q, line) (input s)).1 (foldl edit (q, line) (input s)).2.
Proof.
  intros Hdel. induction fuel as [|fuel IH]; intros s q line d y Hinv Hrdy Es Hb Hpt Hfuel; destruct (Hdel s Hinv) as (Hc & (s1 & E1 & Hp1 & Ht1 & Hi1) & _);
    pose proof (polled_ready _ _ _ _ Hp1 Hrdy) as Hr1; pose proof (polled_handled s s1 (proj2 (proj2 Hrdy)) Hp1) as Hh1;
    cbn [consoleKeys]; rewrite (bind_Ret _ _ _ _ _ E1); destruct (input s) as [|c l] eqn:Ei; cbn [length tail existsb foldl] in *; try lia.
  - exists s1. rewrite orb_false_r. done.
  - exists s1. rewrite orb_false_r. done.
  - apply Forall_cons in Hc as [Hc _]. rewrite (proj2 (Z.ltb_ge c 0)) by lia.
    assert (Es1 : sync s1 = acq L_cons y) by (by rewrite (handled_sync _ _ Hh1)).
    destruct (consoleKey_spec Hcrt c q line s1 y Hr1 Hc Es1 Hb Hpt) as (s2 & E2 & Hk2 & Hr2). rewrite (bind_Ret _ _ _ _ _ E2).
    destruct (Hdel s1 Hi1) as (_ & _ & Hst). destruct (Hst s2 Hk2) as [Hi2 Hinv2]. rewrite Ht1 in Hi2.
    assert (Es2 : sync s2 = acq L_cons y) by (by rewrite (handled_sync _ _ (keyed_handled _ _ Hk2))).
    destruct (IH s2 (edit (q, line) c).1 (edit (q, line) c).2 (d || (c =? 16)) y Hinv2 Hr2 Es2 Hb Hpt ltac:(rewrite Hi2; lia)) as (s3 & E3 & Hh3 & Hr3).
    rewrite Hi2 in E3, Hr3. rewrite <- surjective_pairing in Hr3. exists s3. rewrite E3, <- orb_assoc, (Z.eqb_sym c). split; [done|]. split; [|done].
    eapply handled_trans; [exact Hh1|]. eapply handled_trans; [by apply keyed_handled|done].
Qed.

Lemma consoleInterrupt_spec getc input inv s q line : delivers getc input inv -> inv (entered L_cons s) -> ready s q line ->
  balanced 2 (sync s) -> lockFree (sync s) L_cons -> lockFree (sync s) L_processTable ->
  (length (input s) <= polls)%nat -> input (entered L_cons s) = input s -> 16 ∉ input s ->
  exists s', consoleInterrupt getc s = Ret tt s' /\ handled (settled s) s' /\ ready s' (foldl edit (q, line) (input s)).1 (foldl edit (q, line) (input s)).2.
Proof.
  intros Hdel Hinv Hrdy Hb Hl Hpt Hlen Hin H16. assert (Hb1 : balanced 1 (sync s)) by (by apply (balanced_weaken 2)).
  unfold consoleInterrupt. rewrite (bind_Ret _ _ _ _ _ (acquire_entered _ s Hb1 Hl)).
  destruct (consoleKeys_spec getc input inv polls Hdel (entered L_cons s) q line false (sync s) Hinv Hrdy eq_refl Hb Hpt ltac:(by rewrite Hin)) as (s1 & E1 & Hh1 & Hr1).
  rewrite Hin in E1, Hr1. rewrite (bind_Ret _ _ _ _ _ E1). rewrite (bind_Ret _ _ _ _ _ (release_settled L_cons s s1 Hb1 Hl (handled_sync _ _ Hh1))).
  assert (Hno : existsb (Z.eqb 16) (input s) = false).
  { apply not_true_iff_false. intros (c & Hc & E)%existsb_exists. apply Z.eqb_eq in E as <-. by apply H16, list_elem_of_In. }
  rewrite Hno. cbn [orb]. exists (set_sync (settle (sync s)) s1). split; [done|]. destruct Hh1 as (h & m & x & pt & -> & Hh). split; [|exact Hr1].
  exists h, m, x, pt. split; [done|exact Hh].
Qed.

(** * The keyboard as a source *)

(** [codes] are all the scan codes that the keyboard sends. *)
Definition keyboardLaw (codes : list Z) : Prop := forall h,
  (Z.land (u8 (portByte h KBSTATP)) KBS_DIB =? 0) = negb (codesRead h <? length codes)%nat /\
  ((codesRead h < length codes)%nat -> u8 (portByte h KBDATAP) = nth (codesRead h) codes 0).

(** The characters that a sequence of scan codes stands for. *)
Definition key (shift data : Z) : Z * Z :=
  if data =? 224 then (0, Z.lor shift E0ESC) else if 128 <=? data then (0, keyUp shift data) else keyDown shift data.

Fixpoint typed (shift : Z) (codes : list Z) : list Z :=
  match codes with
  | [] => []
  | d :: codes => (key shift d).1 :: typed (key shift d).2 codes
  end.

Definition keyboardInput (codes : list Z) (s : KState) : list Z := typed (kbdShift (console s)) (drop (codesRead (io s)) codes).

Lemma key_range shift data : 0 <= shift < 128 -> 0 <= data < 256 -> 0 <= (key shift data).1 < 256 /\ 0 <= (key shift data).2 < 128.
Proof.
  intros Hs Hd. pose proof (key_in_range shift data Hs Hd) as Hr. unfold keyInRange in Hr. unfold key. destruct (keyDown shift data) as [c x]. bdestr.
  destruct (data =? 224); [|destruct (128 <=? data); cbn; lia]. cbn [fst snd]. split; [lia|].
  assert (Hb := forallb_range2 1 128 (fun _ d => (0 <=? Z.lor d 64) && (Z.lor d 64 <? 128)) 0 shift eq_refl ltac:(lia) ltac:(lia)). cbn beta in Hb. bdestr. unfold E0ESC. lia.
Qed.

Lemma typed_range codes : Forall (fun d => 0 <= d < 256) codes -> forall shift, 0 <= shift < 128 -> Forall (fun c => 0 <= c < 256) (typed shift codes).
Proof.
  induction 1 as [|d codes Hd _ IH]; intros shift Hs; cbn; [constructor|]. destruct (key_range shift d Hs Hd) as [H1 H2]. constructor; [done|]. by apply IH.
Qed.

Lemma codesRead_shows h h' : shows h h' -> codesRead h' = codesRead h.
Proof.
  intros (l & -> & Hl). unfold codesRead. rewrite List.filter_app, length_app.
  assert (E : List.filter (fun e => match e with InByte 96 _ => true | _ => false end) l = []); [|by rewrite E].
  induction Hl as [|e l He _ IH]; cbn; [done|]. destruct e as [p v| | | | | |]; try done. cbn in He.
  rewrite !elem_of_cons, elem_of_nil in He. destruct He as [->|[->|[->|[->|[]]]]]; done.
Qed.

Lemma cursor_input p v h : cursor (InByte p v :: h) = cursor h.
Proof. done. Qed.

Lemma keyboard_delivers codes : keyboardLaw codes -> Forall (fun d => 0 <= d < 256) codes ->
  delivers kbdgetc (keyboardInput codes) (fun s => 0 <= kbdShift (console s) < 128).
Proof.
  intros Hkbd Hcodes s Hs. split; [apply typed_range; [by apply Forall_drop|done]|]. split.
  - destruct (Hkbd (io s)) as [Hst _]. unfold keyboardInput. set (st := u8 (portByte (io s) KBSTATP)) in *.
    destruct (Nat.ltb_spec (codesRead (io s)) (length codes)) as [Hlt|Hge].
    + set (d := u8 (portByte (InByte KBSTATP st :: io s) KBDATAP)).
      assert (Hp : pending s d (set_io (InByte KBDATAP d :: InByte KBSTATP st :: io s) s)) by (exists st; split_and!; [done|by apply Z.eqb_neq|done|done]).
      assert (Ed : d = nth (codesRead (io s)) codes 0) by exact (proj2 (Hkbd (InByte KBSTATP st :: io s)) Hlt).
      destruct (lookup_lt_is_Some_2 codes (codesRead (io s)) Hlt) as [d' Hd']. assert (d' = d) as -> by (rewrite Ed, nth_lookup, Hd'; done).
      rewrite (drop_S _ _ _ Hd'). cbn [typed tail]. set (x := kbdShift (console s)) in *.
      exists (withShift (key x d).2 (set_io (InByte KBDATAP d :: InByte KBSTATP st :: io s) s)).
      assert (Hdr : 0 <= d < 256) by apply u8_range. destruct (key_range x d Hs Hdr) as [H1 H2]. split; [|split; [|split; [|exact H2]]].
      * rewrite (kbdgetc_eq s d _ Hp Hs). fold x. unfold key. by repeat case_match.
      * eexists _, _. split; [reflexivity|]. by rewrite !cursor_input.
      * done.
    + rewrite drop_ge by lia. cbn [typed tail]. exists (set_io (InByte KBSTATP st :: io s) s). split; [|split; [|split; [|exact Hs]]].
      * unfold kbdgetc. rewrite bind_inputByte. fold st. by rewrite Hst.
      * exists (kbdShift (console s)), (InByte KBSTATP st :: io s). split; [|by rewrite cursor_input]. unfold withShift. destruct s as [? ? ? ? ? ? ? ? ? ? ? ? ? ? ? ? ? ? [] ? ? ? ? ? ? ?]. done.
      * change (codesRead (io (set_io (InByte KBSTATP st :: io s) s))) with (codesRead (io s)). by rewrite drop_ge by lia.
  - intros s' (h & m & x & pt & -> & Hsh & _ & _ & _ & _ & Hk & _). unfold keyboardInput. cbn [console set_console io set_io set_processTable set_kmem]. rewrite Hk, (codesRead_shows _ _ Hsh). done.
Qed.
End InterruptProofs.

(** * Reading *)

(** The reference: at most [n] characters of the queue, up to and with a
    newline, or up to Control-D, which is taken off the queue only if it is
    the first; [None] if the queue ends before. *)
Fixpoint takeLine (n : nat) (first : bool) (q : list Z) : option (list Z * list Z) :=
  match n, q with
  | O, _ => Some ([], q)
  | S _, [] => None
  | S n, c :: q =>
      if c =? 4 then Some ([], if first then q else c :: q)
      else if c =? 10 then Some ([c], q)
      else '(l, rest) ← takeLine n false q; Some (c :: l, rest)
  end.

Section ReadProofs.
Context `{Scheduler}.

Lemma ring_empty x q line : ring x q line -> (input_r x =? input_w x) = bool_decide (q = []).
Proof.
  intros [Hs Hr Hw He Hf _]. rewrite Hw. destruct q as [|c q]; cbn [length] in *.
  - rewrite Z.add_0_r, u32_small, Z.eqb_refl by lia. done.
  - apply Z.eqb_neq. unfold u32. zdiv.
Qed.

Lemma waitInput_ready fuel s c q line : ring (console s) (c :: q) line -> waitInput fuel s = Ret false s.
Proof. intros Hr. destruct fuel; cbn [waitInput]; unfold getConsole; by rewrite !bind_gets, (ring_empty _ _ _ Hr). Qed.

Definition withConsole (x : ConsoleState) (s : KState) : KState := set_console x s.

(** The characters that are there: the loop takes the line, or all of them. *)
Lemma readLoop_spec n : forall got q line s, inputs (console s) q line ->
  match takeLine n (length got =? 0)%nat q with
  | Some (l, rest) => exists x, readLoop n got s = Ret (Some (got ++ l)) (withConsole x s) /\ inputs x rest line
  | None => exists x m got', readLoop n got s = readLoop (S m) got' (withConsole x s) /\ inputs x [] line
  end.
Proof.
  induction n as [|n IH]; intros got q line s Hin; cbn [takeLine].
  - exists (console s). rewrite app_nil_r. split; [by destruct s|done].
  - destruct q as [|c q]; [exists (console s), n, got; split; [by destruct s|done]|]. pose proof Hin as [Hr Hl]. destruct (ring_take _ _ _ _ Hr) as [Erd Hr'].
    cbn [readLoop]. rewrite (bind_Ret _ _ _ _ _ (waitInput_ready _ _ _ _ _ Hr)). unfold inputAt, getConsole. rewrite bind_gets, bind_assoc, bind_gets, Erd, bind_checked.
    unfold putConsole. rewrite bind_puts. set (x1 := set_input_r (u32 (input_r (console s) + 1)) (console s)) in *.
    destruct (Z.eqb_spec c 4) as [->|H4].
    + destruct (length got =? 0)%nat eqn:Eg; cbn [negb].
      * exists x1. rewrite app_nil_r. split; [done|by split].
      * exists (console s). rewrite app_nil_r. split; [|done]. unfold putConsole. rewrite bind_puts. unfold mret, M_ret. f_equal. unfold withConsole, x1. cbn [console set_console input_r set_input_r].
        assert (Eback : u32 (u32 (input_r (console s) + 1) - 1) = input_r (console s)) by (rewrite u32_sub_l, Z.add_simpl_r; apply u32_small, (in_r _ _ _ Hr)).
        rewrite Eback. by destruct s as [? ? ? ? ? ? ? ? ? ? ? ? ? ? ? ? ? ? [] ? ? ? ? ? ? ?].
    + destruct (Z.eqb_spec c 10) as [->|H10]; [exists x1; split; [done|by split]|].
      specialize (IH (got ++ [c]) q line (set_console x1 s) ltac:(by split)). replace (length (got ++ [c]) =? 0)%nat with false in IH by (symmetry; apply Nat.eqb_neq; rewrite length_app; cbn; lia).
      destruct (takeLine n false q) as [[l rest]|]; cbn [mbind option_bind].
      * destruct IH as (x & E & Hx). exists x. rewrite E, <- app_assoc. done.
      * destruct IH as (x & m & got' & E & Hx). exists x, m, got'. rewrite E. done.
Qed.

Lemma currentKilled_false l s y p x : sync s = acq l y -> thread y p -> processTable s !! p = Some x -> IsKilled x = 0 -> currentKilled s = Ret false s.
Proof.
  intros Es Ht Hx Hk. unfold currentKilled. rewrite (bind_Ret _ _ _ _ _ (currentProcess_section l s y p Es Ht)), bind_checked.
  rewrite (bind_Ret _ _ _ _ _ (getProcess_eq p x s Hx)). by rewrite Hk.
Qed.

End ReadProofs.

(** * Properties *)

(** C27. The console's output: [consputc] (with the display controller keeping
    its registers) updates screen and cursor as a terminal of 24 rows by 80
    columns does, scrolling included, always returns with the cursor on the
    screen, and changes no byte of memory outside the screen. *)
Theorem consputc_terminal `{Hardware} `{Scheduler} (c : Z) (s : KState) :
  crtLaw -> panicked (console s) = 0 -> 0 <= cursor (io s) < 1920 ->
  exists s', consputc c s = Ret tt s' /\
    cursor (io s') = terminalPos c (cursor (io s)) /\ 0 <= cursor (io s') < 1920 /\
    (forall i, 0 <= i < 2000 -> cell (kmem s') i = terminalCells c (cursor (io s)) (cell (kmem s)) i) /\
    (forall a, ~ crt <= a < crt + 4000 -> kmem s' a = kmem s a) /\
    s' = set_io (io s') (set_kmem (kmem s') s).
Proof.
  intros Hcrt Hpan Hpos. destruct (consputc_eq Hcrt c s Hpan Hpos) as (h & E & _ & Hc). eexists. split; [exact E|].
  destruct (screenMem_spec c (cursor (io s)) (kmem s) Hpos) as [H1 H2]. pose proof (terminalPos_range c _ Hpos) as Ht. rewrite <- Hc in Ht.
  split; [exact Hc|]. split; [exact Ht|]. split; [exact H1|]. split; [exact H2|done].
Qed.

(** C26. From keys to lines: the keyboard interrupt reads all waiting scan
    codes, and leaves in the ring buffer exactly what the line editor makes of
    the characters they stand for, wherever the three 32-bit indices are; it
    changes nothing but the buffer, the modifiers, the screen, the ports and
    the sleepers on the input. *)
Theorem keyboardInterrupt_edits `{Hardware} `{Scheduler} (codes q line : list Z) (s : KState) :
  crtLaw -> keyboardLaw codes -> Forall (fun d => 0 <= d < 256) codes ->
  ready s q line -> 0 <= kbdShift (console s) < 128 ->
  balanced 2 (sync s) -> lockFree (sync s) L_cons -> lockFree (sync s) L_processTable ->
  (length (keyboardInput codes s) <= polls)%nat -> 16 ∉ keyboardInput codes s ->
  exists s', keyboardInterrupt s = Ret tt s' /\ handled (settled s) s' /\
    ready s' (foldl edit (q, line) (keyboardInput codes s)).1 (foldl edit (q, line) (keyboardInput codes s)).2.
Proof.
  intros Hcrt Hkbd Hcodes Hrdy Hs Hb Hl Hpt Hlen H16.
  exact (consoleInterrupt_spec Hcrt kbdgetc (keyboardInput codes) _ s q line (keyboard_delivers codes Hkbd Hcodes) Hs Hrdy Hb Hl Hpt Hlen eq_refl H16).
Qed.

(** C28. [consoleRead] returns the next line: at most [n] characters up to and
    with the newline, or up to Control-D, which ends the input once.  If the
    characters that have been handed over do not reach that far, and nobody
    types on, the process sleeps on the input with the console unlocked. *)
Theorem consoleRead_line `{Scheduler} (n : Z) (q line : list Z) (p : nat) (pr : Process) (s : KState) :
  inputs (console s) q line -> thread (sync s) p -> lockFree (sync s) L_cons -> lockFree (sync s) L_processTable ->
  processTable s !! p = Some pr -> IsKilled pr = 0 ->
  match takeLine (Z.to_nat n) true q with
  | Some (l, rest) => exists x, consoleRead n s = Ret (Z.of_nat (length l), l) (set_console x (settled s)) /\ inputs x rest line
  | None => wakeups <> 0%nat -> (forall t, resume t = None) ->
      exists x, consoleRead n s = Sleep (asleep p Ch_input (sync s) (set_console x s)) /\ inputs x [] line
  end.
Proof.
  intros Hin Ht Hl Hpt Hp Hk. pose proof (thread_balanced 1 _ p ltac:(lia) Ht) as Hb. unfold consoleRead. rewrite (bind_Ret _ _ _ _ _ (acquire_entered _ s Hb Hl)).
  pose proof (readLoop_spec (Z.to_nat n) [] q line (entered L_cons s) Hin) as Hloop. cbn [length Nat.eqb] in Hloop.
  destruct (takeLine (Z.to_nat n) true q) as [[l rest]|].
  - destruct Hloop as (x & E & Hx). rewrite (bind_Ret _ _ _ _ _ E). cbn [app]. erewrite bind_Ret; [|by apply (release_settled _ s)]. by exists x.
  - intros Hw Hres. destruct Hloop as (x & m & got & E & Hx). exists x. split; [|done]. set (s1 := withConsole x (entered L_cons s)) in *.
    assert (Hwait : waitInput wakeups s1 = Sleep (asleep p Ch_input (sync s) (set_console x s))).
    { destruct wakeups as [|fuel]; [done|]. cbn [waitInput]. unfold getConsole. rewrite !bind_gets. change (console s1) with x. rewrite (ring_empty _ _ _ (proj1 Hx)). cbn [negb bool_decide decide_rel].
      rewrite bool_decide_eq_true_2 by done. cbn [negb]. rewrite (bind_Ret _ _ _ _ _ (currentKilled_false L_cons s1 (sync s) p pr eq_refl Ht Hp Hk)).
      apply bind_Sleep. pose proof (sleep_spec Ch_input L_cons p (sync s) s1 eq_refl Ht ltac:(done) Hl Hpt ltac:(by exists pr)) as Hsl. rewrite Hres in Hsl. exact Hsl. }
    apply bind_Sleep. rewrite E. cbn [readLoop]. by apply bind_Sleep.
Qed.

(** * A keyboard and a screen *)

Definition demoPort (codes : list Z) (h : list IoEvent) (port : Z) : Z :=
  if port =? 981 then crtRegister (crtIndex h) h else if port =? 1021 then 32 else keyboardPort codes h port.

Definition demoTerminal (codes : list Z) : Hardware :=
  {| portByte := demoPort codes; portSequence := fun _ _ _ => []; registerWord := fun _ _ => 0; polls := 8 |}.

Lemma demoTerminal_crt codes : @crtLaw (demoTerminal codes).
Proof. intros h. reflexivity. Qed.

Lemma demoTerminal_keyboard codes : Forall (fun d => 0 <= d < 256) codes -> @keyboardLaw (demoTerminal codes) codes.
Proof.
  intros Hc h. split; [change (portByte h KBSTATP) with (truth (codesRead h <? length codes)%nat); by destruct (codesRead h <? length codes)%nat|].
  intros Hlt. change (portByte h KBDATAP) with (nth (codesRead h) codes 0). apply u8_small.
  destruct (lookup_lt_is_Some_2 codes (codesRead h) Hlt) as [d Hd]. rewrite nth_lookup, Hd. exact (Forall_lookup_1 _ _ _ _ Hc Hd).
Qed.

(** The cursor in the last cell of the last row. *)
Definition lastCell : list IoEvent := [OutByte 981 127; OutByte 980 15; OutByte 981 7; OutByte 980 14].

Lemma consputc_terminal_witness :
  exists s', @consputc (demoTerminal []) 65 (set_io lastCell demoKernel) = Ret tt s' /\ cursor (io s') = 1840 /\ cell (kmem s') 1839 = 1857.
Proof.
  destruct (@consputc_terminal (demoTerminal []) demoAlone 65 (set_io lastCell demoKernel) (demoTerminal_crt []) eq_refl ltac:(vm_compute; split; [discriminate|reflexivity]))
    as (s' & E & Hc & _ & Hcell & _). exists s'. split; [exact E|]. split; [rewrite Hc; vm_compute; reflexivity|]. rewrite Hcell by lia. vm_compute. reflexivity.
Defined.

(** An empty buffer whose indices are about to wrap around. *)
Definition demoBuffer : ConsoleState := mkConsoleState 0 1 (replicate 128 0) 4294967295 4294967295 4294967295 0 1.

Lemma demoBuffer_ready : ready (set_console demoBuffer demoKernel) [] [].
Proof. split_and!; [split; [|constructor]|done|vm_compute; discriminate|vm_compute; reflexivity]. by split. Qed.

(** The keys a, backspace, b, return. *)
Lemma keyboardInterrupt_edits_witness :
  exists s', @keyboardInterrupt (demoTerminal [30; 14; 48; 28]) (set_console demoBuffer demoKernel) = Ret tt s' /\ ready s' [98; 10] [].
Proof.
  assert (Hcodes : Forall (fun d => 0 <= d < 256) [30; 14; 48; 28]) by (repeat constructor; lia).
  destruct (@keyboardInterrupt_edits (demoTerminal [30; 14; 48; 28]) demoAlone [30; 14; 48; 28] [] [] (set_console demoBuffer demoKernel)
    (demoTerminal_crt _) (demoTerminal_keyboard _ Hcodes) Hcodes demoBuffer_ready ltac:(cbn; lia) (demoKernel_balanced 2 ltac:(lia))
    ltac:(apply demoKernel_free; unfold demoLockList; set_solver) demoKernel_table ltac:(vm_compute; lia) ltac:(apply (bool_decide_unpack _); vm_compute; exact I))
    as (s' & E & _ & Hr). exists s'. split; [exact E|exact Hr].
Defined.

(** Two characters and a newline, and Control-D behind them. *)
Definition demoLine : ConsoleState := mkConsoleState 0 1 ([104; 105; 10; 4] ++ replicate 124 0) 0 4 4 0 1.

Lemma consoleRead_line_witness :
  exists x, @consoleRead demoAlone 80 (set_console demoLine demoKernel) = Ret (3, [104; 105; 10]) (set_console x (settled (set_console demoLine demoKernel))) /\ inputs x [4] [].
Proof.
  assert (Hin : inputs demoLine [104; 105; 10; 4] []).
  { split; [|constructor]. split; try done. intros i c Hi. destruct i as [|[|[|[|i]]]]; cbn in Hi; [..|done]; injection Hi as <-; reflexivity. }
  exact (@consoleRead_line demoAlone 80 [104; 105; 10; 4] [] 0 demoProcess (set_console demoLine demoKernel) Hin demoKernel_thread
    ltac:(apply demoKernel_free; unfold demoLockList; set_solver) demoKernel_table eq_refl eq_refl).
Defined.
