(* ===== verification/Vm.v ===== *)
(** vm.c: two-level page tables in physical memory.

    A page table is the address of its directory, a page of 1024 32-bit
    entries; a page table entry is reached through its address.  All of it
    lives in the bytes of [kmem], next to the list of free pages. *)

From S2P Require Import Prelude CString Types Fat12 Spinlock Kernel Kalloc Sched Pipe Files.

(** * memlayout.h, mmu.h *)

Definition EXTMEM : Z := 1048576.
Definition DEVSPACE : Z := 4261412864.
Definition KERNLINK : Z := KERNBASE + EXTMEM.

Definition P2V (a : Z) : Z := u32 (a + KERNBASE).
Definition PDX (va : Z) : Z := Z.land (Z.shiftr va 22) 1023.
Definition PTX (va : Z) : Z := Z.land (Z.shiftr va 12) 1023.
Definition PGADDR (d t o : Z) : Z := u32 (Z.lor (Z.lor (Z.shiftl d 22) (Z.shiftl t 12)) o).
Definition NPDENTRIES : Z := 1024.

Definition PTE_P : Z := 1.
Definition PTE_W : Z := 2.
Definition PTE_U : Z := 4.
Definition PTE_ADDR (pte : Z) : Z := Z.land pte (Z.lnot 4095).
Definition PTE_FLAGS (pte : Z) : Z := Z.land pte 4095.

(** A word of memory. *)
Definition readWord (a : Z) : M KState Z := m ← gets kmem; mret (load32 m a).
Definition writeWord (a w : Z) : M KState unit := puts (fun s => set_kmem (store32 (kmem s) a w) s).

Definition present (pte : Z) : bool := negb (Z.land pte PTE_P =? 0).

Section Operations.
Context (kernelEnd : Z).

(** The address of the entry, or 0. *)
Definition getPageTableEntry (pgdir va : Z) (alloc : bool) : M KState Z :=
  let pde := padd pgdir (4 * PDX va) in
  e ← readWord pde;
  if present e then mret (padd (P2V (PTE_ADDR e)) (4 * PTX va))
  else if negb alloc then mret 0
  else
    pgtab ← allocatePhysicalMemoryPage;
    if pgtab =? 0 then mret 0
    else
      puts (fun s => set_kmem (memset (kmem s) pgtab 0 PGSIZE) s);;
      writeWord pde (Z.lor (Z.lor (Z.lor (V2P pgtab) PTE_P) PTE_W) PTE_U);;
      mret (padd pgtab (4 * PTX va)).

(** The loop from page [a] to page [last]; [n] bounds the pages left. *)
Fixpoint createEntries (n : nat) (pgdir a last pa perm : Z) : M KState Z :=
  match n with
  | O => spin
  | S n =>
      pte ← getPageTableEntry pgdir a true;
      if pte =? 0 then mret (-1)
      else
        e ← readWord pte;
        if present e then panic "remap"
        else
          writeWord pte (Z.lor (Z.lor pa perm) PTE_P);;
          if a =? last then mret 0
          else createEntries n pgdir (u32 (a + PGSIZE)) last (u32 (pa + PGSIZE)) perm
  end.

Definition createPageTableEntries (pgdir va size pa perm : Z) : M KState Z :=
  let a := PGROUNDDOWN va in
  let last := PGROUNDDOWN (u32 (va + size - 1)) in
  createEntries (Z.to_nat (u32 (last - a) / PGSIZE + 1)) pgdir a last pa perm.

(** The loop of [releaseUserPages]. *)
Fixpoint releasePages (fuel : nat) (pgdir a oldsz : Z) : M KState unit :=
  if negb (a <? oldsz) then mret tt
  else match fuel with
  | O => spin
  | S fuel =>
      pte ← getPageTableEntry pgdir a false;
      if pte =? 0 then
        releasePages fuel pgdir (u32 (u32 (PGADDR (PDX a + 1) 0 0 - PGSIZE) + PGSIZE)) oldsz
      else
        e ← readWord pte;
        (if present e then
           let pa := PTE_ADDR e in
           if pa =? 0 then panic "freePhysicalMemoryPage"
           else freePhysicalMemoryPage kernelEnd (P2V pa);; writeWord pte 0
         else mret tt);;
        releasePages fuel pgdir (u32 (a + PGSIZE)) oldsz
  end.

(** At most one round for each page. *)
Definition releaseUserPages (pgdir oldsz newsz : Z) : M KState Z :=
  if newsz >=? oldsz then mret oldsz
  else releasePages (Z.to_nat ((oldsz - newsz) / PGSIZE + 1)) pgdir (PGROUNDUP newsz) oldsz;; mret newsz.

Fixpoint freeTables (n : nat) (pgdir i : Z) : M KState unit :=
  match n with
  | O => mret tt
  | S n =>
      e ← readWord (padd pgdir (4 * i));
      (if present e then freePhysicalMemoryPage kernelEnd (P2V (PTE_ADDR e)) else mret tt);;
      freeTables n pgdir (i + 1)
  end.

Definition freeMemoryAndPageTable (pgdir : Z) : M KState unit :=
  if pgdir =? 0 then panic "freeMemoryAndPageTable: no pgdir"
  else
    releaseUserPages pgdir KERNBASE 0;;
    freeTables (Z.to_nat NPDENTRIES) pgdir 0;;
    freePhysicalMemoryPage kernelEnd pgdir.

(** [data]: the start of the kernel's data, from the linker script. *)
Context (data : Z).

(** [kernelMemoryMap]: virt, phys_start, phys_end, perm. *)
Definition kernelMemoryMap : list (Z * Z * Z * Z) :=
  [ (KERNBASE, 0, EXTMEM, PTE_W);
    (KERNLINK, V2P KERNLINK, V2P data, 0);
    (data, V2P data, PHYSTOP, PTE_W);
    (DEVSPACE, DEVSPACE, 0, PTE_W) ].

Fixpoint mapKernel (pgdir : Z) (l : list (Z * Z * Z * Z)) : M KState Z :=
  match l with
  | [] => mret pgdir
  | (virt, phys_start, phys_end, perm) :: l =>
      r ← createPageTableEntries pgdir virt (u32 (phys_end - phys_start)) phys_start perm;
      if r <? 0 then freeMemoryAndPageTable pgdir;; mret 0
      else mapKernel pgdir l
  end.

Definition setupKernelVirtualMemory : M KState Z :=
  pgdir ← allocatePhysicalMemoryPage;
  if pgdir =? 0 then mret 0
  else
    puts (fun s => set_kmem (memset (kmem s) pgdir 0 PGSIZE) s);;
    if P2V PHYSTOP >? DEVSPACE then panic "PHYSTOP too high"
    else mapKernel pgdir kernelMemoryMap.

Definition allocateKernelVirtualMemory : M KState unit :=
  pgdir ← setupKernelVirtualMemory;
  puts (set_kernelPageDirectory pgdir);;
  switchToKernelVirtualMemory.

(** A null page is written to: [memset] of address 0 is not mapped. *)
Definition initialiseUserVirtualMemory (pgdir init memorySize : Z) : M KState unit :=
  if memorySize >=? PGSIZE then panic "initialiseUserVirtualMemory: more than a page"
  else
    mem ← allocatePhysicalMemoryPage;
    if mem =? 0 then fault "initialiseUserVirtualMemory: null page"
    else
      puts (fun s => set_kmem (memset (kmem s) mem 0 PGSIZE) s);;
      createPageTableEntries pgdir 0 PGSIZE (V2P mem) (Z.lor PTE_W PTE_U);;
      puts (fun s => set_kmem (memmove (kmem s) mem init memorySize) s).

(** The loop of [allocateMemoryAndPageTables]. *)
Fixpoint growPages (fuel : nat) (pgdir a oldsz newsz : Z) : M KState Z :=
  if negb (a <? newsz) then mret newsz
  else match fuel with
  | O => spin
  | S fuel =>
      mem ← allocatePhysicalMemoryPage;
      if mem =? 0 then
        message "allocateMemoryAndPageTables out of memory";;
        releaseUserPages pgdir newsz oldsz;;
        mret 0
      else
        puts (fun s => set_kmem (memset (kmem s) mem 0 PGSIZE) s);;
        r ← createPageTableEntries pgdir a PGSIZE (V2P mem) (Z.lor PTE_W PTE_U);
        if r <? 0 then
          message "allocateMemoryAndPageTables out of memory (2)";;
          releaseUserPages pgdir newsz oldsz;;
          freePhysicalMemoryPage kernelEnd mem;;
          mret 0
        else growPages fuel pgdir (u32 (a + PGSIZE)) oldsz newsz
  end.

Definition allocateMemoryAndPageTables (pgdir oldsz newsz : Z) : M KState Z :=
  if newsz >=? KERNBASE then mret 0
  else if newsz <? oldsz then mret oldsz
  else growPages (Z.to_nat (newsz / PGSIZE + 1)) pgdir (PGROUNDUP oldsz) oldsz newsz.

Definition clearPTEU (pgdir uva : Z) : M KState unit :=
  pte ← getPageTableEntry pgdir uva false;
  if pte =? 0 then panic "clearPTEU"
  else e ← readWord pte; writeWord pte (Z.land e (Z.lnot PTE_U)).

(** The loop of [copyProcessPageTable]. *)
Fixpoint copyPages (fuel : nat) (pgdir d i size : Z) : M KState Z :=
  if negb (i <? size) then mret d
  else match fuel with
  | O => spin
  | S fuel =>
      pte ← getPageTableEntry pgdir i false;
      if pte =? 0 then panic "copyProcessPageTable: pte should exist"
      else
        e ← readWord pte;
        if negb (present e) then panic "copyProcessPageTable: page not present"
        else
          let pa := PTE_ADDR e in
          let flags := PTE_FLAGS e in
          mem ← allocatePhysicalMemoryPage;
          if mem =? 0 then freeMemoryAndPageTable d;; mret 0
          else
            puts (fun s => set_kmem (memmove (kmem s) mem (P2V pa) PGSIZE) s);;
            r ← createPageTableEntries d i PGSIZE (V2P mem) flags;
            if r <? 0 then freeMemoryAndPageTable d;; mret 0
            else copyPages fuel pgdir d (u32 (i + PGSIZE)) size
  end.

Definition copyProcessPageTable (pgdir size : Z) : M KState Z :=
  d ← setupKernelVirtualMemory;
  if d =? 0 then mret 0 else copyPages (Z.to_nat (size / PGSIZE + 1)) pgdir d 0 size.

(** The entry is read also when [getPageTableEntry] found none. *)
Definition mapVirtualAddressToKernelAddress (pgdir uva : Z) : M KState Z :=
  pte ← getPageTableEntry pgdir uva false;
  if pte =? 0 then fault "mapVirtualAddressToKernelAddress: null entry"
  else
    e ← readWord pte;
    if negb (present e) then mret 0
    else if Z.land e PTE_U =? 0 then mret 0
    else mret (P2V (PTE_ADDR e)).

(** The loop of [copyToUserVirtualMemory]; every round copies a byte or more. *)
Fixpoint copyOut (fuel : nat) (pgdir va buf len : Z) : M KState Z :=
  if negb (len >? 0) then mret 0
  else match fuel with
  | O => spin
  | S fuel =>
      let va0 := PGROUNDDOWN va in
      pa0 ← mapVirtualAddressToKernelAddress pgdir va0;
      if pa0 =? 0 then mret (-1)
      else
        let n := u32 (PGSIZE - (va - va0)) in
        let n := if n >? len then len else n in
        puts (fun s => set_kmem (memmove (kmem s) (padd pa0 (va - va0)) buf n) s);;
        copyOut fuel pgdir (u32 (va0 + PGSIZE)) (padd buf n) (u32 (len - n))
  end.

Definition copyToUserVirtualMemory (pgdir va p len : Z) : M KState Z :=
  copyOut (Z.to_nat (len / PGSIZE + 2)) pgdir va p len.

(** [fileRead] stores [bytes] at address [a]. *)
Definition storeBytes (m : mem) (a : Z) (bytes : list Z) : mem :=
  fun x => if (a <=? x) && (x <? a + Z.of_nat (length bytes)) then nth (Z.to_nat (x - a)) bytes 0 else m x.

Context (devices : list Device) `{Scheduler} `{BlockCache KState}.

(** The loop of [loadProgramSegmentIntoPageTable]. *)
Fixpoint loadPages (fuel : nat) (pgdir addr : Z) (f : nat) (offset memorySize i : Z) : M KState Z :=
  if negb (i <? memorySize) then mret 0
  else match fuel with
  | O => spin
  | S fuel =>
      pte ← getPageTableEntry pgdir (u32 (addr + i)) false;
      if pte =? 0 then panic "loadProgramSegmentIntoPageTable: address should exist"
      else
        e ← readWord pte;
        let pa := PTE_ADDR e in
        let n := if memorySize - i <? PGSIZE then memorySize - i else PGSIZE in
        if offset =? 0 then
          puts (fun s => set_kmem (memset (kmem s) (P2V pa) 0 n) s);;
          loadPages fuel pgdir addr f offset memorySize (u32 (i + PGSIZE))
        else
          file ← getSlot f;
          putSlot f (set_Position (u32 (offset + i)) file);;
          '(r, bytes) ← fileRead devices f n;
          puts (fun s => set_kmem (storeBytes (kmem s) (P2V pa) bytes) s);;
          if negb (u32 r =? n) then mret (-1)
          else loadPages fuel pgdir addr f offset memorySize (u32 (i + PGSIZE))
  end.

Definition loadProgramSegmentIntoPageTable (pgdir addr : Z) (f : nat) (offset memorySize : Z) : M KState Z :=
  if negb (addr mod PGSIZE =? 0) then panic "loadProgramSegmentIntoPageTable: addr must be page aligned"
  else loadPages (Z.to_nat (memorySize / PGSIZE + 1)) pgdir addr f offset memorySize 0.

End Operations.

(** * Arithmetic of page tables *)

Lemma land_ldiff_page a : Z.land a (Z.lnot 4095) = a - a mod 4096.
Proof.
  change 4095 with (Z.ones 12). rewrite <- Z.ldiff_land, Z.ldiff_ones_r by lia.
  rewrite Z.shiftl_mul_pow2, Z.shiftr_div_pow2 by lia. change (2 ^ 12) with 4096. zdiv.
Qed.

Lemma PTE_ADDR_eq e : PTE_ADDR e = e - e mod 4096.
Proof. apply land_ldiff_page. Qed.

Lemma PGROUNDDOWN_eq a : PGROUNDDOWN a = a - a mod 4096.
Proof. apply land_ldiff_page. Qed.

Lemma PTE_FLAGS_eq e : PTE_FLAGS e = e mod 4096.
Proof. unfold PTE_FLAGS. change 4095 with (Z.ones 12). by rewrite Z.land_ones by lia. Qed.

Lemma PDX_eq va : PDX va = va / 4194304 mod 1024.
Proof. unfold PDX. change 1023 with (Z.ones 10). by rewrite Z.land_ones, Z.shiftr_div_pow2 by lia. Qed.

Lemma PTX_eq va : PTX va = va / 4096 mod 1024.
Proof. unfold PTX. change 1023 with (Z.ones 10). by rewrite Z.land_ones, Z.shiftr_div_pow2 by lia. Qed.

Lemma present_eq e : present e = Z.odd e.
Proof.
  unfold present, PTE_P. change 1 with (Z.ones 1). rewrite Z.land_ones by lia. change (2 ^ 1) with 2.
  rewrite Zmod_odd. by destruct (Z.odd e).
Qed.

(** An aligned address and flags do not overlap. *)
Lemma lor_aligned a b : a mod 4096 = 0 -> 0 <= b < 4096 -> Z.lor a b = a + b.
Proof.
  intros Ha Hb. rewrite <- Z.add_nocarry_lor; [done|].
  replace a with (Z.shiftl (a / 4096) 12) by (rewrite Z.shiftl_mul_pow2 by lia; change (2 ^ 12) with 4096; zdiv).
  apply Z.bits_inj'. intros i Hi. rewrite Z.land_spec, Z.bits_0. destruct (decide (i < 12)).
  - by rewrite Z.shiftl_spec_low by lia.
  - apply andb_false_intro2. destruct (decide (b = 0)) as [->|]; [apply Z.bits_0|].
    apply Z.bits_above_log2; [lia|]. assert (Z.log2 b < 12) by (apply Z.log2_lt_pow2; lia). lia.
Qed.

Lemma lor_flags_range a b : 0 <= a < 4096 -> 0 <= b < 4096 -> 0 <= Z.lor a b < 4096.
Proof.
  intros Ha Hb. split; [apply Z.lor_nonneg; lia|]. destruct (decide (Z.lor a b = 0)) as [->|Hn]; [lia|].
  change 4096 with (2 ^ 12). apply Z.log2_lt_pow2; [pose proof (Z.lor_nonneg a b); lia|]. rewrite Z.log2_lor by lia.
  assert (Hl : forall c, 0 <= c < 4096 -> Z.log2 c < 12).
  { intros c Hc. destruct (decide (c = 0)) as [->|]; [done|]. apply Z.log2_lt_pow2; lia. }
  pose proof (Hl a Ha). pose proof (Hl b Hb). lia.
Qed.

(** The word [pa | perm | PTE_P]. *)
Definition pteWord (pa perm : Z) : Z := Z.lor (Z.lor pa perm) PTE_P.

Lemma pteWord_eq pa perm : pa mod 4096 = 0 -> 0 <= perm < 4096 -> pteWord pa perm = pa + Z.lor perm 1.
Proof.
  intros Hpa Hp. unfold pteWord, PTE_P. rewrite <- Z.lor_assoc. apply lor_aligned; [done|]. apply lor_flags_range; lia.
Qed.

Lemma pteWord_decode pa perm : pa mod 4096 = 0 -> 0 <= perm < 4096 ->
  present (pteWord pa perm) = true /\ PTE_ADDR (pteWord pa perm) = pa /\ PTE_FLAGS (pteWord pa perm) = Z.lor perm PTE_P.
Proof.
  intros Hpa Hp. pose proof (lor_flags_range perm 1 Hp ltac:(lia)) as Hr. rewrite PTE_ADDR_eq, PTE_FLAGS_eq. split_and!.
  - unfold present, pteWord. rewrite Z.land_lor_distr_l. change (Z.land PTE_P PTE_P) with 1.
    rewrite (proj2 (Z.eqb_neq _ 0)); [done|]. intros E. apply Z.lor_eq_0_iff in E as [_ E]. done.
  - rewrite pteWord_eq by done. zdiv.
  - rewrite pteWord_eq by done. unfold PTE_P. zdiv.
Qed.

(** * Page tables *)

Definition pdeOf (m : mem) (pgdir i : Z) : Z := load32 m (pgdir + 4 * i).
Definition tableOf (e : Z) : Z := P2V (PTE_ADDR e).

(** The entry for [va]: 0 if there is no table for it. *)
Definition entry (m : mem) (pgdir va : Z) : Z :=
  let e := pdeOf m pgdir (PDX va) in
  if present e then load32 m (tableOf e + 4 * PTX va) else 0.

(** Only memory, the free list and the processor's interrupt state change. *)
Definition touches (s s' : KState) : Prop :=
  s' = set_sync (sync s') (set_kmem (kmem s') (set_FreeList (FreeList s') s)) /\
  (sync s' = sync s \/ sync s' = settle (sync s)).

#[export] Instance touches_refl : Reflexive touches.
Proof. intros s. split; [by destruct s|by left]. Qed.

#[export] Instance touches_trans : Transitive touches.
Proof.
  intros s1 s2 s3 [E1 H1] [E2 H2]. split; [rewrite E2, E1; by destruct s3|].
  destruct H1 as [H1|H1], H2 as [H2|H2]; rewrite H2, H1; rewrite ?settle_settle; auto.
Qed.

Lemma touches_kmem m s : touches s (set_kmem m s).
Proof. split; [by destruct s|by left]. Qed.

Section PageTables.
Context (kernelEnd : Z).
Notation page_ok := (page_ok kernelEnd).
Notation free_pages := (free_pages kernelEnd).

(** The directory and the tables are distinct pages that are not free. *)
Record pt_ok (m : mem) (pgdir : Z) (free : list Z) : Prop := {
  pt_bytes : mem_bytes m;
  pt_dir : page_ok pgdir /\ pgdir ∉ free;
  pt_table i : 0 <= i < 1024 -> present (pdeOf m pgdir i) = true ->
    page_ok (tableOf (pdeOf m pgdir i)) /\ tableOf (pdeOf m pgdir i) ∉ free /\ tableOf (pdeOf m pgdir i) <> pgdir;
  pt_distinct i j : 0 <= i < 1024 -> 0 <= j < 1024 -> i <> j ->
    present (pdeOf m pgdir i) = true -> present (pdeOf m pgdir j) = true ->
    tableOf (pdeOf m pgdir i) <> tableOf (pdeOf m pgdir j)
}.

Lemma PDX_range va : 0 <= PDX va < 1024.
Proof. rewrite PDX_eq. zdiv. Qed.

Lemma PTX_range va : 0 <= PTX va < 1024.
Proof. rewrite PTX_eq. zdiv. Qed.

Lemma same_page va va' : 0 <= va < 4294967296 -> 0 <= va' < 4294967296 ->
  va / 4096 = va' / 4096 <-> PDX va = PDX va' /\ PTX va = PTX va'.
Proof. intros. rewrite !PDX_eq, !PTX_eq. zdiv. Qed.

Lemma page_range p : page_ok p -> 0 < p /\ p + 4096 < 4294967296 /\ p mod 4096 = 0.
Proof. unfold Kalloc.page_ok, PGSIZE, KERNBASE, PHYSTOP. lia. Qed.

Lemma words_disjoint p q i j : page_ok p -> page_ok q -> p <> q -> 0 <= i < 1024 -> 0 <= j < 1024 ->
  p + 4 * i + 4 <= q + 4 * j \/ q + 4 * j + 4 <= p + 4 * i.
Proof. intros Hp%page_range Hq%page_range Hne Hi Hj. zdiv. Qed.

(** A store to a word of page [p] is not seen in page [q]. *)
Lemma store_other_page m p q i j w : page_ok p -> page_ok q -> p <> q -> 0 <= i < 1024 -> 0 <= j < 1024 ->
  load32 (store32 m (p + 4 * i) w) (q + 4 * j) = load32 m (q + 4 * j).
Proof.
  intros Hp Hq Hne Hi Hj. pose proof (words_disjoint p q i j Hp Hq Hne Hi Hj).
  apply page_range in Hp, Hq. apply load32_store32_other; lia.
Qed.

Lemma store_same_page m p i j w : page_ok p -> 0 <= i < 1024 -> 0 <= j < 1024 -> 0 <= w < 4294967296 ->
  load32 (store32 m (p + 4 * i) w) (p + 4 * j) = if decide (j = i) then w else load32 m (p + 4 * j).
Proof.
  intros Hp%page_range Hi Hj Hw. case_decide as E.
  - subst j. apply load32_store32; lia.
  - apply load32_store32_other; lia.
Qed.

Lemma store_free_pages s l p i w : free_pages s l -> page_ok p -> p ∉ l -> 0 <= i < 1024 ->
  free_pages (set_kmem (store32 (kmem s) (p + 4 * i) w) s) l.
Proof.
  intros (Hc & Hok & Hnd) Hp Hn Hi. pose proof (page_range p Hp). split_and!; try done. cbn.
  apply (freeChain_frame kernelEnd (kmem s)); try done. intros q a Hq Ha. apply store32_out; [lia|lia|].
  assert (Hqp : page_ok q) by (by apply (proj1 (Forall_forall _ _) Hok)). assert (q <> p) by congruence.
  apply page_range in Hqp. unfold in_page, PGSIZE in Ha. zdiv.
Qed.

(** Storing an entry of a table that is there. *)
Lemma entry_store m pgdir free va w :
  let e := pdeOf m pgdir (PDX va) in let m' := store32 m (tableOf e + 4 * PTX va) w in
  pt_ok m pgdir free -> 0 <= va < 4294967296 -> present e = true -> 0 <= w < 4294967296 ->
  pt_ok m' pgdir free /\ (forall i, 0 <= i < 1024 -> pdeOf m' pgdir i = pdeOf m pgdir i) /\
  (forall va', 0 <= va' < 4294967296 -> entry m' pgdir va' = if decide (va' / 4096 = va / 4096) then w else entry m pgdir va').
Proof.
  intros e m' Hok Hva He Hw. pose proof (PDX_range va) as Hd. pose proof (PTX_range va) as Ht.
  destruct (pt_dir _ _ _ Hok) as [Hdir Hnf]. destruct (pt_table _ _ _ Hok (PDX va) Hd He) as (Htab & Hntab & Hnd). fold e in Htab, Hntab, Hnd.
  assert (Hpde : forall i, 0 <= i < 1024 -> pdeOf m' pgdir i = pdeOf m pgdir i).
  { intros i Hi. unfold pdeOf, m'. by apply store_other_page. }
  split_and!; [|done|].
  - split.
    + apply store32_bytes, (pt_bytes _ _ _ Hok).
    + done.
    + intros i Hi. rewrite Hpde by done. by apply (pt_table _ _ _ Hok).
    + intros i j Hi Hj. rewrite !Hpde by done. by apply (pt_distinct _ _ _ Hok).
  - intros va' Hva'. unfold entry. cbv zeta. rewrite Hpde by apply PDX_range.
    pose proof (PDX_range va') as Hd'. pose proof (PTX_range va') as Ht'. case_decide as E.
    + apply same_page in E as [E1 E2]; [|done|done]. rewrite E1, E2. fold e. rewrite He. unfold m'.
      rewrite store_same_page by done. by rewrite decide_True.
    + destruct (present (pdeOf m pgdir (PDX va'))) eqn:Ep; [|done]. destruct (pt_table _ _ _ Hok _ Hd' Ep) as (Htab' & _ & _).
      unfold m'. destruct (decide (PDX va' = PDX va)) as [Ed|Ed].
      * rewrite Ed. fold e. rewrite store_same_page by done. rewrite decide_False; [done|]. intros Et. apply E. by apply same_page.
      * apply store_other_page; try done. intros Eq. symmetry in Eq. exact (pt_distinct _ _ _ Hok _ _ Hd' Hd Ed Ep He Eq).
Qed.

(** The entry of the directory for a new table. *)
Lemma table_word T : page_ok T -> let w := Z.lor (Z.lor (Z.lor (V2P T) PTE_P) PTE_W) PTE_U in
  0 <= w < 4294967296 /\ present w = true /\ tableOf w = T.
Proof.
  intros Hp w. assert (HT : KERNBASE <= T < KERNBASE + PHYSTOP /\ T mod 4096 = 0) by (unfold Kalloc.page_ok, PGSIZE in Hp; lia).
  unfold KERNBASE, PHYSTOP in HT.
  assert (HV : V2P T = T - 2147483648) by (unfold V2P, KERNBASE; apply u32_small; lia).
  assert (E : w = V2P T + 7).
  { unfold w. rewrite <- !Z.lor_assoc. apply lor_aligned; [rewrite HV; zdiv|done]. }
  rewrite E, present_eq. split_and!; [lia|lia| |].
  - rewrite HV. replace (T - 2147483648 + 7) with (1 + 2 * ((T - 2147483648 + 6) / 2)) by zdiv. by rewrite Z.odd_add_mul_2.
  - unfold tableOf, P2V. rewrite PTE_ADDR_eq, HV. unfold KERNBASE. rewrite u32_small; zdiv.
Qed.

Lemma memset_other m T q : page_ok T -> page_ok q -> q <> T -> forall i, 0 <= i < 1024 ->
  load32 (memset m T 0 PGSIZE) (q + 4 * i) = load32 m (q + 4 * i).
Proof.
  intros HT%page_range Hq%page_range Hne i Hi. apply load32_same; [lia|lia|]. intros a Ha. unfold PGSIZE. rewrite memset_fill by lia.
  destruct (Z.leb_spec T a), (Z.ltb_spec a (T + 4096)); cbn [andb]; try done. exfalso. zdiv.
Qed.

Lemma memset_zero m T i : page_ok T -> 0 <= i < 1024 -> load32 (memset m T 0 PGSIZE) (T + 4 * i) = 0.
Proof.
  intros HT%page_range Hi. unfold load32, PGSIZE. rewrite !padd_small by lia. rewrite !memset_fill by lia.
  rewrite !(proj2 (Z.leb_le T _)), !(proj2 (Z.ltb_lt _ (T + 4096))) by lia. done.
Qed.

Lemma memset_bytes m T : mem_bytes m -> page_ok T -> mem_bytes (memset m T 0 PGSIZE).
Proof. intros Hm HT%page_range a. unfold PGSIZE. rewrite memset_fill by lia. case_match; [apply u8_range|apply Hm]. Qed.

(** A new table changes no entry. *)
Lemma table_new m pgdir T free i :
  let w := Z.lor (Z.lor (Z.lor (V2P T) PTE_P) PTE_W) PTE_U in
  let m' := store32 (memset m T 0 PGSIZE) (pgdir + 4 * i) w in
  pt_ok m pgdir (T :: free) -> page_ok T -> T ∉ free -> 0 <= i < 1024 -> present (pdeOf m pgdir i) = false ->
  pt_ok m' pgdir free /\ pdeOf m' pgdir i = w /\
  (forall va, 0 <= va < 4294967296 -> entry m' pgdir va = entry m pgdir va).
Proof.
  intros w m' Hok HT HnT Hi Hnp. destruct (table_word T HT) as (Hw & Hpw & Htw). fold w in Hw, Hpw, Htw.
  destruct (pt_dir _ _ _ Hok) as [Hdir Hnf]. assert (HdT : pgdir <> T) by (intros ->; apply Hnf; set_solver).
  assert (Hpde : forall j, 0 <= j < 1024 -> pdeOf m' pgdir j = if decide (j = i) then w else pdeOf m pgdir j).
  { intros j Hj. unfold pdeOf, m'. rewrite store_same_page by done. case_decide; [done|]. by apply memset_other. }
  assert (Hfresh : forall j, 0 <= j < 1024 -> present (pdeOf m pgdir j) = true -> tableOf (pdeOf m pgdir j) <> T).
  { intros j Hj Hp E. destruct (pt_table _ _ _ Hok j Hj Hp) as (_ & H & _). apply H. rewrite E. set_solver. }
  split_and!.
  - split.
    + apply store32_bytes, memset_bytes; [apply (pt_bytes _ _ _ Hok)|done].
    + split; [done|set_solver].
    + intros j Hj. rewrite Hpde by done. case_decide; [intros _; rewrite Htw; by split_and!|].
      intros Hp. destruct (pt_table _ _ _ Hok j Hj Hp) as (H1 & H2 & H3). split_and!; [done|set_solver|done].
    + intros j k Hj Hk Hjk. rewrite !Hpde by done. destruct (decide (j = i)) as [->|], (decide (k = i)) as [->|]; [done| | |].
      * intros _ Hp. rewrite Htw. intros E. by apply (Hfresh k).
      * intros Hp _. rewrite Htw. by apply Hfresh.
      * by apply (pt_distinct _ _ _ Hok).
  - rewrite Hpde by done. by rewrite decide_True.
  - intros va Hva. unfold entry. cbv zeta. rewrite Hpde by apply PDX_range. pose proof (PTX_range va) as Ht. case_decide as E.
    + rewrite Hpw, Htw, E, Hnp. unfold m'. rewrite store_other_page by done. by apply memset_zero.
    + destruct (present (pdeOf m pgdir (PDX va))) eqn:Ep; [|done].
      destruct (pt_table _ _ _ Hok _ (PDX_range va) Ep) as (H1 & H2 & H3).
      unfold m'. rewrite store_other_page by (done || by symmetry). apply memset_other; try done. by apply Hfresh; [apply PDX_range|].
Qed.

Lemma touches_alloc h s : touches s (set_FreeList h (kmem_settled s)).
Proof. unfold kmem_settled. destruct (UseLock s =? 0); (split; [by destruct s|]); [by left|by right]. Qed.

Lemma kmem_ready_touches s s' : touches s s' -> kmem_ready s -> kmem_ready s'.
Proof.
  intros [E H] [Hu|[Hb Hl]]; [left; by rewrite E|right].
  destruct H as [-> | ->]; [done|]. split; [by apply settle_balanced|by apply settle_lockFree].
Qed.

(** A page that is neither free nor part of the page table. *)
Definition outside (m : mem) (pgdir : Z) (free : list Z) (q : Z) : Prop :=
  page_ok q /\ q ∉ free /\ q <> pgdir /\
  forall i, 0 <= i < 1024 -> present (pdeOf m pgdir i) = true -> tableOf (pdeOf m pgdir i) <> q.

Record vm_state (s : KState) (pgdir : Z) (free : list Z) : Prop := {
  vm_table : pt_ok (kmem s) pgdir free;
  vm_free : free_pages s free;
  vm_ready : kmem_ready s
}.

(** From [s] to [s'] the table only gains entries of its own, and pages
    outside it are not touched. *)
Record vm_step (s : KState) (pgdir : Z) (free : list Z) (s' : KState) (free' : list Z) : Prop := {
  step_state : vm_state s' pgdir free';
  step_touches : touches s s';
  step_free : exists used, free = used ++ free';
  step_outside q : outside (kmem s) pgdir free q ->
    outside (kmem s') pgdir free' q /\ forall a, in_page q a -> kmem s' a = kmem s a
}.

Lemma vm_step_refl s pgdir free : vm_state s pgdir free -> vm_step s pgdir free s free.
Proof. intros H. split; [done|reflexivity|by exists []|done]. Qed.

Lemma vm_step_trans s pgdir f1 s1 f2 s2 f3 : vm_step s pgdir f1 s1 f2 -> vm_step s1 pgdir f2 s2 f3 -> vm_step s pgdir f1 s2 f3.
Proof.
  intros [A1 B1 [u1 ->] D1] [A2 B2 [u2 ->] D2]. split; [done|by transitivity s1|exists (u1 ++ u2); by rewrite app_assoc|].
  intros q Hq. destruct (D1 q Hq) as [Hq1 E1]. destruct (D2 q Hq1) as [Hq2 E2]. split; [done|]. intros a Ha. by rewrite E2, E1.
Qed.

Lemma in_page_disjoint p q a : page_ok p -> page_ok q -> p <> q -> in_page p a -> ~ in_page q a.
Proof. apply (pages_disjoint kernelEnd). Qed.

(** ** Looking an entry up *)

Lemma pte_address T i : page_ok T -> 0 <= i < 1024 -> padd T (4 * i) = T + 4 * i.
Proof. intros HT%page_range Hi. apply padd_small; lia. Qed.

Lemma bind_readWord {B} a (k : Z -> M KState B) s : (readWord a ≫= k) s = k (load32 (kmem s) a) s.
Proof. done. Qed.

Lemma bind_writeWord {B} a w (k : unit -> M KState B) s : (writeWord a w ≫= k) s = k tt (set_kmem (store32 (kmem s) a w) s).
Proof. done. Qed.

Lemma get_present s pgdir free va alloc : pt_ok (kmem s) pgdir free -> present (pdeOf (kmem s) pgdir (PDX va)) = true ->
  getPageTableEntry pgdir va alloc s = Ret (tableOf (pdeOf (kmem s) pgdir (PDX va)) + 4 * PTX va) s.
Proof.
  intros Hok Hp. unfold getPageTableEntry. destruct (pt_dir _ _ _ Hok) as [Hd _].
  rewrite pte_address, bind_readWord by (done || apply PDX_range). fold (pdeOf (kmem s) pgdir (PDX va)). rewrite Hp.
  destruct (pt_table _ _ _ Hok _ (PDX_range va) Hp) as (Ht & _). fold (tableOf (pdeOf (kmem s) pgdir (PDX va))).
  by rewrite pte_address by (done || apply PTX_range).
Qed.

Lemma get_absent s pgdir free va : pt_ok (kmem s) pgdir free -> present (pdeOf (kmem s) pgdir (PDX va)) = false ->
  getPageTableEntry pgdir va false s = Ret 0 s.
Proof.
  intros Hok Hp. unfold getPageTableEntry. destruct (pt_dir _ _ _ Hok) as [Hd _].
  rewrite pte_address, bind_readWord by (done || apply PDX_range). fold (pdeOf (kmem s) pgdir (PDX va)). by rewrite Hp.
Qed.

(** The tables that the entries of [S n] pages from [a] on may need. *)
Definition needTable (m : mem) (pgdir va : Z) : nat := if present (pdeOf m pgdir (PDX va)) then 0 else 1.
Definition needTables (m : mem) (pgdir a : Z) (n : nat) : nat :=
  Z.to_nat ((a + 4096 * Z.of_nat n) / 4194304 - a / 4194304) + needTable m pgdir a.

Lemma needTables_le m pgdir a n : (needTables m pgdir a n <= S n)%nat.
Proof. unfold needTables, needTable. assert ((a + 4096 * Z.of_nat n) / 4194304 - a / 4194304 <= Z.of_nat n) by zdiv. case_match; lia. Qed.

(** With [alloc] there is an entry, unless the memory is used up. *)
Lemma get_alloc s pgdir free va : vm_state s pgdir free -> 0 <= va < 4294967296 ->
  exists pte s' free', getPageTableEntry pgdir va true s = Ret pte s' /\ vm_step s pgdir free s' free' /\
    (forall va', 0 <= va' < 4294967296 -> entry (kmem s') pgdir va' = entry (kmem s) pgdir va') /\
    ((pte = 0 /\ free = [] /\ free' = [] /\ needTable (kmem s) pgdir va = 1%nat) \/
     (pte <> 0 /\ (length free <= needTable (kmem s) pgdir va + length free')%nat /\ present (pdeOf (kmem s') pgdir (PDX va)) = true /\ pte = tableOf (pdeOf (kmem s') pgdir (PDX va)) + 4 * PTX va)).
Proof.
  intros [Hok Hfree Hr] Hva. pose proof (PDX_range va) as Hd. pose proof (PTX_range va) as Ht.
  destruct (pt_dir _ _ _ Hok) as [Hdir Hnf]. unfold needTable. destruct (present (pdeOf (kmem s) pgdir (PDX va))) eqn:Hp.
  - destruct (pt_table _ _ _ Hok _ Hd Hp) as (Htab & _). eexists _, s, free. split; [by eapply get_present|].
    split; [by apply vm_step_refl|]. split; [done|]. right. apply page_range in Htab. split_and!; [lia|lia|done|done].
  - unfold getPageTableEntry. rewrite pte_address, bind_readWord by done. fold (pdeOf (kmem s) pgdir (PDX va)). rewrite Hp. cbn [negb].
    destruct free as [|T free].
    + rewrite (bind_Ret _ _ _ _ _ (alloc_empty kernelEnd s Hfree Hr)). change (0 =? 0) with true. cbv iota.
      exists 0, (kmem_settled s), []. split; [done|].
      assert (Em : kmem (kmem_settled s) = kmem s) by (unfold kmem_settled; by destruct (UseLock s =? 0)).
      assert (Htc : touches s (kmem_settled s)).
      { unfold kmem_settled. destruct (UseLock s =? 0); [reflexivity|]. split; [by destruct s|by right]. }
      assert (Ef : FreeList (kmem_settled s) = FreeList s) by (unfold kmem_settled; by destruct (UseLock s =? 0)).
      split; [|rewrite Em; split; [done|left; by split_and!]]. split; [|done|by exists []|by rewrite Em].
      split; [by rewrite Em|by unfold Kalloc.free_pages; rewrite Em, Ef|by eapply kmem_ready_touches].
    + destruct (alloc_spec kernelEnd s T free Hfree Hr) as (s1 & E1 & Hf1 & HnT & HT & Es1).
      rewrite (bind_Ret _ _ _ _ _ E1). pose proof (page_range T HT). rewrite (proj2 (Z.eqb_neq T 0)), bind_puts, bind_writeWord by lia.
      assert (Em1 : kmem s1 = kmem s) by (rewrite Es1; unfold kmem_settled; by destruct (UseLock s =? 0)).
      cbn [kmem set_kmem]. rewrite Em1. destruct (table_new (kmem s) pgdir T free (PDX va) Hok HT HnT Hd Hp) as (Hok2 & Hpde & Hent).
      set (m2 := store32 _ _ _) in *. destruct (table_word T HT) as (_ & Hpw & Htw).
      exists (T + 4 * PTX va), (set_kmem m2 (set_kmem (memset (kmem s) T 0 PGSIZE) s1)), free. rewrite pte_address by done.
      assert (HdT : T <> pgdir) by (intros ->; apply Hnf; set_solver).
      assert (Htc : touches s (set_kmem m2 (set_kmem (memset (kmem s) T 0 PGSIZE) s1))).
      { transitivity s1; [rewrite Es1; apply touches_alloc|]. transitivity (set_kmem (memset (kmem s) T 0 PGSIZE) s1); apply touches_kmem. }
      assert (Hchange : forall a, ~ in_page T a -> ~ in_page pgdir a -> m2 a = kmem s a).
      { unfold in_page, PGSIZE. intros a Ha Ha'. pose proof (page_range pgdir Hdir). unfold m2. rewrite store32_out by lia. unfold PGSIZE. rewrite memset_fill by lia.
        destruct (Z.leb_spec T a), (Z.ltb_spec a (T + 4096)); cbn [andb]; lia. }
      assert (Hsame : forall q, page_ok q -> q <> T -> q <> pgdir -> forall a, in_page q a -> m2 a = kmem s a).
      { intros q Hq HqT Hqd a Ha. apply Hchange; [by eapply (in_page_disjoint q)|by eapply (in_page_disjoint q)]. }
      split; [done|]. split; [|split; [done|right; cbn [kmem set_kmem]; rewrite Hpde, Htw; split_and!; [lia|cbn; lia|done|done]]].
      split; [split; [done| |by eapply kmem_ready_touches]|done|by exists [T]|].
      * destruct Hf1 as (Hc & Hall & Hnd). split_and!; try done. cbn. apply (freeChain_frame kernelEnd (kmem s1)); try done.
        intros q a Hq Ha. rewrite Em1. apply (Hsame q); try done; [by apply (proj1 (Forall_forall _ _) Hall)|set_solver|set_solver].
      * intros q (Hq & Hqn & Hqd & Hqt). cbn [kmem set_kmem]. assert (q <> T) by set_solver. split; [|by apply Hsame].
        split_and!; [done|set_solver|done|]. intros i Hi. destruct (decide (i = PDX va)) as [->|Hne].
        -- rewrite Hpde, Htw. intros _. congruence.
        -- assert (Ei : pdeOf m2 pgdir i = pdeOf (kmem s) pgdir i).
           { unfold pdeOf, m2. rewrite store_same_page by (done || apply (table_word T HT)). rewrite decide_False by done. by apply memset_other. }
           rewrite Ei. by apply Hqt.
Qed.

(** ** Creating entries *)

(** The entry for [va] after [k] pages from [a] on have been mapped to the
    frames from [pa] on. *)
Definition mapped (m : mem) (pgdir a : Z) (k : nat) (pa perm va : Z) : Z :=
  if decide (a / 4096 <= va / 4096 < a / 4096 + Z.of_nat k) then pteWord (pa + 4096 * (va / 4096 - a / 4096)) perm
  else entry m pgdir va.

Lemma pteWord_range pa perm : 0 <= pa -> pa mod 4096 = 0 -> pa + 4096 <= 4294967296 -> 0 <= perm < 4096 -> 0 <= pteWord pa perm < 4294967296.
Proof. intros. rewrite pteWord_eq by done. pose proof (lor_flags_range perm 1). lia. Qed.

(** Storing the entry that [getPageTableEntry] found. *)
Lemma store_entry s pgdir free va w : vm_state s pgdir free -> 0 <= va < 4294967296 -> 0 <= w < 4294967296 ->
  present (pdeOf (kmem s) pgdir (PDX va)) = true ->
  let s' := set_kmem (store32 (kmem s) (tableOf (pdeOf (kmem s) pgdir (PDX va)) + 4 * PTX va) w) s in
  vm_step s pgdir free s' free /\ (forall i, 0 <= i < 1024 -> pdeOf (kmem s') pgdir i = pdeOf (kmem s) pgdir i) /\
  (forall va', 0 <= va' < 4294967296 -> entry (kmem s') pgdir va' = if decide (va' / 4096 = va / 4096) then w else entry (kmem s) pgdir va').
Proof.
  intros [Hok Hfree Hr] Hva Hw Hp s'. destruct (entry_store (kmem s) pgdir free va w Hok Hva Hp Hw) as (Hok' & Hpde & Hent).
  destruct (pt_table _ _ _ Hok _ (PDX_range va) Hp) as (Htab & Hntab & _). split; [|split; done].
  assert (Htc : touches s s') by apply touches_kmem. split; [split|done|by exists []|].
  - done.
  - apply store_free_pages; try done. apply PTX_range.
  - by eapply kmem_ready_touches.
  - intros q (Hq & Hqn & Hqd & Hqt). assert (Hne : tableOf (pdeOf (kmem s) pgdir (PDX va)) <> q) by (apply Hqt; [apply PDX_range|done]).
    split.
    + split_and!; try done. intros i Hi. cbn. rewrite Hpde by done. by apply Hqt.
    + intros x Hx. cbn. pose proof (PTX_range va). apply store32_out; try (apply page_range in Htab; lia).
      pose proof (in_page_disjoint q _ x Hq Htab (not_eq_sym Hne) Hx) as Hd. unfold in_page, PGSIZE in Hd. lia.
Qed.

Lemma createEntries_spec n : forall pgdir a pa perm s free,
  vm_state s pgdir free -> 0 <= a -> a mod 4096 = 0 -> a + 4096 * Z.of_nat (S n) <= 4294967296 ->
  0 <= pa -> pa mod 4096 = 0 -> pa + 4096 * Z.of_nat (S n) <= 4294967296 -> 0 <= perm < 4096 ->
  (forall va, 0 <= va < 4294967296 -> a / 4096 <= va / 4096 < a / 4096 + Z.of_nat (S n) -> present (entry (kmem s) pgdir va) = false) ->
  exists r s' free' k, createEntries (S n) pgdir a (a + 4096 * Z.of_nat n) pa perm s = Ret r s' /\
    vm_step s pgdir free s' free' /\
    ((r = 0 /\ k = S n /\ (length free <= needTables (kmem s) pgdir a n + length free')%nat) \/
     (r = -1 /\ (k < S n)%nat /\ free' = [] /\ (length free < needTables (kmem s) pgdir a n)%nat)) /\
    (forall va, 0 <= va < 4294967296 -> entry (kmem s') pgdir va = mapped (kmem s) pgdir a k pa perm va).
Proof.
  induction n as [|n IH]; intros pgdir a pa perm s free Hs Ha Ham Har Hpa Hpam Hpar Hperm Hnone.
  all: destruct (get_alloc s pgdir free a Hs ltac:(lia)) as (pte & s1 & free1 & Eg & Hstep1 & Hent1 & Hcase).
  all: match goal with |- context [createEntries (S ?k)] => cbn [createEntries]; fold createEntries end.
  all: rewrite (bind_Ret _ _ _ _ _ Eg).
  all: destruct Hcase as [(-> & -> & -> & Hneed)|(Hpte & Hlen1 & Hp1 & Epte)];
    [change (0 =? 0) with true; cbv iota; exists (-1), s1, [], 0%nat; split; [done|]; split; [done|]; split; [right; split_and!; [done|lia|done|unfold needTables; cbn [length]; lia]|];
     intros va Hva; rewrite Hent1 by done; unfold mapped; rewrite decide_False by lia; done|].
  all: rewrite (proj2 (Z.eqb_neq _ _) Hpte), bind_readWord.
  all: assert (Ee : load32 (kmem s1) pte = entry (kmem s) pgdir a)
    by (rewrite <- (Hent1 a) by lia; unfold entry; cbv zeta; by rewrite Hp1, Epte).
  all: rewrite Ee, (Hnone a) by lia; rewrite bind_writeWord; fold (pteWord pa perm); rewrite Epte.
  all: destruct (store_entry s1 pgdir free1 a (pteWord pa perm) (step_state _ _ _ _ _ Hstep1)) as (Hstep2 & Hpde2 & Hent2);
    [lia|apply pteWord_range; lia|done|].
  all: set (s2 := set_kmem _ s1) in *.
  - rewrite (proj2 (Z.eqb_eq _ _)) by lia. exists 0, s2, free1, 1%nat. split; [done|].
    split; [by eapply vm_step_trans|]. split; [left; split_and!; [done|done|unfold needTables; lia]|]. intros va Hva. rewrite Hent2, Hent1 by done. unfold mapped.
    case_decide as E; [rewrite decide_True by lia; f_equal; lia|by rewrite decide_False by lia].
  - rewrite (proj2 (Z.eqb_neq a _)) by lia. unfold PGSIZE. rewrite (u32_small (a + 4096)), (u32_small (pa + 4096)) by lia.
    replace (a + 4096 * Z.of_nat (S n)) with (a + 4096 + 4096 * Z.of_nat n) by lia.
    assert (Hdiv : (a + 4096) / 4096 = a / 4096 + 1) by zdiv.
    destruct (IH pgdir (a + 4096) (pa + 4096) perm s2 free1 (step_state _ _ _ _ _ Hstep2)) as (r & s3 & free3 & k & E3 & Hstep3 & Hr & Hent3);
      try lia; [zdiv|zdiv| |].
    { intros va Hva Hin. rewrite Hent2, Hent1 by done. rewrite decide_False by lia. apply Hnone; [done|]. rewrite Hdiv in Hin. lia. }
    exists r, s3, free3, (S k). split; [exact E3|]. split; [by do 2 (eapply vm_step_trans; [done|])|].
    assert (Hneed : (needTable (kmem s) pgdir a + needTables (kmem s2) pgdir (a + 4096) n <= needTables (kmem s) pgdir a (S n))%nat).
    { unfold needTables. replace (a + 4096 + 4096 * Z.of_nat n) with (a + 4096 * Z.of_nat (S n)) by lia.
      destruct (decide ((a + 4096) / 4194304 = a / 4194304)) as [Eq|Ne].
      - assert (Ed : PDX (a + 4096) = PDX a) by (rewrite !PDX_eq; by rewrite Eq). unfold needTable at 2. rewrite Ed.
        assert (Hp2 : present (pdeOf (kmem s2) pgdir (PDX a)) = true) by (by rewrite Hpde2 by apply PDX_range).
        rewrite Hp2, Eq. lia.
      - assert ((a + 4096) / 4194304 = a / 4194304 + 1) by zdiv. assert (a / 4194304 + 1 <= (a + 4096 * Z.of_nat (S n)) / 4194304) by zdiv.
        unfold needTable at 2. case_match; lia. }
    split; [destruct Hr as [(-> & -> & ?)|(-> & ? & -> & ?)]; [left; split_and!; [done|done|lia]|right; split_and!; [done|lia|done|lia]]|].
    intros va Hva. rewrite Hent3 by done. unfold mapped. rewrite Hdiv. destruct (decide (va / 4096 = a / 4096)) as [Eq|Ne].
    + rewrite decide_False, (decide_True _ _ (P := a / 4096 <= _ < _)) by lia. rewrite Hent2, decide_True by done. f_equal. lia.
    + case_decide.
      * rewrite decide_True by lia. f_equal. lia.
      * rewrite decide_False by lia. rewrite Hent2, decide_False, Hent1 by done. done.
Qed.

Lemma createPageTableEntries_spec pgdir va n pa perm s free :
  vm_state s pgdir free -> 0 <= va -> va mod 4096 = 0 -> (0 < n)%nat -> va + 4096 * Z.of_nat n <= 4294967296 ->
  0 <= pa -> pa mod 4096 = 0 -> pa + 4096 * Z.of_nat n <= 4294967296 -> 0 <= perm < 4096 ->
  (forall va', 0 <= va' < 4294967296 -> va / 4096 <= va' / 4096 < va / 4096 + Z.of_nat n -> present (entry (kmem s) pgdir va') = false) ->
  exists r s' free' k, createPageTableEntries pgdir va (4096 * Z.of_nat n) pa perm s = Ret r s' /\
    vm_step s pgdir free s' free' /\
    ((r = 0 /\ k = n /\ (length free <= needTables (kmem s) pgdir va (n - 1) + length free')%nat) \/
     (r = -1 /\ (k < n)%nat /\ free' = [] /\ (length free < needTables (kmem s) pgdir va (n - 1))%nat)) /\
    (forall va', 0 <= va' < 4294967296 -> entry (kmem s') pgdir va' = mapped (kmem s) pgdir va k pa perm va').
Proof.
  intros Hs Hva Hvam Hn Hr Hpa Hpam Hpr Hperm Hnone. destruct n as [|n]; [lia|].
  unfold createPageTableEntries. rewrite !PGROUNDDOWN_eq. replace (va - va mod 4096) with va by lia.
  assert (El : u32 (va + 4096 * Z.of_nat (S n) - 1) - u32 (va + 4096 * Z.of_nat (S n) - 1) mod 4096 = va + 4096 * Z.of_nat n)
    by (rewrite u32_small by lia; zdiv).
  cbv zeta. rewrite El. replace (Z.to_nat (u32 (va + 4096 * Z.of_nat n - va) / PGSIZE + 1)) with (S n).
  - replace (S n - 1)%nat with n by lia. by apply createEntries_spec.
  - unfold PGSIZE. rewrite u32_small by lia. zdiv.
Qed.

(** ** Pages outside the table *)

(** Writing to one of them does not change the table. *)
Lemma write_outside s pgdir free q m' : vm_state s pgdir free -> outside (kmem s) pgdir free q -> mem_bytes m' ->
  (forall a, ~ in_page q a -> m' a = kmem s a) ->
  vm_state (set_kmem m' s) pgdir free /\ (forall i, 0 <= i < 1024 -> pdeOf m' pgdir i = pdeOf (kmem s) pgdir i) /\
  (forall va, 0 <= va < 4294967296 -> entry m' pgdir va = entry (kmem s) pgdir va).
Proof.
  intros [Hok (Hc & Hall & Hnd) Hr] (Hq & Hqn & Hqd & Hqt) Hm' Hsame. destruct (pt_dir _ _ _ Hok) as [Hdir Hnf].
  assert (Hword : forall p i, page_ok p -> p <> q -> 0 <= i < 1024 -> load32 m' (p + 4 * i) = load32 (kmem s) (p + 4 * i)).
  { intros p i Hp Hne Hi. pose proof (page_range p Hp). apply load32_same; [lia|lia|]. intros a Ha. apply Hsame.
    apply (in_page_disjoint p q); try done. unfold in_page, PGSIZE. lia. }
  assert (Hpde : forall i, 0 <= i < 1024 -> pdeOf m' pgdir i = pdeOf (kmem s) pgdir i) by (intros i Hi; by apply Hword).
  split_and!; [|done|].
  - split; cbn.
    + split; [done|done| |].
      * intros i Hi. rewrite Hpde by done. by apply (pt_table _ _ _ Hok).
      * intros i j Hi Hj. rewrite !Hpde by done. by apply (pt_distinct _ _ _ Hok).
    + split_and!; try done. cbn. apply (freeChain_frame kernelEnd (kmem s)); try done. intros p a Hp Ha. apply Hsame.
      apply (in_page_disjoint p q); try done; [by apply (proj1 (Forall_forall _ _) Hall)|congruence].
    + eapply kmem_ready_touches; [apply touches_kmem|done].
  - intros va Hva. unfold entry. cbv zeta. rewrite Hpde by apply PDX_range.
    destruct (present (pdeOf (kmem s) pgdir (PDX va))) eqn:Ep; [|done].
    destruct (pt_table _ _ _ Hok _ (PDX_range va) Ep) as (Htab & _). apply Hword; [done| |apply PTX_range].
    apply Hqt; [apply PDX_range|done].
Qed.

Lemma outside_pde m m' pgdir free q : (forall i, 0 <= i < 1024 -> pdeOf m' pgdir i = pdeOf m pgdir i) ->
  outside m pgdir free q -> outside m' pgdir free q.
Proof. intros E (H1 & H2 & H3 & H4). split_and!; try done. intros i Hi. rewrite E by done. by apply H4. Qed.

(** A page from the free list, with new contents [m']. *)
Lemma filled_page s pgdir T free : vm_state s pgdir (T :: free) ->
  exists s1, allocatePhysicalMemoryPage s = Ret T s1 /\ T <> 0 /\ page_ok T /\ kmem s1 = kmem s /\
    forall m', mem_bytes m' -> (forall a, ~ in_page T a -> m' a = kmem s a) ->
    let s2 := set_kmem m' s1 in
    vm_step s pgdir (T :: free) s2 free /\ outside (kmem s2) pgdir free T /\
    (forall va, 0 <= va < 4294967296 -> entry (kmem s2) pgdir va = entry (kmem s) pgdir va).
Proof.
  intros [Hok Hfree Hr]. destruct (alloc_spec kernelEnd s T free Hfree Hr) as (s1 & E1 & Hf1 & HnT & HT & Es1).
  exists s1. split; [done|]. pose proof (page_range T HT) as HTr. split; [lia|]. split; [done|].
  assert (Em1 : kmem s1 = kmem s) by (rewrite Es1; unfold kmem_settled; by destruct (UseLock s =? 0)).
  assert (Ht1 : touches s s1) by (rewrite Es1; apply touches_alloc). split; [done|]. intros m' Hb Hsame. cbv zeta.
  destruct (pt_dir _ _ _ Hok) as [Hdir Hnf].
  assert (Hok1 : pt_ok (kmem s1) pgdir free).
  { rewrite Em1. split; [apply (pt_bytes _ _ _ Hok)|split; [done|set_solver]| |apply (pt_distinct _ _ _ Hok)].
    intros i Hi Hp. destruct (pt_table _ _ _ Hok i Hi Hp) as (H1 & H2 & H3). split_and!; [done|set_solver|done]. }
  assert (Hs1 : vm_state s1 pgdir free) by (split; [done|done|by eapply kmem_ready_touches]).
  assert (Hout : outside (kmem s1) pgdir free T).
  { rewrite Em1. split_and!; [done|done|intros ->; apply Hnf; set_solver|]. intros i Hi Hp E.
    destruct (pt_table _ _ _ Hok i Hi Hp) as (_ & H2 & _). apply H2. rewrite E. set_solver. }
  rewrite <- Em1 in Hsame. destruct (write_outside s1 pgdir free T m' Hs1 Hout Hb Hsame) as (Hs2 & Hpde & Hent).
  split; [|split].
  - split; [done|transitivity s1; [done|apply touches_kmem]|by exists [T]|].
    intros q (Hq & Hqn & Hqd & Hqt). assert (q <> T) by set_solver. split.
    + cbn. apply (outside_pde (kmem s1)); [done|]. rewrite Em1. split_and!; [done|set_solver|done|done].
    + intros a Ha. cbn. rewrite Hsame, Em1 by (by apply (in_page_disjoint q T)). done.
  - cbn. by apply (outside_pde (kmem s1)).
  - intros va Hva. cbn. rewrite Hent, Em1 by done. done.
Qed.

(** A fresh page, cleared. *)
Lemma fresh_page s pgdir T free : vm_state s pgdir (T :: free) ->
  exists s1, allocatePhysicalMemoryPage s = Ret T s1 /\ T <> 0 /\ page_ok T /\
    let s2 := set_kmem (memset (kmem s1) T 0 PGSIZE) s1 in
    vm_step s pgdir (T :: free) s2 free /\ outside (kmem s2) pgdir free T /\
    (forall a, in_page T a -> kmem s2 a = 0) /\
    (forall va, 0 <= va < 4294967296 -> entry (kmem s2) pgdir va = entry (kmem s) pgdir va).
Proof.
  intros Hs. destruct (filled_page s pgdir T free Hs) as (s1 & E1 & HT0 & HT & Em1 & Hfill). pose proof (page_range T HT) as HTr.
  exists s1. split; [done|]. split; [done|]. split; [done|].
  assert (Hz : forall a, memset (kmem s1) T 0 PGSIZE a = if decide (in_page T a) then 0 else kmem s a).
  { intros a. unfold PGSIZE. rewrite memset_fill, Em1 by lia. unfold in_page, PGSIZE.
    destruct (Z.leb_spec T a), (Z.ltb_spec a (T + 4096)); cbn [andb]; case_decide; (done || lia). }
  destruct (Hfill (memset (kmem s1) T 0 PGSIZE)) as (H1 & H2 & H3).
  { apply memset_bytes; [rewrite Em1; apply (pt_bytes _ _ _ (vm_table _ _ _ Hs))|done]. }
  { intros a Ha. by rewrite Hz, decide_False. }
  cbv zeta. split_and!; try done. intros a Ha. cbn. by rewrite Hz, decide_True.
Qed.

(** * Address spaces *)

Definition frameOf (m : mem) (pgdir va : Z) : Z := P2V (PTE_ADDR (entry m pgdir va)).

(** Each page of the user part has a frame of its own, outside the table. *)
Record as_ok (m : mem) (pgdir : Z) (free : list Z) : Prop := {
  as_frame va : 0 <= va < KERNBASE -> present (entry m pgdir va) = true -> outside m pgdir free (frameOf m pgdir va);
  as_inj va va' : 0 <= va < KERNBASE -> 0 <= va' < KERNBASE -> present (entry m pgdir va) = true -> present (entry m pgdir va') = true ->
    frameOf m pgdir va = frameOf m pgdir va' -> va / 4096 = va' / 4096
}.

(** The byte a process sees at [va], if the page is there. *)
Definition userByte (m : mem) (pgdir va : Z) : option Z :=
  if present (entry m pgdir va) then Some (m (frameOf m pgdir va + va mod 4096)) else None.

Lemma in_frame q va : in_page q (q + va mod 4096).
Proof. unfold in_page, PGSIZE. zdiv. Qed.

(** Steps that change no entry keep the address space and its bytes. *)
Lemma as_step s pgdir free s' free' : vm_step s pgdir free s' free' -> as_ok (kmem s) pgdir free ->
  (forall va, 0 <= va < 4294967296 -> entry (kmem s') pgdir va = entry (kmem s) pgdir va) ->
  as_ok (kmem s') pgdir free' /\ forall va, 0 <= va < KERNBASE -> userByte (kmem s') pgdir va = userByte (kmem s) pgdir va.
Proof.
  intros Hstep [Hf Hi] He. assert (KERNBASE = 2147483648) by done. split; [split|].
  - intros va Hva. unfold frameOf. rewrite He by lia. intros Hp. apply (step_outside _ _ _ _ _ Hstep). by apply Hf.
  - intros va va' Hva Hva'. unfold frameOf. rewrite !He by lia. by apply Hi.
  - intros va Hva. unfold userByte, frameOf. rewrite He by lia. destruct (present _) eqn:Ep; [|done]. f_equal.
    apply (step_outside _ _ _ _ _ Hstep (frameOf (kmem s) pgdir va)); [by apply Hf|apply in_frame].
Qed.

(** V2P and P2V of a frame. *)
Lemma frame_word T perm : page_ok T -> 0 <= perm < 4096 ->
  0 <= V2P T /\ V2P T mod 4096 = 0 /\ V2P T + 4096 <= 4294967296 /\
  present (pteWord (V2P T) perm) = true /\ P2V (PTE_ADDR (pteWord (V2P T) perm)) = T.
Proof.
  intros HT Hperm. assert (Hr : KERNBASE <= T < KERNBASE + PHYSTOP /\ T mod 4096 = 0) by (unfold Kalloc.page_ok, PGSIZE in HT; lia).
  unfold KERNBASE, PHYSTOP in Hr. assert (HV : V2P T = T - 2147483648) by (unfold V2P, KERNBASE; apply u32_small; lia).
  rewrite HV. assert (Hm : (T - 2147483648) mod 4096 = 0) by zdiv.
  destruct (pteWord_decode (T - 2147483648) perm Hm Hperm) as (H1 & -> & _). split_and!; [lia|done|lia|done|].
  unfold P2V, KERNBASE. rewrite u32_small by lia. lia.
Qed.

Lemma entry_page m pgdir va va' : 0 <= va < 4294967296 -> 0 <= va' < 4294967296 -> va / 4096 = va' / 4096 ->
  entry m pgdir va = entry m pgdir va'.
Proof. intros H1 H2 E. apply same_page in E as [E1 E2]; [|done|done]. unfold entry. by rewrite E1, E2. Qed.

(** A page outside the table becomes the frame of an unmapped page. *)
Lemma map_frame s pgdir free T a perm : vm_state s pgdir free -> as_ok (kmem s) pgdir free -> outside (kmem s) pgdir free T ->
  (forall va, 0 <= va < KERNBASE -> present (entry (kmem s) pgdir va) = true -> frameOf (kmem s) pgdir va <> T) ->
  0 <= a -> a mod 4096 = 0 -> a + 4096 <= KERNBASE -> present (entry (kmem s) pgdir a) = false -> 0 <= perm < 4096 -> free <> [] ->
  exists s' free', createPageTableEntries pgdir a PGSIZE (V2P T) perm s = Ret 0 s' /\ vm_step s pgdir free s' free' /\
    (length free <= S (length free'))%nat /\ as_ok (kmem s') pgdir free' /\
    (forall va, 0 <= va < 4294967296 -> entry (kmem s') pgdir va =
       if decide (va / 4096 = a / 4096) then pteWord (V2P T) perm else entry (kmem s) pgdir va) /\
    (forall va, 0 <= va < KERNBASE -> userByte (kmem s') pgdir va =
       if decide (va / 4096 = a / 4096) then Some (kmem s (T + va mod 4096)) else userByte (kmem s) pgdir va).
Proof.
  intros Hs Has HT Hnew Ha Ham Har Hnp Hperm Hfree. assert (HK : KERNBASE = 2147483648) by done.
  destruct (frame_word T perm (proj1 HT) Hperm) as (HV1 & HV2 & HV3 & Hpw & Hfw).
  destruct (createPageTableEntries_spec pgdir a 1 (V2P T) perm s free Hs) as (r & s' & free' & k & E & Hstep & Hr & Hent); try lia.
  { intros va Hva Hin. rewrite (entry_page _ _ va a); [done|lia|lia|lia]. }
  pose proof (needTables_le (kmem s) pgdir a (1 - 1)) as Hnt. destruct Hr as [(-> & -> & Hlen)|(_ & _ & _ & Hlen)]; [|destruct free; cbn [length] in Hlen; [done|lia]].
  assert (Hent' : forall va, 0 <= va < 4294967296 -> entry (kmem s') pgdir va =
       if decide (va / 4096 = a / 4096) then pteWord (V2P T) perm else entry (kmem s) pgdir va).
  { intros va Hva. rewrite Hent by done. unfold mapped. case_decide as E1.
    - rewrite decide_True by lia. f_equal. lia.
    - by rewrite decide_False by lia. }
  exists s', free'. split; [exact E|]. split_and!; [done|lia| |done|].
  - split.
    + intros va Hva. unfold frameOf. rewrite Hent' by lia. case_decide.
      * intros _. rewrite Hfw. by apply (step_outside _ _ _ _ _ Hstep).
      * intros Hp. apply (step_outside _ _ _ _ _ Hstep). by apply (as_frame _ _ _ Has).
    + intros va va' Hva Hva'. unfold frameOf. rewrite !Hent' by lia.
      destruct (decide (va / 4096 = a / 4096)) as [E1|E1], (decide (va' / 4096 = a / 4096)) as [E2|E2]; rewrite ?Hfw.
      * lia.
      * intros _ Hp Eq. exfalso. by apply (Hnew va').
      * intros Hp _ Eq. exfalso. by apply (Hnew va).
      * by apply (as_inj _ _ _ Has).
  - intros va Hva. unfold userByte, frameOf. rewrite Hent' by lia. case_decide.
    + rewrite Hpw, Hfw. f_equal. apply (step_outside _ _ _ _ _ Hstep T HT). apply in_frame.
    + destruct (present (entry (kmem s) pgdir va)) eqn:Ep; [|done]. f_equal.
      apply (step_outside _ _ _ _ _ Hstep (frameOf (kmem s) pgdir va)); [by apply (as_frame _ _ _ Has)|apply in_frame].
Qed.

(** A frame is in use, a free page is not. *)
Lemma frame_not_free s pgdir T free va : as_ok (kmem s) pgdir (T :: free) -> 0 <= va < KERNBASE ->
  present (entry (kmem s) pgdir va) = true -> frameOf (kmem s) pgdir va <> T.
Proof. intros Has Hva Hp E. destruct (as_frame _ _ _ Has va Hva Hp) as (_ & Hn & _). apply Hn. rewrite E. set_solver. Qed.

(** What growing leaves: pages [a, a + 4096 n) read as zeros, the rest of the
    process as before; the new frames come from the free list, and the process
    may use them. *)
Record grown (m m' : mem) (pgdir a : Z) (n : nat) (free free' : list Z) : Prop := {
  grown_bytes va : 0 <= va < KERNBASE ->
    userByte m' pgdir va = if decide (a / 4096 <= va / 4096 < a / 4096 + Z.of_nat n) then Some 0 else userByte m pgdir va;
  grown_other va : 0 <= va < 4294967296 -> ~ (a / 4096 <= va / 4096 < a / 4096 + Z.of_nat n) -> entry m' pgdir va = entry m pgdir va;
  grown_new va : 0 <= va < KERNBASE -> a / 4096 <= va / 4096 < a / 4096 + Z.of_nat n ->
    exists T, T ∈ free /\ page_ok T /\ entry m' pgdir va = pteWord (V2P T) (Z.lor PTE_W PTE_U);
  grown_free : (length free <= 2 * n + length free')%nat
}.

Lemma growPages_spec n : forall fuel pgdir a oldsz newsz s free,
  vm_state s pgdir free -> as_ok (kmem s) pgdir free -> (n <= fuel)%nat -> (2 * n <= length free)%nat ->
  0 <= a -> a mod 4096 = 0 -> a + 4096 * Z.of_nat n < newsz + 4096 -> newsz <= a + 4096 * Z.of_nat n -> newsz < KERNBASE ->
  (forall va, 0 <= va < KERNBASE -> a / 4096 <= va / 4096 < a / 4096 + Z.of_nat n -> present (entry (kmem s) pgdir va) = false) ->
  exists s' free', growPages kernelEnd fuel pgdir a oldsz newsz s = Ret newsz s' /\ vm_step s pgdir free s' free' /\
    as_ok (kmem s') pgdir free' /\ grown (kmem s) (kmem s') pgdir a n free free'.
Proof.
  induction n as [|n IH]; intros fuel pgdir a oldsz newsz s free Hs Has Hfuel Hlen Ha Ham Hlt Hle Hk Hnone.
  - exists s, free. split; [|split; [by apply vm_step_refl|split; [done|split; [intros va Hva; rewrite decide_False by lia; done|done|lia|lia]]]].
    destruct fuel; cbn [growPages]; rewrite (proj2 (Z.ltb_ge _ _)) by lia; done.
  - destruct fuel as [|fuel]; [lia|]. cbn [growPages]. rewrite (proj2 (Z.ltb_lt _ _)) by lia. cbn [negb].
    destruct free as [|T free]; [cbn in Hlen; lia|]. assert (HK : KERNBASE = 2147483648) by done.
    destruct (fresh_page s pgdir T free Hs) as (s1 & E1 & HT0 & HTp & Hstep2 & Hout & Hzero & Hent2). cbv zeta in *.
    set (s2 := set_kmem _ s1) in *. rewrite (bind_Ret _ _ _ _ _ E1), (proj2 (Z.eqb_neq _ _) HT0), bind_puts. fold s2.
    destruct (as_step _ _ _ _ _ Hstep2 Has Hent2) as [Has2 Hub2].
    destruct (map_frame s2 pgdir free T a (Z.lor PTE_W PTE_U) (step_state _ _ _ _ _ Hstep2) Has2 Hout) as (s3 & free3 & E3 & Hstep3 & Hlen3 & Has3 & Hent3 & Hub3);
      try done; try lia.
    { intros va Hva. unfold frameOf. rewrite Hent2 by lia. by apply (frame_not_free s pgdir T free). }
    { rewrite HK. clear -Ham Hlt Hk. unfold KERNBASE in Hk. zdiv. }
    { rewrite Hent2 by lia. apply Hnone; lia. }
    { intros ->. cbn in Hlen. lia. }
    rewrite (bind_Ret _ _ _ _ _ E3). change (0 <? 0) with false. cbv iota. unfold PGSIZE. rewrite (u32_small (a + 4096)) by lia.
    assert (Hdiv : (a + 4096) / 4096 = a / 4096 + 1) by zdiv. cbn [length] in Hlen.
    destruct (IH fuel pgdir (a + 4096) oldsz newsz s3 free3 (step_state _ _ _ _ _ Hstep3) Has3) as (s4 & free4 & E4 & Hstep4 & Has4 & [Hg4 Ho4 Hn4 Hf4]);
      try lia; [zdiv| |].
    { intros va Hva Hin. rewrite Hent3 by lia. rewrite decide_False by lia. rewrite Hent2 by lia. apply Hnone; [done|]. lia. }
    rewrite Hdiv in *.
    exists s4, free4. split; [exact E4|]. split; [by do 2 (eapply vm_step_trans; [done|])|]. split; [done|]. split.
    + intros va Hva. rewrite Hg4 by done. destruct (decide (va / 4096 = a / 4096)) as [Eq|Ne].
      * rewrite decide_False, (decide_True _ _ (P := a / 4096 <= _ < _)) by lia. rewrite Hub3, decide_True by done. f_equal.
        apply Hzero, in_frame.
      * destruct (decide (a / 4096 + 1 <= va / 4096 < a / 4096 + 1 + Z.of_nat n)); [by rewrite decide_True by lia|].
        rewrite (decide_False (P := a / 4096 <= _ < _)) by lia. rewrite Hub3, decide_False, Hub2 by done. done.
    + intros va Hva Hin. rewrite Ho4, Hent3, decide_False, Hent2 by lia. done.
    + intros va Hva Hin. destruct (decide (va / 4096 = a / 4096)) as [Eq|Ne].
      * exists T. split; [set_solver|]. split; [done|]. rewrite Ho4, Hent3, decide_True by lia. done.
      * destruct (Hn4 va Hva ltac:(lia)) as (T' & HT' & HTok & ET'). exists T'. split_and!; [|done|done].
        destruct (step_free _ _ _ _ _ Hstep3) as [u ->]. set_solver.
    + cbn [length]. lia.
Qed.

(** The number of pages between two sizes. *)
Definition newPages (oldsz newsz : Z) : nat := Z.to_nat ((PGROUNDUP newsz - PGROUNDUP oldsz) / 4096).

Lemma pages_between oldsz newsz : 0 <= oldsz <= newsz -> newsz < KERNBASE ->
  PGROUNDUP newsz = PGROUNDUP oldsz + 4096 * Z.of_nat (newPages oldsz newsz) /\
  (forall v, PGROUNDUP oldsz / 4096 <= v / 4096 < PGROUNDUP oldsz / 4096 + Z.of_nat (newPages oldsz newsz) <-> PGROUNDUP oldsz <= v < PGROUNDUP newsz) /\
  PGROUNDUP oldsz mod 4096 = 0 /\ oldsz <= PGROUNDUP oldsz < oldsz + 4096 /\ newsz <= PGROUNDUP newsz < newsz + 4096.
Proof.
  intros Hsz Hk. assert (HK : KERNBASE = 2147483648) by done.
  destruct (PGROUNDUP_spec oldsz) as [Hom Hob]; [lia|unfold PGSIZE; lia|]. destruct (PGROUNDUP_spec newsz) as [Hnm Hnb]; [lia|unfold PGSIZE; lia|].
  unfold PGSIZE in *. assert (PGROUNDUP oldsz <= PGROUNDUP newsz) by zdiv.
  assert (Hn : PGROUNDUP newsz = PGROUNDUP oldsz + 4096 * Z.of_nat (newPages oldsz newsz)) by (unfold newPages; zdiv).
  split_and!; try done; try lia. intros v. rewrite Hn. zdiv.
Qed.

Lemma allocate_grown pgdir oldsz newsz s free :
  vm_state s pgdir free -> as_ok (kmem s) pgdir free -> 0 <= oldsz <= newsz -> newsz < KERNBASE ->
  2 * ((PGROUNDUP newsz - PGROUNDUP oldsz) / 4096) <= Z.of_nat (length free) ->
  (forall v, PGROUNDUP oldsz <= v < PGROUNDUP newsz -> present (entry (kmem s) pgdir v) = false) ->
  exists s' free', allocateMemoryAndPageTables kernelEnd pgdir oldsz newsz s = Ret newsz s' /\
    vm_step s pgdir free s' free' /\ as_ok (kmem s') pgdir free' /\
    grown (kmem s) (kmem s') pgdir (PGROUNDUP oldsz) (newPages oldsz newsz) free free'.
Proof.
  intros Hs Has Hsz Hk Hfree Hnone. destruct (pages_between oldsz newsz Hsz Hk) as (Hn & Hin & Hom & Hob & Hnb).
  assert (HK : KERNBASE = 2147483648) by done.
  unfold allocateMemoryAndPageTables. rewrite Z.geb_leb, (proj2 (Z.leb_gt _ _)), (proj2 (Z.ltb_ge _ _)) by lia.
  apply growPages_spec; try done; try lia.
  - unfold PGSIZE. zdiv.
  - unfold newPages. zdiv.
  - intros v Hv Hi. by apply Hnone, Hin.
Qed.

(** ** Copying to a process *)

Lemma present_user e : present e = true -> Z.land e PTE_U <> 0 -> (Z.land e PTE_U =? 0) = false.
Proof. intros _ H. by apply Z.eqb_neq. Qed.

Lemma mapVirtual_frame s pgdir free va : pt_ok (kmem s) pgdir free -> as_ok (kmem s) pgdir free -> 0 <= va < KERNBASE ->
  present (entry (kmem s) pgdir va) = true -> Z.land (entry (kmem s) pgdir va) PTE_U <> 0 ->
  mapVirtualAddressToKernelAddress pgdir va s = Ret (frameOf (kmem s) pgdir va) s.
Proof.
  intros Hok Has Hva Hp Hu. unfold mapVirtualAddressToKernelAddress.
  destruct (present (pdeOf (kmem s) pgdir (PDX va))) eqn:Ep.
  2: { exfalso. unfold entry in Hp. cbv zeta in Hp. by rewrite Ep in Hp. }
  rewrite (bind_Ret _ _ _ _ _ (get_present s pgdir free va false Hok Ep)).
  destruct (pt_table _ _ _ Hok _ (PDX_range va) Ep) as (Htab & _). pose proof (PTX_range va). apply page_range in Htab.
  rewrite (proj2 (Z.eqb_neq _ 0)), bind_readWord by lia.
  assert (Ee : load32 (kmem s) (tableOf (pdeOf (kmem s) pgdir (PDX va)) + 4 * PTX va) = entry (kmem s) pgdir va)
    by (unfold entry; cbv zeta; by rewrite Ep).
  rewrite Ee, Hp. cbn [negb]. by rewrite (proj2 (Z.eqb_neq _ _) Hu).
Qed.

(** The bytes of the process after [len] bytes from [buf] are at [va]. *)
Definition copied (m m' : mem) (pgdir va buf len : Z) : Prop :=
  forall va', 0 <= va' < KERNBASE ->
    userByte m' pgdir va' = if decide (va <= va' < va + len) then Some (m (buf + (va' - va))) else userByte m pgdir va'.

(** A block of [n] bytes [g] has been written at [dst]. *)
Definition blockWritten (m m' : mem) (dst n : Z) (g : Z -> Z) : Prop :=
  forall a, m' a = if (dst <=? a) && (a <? dst + n) then g (a - dst) else m a.

(** ... inside one page of the process. *)
Lemma write_block s pgdir free va n g m' : vm_state s pgdir free -> as_ok (kmem s) pgdir free ->
  0 <= va -> 0 < n -> va mod 4096 + n <= 4096 -> va + n <= KERNBASE -> present (entry (kmem s) pgdir va) = true ->
  let F := frameOf (kmem s) pgdir va in
  blockWritten (kmem s) m' (F + va mod 4096) n g -> mem_bytes m' ->
  vm_state (set_kmem m' s) pgdir free /\ as_ok m' pgdir free /\
  (forall v, 0 <= v < KERNBASE -> userByte m' pgdir v = if decide (va <= v < va + n) then Some (g (v - va)) else userByte (kmem s) pgdir v) /\
  (forall va', 0 <= va' < 4294967296 -> entry m' pgdir va' = entry (kmem s) pgdir va') /\
  (forall i, 0 <= i < 1024 -> pdeOf m' pgdir i = pdeOf (kmem s) pgdir i) /\
  (forall a, ~ in_page F a -> m' a = kmem s a).
Proof.
  intros Hs Has Hva Hn Hfit Hk Hp F Hm' Hbytes. assert (HK : KERNBASE = 2147483648) by done.
  assert (Hout : outside (kmem s) pgdir free F) by (apply (as_frame _ _ _ Has); [lia|done]).
  pose proof (page_range F (proj1 Hout)) as HF. assert (Hmod : 0 <= va mod 4096 < 4096) by zdiv.
  assert (Hsame : forall a, ~ in_page F a -> m' a = kmem s a).
  { unfold in_page, PGSIZE. intros a Ha. rewrite Hm'. destruct (Z.leb_spec (F + va mod 4096) a), (Z.ltb_spec a (F + va mod 4096 + n)); cbn [andb]; lia. }
  destruct (write_outside s pgdir free F m' Hs Hout Hbytes Hsame) as (Hs' & Hpde & Hent).
  split_and!; try done.
  - split.
    + intros v Hv. unfold frameOf. rewrite Hent by lia. intros Hpv. apply (outside_pde (kmem s)); [done|]. by apply (as_frame _ _ _ Has).
    + intros v v' Hv Hv'. unfold frameOf. rewrite !Hent by lia. by apply (as_inj _ _ _ Has).
  - intros v Hv. unfold userByte, frameOf. rewrite Hent by lia. destruct (decide (v / 4096 = va / 4096)) as [Eq|Ne].
    + rewrite (entry_page _ _ v va) by lia. rewrite Hp. fold (frameOf (kmem s) pgdir va). fold F. rewrite Hm'.
      case_decide as D.
      * rewrite (proj2 (Z.leb_le _ _)), (proj2 (Z.ltb_lt _ _)) by zdiv. cbn [andb]. f_equal. f_equal. zdiv.
      * f_equal. destruct (Z.leb_spec (F + va mod 4096) (F + v mod 4096)), (Z.ltb_spec (F + v mod 4096) (F + va mod 4096 + n)); cbn [andb]; try done.
        exfalso. apply D. zdiv.
    + rewrite decide_False by zdiv. destruct (present (entry (kmem s) pgdir v)) eqn:Epv; [|done]. f_equal.
      assert (Hne : frameOf (kmem s) pgdir v <> F) by (intros E; apply Ne; apply (as_inj _ _ _ Has); (done || lia)).
      apply Hsame. apply (in_page_disjoint (frameOf (kmem s) pgdir v) F); [apply (as_frame _ _ _ Has); done|apply Hout|done|apply in_frame].
Qed.

(** One round: a block inside one page. *)
Lemma copy_block s pgdir free va buf n : vm_state s pgdir free -> as_ok (kmem s) pgdir free ->
  0 <= va -> 0 < n -> va mod 4096 + n <= 4096 -> va + n <= KERNBASE -> present (entry (kmem s) pgdir va) = true ->
  0 <= buf -> buf + n < 4294967296 ->
  let F := frameOf (kmem s) pgdir va in
  let m' := memmove (kmem s) (F + va mod 4096) buf n in
  vm_state (set_kmem m' s) pgdir free /\ as_ok m' pgdir free /\ copied (kmem s) m' pgdir va buf n /\
  (forall va', 0 <= va' < 4294967296 -> entry m' pgdir va' = entry (kmem s) pgdir va') /\
  (forall a, ~ in_page F a -> m' a = kmem s a).
Proof.
  intros Hs Has Hva Hn Hfit Hk Hp Hb Hbr F m'. assert (HK : KERNBASE = 2147483648) by done. pose proof (vm_table _ _ _ Hs) as Hok.
  assert (Hout : outside (kmem s) pgdir free F) by (apply (as_frame _ _ _ Has); [lia|done]).
  pose proof (page_range F (proj1 Hout)) as HF. assert (Hmod : 0 <= va mod 4096 < 4096) by zdiv.
  assert (Hm' : blockWritten (kmem s) m' (F + va mod 4096) n (fun i => kmem s (buf + i))) by (intros a; apply memmove_block; lia).
  destruct (write_block s pgdir free va n (fun i => kmem s (buf + i)) m' Hs Has Hva Hn Hfit Hk Hp Hm') as (H1 & H2 & H3 & H4 & _ & H6).
  { intros a. rewrite Hm'. case_match; apply (pt_bytes _ _ _ Hok). }
  by split_and!.
Qed.

Lemma copyOut_spec fuel : forall pgdir va buf len s free,
  vm_state s pgdir free -> as_ok (kmem s) pgdir free ->
  0 <= va -> 0 <= len -> va + len <= KERNBASE -> (len = 0 \/ va mod 4096 + len <= 4096 * Z.of_nat fuel) ->
  (forall v, va <= v < va + len -> present (entry (kmem s) pgdir v) = true /\ Z.land (entry (kmem s) pgdir v) PTE_U <> 0) ->
  0 <= buf -> buf + len < 4294967296 ->
  (forall v a, va <= v < va + len -> in_page (frameOf (kmem s) pgdir v) a -> ~ (buf <= a < buf + len)) ->
  exists s', copyOut fuel pgdir va buf len s = Ret 0 s' /\ vm_state s' pgdir free /\ as_ok (kmem s') pgdir free /\
    copied (kmem s) (kmem s') pgdir va buf len /\ touches s s'.
Proof.
  induction fuel as [|fuel IH]; intros pgdir va buf len s free Hs Has Hva Hlen Hk Hfuel Hpu Hb Hbr Hdis.
  - assert (len = 0) as -> by (destruct Hfuel; [done|]; assert (0 <= va mod 4096) by zdiv; lia).
    exists s. split_and!; try done. intros v Hv. by rewrite decide_False by lia.
  - assert (HK : KERNBASE = 2147483648) by done. cbn [copyOut]. rewrite Z.gtb_ltb. destruct (Z.ltb_spec 0 len) as [Hl|Hl]; cbn [negb].
    2: { exists s. assert (len = 0) as -> by lia. split_and!; try done. intros v Hv. by rewrite decide_False by lia. }
    assert (Hmod : 0 <= va mod 4096 < 4096) by zdiv. rewrite PGROUNDDOWN_eq. set (va0 := va - va mod 4096).
    assert (Hpage : va0 / 4096 = va / 4096 /\ 0 <= va0 /\ va0 + va mod 4096 = va) by (unfold va0; zdiv).
    destruct (Hpu va ltac:(lia)) as [Hp Hu]. assert (Ee : entry (kmem s) pgdir va0 = entry (kmem s) pgdir va) by (apply entry_page; lia).
    rewrite (bind_Ret _ _ _ _ _ (mapVirtual_frame s pgdir free va0 (vm_table _ _ _ Hs) Has ltac:(lia) ltac:(by rewrite Ee) ltac:(by rewrite Ee))).
    unfold frameOf at 1 2. rewrite Ee. fold (frameOf (kmem s) pgdir va). set (F := frameOf (kmem s) pgdir va).
    assert (HF : page_ok F) by (apply (as_frame _ _ _ Has); [lia|done]). pose proof (page_range F HF).
    rewrite (proj2 (Z.eqb_neq F 0)), bind_puts by lia. replace (va - va0) with (va mod 4096) by lia.
    rewrite (padd_small F (va mod 4096)) by lia. unfold PGSIZE. rewrite (u32_small (4096 - va mod 4096)), Z.gtb_ltb by lia.
    set (n := if len <? 4096 - va mod 4096 then len else 4096 - va mod 4096).
    assert (Hn : n = Z.min len (4096 - va mod 4096)) by (unfold n; destruct (Z.ltb_spec len (4096 - va mod 4096)); lia).
    destruct (copy_block s pgdir free va buf n Hs Has Hva ltac:(lia) ltac:(lia) ltac:(lia) Hp Hb ltac:(lia)) as (Hs1 & Has1 & Hc1 & Hent1 & Hsame1).
    fold F in Hs1, Has1, Hc1, Hent1, Hsame1. set (m1 := memmove (kmem s) (F + va mod 4096) buf n) in *. set (s1 := set_kmem m1 s).
    rewrite (u32_small (va0 + 4096)), (padd_small buf n), (u32_small (len - n)) by lia.
    assert (Hsrc : forall i, 0 <= i < len -> m1 (buf + i) = kmem s (buf + i)).
    { intros i Hi. apply Hsame1. intros Hin. apply (Hdis va (buf + i)); [lia|done|lia]. }
    destruct (decide (len = n)) as [El|El].
    + rewrite El, Z.sub_diag. exists s1. rewrite El in *. split; [by destruct fuel|]. split; [done|]. split; [done|]. split; [done|apply touches_kmem].
    + assert (Hn' : n = 4096 - va mod 4096 /\ va0 + 4096 = va + n) by lia. destruct Hn' as [Hn' Hv0]. rewrite Hv0.
      destruct (IH pgdir (va + n) (buf + n) (len - n) s1 free Hs1 Has1) as (s2 & E2 & Hs2 & Has2 & Hc2 & Ht2); try lia.
      { right. assert ((va + n) mod 4096 = 0) by (rewrite Hn'; zdiv). destruct Hfuel; lia. }
      { intros v Hv. cbn. rewrite Hent1 by lia. apply Hpu. lia. }
      { intros v a Hv. unfold frameOf. cbn. rewrite Hent1 by lia. intros Ha Hin. apply (Hdis v a); [lia|done|lia]. }
      exists s2. split; [exact E2|]. split; [done|]. split; [done|]. split; [|by transitivity s1; [apply touches_kmem|]].
      intros v Hv. rewrite Hc2 by done. cbn. destruct (decide (va + n <= v < va + n + (len - n))) as [D|D].
      * rewrite decide_True by lia. f_equal. rewrite <- (Hsrc (v - va)) by lia. f_equal. lia.
      * rewrite Hc1 by done. destruct (decide (va <= v < va + n)); [by rewrite decide_True by lia|by rewrite decide_False by lia].
Qed.

End PageTables.

(** * Properties *)

(** C9. Mapping a range of pages: when [createPageTableEntries] succeeds, every
    page of the range is mapped to its frame with the permissions asked for and
    the entry of every other address is what it was; it fails only when there
    are fewer free pages than tables to add, and then they are all used up.  The
    new tables come from the free list, and no page outside the page table is
    written to. *)
Theorem createPageTableEntries_maps (kernelEnd pgdir va pa perm : Z) (n : nat) (s : KState) (free : list Z) :
  vm_state kernelEnd s pgdir free -> 0 <= va -> va mod 4096 = 0 -> (0 < n)%nat -> va + 4096 * Z.of_nat n <= 4294967296 ->
  0 <= pa -> pa mod 4096 = 0 -> pa + 4096 * Z.of_nat n <= 4294967296 -> 0 <= perm < 4096 ->
  (forall v, 0 <= v < 4294967296 -> va / 4096 <= v / 4096 < va / 4096 + Z.of_nat n -> present (entry (kmem s) pgdir v) = false) ->
  exists r s' free', createPageTableEntries pgdir va (4096 * Z.of_nat n) pa perm s = Ret r s' /\
    vm_step kernelEnd s pgdir free s' free' /\
    (forall v, 0 <= v < 4294967296 -> ~ (va / 4096 <= v / 4096 < va / 4096 + Z.of_nat n) ->
       entry (kmem s') pgdir v = entry (kmem s) pgdir v) /\
    ((r = 0 /\ forall v, 0 <= v < 4294967296 -> va / 4096 <= v / 4096 < va / 4096 + Z.of_nat n ->
        present (entry (kmem s') pgdir v) = true /\ PTE_ADDR (entry (kmem s') pgdir v) = pa + 4096 * (v / 4096 - va / 4096) /\
        PTE_FLAGS (entry (kmem s') pgdir v) = Z.lor perm PTE_P) \/
     (r = -1 /\ free' = [] /\ (length free < needTables (kmem s) pgdir va (n - 1))%nat)).
Proof.
  intros Hs Hva Hvm Hn Hvr Hpa Hpm Hpr Hperm Hnone.
  destruct (createPageTableEntries_spec kernelEnd pgdir va n pa perm s free) as (r & s' & free' & k & E & Hstep & Hr & Hent); try done.
  exists r, s', free'. split; [done|]. split; [done|]. split.
  - intros v Hv Hout. rewrite Hent by done. unfold mapped. rewrite decide_False; [done|]. destruct Hr as [(_ & -> & _)|(_ & Hk & _)]; lia.
  - destruct Hr as [(-> & -> & _)|(-> & _ & -> & Hlen)]; [left; split; [done|]|by right].
    intros v Hv Hin. rewrite Hent by done. unfold mapped. rewrite decide_True by done. apply pteWord_decode; [|done]. zdiv.
Qed.

(** C10. Growing a process: with two free pages for every page to add,
    [allocateMemoryAndPageTables] returns the new size; the process then sees
    zeros in the new pages and its old bytes everywhere else, every page still
    has a frame of its own, and memory that belongs to nobody in this address
    space is untouched. *)
Theorem allocateMemory_grows (kernelEnd pgdir oldsz newsz : Z) (s : KState) (free : list Z) :
  vm_state kernelEnd s pgdir free -> as_ok kernelEnd (kmem s) pgdir free ->
  0 <= oldsz <= newsz -> newsz < KERNBASE ->
  2 * ((PGROUNDUP newsz - PGROUNDUP oldsz) / 4096) <= Z.of_nat (length free) ->
  (forall v, PGROUNDUP oldsz <= v < PGROUNDUP newsz -> present (entry (kmem s) pgdir v) = false) ->
  exists s' free', allocateMemoryAndPageTables kernelEnd pgdir oldsz newsz s = Ret newsz s' /\
    vm_step kernelEnd s pgdir free s' free' /\ as_ok kernelEnd (kmem s') pgdir free' /\
    forall v, 0 <= v < KERNBASE ->
      userByte (kmem s') pgdir v = if decide (PGROUNDUP oldsz <= v < PGROUNDUP newsz) then Some 0 else userByte (kmem s) pgdir v.
Proof.
  intros Hs Has Hsz Hk Hfree Hnone. destruct (allocate_grown kernelEnd pgdir oldsz newsz s free Hs Has Hsz Hk Hfree Hnone) as (s' & free' & E & Hstep & Has' & Hg).
  exists s', free'. split; [exact E|]. split; [done|]. split; [done|]. intros v Hv. rewrite (grown_bytes _ _ _ _ _ _ _ _ Hg) by done.
  destruct (pages_between oldsz newsz Hsz Hk) as (_ & Hin & _). case_decide as D; [rewrite decide_True by (by apply Hin)|rewrite decide_False by (by rewrite <- Hin)]; done.
Qed.

(** C11. Copying to a process: [copyToUserVirtualMemory] of a block to user pages
    that are all there, wherever their frames are, stores every byte at its
    virtual address and leaves the other bytes of the process alone. *)
Theorem copyToUser_copies (kernelEnd pgdir va p len : Z) (s : KState) (free : list Z) :
  vm_state kernelEnd s pgdir free -> as_ok kernelEnd (kmem s) pgdir free ->
  0 <= va -> 0 <= len -> va + len <= KERNBASE -> 0 <= p -> p + len < 4294967296 ->
  (forall v, va <= v < va + len -> present (entry (kmem s) pgdir v) = true /\ Z.land (entry (kmem s) pgdir v) PTE_U <> 0) ->
  (forall v a, va <= v < va + len -> in_page (frameOf (kmem s) pgdir v) a -> ~ (p <= a < p + len)) ->
  exists s', copyToUserVirtualMemory pgdir va p len s = Ret 0 s' /\ vm_state kernelEnd s' pgdir free /\
    as_ok kernelEnd (kmem s') pgdir free /\
    forall v, 0 <= v < KERNBASE ->
      userByte (kmem s') pgdir v = if decide (va <= v < va + len) then Some (kmem s (p + (v - va))) else userByte (kmem s) pgdir v.
Proof.
  intros Hs Has Hva Hlen Hk Hp Hpr Hpu Hdis. unfold copyToUserVirtualMemory, PGSIZE.
  destruct (copyOut_spec kernelEnd (Z.to_nat (len / 4096 + 2)) pgdir va p len s free) as (s' & E & Hs' & Has' & Hc & _); try done.
  - right. zdiv.
  - by exists s'.
Qed.

(** * A concrete page table *)

(** An empty directory and two free pages. *)
Definition demoDir : Z := 2155872256.
Definition demoT1 : Z := 2155876352.
Definition demoT2 : Z := 2155880448.
Definition demoVmKernel : KState :=
  set_FreeList demoT1 (set_kmem (store32 (fun _ => 0) demoT1 demoT2) demoKernel).

Lemma demoVm_page a : a = demoDir \/ a = demoT1 \/ a = demoT2 -> page_ok demoEnd a.
Proof. intros [->|[->| ->]]; vm_compute; repeat split; congruence. Qed.

Lemma demoVm_empty i : 0 <= i < 1024 -> pdeOf (kmem demoVmKernel) demoDir i = 0.
Proof. intros Hi. unfold pdeOf. cbn. rewrite load32_store32_other; unfold demoDir, demoT1; try lia. done. Qed.

Lemma demoVm_state : vm_state demoEnd demoVmKernel demoDir [demoT1; demoT2].
Proof.
  split; [split| |].
  - apply store32_bytes. intros a. lia.
  - split; [apply demoVm_page; tauto|]. apply (bool_decide_unpack (demoDir ∉ [demoT1; demoT2])). vm_compute. exact I.
  - intros i Hi. by rewrite demoVm_empty.
  - intros i j Hi Hj. by rewrite demoVm_empty.
  - split_and!.
    + split; [done|]. split; vm_compute; done.
    + repeat constructor; apply demoVm_page; tauto.
    + apply (bool_decide_unpack (NoDup [demoT1; demoT2])). vm_compute. exact I.
  - exact demoPages_ready.
Qed.

Lemma demoVm_none va : entry (kmem demoVmKernel) demoDir va = 0.
Proof. unfold entry. cbv zeta. rewrite demoVm_empty by apply PDX_range. done. Qed.

Lemma demoVm_as : as_ok demoEnd (kmem demoVmKernel) demoDir [demoT1; demoT2].
Proof. split; intros va; intros; by rewrite demoVm_none in *. Qed.

Lemma createPageTableEntries_maps_witness :
  exists s' free', createPageTableEntries demoDir 4096 8192 81920 2 demoVmKernel = Ret 0 s' /\
    vm_step demoEnd demoVmKernel demoDir [demoT1; demoT2] s' free' /\ PTE_ADDR (entry (kmem s') demoDir 8200) = 86016.
Proof.
  destruct (createPageTableEntries_maps demoEnd demoDir 4096 81920 2 2 demoVmKernel [demoT1; demoT2]) as (r & s' & free' & E & Hstep & _ & H);
    [exact demoVm_state|lia|reflexivity|lia|lia|lia|reflexivity|lia|lia|intros v _ _; rewrite demoVm_none; reflexivity|].
  destruct H as [[-> H]|(_ & _ & Hlen)]; [|pose proof (needTables_le (kmem demoVmKernel) demoDir 4096 1); cbn [length] in Hlen; change (2 - 1)%nat with 1%nat in Hlen; lia].
  exists s', free'. split; [exact E|]. split; [exact Hstep|]. exact (proj1 (proj2 (H 8200 ltac:(lia) ltac:(split; vm_compute; congruence)))).
Defined.

Lemma allocateMemory_grows_witness :
  exists s', allocateMemoryAndPageTables demoEnd demoDir 0 100 demoVmKernel = Ret 100 s' /\ userByte (kmem s') demoDir 4000 = Some 0.
Proof.
  destruct (allocateMemory_grows demoEnd demoDir 0 100 demoVmKernel [demoT1; demoT2]) as (s' & free' & E & _ & _ & H);
    [exact demoVm_state|exact demoVm_as|lia|reflexivity|vm_compute; discriminate|intros v _; rewrite demoVm_none; reflexivity|].
  exists s'. split; [exact E|]. rewrite H by (unfold KERNBASE; lia). reflexivity.
Defined.

(** Five bytes are copied to a page that was just mapped. *)
Lemma copyToUser_copies_witness :
  exists s s', copyToUserVirtualMemory demoDir 10 2147483648 5 s = Ret 0 s' /\ userByte (kmem s') demoDir 12 = Some (kmem s 2147483650).
Proof.
  destruct (fresh_page demoEnd demoVmKernel demoDir demoT1 [demoT2] demoVm_state) as (s1 & _ & _ & HTp & Hstep & Hout & _ & Hent). cbv zeta in *.
  set (s2 := set_kmem _ s1) in *. destruct (as_step _ _ _ _ _ _ Hstep demoVm_as Hent) as [Has _].
  destruct (map_frame demoEnd s2 demoDir [demoT2] demoT1 0 6 (step_state _ _ _ _ _ _ Hstep) Has Hout) as (s3 & free3 & _ & Hstep3 & _ & Has3 & Hent3 & _);
    [intros va Hva; rewrite Hent, demoVm_none by (unfold KERNBASE in Hva; lia); discriminate|lia|reflexivity|unfold KERNBASE; lia
    |rewrite Hent, demoVm_none by lia; reflexivity|lia|discriminate|].
  assert (He : forall v, 10 <= v < 15 -> entry (kmem s3) demoDir v = pteWord (V2P demoT1) 6) by (intros v Hv; rewrite Hent3, decide_True by (lia || zdiv); done).
  destruct (copyToUser_copies demoEnd demoDir 10 2147483648 5 s3 free3 (step_state _ _ _ _ _ _ Hstep3) Has3) as (s4 & E & _ & _ & H);
    [lia|lia|unfold KERNBASE; lia|lia|lia|intros v Hv; rewrite He by lia; vm_compute; split; congruence
    |intros v a Hv; unfold frameOf; rewrite He by lia; replace (P2V (PTE_ADDR (pteWord (V2P demoT1) 6))) with demoT1 by (vm_compute; reflexivity);
     unfold in_page, PGSIZE, demoT1; lia|].
  exists s3, s4. split; [exact E|]. rewrite H by (unfold KERNBASE; lia). reflexivity.
Defined.
