(* ===== verification/Space.v ===== *)
(** Address spaces side by side: what belongs to one page table, that work on
    one address space does not disturb another, and that releasing a page table
    returns exactly the pages that belong to it. *)

From S2P Require Import Prelude CString Types Fat12 Spinlock Kernel Kalloc Sched Vm.

(** * Two address spaces *)

Section Spaces.
Context (kernelEnd : Z).
Notation page_ok := (page_ok kernelEnd).
Notation free_pages := (free_pages kernelEnd).
Notation vm_state := (vm_state kernelEnd).
Notation as_ok := (as_ok kernelEnd).
Notation outside := (outside kernelEnd).

(** A page that belongs to neither the table [pgdir] nor its process, and is
    not free. *)
Definition apart (m : mem) (pgdir : Z) (free : list Z) (q : Z) : Prop :=
  outside m pgdir free q /\
  forall v, 0 <= v < KERNBASE -> present (entry m pgdir v) = true -> frameOf m pgdir v <> q.

(** From [s] to [s'] only the address space [pgdir] has changed. *)
Record space_step (s : KState) (pgdir : Z) (free : list Z) (s' : KState) (free' : list Z) : Prop := {
  ss_vm : vm_state s' pgdir free';
  ss_as : as_ok (kmem s') pgdir free';
  ss_touches : touches s s';
  ss_apart q : apart (kmem s) pgdir free q ->
    apart (kmem s') pgdir free' q /\ forall a, in_page q a -> kmem s' a = kmem s a
}.

Lemma space_step_refl s pgdir free : vm_state s pgdir free -> as_ok (kmem s) pgdir free -> space_step s pgdir free s free.
Proof. intros H1 H2. split; try done. Qed.

Lemma space_step_trans s pgdir f1 s1 f2 s2 f3 : space_step s pgdir f1 s1 f2 -> space_step s1 pgdir f2 s2 f3 -> space_step s pgdir f1 s2 f3.
Proof.
  intros [A1 B1 C1 D1] [A2 B2 C2 D2]. split; [done|done|by transitivity s1|].
  intros q Hq. destruct (D1 q Hq) as [Hq1 E1]. destruct (D2 q Hq1) as [Hq2 E2]. split; [done|]. intros a Ha. by rewrite E2, E1.
Qed.

(** A step of the table that keeps every frame or takes it from the free list. *)
Lemma space_step_vm s pgdir free s' free' : vm_step kernelEnd s pgdir free s' free' -> as_ok (kmem s') pgdir free' ->
  (forall v, 0 <= v < KERNBASE -> present (entry (kmem s') pgdir v) = true ->
    (present (entry (kmem s) pgdir v) = true /\ frameOf (kmem s') pgdir v = frameOf (kmem s) pgdir v) \/ frameOf (kmem s') pgdir v ∈ free) ->
  space_step s pgdir free s' free'.
Proof.
  intros Hstep Has Hfr. split; [apply Hstep|done|apply Hstep|]. intros q [Hout Hq].
  destruct (step_outside _ _ _ _ _ _ Hstep q Hout) as [Hout' Hsame]. split; [split; [done|]|done].
  intros v Hv Hp E. destruct (Hfr v Hv Hp) as [[Hp0 E0]|Hin].
  - apply (Hq v Hv Hp0). congruence.
  - destruct Hout as (_ & Hn & _). apply Hn. congruence.
Qed.

Lemma grown_frame m m' pgdir a n free free' v : grown kernelEnd m m' pgdir a n free free' -> 0 <= v < KERNBASE ->
  a / 4096 <= v / 4096 < a / 4096 + Z.of_nat n ->
  present (entry m' pgdir v) = true /\ Z.land (entry m' pgdir v) PTE_U <> 0 /\ frameOf m' pgdir v ∈ free.
Proof.
  intros Hg Hv Hin. destruct (grown_new _ _ _ _ _ _ _ _ Hg v Hv Hin) as (T & HT & Hok & E).
  destruct (frame_word kernelEnd T (Z.lor PTE_W PTE_U) Hok ltac:(by vm_compute)) as (H1 & H2 & H3 & H4 & H5).
  unfold frameOf. rewrite E. split_and!; [done| |by rewrite H5].
  destruct (pteWord_decode (V2P T) (Z.lor PTE_W PTE_U) H2 ltac:(by vm_compute)) as (_ & _ & Hf).
  intros E0. assert (Hb : Z.land (PTE_FLAGS (pteWord (V2P T) (Z.lor PTE_W PTE_U))) PTE_U = 0).
  { unfold PTE_FLAGS. rewrite <- Z.land_assoc, (Z.land_comm 4095), Z.land_assoc, E0. done. }
  rewrite Hf in Hb. by vm_compute in Hb.
Qed.

Lemma space_step_grown s pgdir free s' free' a n : vm_step kernelEnd s pgdir free s' free' -> as_ok (kmem s') pgdir free' ->
  grown kernelEnd (kmem s) (kmem s') pgdir a n free free' -> space_step s pgdir free s' free'.
Proof.
  intros Hstep Has Hg. apply space_step_vm; try done. intros v Hv Hp. assert (HK : KERNBASE = 2147483648) by done.
  destruct (decide (a / 4096 <= v / 4096 < a / 4096 + Z.of_nat n)) as [D|D].
  - right. by eapply grown_frame.
  - left. unfold frameOf. rewrite (grown_other _ _ _ _ _ _ _ _ Hg v ltac:(lia) D) in Hp |- *. done.
Qed.

(** All of the address space [old] lies apart from [pgdir]. *)
Record apartSpace (m : mem) (pgdir : Z) (free : list Z) (old : Z) : Prop := {
  ap_dir : apart m pgdir free old;
  ap_table i : 0 <= i < 1024 -> present (pdeOf m old i) = true -> apart m pgdir free (tableOf (pdeOf m old i));
  ap_frame v : 0 <= v < KERNBASE -> present (entry m old v) = true -> apart m pgdir free (frameOf m old v)
}.

Lemma page_word m m' q i : page_ok q -> 0 <= i < 1024 -> (forall a, in_page q a -> m' a = m a) ->
  load32 m' (q + 4 * i) = load32 m (q + 4 * i).
Proof.
  intros Hq Hi Hs. pose proof (page_range kernelEnd q Hq). apply load32_same; [lia|lia|]. intros a Ha. apply Hs. unfold in_page, PGSIZE. lia.
Qed.

(** The other address space does not notice. *)
Lemma apart_kept s pgdir free s' free' old : space_step s pgdir free s' free' -> apartSpace (kmem s) pgdir free old ->
  apartSpace (kmem s') pgdir free' old /\
  (forall i, 0 <= i < 1024 -> pdeOf (kmem s') old i = pdeOf (kmem s) old i) /\
  (forall v, 0 <= v < 4294967296 -> entry (kmem s') old v = entry (kmem s) old v) /\
  (forall v, 0 <= v < KERNBASE -> userByte (kmem s') old v = userByte (kmem s) old v).
Proof.
  intros Hstep [Hd Ht Hf]. assert (HK : KERNBASE = 2147483648) by done.
  destruct (ss_apart _ _ _ _ _ Hstep _ Hd) as [Hd' Ed].
  assert (Hpde : forall i, 0 <= i < 1024 -> pdeOf (kmem s') old i = pdeOf (kmem s) old i).
  { intros i Hi. apply page_word; [apply Hd|done|done]. }
  assert (Hent : forall v, 0 <= v < 4294967296 -> entry (kmem s') old v = entry (kmem s) old v).
  { intros v Hv. unfold entry. cbv zeta. pose proof (PDX_range v). rewrite Hpde by done. destruct (present _) eqn:Ep; [|done].
    destruct (ss_apart _ _ _ _ _ Hstep _ (Ht _ ltac:(done) Ep)) as [_ Et]. apply page_word; [by apply Ht|apply PTX_range|done]. }
  split_and!; [split|done| |].
  - done.
  - intros i Hi. rewrite Hpde by done. intros Hp. by apply (ss_apart _ _ _ _ _ Hstep), Ht.
  - intros v Hv. unfold frameOf. rewrite Hent by lia. intros Hp. by apply (ss_apart _ _ _ _ _ Hstep), Hf.
  - done.
  - intros v Hv. unfold userByte, frameOf. rewrite Hent by lia. destruct (present _) eqn:Ep; [|done]. f_equal.
    apply (ss_apart _ _ _ _ _ Hstep (frameOf (kmem s) old v)); [by apply Hf|apply in_frame].
Qed.

(** * Releasing pages *)

(** The frames of the [n] pages from [a] on. *)
Fixpoint framesFrom (m : mem) (pgdir a : Z) (n : nat) : list Z :=
  match n with
  | O => []
  | S n => (if present (entry m pgdir a) then [frameOf m pgdir a] else []) ++ framesFrom m pgdir (a + 4096) n
  end.

Lemma framesFrom_ext m m' pgdir n : forall a, 0 <= a -> a + 4096 * Z.of_nat n <= 4294967296 ->
  (forall v, a / 4096 <= v / 4096 < a / 4096 + Z.of_nat n -> entry m' pgdir v = entry m pgdir v) -> framesFrom m' pgdir a n = framesFrom m pgdir a n.
Proof.
  induction n as [|n IH]; intros a Ha Har H; [done|]. cbn [framesFrom]. unfold frameOf. rewrite H by lia. f_equal.
  apply IH; [lia|lia|]. intros v Hv. apply H. assert ((a + 4096) / 4096 = a / 4096 + 1) by zdiv. lia.
Qed.

Lemma framesFrom_none m pgdir n : forall a, 0 <= a ->
  (forall v, a / 4096 <= v / 4096 < a / 4096 + Z.of_nat n -> present (entry m pgdir v) = false) -> framesFrom m pgdir a n = [].
Proof.
  induction n as [|n IH]; intros a Ha H; [done|]. cbn [framesFrom]. rewrite H by lia.
  apply IH; [lia|]. intros v Hv. apply H. assert ((a + 4096) / 4096 = a / 4096 + 1) by zdiv. lia.
Qed.

Lemma framesFrom_app m pgdir i j : forall a, framesFrom m pgdir a (i + j) = framesFrom m pgdir a i ++ framesFrom m pgdir (a + 4096 * Z.of_nat i) j.
Proof.
  induction i as [|i IH]; intros a; cbn [framesFrom plus app]; [f_equal; lia|]. rewrite IH, app_assoc. do 2 f_equal. lia.
Qed.

(** A page goes back to the allocator. *)
Lemma free_outside s pgdir free q : vm_state s pgdir free -> outside (kmem s) pgdir free q ->
  exists s', freePhysicalMemoryPage kernelEnd q s = Ret tt s' /\ vm_state s' pgdir (q :: free) /\ touches s s' /\
    (forall i, 0 <= i < 1024 -> pdeOf (kmem s') pgdir i = pdeOf (kmem s) pgdir i) /\
    (forall v, 0 <= v < 4294967296 -> entry (kmem s') pgdir v = entry (kmem s) pgdir v) /\
    (forall a, ~ in_page q a -> kmem s' a = kmem s a).
Proof.
  intros Hvm Hout. pose proof Hvm as [Hok Hfree Hr]. pose proof Hout as (Hq & Hqn & Hqd & Hqt).
  destruct (free_spec kernelEnd q s free Hfree Hq Hqn Hr) as (s' & E & Hf' & Hsame & _ & Es'). exists s'. split; [done|].
  assert (Hb : mem_bytes (kmem s')).
  { rewrite (free_eq kernelEnd q s Hq Hr) in E. injection E as <-. cbn [kmem set_FreeList set_kmem]. apply store32_bytes.
    intros a. pose proof (page_range kernelEnd q Hq). unfold PGSIZE. rewrite memset_fill by lia. case_match; [apply u8_range|apply (pt_bytes _ _ _ _ Hok)]. }
  destruct (write_outside kernelEnd s pgdir free q (kmem s') Hvm Hout Hb Hsame) as (_ & Hpde & Hent).
  assert (Ht : touches s s').
  { transitivity (set_kmem (kmem s') s); [apply touches_kmem|].
    assert (Es2 : s' = set_FreeList q (kmem_settled (set_kmem (kmem s') s))) by (etransitivity; [exact Es'|]; unfold kmem_settled; cbn; by destruct (UseLock s =? 0)).
    pose proof (touches_alloc q (set_kmem (kmem s') s)) as Hta. by rewrite <- Es2 in Hta. }
  split_and!; try done. split; [split|done|by eapply kmem_ready_touches].
  - done.
  - destruct (pt_dir _ _ _ _ Hok). split; [done|]. set_solver.
  - intros i Hi. rewrite Hpde by done. intros Hp. destruct (pt_table _ _ _ _ Hok i Hi Hp) as (T1 & T2 & T3).
    split_and!; [done| |done]. apply not_elem_of_cons. split; [by apply Hqt|done].
  - intros i j Hi Hj. rewrite !Hpde by done. by apply (pt_distinct _ _ _ _ Hok).
Qed.

(** ... and its entry is cleared. *)
Lemma release_page s pgdir free va : vm_state s pgdir free -> as_ok (kmem s) pgdir free -> 0 <= va < KERNBASE ->
  present (entry (kmem s) pgdir va) = true ->
  let F := frameOf (kmem s) pgdir va in
  let pte := tableOf (pdeOf (kmem s) pgdir (PDX va)) + 4 * PTX va in
  exists s1 s', freePhysicalMemoryPage kernelEnd F s = Ret tt s1 /\ s' = set_kmem (store32 (kmem s1) pte 0) s1 /\
    space_step s pgdir free s' (F :: free) /\
    (forall v, 0 <= v < 4294967296 -> entry (kmem s') pgdir v = if decide (v / 4096 = va / 4096) then 0 else entry (kmem s) pgdir v) /\
    (forall i, 0 <= i < 1024 -> pdeOf (kmem s') pgdir i = pdeOf (kmem s) pgdir i).
Proof.
  intros Hvm Has Hva Hp F pte. assert (HK : KERNBASE = 2147483648) by done.
  assert (Hout : outside (kmem s) pgdir free F) by (by apply (as_frame _ _ _ _ Has)).
  destruct (free_outside s pgdir free F Hvm Hout) as (s1 & E1 & Hvm1 & Ht1 & Hpde1 & Hent1 & Hsame1).
  destruct (present (pdeOf (kmem s) pgdir (PDX va))) eqn:Ep.
  2: { exfalso. unfold entry in Hp. cbv zeta in Hp. by rewrite Ep in Hp. }
  destruct (store_entry kernelEnd s1 pgdir (F :: free) va 0 Hvm1 ltac:(lia) ltac:(lia)) as (Hstep & Hpde2 & Hent2); [by rewrite Hpde1 by apply PDX_range|].
  rewrite Hpde1 in * by apply PDX_range. cbv zeta in *. fold pte in Hstep, Hpde2, Hent2. set (s' := set_kmem _ s1) in *. exists s1, s'. split; [done|]. split; [done|].
  assert (Hent : forall v, 0 <= v < 4294967296 -> entry (kmem s') pgdir v = if decide (v / 4096 = va / 4096) then 0 else entry (kmem s) pgdir v).
  { intros v Hv. rewrite Hent2 by done. case_decide; [done|]. by apply Hent1. }
  assert (Hof : forall q, outside (kmem s) pgdir free q -> q <> F -> outside (kmem s') pgdir (F :: free) q /\ forall a, in_page q a -> kmem s' a = kmem s a).
  { intros q (Q1 & Q2 & Q3 & Q4) Hne. destruct (step_outside _ _ _ _ _ _ Hstep q) as [Q5 Q6].
    - split_and!; [done|set_solver|done|]. intros i Hi. rewrite Hpde1 by done. by apply Q4.
    - split; [done|]. intros a Ha. rewrite Q6 by done. apply Hsame1. apply (in_page_disjoint kernelEnd q F); [done|apply Hout|done|done]. }
  split; [|split; [done|intros i Hi; rewrite Hpde2 by done; by apply Hpde1]]. split.
  - apply Hstep.
  - split.
    + intros v Hv. unfold frameOf. rewrite Hent by lia. case_decide as D; [done|]. intros Hpv. apply Hof; [by apply (as_frame _ _ _ _ Has)|].
      intros E. apply D. by apply (as_inj _ _ _ _ Has).
    + intros v v' Hv Hv'. unfold frameOf. rewrite !Hent by lia. repeat case_decide; try done. by apply (as_inj _ _ _ _ Has).
  - transitivity s1; [done|]. apply Hstep.
  - intros q [Q1 Q2]. assert (HqF : q <> F) by (intros ->; by apply (Q2 va)). destruct (Hof q Q1 HqF) as [Q3 Q4]. split; [split; [done|]|done].
    intros v Hv. unfold frameOf. rewrite Hent by lia. case_decide; [done|]. by apply Q2.
Qed.

Lemma PGADDR_next a : 0 <= a < KERNBASE -> u32 (u32 (PGADDR (PDX a + 1) 0 0 - PGSIZE) + PGSIZE) = 4194304 * (a / 4194304 + 1).
Proof.
  intros Ha. unfold KERNBASE in Ha. unfold PGADDR, PGSIZE. rewrite Z.shiftl_0_l, !Z.lor_0_r, Z.shiftl_mul_pow2, PDX_eq by lia.
  change (2 ^ 22) with 4194304. rewrite (Z.mod_small (a / 4194304)) by zdiv. rewrite (u32_small ((a / 4194304 + 1) * 4194304)) by zdiv.
  rewrite u32_small by (rewrite u32_small; zdiv). rewrite u32_small by zdiv. lia.
Qed.

(** After the release of the [n] pages from [a] on. *)
Record released (s : KState) (pgdir : Z) (free : list Z) (a : Z) (n : nat) (s' : KState) (free' : list Z) : Prop := {
  re_step : space_step s pgdir free s' free';
  re_free : free' ≡ₚ framesFrom (kmem s) pgdir a n ++ free;
  re_gone v : 0 <= v < 4294967296 -> a / 4096 <= v / 4096 < a / 4096 + Z.of_nat n -> present (entry (kmem s') pgdir v) = false;
  re_kept v : 0 <= v < 4294967296 -> ~ (a / 4096 <= v / 4096 < a / 4096 + Z.of_nat n) -> entry (kmem s') pgdir v = entry (kmem s) pgdir v;
  re_pde i : 0 <= i < 1024 -> pdeOf (kmem s') pgdir i = pdeOf (kmem s) pgdir i
}.

(** Pages that are not there are skipped. *)
Lemma released_skip s pgdir free a n k s' free' : 0 <= a -> a + 4096 * Z.of_nat (k + n) <= 4294967296 ->
  (forall v, 0 <= v < 4294967296 -> a / 4096 <= v / 4096 < a / 4096 + Z.of_nat k -> present (entry (kmem s) pgdir v) = false) ->
  released s pgdir free (a + 4096 * Z.of_nat k) n s' free' -> released s pgdir free a (k + n) s' free'.
Proof.
  intros Ha Har Hnone [R1 R2 R3 R4 R5]. assert (Hd : (a + 4096 * Z.of_nat k) / 4096 = a / 4096 + Z.of_nat k) by zdiv. rewrite Hd in *.
  split; try done.
  - rewrite framesFrom_app, (framesFrom_none _ _ k a); [done|lia|]. intros v Hv. apply Hnone; [zdiv|done].
  - intros v Hv Hin. destruct (decide (v / 4096 < a / 4096 + Z.of_nat k)); [|apply R3; lia]. rewrite R4 by lia. apply Hnone; lia.
  - intros v Hv Hn. apply R4; lia.
Qed.

Lemma releasePages_spec n : forall fuel pgdir a oldsz s free, KERNBASE < kernelEnd ->
  vm_state s pgdir free -> as_ok (kmem s) pgdir free -> (n <= fuel)%nat -> 0 <= a -> a mod 4096 = 0 ->
  oldsz <= a + 4096 * Z.of_nat n -> (n = 0%nat \/ a + 4096 * Z.of_nat n < oldsz + 4096) -> oldsz <= KERNBASE ->
  exists s' free', releasePages kernelEnd fuel pgdir a oldsz s = Ret tt s' /\ released s pgdir free a n s' free'.
Proof.
  induction n as [n IH] using lt_wf_ind. intros fuel pgdir a oldsz s free Hend Hvm Has Hfuel Ha Ham Hlo Hhi Hk. assert (HK : KERNBASE = 2147483648) by done.
  destruct (decide (a < oldsz)) as [Hlt|Hge].
  2: { assert (n = 0%nat) as -> by lia. exists s, free. split; [destruct fuel; cbn [releasePages]; rewrite (proj2 (Z.ltb_ge _ _)) by lia; done|].
       split; (done || lia || by apply space_step_refl). }
  destruct n as [|n]; [lia|]. destruct fuel as [|fuel]; [lia|]. cbn [releasePages]. rewrite (proj2 (Z.ltb_lt _ _)) by lia. cbn [negb].
  destruct Hhi as [|Hhi]; [lia|]. assert (Hend4 : a + 4096 * Z.of_nat (S n) <= KERNBASE) by zdiv. pose proof (vm_table _ _ _ _ Hvm) as Hok.
  destruct (present (pdeOf (kmem s) pgdir (PDX a))) eqn:Ep.
  - (* a table *)
    rewrite (bind_Ret _ _ _ _ _ (get_present kernelEnd s pgdir free a false Hok Ep)).
    destruct (pt_table _ _ _ _ Hok _ (PDX_range a) Ep) as (Htab & _). pose proof (PTX_range a). apply page_range in Htab as Htr.
    rewrite (proj2 (Z.eqb_neq _ 0)), bind_readWord by lia.
    assert (Ee : load32 (kmem s) (tableOf (pdeOf (kmem s) pgdir (PDX a)) + 4 * PTX a) = entry (kmem s) pgdir a) by (unfold entry; cbv zeta; by rewrite Ep).
    rewrite Ee. unfold PGSIZE. rewrite (u32_small (a + 4096)) by lia. assert (Hd : (a + 4096) / 4096 = a / 4096 + 1) by zdiv.
    destruct (present (entry (kmem s) pgdir a)) eqn:Ea.
    + destruct (release_page s pgdir free a Hvm Has ltac:(lia) Ea) as (s1 & s2 & E1 & Es2 & Hst & Hent & Hpd). cbv zeta in *.
      assert (HF : page_ok (frameOf (kmem s) pgdir a)) by (apply (as_frame _ _ _ _ Has); [lia|done]).
      rewrite (proj2 (Z.eqb_neq (PTE_ADDR _) 0)).
      2: { intros E0. unfold frameOf in HF. rewrite E0 in HF. unfold Kalloc.page_ok in HF. change (P2V 0) with KERNBASE in HF. lia. }
      fold (frameOf (kmem s) pgdir a). rewrite bind_assoc, (bind_Ret _ _ _ _ _ E1), bind_writeWord. rewrite <- Es2.
      destruct (IH n ltac:(lia) fuel pgdir (a + 4096) oldsz s2 (frameOf (kmem s) pgdir a :: free)) as (s3 & f3 & E3 & [R1 R2 R3 R4 R5]);
        [done|apply Hst|apply Hst|lia|lia|zdiv|lia|destruct n; [by left|right; lia]|done|].
      exists s3, f3. split; [done|]. rewrite Hd in *. split.
      * by eapply space_step_trans.
      * cbn [framesFrom]. rewrite Ea, R2. rewrite (framesFrom_ext (kmem s) (kmem s2)); [|lia|lia|].
        -- cbn [app]. symmetry. apply Permutation_middle.
        -- intros v Hv. rewrite Hent by zdiv. rewrite decide_False by lia. done.
      * intros v Hv Hin. destruct (decide (v / 4096 = a / 4096)) as [D|D]; [|apply R3; lia]. rewrite R4, Hent by lia. by rewrite decide_True.
      * intros v Hv Hn. rewrite R4, Hent, decide_False by lia. done.
      * intros i Hi. rewrite R5 by done. by apply Hpd.
    + rewrite bind_mret. destruct (IH n ltac:(lia) fuel pgdir (a + 4096) oldsz s free) as (s3 & f3 & E3 & HR);
        [done|done|done|lia|lia|zdiv|lia|destruct n; [by left|right; lia]|done|].
      exists s3, f3. split; [done|]. apply (released_skip s pgdir free a n 1 s3 f3); [lia|lia| |by rewrite Z.mul_1_r].
      intros v Hv Hin. rewrite (entry_page _ _ v a) by lia. done.
  - (* no table: on to the next one *)
    rewrite (bind_Ret _ _ _ _ _ (get_absent kernelEnd s pgdir free a Hok Ep)). change (0 =? 0) with true. cbv iota.
    rewrite PGADDR_next by lia. set (b := 4194304 * (a / 4194304 + 1)).
    assert (Hb : b mod 4096 = 0 /\ a < b /\ b <= KERNBASE /\ b <= a + 4194304) by (unfold b; zdiv).
    set (k := Z.to_nat ((b - a) / 4096)). assert (Hkb : b = a + 4096 * Z.of_nat k) by (unfold k; zdiv).
    assert (Hnone : forall v, 0 <= v < 4294967296 -> a / 4096 <= v / 4096 < a / 4096 + Z.of_nat k -> present (entry (kmem s) pgdir v) = false).
    { intros v Hv Hin. assert (Ev : PDX v = PDX a) by (rewrite !PDX_eq; f_equal; unfold b in Hkb; zdiv). unfold entry. cbv zeta. by rewrite Ev, Ep. }
    assert (Hcase : (k <= S n)%nat \/ (S n < k)%nat) by lia. destruct Hcase as [Hle|Hgt].
    + destruct (IH (S n - k)%nat ltac:(lia) fuel pgdir b oldsz s free) as (s3 & f3 & E3 & HR); [done|done|done|lia|lia|lia|lia|lia|done|].
      exists s3, f3. split; [done|]. replace (S n) with (k + (S n - k))%nat by lia. apply released_skip; [lia|lia|done|by rewrite <- Hkb].
    + destruct (IH 0%nat ltac:(lia) fuel pgdir b oldsz s free) as (s3 & f3 & E3 & HR); [done|done|done|lia|lia|lia|lia|by left|done|].
      exists s3, f3. split; [done|]. assert (HR0 : released s pgdir free (a + 4096 * Z.of_nat (S n)) 0 s3 f3).
      { destruct HR as [R1 R2 R3 R4 R5]. split; try done; try lia. intros v Hv _. apply R4; lia. }
      replace (S n) with (S n + 0)%nat by lia. apply released_skip; [lia|lia| |exact HR0]. intros v Hv Hin. apply Hnone; lia.
Qed.

(** * Releasing a page table *)

(** The tables of the directory entries from [i] on. *)
Fixpoint tablesFrom (m : mem) (pgdir i : Z) (n : nat) : list Z :=
  match n with
  | O => []
  | S n => (if present (pdeOf m pgdir i) then [tableOf (pdeOf m pgdir i)] else []) ++ tablesFrom m pgdir (i + 1) n
  end.

(** The pages that belong to the page table [pgdir]: the directory, the tables
    and the frames of the user part. *)
Definition ownedPages (m : mem) (pgdir : Z) : list Z :=
  pgdir :: tablesFrom m pgdir 0 (Z.to_nat NPDENTRIES) ++ framesFrom m pgdir 0 (Z.to_nat (KERNBASE / 4096)).

Lemma tablesFrom_ext m m' pgdir n : forall i, 0 <= i -> i + Z.of_nat n <= 1024 ->
  (forall j, 0 <= j < 1024 -> pdeOf m' pgdir j = pdeOf m pgdir j) -> tablesFrom m' pgdir i n = tablesFrom m pgdir i n.
Proof. induction n as [|n IH]; intros i Hi Hn E; [done|]. cbn [tablesFrom]. rewrite E, IH by (done || lia). done. Qed.

(** What is left of a page table while its tables are released. *)
Record dismantled (s : KState) (pgdir i : Z) (free : list Z) : Prop := {
  dm_free : free_pages s free;
  dm_ready : kmem_ready s;
  dm_dir : page_ok pgdir /\ pgdir ∉ free;
  dm_table j : i <= j < 1024 -> present (pdeOf (kmem s) pgdir j) = true ->
    page_ok (tableOf (pdeOf (kmem s) pgdir j)) /\ tableOf (pdeOf (kmem s) pgdir j) ∉ free /\ tableOf (pdeOf (kmem s) pgdir j) <> pgdir;
  dm_distinct j k : i <= j < 1024 -> i <= k < 1024 -> j <> k -> present (pdeOf (kmem s) pgdir j) = true -> present (pdeOf (kmem s) pgdir k) = true ->
    tableOf (pdeOf (kmem s) pgdir j) <> tableOf (pdeOf (kmem s) pgdir k)
}.

Lemma free_page_spec q s free : free_pages s free -> kmem_ready s -> page_ok q -> q ∉ free ->
  exists s', freePhysicalMemoryPage kernelEnd q s = Ret tt s' /\ free_pages s' (q :: free) /\ kmem_ready s' /\ touches s s' /\
    (forall a, ~ in_page q a -> kmem s' a = kmem s a).
Proof.
  intros Hf Hr Hq Hn. destruct (free_spec kernelEnd q s free Hf Hq Hn Hr) as (s' & E & Hf' & Hsame & _ & Es'). exists s'.
  assert (Ht : touches s s').
  { transitivity (set_kmem (kmem s') s); [apply touches_kmem|].
    assert (Es2 : s' = set_FreeList q (kmem_settled (set_kmem (kmem s') s))) by (etransitivity; [exact Es'|]; unfold kmem_settled; cbn; by destruct (UseLock s =? 0)).
    pose proof (touches_alloc q (set_kmem (kmem s') s)) as Hta. by rewrite <- Es2 in Hta. }
  split_and!; try done. by eapply kmem_ready_touches.
Qed.

(** Releasing changes the pages that become free, and no others. *)
Definition frees_only (s s' : KState) (free' : list Z) : Prop :=
  forall q a, page_ok q -> q ∉ free' -> in_page q a -> kmem s' a = kmem s a.

Lemma freeTables_spec n : forall pgdir i s free, dismantled s pgdir i free -> 0 <= i -> i + Z.of_nat n = 1024 ->
  exists s' free', freeTables kernelEnd n pgdir i s = Ret tt s' /\ touches s s' /\ free_pages s' free' /\ kmem_ready s' /\ pgdir ∉ free' /\
    free' ≡ₚ tablesFrom (kmem s) pgdir i n ++ free /\ frees_only s s' free'.
Proof.
  induction n as [|n IH]; intros pgdir i s free [D1 D2 D3 D4 D5] Hi Hn; cbn [freeTables tablesFrom].
  { exists s, free. split_and!; try done. apply D3. }
  pose proof (page_range kernelEnd pgdir (proj1 D3)) as Hdr. rewrite (pte_address kernelEnd), bind_readWord by (apply D3 || lia). fold (pdeOf (kmem s) pgdir i).
  destruct (present (pdeOf (kmem s) pgdir i)) eqn:Ep.
  - destruct (D4 i ltac:(lia) Ep) as (T1 & T2 & T3). fold (tableOf (pdeOf (kmem s) pgdir i)). set (T := tableOf (pdeOf (kmem s) pgdir i)) in *.
    destruct (free_page_spec T s free D1 D2 T1 T2) as (s1 & E1 & Hf1 & Hr1 & Ht1 & Hs1). rewrite (bind_Ret _ _ _ _ _ E1).
    assert (Hpde : forall j, 0 <= j < 1024 -> pdeOf (kmem s1) pgdir j = pdeOf (kmem s) pgdir j).
    { intros j Hj. apply page_word; [apply D3|done|]. intros a Ha. apply Hs1. apply (in_page_disjoint kernelEnd pgdir); [apply D3|done|congruence|done]. }
    destruct (IH pgdir (i + 1) s1 (T :: free)) as (s2 & f2 & E2 & Ht2 & Hf2 & Hr2 & Hn2 & Hp2 & Ho2); [|lia|lia|].
    { split; try done.
      - split; [apply D3|]. apply not_elem_of_cons. split; [congruence|apply D3].
      - intros j Hj. rewrite Hpde by lia. intros Hp. destruct (D4 j ltac:(lia) Hp) as (U1 & U2 & U3). split_and!; [done| |done].
        apply not_elem_of_cons. split; [|done]. apply D5; (done || lia).
      - intros j k Hj Hk. rewrite !Hpde by lia. apply D5; lia. }
    exists s2, f2. split; [done|]. split; [by transitivity s1|]. split_and!; try done.
    + rewrite Hp2, (tablesFrom_ext (kmem s) (kmem s1)) by (done || lia). cbn [app]. symmetry. apply Permutation_middle.
    + intros q a Hq Hqn Ha. rewrite (Ho2 q a) by done. apply Hs1. apply (in_page_disjoint kernelEnd q); [done|done| |done].
      intros ->. apply Hqn. rewrite Hp2. set_solver.
  - rewrite bind_mret. cbn [app]. apply IH; [|lia|lia]. split; try done; [intros j Hj; apply D4; lia|intros j k Hj Hk; apply D5; lia].
Qed.

Lemma frees_only_trans s s1 s2 f1 f2 : frees_only s s1 f1 -> frees_only s1 s2 f2 -> (forall q, q ∈ f1 -> q ∈ f2) -> frees_only s s2 f2.
Proof. intros H1 H2 Hs q a Hq Hn Ha. rewrite (H2 q a) by done. apply (H1 q a); [done| |done]. intros Hin. by apply Hn, Hs. Qed.

Lemma freeMemory_spec pgdir s free : KERNBASE < kernelEnd -> vm_state s pgdir free -> as_ok (kmem s) pgdir free ->
  exists s' free', freeMemoryAndPageTable kernelEnd pgdir s = Ret tt s' /\ touches s s' /\ free_pages s' free' /\ kmem_ready s' /\
    free' ≡ₚ ownedPages (kmem s) pgdir ++ free /\
    (forall q, apart (kmem s) pgdir free q -> q ∉ free' /\ forall a, in_page q a -> kmem s' a = kmem s a).
Proof.
  intros Hend Hvm Has. assert (HK : KERNBASE = 2147483648) by done. pose proof (pt_dir _ _ _ _ (vm_table _ _ _ _ Hvm)) as [Hd Hdn].
  pose proof (page_range kernelEnd pgdir Hd) as Hdr. unfold freeMemoryAndPageTable. rewrite (proj2 (Z.eqb_neq _ _)) by lia.
  unfold releaseUserPages, ownedPages. change (0 >=? KERNBASE) with false. cbv iota. change (PGROUNDUP 0) with 0.
  assert (HN : 4096 * Z.of_nat (Z.to_nat (KERNBASE / 4096)) = KERNBASE) by (rewrite Z2Nat.id by (rewrite HK; zdiv); rewrite HK; reflexivity).
  assert (HF : (Z.to_nat (KERNBASE / 4096) <= Z.to_nat ((KERNBASE - 0) / PGSIZE + 1))%nat) by (apply Z2Nat.inj_le; unfold PGSIZE; rewrite HK; zdiv).
  revert HN HF. generalize (Z.to_nat (KERNBASE / 4096)) (Z.to_nat ((KERNBASE - 0) / PGSIZE + 1)). intros N fuel HN HF.
  destruct (releasePages_spec N fuel pgdir 0 KERNBASE s free) as (s1 & f1 & E1 & [R1 R2 R3 R4 R5]); try done; try lia.
  rewrite bind_assoc, (bind_Ret _ _ _ _ _ E1), bind_mret. pose proof (ss_vm _ _ _ _ _ R1) as Hvm1.
  destruct (freeTables_spec (Z.to_nat NPDENTRIES) pgdir 0 s1 f1) as (s2 & f2 & E2 & Ht2 & Hf2 & Hr2 & Hn2 & Hp2 & Ho2); [|lia|unfold NPDENTRIES; lia|].
  { destruct Hvm1 as [[P1 P2 P3 P4] V2 V3]. split; try done. }
  rewrite (bind_Ret _ _ _ _ _ E2). destruct (free_page_spec pgdir s2 f2 Hf2 Hr2 Hd Hn2) as (s3 & E3 & Hf3 & Hr3 & Ht3 & Hs3).
  exists s3, (pgdir :: f2). split; [done|]. split; [transitivity s1; [apply R1|by transitivity s2]|]. split; [done|]. split; [done|].
  assert (Hperm : pgdir :: f2 ≡ₚ (pgdir :: tablesFrom (kmem s) pgdir 0 (Z.to_nat NPDENTRIES) ++ framesFrom (kmem s) pgdir 0 N) ++ free).
  { cbn [app]. constructor. rewrite Hp2, R2, (tablesFrom_ext (kmem s) (kmem s1)) by (done || (unfold NPDENTRIES; lia)). by rewrite app_assoc. }
  split; [done|]. intros q Hq. destruct (ss_apart _ _ _ _ _ R1 q Hq) as [[Q1 Q2] Q3].
  assert (Hqn : q ∉ pgdir :: f2).
  { apply not_elem_of_cons. split; [apply Q1|]. rewrite Hp2. apply not_elem_of_app. split; [|apply Q1].
    destruct Q1 as (_ & _ & _ & Q1). clear -Q1. assert (Hall : forall n i, 0 <= i -> i + Z.of_nat n <= 1024 -> q ∉ tablesFrom (kmem s1) pgdir i n).
    { induction n as [|n IH]; intros i Hi Hn; cbn [tablesFrom]; [apply not_elem_of_nil|]. apply not_elem_of_app. split; [|apply IH; lia].
      destruct (present (pdeOf (kmem s1) pgdir i)) eqn:Ep; [|apply not_elem_of_nil]. apply not_elem_of_cons. split; [|apply not_elem_of_nil].
      apply not_eq_sym, Q1; [lia|done]. }
    apply Hall; unfold NPDENTRIES; lia. }
  split; [done|]. apply not_elem_of_cons in Hqn as [Hq1 Hq2]. intros a Ha. rewrite Hs3, (Ho2 q a), Q3; try done; [apply Q1|].
  apply (in_page_disjoint kernelEnd q); [apply Q1|done|done|done].
Qed.

(** * The kernel part of a page table *)

(** [n] pages are mapped, given enough free pages for the tables. *)
Lemma map_range s pgdir free va n pa perm : vm_state s pgdir free -> 0 <= va -> va mod 4096 = 0 -> (0 < n)%nat ->
  va + 4096 * Z.of_nat n <= 4294967296 -> 0 <= pa -> pa mod 4096 = 0 -> pa + 4096 * Z.of_nat n <= 4294967296 -> 0 <= perm < 4096 ->
  (forall v, 0 <= v < 4294967296 -> va / 4096 <= v / 4096 < va / 4096 + Z.of_nat n -> present (entry (kmem s) pgdir v) = false) ->
  (va + 4096 * Z.of_nat (n - 1)) / 4194304 - va / 4194304 + 1 <= Z.of_nat (length free) ->
  exists s' free', createPageTableEntries pgdir va (4096 * Z.of_nat n) pa perm s = Ret 0 s' /\ vm_step kernelEnd s pgdir free s' free' /\
    Z.of_nat (length free) <= (va + 4096 * Z.of_nat (n - 1)) / 4194304 - va / 4194304 + 1 + Z.of_nat (length free') /\
    (forall v, 0 <= v < 4294967296 -> entry (kmem s') pgdir v = mapped (kmem s) pgdir va n pa perm v).
Proof.
  intros Hvm H1 H2 H3 H4 H5 H6 H7 H8 Hnone Hlen.
  destruct (createPageTableEntries_spec kernelEnd pgdir va n pa perm s free) as (r & s' & free' & k & E & Hstep & Hr & Hent); try done.
  assert (Hneed : Z.of_nat (needTables (kmem s) pgdir va (n - 1)) <= (va + 4096 * Z.of_nat (n - 1)) / 4194304 - va / 4194304 + 1).
  { unfold needTables, needTable. assert (va / 4194304 <= (va + 4096 * Z.of_nat (n - 1)) / 4194304) by (apply Z.div_le_mono; lia). case_match; lia. }
  destruct Hr as [(-> & -> & Hl)|(_ & _ & _ & Hl)]; [|lia]. exists s', free'. split_and!; try done. lia.
Qed.

(** A fresh directory. *)
Lemma fresh_dir s D free : free_pages s (D :: free) -> kmem_ready s -> mem_bytes (kmem s) ->
  exists s1, allocatePhysicalMemoryPage s = Ret D s1 /\ D <> 0 /\
    let s2 := set_kmem (memset (kmem s1) D 0 PGSIZE) s1 in
    vm_state s2 D free /\ touches s s2 /\ (forall v, entry (kmem s2) D v = 0) /\
    (forall q a, page_ok q -> q ∉ D :: free -> in_page q a -> kmem s2 a = kmem s a).
Proof.
  intros Hfree Hr Hb. destruct (alloc_spec kernelEnd s D free Hfree Hr) as (s1 & E1 & Hf1 & HnD & HD & Es1).
  exists s1. split; [done|]. pose proof (page_range kernelEnd D HD) as HDr. split; [lia|].
  assert (Em1 : kmem s1 = kmem s) by (rewrite Es1; unfold kmem_settled; by destruct (UseLock s =? 0)).
  assert (Ht1 : touches s s1) by (rewrite Es1; apply touches_alloc). cbv zeta.
  assert (Hpde : forall i, 0 <= i < 1024 -> pdeOf (memset (kmem s1) D 0 PGSIZE) D i = 0) by (intros i Hi; by apply (memset_zero kernelEnd)).
  assert (Hsame : forall a, ~ in_page D a -> memset (kmem s1) D 0 PGSIZE a = kmem s1 a).
  { unfold in_page, PGSIZE. intros a Ha. rewrite memset_fill by lia. destruct (Z.leb_spec D a), (Z.ltb_spec a (D + 4096)); cbn [andb]; lia. }
  split_and!.
  - split; cbn [kmem set_kmem].
    + split; [apply (memset_bytes kernelEnd); [by rewrite Em1|done]|done| |]; intros i Hi; intros; by rewrite Hpde in *.
    + destruct Hf1 as (C1 & C2 & C3). split_and!; try done. cbn. apply (freeChain_frame kernelEnd (kmem s1)); try done. intros q a Hq Ha. apply Hsame.
      apply (in_page_disjoint kernelEnd q); [by apply (proj1 (Forall_forall _ _) C2)|done|congruence|done].
    + eapply kmem_ready_touches; [|exact Hr]. transitivity s1; [done|apply touches_kmem].
  - transitivity s1; [done|apply touches_kmem].
  - intros v. unfold entry. cbv zeta. cbn [kmem set_kmem]. by rewrite Hpde by apply PDX_range.
  - intros q a Hq Hn Ha. cbn. rewrite Hsame, Em1; [done|]. apply (in_page_disjoint kernelEnd q); [done|done|set_solver|done].
Qed.

(** A line of [kernelMemoryMap]. *)
Lemma map_line s pgdir free va size pa perm : vm_state s pgdir free -> 0 <= va -> va mod 4096 = 0 -> 0 < size -> size mod 4096 = 0 ->
  va + size <= 4294967296 -> 0 <= pa -> pa mod 4096 = 0 -> pa + size <= 4294967296 -> 0 <= perm < 4096 ->
  (forall v, va <= v < va + size -> entry (kmem s) pgdir v = 0) ->
  (va + size - 4096) / 4194304 - va / 4194304 + 1 <= Z.of_nat (length free) ->
  exists s' free', createPageTableEntries pgdir va size pa perm s = Ret 0 s' /\ vm_step kernelEnd s pgdir free s' free' /\
    Z.of_nat (length free) <= (va + size - 4096) / 4194304 - va / 4194304 + 1 + Z.of_nat (length free') /\
    (forall v, 0 <= v < 4294967296 -> entry (kmem s') pgdir v =
      if decide (va <= v < va + size) then pteWord (pa + 4096 * (v / 4096 - va / 4096)) perm else entry (kmem s) pgdir v).
Proof.
  intros Hvm H1 H2 H3 H4 H5 H6 H7 H8 H9 Hnone Hlen. set (n := Z.to_nat (size / 4096)).
  assert (Hn : size = 4096 * Z.of_nat n) by (unfold n; zdiv). assert (Hn0 : (0 < n)%nat) by lia. rewrite Hn in *. clearbody n.
  replace (va + 4096 * Z.of_nat n - 4096) with (va + 4096 * Z.of_nat (n - 1)) in * by lia.
  destruct (map_range s pgdir free va n pa perm) as (s' & free' & E & Hstep & Hl & Hent); try done.
  { intros v Hv Hin. rewrite Hnone by zdiv. done. }
  exists s', free'. split_and!; try done. intros v Hv. rewrite Hent by done. unfold mapped.
  case_decide as D; case_decide as D2; try done; zdiv.
Qed.

(** The entries of [kernelMemoryMap]. *)
Definition kernelEntry (data v : Z) : Z :=
  if decide (KERNBASE <= v < KERNLINK) then pteWord (4096 * (v / 4096) - KERNBASE) PTE_W
  else if decide (KERNLINK <= v < data) then pteWord (4096 * (v / 4096) - KERNBASE) 0
  else if decide (data <= v < KERNBASE + PHYSTOP) then pteWord (4096 * (v / 4096) - KERNBASE) PTE_W
  else if decide (DEVSPACE <= v < 4294967296) then pteWord (4096 * (v / 4096)) PTE_W
  else 0.

(** Where the linker puts the kernel's data. *)
Definition data_ok (data : Z) : Prop := KERNLINK < data < KERNBASE + PHYSTOP /\ data mod 4096 = 0.

Lemma mapKernel_spec data D s free : data_ok data -> vm_state s D free -> (forall v, entry (kmem s) D v = 0) -> (66 <= length free)%nat ->
  exists s' free', mapKernel kernelEnd D (kernelMemoryMap data) s = Ret D s' /\ vm_step kernelEnd s D free s' free' /\
    (length free <= 66 + length free')%nat /\ (forall v, 0 <= v < 4294967296 -> entry (kmem s') D v = kernelEntry data v).
Proof.
  intros [Hdr Hdm] Hvm Hz Hlen. unfold kernelMemoryMap, mapKernel, V2P.
  unfold KERNLINK, EXTMEM, DEVSPACE, PTE_W, kernelEntry, KERNBASE, PHYSTOP in *. unfold KERNLINK, DEVSPACE, PTE_W, KERNBASE, EXTMEM.
  rewrite (u32_small (1048576 - 0)), (u32_small (2147483648 + 1048576 - 2147483648)), (u32_small (data - 2147483648)) by lia.
  rewrite (u32_small (data - 2147483648 - _)), (u32_small (234881024 - (data - 2147483648))) by lia. change (u32 (0 - 4261412864)) with 33554432.
  destruct (map_line s D free 2147483648 (1048576 - 0) 0 2) as (s1 & f1 & E1 & St1 & L1 & N1); try done; try lia; [zdiv|].
  rewrite (bind_Ret _ _ _ _ _ E1). change (0 <? 0) with false. cbv iota.
  destruct (map_line s1 D f1 (2147483648 + 1048576) (data - 2147483648 - (2147483648 + 1048576 - 2147483648)) (2147483648 + 1048576 - 2147483648) 0)
    as (s2 & f2 & E2 & St2 & L2 & N2); try done; try lia; [apply St1|zdiv| |zdiv|].
  { intros v Hv. rewrite N1, decide_False by lia. done. }
  rewrite (bind_Ret _ _ _ _ _ E2). change (0 <? 0) with false. cbv iota.
  destruct (map_line s2 D f2 data (234881024 - (data - 2147483648)) (data - 2147483648) 2) as (s3 & f3 & E3 & St3 & L3 & N3); try done; try lia;
    [apply St2|zdiv|zdiv| |zdiv|].
  { intros v Hv. rewrite N2, decide_False, N1, decide_False by lia. done. }
  rewrite (bind_Ret _ _ _ _ _ E3). change (0 <? 0) with false. cbv iota.
  destruct (map_line s3 D f3 4261412864 33554432 4261412864 2) as (s4 & f4 & E4 & St4 & L4 & N4); try done; try lia; [apply St3| |zdiv|].
  { intros v Hv. rewrite N3, decide_False, N2, decide_False, N1, decide_False by lia. done. }
  rewrite (bind_Ret _ _ _ _ _ E4). change (0 <? 0) with false. cbv iota.
  exists s4, f4. split; [done|]. split; [do 3 (eapply vm_step_trans; [done|]); done|]. split; [zdiv|].
  intros v Hv. rewrite N4, N3, N2, N1, Hz by done.
  repeat case_decide; try lia; try done; f_equal; zdiv.
Qed.

(** A new page table: the kernel's part filled in, the user's part empty. *)
Lemma kernel_none data v : data_ok data -> 0 <= v < KERNBASE -> kernelEntry data v = 0.
Proof.
  intros [Hd _] Hv. unfold kernelEntry. by rewrite !decide_False by (unfold KERNLINK, EXTMEM, DEVSPACE, KERNBASE in *; lia).
Qed.

Lemma setup_spec data s D free : data_ok data -> free_pages s (D :: free) -> kmem_ready s -> mem_bytes (kmem s) -> (66 <= length free)%nat ->
  exists s' free', setupKernelVirtualMemory kernelEnd data s = Ret D s' /\ D <> 0 /\ vm_state s' D free' /\ as_ok (kmem s') D free' /\ touches s s' /\
    (length free <= 66 + length free')%nat /\ (exists used, free = used ++ free') /\
    (forall v, 0 <= v < 4294967296 -> entry (kmem s') D v = kernelEntry data v) /\
    (forall q, page_ok q -> q ∉ D :: free -> outside (kmem s') D free' q /\ forall a, in_page q a -> kmem s' a = kmem s a).
Proof.
  intros Hd Hfree Hr Hb Hlen. destruct (fresh_dir s D free Hfree Hr Hb) as (s1 & E1 & HD0 & Hvm2 & Ht2 & Hz2 & Hsame2). cbv zeta in *.
  set (s2 := set_kmem _ s1) in *. destruct (mapKernel_spec data D s2 free Hd Hvm2 Hz2 Hlen) as (s3 & f3 & E3 & St3 & L3 & N3).
  exists s3, f3. unfold setupKernelVirtualMemory. rewrite (bind_Ret _ _ _ _ _ E1), (proj2 (Z.eqb_neq _ _) HD0), bind_puts. fold s2.
  change (P2V PHYSTOP >? DEVSPACE) with false. cbv iota. split; [done|]. split; [done|]. split; [apply St3|].
  assert (Hnone : forall v, 0 <= v < KERNBASE -> present (entry (kmem s3) D v) = false).
  { intros v Hv. rewrite N3, kernel_none by (done || (unfold KERNBASE in Hv; lia)). done. }
  split_and!; try done.
  - split; intros v; intros; by rewrite Hnone in *.
  - transitivity s2; [done|apply St3].
  - apply St3.
  - intros q Hq Hn. destruct (step_outside _ _ _ _ _ _ St3 q) as [Q1 Q2].
    + split_and!; [done|set_solver|set_solver|]. intros i Hi Hp. exfalso.
      assert (Hzi : pdeOf (kmem s2) D i = 0) by (cbn; apply (memset_zero kernelEnd); [apply (vm_table _ _ _ _ Hvm2)|done]). by rewrite Hzi in Hp.
    + split; [done|]. intros a Ha. rewrite Q2, (Hsame2 q a); done.
Qed.

(** * Copying an address space *)

(** The address space [old] next to the new one [D]. *)
Record twin (s : KState) (old D : Z) (free : list Z) : Prop := {
  tw_vm : vm_state s D free;
  tw_as : as_ok (kmem s) D free;
  tw_old : vm_state s old free;
  tw_oldas : as_ok (kmem s) old free;
  tw_apart : apartSpace (kmem s) D free old
}.

Lemma twin_step s old D free s' free' : twin s old D free -> space_step s D free s' free' -> twin s' old D free'.
Proof.
  intros [T1 T2 T3 T4 T5] Hst. destruct (apart_kept _ _ _ _ _ _ Hst T5) as (A1 & A2 & A3 & A4). assert (HK : KERNBASE = 2147483648) by done.
  pose proof (vm_table _ _ _ _ T3) as Hok. split; [apply Hst|apply Hst| | |done].
  - split; [|apply Hst|apply Hst]. split.
    + apply (pt_bytes _ _ _ _ (vm_table _ _ _ _ (ss_vm _ _ _ _ _ Hst))).
    + split; [apply Hok|]. apply (ap_dir _ _ _ _ A1).
    + intros i Hi Hp. pose proof (ap_table _ _ _ _ A1 i Hi Hp) as [(_ & Hn & _) _]. rewrite A2 in * by done.
      destruct (pt_table _ _ _ _ Hok i Hi Hp) as (P1 & P2 & P3). done.
    + intros i j Hi Hj. rewrite !A2 by done. by apply (pt_distinct _ _ _ _ Hok).
  - split.
    + intros v Hv Hp. pose proof (ap_frame _ _ _ _ A1 v Hv Hp) as [(_ & Hn & _) _]. unfold frameOf in *. rewrite A3 in * by lia.
      destruct (as_frame _ _ _ _ T4 v Hv Hp) as (F1 & F2 & F3 & F4). split_and!; try done. intros i Hi. rewrite A2 by done. by apply F4.
    + intros v v' Hv Hv'. unfold frameOf. rewrite !A3 by lia. by apply (as_inj _ _ _ _ T4).
Qed.

(** What copying the [n] pages from [i] on leaves. *)
Record copiedPages (s : KState) (old D i : Z) (n : nat) (free : list Z) (s' : KState) (free' : list Z) : Prop := {
  cp_twin : twin s' old D free';
  cp_step : space_step s D free s' free';
  cp_bytes v : 0 <= v < KERNBASE -> userByte (kmem s') D v =
    if decide (i / 4096 <= v / 4096 < i / 4096 + Z.of_nat n) then userByte (kmem s) old v else userByte (kmem s) D v;
  cp_flags v : 0 <= v < KERNBASE -> i / 4096 <= v / 4096 < i / 4096 + Z.of_nat n ->
    PTE_FLAGS (entry (kmem s') D v) = PTE_FLAGS (entry (kmem s) old v);
  cp_other v : 0 <= v < 4294967296 -> ~ (i / 4096 <= v / 4096 < i / 4096 + Z.of_nat n) -> entry (kmem s') D v = entry (kmem s) D v;
  cp_free : (length free <= 2 * n + length free')%nat
}.

Lemma lor_present e : present e = true -> 0 <= e -> Z.lor (PTE_FLAGS e) PTE_P = PTE_FLAGS e.
Proof.
  intros Hp He. rewrite present_eq in Hp. apply Z.bits_inj'. intros k Hk. rewrite Z.lor_spec. unfold PTE_P. destruct (decide (k = 0)) as [->|Hne].
  - unfold PTE_FLAGS. rewrite Z.land_spec, !Z.bit0_odd, Hp. done.
  - replace (Z.testbit 1 k) with false; [apply orb_false_r|]. symmetry. apply Z.bits_above_log2; [lia|]. cbn. lia.
Qed.

(** One page: a frame of its own with the bytes of the old one. *)
Lemma copy_page s old D T free i : twin s old D (T :: free) -> free <> [] -> 0 <= i -> i mod 4096 = 0 -> i + 4096 <= KERNBASE ->
  present (entry (kmem s) old i) = true -> present (entry (kmem s) D i) = false ->
  exists s1 s3 free3, allocatePhysicalMemoryPage s = Ret T s1 /\ T <> 0 /\
    createPageTableEntries D i PGSIZE (V2P T) (PTE_FLAGS (entry (kmem s) old i))
      (set_kmem (memmove (kmem s1) T (P2V (PTE_ADDR (entry (kmem s) old i))) PGSIZE) s1) = Ret 0 s3 /\
    copiedPages s old D i 1 (T :: free) s3 free3.
Proof.
  intros Htw Hne Hi Him Hik Hpo Hpd. pose proof Htw as [T1 T2 T3 T4 T5]. assert (HK : KERNBASE = 2147483648) by done.
  destruct (filled_page kernelEnd s D T free T1) as (s1 & E1 & HT0 & HT & Em1 & Hfill). exists s1. pose proof (page_range kernelEnd T HT) as HTr.
  fold (frameOf (kmem s) old i). set (F := frameOf (kmem s) old i). assert (HF : page_ok F) by (apply (as_frame _ _ _ _ T4); [lia|done]).
  pose proof (page_range kernelEnd F HF) as HFr. set (m' := memmove (kmem s1) T F PGSIZE).
  assert (Hm' : forall a, m' a = if (T <=? a) && (a <? T + 4096) then kmem s (F + (a - T)) else kmem s a).
  { intros a. unfold m'. rewrite Em1. unfold PGSIZE. apply memmove_block; lia. }
  pose proof (pt_bytes _ _ _ _ (vm_table _ _ _ _ T1)) as Hb.
  destruct (Hfill m') as (Hst2 & Hout2 & Hent2).
  { intros a. rewrite Hm'. case_match; apply Hb. }
  { unfold in_page, PGSIZE. intros a Ha. rewrite Hm'. destruct (Z.leb_spec T a), (Z.ltb_spec a (T + 4096)); cbn [andb]; lia. }
  cbv zeta in *. set (s2 := set_kmem m' s1) in *. destruct (as_step kernelEnd _ _ _ _ _ Hst2 T2 Hent2) as [Has2 Hub2].
  set (e := entry (kmem s) old i) in *.
  assert (Hflags : 0 <= PTE_FLAGS e < 4096) by (rewrite PTE_FLAGS_eq; zdiv).
  assert (He : 0 <= e).
  { unfold e, entry. cbv zeta. case_match; [apply load32_range, Hb|lia]. }
  destruct (map_frame kernelEnd s2 D free T i (PTE_FLAGS e) (step_state _ _ _ _ _ _ Hst2) Has2 Hout2) as (s3 & f3 & E3 & Hst3 & L3 & Has3 & Hent3 & Hub3); try done.
  { intros v Hv. unfold frameOf. rewrite Hent2 by lia. by apply (frame_not_free kernelEnd s D T free). }
  { rewrite Hent2 by lia. done. }
  exists s3, f3. split; [done|]. split; [done|]. split; [done|].
  assert (Hss : space_step s D (T :: free) s3 f3).
  { apply space_step_vm; [by eapply vm_step_trans|done|]. intros v Hv. unfold frameOf. rewrite Hent3 by lia. case_decide.
    - intros _. right. destruct (frame_word kernelEnd T (PTE_FLAGS e) HT Hflags) as (_ & _ & _ & _ & ->). set_solver.
    - intros Hp. left. rewrite Hent2 in * by lia. done. }
  split; [by eapply twin_step|done| | | |].
  - intros v Hv. rewrite Hub3 by done. destruct (decide (v / 4096 = i / 4096)) as [D1|D1].
    + rewrite decide_True by lia. unfold userByte. rewrite (entry_page (kmem s) old v i) by lia. fold e. rewrite Hpo. f_equal.
      unfold frameOf. rewrite (entry_page (kmem s) old v i) by lia. fold (frameOf (kmem s) old i). fold F. cbn [kmem s2 set_kmem]. rewrite Hm'.
      rewrite (proj2 (Z.leb_le _ _)), (proj2 (Z.ltb_lt _ _)) by zdiv. cbn [andb]. f_equal. lia.
    + rewrite decide_False by lia. by apply Hub2.
  - intros v Hv Hin. rewrite Hent3 by lia. rewrite decide_True by lia. rewrite (entry_page (kmem s) old v i) by lia. fold e.
    destruct (frame_word kernelEnd T (PTE_FLAGS e) HT Hflags) as (_ & HV & _).
    destruct (pteWord_decode (V2P T) (PTE_FLAGS e) HV Hflags) as (_ & _ & ->). by apply lor_present.
  - intros v Hv Hn. rewrite Hent3, decide_False, Hent2 by lia. done.
  - cbn [length]. lia.
Qed.

Lemma copyPages_spec n : forall fuel old D i size s free, twin s old D free -> (n <= fuel)%nat -> (2 * n <= length free)%nat ->
  0 <= i -> i mod 4096 = 0 -> size <= i + 4096 * Z.of_nat n -> (n = 0%nat \/ i + 4096 * Z.of_nat n < size + 4096) -> size < KERNBASE ->
  (forall v, 0 <= v < KERNBASE -> i / 4096 <= v / 4096 < i / 4096 + Z.of_nat n ->
    present (entry (kmem s) old v) = true /\ present (entry (kmem s) D v) = false) ->
  exists s' free', copyPages kernelEnd fuel old D i size s = Ret D s' /\ copiedPages s old D i n free s' free'.
Proof.
  induction n as [|n IH]; intros fuel old D i size s free Htw Hfuel Hlen Hi Him Hlo Hhi Hk Hpg; assert (HK : KERNBASE = 2147483648) by done.
  - exists s, free. split; [destruct fuel; cbn [copyPages]; rewrite (proj2 (Z.ltb_ge _ _)) by lia; done|].
    split; try done; try lia; [apply space_step_refl; apply Htw|]. intros v Hv. by rewrite decide_False by lia.
  - destruct fuel as [|fuel]; [lia|]. destruct free as [|T free]; [cbn in Hlen; lia|]. destruct Hhi as [|Hhi]; [done|]. cbn [copyPages length] in *.
    rewrite (proj2 (Z.ltb_lt _ _)) by lia. cbn [negb]. assert (Hik : i + 4096 <= KERNBASE) by zdiv.
    destruct (Hpg i ltac:(lia) ltac:(lia)) as [Hpo Hpd]. pose proof (tw_old _ _ _ _ Htw) as Hvo. pose proof (vm_table _ _ _ _ Hvo) as Hok.
    destruct (present (pdeOf (kmem s) old (PDX i))) eqn:Ep.
    2: { exfalso. unfold entry in Hpo. cbv zeta in Hpo. by rewrite Ep in Hpo. }
    rewrite (bind_Ret _ _ _ _ _ (get_present kernelEnd s old _ i false Hok Ep)).
    destruct (pt_table _ _ _ _ Hok _ (PDX_range i) Ep) as (Htab & _). pose proof (PTX_range i). apply page_range in Htab as Htr.
    rewrite (proj2 (Z.eqb_neq _ 0)), bind_readWord by lia.
    assert (Ee : load32 (kmem s) (tableOf (pdeOf (kmem s) old (PDX i)) + 4 * PTX i) = entry (kmem s) old i) by (unfold entry; cbv zeta; by rewrite Ep).
    rewrite Ee, Hpo. cbn [negb].
    destruct (copy_page s old D T free i Htw) as (s1 & s3 & f3 & E1 & HT0 & E3 & [C1 C2 C3 C4 C5 C6]); try done.
    { intros ->. cbn in Hlen. lia. }
    rewrite (bind_Ret _ _ _ _ _ E1), (proj2 (Z.eqb_neq _ _) HT0), bind_puts, (bind_Ret _ _ _ _ _ E3). change (0 <? 0) with false. cbv iota.
    unfold PGSIZE. rewrite (u32_small (i + 4096)) by lia. assert (Hd : (i + 4096) / 4096 = i / 4096 + 1) by zdiv. cbn [length] in C6.
    destruct (apart_kept _ _ _ _ _ _ C2 (tw_apart _ _ _ _ Htw)) as (_ & _ & A3 & A4).
    destruct (IH fuel old D (i + 4096) size s3 f3) as (s4 & f4 & E4 & [B1 B2 B3 B4 B5 B6]); try done; try lia; try (by destruct n; [left|right; lia]); try zdiv.
    { intros v Hv Hin. rewrite Hd in Hin. rewrite A3 by lia. rewrite C5 by lia. apply Hpg; lia. }
    rewrite Hd in *. exists s4, f4. split; [done|]. split; [done|by eapply space_step_trans| | | |cbn [length]; lia].
    + intros v Hv. rewrite B3, A4, C3 by done. repeat case_decide; (done || lia).
    + intros v Hv Hin. destruct (decide (v / 4096 = i / 4096)) as [D1|D1].
      * rewrite B5 by lia. apply C4; lia.
      * rewrite B4, A3 by lia. done.
    + intros v Hv Hn. rewrite B5, C5 by lia. done.
Qed.

(** A fresh kernel page table beside an address space that exists already. *)
Lemma setup_twin data old s D free : data_ok data -> vm_state s old (D :: free) -> as_ok (kmem s) old (D :: free) -> (66 <= length free)%nat ->
  exists s1 f1, setupKernelVirtualMemory kernelEnd data s = Ret D s1 /\ D <> 0 /\ touches s s1 /\ twin s1 old D f1 /\
    (length free <= 66 + length f1)%nat /\
    (forall i, 0 <= i < 1024 -> pdeOf (kmem s1) old i = pdeOf (kmem s) old i) /\
    (forall v, 0 <= v < 4294967296 -> entry (kmem s1) old v = entry (kmem s) old v) /\
    (forall v, 0 <= v < KERNBASE -> userByte (kmem s1) old v = userByte (kmem s) old v) /\
    (forall v, 0 <= v < 4294967296 -> entry (kmem s1) D v = kernelEntry data v) /\
    (forall q, page_ok q -> q ∉ D :: free -> apart (kmem s1) D f1 q /\ forall a, in_page q a -> kmem s1 a = kmem s a).
Proof.
  intros Hd Hvm Has Hlen. assert (HK : KERNBASE = 2147483648) by done. pose proof Hvm as [Hok Hfree Hr].
  destruct (setup_spec data s D free Hd Hfree Hr (pt_bytes _ _ _ _ Hok) Hlen) as (s1 & f1 & E1 & HD0 & Hvm1 & Has1 & Ht1 & L1 & [used Hused] & N1 & Hq1).
  exists s1, f1. assert (Hnone : forall v, 0 <= v < KERNBASE -> kernelEntry data v = 0) by (intros v; by apply kernel_none).
  assert (Hap : forall q, page_ok q -> q ∉ D :: free -> apart (kmem s1) D f1 q /\ forall a, in_page q a -> kmem s1 a = kmem s a).
  { intros q Hq Hn. destruct (Hq1 q Hq Hn) as [Q1 Q2]. split; [split; [done|]|done]. intros v Hv. by rewrite N1, Hnone by lia. }
  destruct (pt_dir _ _ _ _ Hok) as [Ho Hon].
  assert (Hpde : forall i, 0 <= i < 1024 -> pdeOf (kmem s1) old i = pdeOf (kmem s) old i).
  { intros i Hi. apply page_word; [done|done|]. by apply Hap. }
  assert (Hent : forall v, 0 <= v < 4294967296 -> entry (kmem s1) old v = entry (kmem s) old v).
  { intros v Hv. unfold entry. cbv zeta. pose proof (PDX_range v). rewrite Hpde by done. destruct (present _) eqn:Ep; [|done].
    destruct (pt_table _ _ _ _ Hok _ (PDX_range v) Ep) as (P1 & P2 & _). apply page_word; [done|apply PTX_range|]. by apply Hap. }
  split_and!; try done.
  - split; [done|done| | |].
    + split; [split|apply Hvm1|apply Hvm1].
      * apply (pt_bytes _ _ _ _ (vm_table _ _ _ _ Hvm1)).
      * split; [done|]. subst free. set_solver.
      * intros i Hi. rewrite Hpde by done. intros Hp. destruct (pt_table _ _ _ _ Hok i Hi Hp) as (P1 & P2 & P3). split_and!; [done|subst free; set_solver|done].
      * intros i j Hi Hj. rewrite !Hpde by done. by apply (pt_distinct _ _ _ _ Hok).
    + split.
      * intros v Hv. unfold frameOf. rewrite Hent by lia. intros Hp. destruct (as_frame _ _ _ _ Has v Hv Hp) as (F1 & F2 & F3 & F4).
        split_and!; [done|subst free; set_solver|done|]. intros i Hi. rewrite Hpde by done. by apply F4.
      * intros v v' Hv Hv'. unfold frameOf. rewrite !Hent by lia. by apply (as_inj _ _ _ _ Has).
    + split.
      * by apply Hap.
      * intros i Hi. rewrite Hpde by done. intros Hp. destruct (pt_table _ _ _ _ Hok i Hi Hp) as (P1 & P2 & P3). by apply Hap.
      * intros v Hv. unfold frameOf. rewrite Hent by lia. intros Hp. destruct (as_frame _ _ _ _ Has v Hv Hp) as (F1 & F2 & F3 & F4). by apply Hap.
  - intros v Hv. unfold userByte, frameOf. rewrite Hent by lia. destruct (present _) eqn:Ep; [|done]. f_equal.
    destruct (as_frame _ _ _ _ Has v Hv Ep) as (F1 & F2 & _). apply (Hap (frameOf (kmem s) old v)); [done|done|apply in_frame].
Qed.

(** The copy of a process: its own pages with the parent's bytes. *)
Lemma copyProcess_spec data old size s D free : data_ok data -> vm_state s old (D :: free) -> as_ok (kmem s) old (D :: free) -> 0 <= size < KERNBASE - 4096 ->
  (forall v, 0 <= v < PGROUNDUP size -> present (entry (kmem s) old v) = true) -> (66 + 2 * newPages 0 size <= length free)%nat ->
  exists s' free', copyProcessPageTable kernelEnd data old size s = Ret D s' /\ D <> 0 /\ touches s s' /\ twin s' old D free' /\
    (forall q, apart (kmem s) old (D :: free) q -> apart (kmem s') old free' q) /\
    (forall v, 0 <= v < KERNBASE -> userByte (kmem s') old v = userByte (kmem s) old v) /\
    (forall v, 0 <= v < KERNBASE -> userByte (kmem s') D v = if decide (v < PGROUNDUP size) then userByte (kmem s) old v else None) /\
    (forall v, 0 <= v < PGROUNDUP size -> PTE_FLAGS (entry (kmem s') D v) = PTE_FLAGS (entry (kmem s) old v)) /\
    (forall v, KERNBASE <= v < 4294967296 -> entry (kmem s') D v = kernelEntry data v) /\
    (forall q, page_ok q -> q ∉ D :: free -> apart (kmem s') D free' q /\ forall a, in_page q a -> kmem s' a = kmem s a) /\
    (length free <= 66 + 2 * newPages 0 size + length free')%nat.
Proof.
  intros Hd Hvm Has Hsz Hpres Hlen. assert (HK : KERNBASE = 2147483648) by done.
  destruct (setup_twin data old s D free Hd Hvm Has ltac:(lia)) as (s1 & f1 & E1 & HD0 & Ht1 & Htw & L1 & Hpde & Hent & Hub & N1 & Hap).
  destruct (pages_between 0 size ltac:(lia) ltac:(lia)) as (Hn & Hin & _ & _ & Hnb). change (PGROUNDUP 0) with 0 in *. change (0 / 4096) with 0 in *.
  assert (Hfuel : (newPages 0 size <= Z.to_nat (size / PGSIZE + 1))%nat).
  { unfold newPages. change (PGROUNDUP 0) with 0. apply Z2Nat.inj_le; unfold PGSIZE; zdiv. }
  unfold copyProcessPageTable. rewrite (bind_Ret _ _ _ _ _ E1), (proj2 (Z.eqb_neq _ _) HD0).
  revert Hn Hin Hfuel Hlen. generalize (newPages 0 size) (Z.to_nat (size / PGSIZE + 1)). intros n fuel Hn Hin Hfuel Hlen.
  destruct (copyPages_spec n fuel old D 0 size s1 f1) as (s2 & f2 & E2 & [C1 C2 C3 C4 C5 C6]); try done; try lia.
  { intros v Hv Hi. apply Hin in Hi. rewrite Hent, N1, (kernel_none data v Hd) by lia. split; [apply Hpres; lia|done]. }
  exists s2, f2. destruct (apart_kept _ _ _ _ _ _ C2 (tw_apart _ _ _ _ Htw)) as (_ & A2 & A3 & A4). change (0 / 4096) with 0 in *.
  split_and!; try done.
  - transitivity s1; [done|apply C2].
  - intros q [(Q1 & Q2 & Q3 & Q4) Q5]. destruct (ss_apart _ _ _ _ _ C2 q ltac:(by apply Hap)) as [[(_ & Q6 & _) _] _].
    split; [split_and!; try done|].
    + intros i Hi. rewrite A2, Hpde by done. by apply Q4.
    + intros v Hv. unfold frameOf. rewrite A3, Hent by lia. by apply Q5.
  - intros v Hv. rewrite A4 by done. by apply Hub.
  - intros v Hv. rewrite C3, Hub by done. destruct (decide (v < PGROUNDUP size)).
    + rewrite decide_True; [done|]. apply Hin. lia.
    + rewrite decide_False by (rewrite Hin; lia). unfold userByte. rewrite N1, (kernel_none data v Hd) by lia. done.
  - intros v Hv. rewrite C4, Hent; [done|lia|lia|]. by apply Hin.
  - intros v Hv. rewrite C5, N1; [done|lia|lia|]. rewrite Hin. lia.
  - intros q Hq Hqn. destruct (Hap q Hq Hqn) as [Q1 Q2]. destruct (ss_apart _ _ _ _ _ C2 q Q1) as [Q3 Q4]. split; [done|]. intros a Ha. by rewrite Q4, Q2.
  - lia.
Qed.

(** ** Bytes of an address space *)

(** A block inside one page of the process is written. *)
Lemma bytes_step s pgdir free va n g m' : vm_state s pgdir free -> as_ok (kmem s) pgdir free ->
  0 <= va -> 0 < n -> va mod 4096 + n <= 4096 -> va + n <= KERNBASE -> present (entry (kmem s) pgdir va) = true ->
  blockWritten (kmem s) m' (frameOf (kmem s) pgdir va + va mod 4096) n g -> mem_bytes m' ->
  space_step s pgdir free (set_kmem m' s) free /\
  (forall v, 0 <= v < KERNBASE -> userByte m' pgdir v = if decide (va <= v < va + n) then Some (g (v - va)) else userByte (kmem s) pgdir v) /\
  (forall v, 0 <= v < 4294967296 -> entry m' pgdir v = entry (kmem s) pgdir v).
Proof.
  intros Hs Has Hva Hn Hfit Hk Hp Hm' Hb. assert (HK : KERNBASE = 2147483648) by done.
  destruct (write_block kernelEnd s pgdir free va n g m') as (H1 & H2 & H3 & H4 & H5 & H6); try done.
  split_and!; try done. split; try done; [apply touches_kmem|]. intros q [Hout Hq]. split; [split|].
  - apply (outside_pde kernelEnd (kmem s)); done.
  - intros v Hv. unfold frameOf. cbn. rewrite H4 by lia. by apply Hq.
  - intros a Ha. apply H6. apply (in_page_disjoint kernelEnd q); [apply Hout|apply (as_frame _ _ _ _ Has); [lia|done]| |done].
    apply not_eq_sym, Hq; [lia|done].
Qed.

(** ** A page beside an address space *)

(** The first free page is taken from the list. *)
Lemma take_page s pgdir T free s1 : vm_state s pgdir (T :: free) -> as_ok (kmem s) pgdir (T :: free) ->
  kmem s1 = kmem s -> free_pages s1 free -> kmem_ready s1 ->
  vm_state s1 pgdir free /\ as_ok (kmem s1) pgdir free /\ apart (kmem s1) pgdir free T.
Proof.
  intros [Hok (Hc & Hpg & Hnd) Hr] [Hf Hinj] Em Hf1 Hr1. rewrite Em. apply NoDup_cons in Hnd as [HnT _]. apply Forall_cons in Hpg as [HT _].
  destruct Hok as [P1 [P2 P2'] P3 P4]. split_and!.
  - split; [|done|done]. rewrite Em. split; [done|split; [done|set_solver]| |done].
    intros i Hi Hp. destruct (P3 i Hi Hp) as (A1 & A2 & A3). split_and!; [done|set_solver|done].
  - split; [|done]. intros v Hv Hp. destruct (Hf v Hv Hp) as (A1 & A2 & A3). split_and!; [done|set_solver|apply A3..].
  - split; [split_and!; [done|done|set_solver|]|].
    + intros i Hi Hp E. destruct (P3 i Hi Hp) as (A1 & A2 & A3). set_solver.
    + intros v Hv Hp E. destruct (Hf v Hv Hp) as (A1 & A2 & A3). set_solver.
Qed.

(** A page apart from an address space is written. *)
Lemma write_apart s s' pgdir free T : vm_state s pgdir free -> as_ok (kmem s) pgdir free -> apart (kmem s) pgdir free T ->
  mem_bytes (kmem s') -> (forall a, ~ in_page T a -> kmem s' a = kmem s a) -> FreeList s' = FreeList s -> kmem_ready s' ->
  vm_state s' pgdir free /\ as_ok (kmem s') pgdir free /\
  (forall q, apart (kmem s) pgdir free q -> apart (kmem s') pgdir free q) /\
  (forall v, 0 <= v < 4294967296 -> entry (kmem s') pgdir v = entry (kmem s) pgdir v) /\
  (forall v, 0 <= v < KERNBASE -> userByte (kmem s') pgdir v = userByte (kmem s) pgdir v).
Proof.
  intros Hvm [Hf Hinj] [HT HTf] Hb Hsame EF Hr'. assert (HK : KERNBASE = 2147483648) by done.
  destruct (write_outside kernelEnd s pgdir free T (kmem s') Hvm HT Hb Hsame) as ([V1 V2 V3] & Hpde & Hent).
  assert (Hout : forall q, outside (kmem s) pgdir free q -> outside (kmem s') pgdir free q).
  { intros q (A1 & A2 & A3 & A4). split_and!; try done. intros i Hi. rewrite Hpde by done. by apply A4. }
  split_and!.
  - split; [done| |done]. destruct V2 as [C1 C2]. split; [|done]. rewrite EF. exact C1.
  - split; [intros v Hv|intros v v' Hv Hv']; unfold frameOf; rewrite !Hent by lia; [intros Hp; by apply Hout, Hf|by apply Hinj].
  - intros q [Q1 Q2]. split; [by apply Hout|]. intros v Hv. unfold frameOf. rewrite Hent by lia. by apply Q2.
  - done.
  - intros v Hv. unfold userByte, frameOf. rewrite Hent by lia. destruct (present _) eqn:Ep; [|done]. f_equal. apply Hsame.
    apply (pages_disjoint kernelEnd (frameOf (kmem s) pgdir v) T); [apply (Hf v Hv Ep)|apply HT|by apply HTf|apply in_frame].
Qed.

(** * Claims *)

(** [setupKernelVirtualMemory] builds the kernel's map: with 66 free pages
    beside the one that becomes the directory, every entry of the four gigabytes
    is the one [kernelMemoryMap] describes, nothing is mapped below KERNBASE,
    and no page that was in use is written. *)
Theorem setupKernelVirtualMemory_maps data s D free :
  data_ok data -> free_pages s (D :: free) -> kmem_ready s -> mem_bytes (kmem s) -> (66 <= length free)%nat ->
  exists s' free', setupKernelVirtualMemory kernelEnd data s = Ret D s' /\ vm_state s' D free' /\
    (length free <= 66 + length free')%nat /\
    (forall v, 0 <= v < 4294967296 -> entry (kmem s') D v = kernelEntry data v) /\
    (forall v, 0 <= v < KERNBASE -> userByte (kmem s') D v = None) /\
    (forall q a, page_ok q -> q ∉ D :: free -> in_page q a -> kmem s' a = kmem s a).
Proof.
  intros Hd Hfree Hr Hb Hlen. destruct (setup_spec data s D free Hd Hfree Hr Hb Hlen) as (s' & f' & E & _ & Hvm & _ & _ & L & _ & N & Hq).
  exists s', f'. split_and!; try done.
  - intros v Hv. assert (HK : KERNBASE = 2147483648) by done. unfold userByte. rewrite N, kernel_none by (done || lia). done.
  - intros q a Hq1 Hq2. by apply Hq.
Qed.

(** C14. [copyProcessPageTable] duplicates an address space: with enough free
    pages the child's page table holds the parent's bytes with the parent's
    protection below the rounded size, nothing above it, and the kernel's map;
    the parent's memory is unchanged, and no frame of the child is a frame of
    the parent, so that neither can see the other's later writes. *)
Theorem copyProcessPageTable_isolates data old size s D free :
  data_ok data -> vm_state s old (D :: free) -> as_ok (kmem s) old (D :: free) -> 0 <= size < KERNBASE - 4096 ->
  (forall v, 0 <= v < PGROUNDUP size -> present (entry (kmem s) old v) = true) -> (66 + 2 * newPages 0 size <= length free)%nat ->
  exists s' free', copyProcessPageTable kernelEnd data old size s = Ret D s' /\
    vm_state s' D free' /\ as_ok (kmem s') D free' /\ vm_state s' old free' /\ as_ok (kmem s') old free' /\
    (forall v, 0 <= v < KERNBASE -> userByte (kmem s') old v = userByte (kmem s) old v) /\
    (forall v, 0 <= v < KERNBASE -> userByte (kmem s') D v = if decide (v < PGROUNDUP size) then userByte (kmem s) old v else None) /\
    (forall v, 0 <= v < PGROUNDUP size -> PTE_FLAGS (entry (kmem s') D v) = PTE_FLAGS (entry (kmem s) old v)) /\
    (forall v, KERNBASE <= v < 4294967296 -> entry (kmem s') D v = kernelEntry data v) /\
    (forall v w, 0 <= v < KERNBASE -> 0 <= w < KERNBASE -> present (entry (kmem s') D v) = true -> present (entry (kmem s') old w) = true ->
      frameOf (kmem s') D v <> frameOf (kmem s') old w).
Proof.
  intros Hd Hvm Has Hsz Hpres Hlen.
  destruct (copyProcess_spec data old size s D free Hd Hvm Has Hsz Hpres Hlen) as (s' & f' & E & _ & _ & [T1 T2 T3 T4 T5] & _ & C1 & C2 & C3 & C4 & _).
  exists s', f'. split_and!; try done. intros v w Hv Hw Hp Hp'. by apply (ap_frame _ _ _ _ T5 w).
Qed.

(** C15. [freeMemoryAndPageTable] returns what belongs to an address space and
    nothing else: afterwards the free list is a permutation of the directory,
    the page tables and the user frames together with the pages that were free
    before, and a page that did not belong to the address space keeps its
    contents and stays allocated. *)
Theorem freeMemory_returns_pages pgdir s free :
  KERNBASE < kernelEnd -> vm_state s pgdir free -> as_ok (kmem s) pgdir free ->
  exists s' free', freeMemoryAndPageTable kernelEnd pgdir s = Ret tt s' /\ free_pages s' free' /\
    free' ≡ₚ ownedPages (kmem s) pgdir ++ free /\
    (forall q, apart (kmem s) pgdir free q -> q ∉ free' /\ forall a, in_page q a -> kmem s' a = kmem s a).
Proof. intros Hend Hvm Has. destruct (freeMemory_spec pgdir s free Hend Hvm Has) as (s' & f' & H). exists s', f'. tauto. Qed.

End Spaces.

(** * Concrete address spaces *)

(** A hundred free pages in a row, each linked to the next. *)
Definition poolSize : nat := 100.
Definition poolMem : mem := fun a =>
  if (demoT1 <=? a) && (a <? demoT1 + 4096 * (Z.of_nat poolSize - 1)) && (a mod 4096 <? 4)
  then Z.land (Z.shiftr (4096 * (a / 4096) + 4096) (8 * (a mod 4096))) 255 else 0.
Definition poolKernel : KState := set_FreeList demoT1 (set_kmem poolMem demoKernel).
Definition poolPages : list Z := pagesFrom poolSize demoT1.

Lemma poolMem_bytes : mem_bytes poolMem.
Proof. intros a. unfold poolMem. case_match; [|lia]. change 255 with (Z.ones 8). rewrite Z.land_ones by lia. zdiv. Qed.

Lemma pagesFrom_ok kernelEnd n : forall p, 0 < p -> p mod 4096 = 0 -> kernelEnd <= p -> KERNBASE <= p -> p + 4096 * Z.of_nat n <= KERNBASE + PHYSTOP ->
  Forall (page_ok kernelEnd) (pagesFrom n p).
Proof.
  induction n as [|n IH]; intros p Hp Hm He Hk Ht; cbn [pagesFrom]; constructor; unfold PGSIZE.
  - unfold page_ok, PGSIZE. lia.
  - apply IH; zdiv.
Qed.

Lemma pool_free : free_pages demoEnd poolKernel poolPages.
Proof.
  split_and!.
  - vm_compute. repeat split.
  - apply pagesFrom_ok; vm_compute; congruence.
  - apply (bool_decide_unpack (NoDup poolPages)). vm_compute. exact I.
Qed.

Lemma pool_ready : kmem_ready poolKernel.
Proof. exact demoPages_ready. Qed.

Lemma pool_low a : a < demoT1 -> poolMem a = 0.
Proof. intros Ha. unfold poolMem. by rewrite (proj2 (Z.leb_gt _ _)). Qed.

Lemma pool_empty i : 0 <= i < 1024 -> pdeOf poolMem demoDir i = 0.
Proof.
  intros Hi. unfold pdeOf. rewrite (load32_same (fun _ => 0) poolMem); [done|unfold demoDir; lia|unfold demoDir; lia|].
  intros a Ha. rewrite pool_low; unfold demoDir, demoT1 in *; lia.
Qed.

Lemma pool_none va : entry poolMem demoDir va = 0.
Proof. unfold entry. cbv zeta. by rewrite pool_empty by apply PDX_range. Qed.

Lemma pool_state : vm_state demoEnd poolKernel demoDir poolPages.
Proof.
  split; [split| |]; cbn [poolKernel kmem set_FreeList set_kmem].
  - exact poolMem_bytes.
  - split; [apply demoVm_page; tauto|]. apply (bool_decide_unpack (demoDir ∉ poolPages)). vm_compute. exact I.
  - intros i Hi. by rewrite pool_empty.
  - intros i j Hi Hj. by rewrite pool_empty.
  - exact pool_free.
  - exact pool_ready.
Qed.

Lemma pool_as : as_ok demoEnd poolMem demoDir poolPages.
Proof. split; intros va; intros; by rewrite pool_none in *. Qed.

Lemma pool_data : data_ok 2148536320.
Proof. split; [split; reflexivity|reflexivity]. Qed.

Lemma setupKernelVirtualMemory_maps_witness :
  exists s', setupKernelVirtualMemory demoEnd 2148536320 poolKernel = Ret demoT1 s' /\ entry (kmem s') demoT1 2148540426 = pteWord 1056768 2.
Proof.
  destruct (setupKernelVirtualMemory_maps demoEnd 2148536320 poolKernel demoT1 (pagesFrom 99 demoT2)) as (s' & free' & E & _ & _ & H & _);
    [exact pool_data|exact pool_free|exact pool_ready|exact poolMem_bytes|vm_compute; lia|].
  exists s'. split; [exact E|]. rewrite H by lia. vm_compute. reflexivity.
Defined.

(** A process of one page, and its copy. *)
Lemma copyProcessPageTable_isolates_witness :
  exists s D s', copyProcessPageTable demoEnd 2148536320 demoDir 100 s = Ret D s' /\
    userByte (kmem s') D 4000 = Some 0 /\ userByte (kmem s') D 4096 = None.
Proof.
  destruct (allocate_grown demoEnd demoDir 0 100 poolKernel poolPages pool_state pool_as ltac:(lia) ltac:(reflexivity)
              ltac:(vm_compute; congruence) ltac:(intros v _; change (kmem poolKernel) with poolMem; rewrite pool_none; reflexivity))
    as (s & free & _ & Hst & Has & [G1 G2 G3 G4]).
  change (newPages 0 100) with 1%nat in *. change (PGROUNDUP 0) with 0 in *. change (length poolPages) with 100%nat in *.
  destruct free as [|D free]; [cbn in G4; lia|]. cbn [length] in G4. exists s, D.
  assert (Hb : forall v, 0 <= v < 4096 -> userByte (kmem s) demoDir v = Some 0).
  { intros v Hv. rewrite G1, decide_True by (unfold KERNBASE; zdiv). reflexivity. }
  destruct (copyProcessPageTable_isolates demoEnd 2148536320 demoDir 100 s D free pool_data (step_state _ _ _ _ _ _ Hst) Has)
    as (s' & f' & E & _ & _ & _ & _ & _ & H & _); [vm_compute; split; congruence| |change (newPages 0 100) with 1%nat; lia|].
  { intros v Hv. change (PGROUNDUP 100) with 4096 in Hv. specialize (Hb v Hv). unfold userByte in Hb. destruct (present _); congruence. }
  exists s'. split; [exact E|]. rewrite !H by (unfold KERNBASE; lia). change (PGROUNDUP 100) with 4096. split; [apply Hb; lia|reflexivity].
Defined.

Lemma freeMemory_returns_pages_witness :
  exists s' free', freeMemoryAndPageTable demoEnd demoDir demoVmKernel = Ret tt s' /\ free_pages demoEnd s' free' /\
    demoDir ∈ free' /\ demoT2 ∈ free'.
Proof.
  destruct (freeMemory_returns_pages demoEnd demoDir demoVmKernel [demoT1; demoT2] ltac:(reflexivity) demoVm_state demoVm_as)
    as (s' & free' & E & Hf & Hp & _).
  exists s', free'. split; [exact E|]. split; [exact Hf|]. rewrite Hp. split; [left|]. apply elem_of_app. right. right. left.
Defined.
