(* ===== verification/Mp.v ===== *)
(** mp.c and mp.h: finding the processors of the machine in the tables that
    the BIOS leaves in memory.

    The structures are read from [kmem] at their offsets.  A table is a list
    of entries of two sizes; the theorems say what [mpinit] takes from a
    well-formed one. *)

From S2P Require Import Prelude CString Types Spinlock Kernel Vm.

(** * Layout (mp.h) *)

Definition MP_SIZE : Z := 16.
Definition MP_PHYSADDR : Z := 4.
Definition MP_IMCRP : Z := 12.

Definition MPCONF_SIZE : Z := 44.
Definition MPCONF_LENGTH : Z := 4.
Definition MPCONF_VERSION : Z := 6.
Definition MPCONF_LAPICADDR : Z := 36.

Definition MPPROC_SIZE : Z := 20.
Definition MPIOAPIC_SIZE : Z := 8.

Definition MPPROC : Z := 0.
Definition MPBUS : Z := 1.
Definition MPIOAPIC : Z := 2.
Definition MPIOINTR : Z := 3.
Definition MPLINTR : Z := 4.

Definition load16 (m : mem) (a : Z) : Z := m a + 256 * m (padd a 1).

(** * Searching *)

Fixpoint sum_loop (m : mem) (addr : Z) (n : nat) (sum : Z) : Z :=
  match n with
  | O => sum
  | S n => sum_loop m (padd addr 1) n (i32 (sum + m addr))
  end.

(** Returned as a [uint8_t]. *)
Definition sum (m : mem) (addr len : Z) : Z := u8 (sum_loop m addr (Z.to_nat len) 0).

(** [memcmp(p, text, 4) == 0] for a literal of four characters. *)
Definition signature (m : mem) (p : Z) (text : list Z) : bool :=
  bool_decide ([m p; m (padd p 1); m (padd p 2); m (padd p 3)] = text).

(** 0 if there is none. *)
Fixpoint mpsearch1_loop (n : nat) (m : mem) (p e : Z) : Z :=
  match n with
  | O => 0
  | S n =>
      if p <? e then
        if signature m p [95; 77; 80; 95] && (sum m p MP_SIZE =? 0) then p else mpsearch1_loop n m (padd p MP_SIZE) e
      else 0
  end.

Definition mpsearch1 (m : mem) (a len : Z) : Z := mpsearch1_loop (Z.to_nat (len / MP_SIZE + 1)) m (P2V a) (padd (P2V a) len).

Definition mpsearch (m : mem) : Z :=
  let bda := P2V 1024 in
  let p := Z.shiftl (Z.lor (Z.shiftl (m (padd bda 15)) 8) (m (padd bda 14))) 4 in
  let found :=
    if negb (p =? 0) then mpsearch1 m p 1024
    else let p := Z.lor (Z.shiftl (m (padd bda 20)) 8) (m (padd bda 19)) * 1024 in mpsearch1 m (u32 (p - 1024)) 1024 in
  if negb (found =? 0) then found else mpsearch1 m 983040 65536.

(** The table and the structure that points to it. *)
Definition mpconfig (m : mem) : option (Z * Z) :=
  let mp := mpsearch m in
  if (mp =? 0) || (load32 m (padd mp MP_PHYSADDR) =? 0) then None
  else
    let conf := P2V (load32 m (padd mp MP_PHYSADDR)) in
    if negb (signature m conf [80; 67; 77; 80]) then None
    else if negb (m (padd conf MPCONF_VERSION) =? 1) && negb (m (padd conf MPCONF_VERSION) =? 4) then None
    else if negb (sum m conf (load16 m (padd conf MPCONF_LENGTH)) =? 0) then None
    else Some (mp, conf).

(** * Initialisation *)

Definition set_Apicid (x : Z) (c : Cpu) : Cpu := mkCpu x (Started c) (CliDepth c) (InterruptsEnabled c) (CpuProcess c).
Definition set_ncpu (x : Z) (y : Sync) : Sync := mkSync (cpus y) x (apicid y) (iflag y) (locks y).

(** [cpus[ncpu].Apicid = id; ncpu++] if there is room. *)
Definition addCpu (id : Z) : M KState unit :=
  y ← gets sync;
  if ncpu y <? NCPU then
    c ← checked "cpus" (rd (cpus y) (ncpu y));
    l ← checked "cpus" (wr (cpus y) (ncpu y) (set_Apicid id c));
    puts (set_sync (set_ncpu (ncpu y + 1) (set_cpus l y)))
  else mret tt.

(** The loop over the entries; [ismp] is its flag.  An entry of unknown type
    is not skipped. *)
Fixpoint mpEntries (fuel : nat) (ismp : bool) (p e : Z) : M KState bool :=
  if negb (p <? e) then mret ismp
  else match fuel with
  | O => spin
  | S fuel =>
      m ← gets kmem;
      if m p =? MPPROC then addCpu (m (padd p 1));; mpEntries fuel ismp (padd p MPPROC_SIZE) e
      else if m p =? MPIOAPIC then puts (set_ioapicid (m (padd p 1)));; mpEntries fuel ismp (padd p MPIOAPIC_SIZE) e
      else if (m p =? MPBUS) || (m p =? MPIOINTR) || (m p =? MPLINTR) then mpEntries fuel ismp (padd p 8) e
      else mpEntries fuel false p e
  end.

Definition mpinit `{Hardware} : M KState unit :=
  m ← gets kmem;
  match mpconfig m with
  | None => panic "Expect to run on an SMP"
  | Some (mp, conf) =>
      puts (set_localApic (load32 m (padd conf MPCONF_LAPICADDR)));;
      let len := load16 m (padd conf MPCONF_LENGTH) in
      ismp ← mpEntries (Z.to_nat len) true (padd conf MPCONF_SIZE) (padd conf len);
      if negb ismp then panic "Didn't find a suitable machine"
      else if negb (m (padd mp MP_IMCRP) =? 0) then
        outputByteToPort 34 112;;
        v ← inputByteFromPort 35;
        outputByteToPort 35 (Z.lor v 1)
      else mret tt
  end.

(** * Tables *)

(** An entry: a processor, an I/O controller, or one of the entries that are
    skipped, with the bytes that are not looked at. *)
Inductive entry : Type :=
| Processor (id : Z) (rest : list Z)
| Controller (id : Z) (rest : list Z)
| Other (type : Z) (rest : list Z).

Definition entryBytes (x : entry) : list Z :=
  match x with
  | Processor id rest => MPPROC :: id :: rest
  | Controller id rest => MPIOAPIC :: id :: rest
  | Other type rest => type :: rest
  end.

Definition entryOk (x : entry) : Prop :=
  match x with
  | Processor id rest => length rest = 18%nat
  | Controller id rest => length rest = 6%nat
  | Other type rest => length rest = 7%nat /\ type ∈ [MPBUS; MPIOINTR; MPLINTR]
  end.

Definition tableBytes (t : list entry) : list Z := concat (map entryBytes t).

(** The processors and the last controller of a table. *)
Definition processors (t : list entry) : list Z := omap (fun x => match x with Processor id _ => Some id | _ => None end) t.

Definition controller (t : list entry) (id : Z) : Z := foldl (fun id x => match x with Controller id' _ => id' | _ => id end) id t.

(** The processors found go into the slots from [ncpu] on, up to NCPU. *)
Definition foundCpus (ids : list Z) (y : Sync) : Sync :=
  foldl (fun y id => if ncpu y <? NCPU then set_ncpu (ncpu y + 1) (set_cpus (alter (set_Apicid id) (Z.to_nat (ncpu y)) (cpus y)) y) else y) y ids.

Lemma addCpu_eq id s : length (cpus (sync s)) = Z.to_nat NCPU -> 0 <= ncpu (sync s) ->
  addCpu id s = Ret tt (set_sync (foundCpus [id] (sync s)) s).
Proof.
  intros Hl Hn. unfold addCpu. rewrite bind_gets. cbn [foundCpus foldl]. destruct (Z.ltb_spec (ncpu (sync s)) NCPU) as [Hlt|Hge]; [|by destruct s].
  unfold NCPU in *. destruct (lookup_lt_is_Some_2 (cpus (sync s)) (Z.to_nat (ncpu (sync s)))) as [c Hc]; [lia|].
  rewrite (proj2 (rd_Some _ _ c)) by (split; [lia|done]). rewrite bind_checked, wr_Some, bind_checked by lia. unfold puts. by rewrite (alter_at _ _ _ c Hc).
Qed.

Lemma foundCpus_keeps ids : forall y, length (cpus (foundCpus ids y)) = length (cpus y) /\ ncpu y <= ncpu (foundCpus ids y).
Proof.
  induction ids as [|id ids IH]; intros y; cbn [foundCpus foldl]; [lia|]. destruct (IH (if ncpu y <? NCPU then set_ncpu (ncpu y + 1) (set_cpus (alter (set_Apicid id) (Z.to_nat (ncpu y)) (cpus y)) y) else y)) as [H1 H2].
  unfold foundCpus in *. rewrite H1. case_match; cbn [cpus ncpu set_ncpu set_cpus] in *; rewrite ?length_alter; lia.
Qed.

(** What is taken from a table. *)
Definition taken (t : list entry) (s : KState) : KState :=
  set_ioapicid (controller t (ioapicid s)) (set_sync (foundCpus (processors t) (sync s)) s).

(** Well-formed entries are read one by one. *)
Lemma mpEntries_prefix t : forall fuel b p e s, stored (kmem s) p (tableBytes t) -> p + Z.of_nat (length (tableBytes t)) <= e < 4294967296 ->
  Forall entryOk t -> length (cpus (sync s)) = Z.to_nat NCPU -> 0 <= ncpu (sync s) ->
  mpEntries (length t + fuel) b p e s = mpEntries fuel b (p + Z.of_nat (length (tableBytes t))) e (taken t s).
Proof.
  induction t as [|x t IH]; intros fuel b p e s Hst He Hok Hlen Hn; cbn [tableBytes map concat length Nat.add] in *.
  - rewrite Z.add_0_r. by destruct s.
  - fold (tableBytes t) in *. apply Forall_cons in Hok as [Hx Hok]. rewrite length_app in *.
    assert (Hne : (0 < length (entryBytes x))%nat) by (destruct x; cbn; lia). cbn [mpEntries]. rewrite (proj2 (Z.ltb_lt p e)) by lia. cbn [negb]. rewrite bind_gets.
    pose proof Hst as (Hp0 & Hpmax & Hget). rewrite length_app in Hpmax. rewrite Nat2Z.inj_add, Z.add_assoc.
    assert (Hrest : stored (kmem s) (p + Z.of_nat (length (entryBytes x))) (tableBytes t)).
    { split; [lia|]. split; [lia|]. intros i c Hi. rewrite <- Z.add_assoc, <- Nat2Z.inj_add. apply Hget. rewrite lookup_app_r by lia. by replace (length (entryBytes x) + i - length (entryBytes x))%nat with i by lia. }
    assert (H0 : forall i c, entryBytes x !! i = Some c -> kmem s (p + Z.of_nat i) = c) by (intros i c Hi; apply Hget; by apply lookup_app_l_Some).
    destruct x as [id rest|id rest|type rest]; cbn [entryBytes entryOk length] in *.
    + pose proof (H0 0%nat _ eq_refl) as E0. pose proof (H0 1%nat _ eq_refl) as E1. change (Z.of_nat 0) with 0 in E0. change (Z.of_nat 1) with 1 in E1. rewrite Z.add_0_r in E0. unfold padd. rewrite (u32_small (p + 1)), (u32_small (p + MPPROC_SIZE)) by (unfold MPPROC_SIZE; lia).
      rewrite E0, E1, Z.eqb_refl, (bind_Ret _ _ _ _ _ (addCpu_eq id s Hlen Hn)). rewrite Hx in *. change (p + Z.of_nat 20) with (p + MPPROC_SIZE) in Hrest.
      destruct (foundCpus_keeps [id] (sync s)) as [Hk1 Hk2]. rewrite IH; [done|exact Hrest|unfold MPPROC_SIZE; lia|done|cbn [sync set_sync]; by rewrite Hk1|cbn [sync set_sync]; lia].
    + pose proof (H0 0%nat _ eq_refl) as E0. pose proof (H0 1%nat _ eq_refl) as E1. change (Z.of_nat 0) with 0 in E0. change (Z.of_nat 1) with 1 in E1. rewrite Z.add_0_r in E0. unfold padd. rewrite (u32_small (p + 1)), (u32_small (p + MPIOAPIC_SIZE)) by (unfold MPIOAPIC_SIZE; lia).
      rewrite E0, E1. change (MPIOAPIC =? MPPROC) with false. rewrite Z.eqb_refl, bind_puts. rewrite Hx in *. change (p + Z.of_nat 8) with (p + MPIOAPIC_SIZE) in Hrest.
      rewrite IH; [done|exact Hrest|unfold MPIOAPIC_SIZE; lia|done|done|done].
    + pose proof (H0 0%nat _ eq_refl) as E0. change (Z.of_nat 0) with 0 in E0. rewrite Z.add_0_r in E0. destruct Hx as [Hx Htype]. unfold padd. rewrite (u32_small (p + 8)) by lia. rewrite Hx in *. change (p + Z.of_nat 8) with (p + 8) in Hrest.
      assert (Hcase : (kmem s p =? MPPROC) = false /\ (kmem s p =? MPIOAPIC) = false /\ (kmem s p =? MPBUS) || (kmem s p =? MPIOINTR) || (kmem s p =? MPLINTR) = true).
      { rewrite E0. rewrite !elem_of_cons, elem_of_nil in Htype. destruct Htype as [->|[->|[->|[]]]]; done. }
      destruct Hcase as (-> & -> & ->). rewrite IH; [done|exact Hrest|lia|done|done|done].
Qed.

(** The types of the entries that [mpinit] knows. *)
Definition knownType (type : Z) : bool := (0 <=? type) && (type <=? 4).

(** An entry of another type is looked at for ever. *)
Lemma mpEntries_unknown fuel : forall b p e s, p < e -> knownType (kmem s p) = false -> mpEntries fuel b p e s = Spin.
Proof.
  induction fuel as [|fuel IH]; intros b p e s Hp Hk; cbn [mpEntries]; rewrite (proj2 (Z.ltb_lt p e)) by done; cbn [negb]; [done|]. rewrite bind_gets.
  assert (Ht : (kmem s p =? MPPROC) = false /\ (kmem s p =? MPIOAPIC) = false /\ (kmem s p =? MPBUS) || (kmem s p =? MPIOINTR) || (kmem s p =? MPLINTR) = false).
  { unfold knownType, MPPROC, MPIOAPIC, MPBUS, MPIOINTR, MPLINTR in *. apply andb_false_iff in Hk.
    destruct (Z.eqb_spec (kmem s p) 0), (Z.eqb_spec (kmem s p) 1), (Z.eqb_spec (kmem s p) 2), (Z.eqb_spec (kmem s p) 3), (Z.eqb_spec (kmem s p) 4); try done;
      destruct Hk as [Hk|Hk]; bdestr; lia. }
  destruct Ht as (-> & -> & ->). by apply IH.
Qed.

Lemma tableBytes_length t : Forall entryOk t -> (8 * length t <= length (tableBytes t))%nat.
Proof.
  induction 1 as [|x t Hx _ IH]; cbn [tableBytes map concat length]; [lia|]. fold (tableBytes t). rewrite length_app.
  destruct x; cbn in Hx |- *; lia.
Qed.

Lemma foundCpus_spec ids : forall y, 0 <= ncpu y <= NCPU -> length (cpus y) = Z.to_nat NCPU ->
  ncpu (foundCpus ids y) = Z.min NCPU (ncpu y + Z.of_nat (length ids)) /\
  (forall i, (i < Z.to_nat (ncpu y))%nat -> cpus (foundCpus ids y) !! i = cpus y !! i) /\
  (forall i id, ids !! i = Some id -> ncpu y + Z.of_nat i < NCPU -> Apicid <$> cpus (foundCpus ids y) !! (Z.to_nat (ncpu y) + i)%nat = Some id).
Proof.
  induction ids as [|id ids IH]; intros y Hn Hl; [cbn; split_and!; [lia|done|done]|]. unfold foundCpus in *. cbn [foldl length].
  destruct (Z.ltb_spec (ncpu y) NCPU) as [Hlt|Hge].
  - set (y1 := set_ncpu (ncpu y + 1) _). destruct (IH y1) as (H1 & H2 & H3); [cbn; lia|cbn; by rewrite length_alter|].
    change (ncpu y1) with (ncpu y + 1) in *. split_and!; [rewrite H1; lia| |].
    + intros i Hi. rewrite H2 by lia. cbn. by rewrite list_lookup_alter_ne by lia.
    + intros [|i] id' Hi Hb; cbn in Hi.
      * injection Hi as ->. rewrite Nat.add_0_r, H2 by lia. cbn. rewrite list_lookup_alter_eq. unfold NCPU in *.
        destruct (lookup_lt_is_Some_2 (cpus y) (Z.to_nat (ncpu y))) as [c ->]; [lia|done].
      * specialize (H3 i id' Hi ltac:(lia)). by replace (Z.to_nat (ncpu y) + S i)%nat with (Z.to_nat (ncpu y + 1) + i)%nat by lia.
  - destruct (IH y Hn Hl) as (H1 & H2 & H3). split_and!; [lia|done|]. intros i id' Hi Hb. lia.
Qed.

(** * Properties *)

(** [t] is the table that the BIOS has left. *)
Record has_table (s : KState) (mp conf : Z) (t : list entry) (len : Z) : Prop := {
  table_found : mpconfig (kmem s) = Some (mp, conf);
  table_length : load16 (kmem s) (padd conf MPCONF_LENGTH) = len;
  table_room : 0 <= conf /\ MPCONF_SIZE + Z.of_nat (length (tableBytes t)) <= len /\ conf + len < 4294967296;
  table_entries : stored (kmem s) (conf + MPCONF_SIZE) (tableBytes t);
  table_wf : Forall entryOk t;
  table_slots : length (cpus (sync s)) = Z.to_nat NCPU
}.

Lemma mpinit_prefix `{Hardware} s mp conf t len : has_table s mp conf t len -> ncpu (sync s) = 0 ->
  exists fuel, mpinit s = (ismp ← mpEntries fuel true (conf + MPCONF_SIZE + Z.of_nat (length (tableBytes t))) (conf + len);
     if negb ismp then panic "Didn't find a suitable machine"
     else if negb (kmem s (padd mp MP_IMCRP) =? 0) then outputByteToPort 34 112;; v ← inputByteFromPort 35; outputByteToPort 35 (Z.lor v 1)
     else mret tt) (taken t (set_localApic (load32 (kmem s) (padd conf MPCONF_LAPICADDR)) s)).
Proof.
  intros [Hf Hlen (H0 & Hroom & Hmax) Hst Hwf Hslots] Hn. pose proof (tableBytes_length t Hwf) as Hb. unfold MPCONF_SIZE in *.
  exists (Z.to_nat len - length t)%nat. unfold mpinit. rewrite bind_gets, Hf, bind_puts, Hlen. cbv zeta.
  replace (padd conf MPCONF_SIZE) with (conf + 44) by (unfold padd, MPCONF_SIZE; rewrite u32_small; lia).
  replace (padd conf len) with (conf + len) by (unfold padd; rewrite u32_small; lia).
  replace (Z.to_nat len) with (length t + (Z.to_nat len - length t))%nat at 1 by lia. unfold mbind at 1, M_bind at 1.
  rewrite mpEntries_prefix; [done|exact Hst|lia|done|done|cbn; lia].
Qed.

(** C32. Finding the processors: from a well-formed configuration table [mpinit]
    takes the address of the local controllers, the identifier of the (last)
    I/O controller, and the identifiers of the first eight processors, in the
    order of the table. *)
Theorem mpinit_finds `{Hardware} (s : KState) (mp conf len : Z) (t : list entry) :
  has_table s mp conf t len -> len = MPCONF_SIZE + Z.of_nat (length (tableBytes t)) -> ncpu (sync s) = 0 ->
  exists s', mpinit s = Ret tt s' /\
    localApic s' = load32 (kmem s) (padd conf MPCONF_LAPICADDR) /\ ioapicid s' = controller t (ioapicid s) /\
    ncpu (sync s') = Z.min NCPU (Z.of_nat (length (processors t))) /\
    (forall i id, processors t !! i = Some id -> Z.of_nat i < NCPU -> Apicid <$> cpus (sync s') !! i = Some id).
Proof.
  intros Ht Hlen Hn. destruct (mpinit_prefix s mp conf t len Ht Hn) as [fuel ->]. pose proof (table_slots _ _ _ _ _ Ht) as Hslots.
  replace (conf + MPCONF_SIZE + Z.of_nat (length (tableBytes t))) with (conf + len) by lia.
  set (s1 := taken t _). assert (Hend : mpEntries fuel true (conf + len) (conf + len) s1 = Ret true s1) by (destruct fuel; cbn [mpEntries]; by rewrite (proj2 (Z.ltb_ge _ _)) by lia).
  rewrite (bind_Ret _ _ _ _ _ Hend). cbn [negb].
  assert (Hlast : exists h, (if negb (kmem s (padd mp MP_IMCRP) =? 0) then outputByteToPort 34 112;; v ← inputByteFromPort 35; outputByteToPort 35 (Z.lor v 1) else mret tt) s1 = Ret tt (set_io h s1)).
  { case_match; [by eexists; rewrite bind_outputByte, bind_inputByte|]. exists (io s1). done. }
  destruct Hlast as [h ->]. eexists. split; [reflexivity|]. destruct (foundCpus_spec (processors t) (sync s)) as (H1 & _ & H3); [unfold NCPU; lia|done|].
  rewrite Hn in H1, H3. split; [done|]. split; [done|]. split; [exact H1|]. intros i id Hi Hb. exact (H3 i id Hi Hb).
Qed.

(** An entry of unknown type hangs the kernel: the loop neither skips it
    nor leaves the loop, so [mpinit] never returns and never reaches the panic
    that is meant for this case. *)
Theorem mpinit_unknown_entry `{Hardware} (s : KState) (mp conf len : Z) (t : list entry) :
  has_table s mp conf t len -> ncpu (sync s) = 0 ->
  MPCONF_SIZE + Z.of_nat (length (tableBytes t)) < len ->
  knownType (kmem s (conf + MPCONF_SIZE + Z.of_nat (length (tableBytes t)))) = false ->
  mpinit s = Spin.
Proof.
  intros Ht Hn Hlt Hk. destruct (mpinit_prefix s mp conf t len Ht Hn) as [fuel ->]. unfold mbind, M_bind. by rewrite mpEntries_unknown; [|lia|].
Qed.

(** * A machine *)

(** The pointer structure at 0xF0000, the table at 0xF1000. *)
Definition biosMem (table : list Z) : mem := fun a =>
  if (2148466688 <=? a) && (a <? 2148466704) then nth (Z.to_nat (a - 2148466688)) [95; 77; 80; 95; 0; 16; 15; 0; 1; 4; 129; 0; 0; 0; 0; 0] 0
  else if (2148470784 <=? a) && (a <? 2148470784 + Z.of_nat (length table)) then nth (Z.to_nat (a - 2148470784)) table 0
  else 0.

Definition demoEntries : list entry := [Processor 3 (replicate 18 0); Controller 2 (replicate 6 0)].

Definition demoTable (checksum : Z) (last : list Z) : list Z :=
  [80; 67; 77; 80; 80; 0; 4; checksum] ++ replicate 26 0 ++ [3; 0; 0; 0; 224; 254; 0; 0; 0; 0] ++ tableBytes demoEntries ++ last.

Definition emptyCpu : Cpu := mkCpu 0 0 0 0 None.

Definition demoMachine (table : list Z) : KState :=
  set_kmem (biosMem table) (set_sync (mkSync (replicate 8 emptyCpu) 0 0 false ∅) demoKernel).

Definition goodTable : list Z := demoTable 147 (1 :: replicate 7 0).
Definition badTable : list Z := demoTable 139 (9 :: replicate 7 0).

Definition demoBus : Hardware := {| portByte := fun _ _ => 0; portSequence := fun _ _ _ => []; registerWord := fun _ _ => 0; polls := 1 |}.

Lemma stored_by_compute m p l : 0 <= p -> p + Z.of_nat (length l) <= 4294967296 -> (fun i => m (p + Z.of_nat i)) <$> seq 0 (length l) = l -> stored m p l.
Proof.
  intros H0 H1 E. split; [done|]. split; [done|]. intros i c Hi. pose proof (lookup_lt_Some _ _ _ Hi) as Hlt. rewrite <- E in Hi.
  rewrite list_lookup_fmap, lookup_seq_lt in Hi by done. by injection Hi as <-.
Qed.

Lemma mpinit_finds_witness :
  exists s', @mpinit demoBus (demoMachine goodTable) = Ret tt s' /\
    localApic s' = 4276092928 /\ ioapicid s' = 2 /\ ncpu (sync s') = 1 /\ Apicid <$> cpus (sync s') !! 0%nat = Some 3.
Proof.
  assert (Ht : has_table (demoMachine goodTable) 2148466688 2148470784 (demoEntries ++ [Other 1 (replicate 7 0)]) 80).
  { split; [vm_compute; reflexivity|vm_compute; reflexivity|vm_compute; repeat split; discriminate| |repeat constructor; apply (bool_decide_unpack _); vm_compute; exact I|reflexivity].
    apply stored_by_compute; [vm_compute; discriminate|vm_compute; discriminate|vm_compute; reflexivity]. }
  destruct (@mpinit_finds demoBus _ _ _ _ _ Ht ltac:(vm_compute; reflexivity) eq_refl) as (s' & E & H1 & H2 & H3 & H4).
  exists s'. split; [exact E|]. split; [rewrite H1; vm_compute; reflexivity|]. split; [rewrite H2; vm_compute; reflexivity|]. split; [rewrite H3; vm_compute; reflexivity|].
  apply H4; [vm_compute; reflexivity|reflexivity].
Defined.

Lemma mpinit_unknown_entry_witness : @mpinit demoBus (demoMachine badTable) = Spin.
Proof.
  apply (@mpinit_unknown_entry demoBus (demoMachine badTable) 2148466688 2148470784 80 demoEntries).
  - split; [vm_compute; reflexivity|vm_compute; reflexivity|vm_compute; repeat split; discriminate| |repeat constructor|reflexivity].
    apply stored_by_compute; [vm_compute; discriminate|vm_compute; discriminate|vm_compute; reflexivity].
  - reflexivity.
  - vm_compute. reflexivity.
  - vm_compute. reflexivity.
Defined.
