(* ===== verification/Proc.v ===== *)
(** proc.c, the life of a process: allocation, fork, exit, wait and growth.
    (The processors, the scheduler, sleeping and killing are in Spinlock and
    Sched.)  [trapret], [forkretAddress] and the bounds of the first user
    program are addresses from the assembler files and the linker. *)

From S2P Require Import Prelude CString CArray Types Fat12 Fat12Dir Fat12Open Spinlock Kernel Kalloc Sched Idle Sleeplock Ide Disk Bio Pipe Files Vm.

(** Bytes of [struct Trapframe] and [struct _Context], and the offsets of the
    fields that the code sets. *)
Definition TRAPFRAME_SIZE : Z := 76.
Definition CONTEXT_SIZE : Z := 20.
Definition TF_EAX : Z := 28.
Definition TF_ES : Z := 40.
Definition TF_DS : Z := 44.
Definition TF_EIP : Z := 56.
Definition TF_CS : Z := 60.
Definition TF_EFLAGS : Z := 64.
Definition TF_ESP : Z := 68.
Definition TF_SS : Z := 72.
Definition CTX_EIP : Z := 16.

Definition SEG_UCODE : Z := 3.
Definition SEG_UDATA : Z := 4.
Definition DPL_USER : Z := 3.

Definition store16 (m : mem) (a w : Z) : mem := upd (upd m a (u8 w)) (padd a 1) (u8 (Z.shiftr w 8)).

(** A change of one field of a process. *)
Definition modifyProcess (p : nat) (f : Process -> Process) : M KState unit :=
  x ← getProcess p; putProcess p (f x).

Definition setOpenFile (p : nat) (fd : Z) (f : option nat) : M KState unit :=
  x ← getProcess p;
  l ← checked "OpenFile" (wr (OpenFile x) fd f);
  putProcess p (set_OpenFile l x).

Definition processTableInitialise : M KState unit := locked (spinlockInitialise L_processTable "processTable").

(** The first UNUSED slot, from slot [i] on. *)
Fixpoint findUnusedSlot (i : nat) (l : list Process) : option nat :=
  match l with
  | [] => None
  | p :: l => if bool_decide (State p = UNUSED) then Some i else findUnusedSlot (S i) l
  end.

Section Operations.
Context (kernelEnd data trapret forkretAddress : Z).

(** The console as stdin, stdout and stderr. *)
Definition openConsole (p : nat) : M KState unit :=
  consoleDevice ← allocateFileStructure;
  consoleDevice ← checked "allocateProcess: null consoleDevice" consoleDevice;
  f ← getSlot consoleDevice;
  putSlot consoleDevice (set_Writable 1 (set_Readable 1 (set_DeviceID CONSOLE (set_Type_ FD_DEVICE f))));;
  setOpenFile p 0 (Some consoleDevice);;
  f ← fileDup consoleDevice;
  setOpenFile p 1 (Some f);;
  f ← fileDup consoleDevice;
  setOpenFile p 2 (Some f).

(** The trap frame and the first context on the new kernel stack. *)
Definition initialStack (p : nat) (stack : Z) : M KState unit :=
  let sp := u32 (stack + KSTACKSIZE - TRAPFRAME_SIZE) in
  modifyProcess p (set_Trapframe sp);;
  let sp := u32 (sp - 4) in
  writeWord sp trapret;;
  let sp := u32 (sp - CONTEXT_SIZE) in
  modifyProcess p (set_Context_ sp);;
  puts (fun s => set_kmem (memset (kmem s) sp 0 CONTEXT_SIZE) s);;
  writeWord (padd sp CTX_EIP) forkretAddress.

Definition allocateProcess : M KState (option nat) :=
  acquire L_processTable;;
  l ← gets processTable;
  match findUnusedSlot 0 l with
  | None => release L_processTable;; mret None
  | Some p =>
      modifyProcess p (set_State EMBRYO);;
      pid ← gets nextpid;
      modifyProcess p (set_ProcessId pid);;
      puts (set_nextpid (i32 (pid + 1)));;
      release L_processTable;;
      stack ← allocatePhysicalMemoryPage;
      modifyProcess p (set_KernelStack stack);;
      if stack =? 0 then modifyProcess p (set_State UNUSED);; mret None
      else
        initialStack p stack;;
        openConsole p;;
        mret (Some p)
  end.

Definition initcodeName : list Z := [105; 110; 105; 116; 99; 111; 100; 101; 0].

Definition initialiseFirstUserProcess (initcode_start initcode_end : Z) : M KState unit :=
  p ← allocateProcess;
  puts (set_initproc p);;
  p ← checked "initialiseFirstUserProcess: null process" p;
  pgdir ← setupKernelVirtualMemory kernelEnd data;
  modifyProcess p (set_PageTable pgdir);;
  if pgdir =? 0 then panic "initialiseFirstUserProcess: out of memory?"
  else
    initialiseUserVirtualMemory pgdir initcode_start (u32 (initcode_end - initcode_start));;
    modifyProcess p (set_MemorySize PGSIZE);;
    x ← getProcess p;
    let tf := Trapframe x in
    puts (fun s =>
      let m := memset (kmem s) tf 0 TRAPFRAME_SIZE in
      let ds := Z.lor (Z.shiftl SEG_UDATA 3) DPL_USER in
      let m := store16 m (padd tf TF_CS) (Z.lor (Z.shiftl SEG_UCODE 3) DPL_USER) in
      let m := store16 m (padd tf TF_DS) ds in
      let m := store16 m (padd tf TF_ES) ds in
      let m := store16 m (padd tf TF_SS) ds in
      let m := store32 m (padd tf TF_EFLAGS) FL_IF in
      let m := store32 m (padd tf TF_ESP) PGSIZE in
      set_kmem (store32 m (padd tf TF_EIP) 0) s);;
    name ← checked "safestrcpy" (arr_safestrcpy (ProcName x) initcodeName 16);
    modifyProcess p (set_ProcName name);;
    cwd ← checked "safestrcpy" (arr_safestrcpy (Cwd x) [47; 0] MAXCWDSIZE);
    modifyProcess p (set_Cwd cwd);;
    acquire L_processTable;;
    modifyProcess p (set_State RUNNABLE);;
    release L_processTable.

(** [myProcess()], which the callers do not check. *)
Definition curproc : M KState nat := p ← currentProcess; checked "curproc: null process" p.

Definition growProcess (n : Z) : M KState Z :=
  p ← curproc;
  x ← getProcess p;
  let memorySize := MemorySize x in
  size ← (if n >? 0 then allocateMemoryAndPageTables kernelEnd (PageTable x) memorySize (u32 (memorySize + n))
          else if n <? 0 then releaseUserPages kernelEnd (PageTable x) memorySize (u32 (memorySize + n))
          else mret memorySize);
  if negb (n =? 0) && (size =? 0) then mret (-1)
  else
    modifyProcess p (set_MemorySize (u32 size));;
    switchToUserVirtualMemory (Some p);;
    mret 0.

(** The loop over the open files of the parent, from [fd] on. *)
Fixpoint dupFiles (np : nat) (fd : Z) (l : list (option nat)) : M KState unit :=
  match l with
  | [] => mret tt
  | o :: l =>
      (match o with
       | Some f => g ← fileDup f; setOpenFile np fd (Some g)
       | None => mret tt
       end);;
      dupFiles np (fd + 1) l
  end.

Definition fork : M KState Z :=
  cur ← curproc;
  np ← allocateProcess;
  match np with
  | None => mret (-1)
  | Some np =>
      c ← getProcess cur;
      d ← copyProcessPageTable kernelEnd data (PageTable c) (MemorySize c);
      modifyProcess np (set_PageTable d);;
      if d =? 0 then
        x ← getProcess np;
        freePhysicalMemoryPage kernelEnd (KernelStack x);;
        modifyProcess np (set_KernelStack 0);;
        modifyProcess np (set_State UNUSED);;
        mret (-1)
      else
        modifyProcess np (fun x => set_Parent (Some cur) (set_MemorySize (MemorySize c) x));;
        x ← getProcess np;
        puts (fun s => set_kmem (memmove (kmem s) (Trapframe x) (Trapframe c) TRAPFRAME_SIZE) s);;
        writeWord (padd (Trapframe x) TF_EAX) 0;;
        dupFiles np 0 (OpenFile c);;
        cwd ← checked "safestrcpy" (arr_safestrcpy (Cwd x) (Cwd c) MAXCWDSIZE);
        modifyProcess np (set_Cwd cwd);;
        name ← checked "safestrcpy" (arr_safestrcpy (ProcName x) (ProcName c) 16);
        modifyProcess np (set_ProcName name);;
        let pid := ProcessId x in
        acquire L_processTable;;
        modifyProcess np (set_State RUNNABLE);;
        release L_processTable;;
        mret pid
  end.

(** [n] descriptors from [fd] on are closed. *)
Fixpoint closeFiles (n : nat) (p : nat) (fd : Z) : M KState unit :=
  match n with
  | O => mret tt
  | S n =>
      x ← getProcess p;
      o ← checked "OpenFile" (rd (OpenFile x) fd);
      (match o with
       | Some f => fileClose kernelEnd f;; setOpenFile p fd None
       | None => mret tt
       end);;
      closeFiles n p (fd + 1)
  end.

(** The children of [cur] from slot [i] on are given to init. *)
Fixpoint passChildren (n : nat) (cur i : nat) : M KState unit :=
  match n with
  | O => mret tt
  | S n =>
      x ← getProcess i;
      (if bool_decide (Parent x = Some cur) then
         init ← gets initproc;
         modifyProcess i (set_Parent init);;
         if bool_decide (State x = ZOMBIE) then wakeup1 (Ch_process <$> init) else mret tt
       else mret tt);;
      passChildren n cur (S i)
  end.

Context `{Scheduler}.

Definition exit : M KState unit :=
  cur ← curproc;
  init ← gets initproc;
  if bool_decide (Some cur = init) then panic "init exiting"
  else
    closeFiles (Z.to_nat NOFILE) cur 0;;
    x ← getProcess cur;
    cwd ← checked "safestrcpy" (arr_safestrcpy (Cwd x) [0] MAXCWDSIZE);
    modifyProcess cur (set_Cwd cwd);;
    acquire L_processTable;;
    x ← getProcess cur;
    wakeup1 (Ch_process <$> Parent x);;
    passChildren (Z.to_nat NPROC) cur 0;;
    modifyProcess cur (set_State ZOMBIE);;
    sched;;
    panic "zombie exit".

(** The search for an exited child from slot [i] on: [inl pid], or whether
    there are children. *)
Fixpoint reap (n : nat) (cur i : nat) (havekids : bool) : M KState (Z + bool) :=
  match n with
  | O => mret (inr havekids)
  | S n =>
      x ← getProcess i;
      if negb (bool_decide (Parent x = Some cur)) then reap n cur (S i) havekids
      else if bool_decide (State x = ZOMBIE) then
        freePhysicalMemoryPage kernelEnd (KernelStack x);;
        modifyProcess i (set_KernelStack 0);;
        freeMemoryAndPageTable kernelEnd (PageTable x);;
        name ← checked "Name" (wr (ProcName x) 0 0);
        modifyProcess i (fun x => set_State UNUSED (set_IsKilled 0 (set_ProcName name (set_Parent None (set_ProcessId 0 x)))));;
        mret (inl (ProcessId x))
      else reap n cur (S i) true
  end.

Fixpoint waitLoop (fuel : nat) (cur : nat) : M KState Z :=
  r ← reap (Z.to_nat NPROC) cur 0 false;
  match r with
  | inl pid => release L_processTable;; mret pid
  | inr havekids =>
      x ← getProcess cur;
      if negb havekids || negb (IsKilled x =? 0) then release L_processTable;; mret (-1)
      else match fuel with
      | O => spin
      | S fuel =>
          sleep (Ch_process cur) (Some L_processTable);;
          waitLoop fuel cur
      end
  end.

Definition wait : M KState Z :=
  cur ← curproc;
  acquire L_processTable;;
  waitLoop wakeups cur.

(** [first]: the static variable, before and after; [fatBytes] as in
    [fsFat12Initialise]. *)
Definition forkret `{BlockCache KState} (first : bool) (fatBytes : Z -> Z) : M KState bool :=
  release L_processTable;;
  if first then
    v ← fsFat12Initialise fatBytes;
    puts (set_volume v);;
    mret false
  else mret first.

End Operations.

(** * Lemmas *)

Lemma bind_getProcess {B} p x (k : Process -> M KState B) s : processTable s !! p = Some x -> (getProcess p ≫= k) s = k x s.
Proof. intros Hp. by rewrite (bind_Ret _ _ _ _ _ (getProcess_eq p x s Hp)). Qed.

Lemma modifyProcess_eq p f x s : processTable s !! p = Some x ->
  modifyProcess p f s = Ret tt (set_processTable (<[p := f x]> (processTable s)) s).
Proof. intros Hp. unfold modifyProcess. by rewrite (bind_getProcess p x). Qed.

Lemma bind_modify {B} p f x (k : unit -> M KState B) s : processTable s !! p = Some x ->
  (modifyProcess p f ≫= k) s = k tt (set_processTable (<[p := f x]> (processTable s)) s).
Proof. intros Hp. by rewrite (bind_Ret _ _ _ _ _ (modifyProcess_eq p f x s Hp)). Qed.

Lemma setOpenFile_eq p fd f x s : processTable s !! p = Some x -> 0 <= fd < Z.of_nat (length (OpenFile x)) ->
  setOpenFile p fd f s =
    Ret tt (set_processTable (<[p := set_OpenFile (<[Z.to_nat fd := f]> (OpenFile x)) x]> (processTable s)) s).
Proof. intros Hp Hfd. unfold setOpenFile. rewrite (bind_getProcess p x), wr_Some by done. by rewrite bind_checked. Qed.

Lemma findUnusedSlot_spec l : forall i, match findUnusedSlot i l with
  | Some k => exists x, (i <= k)%nat /\ l !! (k - i)%nat = Some x /\ State x = UNUSED
  | None => Forall (fun x => State x <> UNUSED) l
  end.
Proof.
  induction l as [|p l IH]; intros i; cbn; [constructor|]. case_bool_decide as E.
  - exists p. rewrite Nat.sub_diag. done.
  - specialize (IH (S i)). destruct (findUnusedSlot (S i) l) as [k|].
    + destruct IH as (x & Hk & Hx & Hs). exists x. split_and!; [lia| |done]. by replace (k - i)%nat with (S (k - S i)) by lia.
    + by constructor.
Qed.

Lemma findUnusedSlot_Some l p : findUnusedSlot 0 l = Some p -> exists x, l !! p = Some x /\ State x = UNUSED.
Proof. pose proof (findUnusedSlot_spec l 0) as H. intros E. rewrite E in H. destruct H as (x & _ & Hx & Hs). rewrite Nat.sub_0_r in Hx. by exists x. Qed.

(** The locks that the life of a process uses are free. *)
Definition proc_ready (s : KState) : Prop :=
  balanced 1 (sync s) /\ lockFree (sync s) L_processTable /\ lockFree (sync s) L_FileTable /\ lockFree (sync s) L_kernelMemory.

Lemma proc_ready_settled s : proc_ready s -> proc_ready (settled s).
Proof. intros (H1 & H2 & H3 & H4). split_and!; [by apply settle_balanced|by apply settle_lockFree..]. Qed.

Lemma settled_settled s : settled (settled s) = settled s.
Proof. unfold settled. cbn. rewrite settle_settle. by destruct s. Qed.

Lemma dup_ok p f s : table_ready s -> fileTable s !! p = Some f -> 1 <= ReferenceCount f < 2147483647 ->
  fileDup p s = Ret p (set_fileTable (<[p := set_ReferenceCount (ReferenceCount f + 1) f]> (fileTable s)) (settled s)).
Proof. intros Hr Hp Hc. by rewrite (dup_eq p f), (proj2 (Z.ltb_ge _ _)), i32_small by (done || lia). Qed.

(** ** Allocation *)

Section Allocate.
Context (kernelEnd trapret forkretAddress : Z).

(** The process that [allocateProcess] starts from. *)
Definition embryo (pid : Z) (x : Process) : Process := set_ProcessId pid (set_State EMBRYO x).

(** The trap frame and the context of a kernel stack in page [T]. *)
Definition frameAt (T : Z) : Z := T + KSTACKSIZE - TRAPFRAME_SIZE.
Definition contextAt (T : Z) : Z := frameAt T - 4 - CONTEXT_SIZE.

Definition stacked (T : Z) (x : Process) : Process := set_Context_ (contextAt T) (set_Trapframe (frameAt T) (set_KernelStack T x)).

Definition consoleFile (f : File) : File :=
  set_Writable 1 (set_Readable 1 (set_DeviceID CONSOLE (set_Type_ FD_DEVICE (set_ReferenceCount 3 f)))).

Definition withConsole (f : nat) (x : Process) : Process :=
  set_OpenFile (<[2%nat := Some f]> (<[1%nat := Some f]> (<[0%nat := Some f]> (OpenFile x)))) x.

Definition stackMem (m : mem) (T : Z) : mem :=
  store32 (memset (store32 m (frameAt T - 4) trapret) (contextAt T) 0 CONTEXT_SIZE) (contextAt T + CTX_EIP) forkretAddress.

Lemma initialStack_eq p T x s : page_ok kernelEnd T -> processTable s !! p = Some x ->
  initialStack trapret forkretAddress p T s =
    Ret tt (set_processTable (<[p := set_Context_ (contextAt T) (set_Trapframe (frameAt T) x)]> (processTable s))
      (set_kmem (stackMem (kmem s) T) s)).
Proof.
  intros HT%page_range Hp. pose proof (lookup_lt_Some _ _ _ Hp) as Hlt.
  unfold initialStack, stackMem, contextAt, frameAt, KSTACKSIZE, TRAPFRAME_SIZE, CONTEXT_SIZE, CTX_EIP.
  rewrite (u32_small (T + 4096 - 76)) by lia. rewrite (u32_small (T + 4096 - 76 - 4)) by lia. rewrite (u32_small (T + 4096 - 76 - 4 - 20)) by lia.
  rewrite (bind_modify p _ x) by done. rewrite bind_writeWord. erewrite bind_modify by slot_stored. rewrite bind_puts.
  rewrite padd_small by lia. unfold writeWord, puts. cbn. by rewrite list_insert_insert_eq.
Qed.

Lemma openConsole_eq p f x file s : proc_ready s -> processTable s !! p = Some x -> (3 <= length (OpenFile x))%nat ->
  firstFree (fileTable s) = Some f -> fileTable s !! f = Some file ->
  openConsole p s = Ret tt (set_processTable (<[p := withConsole f x]> (processTable s))
    (set_fileTable (<[f := consoleFile file]> (fileTable s)) (settled s))).
Proof.
  intros Hr Hp Hof Hf Hfile. pose proof (lookup_lt_Some _ _ _ Hp) as Hlt. pose proof (lookup_lt_Some _ _ _ Hfile) as Hlf.
  assert (Htr : forall s', sync s' = settle (sync s) -> table_ready s').
  { intros s' E. destruct Hr as (H1 & _ & H3 & _). unfold table_ready. rewrite E. split; [by apply settle_balanced|by apply settle_lockFree]. }
  unfold openConsole. erewrite bind_Ret; [|rewrite alloc_file_eq, Hf, (alter_insert _ _ _ file) by (done || (split; apply Hr)); reflexivity].
  rewrite bind_checked. erewrite bind_getSlot by slot_stored. rewrite bind_putSlot.
  erewrite bind_Ret; [|apply setOpenFile_eq; [exact Hp|lia]].
  erewrite bind_Ret; [|apply dup_ok; [by apply Htr|slot_stored|cbn; lia]].
  erewrite bind_Ret; [|apply setOpenFile_eq; [slot_stored|cbn; rewrite length_insert; lia]].
  erewrite bind_Ret; [|apply dup_ok; [apply Htr; cbn; by rewrite settle_settle|slot_stored|cbn; lia]].
  erewrite setOpenFile_eq; [|slot_stored|cbn; rewrite !length_insert; lia].
  cbn [OpenFile set_OpenFile ReferenceCount set_Writable set_Readable set_DeviceID set_Type_ set_ReferenceCount].
  f_equal. unfold settled. cbn. rewrite !settle_settle, !list_insert_insert_eq. done.
Qed.


(** The first part, under the lock. *)
Lemma allocate_start {B} s p x (k : unit -> M KState B) : proc_ready s -> processTable s !! p = Some x ->
  (modifyProcess p (set_State EMBRYO);;
   pid ← gets nextpid;
   modifyProcess p (set_ProcessId pid);;
   puts (set_nextpid (i32 (pid + 1)));;
   release L_processTable;; k tt) (entered L_processTable s) =
  k tt (set_nextpid (i32 (nextpid s + 1)) (set_processTable (<[p := embryo (nextpid s) x]> (processTable s)) (settled s))).
Proof.
  intros Hr Hp. pose proof (lookup_lt_Some _ _ _ Hp) as Hlt. rewrite (bind_modify p _ x) by done. rewrite bind_gets.
  erewrite bind_modify by slot_stored. rewrite bind_puts. cbn [nextpid set_processTable entered set_sync].
  erewrite bind_Ret; [|apply (release_settled _ s); [apply Hr|apply Hr|done]]. cbn. by rewrite list_insert_insert_eq.
Qed.

(** The slot after the first part. *)
Definition reserved (p : nat) (x : Process) (s : KState) : KState :=
  set_nextpid (i32 (nextpid s + 1)) (set_processTable (<[p := embryo (nextpid s) x]> (processTable s)) (settled s)).

Lemma allocateProcess_reserved s p x : proc_ready s -> findUnusedSlot 0 (processTable s) = Some p -> processTable s !! p = Some x ->
  allocateProcess trapret forkretAddress s =
    (stack ← allocatePhysicalMemoryPage;
     modifyProcess p (set_KernelStack stack);;
     if stack =? 0 then modifyProcess p (set_State UNUSED);; mret None
     else initialStack trapret forkretAddress p stack;; openConsole p;; mret (Some p)) (reserved p x s).
Proof.
  intros Hr F Hp. pose proof Hr as (Hb & Hpt & _). unfold allocateProcess. rewrite (bind_Ret _ _ _ _ _ (acquire_entered _ s Hb Hpt)), bind_gets.
  change (processTable (entered L_processTable s)) with (processTable s). rewrite F.
  by rewrite (allocate_start s p x (fun _ => stack ← _; _)).
Qed.

(** The process with its stack, before it has files. *)
Lemma allocateProcess_stacked s p x T rest : proc_ready s -> findUnusedSlot 0 (processTable s) = Some p -> processTable s !! p = Some x ->
  free_pages kernelEnd s (T :: rest) ->
  exists s3, allocateProcess trapret forkretAddress s = (openConsole p;; mret (Some p)) s3 /\ proc_ready s3 /\ page_ok kernelEnd T /\ T ∉ rest /\
    processTable s3 = <[p := stacked T (embryo (nextpid s) x)]> (processTable s) /\ kmem s3 = stackMem (kmem s) T /\
    fileTable s3 = fileTable s /\ nextpid s3 = i32 (nextpid s + 1) /\ free_pages kernelEnd (set_kmem (kmem s) s3) rest /\
    sync s3 = settle (sync s).
Proof.
  intros Hr F Hp Hfree. pose proof (lookup_lt_Some _ _ _ Hp) as Hlt. pose proof Hr as (Hb & Hpt & Hft & Hkm).
  rewrite (allocateProcess_reserved s p x) by done. set (s1 := reserved p x s).
  assert (Hs1 : kmem_ready s1) by (right; split; [by apply settle_balanced|by apply settle_lockFree]).
  destruct (alloc_spec kernelEnd s1 T rest Hfree Hs1) as (s2 & E2 & Hf2 & HnT & HT & Es2). pose proof (page_range kernelEnd T HT) as HTr.
  assert (Ek2 : processTable s2 = processTable s1 /\ fileTable s2 = fileTable s /\ kmem s2 = kmem s /\ nextpid s2 = nextpid s1 /\ sync s2 = settle (sync s)).
  { rewrite Es2. unfold kmem_settled. destruct (UseLock s1 =? 0); split_and!; try done. cbn. by rewrite settle_settle. }
  destruct Ek2 as (Ept2 & Eft2 & Em2 & En2 & Esy2).
  exists (set_processTable (<[p := stacked T (embryo (nextpid s) x)]> (processTable s)) (set_kmem (stackMem (kmem s) T) s2)). split.
  - rewrite (bind_Ret _ _ _ _ _ E2). erewrite bind_modify by (rewrite Ept2; slot_stored). rewrite (proj2 (Z.eqb_neq T 0)) by lia.
    erewrite bind_Ret; [|eapply initialStack_eq; [exact HT|rewrite Ept2; slot_stored]]. f_equal. cbn.
    rewrite Ept2, Em2. unfold s1, reserved. cbn. by rewrite !list_insert_insert_eq.
  - split; [unfold proc_ready; cbn; rewrite Esy2; apply (proc_ready_settled s Hr)|]. split_and!; try done.
    destruct Hf2 as (Hc & Hrest). split; [|done]. cbn. by rewrite <- Em2.
Qed.

Lemma page_words T : page_ok kernelEnd T -> 0 <= contextAt T /\ contextAt T + 100 <= 4294967296 /\ frameAt T - 4 = contextAt T + 20 /\
  forall a, contextAt T <= a < frameAt T -> in_page T a.
Proof.
  intros HT%page_range. unfold contextAt, frameAt, KSTACKSIZE, TRAPFRAME_SIZE, CONTEXT_SIZE, in_page, PGSIZE. split_and!; lia.
Qed.

(** What the stack holds, and that nothing else is written. *)
Lemma stackMem_spec m T : page_ok kernelEnd T -> 0 <= trapret < 4294967296 -> 0 <= forkretAddress < 4294967296 ->
  load32 (stackMem m T) (frameAt T - 4) = trapret /\ load32 (stackMem m T) (contextAt T + CTX_EIP) = forkretAddress /\
  (forall a, ~ in_page T a -> stackMem m T a = m a).
Proof.
  intros HT Htr Hfr. destruct (page_words T HT) as (H1 & H2 & H3 & H4). unfold stackMem, CONTEXT_SIZE, CTX_EIP. rewrite H3. split_and!.
  - rewrite load32_store32_other by lia. erewrite load32_same; [apply load32_store32; lia|lia|lia|].
    intros a Ha. rewrite memset_fill by lia. rewrite (proj2 (Z.ltb_ge a _)), andb_false_r by lia. done.
  - apply load32_store32; lia.
  - intros a Ha. assert (Hout : ~ (contextAt T <= a < frameAt T)) by (intros Hin; by apply Ha, H4).
    rewrite store32_out by lia. rewrite memset_fill by lia.
    destruct (Z.leb_spec (contextAt T) a), (Z.ltb_spec a (contextAt T + 20)); cbn [andb]; try lia; by rewrite store32_out by lia.
Qed.

Lemma free_pages_frame s s' l T : free_pages kernelEnd s l -> FreeList s' = FreeList s -> page_ok kernelEnd T -> T ∉ l ->
  (forall a, ~ in_page T a -> kmem s' a = kmem s a) -> free_pages kernelEnd s' l.
Proof.
  intros (Hc & Hok & Hnd) E HT Hn Hm. split_and!; try done. rewrite E. apply (freeChain_frame kernelEnd (kmem s)); try done.
  intros q a Hq Ha. apply Hm. apply (in_page_disjoint kernelEnd q T); try done; [by apply (proj1 (Forall_forall _ _) Hok)|congruence].
Qed.

(** The way through. *)
Lemma allocateProcess_ok s p x T rest f file : proc_ready s -> findUnusedSlot 0 (processTable s) = Some p -> processTable s !! p = Some x ->
  free_pages kernelEnd s (T :: rest) -> (3 <= length (OpenFile x))%nat -> firstFree (fileTable s) = Some f -> fileTable s !! f = Some file ->
  0 <= trapret < 4294967296 -> 0 <= forkretAddress < 4294967296 ->
  exists s', allocateProcess trapret forkretAddress s = Ret (Some p) s' /\ page_ok kernelEnd T /\
    processTable s' = <[p := withConsole f (stacked T (embryo (nextpid s) x))]> (processTable s) /\
    nextpid s' = i32 (nextpid s + 1) /\ fileTable s' = <[f := consoleFile file]> (fileTable s) /\ free_pages kernelEnd s' rest /\
    load32 (kmem s') (contextAt T + CTX_EIP) = forkretAddress /\ load32 (kmem s') (frameAt T - 4) = trapret /\
    (forall a, ~ in_page T a -> kmem s' a = kmem s a) /\ (mem_bytes (kmem s) -> mem_bytes (kmem s')) /\ sync s' = settle (sync s).
Proof.
  intros Hr F Hp Hfree Hof G Hfile Htr Hfr. pose proof (lookup_lt_Some _ _ _ Hp) as Hlt.
  destruct (allocateProcess_stacked s p x T rest Hr F Hp Hfree) as (s3 & Hstart & Hr3 & HT & HnT & Ept & Em & Eft & En & Hf3 & Es3).
  destruct (stackMem_spec (kmem s) T HT Htr Hfr) as (Hm1 & Hm2 & Hm3). rewrite Hstart. eexists. split; [|split; [done|]].
  - erewrite bind_Ret; [|eapply (openConsole_eq p f); [done|rewrite Ept; slot_stored|cbn; lia|by rewrite Eft|by rewrite Eft]]. reflexivity.
  - cbn. rewrite Ept, Eft, Em, Es3, settle_settle, list_insert_insert_eq. split_and!; try done.
    + apply (free_pages_frame (set_kmem (kmem s) s3) _ rest T); try done. intros a Ha. cbn. rewrite Em. by apply Hm3.
    + intros Hb. destruct (page_words T HT) as (P1 & P2 & _). unfold stackMem. apply store32_bytes. intros a. unfold CONTEXT_SIZE.
      rewrite memset_fill by lia. case_match; [apply u8_range|by apply store32_bytes].
Qed.

End Allocate.

(** * Properties *)

(** C37. [allocateProcess] on every path.  Without an UNUSED slot it returns the
    null pointer.  Without a free page it returns the null pointer and the slot
    is UNUSED again.  Without a free file structure it goes through a null
    pointer.  Otherwise the first UNUSED slot becomes an EMBRYO with the next
    pid, a kernel stack in a fresh page whose context returns through
    [forkret] to [trapret], and one console file with three references; all
    other processes, files and pages are left alone. *)
Theorem allocateProcess_outcome (kernelEnd trapret forkretAddress : Z) (s : KState) (free : list Z) :
  proc_ready s -> free_pages kernelEnd s free -> Forall (fun x => length (OpenFile x) = 16%nat) (processTable s) ->
  0 <= trapret < 4294967296 -> 0 <= forkretAddress < 4294967296 ->
  match findUnusedSlot 0 (processTable s), free, firstFree (fileTable s) with
  | None, _, _ => Forall (fun x => State x <> UNUSED) (processTable s) /\
      allocateProcess trapret forkretAddress s = Ret None (settled s)
  | Some p, [], _ => exists x s', processTable s !! p = Some x /\ State x = UNUSED /\
      allocateProcess trapret forkretAddress s = Ret None s' /\
      processTable s' = <[p := set_State UNUSED (set_KernelStack 0 (embryo (nextpid s) x))]> (processTable s) /\
      fileTable s' = fileTable s /\ nextpid s' = i32 (nextpid s + 1)
  | Some p, T :: rest, None => allocateProcess trapret forkretAddress s = Fault "allocateProcess: null consoleDevice"
  | Some p, T :: rest, Some f => exists x file s', processTable s !! p = Some x /\ State x = UNUSED /\ fileTable s !! f = Some file /\
      allocateProcess trapret forkretAddress s = Ret (Some p) s' /\
      processTable s' = <[p := withConsole f (stacked T (embryo (nextpid s) x))]> (processTable s) /\
      nextpid s' = i32 (nextpid s + 1) /\
      fileTable s' = <[f := consoleFile file]> (fileTable s) /\ free_pages kernelEnd s' rest /\
      load32 (kmem s') (contextAt T + CTX_EIP) = forkretAddress /\ load32 (kmem s') (frameAt T - 4) = trapret /\
      (forall a, ~ in_page T a -> kmem s' a = kmem s a)
  end.
Proof.
  intros Hr Hfree Hlen Htr Hfr. pose proof Hr as (Hb & Hpt & Hft & Hkm).
  destruct (findUnusedSlot 0 (processTable s)) as [p|] eqn:F.
  2: { split; [pose proof (findUnusedSlot_spec (processTable s) 0) as H; by rewrite F in H|].
       unfold allocateProcess. rewrite (bind_Ret _ _ _ _ _ (acquire_entered _ s Hb Hpt)), bind_gets.
       change (processTable (entered L_processTable s)) with (processTable s). rewrite F.
       erewrite bind_Ret; [|by apply (release_settled _ s)]. done. }
  destruct (findUnusedSlot_Some _ _ F) as (x & Hp & Hx). pose proof (lookup_lt_Some _ _ _ Hp) as Hlt.
  pose proof (proj1 (Forall_lookup _ _) Hlen p x Hp) as Hof. cbn in Hof. destruct free as [|T rest].
  - exists x. eexists. split; [done|]. split; [done|].
    assert (Hs1 : kmem_ready (reserved p x s)) by (right; split; [by apply settle_balanced|by apply settle_lockFree]). split.
    + rewrite (allocateProcess_reserved _ _ s p x) by done. rewrite (bind_Ret _ _ _ _ _ (alloc_empty kernelEnd (reserved p x s) Hfree Hs1)).
      erewrite bind_modify by (unfold kmem_settled; destruct (UseLock (reserved p x s) =? 0); slot_stored).
      change (0 =? 0) with true. cbv iota.
      erewrite bind_modify by (cbn; unfold kmem_settled; destruct (UseLock (reserved p x s) =? 0); slot_stored). reflexivity.
    + unfold kmem_settled. destruct (UseLock (reserved p x s) =? 0); cbn; rewrite !list_insert_insert_eq; done.
  - destruct (allocateProcess_stacked kernelEnd trapret forkretAddress s p x T rest Hr F Hp Hfree)
      as (s3 & Hstart & Hr3 & HT & HnT & Ept & Em & Eft & En & Hf3 & _). rewrite Hstart.
    destruct (firstFree (fileTable s)) as [f|] eqn:G.
    + destruct (firstFree_Some _ _ G) as (file & Hfile & _).
      destruct (allocateProcess_ok kernelEnd trapret forkretAddress s p x T rest f file) as (s' & E' & _ & Ept' & En' & Eft' & Hf' & Hm1 & Hm2 & Hm3 & _); try done; [lia|].
      exists x, file, s'. rewrite <- Hstart. tauto.
    + unfold openConsole. rewrite !bind_assoc. erewrite bind_Ret; [|rewrite alloc_file_eq by (split; apply Hr3); rewrite Eft, G; reflexivity]. done.
Qed.

(** * Exit *)

(** One reference less. *)
Definition closeRef (f : nat) (l : list File) : list File :=
  alter (fun x => if ReferenceCount x >? 1 then set_ReferenceCount (ReferenceCount x - 1) x else closed x) f l.

Fixpoint closeAll (fds : list (option nat)) (l : list File) : list File :=
  match fds with
  | [] => l
  | Some f :: fds => closeAll fds (closeRef f l)
  | None :: fds => closeAll fds l
  end.

(** The descriptors are counted, and none of them is the last end of a pipe. *)
Fixpoint closable (fds : list (option nat)) (l : list File) : Prop :=
  match fds with
  | [] => True
  | Some f :: fds => (exists x, l !! f = Some x /\ 1 <= ReferenceCount x < 2147483648 /\ (ReferenceCount x = 1 -> Type_ x <> FD_PIPE)) /\
      closable fds (closeRef f l)
  | None :: fds => closable fds l
  end.

Lemma fileClose_ref kernelEnd f x s : table_ready s -> settled s = s -> fileTable s !! f = Some x ->
  1 <= ReferenceCount x < 2147483648 -> (ReferenceCount x = 1 -> Type_ x <> FD_PIPE) ->
  fileClose kernelEnd f s = Ret tt (set_fileTable (closeRef f (fileTable s)) s).
Proof.
  intros Hr Hs Hf Hc Ht. rewrite (close_eq kernelEnd f x) by (done || lia). rewrite Hs. rewrite (proj2 (Z.ltb_ge _ _)), Z.gtb_ltb by lia.
  unfold closeRef. rewrite (alter_insert _ _ _ x), Z.gtb_ltb by done. destruct (Z.ltb_spec 1 (ReferenceCount x)); [done|].
  cbv zeta. rewrite decide_False; [done|]. apply Ht. lia.
Qed.

Lemma closeFiles_spec kernelEnd fds : forall p fd s x, table_ready s -> settled s = s -> processTable s !! p = Some x ->
  0 <= fd -> drop (Z.to_nat fd) (OpenFile x) = fds -> closable fds (fileTable s) ->
  closeFiles kernelEnd (length fds) p fd s =
    Ret tt (set_processTable (<[p := set_OpenFile (take (Z.to_nat fd) (OpenFile x) ++ replicate (length fds) None) x]> (processTable s))
      (set_fileTable (closeAll fds (fileTable s)) s)).
Proof.
  induction fds as [|o fds IH]; intros p fd s x Hr Hs Hp Hfd Hd Hc; cbn [length closeFiles closeAll replicate].
  - rewrite app_nil_r, take_ge by (apply (f_equal length) in Hd; rewrite length_drop in Hd; cbn in Hd; lia).
    replace (set_OpenFile (OpenFile x) x) with x by (by destruct x). rewrite list_insert_id by done. by destruct s.
  - pose proof (lookup_lt_Some _ _ _ Hp) as Hlt. assert (Ho : OpenFile x !! Z.to_nat fd = Some o).
    { rewrite <- (Nat.add_0_r (Z.to_nat fd)), <- lookup_drop, Hd. done. }
    pose proof (lookup_lt_Some _ _ _ Ho) as Hol. assert (Hd' : drop (Z.to_nat (fd + 1)) (OpenFile x) = fds).
    { replace (Z.to_nat (fd + 1)) with (Z.to_nat fd + 1)%nat by lia. rewrite <- drop_drop, Hd. done. }
    assert (Htk : forall v, take (Z.to_nat (fd + 1)) (<[Z.to_nat fd := v]> (OpenFile x)) = take (Z.to_nat fd) (OpenFile x) ++ [v]).
    { intros v. replace (Z.to_nat (fd + 1)) with (S (Z.to_nat fd)) by lia. rewrite (take_S_r _ _ v) by (by apply list_lookup_insert_eq).
      by rewrite take_insert_ge by lia. }
    rewrite (bind_getProcess p x) by done.
    rewrite (proj2 (rd_Some (OpenFile x) fd o)), bind_checked by done. destruct o as [f|].
    + destruct Hc as [(y & Hy & Hcy & Hty) Hc].
      rewrite bind_assoc. erewrite bind_Ret; [|by apply (fileClose_ref kernelEnd f y)].
      erewrite bind_Ret; [|apply (setOpenFile_eq p fd None x); [done|lia]].
      erewrite (IH p (fd + 1) _ (set_OpenFile (<[Z.to_nat fd := None]> (OpenFile x)) x)).
      * cbn. rewrite list_insert_insert_eq, Htk, <- app_assoc. done.
      * exact Hr.
      * apply (f_equal sync) in Hs. cbn in Hs. unfold settled. cbn. by rewrite Hs.
      * slot_stored.
      * lia.
      * cbn. by rewrite drop_insert_lt by lia.
      * exact Hc.
    + rewrite bind_mret. rewrite (IH p (fd + 1) s x) by (done || lia). do 3 f_equal. f_equal.
      replace (Z.to_nat (fd + 1)) with (S (Z.to_nat fd)) by lia. rewrite (take_S_r _ _ None), <- app_assoc by done. done.
Qed.

(** ** The children *)

Definition adopt (init : option nat) (cur : nat) (x : Process) : Process :=
  if bool_decide (Parent x = Some cur) then set_Parent init x else x.

Definition orphanZombie (cur : nat) (x : Process) : bool := bool_decide (Parent x = Some cur) && bool_decide (State x = ZOMBIE).

Definition wakeIf (b : bool) (chan : option ChanId) (l : list Process) : list Process := if b then map (wake1 chan) l else l.

Lemma wake1_idem chan x : wake1 chan (wake1 chan x) = wake1 chan x.
Proof. unfold wake1. destruct (bool_decide (State x = SLEEPING) && bool_decide (Chan x = chan)) eqn:E; [done|by rewrite E]. Qed.

Lemma adopt_wake init cur chan x : adopt init cur (wake1 chan x) = wake1 chan (adopt init cur x).
Proof.
  unfold adopt, wake1.
  destruct (bool_decide (Parent x = Some cur)) eqn:E1, (bool_decide (State x = SLEEPING) && bool_decide (Chan x = chan)) eqn:E2;
    cbn; rewrite ?E1, ?E2; done.
Qed.

Lemma orphan_wake cur chan x : orphanZombie cur (wake1 chan x) = orphanZombie cur x.
Proof.
  unfold orphanZombie, wake1. destruct (bool_decide (State x = SLEEPING) && bool_decide (Chan x = chan)) eqn:E; [|done].
  apply andb_true_iff in E as [E%bool_decide_eq_true _]. cbn [Parent State set_State].
  by rewrite (bool_decide_eq_false_2 (RUNNABLE = ZOMBIE)), (bool_decide_eq_false_2 (State x = ZOMBIE)) by congruence.
Qed.

Lemma existsb_map_wake cur chan l : existsb (orphanZombie cur) (map (wake1 chan) l) = existsb (orphanZombie cur) l.
Proof. induction l as [|x l IH]; [done|]. cbn. by rewrite orphan_wake, IH. Qed.

Lemma set_processTable_twice l l' s : set_processTable l (set_processTable l' s) = set_processTable l s.
Proof. done. Qed.

Lemma passChildren_spec cur n : forall l1 l2 s, length l2 = n -> processTable s = l1 ++ l2 ->
  passChildren n cur (length l1) s =
    Ret tt (set_processTable (wakeIf (existsb (orphanZombie cur) l2) (Ch_process <$> initproc s) (l1 ++ map (adopt (initproc s) cur) l2)) s).
Proof.
  induction n as [|n IH]; intros l1 l2 s Hn Es; destruct l2 as [|x l2]; try discriminate Hn;
    cbn [length passChildren existsb map]; [|injection Hn as Hn].
  - unfold wakeIf. rewrite app_nil_r in *. rewrite <- Es. by destruct s.
  - set (chan := Ch_process <$> initproc s). set (x' := adopt (initproc s) cur x).
    assert (Hx : processTable s !! length l1 = Some x) by (rewrite Es; by apply list_lookup_middle).
    rewrite (bind_getProcess _ x) by done.
    assert (Hfirst : (if bool_decide (Parent x = Some cur) then
         init ← gets initproc;
         modifyProcess (length l1) (set_Parent init);;
         if bool_decide (State x = ZOMBIE) then wakeup1 (Ch_process <$> init) else mret tt
       else mret tt) s = Ret tt (set_processTable (wakeIf (orphanZombie cur x) chan ((l1 ++ [x']) ++ l2)) s)).
    { unfold orphanZombie, wakeIf, x', adopt. rewrite <- app_assoc. cbn [app]. case_bool_decide as Ep; cbn [andb].
      - rewrite bind_gets, (bind_modify _ _ x), Es, insert_app_r_alt, Nat.sub_diag by (done || lia). cbn [insert list_insert].
        by case_bool_decide.
      - rewrite <- Es. by destruct s. }
    rewrite (bind_Ret _ _ _ _ _ Hfirst). set (s1 := set_processTable _ s).
    destruct (orphanZombie cur x) eqn:Eo; cbn [orb].
    + assert (E1 : processTable s1 = map (wake1 chan) (l1 ++ [x']) ++ map (wake1 chan) l2) by (cbn; by rewrite map_app).
      replace (S (length l1)) with (length (map (wake1 chan) (l1 ++ [x']))) by (rewrite length_map, length_app; cbn; lia).
      rewrite (IH _ _ s1 ltac:(by rewrite length_map) E1). f_equal. change (initproc s1) with (initproc s). unfold s1.
      rewrite set_processTable_twice, existsb_map_wake. f_equal. fold chan.
      assert (Em : map (adopt (initproc s) cur) (map (wake1 chan) l2) = map (wake1 chan) (map (adopt (initproc s) cur) l2)).
      { rewrite !map_map. apply map_ext. intros y. apply adopt_wake. }
      rewrite Em, <- map_app, <- app_assoc. cbn [app]. unfold wakeIf. destruct (existsb (orphanZombie cur) l2); [|done].
      rewrite map_map. apply map_ext. intros y. apply wake1_idem.
    + assert (E1 : processTable s1 = (l1 ++ [x']) ++ l2) by done.
      replace (S (length l1)) with (length (l1 ++ [x'])) by (rewrite length_app; cbn; lia).
      rewrite (IH _ _ s1 Hn E1). f_equal. change (initproc s1) with (initproc s). unfold s1. rewrite set_processTable_twice.
      f_equal. fold chan. by rewrite <- app_assoc.
Qed.

Lemma curproc_eq s p : thread (sync s) p -> curproc s = Ret p (settled s).
Proof.
  intros Ht. pose proof (thread_balanced 1 _ _ ltac:(lia) Ht) as Hb. destruct Ht as (c & cp & Hc & _ & Hp). unfold curproc.
  rewrite (bind_Ret _ _ _ _ _ (currentProcess_eq s c cp Hb Hc)), Hp. done.
Qed.

Lemma clear_string c c' r n : 1 < n -> arr_safestrcpy (c :: c' :: r) [0] n = Some (0 :: 0 :: r).
Proof.
  intros Hn. unfold arr_safestrcpy. rewrite (proj2 (Z.leb_gt _ _)) by lia. destruct (Z.to_nat n) as [|[|k]] eqn:E; [lia|lia|].
  reflexivity.
Qed.

Lemma existsb_insert (f : Process -> bool) l : forall p x x', f x = f x' -> existsb f (<[p := x]> l) = existsb f (<[p := x']> l).
Proof. induction l as [|z l IH]; intros [|p] x x' E; cbn; try done; [by rewrite E|]. f_equal. by apply IH. Qed.

(** What exit makes of another process. *)
Definition afterExit (init : option nat) (cur : nat) (parent : option nat) (zombies : bool) (z : Process) : Process :=
  let z := adopt init cur (wake1 (Ch_process <$> parent) z) in if zombies then wake1 (Ch_process <$> init) z else z.

Lemma wakeIf_map b chan (f : Process -> Process) l : wakeIf b chan (map f l) = map (fun z => if b then wake1 chan (f z) else f z) l.
Proof. destruct b; [apply map_map|done]. Qed.

(** C36. [exit] never returns to its caller: the process becomes a ZOMBIE without
    open files and stays switched out.  Every file loses the references of the
    process (none of which may be the last one to a pipe end), the parent is woken up if it waits, and the children are passed on
    to init, which is woken up if one of them is a ZOMBIE; nothing else in the
    process table changes. *)
Theorem exit_outcome `{Scheduler} (kernelEnd : Z) (p : nat) (x : Process) (s : KState) :
  thread (sync s) p -> lockFree (sync s) L_processTable -> lockFree (sync s) L_FileTable ->
  length (processTable s) = 64%nat -> processTable s !! p = Some x -> State x = RUNNING -> initproc s <> Some p ->
  length (OpenFile x) = 16%nat -> length (Cwd x) = 200%nat -> closable (OpenFile x) (fileTable s) -> (forall s, resume s = None) ->
  exists s' y, exit kernelEnd s = Sleep s' /\
    processTable s' !! p = Some y /\ State y = ZOMBIE /\ OpenFile y = replicate 16 None /\ ProcessId y = ProcessId x /\
    fileTable s' = closeAll (OpenFile x) (fileTable s) /\
    forall q z, q <> p -> processTable s !! q = Some z ->
      processTable s' !! q = Some (afterExit (initproc s) p (Parent x)
        (existsb (fun z => bool_decide (Parent z = Some p) && bool_decide (State z = ZOMBIE)) (processTable s)) z).
Proof.
  intros Ht Hpt Hft Hlen Hp Hrun Hinit Hof Hcwd Hclose Hno. pose proof (lookup_lt_Some _ _ _ Hp) as Hlt.
  pose proof (thread_balanced 1 _ _ ltac:(lia) Ht) as Hb. set (s1 := settled s). set (init := initproc s).
  assert (Hr1 : table_ready s1) by (split; [by apply settle_balanced|by apply settle_lockFree]).
  destruct (Cwd x) as [|c0 [|c1 cr]] eqn:Ecwd; [done|done|].
  set (x1 := set_OpenFile (replicate 16 None) x). set (x2 := set_Cwd (0 :: 0 :: cr) x1).
  set (s2 := set_processTable (<[p := x2]> (processTable s)) (set_fileTable (closeAll (OpenFile x) (fileTable s)) s1)).
  set (t2 := map (wake1 (Ch_process <$> Parent x)) (<[p := x2]> (processTable s))).
  set (b := existsb (orphanZombie p) t2). set (t3 := wakeIf b (Ch_process <$> init) (map (adopt init p) t2)).
  assert (Hl3 : length t3 = length (processTable s)).
  { unfold t3, wakeIf, t2. destruct b; by rewrite ?length_map, length_insert. }
  assert (Hl3p : (p < length t3)%nat) by (by rewrite Hl3).
  destruct (lookup_lt_is_Some_2 t3 p) as [y3 Hy3]; [done|].
  set (s4 := set_processTable (<[p := set_State ZOMBIE y3]> t3) (entered L_processTable s2)).
  assert (Hexit : exit kernelEnd s = (sched;; panic "zombie exit") s4).
  { unfold exit. rewrite (bind_Ret _ _ _ _ _ (curproc_eq s p Ht)), bind_gets. rewrite bool_decide_eq_false_2 by (intros E; by apply Hinit).
    change (Z.to_nat NOFILE) with 16%nat. rewrite <- Hof at 1.
    erewrite bind_Ret; [|apply (closeFiles_spec kernelEnd (OpenFile x) p 0 s1 x); [done|by apply settled_settled|done|lia|done|done]].
    rewrite Hof. change (take (Z.to_nat 0) (OpenFile x) ++ replicate 16 None) with (replicate 16 (@None nat)).
    erewrite bind_getProcess by slot_stored. cbn [Cwd set_OpenFile]. rewrite Ecwd, clear_string, bind_checked by (unfold MAXCWDSIZE; lia).
    erewrite bind_modify by slot_stored. cbn [processTable set_processTable]. rewrite list_insert_insert_eq. fold x1 x2.
    erewrite bind_Ret; [|apply acquire_entered; [by apply settle_balanced|by apply settle_lockFree]].
    erewrite bind_getProcess by slot_stored. unfold wakeup1 at 1. rewrite bind_puts.
    erewrite bind_Ret; [|apply (passChildren_spec p (Z.to_nat NPROC) [] t2); [unfold t2; rewrite length_map, length_insert; exact Hlen|reflexivity]].
    cbn [app]. erewrite bind_modify by exact Hy3. done. }
  assert (Hsched : sched s4 = Sleep s4).
  { rewrite (sched_spec p (set_State ZOMBIE y3) (settle (sync s))); [by rewrite Hno|done|by apply thread_settle|by apply settle_lockFree|slot_stored|done]. }
  assert (Hb' : b = existsb (fun z => bool_decide (Parent z = Some p) && bool_decide (State z = ZOMBIE)) (processTable s)).
  { unfold b, t2. rewrite existsb_map_wake. fold (orphanZombie p). rewrite <- (list_insert_id (processTable s) p x Hp) at 2.
    apply existsb_insert. done. }
  exists s4, (set_State ZOMBIE y3). split; [rewrite Hexit; by apply bind_Sleep|]. split; [slot_stored|].
  unfold t3, t2 in Hy3. rewrite wakeIf_map, map_map in Hy3. change (map ?f ?l) with (f <$> l) in Hy3.
  rewrite list_lookup_fmap, list_lookup_insert_eq in Hy3 by done. cbn in Hy3. injection Hy3 as <-.
  split; [done|]. split; [|split; [|split; [done|]]].
  - unfold wake1, adopt, x2, x1. cbn. rewrite Hrun. by repeat case_match.
  - unfold wake1, adopt, x2, x1. cbn. rewrite Hrun. by repeat case_match.
  - intros q z Hq Hz. cbn. rewrite list_lookup_insert_ne by done. unfold t3, t2. rewrite wakeIf_map, map_map.
    change (map ?f ?l) with (f <$> l). rewrite list_lookup_fmap, list_lookup_insert_ne, Hz by done. cbn. by rewrite Hb'.
Qed.

(** * Wait *)

Definition isChild (cur : nat) (x : Process) : bool := bool_decide (Parent x = Some cur).

(** The search passes over processes that are no exited children. *)
Lemma reap_skip kernelEnd cur n l2 : forall l1 l3 s b, processTable s = l1 ++ l2 ++ l3 -> existsb (orphanZombie cur) l2 = false ->
  reap kernelEnd (length l2 + n) cur (length l1) b s = reap kernelEnd n cur (length l1 + length l2) (b || existsb (isChild cur) l2) s.
Proof.
  induction l2 as [|x l2 IH]; intros l1 l3 s b Es Hz; cbn [length existsb app] in *; [by rewrite orb_false_r, Nat.add_0_r|].
  apply orb_false_iff in Hz as [Hx Hz]. cbn [Nat.add reap]. rewrite (bind_getProcess _ x) by (rewrite Es; by apply list_lookup_middle).
  assert (Es' : processTable s = (l1 ++ [x]) ++ l2 ++ l3) by (by rewrite <- app_assoc).
  replace (S (length l1)) with (length (l1 ++ [x])) by (rewrite length_app; cbn; lia).
  replace (length l1 + S (length l2))%nat with (length (l1 ++ [x]) + length l2)%nat by (rewrite length_app; cbn; lia).
  unfold orphanZombie in Hx. unfold isChild at 1. destruct (bool_decide (Parent x = Some cur)); cbn [negb andb orb] in *.
  - rewrite Hx, (IH _ l3 s true Es' Hz). by rewrite orb_true_r.
  - by rewrite (IH _ l3 s b Es' Hz).
Qed.

Lemma reap_none kernelEnd cur l2 l1 s b : processTable s = l1 ++ l2 -> existsb (orphanZombie cur) l2 = false ->
  reap kernelEnd (length l2) cur (length l1) b s = Ret (inr (b || existsb (isChild cur) l2)) s.
Proof.
  intros Es Hz. rewrite <- (Nat.add_0_r (length l2)), (reap_skip kernelEnd cur 0 l2 l1 []) by (by rewrite ?app_nil_r). done.
Qed.

(** Sleeping with the lock of the process table. *)
Lemma sleep_table `{Scheduler} chan p y s x : sync s = acq L_processTable y -> thread y p -> lockFree y L_processTable ->
  processTable s !! p = Some x -> (forall s, resume s = None) ->
  sleep chan (Some L_processTable) s =
    Sleep (set_processTable (<[p := set_State SLEEPING (set_Chan (Some chan) x)]> (processTable s)) s).
Proof.
  intros Es Ht Hl Hp Hno. pose proof (lookup_lt_Some _ _ _ Hp) as Hlt. unfold sleep.
  rewrite (bind_Ret _ _ _ _ _ (currentProcess_section _ s y p Es Ht)). rewrite bool_decide_eq_true_2 by done. cbn [negb]. rewrite bind_mret.
  rewrite (bind_getProcess p x), bind_putProcess by done. erewrite bind_getProcess by slot_stored. rewrite bind_putProcess.
  apply bind_Sleep. erewrite sched_spec; [rewrite Hno|exact Es|exact Ht|exact Hl|slot_stored|done]. cbn. by rewrite list_insert_insert_eq.
Qed.

(** [wait] when no child has exited.  A process without children, or one
    that has been killed, gets -1 at once and the table is unlocked; any other
    one goes to sleep on itself, which is where [exit] of a child will wake it
    up. *)
Theorem wait_no_zombie `{Scheduler} (kernelEnd : Z) (p : nat) (x : Process) (s : KState) :
  thread (sync s) p -> lockFree (sync s) L_processTable ->
  length (processTable s) = 64%nat -> processTable s !! p = Some x ->
  existsb (fun z => bool_decide (Parent z = Some p) && bool_decide (State z = ZOMBIE)) (processTable s) = false ->
  ((Forall (fun z => Parent z <> Some p) (processTable s) \/ IsKilled x <> 0) -> wait kernelEnd s = Ret (-1) (settled s)) /\
  (Exists (fun z => Parent z = Some p) (processTable s) -> IsKilled x = 0 -> (0 < wakeups)%nat -> (forall s, resume s = None) ->
   exists s', wait kernelEnd s = Sleep s' /\
     processTable s' = <[p := set_State SLEEPING (set_Chan (Some (Ch_process p)) x)]> (processTable s)).
Proof.
  intros Ht Hpt Hlen Hp Hz. pose proof (thread_balanced 1 _ _ ltac:(lia) Ht) as Hb.
  assert (Hb1 : balanced 1 (sync (settled s))) by (by apply settle_balanced). assert (Hl1 : lockFree (sync (settled s)) L_processTable) by (by apply settle_lockFree).
  set (s1 := entered L_processTable (settled s)).
  assert (Hreap : reap kernelEnd (Z.to_nat NPROC) p 0 false s1 = Ret (inr (existsb (isChild p) (processTable s))) s1).
  { change (Z.to_nat NPROC) with 64%nat. rewrite <- Hlen. by apply (reap_none kernelEnd p (processTable s) [] s1 false). }
  assert (Hwait : wait kernelEnd s = waitLoop kernelEnd wakeups p s1).
  { unfold wait. rewrite (bind_Ret _ _ _ _ _ (curproc_eq s p Ht)). by rewrite (bind_Ret _ _ _ _ _ (acquire_entered _ _ Hb1 Hl1)). }
  rewrite Hwait. split.
  - intros Hcase. assert (Hgo : negb (existsb (isChild p) (processTable s)) || negb (IsKilled x =? 0) = true).
    { destruct Hcase as [Hk|Hk]; [|rewrite (proj2 (Z.eqb_neq _ _) Hk); apply orb_true_r].
      replace (existsb (isChild p) (processTable s)) with false; [done|]. symmetry. apply not_true_iff_false. intros (z & Hin & Hc)%existsb_exists.
      apply list_elem_of_In in Hin. unfold isChild in Hc. apply bool_decide_eq_true in Hc. exact (proj1 (Forall_forall _ _) Hk z Hin Hc). }
    destruct wakeups; cbn [waitLoop]; rewrite (bind_Ret _ _ _ _ _ Hreap), (bind_getProcess p x), Hgo by done;
      (erewrite bind_Ret; [|by apply (release_settled _ (settled s))]); unfold mret, M_ret; f_equal; cbn; by rewrite settle_settle.
  - intros Hkid Hk Hw Hno. assert (Hgo : negb (existsb (isChild p) (processTable s)) || negb (IsKilled x =? 0) = false).
    { rewrite Hk. replace (existsb (isChild p) (processTable s)) with true; [done|]. symmetry. apply existsb_exists.
      apply Exists_exists in Hkid as (z & Hin & Hc). exists z. split; [by apply list_elem_of_In|]. by apply bool_decide_eq_true. }
    destruct wakeups as [|w]; [lia|]. eexists. cbn [waitLoop]. rewrite (bind_Ret _ _ _ _ _ Hreap), (bind_getProcess p x), Hgo by done. split.
    + apply bind_Sleep. apply (sleep_table _ p (sync (settled s)) s1 x); try done. by apply thread_settle.
    + done.
Qed.

(** * A concrete kernel *)

Definition demoProcKernel : KState := set_FreeList 2155884544 demoFileKernel.

Lemma demoProc_ready : proc_ready demoProcKernel.
Proof. split_and!; [by apply demoKernel_balanced|apply demoKernel_free; unfold demoLockList; set_solver..]. Qed.

Lemma demoProc_files : Forall (fun x => length (OpenFile x) = 16%nat) (demoProcess :: replicate 63 unusedProcess).
Proof. constructor; [done|]. by apply Forall_replicate. Qed.

Lemma allocateProcess_outcome_witness :
  exists s', allocateProcess 2148532224 2148536320 demoProcKernel = Ret (Some 1%nat) s' /\ nextpid s' = 3 /\
    ProcessId <$> processTable s' !! 1%nat = Some 2.
Proof.
  assert (H := allocateProcess_outcome demoEnd 2148532224 2148536320 demoProcKernel [2155884544] demoProc_ready).
  destruct H as (x & file & s' & Hx & _ & _ & E & Ht & Hn & _).
  - split_and!; [split; reflexivity|repeat constructor; vm_compute; congruence|apply NoDup_singleton].
  - exact demoProc_files.
  - lia.
  - lia.
  - exists s'. split; [exact E|]. split; [exact Hn|]. rewrite Ht. reflexivity.
Defined.

(** Process 0 exits; init is process 1, its parent. *)
Definition demoExitKernel : KState :=
  set_initproc (Some 1%nat) (set_processTable (set_Parent (Some 1%nat) demoProcess :: replicate 63 unusedProcess) demoFileKernel).

Lemma exit_outcome_witness :
  exists s' y, @exit demoEnd demoAlone demoExitKernel = Sleep s' /\ processTable s' !! 0%nat = Some y /\ State y = ZOMBIE.
Proof.
  destruct (@exit_outcome demoAlone demoEnd 0 (set_Parent (Some 1%nat) demoProcess) demoExitKernel) as (s' & y & H1 & H2 & H3 & _);
    [exact demoKernel_thread|exact demoKernel_table|apply demoKernel_free; unfold demoLockList; set_solver|reflexivity|reflexivity|reflexivity
    |discriminate|reflexivity|reflexivity|cbn; tauto|reflexivity|].
  exists s', y. split; [exact H1|]. split; [exact H2|exact H3].
Defined.

Lemma wait_no_zombie_witness : @wait demoEnd demoAlone demoKernel = Ret (-1) (settled demoKernel).
Proof.
  destruct (@wait_no_zombie demoAlone demoEnd 0 demoProcess demoKernel) as [H _];
    [exact demoKernel_thread|exact demoKernel_table|reflexivity|reflexivity|reflexivity|].
  apply H. left. constructor; [discriminate|]. apply Forall_replicate. discriminate.
Defined.
