(* ===== verification/Fork.v ===== *)
(** The birth and the end of a process over all components: [fork] duplicates
    memory, files and registers of the parent, and [wait] returns every page
    that a child has used. *)

From S2P Require Import Prelude CString CArray Types Fat12 Fat12Dir Fat12Open Spinlock Kernel Kalloc Sched Files Vm Space Proc.

(** * Open files *)

(** How often [fds] refers to file [g]. *)
Definition refsTo (g : nat) (fds : list (option nat)) : Z := Z.of_nat (length (filter (fun o => o = Some g) fds)).

(** The descriptors of the child: the parent's where it has one. *)
Definition inherit (parent child : list (option nat)) : list (option nat) :=
  zip_with (fun a b => match a with Some _ => a | None => b end) parent child.

Lemma refsTo_cons g o fds : refsTo g (o :: fds) = (if decide (o = Some g) then 1 else 0) + refsTo g fds.
Proof. unfold refsTo. rewrite filter_cons. case_decide; cbn [length]; lia. Qed.

Lemma refsTo_range g fds : 0 <= refsTo g fds <= Z.of_nat (length fds).
Proof. induction fds as [|o fds IH]; [done|]. rewrite refsTo_cons. cbn [length]. case_decide; lia. Qed.

Lemma refsTo_none g fds : Some g ∉ fds -> refsTo g fds = 0.
Proof.
  induction fds as [|o fds IH]; [done|]. intros [H1 H2]%not_elem_of_cons. rewrite refsTo_cons, decide_False, IH by (done || congruence). done.
Qed.

Lemma add_zero f : set_ReferenceCount (ReferenceCount f + 0) f = f.
Proof. rewrite Z.add_0_r. by destruct f. Qed.

Lemma dupFiles_spec l : forall np fd s x front back, table_ready s -> settled s = s -> processTable s !! np = Some x ->
  OpenFile x = front ++ back -> fd = Z.of_nat (length front) -> length back = length l ->
  (forall g, Some g ∈ l -> exists file, fileTable s !! g = Some file /\ 1 <= ReferenceCount file /\ ReferenceCount file + Z.of_nat (length l) <= 2147483647) ->
  exists files, dupFiles np fd l s =
      Ret tt (set_processTable (<[np := set_OpenFile (front ++ inherit l back) x]> (processTable s)) (set_fileTable files s)) /\
    length files = length (fileTable s) /\
    (forall g file, fileTable s !! g = Some file -> files !! g = Some (set_ReferenceCount (ReferenceCount file + refsTo g l) file)).
Proof.
  induction l as [|o l IH]; intros np fd s x front back Hr Hs Hp Hof Hfd Hlen Hrefs.
  - exists (fileTable s). destruct back; [|done]. cbn [dupFiles inherit zip_with]. rewrite app_nil_r in *. split_and!; [|done|].
    + rewrite <- Hof. replace (set_OpenFile (OpenFile x) x) with x by (by destruct x). rewrite list_insert_id by done. by destruct s.
    + intros g file Hg. change (refsTo g []) with 0. by rewrite add_zero.
  - destruct back as [|b back]; [done|]. cbn [length] in *. cbn [dupFiles]. pose proof (lookup_lt_Some _ _ _ Hp) as Hlt.
    assert (Hnext : forall v, <[Z.to_nat fd := v]> (front ++ b :: back) = (front ++ [v]) ++ back).
    { intros v. rewrite Hfd, Nat2Z.id, insert_app_r_alt, Nat.sub_diag by lia. cbn. by rewrite <- app_assoc. }
    destruct o as [f|].
    + destruct (Hrefs f ltac:(left)) as (file & Hf & Hc1 & Hc2). pose proof (lookup_lt_Some _ _ _ Hf) as Hlf.
      rewrite bind_assoc. erewrite bind_Ret; [|apply (dup_ok f file); [done|done|lia]].
      erewrite bind_Ret; [|apply (setOpenFile_eq np fd (Some f) x); [exact Hp|rewrite Hof, length_app; cbn [length]; lia]].
      set (t1 := <[f := set_ReferenceCount (ReferenceCount file + 1) file]> (fileTable s)).
      set (x1 := set_OpenFile (<[Z.to_nat fd := Some f]> (OpenFile x)) x). rewrite Hs.
      set (s1 := set_processTable (<[np := x1]> (processTable s)) (set_fileTable t1 s)).
      destruct (IH np (fd + 1) s1 x1 (front ++ [Some f]) back) as (files & E & L & H); [done| |slot_stored| | |lia| |].
      { apply (f_equal sync) in Hs. unfold settled in *. cbn in *. by rewrite Hs. }
      { unfold x1. cbn [OpenFile set_OpenFile]. rewrite Hof. apply Hnext. }
      { rewrite length_app. cbn [length]. lia. }
      { intros g Hg. destruct (Hrefs g ltac:(by right)) as (file' & Hg' & Hd1 & Hd2). cbn [s1 fileTable set_fileTable set_processTable]. unfold t1.
        destruct (decide (g = f)) as [->|Hne].
        - rewrite list_lookup_insert_eq by done. eexists. split; [done|]. cbn [ReferenceCount set_ReferenceCount]. simplify_eq. lia.
        - rewrite list_lookup_insert_ne by done. exists file'. split; [done|]. lia. }
      exists files. split_and!.
      * change (set_processTable (<[np:=x1]> (processTable (set_fileTable t1 s))) (set_fileTable t1 s)) with s1. rewrite E. unfold s1. cbn.
        rewrite list_insert_insert_eq. cbn [inherit zip_with]. rewrite <- app_assoc. done.
      * rewrite L. unfold s1, t1. cbn. apply length_insert.
      * intros g y Hg. rewrite refsTo_cons. destruct (decide (g = f)) as [->|Hne].
        -- rewrite Hf in Hg. simplify_eq. rewrite (H f (set_ReferenceCount (ReferenceCount y + 1) y)) by slot_stored. cbn. rewrite decide_True by done.
           f_equal. rewrite <- Z.add_assoc. by destruct y.
        -- rewrite (H g y); [|cbn; unfold t1; by rewrite list_lookup_insert_ne]. rewrite decide_False by congruence. done.
    + rewrite bind_mret. destruct (IH np (fd + 1) s x (front ++ [b]) back) as (files & E & L & H); try done; try lia.
      { by rewrite <- app_assoc. }
      { rewrite length_app. cbn [length]. lia. }
      { intros g Hg. destruct (Hrefs g ltac:(by right)) as (file' & Hg' & Hd1 & Hd2). exists file'. split; [done|]. lia. }
      exists files. split_and!; [|done|].
      * rewrite E. cbn [inherit zip_with]. by rewrite <- app_assoc.
      * intros g y Hg. rewrite (H g y Hg), refsTo_cons, decide_False by done. done.
Qed.

(** * Fork *)

Section Fork.
Context (kernelEnd data trapret forkretAddress : Z).
Notation page_ok := (page_ok kernelEnd).
Notation vm_state := (vm_state kernelEnd).
Notation as_ok := (as_ok kernelEnd).

(** The child's trap frame: the parent's with eax cleared. *)
Definition childFrame (m : mem) (T K : Z) : mem :=
  store32 (memmove m (frameAt T) (frameAt K) TRAPFRAME_SIZE) (padd (frameAt T) TF_EAX) 0.

Lemma childFrame_spec m T K : page_ok T -> page_ok K -> T <> K -> mem_bytes m ->
  mem_bytes (childFrame m T K) /\ (forall a, ~ (frameAt T <= a < T + 4096) -> childFrame m T K a = m a) /\
  (forall i, 0 <= i < TRAPFRAME_SIZE ->
    childFrame m T K (frameAt T + i) = if decide (TF_EAX <= i < TF_EAX + 4) then 0 else m (frameAt K + i)).
Proof.
  intros HT HK Hne Hb. pose proof (page_range _ _ HT) as HTr. pose proof (page_range _ _ HK) as HKr.
  destruct HT as (_ & HTm & _ & _). destruct HK as (_ & HKm & _ & _).
  unfold childFrame, frameAt, KSTACKSIZE, TRAPFRAME_SIZE, TF_EAX, PGSIZE in *. rewrite padd_small by lia.
  assert (Hmv : forall a, memmove m (T + 4096 - 76) (K + 4096 - 76) 76 a =
    if (T + 4096 - 76 <=? a) && (a <? T + 4096 - 76 + 76) then m (K + 4096 - 76 + (a - (T + 4096 - 76))) else m a).
  { intros a. apply memmove_block; lia. }
  split_and!.
  - apply store32_bytes. intros a. rewrite Hmv. case_match; apply Hb.
  - intros a Ha. rewrite store32_out by lia. rewrite Hmv. destruct (Z.leb_spec (T + 4096 - 76) a), (Z.ltb_spec a (T + 4096 - 76 + 76)); cbn [andb]; (done || lia).
  - intros i Hi. case_decide as D.
    + replace (T + 4096 - 76 + i) with (T + 4096 - 76 + 28 + (i - 28)) by lia.
      assert (Hz : forall k, 0 <= k < 4 -> store32 (memmove m (T + 4096 - 76) (K + 4096 - 76) 76) (T + 4096 - 76 + 28) 0 (T + 4096 - 76 + 28 + k) = 0).
      { intros k Hk. unfold store32, upd. rewrite !padd_small by lia. repeat case_match; try done; lia. }
      apply Hz. lia.
    + rewrite store32_out by lia. rewrite Hmv, (proj2 (Z.leb_le _ _)), (proj2 (Z.ltb_lt _ _)) by lia. cbn [andb]. f_equal. lia.
Qed.

(** A parent that can be copied: its memory is mapped up to its size, its kernel
    stack [K] holds its trap frame, its files are counted, and there are pages
    for the copy ([T] and [D] first). *)
Record can_fork (s : KState) (cur : nat) (c : Process) (K T D : Z) (free : list Z) : Prop := {
  cf_thread : thread (sync s) cur;
  cf_ready : proc_ready s;
  cf_cur : processTable s !! cur = Some c;
  cf_live : State c <> UNUSED;
  cf_vm : vm_state s (PageTable c) (T :: D :: free);
  cf_as : as_ok (kmem s) (PageTable c) (T :: D :: free);
  cf_size : 0 <= MemorySize c < KERNBASE - 4096;
  cf_mapped v : 0 <= v < PGROUNDUP (MemorySize c) -> present (entry (kmem s) (PageTable c) v) = true;
  cf_pages : (66 + 2 * newPages 0 (MemorySize c) <= length free)%nat;
  cf_frame : Trapframe c = frameAt K;
  cf_stack : page_ok K /\ K ∉ T :: D :: free /\ apart kernelEnd (kmem s) (PageTable c) (T :: D :: free) K;
  cf_files g : Some g ∈ OpenFile c ->
    exists file, fileTable s !! g = Some file /\ 1 <= ReferenceCount file <= 2147483631;
  cf_arrays : Forall (fun x => length (OpenFile x) = 16%nat /\ length (Cwd x) = 200%nat /\ length (ProcName x) = 16%nat) (processTable s)
}.

(** The last part of [fork], from the filling of the child's trap frame on. *)
Lemma fork_tail s cur c np x f K T cwd rc name rn :
  table_ready s -> lockFree (sync s) L_processTable -> settled s = s -> processTable s !! np = Some x ->
  OpenFile x = f -> length f = 16%nat -> length (OpenFile c) = 16%nat -> Trapframe x = frameAt T -> Trapframe c = frameAt K ->
  (forall g, Some g ∈ OpenFile c -> exists file, fileTable s !! g = Some file /\ 1 <= ReferenceCount file <= 2147483631) ->
  length (Cwd x) = 200%nat -> length (ProcName x) = 16%nat -> (length cwd < 200)%nat -> (length name < 16)%nat ->
  Cwd c = cwd ++ 0 :: rc -> nonul cwd -> ProcName c = name ++ 0 :: rn -> nonul name ->
  exists files tc tn,
  (modifyProcess np (fun x => set_Parent (Some cur) (set_MemorySize (MemorySize c) x));;
   x ← getProcess np;
   puts (fun s => set_kmem (memmove (kmem s) (Trapframe x) (Trapframe c) TRAPFRAME_SIZE) s);;
   writeWord (padd (Trapframe x) TF_EAX) 0;;
   dupFiles np 0 (OpenFile c);;
   cwd ← checked "safestrcpy" (arr_safestrcpy (Cwd x) (Cwd c) MAXCWDSIZE);
   modifyProcess np (set_Cwd cwd);;
   name ← checked "safestrcpy" (arr_safestrcpy (ProcName x) (ProcName c) 16);
   modifyProcess np (set_ProcName name);;
   let pid := ProcessId x in
   acquire L_processTable;;
   modifyProcess np (set_State RUNNABLE);;
   release L_processTable;;
   mret pid) s =
  Ret (ProcessId x) (set_processTable (<[np := set_State RUNNABLE (set_ProcName (name ++ 0 :: tn) (set_Cwd (cwd ++ 0 :: tc)
      (set_OpenFile (inherit (OpenFile c) f) (set_Parent (Some cur) (set_MemorySize (MemorySize c) x)))))]> (processTable s))
    (set_fileTable files (set_kmem (childFrame (kmem s) T K) s))) /\
  length files = length (fileTable s) /\
  (forall g file, fileTable s !! g = Some file -> files !! g = Some (set_ReferenceCount (ReferenceCount file + refsTo g (OpenFile c)) file)).
Proof.
  intros Hr Hpt Hs Hp Hof Hlf Hlc Htf Htc Hfiles Hlcwd Hlname Hcl Hnl Hcwd Hncwd Hname Hnname. pose proof (lookup_lt_Some _ _ _ Hp) as Hlt.
  set (x1 := set_Parent (Some cur) (set_MemorySize (MemorySize c) x)). set (s1 := set_processTable (<[np := x1]> (processTable s)) (set_kmem (childFrame (kmem s) T K) s)).
  assert (Hs1 : settled s1 = s1) by (apply (f_equal sync) in Hs; unfold settled, s1 in *; cbn in *; by rewrite Hs).
  destruct (dupFiles_spec (OpenFile c) np 0 s1 x1 [] f) as (files & Ed & Ld & Hd); try done; [slot_stored|lia| |].
  { intros g Hg. destruct (Hfiles g Hg) as (file & H1 & H2). exists file. split; [done|]. rewrite Hlc. lia. }
  destruct (arr_safestrcpy_app cwd (Cwd x) rc MAXCWDSIZE Hncwd) as (tc & Ec & _); [unfold MAXCWDSIZE; lia|].
  destruct (arr_safestrcpy_app name (ProcName x) rn 16 Hnname) as (tn & En & _); [lia|].
  rewrite take_ge in Ec by (unfold MAXCWDSIZE; lia). rewrite take_ge in En by lia.
  exists files, tc, tn. split; [|done]. erewrite bind_modify by exact Hp. fold x1. erewrite bind_getProcess by slot_stored.
  change (Trapframe x1) with (Trapframe x). rewrite Htf, Htc, bind_puts, bind_writeWord.
  change (set_kmem (store32 _ _ 0) _) with s1. rewrite (bind_Ret _ _ _ _ _ Ed). cbn [app].
  change (Cwd x1) with (Cwd x). change (ProcName x1) with (ProcName x). change (ProcessId x1) with (ProcessId x).
  rewrite Hcwd, Ec, bind_checked. erewrite bind_modify by slot_stored. rewrite Hname, En, bind_checked. erewrite bind_modify by slot_stored. cbv zeta.
  erewrite bind_Ret; [|apply acquire_entered; [exact (proj1 Hr)|exact Hpt]]. erewrite bind_modify by slot_stored.
  erewrite bind_Ret; [|apply (release_settled _ s); [apply Hr|done|done]]. unfold mret, M_ret. f_equal. cbn. rewrite !list_insert_insert_eq.
  apply (f_equal sync) in Hs. cbn in Hs. rewrite Hs. done.
Qed.

(** The child in the process table: running state, parent, files, names. *)
Definition childOf (cur : nat) (c x : Process) (pid T D : Z) (f : nat) (cwd name : list Z) : Process :=
  set_State RUNNABLE (set_ProcName name (set_Cwd cwd (set_OpenFile (inherit (OpenFile c) (OpenFile (withConsole f x)))
    (set_Parent (Some cur) (set_MemorySize (MemorySize c) (set_PageTable D (stacked T (set_ProcessId pid x)))))))).

(** What the memory of parent and child is after [fork]. *)
Record forked (m m' : mem) (old D size T K : Z) : Prop := {
  fk_parent v : 0 <= v < KERNBASE -> userByte m' old v = userByte m old v;
  fk_child v : 0 <= v < KERNBASE -> userByte m' D v = if decide (v < PGROUNDUP size) then userByte m old v else None;
  fk_apart v w : 0 <= v < KERNBASE -> 0 <= w < KERNBASE -> present (entry m' D v) = true -> present (entry m' old w) = true ->
    frameOf m' D v <> frameOf m' old w;
  fk_kernel v : KERNBASE <= v < 4294967296 -> entry m' D v = kernelEntry data v;
  fk_regs i : 0 <= i < TRAPFRAME_SIZE -> m' (frameAt T + i) = if decide (TF_EAX <= i < TF_EAX + 4) then 0 else m (frameAt K + i);
  fk_trapret : load32 m' (frameAt T - 4) = trapret;
  fk_forkret : load32 m' (contextAt T + CTX_EIP) = forkretAddress
}.

Lemma touches_fields s s' : touches s s' ->
  processTable s' = processTable s /\ fileTable s' = fileTable s /\ nextpid s' = nextpid s /\ UseLock s' = UseLock s /\ initproc s' = initproc s.
Proof. intros [-> _]. done. Qed.

(** ** The states on the way *)

Lemma fork_alloc s cur c K T D free np x f file : can_fork s cur c K T D free ->
  findUnusedSlot 0 (processTable s) = Some np -> processTable s !! np = Some x -> firstFree (fileTable s) = Some f -> fileTable s !! f = Some file ->
  0 <= trapret < 4294967296 -> 0 <= forkretAddress < 4294967296 ->
  exists s1, allocateProcess trapret forkretAddress (settled s) = Ret (Some np) s1 /\
    processTable s1 = <[np := withConsole f (stacked T (embryo (nextpid s) x))]> (processTable s) /\
    nextpid s1 = i32 (nextpid s + 1) /\ fileTable s1 = <[f := consoleFile file]> (fileTable s) /\ sync s1 = settle (sync s) /\
    load32 (kmem s1) (contextAt T + CTX_EIP) = forkretAddress /\ load32 (kmem s1) (frameAt T - 4) = trapret /\
    (forall a, ~ in_page T a -> kmem s1 a = kmem s a) /\
    vm_state s1 (PageTable c) (D :: free) /\ as_ok (kmem s1) (PageTable c) (D :: free) /\ page_ok T /\
    apart kernelEnd (kmem s1) (PageTable c) (D :: free) T /\
    (forall v, 0 <= v < 4294967296 -> entry (kmem s1) (PageTable c) v = entry (kmem s) (PageTable c) v) /\
    (forall v, 0 <= v < KERNBASE -> userByte (kmem s1) (PageTable c) v = userByte (kmem s) (PageTable c) v).
Proof.
  intros Hcf F Hx G Hfile Htr Hfr. pose proof Hcf as [Hth Hr Hc Hlive Hvm Has Hsz Hmap Hpg Hfrm Hstk Hfs Harr].
  destruct (proj1 (Forall_lookup _ _) Harr np x Hx) as (L1 & _).
  destruct (allocateProcess_ok kernelEnd trapret forkretAddress (settled s) np x T (D :: free) f file) as
    (s1 & E1 & HT & Ept & En & Eft & Hf1 & M1 & M2 & M3 & Hb & Es); try done; [by apply proc_ready_settled|apply Hvm|lia|].
  exists s1. change (sync (settled s)) with (settle (sync s)) in Es. rewrite settle_settle in Es. change (kmem (settled s)) with (kmem s) in *.
  assert (Hr1 : forall s', sync s' = settle (sync s) -> kmem_ready s').
  { intros s' E. right. rewrite E. split; [apply settle_balanced, Hr|apply settle_lockFree, Hr]. }
  set (s0 := set_kmem (kmem s) s1).
  assert (Hf0 : free_pages kernelEnd s0 (D :: free)).
  { pose proof (vm_free _ _ _ _ Hvm) as (_ & _ & [HnT _]%NoDup_cons).
    apply (free_pages_frame kernelEnd s1 s0 _ T); try done. intros a Ha. cbn. by rewrite M3. }
  destruct (take_page kernelEnd s (PageTable c) T (D :: free) s0) as (V0 & A0 & P0); try done; [by apply Hr1|].
  destruct (write_apart kernelEnd s0 s1 (PageTable c) (D :: free) T) as (V1 & A1 & P1 & N1 & U1); try done;
    [apply Hb, (pt_bytes _ _ _ _ (vm_table _ _ _ _ Hvm))|by apply Hr1|].
  split_and!; try done. by apply P1.
Qed.

(** The memory after the child's trap frame is filled. *)
Lemma forked_memory s s1 s2 s4 old size K T D free f2 :
  (forall a, ~ in_page T a -> kmem s1 a = kmem s a) -> load32 (kmem s1) (contextAt T + CTX_EIP) = forkretAddress -> load32 (kmem s1) (frameAt T - 4) = trapret ->
  (forall v, 0 <= v < KERNBASE -> userByte (kmem s1) old v = userByte (kmem s) old v) ->
  twin kernelEnd s2 old D f2 -> apart kernelEnd (kmem s2) old f2 T ->
  (forall v, 0 <= v < KERNBASE -> userByte (kmem s2) old v = userByte (kmem s1) old v) ->
  (forall v, 0 <= v < KERNBASE -> userByte (kmem s2) D v = if decide (v < PGROUNDUP size) then userByte (kmem s1) old v else None) ->
  (forall v, KERNBASE <= v < 4294967296 -> entry (kmem s2) D v = kernelEntry data v) ->
  (forall q, page_ok q -> q ∉ D :: free -> apart kernelEnd (kmem s2) D f2 q /\ forall a, in_page q a -> kmem s2 a = kmem s1 a) ->
  page_ok T -> page_ok K -> K ∉ T :: D :: free -> T ∉ D :: free ->
  kmem s4 = childFrame (kmem s2) T K -> FreeList s4 = FreeList s2 -> sync s4 = sync s2 -> UseLock s4 = UseLock s2 ->
  forked (kmem s) (kmem s4) old D size T K /\ vm_state s4 old f2 /\ as_ok (kmem s4) old f2 /\ vm_state s4 D f2 /\ as_ok (kmem s4) D f2.
Proof.
  intros M1 Mf Mt U1 Htw P2 B1 B2 B4 B5 HT HK HKn HTn Em4 EF4 Es4 EU4. assert (HTK : T <> K) by set_solver. pose proof Htw as [T1 T2 T3 T4 T5].
  destruct (childFrame_spec (kmem s2) T K HT HK HTK (pt_bytes _ _ _ _ (vm_table _ _ _ _ T1))) as (Hb4 & Hs4 & Hr4). rewrite <- Em4 in *.
  assert (Hr : kmem_ready s4) by (unfold kmem_ready; rewrite Es4, EU4; apply T1).
  destruct (page_words kernelEnd T HT) as (W1 & W2 & W3 & W4). pose proof (page_range _ _ HT) as HTr.
  assert (Hsame : forall a, ~ in_page T a -> kmem s4 a = kmem s2 a).
  { intros a Ha. apply Hs4. intros Hin. apply Ha. unfold in_page, PGSIZE, frameAt, KSTACKSIZE, TRAPFRAME_SIZE in *. lia. }
  destruct (B5 T HT HTn) as [PD HTs]. destruct (B5 K HK ltac:(set_solver)) as [_ HKs].
  destruct (write_apart kernelEnd s2 s4 old f2 T) as (V4 & A4 & _ & N4 & U4); try done.
  destruct (write_apart kernelEnd s2 s4 D f2 T) as (VD & AD & _ & ND & UD); try done.
  assert (Hlow : forall a, contextAt T <= a -> a + 4 <= frameAt T -> load32 (kmem s4) a = load32 (kmem s1) a).
  { intros a Ha Ha'. apply load32_same; [lia|lia|]. intros b Hb. rewrite Hs4 by lia. apply HTs, W4. lia. }
  split; [|done]. assert (HKB : KERNBASE = 2147483648) by done. split.
  - intros v Hv. by rewrite U4, B1, U1.
  - intros v Hv. rewrite UD, B2 by done. case_decide; [by apply U1|done].
  - intros v w Hv Hw. unfold frameOf. rewrite ND, N4 by lia. intros Hp Hp'. by apply (ap_frame _ _ _ _ _ T5 w).
  - intros v Hv. rewrite ND by lia. by apply B4.
  - intros i Hi. rewrite Hr4 by done. case_decide; [done|].
    assert (Hin : in_page K (frameAt K + i)) by (unfold in_page, PGSIZE, frameAt, KSTACKSIZE, TRAPFRAME_SIZE in *; lia).
    rewrite HKs by done. apply M1. apply (pages_disjoint kernelEnd K T); done.
  - rewrite Hlow; [done|lia|lia].
  - rewrite Hlow; [done|unfold CTX_EIP; lia|unfold CTX_EIP; lia].
Qed.

(** C12. [fork] duplicates the process: the child gets the next pid, the parent's
    bytes below its size in frames of its own, the parent's registers with eax
    0, its open files (counted once more each), directory and name; it is
    RUNNABLE and starts in [forkret].  The parent keeps its memory, the page
    tables of both stay well-formed, and the other processes do not change.  The
    console file that [allocateProcess] opened keeps its three references. *)
Theorem fork_duplicates s cur c K T D free np f cwd rc name rn :
  can_fork s cur c K T D free -> data_ok data -> 0 <= trapret < 4294967296 -> 0 <= forkretAddress < 4294967296 ->
  findUnusedSlot 0 (processTable s) = Some np -> firstFree (fileTable s) = Some f ->
  Cwd c = cwd ++ 0 :: rc -> nonul cwd -> ProcName c = name ++ 0 :: rn -> nonul name ->
  exists s' free' x file tc tn, fork kernelEnd data trapret forkretAddress s = Ret (nextpid s) s' /\
    processTable s !! np = Some x /\ fileTable s !! f = Some file /\ nextpid s' = i32 (nextpid s + 1) /\
    processTable s' = <[np := childOf cur c x (nextpid s) T D f (cwd ++ 0 :: tc) (name ++ 0 :: tn)]> (processTable s) /\
    fileTable s' !! f = Some (consoleFile file) /\
    (forall g y, g <> f -> fileTable s !! g = Some y ->
      fileTable s' !! g = Some (set_ReferenceCount (ReferenceCount y + refsTo g (OpenFile c)) y)) /\
    forked (kmem s) (kmem s') (PageTable c) D (MemorySize c) T K /\
    vm_state s' (PageTable c) free' /\ as_ok (kmem s') (PageTable c) free' /\ vm_state s' D free' /\ as_ok (kmem s') D free'.
Proof.
  intros Hcf Hd Htr Hfr F G Hcwd Hncwd Hname Hnname. pose proof Hcf as [Hth Hr Hc Hlive Hvm Has Hsz Hmap Hpg Hfrm (HK & HKn & HKa) Hfs Harr].
  destruct (findUnusedSlot_Some _ _ F) as (x & Hx & Hux). destruct (firstFree_Some _ _ G) as (file & Hfile & Hrc).
  assert (Hne : cur <> np) by (intros ->; rewrite Hx in Hc; by simplify_eq). pose proof (lookup_lt_Some _ _ _ Hx) as Hlt.
  destruct (proj1 (Forall_lookup _ _) Harr np x Hx) as (L1 & L2 & L3). destruct (proj1 (Forall_lookup _ _) Harr cur c Hc) as (L4 & L5 & L6).
  destruct (fork_alloc s cur c K T D free np x f file Hcf F Hx G Hfile Htr Hfr)
    as (s1 & E1 & Ept1 & En1 & Eft1 & Es1 & M1 & M2 & M3 & V1 & A1 & HT & P1 & N1 & U1).
  destruct (copyProcess_spec kernelEnd data (PageTable c) (MemorySize c) s1 D free Hd V1 A1 Hsz) as
    (s2 & f2 & E2 & HD0 & Ht2 & Htw & Q2 & B1 & B2 & B3 & B4 & B5 & B6); [|done|].
  { intros v Hv. destruct (pages_between 0 (MemorySize c) ltac:(lia) ltac:(unfold KERNBASE in *; lia)) as (_ & _ & _ & _ & Hnb).
    rewrite N1 by (unfold KERNBASE in *; lia). by apply Hmap. }
  destruct (touches_fields s1 s2 Ht2) as (Ept2 & Eft2 & En2 & _).
  assert (Es2 : sync s2 = settle (sync s)) by (destruct Ht2 as [_ [-> | ->]]; rewrite Es1, ?settle_settle; done).
  set (x3 := set_PageTable D (withConsole f (stacked T (embryo (nextpid s) x)))). set (s3 := set_processTable (<[np := x3]> (processTable s2)) s2).
  assert (Hfne : forall g, Some g ∈ OpenFile c -> g <> f) by (intros g Hg ->; destruct (Hfs f Hg) as (y & Hy & Hc1); simplify_eq; lia).
  destruct (fork_tail s3 cur c np x3 (OpenFile x3) K T cwd rc name rn) as (files & tc & tn & E4 & Lf & Hff); try done.
  { split; cbn; rewrite Es2; [apply settle_balanced, Hr|apply settle_lockFree, Hr]. }
  { cbn. rewrite Es2. apply settle_lockFree, Hr. }
  { unfold settled, s3. cbn. rewrite Es2, settle_settle, <- Es2. by destruct s2. }
  { cbn. rewrite Ept2, Ept1, list_lookup_insert_eq; [done|by rewrite length_insert]. }
  { cbn. by rewrite !length_insert. }
  { intros g Hg. destruct (Hfs g Hg) as (y & Hy & Hc1). exists y. split; [|done]. cbn. rewrite Eft2, Eft1, list_lookup_insert_ne; [done|]. symmetry. by apply Hfne. }
  { rewrite Hcwd, length_app in L5. cbn in L5. lia. }
  { rewrite Hname, length_app in L6. cbn in L6. lia. }
  set (s4 := set_processTable _ _) in E4. pose proof (vm_free _ _ _ _ Hvm) as (_ & _ & [HTn _]%NoDup_cons).
  destruct (forked_memory s s1 s2 s4 (PageTable c) (MemorySize c) K T D free f2) as (Hfk & W1 & W2 & W3 & W4); try done; [by apply Q2|].
  exists s4, f2, x, file, tc, tn. split.
  { unfold fork. rewrite (bind_Ret _ _ _ _ _ (curproc_eq s cur Hth)), (bind_Ret _ _ _ _ _ E1).
    erewrite bind_getProcess by (rewrite Ept1, list_lookup_insert_ne by done; exact Hc). rewrite (bind_Ret _ _ _ _ _ E2).
    erewrite bind_modify by (rewrite Ept2, Ept1; slot_stored). rewrite (proj2 (Z.eqb_neq _ _) HD0). fold x3 s3. exact E4. }
  split_and!; try done.
  - cbn. by rewrite En2.
  - unfold s4, s3. cbn. rewrite Ept2, Ept1, !list_insert_insert_eq. done.
  - pose proof (lookup_lt_Some _ _ _ Hfile) as Hlf. cbn. rewrite (Hff f (consoleFile file)) by (cbn; rewrite Eft2, Eft1; slot_stored).
    rewrite refsTo_none, Z.add_0_r by (intros Hin; by apply (Hfne f)). by destruct file.
  - intros g y Hg Hy. cbn. apply Hff. cbn. rewrite Eft2, Eft1, list_lookup_insert_ne by done. done.
Qed.

End Fork.

(** * Wait *)

Lemma ownedPages_ext m m' pgdir : (forall i, 0 <= i < 1024 -> pdeOf m' pgdir i = pdeOf m pgdir i) ->
  (forall v, 0 <= v < 4294967296 -> entry m' pgdir v = entry m pgdir v) -> ownedPages m' pgdir = ownedPages m pgdir.
Proof.
  intros Hpde Hent. unfold ownedPages. rewrite (tablesFrom_ext m m') by (done || (unfold NPDENTRIES; lia)). do 2 f_equal.
  assert (HN : 4096 * Z.of_nat (Z.to_nat (KERNBASE / 4096)) = 2147483648) by (rewrite Z2Nat.id; [reflexivity|by vm_compute]).
  revert HN. generalize (Z.to_nat (KERNBASE / 4096)). intros N HN. apply framesFrom_ext; [lia|lia|]. intros v Hv. apply Hent. zdiv.
Qed.

(** The slot of a child whose exit has been noticed. *)
Definition reaped (name : list Z) (z : Process) : Process :=
  set_State UNUSED (set_IsKilled 0 (set_ProcName (0 :: tail name) (set_Parent None (set_ProcessId 0 (set_KernelStack 0 z))))).

Section Wait.
Context (kernelEnd : Z).

(** The kernel stack and the address space of a process are released. *)
Lemma release_process s pgdir free K : KERNBASE < kernelEnd -> vm_state kernelEnd s pgdir free -> as_ok kernelEnd (kmem s) pgdir free ->
  apart kernelEnd (kmem s) pgdir free K ->
  exists s1, freePhysicalMemoryPage kernelEnd K s = Ret tt s1 /\ touches s s1 /\ forall t, exists s2 free',
    freeMemoryAndPageTable kernelEnd pgdir (set_processTable t s1) = Ret tt s2 /\ touches (set_processTable t s1) s2 /\
    free_pages kernelEnd s2 free' /\ kmem_ready s2 /\ free' ≡ₚ K :: ownedPages (kmem s) pgdir ++ free /\
    (forall q, q <> K -> apart kernelEnd (kmem s) pgdir free q -> q ∉ free' /\ forall a, in_page q a -> kmem s2 a = kmem s a).
Proof.
  intros Hend Hvm Has [HK HKf]. destruct (free_outside kernelEnd s pgdir free K Hvm HK) as (s1 & E1 & V1 & T1 & Hpde & Hent & Hsame).
  assert (HKB : KERNBASE = 2147483648) by done.
  assert (Hout : forall q, q <> K -> outside kernelEnd (kmem s) pgdir free q -> outside kernelEnd (kmem s1) pgdir (K :: free) q).
  { intros q Hne (A1 & A2 & A3 & A4). split_and!; [done|set_solver|done|]. intros i Hi. rewrite Hpde by done. by apply A4. }
  assert (A1 : as_ok kernelEnd (kmem s1) pgdir (K :: free)).
  { destruct Has as [Hf Hinj]. split; [intros v Hv|intros v v' Hv Hv']; unfold frameOf; rewrite !Hent by lia; [|by apply Hinj].
    intros Hp. apply Hout; [by apply HKf|by apply Hf]. }
  exists s1. split; [done|]. split; [done|]. intros t.
  destruct (freeMemory_spec kernelEnd pgdir (set_processTable t s1) (K :: free) Hend) as (s2 & f2 & E2 & T2 & F2 & R2 & P2 & Q2); [by destruct V1; split|done|].
  exists s2, f2. cbn [kmem set_processTable] in *. split_and!; try done.
  - rewrite P2, (ownedPages_ext (kmem s) (kmem s1)) by done. by rewrite Permutation_middle.
  - intros q Hne [HQ HQf]. destruct (Q2 q) as [Q3 Q4].
    + split; [by apply Hout|]. intros v Hv. unfold frameOf. rewrite Hent by lia. by apply HQf.
    + split; [done|]. intros a Ha. rewrite Q4 by done. apply Hsame. apply (pages_disjoint kernelEnd q K); [apply HQ|apply HK|done|done].
Qed.

(** C13. [wait] with an exited child: the first ZOMBIE among the children is
    reaped.  Its pid is returned, its slot is UNUSED again, and the pages that
    go back to the allocator are exactly its kernel stack, its page directory,
    its page tables and its memory; no other page is touched, and the table is
    unlocked. *)
Theorem wait_reaps `{Scheduler} s cur before z after free :
  KERNBASE < kernelEnd -> thread (sync s) cur -> lockFree (sync s) L_processTable -> lockFree (sync s) L_kernelMemory ->
  processTable s = before ++ z :: after -> length (processTable s) = 64%nat ->
  Forall (fun x => Parent x = Some cur -> State x <> ZOMBIE) before -> Parent z = Some cur -> State z = ZOMBIE -> length (ProcName z) = 16%nat ->
  vm_state kernelEnd s (PageTable z) free -> as_ok kernelEnd (kmem s) (PageTable z) free -> apart kernelEnd (kmem s) (PageTable z) free (KernelStack z) ->
  exists s' free', wait kernelEnd s = Ret (ProcessId z) s' /\
    processTable s' = before ++ reaped (ProcName z) z :: after /\ fileTable s' = fileTable s /\ sync s' = settle (sync s) /\
    free_pages kernelEnd s' free' /\ free' ≡ₚ KernelStack z :: ownedPages (kmem s) (PageTable z) ++ free /\
    (forall q, q <> KernelStack z -> apart kernelEnd (kmem s) (PageTable z) free q -> q ∉ free' /\ forall a, in_page q a -> kmem s' a = kmem s a).
Proof.
  intros Hend Hth Hpt Hkm Etab Hlen Hbefore Hpar Hzom Hname Hvm Has HK. pose proof (thread_balanced 2 _ _ ltac:(lia) Hth) as Hb2.
  pose proof (balanced_weaken 2 1 _ ltac:(lia) Hb2) as Hb. set (s0 := entered L_processTable (settled s)).
  assert (Hs0 : sync s0 = acq L_processTable (sync s)) by (unfold s0; cbn; apply acq_settle).
  assert (Hr0 : kmem_ready s0).
  { right. rewrite Hs0. split; [apply acq_balanced; [lia|done]|by apply acq_lockFree]. }
  assert (V0 : vm_state kernelEnd s0 (PageTable z) free) by (destruct Hvm; by split).
  destruct (release_process s0 (PageTable z) free (KernelStack z) Hend V0 Has HK) as (s1 & E1 & T1 & Hrel).
  destruct (touches_fields s0 s1 T1) as (Ept1 & Eft1 & _).
  set (z1 := set_KernelStack 0 z). set (i := length before).
  destruct (Hrel (<[i := z1]> (processTable s))) as (s2 & f2 & E2 & T2 & F2 & R2 & P2 & Q2).
  destruct (touches_fields _ s2 T2) as (Ept2 & Eft2 & _). cbn in Ept2, Eft2.
  assert (Hi : processTable s !! i = Some z) by (rewrite Etab; by apply list_lookup_middle).
  pose proof (lookup_lt_Some _ _ _ Hi) as Hlt.
  assert (Es2 : sync s2 = acq L_processTable (sync s)).
  { destruct T1 as [_ T1], T2 as [_ T2]. cbn in T2. destruct T1 as [T1|T1], T2 as [T2|T2]; rewrite T2, T1, Hs0; by rewrite ?settle_acq by (rewrite ?settle_acq by done; done). }
  set (z2 := reaped (ProcName z) z). set (s3 := set_processTable (<[i := z2]> (processTable s)) s2).
  assert (Hreap : reap kernelEnd (Z.to_nat NPROC) cur 0 false s0 = Ret (inl (ProcessId z)) s3).
  { change (Z.to_nat NPROC) with 64%nat. rewrite <- Hlen, Etab, length_app. cbn [length].
    rewrite (reap_skip kernelEnd cur (S (length after)) before [] (z :: after) s0); [|exact Etab|].
    2: { apply not_true_iff_false. intros (y & Hin & Hy)%existsb_exists. apply list_elem_of_In in Hin. unfold orphanZombie in Hy.
         apply andb_prop in Hy as [Hy1%bool_decide_eq_true Hy2%bool_decide_eq_true]. exact (proj1 (Forall_forall _ _) Hbefore y Hin Hy1 Hy2). }
    cbn [length Nat.add reap]. fold i. rewrite (bind_getProcess i z) by exact Hi. rewrite !bool_decide_eq_true_2 by done. cbn [negb].
    rewrite (bind_Ret _ _ _ _ _ E1). rewrite (bind_modify i _ z) by (rewrite Ept1; exact Hi). fold z1. rewrite Ept1.
    change (processTable s0) with (processTable s). rewrite (bind_Ret _ _ _ _ _ E2).
    destruct (ProcName z) as [|n0 nr] eqn:En; [done|]. change (wr (n0 :: nr) 0 0) with (Some (0 :: nr)). rewrite bind_checked.
    erewrite bind_modify by (rewrite Ept2; slot_stored). rewrite Ept2, list_insert_insert_eq. unfold s3, z2, mret, M_ret. do 3 f_equal. }
  exists (set_sync (settle (sync s)) s3), f2. split_and!; try done.
  - unfold wait. rewrite (bind_Ret _ _ _ _ _ (curproc_eq s cur Hth)).
    erewrite bind_Ret; [|apply acquire_entered; [by apply settle_balanced|by apply settle_lockFree]]. fold s0.
    destruct wakeups; cbn [waitLoop]; rewrite (bind_Ret _ _ _ _ _ Hreap); (erewrite bind_Ret; [|by apply (release_settled _ s)]); done.
  - cbn. rewrite Etab. unfold i. rewrite insert_app_r_alt, Nat.sub_diag by done. done.
  - cbn. by rewrite Eft2, Eft1.
Qed.

End Wait.

(** * Concrete processes *)

(** A shell of one page with the console (file 0) as its three descriptors. *)
Definition forkStack : Z := 2155868160.
Definition forkParent : Process :=
  set_OpenFile ([Some 0%nat; Some 0%nat; Some 0%nat] ++ replicate 13 None) (set_Cwd (47 :: replicate 199 0) (set_ProcName (115 :: 104 :: replicate 14 0)
    (set_Trapframe (frameAt forkStack) (set_KernelStack forkStack (set_MemorySize 100 (set_PageTable demoDir demoProcess)))))).
Definition forkKernel : KState :=
  set_fileTable [set_ReferenceCount 3 freeFile; freeFile; freeFile] (set_processTable (forkParent :: replicate 63 unusedProcess) poolKernel).

Lemma forkStack_apart : apart demoEnd poolMem demoDir poolPages forkStack.
Proof.
  split; [split_and!|].
  - vm_compute. repeat split; congruence.
  - apply (bool_decide_unpack (forkStack ∉ poolPages)). vm_compute. exact I.
  - done.
  - intros i Hi. by rewrite pool_empty.
  - intros v Hv. by rewrite pool_none.
Qed.

Lemma forkKernel_state : vm_state demoEnd forkKernel demoDir poolPages.
Proof. destruct pool_state. by split. Qed.

Lemma forkKernel_ready : proc_ready forkKernel.
Proof. split_and!; [by apply demoKernel_balanced|apply demoKernel_free; unfold demoLockList; set_solver..]. Qed.

(** The shell's page is there, then it forks. *)
Lemma fork_parent : exists s T D free, can_fork demoEnd s 0 forkParent forkStack T D free /\ touches forkKernel s /\
  (forall v, 0 <= v < 4096 -> userByte (kmem s) demoDir v = Some 0).
Proof.
  destruct (allocate_grown demoEnd demoDir 0 100 forkKernel poolPages forkKernel_state pool_as ltac:(lia) ltac:(reflexivity)
              ltac:(vm_compute; congruence) ltac:(intros v _; change (kmem forkKernel) with poolMem; rewrite pool_none; reflexivity))
    as (s & free & _ & Hst & Has & Hg).
  pose proof (space_step_grown demoEnd _ _ _ _ _ _ _ Hst Has Hg) as Hss. pose proof Hg as [G1 G2 G3 G4].
  change (newPages 0 100) with 1%nat in *. change (PGROUNDUP 0) with 0 in *. change (length poolPages) with 100%nat in *.
  assert (Hb : forall v, 0 <= v < 4096 -> userByte (kmem s) demoDir v = Some 0).
  { intros v Hv. rewrite G1, decide_True by (unfold KERNBASE; zdiv). reflexivity. }
  destruct free as [|T [|D free]]; [cbn in G4; lia|cbn in G4; lia|]. cbn [length] in G4. exists s, T, D, free.
  pose proof (step_touches _ _ _ _ _ _ Hst) as Ht. destruct (touches_fields _ _ Ht) as (Ept & Eft & _).
  destruct (ss_apart _ _ _ _ _ _ Hss forkStack forkStack_apart) as [Hap _]. pose proof Hap as [(Hk & Hkn & _) _].
  assert (Hsy : sync s = demoKernelSync \/ sync s = settle demoKernelSync) by (apply Ht).
  split; [|done]. split; try done.
  - destruct Hsy as [-> | ->]; [exact demoKernel_thread|apply thread_settle, demoKernel_thread].
  - pose proof forkKernel_ready as Hr. destruct Hsy as [E|E]; unfold proc_ready; rewrite E; [exact Hr|apply (proc_ready_settled forkKernel Hr)].
  - by rewrite Ept.
  - apply Hst.
  - intros v Hv. change (PGROUNDUP (MemorySize forkParent)) with 4096 in Hv. specialize (Hb v Hv). unfold userByte in Hb. change (PageTable forkParent) with demoDir.
    destruct (present _); congruence.
  - change (newPages 0 (MemorySize forkParent)) with 1%nat. lia.
  - intros g Hg'. rewrite Eft. apply elem_of_app in Hg' as [Hg'|Hg'%elem_of_replicate]; [|by destruct Hg'].
    assert (g = 0%nat) as -> by set_solver. eexists. split; [done|]. cbn. lia.
  - rewrite Ept. constructor; [done|]. by apply Forall_replicate.
Qed.

Lemma fork_duplicates_witness : exists s s' D, fork demoEnd 2148536320 2148532224 2148536320 s = Ret 2 s' /\
  userByte (kmem s') D 4000 = Some 0 /\ ReferenceCount <$> fileTable s' !! 0%nat = Some 6 /\ ReferenceCount <$> fileTable s' !! 1%nat = Some 3.
Proof.
  destruct fork_parent as (s & T & D & free & Hcf & Ht & Hb). destruct (touches_fields _ _ Ht) as (Ept & Eft & En & _).
  destruct (fork_duplicates demoEnd 2148536320 2148532224 2148536320 s 0 forkParent forkStack T D free 1 1 [47] (replicate 198 0) [115; 104] (replicate 13 0))
    as (s' & free' & x & file & tc & tn & E & _ & _ & _ & _ & Hf & Hg & Hm & _);
    [exact Hcf|exact pool_data|lia|lia|rewrite Ept; reflexivity|rewrite Eft; reflexivity|reflexivity|repeat constructor; lia|reflexivity|repeat constructor; lia|].
  exists s, s', D. rewrite En in E. split; [exact E|]. split; [|split].
  - rewrite (fk_child _ _ _ _ _ _ _ _ _ _ Hm) by (unfold KERNBASE; lia). change (PGROUNDUP (MemorySize forkParent)) with 4096.
    change (PageTable forkParent) with demoDir. rewrite decide_True by lia. apply Hb. lia.
  - rewrite (Hg 0%nat (set_ReferenceCount 3 freeFile)); [reflexivity|discriminate|rewrite Eft; reflexivity].
  - rewrite Hf. reflexivity.
Defined.

(** A child that has exited, with nothing mapped any more. *)
Definition waitChild : Process :=
  set_Parent (Some 0%nat) (set_State ZOMBIE (set_ProcessId 7 (set_KernelStack forkStack (set_PageTable demoDir unusedProcess)))).
Definition waitKernel : KState := set_processTable ([demoProcess] ++ waitChild :: replicate 62 unusedProcess) poolKernel.

Lemma waitKernel_state : vm_state demoEnd waitKernel demoDir poolPages.
Proof. destruct pool_state. by split. Qed.

Lemma wait_reaps_witness : exists s', @wait demoEnd demoAlone waitKernel = Ret 7 s' /\ State <$> processTable s' !! 1%nat = Some UNUSED.
Proof.
  destruct (@wait_reaps demoEnd demoAlone waitKernel 0 [demoProcess] waitChild (replicate 62 unusedProcess) poolPages) as (s' & free' & E & Ht & _);
    [reflexivity|exact demoKernel_thread|exact demoKernel_table|apply demoKernel_free; unfold demoLockList; set_solver|reflexivity|reflexivity
    |constructor; [discriminate|constructor]|reflexivity|reflexivity|reflexivity|exact waitKernel_state|exact pool_as|exact forkStack_apart|].
  exists s'. split; [exact E|]. rewrite Ht. reflexivity.
Defined.
