(* ===== verification/Syscall.v ===== *)
(** syscall.c, sysfile.c and sysproc.c: fetching the arguments of a system
    call from the memory of the calling process, and the calls themselves
    ([sys_exec] is in Exec).  The table [syscalls] is generated by a script and a
    parameter here.

    While a system call runs, addresses below [KERNBASE] are translated by the
    page table of the current process: [userByte] of Vm.  An address without a
    page faults.  A pointer argument is an address; blocks that a call stores
    to are stored when it returns. *)

From S2P Require Import Prelude CString CArray Types Fat12 Fat12Dir Fat12Open Spinlock Kernel Kalloc Sched Idle Sleeplock Ide Disk Bio Pipe Files Vm Proc.

(** * User memory *)

Definition userLoad (va : Z) : M KState Z :=
  p ← curproc;
  x ← getProcess p;
  m ← gets kmem;
  checked "page fault" (userByte m (PageTable x) va).

Fixpoint userLoadBytes (n : nat) (va : Z) : M KState (list Z) :=
  match n with
  | O => mret []
  | S n => b ← userLoad va; l ← userLoadBytes n (u32 (va + 1)); mret (b :: l)
  end.

Definition userLoadWord (va : Z) : M KState Z := l ← userLoadBytes 4 va; mret (le32 l 0).

Definition userStore (va b : Z) : M KState unit :=
  p ← curproc;
  x ← getProcess p;
  m ← gets kmem;
  checked "page fault" (userByte m (PageTable x) va);;
  puts (set_kmem (upd m (frameOf m (PageTable x) va + va mod 4096) (u8 b))).

Fixpoint userStoreBytes (va : Z) (l : list Z) : M KState unit :=
  match l with
  | [] => mret tt
  | b :: l => userStore va b;; userStoreBytes (u32 (va + 1)) l
  end.

(** The string at [va], without its NUL; [n] bounds its length. *)
Fixpoint userString (n : nat) (va : Z) : M KState (list Z) :=
  match n with
  | O => spin
  | S n => b ← userLoad va; if b =? 0 then mret [] else l ← userString n (u32 (va + 1)); mret (b :: l)
  end.

(** * Arguments *)

(** [None]: -1. *)
Definition fetchint (addr : Z) : M KState (option Z) :=
  p ← curproc;
  x ← getProcess p;
  if (addr >=? MemorySize x) || (u32 (addr + 4) >? MemorySize x) then mret None
  else w ← userLoadWord addr; mret (Some (i32 w)).

(** The loop of [fetchstr] from [s] on. *)
Fixpoint findNul (n : nat) (pp s : Z) : M KState Z :=
  match n with
  | O => mret (-1)
  | S n => b ← userLoad s; if b =? 0 then mret (s - pp) else findNul n pp (u32 (s + 1))
  end.

(** The length returned; the pointer is [addr] itself. *)
Definition fetchstr (addr : Z) : M KState Z :=
  p ← curproc;
  x ← getProcess p;
  if addr >=? MemorySize x then mret (-1)
  else findNul (Z.to_nat (MemorySize x - addr)) addr addr.

Definition argint (n : Z) : M KState (option Z) :=
  p ← curproc;
  x ← getProcess p;
  esp ← readWord (padd (Trapframe x) TF_ESP);
  fetchint (u32 (esp + 4 + 4 * n)).

Definition argptr (n size : Z) : M KState (option Z) :=
  p ← curproc;
  i ← argint n;
  match i with
  | None => mret None
  | Some i =>
      x ← getProcess p;
      if (size <? 0) || (u32 i >=? MemorySize x) || (u32 (u32 i + size) >? MemorySize x) then mret None
      else mret (Some (u32 i))
  end.

(** The address and the length. *)
Definition argstr (n : Z) : M KState (option (Z * Z)) :=
  addr ← argint n;
  match addr with
  | None => mret None
  | Some addr =>
      r ← fetchstr (u32 addr);
      if r <? 0 then mret None else mret (Some (u32 addr, r))
  end.

Definition argfd (n : Z) : M KState (option (Z * nat)) :=
  fd ← argint n;
  match fd with
  | None => mret None
  | Some fd =>
      if (fd <? 0) || (fd >=? NOFILE) then mret None
      else
        p ← curproc;
        x ← getProcess p;
        o ← checked "OpenFile" (rd (OpenFile x) fd);
        match o with
        | None => mret None
        | Some f => mret (Some (fd, f))
        end
  end.

(** The first free descriptor from [fd] on. *)
Fixpoint freeFd (l : list (option nat)) (fd : Z) : option Z :=
  match l with
  | [] => None
  | None :: _ => Some fd
  | Some _ :: l => freeFd l (fd + 1)
  end.

Definition fdalloc (f : nat) : M KState Z :=
  p ← curproc;
  x ← getProcess p;
  match freeFd (OpenFile x) 0 with
  | Some fd => setOpenFile p fd (Some f);; mret fd
  | None => mret (-1)
  end.

(** * File system calls (sysfile.c) *)

Definition sys_dup : M KState Z :=
  a ← argfd 0;
  match a with
  | None => mret (-1)
  | Some (_, f) =>
      fd ← fdalloc f;
      if fd <? 0 then mret (-1) else fileDup f;; mret fd
  end.

(** The arguments of [read] and [write]: file, address, count. *)
Definition argsReadWrite : M KState (option (nat * Z * Z)) :=
  a ← argfd 0;
  match a with
  | None => mret None
  | Some (_, f) =>
      n ← argint 2;
      match n with
      | None => mret None
      | Some n =>
          p ← argptr 1 n;
          match p with
          | None => mret None
          | Some p => mret (Some (f, p, n))
          end
      end
  end.

Section FileCalls.
Context (kernelEnd : Z) (devices : list Device) `{Scheduler} `{BlockCache KState} `{FileTable KState}.

Definition sys_read : M KState Z :=
  a ← argsReadWrite;
  match a with
  | None => mret (-1)
  | Some (f, p, n) =>
      '(r, bytes) ← fileRead devices f n;
      userStoreBytes p bytes;;
      mret r
  end.

Definition sys_write : M KState Z :=
  a ← argsReadWrite;
  match a with
  | None => mret (-1)
  | Some (f, p, n) =>
      bytes ← userLoadBytes (Z.to_nat n) p;
      fileWrite devices f bytes n
  end.

Definition sys_close : M KState Z :=
  a ← argfd 0;
  match a with
  | None => mret (-1)
  | Some (fd, f) =>
      p ← curproc;
      setOpenFile p fd None;;
      Files.fileClose kernelEnd f;;
      mret 0
  end.

Definition STAT_SIZE : Z := 20.

Definition sys_fstat : M KState Z :=
  a ← argfd 0;
  match a with
  | None => mret (-1)
  | Some (_, f) =>
      st ← argptr 1 STAT_SIZE;
      match st with
      | None => mret (-1)
      | Some _ => fileStat f
      end
  end.

(** [path0], [pathPart0] and [buf0] are the arrays on the stack of
    [fsFat12Open]. *)
Definition sys_open (path0 pathPart0 buf0 : list Z) : M KState Z :=
  a ← argstr 0;
  match a with
  | None => mret (-1)
  | Some (path, len) =>
      omode ← argint 1;
      match omode with
      | None => mret (-1)
      | Some omode =>
          p ← curproc;
          x ← getProcess p;
          str ← userLoadBytes (Z.to_nat (len + 1)) path;
          v ← gets volume;
          f ← fsFat12Open v (Cwd x) str path0 pathPart0 buf0 0;
          match f with
          | None => mret (-1)
          | Some f =>
              fd ← fdalloc f;
              if fd <? 0 then Files.fileClose kernelEnd f;; mret (-1)
              else
                file ← getSlot f;
                putSlot f (set_Writable (truth (negb (Z.land omode O_WRONLY =? 0) || negb (Z.land omode O_RDWR =? 0)))
                  (set_Readable (truth (Z.land omode O_WRONLY =? 0)) file));;
                mret fd
          end
      end
  end.

Definition sys_pipe : M KState Z :=
  a ← argptr 0 8;
  match a with
  | None => mret (-1)
  | Some fd =>
      '(r, rf, wf) ← pipealloc kernelEnd;
      if r <? 0 then mret (-1)
      else
        rf ← checked "sys_pipe: rf" rf;
        wf ← checked "sys_pipe: wf" wf;
        fd0 ← fdalloc rf;
        fd1 ← (if fd0 <? 0 then mret (-1) else fdalloc wf);
        if (fd0 <? 0) || (fd1 <? 0) then
          (if fd0 >=? 0 then p ← curproc; setOpenFile p fd0 None else mret tt);;
          Files.fileClose kernelEnd rf;;
          Files.fileClose kernelEnd wf;;
          mret (-1)
        else
          userStoreBytes fd [u8 fd0; u8 (Z.shiftr fd0 8); u8 (Z.shiftr fd0 16); u8 (Z.shiftr fd0 24)];;
          userStoreBytes (u32 (fd + 4)) [u8 fd1; u8 (Z.shiftr fd1 8); u8 (Z.shiftr fd1 16); u8 (Z.shiftr fd1 24)];;
          mret 0
  end.

End FileCalls.

(** [*strchr(str, c)]: the byte found, or the byte at address 0 when [strchr]
    returns the null pointer. *)
Definition derefStrchr (str : list Z) (c : Z) : M KState Z :=
  if bool_decide (c ∈ str) then mret c else userLoad 0.

Definition sys_chdir : M KState Z :=
  a ← argstr 0;
  match a with
  | None => mret (-1)
  | Some (directory, len) =>
      p ← curproc;
      str ← userLoadBytes (Z.to_nat len) directory;
      c ← derefStrchr str 47;
      add ← (if negb (c =? 47) then mret true
             else c ← derefStrchr str 92; mret (negb (c =? 92)));
      len ← (if (add : bool) then
               userStore (u32 (directory + len)) 47;;
               userStore (u32 (directory + len + 1)) 0;;
               mret (len + 1)
             else mret len);
      str ← userLoadBytes (Z.to_nat (len + 1)) directory;
      x ← getProcess p;
      cwd ← checked "sys_chdir: Cwd" (arr_safestrcpy (Cwd x) str (len + 1));
      modifyProcess p (set_Cwd cwd);;
      mret 0
  end.

(** The bytes that [safestrcpy(s, t, n)] stores at [s]. *)
Fixpoint safestrcpyBytes (t : list Z) (n : nat) : option (list Z) :=
  match n with
  | O => Some []
  | S O => Some [0]
  | S n =>
      match t with
      | [] => None
      | c :: t => if c =? 0 then Some [0; 0] else cons c <$> safestrcpyBytes t n
      end
  end.

Definition sys_getcwd : M KState Z :=
  a ← argstr 0;
  match a with
  | None => mret (-1)
  | Some (currentDirectory, _) =>
      size ← argint 1;
      match size with
      | None => mret (-1)
      | Some size =>
          p ← curproc;
          x ← getProcess p;
          bytes ← checked "sys_getcwd: Cwd" (safestrcpyBytes (Cwd x) (Z.to_nat size));
          userStoreBytes currentDirectory bytes;;
          mret 0
      end
  end.

(** * Process system calls (sysproc.c) *)

Section ProcessCalls.
Context (kernelEnd data trapret forkretAddress : Z) `{Scheduler}.

Definition sys_fork : M KState Z := fork kernelEnd data trapret forkretAddress.

Definition sys_exit : M KState Z := exit kernelEnd;; mret 0.

Definition sys_wait : M KState Z := wait kernelEnd.

Definition sys_kill : M KState Z :=
  pid ← argint 0;
  match pid with
  | None => mret (-1)
  | Some pid => kill pid
  end.

Definition sys_getpid : M KState Z := p ← curproc; x ← getProcess p; mret (ProcessId x).

Definition sys_sbrk : M KState Z :=
  n ← argint 0;
  match n with
  | None => mret (-1)
  | Some n =>
      p ← curproc;
      x ← getProcess p;
      let addr := i32 (MemorySize x) in
      r ← growProcess kernelEnd n;
      if r <? 0 then mret (-1) else mret addr
  end.

(** The loop of [sys_sleep]: [true] if it returns -1. *)
Fixpoint sleepTicks (fuel : nat) (ticks0 n : Z) : M KState bool :=
  t ← gets ticks;
  if negb (u32 (t - ticks0) <? u32 n) then mret false
  else
    stop ← currentKilled;
    if (stop : bool) then release L_ticks;; mret true
    else match fuel with
    | O => spin
    | S fuel => sleep Ch_ticks (Some L_ticks);; sleepTicks fuel ticks0 n
    end.

Definition sys_sleep : M KState Z :=
  n ← argint 0;
  match n with
  | None => mret (-1)
  | Some n =>
      acquire L_ticks;;
      ticks0 ← gets ticks;
      stop ← sleepTicks wakeups ticks0 n;
      if (stop : bool) then mret (-1)
      else release L_ticks;; mret 0
  end.

Definition sys_uptime : M KState Z :=
  acquire L_ticks;;
  xticks ← gets ticks;
  release L_ticks;;
  mret (i32 xticks).

End ProcessCalls.

(** * Dispatch *)

(** [syscalls]: the generated table; its first entry is null. *)
Definition syscall (syscalls : list (option (M KState Z))) : M KState unit :=
  p ← curproc;
  x ← getProcess p;
  num ← readWord (padd (Trapframe x) TF_EAX);
  let num := i32 num in
  let entry := if (num >? 0) && (num <? Z.of_nat (length syscalls)) then mjoin (rd syscalls num) else None in
  match entry with
  | Some call =>
      r ← call;
      x ← getProcess p;
      writeWord (padd (Trapframe x) TF_EAX) (u32 r)
  | None =>
      message "unknown sys call";;
      writeWord (padd (Trapframe x) TF_EAX) (u32 (-1))
  end.

(** * Reading the memory of the caller *)

(** Process [p], in slot [x], makes the call and holds no lock. *)
Definition calling (s : KState) (p : nat) (x : Process) : Prop :=
  thread (sync s) p /\ processTable s !! p = Some x.

Lemma calling_settled s p x : calling s p x -> calling (settled s) p x.
Proof. intros [Ht Hx]. split; [by apply thread_settle|done]. Qed.

Lemma bind_curproc {B} s p x (k : nat -> M KState B) : calling s p x -> (curproc ≫= k) s = k p (settled s).
Proof. intros [Ht _]. by rewrite (bind_Ret _ _ _ _ _ (curproc_eq s p Ht)). Qed.

Lemma bind_caller {B} s p x (k : nat -> Process -> M KState B) : calling s p x ->
  (curproc ≫= fun q => getProcess q ≫= k q) s = k p x (settled s).
Proof.
  intros Hc. rewrite (bind_curproc s p x) by done. apply (bind_getProcess p x). by apply calling_settled in Hc as [_ Hx].
Qed.

(** Every page below [MemorySize] is there. *)
Definition resident (m : mem) (x : Process) : Prop :=
  forall a, 0 <= a < MemorySize x -> exists b, userByte m (PageTable x) a = Some b.

(** The byte and the word that the process has at [a]. *)
Definition userAt (m : mem) (x : Process) (a : Z) : Z := default 0 (userByte m (PageTable x) a).

Definition userWord (m : mem) (x : Process) (a : Z) : Z :=
  userAt m x a + 256 * userAt m x (a + 1) + 65536 * userAt m x (a + 2) + 16777216 * userAt m x (a + 3).

Lemma userAt_range m x a : mem_bytes m -> 0 <= userAt m x a < 256.
Proof. intros Hm. unfold userAt, userByte. case_match; [apply Hm|done]. Qed.

Lemma userWord_range m x a : mem_bytes m -> 0 <= userWord m x a < 4294967296.
Proof.
  intros Hm. unfold userWord. pose proof (userAt_range m x a Hm). pose proof (userAt_range m x (a + 1) Hm).
  pose proof (userAt_range m x (a + 2) Hm). pose proof (userAt_range m x (a + 3) Hm). lia.
Qed.

Lemma resident_at m x a : resident m x -> 0 <= a < MemorySize x -> userByte m (PageTable x) a = Some (userAt m x a).
Proof. intros Hr Ha. destruct (Hr a Ha) as [b E]. unfold userAt. by rewrite E. Qed.

Lemma userLoad_eq s p x va b : calling s p x -> userByte (kmem s) (PageTable x) va = Some b -> userLoad va s = Ret b (settled s).
Proof. intros Hc Hb. unfold userLoad. rewrite (bind_caller s p x) by done. rewrite bind_gets. cbn. by rewrite Hb. Qed.

(** The bytes of the process from [a] on. *)
Definition userBytes (m : mem) (x : Process) (a : Z) (n : nat) : list Z := map (fun i => userAt m x (a + Z.of_nat i)) (seq 0 n).

Lemma userBytes_S m x a n : userBytes m x a (S n) = userAt m x a :: userBytes m x (a + 1) n.
Proof.
  unfold userBytes. cbn [seq map]. rewrite Z.add_0_r, <- seq_shift, map_map. f_equal. apply map_ext. intros i. f_equal. lia.
Qed.

Lemma userLoadBytes_eq n : forall s p x a, calling s p x -> settled s = s -> resident (kmem s) x -> MemorySize x < 4294967296 ->
  0 <= a -> a + Z.of_nat n <= MemorySize x -> userLoadBytes n a s = Ret (userBytes (kmem s) x a n) s.
Proof.
  induction n as [|n IH]; intros s p x a Hc Hs Hr Hm Ha Hn; [done|]. cbn [userLoadBytes].
  rewrite (bind_Ret _ _ _ _ _ (userLoad_eq s p x a _ Hc (resident_at _ x a Hr ltac:(lia)))), Hs.
  rewrite userBytes_S. destruct n as [|n]; [done|]. rewrite (u32_small (a + 1)) by (split; [lia|]; apply Z.le_lt_trans with (MemorySize x); [lia|done]).
  rewrite (bind_Ret _ _ _ _ _ (IH s p x (a + 1) Hc Hs Hr Hm ltac:(lia) ltac:(lia))). done.
Qed.

Lemma userLoadWord_eq s p x a : calling s p x -> settled s = s -> resident (kmem s) x -> MemorySize x < 4294967296 ->
  0 <= a -> a + 4 <= MemorySize x -> userLoadWord a s = Ret (userWord (kmem s) x a) s.
Proof.
  intros Hc Hs Hr Hm Ha Hn. unfold userLoadWord. rewrite (bind_Ret _ _ _ _ _ (userLoadBytes_eq 4 s p x a Hc Hs Hr Hm Ha Hn)).
  unfold userBytes, userWord, le32. cbn. by rewrite Z.add_0_r.
Qed.

(** * Arguments *)

Lemma fetchint_eq s p x addr : calling s p x -> resident (kmem s) x -> MemorySize x <= KERNBASE -> 0 <= addr < 4294967296 ->
  fetchint addr s = Ret (if addr + 4 <=? MemorySize x then Some (i32 (userWord (kmem s) x addr)) else None) (settled s).
Proof.
  intros Hc Hr Hm Ha. assert (HK : KERNBASE = 2147483648) by done. unfold fetchint. rewrite (bind_caller s p x) by done.
  rewrite Z.geb_leb, Z.gtb_ltb. destruct (Z.leb_spec (MemorySize x) addr) as [H|H]; cbn [orb].
  - by rewrite (proj2 (Z.leb_gt _ _)) by lia.
  - rewrite (u32_small (addr + 4)) by lia. destruct (Z.ltb_spec (MemorySize x) (addr + 4)), (Z.leb_spec (addr + 4) (MemorySize x)); try lia; [done|].
    assert (E := userLoadWord_eq (settled s) p x addr (calling_settled _ _ _ Hc) (settled_settled s) Hr ltac:(lia) ltac:(lia) ltac:(lia)).
    by rewrite (bind_Ret _ _ _ _ _ E).
Qed.

(** Where the [n]th argument lies: above the return address on the stack of
    the process. *)
Definition argAddress (m : mem) (x : Process) (n : Z) : Z := u32 (load32 m (padd (Trapframe x) TF_ESP) + 4 + 4 * n).

Lemma argint_eq s p x n : calling s p x -> resident (kmem s) x -> MemorySize x <= KERNBASE ->
  argint n s = Ret (if argAddress (kmem s) x n + 4 <=? MemorySize x then Some (i32 (userWord (kmem s) x (argAddress (kmem s) x n))) else None) (settled s).
Proof.
  intros Hc Hr Hm. unfold argint. rewrite (bind_caller s p x) by done. rewrite bind_readWord.
  rewrite (fetchint_eq (settled s) p x); [by rewrite settled_settled|by apply calling_settled|done|done|apply u32_range].
Qed.

Lemma u32_i32 w : 0 <= w < 4294967296 -> u32 (i32 w) = w.
Proof. unfold u32, i32. intros. zdiv. Qed.

(** The loop of [fetchstr] finds the first NUL of the bytes it looks at. *)
Lemma findNul_spec n : forall s p x pp a, calling s p x -> settled s = s -> resident (kmem s) x -> MemorySize x < 4294967296 ->
  0 <= a -> a + Z.of_nat n <= MemorySize x ->
  exists r, findNul n pp a s = Ret r s /\
    ((r = -1 /\ forall v, a <= v < a + Z.of_nat n -> userAt (kmem s) x v <> 0) \/
     (a <= pp + r < a + Z.of_nat n /\ userAt (kmem s) x (pp + r) = 0 /\ forall v, a <= v < pp + r -> userAt (kmem s) x v <> 0)).
Proof.
  induction n as [|n IH]; intros s p x pp a Hc Hs Hr Hm Ha Hn; cbn [findNul].
  - exists (-1). split; [done|]. left. split; [done|lia].
  - rewrite (bind_Ret _ _ _ _ _ (userLoad_eq s p x a _ Hc (resident_at _ x a Hr ltac:(lia)))), Hs.
    destruct (Z.eqb_spec (userAt (kmem s) x a) 0) as [E|E].
    + exists (a - pp). split; [done|]. right. replace (pp + (a - pp)) with a by lia. split_and!; [lia|lia|done|lia].
    + rewrite (u32_small (a + 1)) by lia.
      destruct (IH s p x pp (a + 1) Hc Hs Hr Hm ltac:(lia) ltac:(lia)) as (r & Er & Hr').
      exists r. split; [done|]. destruct Hr' as [[-> H]|(H1 & H2 & H3)]; [left|right].
      * split; [done|]. intros v Hv. destruct (decide (v = a)) as [->|]; [done|]. apply H. lia.
      * split_and!; [lia|lia|done|]. intros v Hv. destruct (decide (v = a)) as [->|]; [done|]. apply H3. lia.
Qed.

(** The length of the string at [addr], if it ends inside the process. *)
Lemma fetchstr_spec s p x addr : calling s p x -> resident (kmem s) x -> MemorySize x <= KERNBASE -> 0 <= addr < 4294967296 ->
  exists r, fetchstr addr s = Ret r (settled s) /\
    ((r = -1 /\ forall v, addr <= v < MemorySize x -> userAt (kmem s) x v <> 0) \/
     (0 <= r /\ addr + r < MemorySize x /\ userAt (kmem s) x (addr + r) = 0 /\
      forall v, addr <= v < addr + r -> userAt (kmem s) x v <> 0)).
Proof.
  intros Hc Hr Hm Ha. assert (HK : KERNBASE = 2147483648) by done. unfold fetchstr. rewrite (bind_caller s p x) by done. rewrite Z.geb_leb.
  destruct (Z.leb_spec (MemorySize x) addr); [exists (-1); split; [done|left; split; [done|lia]]|].
  destruct (findNul_spec (Z.to_nat (MemorySize x - addr)) (settled s) p x addr addr (calling_settled _ _ _ Hc) (settled_settled s) Hr ltac:(lia) ltac:(lia) ltac:(lia)) as (r & E & H').
  exists r. split; [done|]. rewrite Z2Nat.id in H' by lia. destruct H' as [[-> Hn]|(H1 & H2 & H3)]; [left|right].
  - split; [done|]. intros v Hv. apply Hn. lia.
  - split_and!; [lia|lia|done|done].
Qed.

(** * Descriptors *)

(** The lowest free descriptor. *)
Lemma freeFd_spec l : forall fd, match freeFd l fd with
  | Some k => fd <= k < fd + Z.of_nat (length l) /\ l !! Z.to_nat (k - fd) = Some None /\
      forall j, fd <= j < k -> exists f, l !! Z.to_nat (j - fd) = Some (Some f)
  | None => forall j, fd <= j < fd + Z.of_nat (length l) -> exists f, l !! Z.to_nat (j - fd) = Some (Some f)
  end.
Proof.
  induction l as [|[f|] l IH]; intros fd; cbn [freeFd length].
  - lia.
  - specialize (IH (fd + 1)). assert (Hsub : forall j, fd < j -> Z.to_nat (j - fd) = S (Z.to_nat (j - (fd + 1)))) by lia.
    assert (Hstep : forall j, (fd + 1 <= j -> exists g, l !! Z.to_nat (j - (fd + 1)) = Some (Some g)) -> fd <= j ->
      exists g, (Some f :: l) !! Z.to_nat (j - fd) = Some (Some g)).
    { intros j Hj Hfd. destruct (decide (j = fd)) as [->|Hne]; [exists f; by rewrite Z.sub_diag|]. rewrite Hsub by lia. apply Hj. lia. }
    destruct (freeFd l (fd + 1)) as [k|].
    + destruct IH as (H1 & H2 & H3). split_and!; [lia|lia|rewrite Hsub by lia; done|].
      intros j Hj. apply Hstep; [intros; apply H3|]; lia.
    + intros j Hj. apply Hstep; [intros; apply IH|]; lia.
  - split_and!; [lia|lia|by rewrite Z.sub_diag|lia].
Qed.

(** The file a descriptor argument stands for. *)
Definition fdFile (x : Process) (fd : Z) : option nat :=
  if (fd <? 0) || (fd >=? NOFILE) then None else mjoin (rd (OpenFile x) fd).

Lemma argfd_eq s p x n : calling s p x -> resident (kmem s) x -> MemorySize x <= KERNBASE -> length (OpenFile x) = Z.to_nat NOFILE ->
  argAddress (kmem s) x n + 4 <= MemorySize x ->
  let fd := i32 (userWord (kmem s) x (argAddress (kmem s) x n)) in
  argfd n s = Ret (pair fd <$> fdFile x fd) (settled s).
Proof.
  intros Hc Hr Hm Hl Ho fd. unfold argfd, fdFile. rewrite (bind_Ret _ _ _ _ _ (argint_eq s p x n Hc Hr Hm)), (proj2 (Z.leb_le _ _) Ho). fold fd.
  rewrite Z.geb_leb. destruct (Z.ltb_spec fd 0); [done|]. destruct (Z.leb_spec NOFILE fd); [done|]. cbn [orb].
  rewrite (bind_caller (settled s) p x), settled_settled by (by apply calling_settled).
  destruct (lookup_lt_is_Some_2 (OpenFile x) (Z.to_nat fd)) as [o Eo]; [rewrite Hl; unfold NOFILE in *; lia|].
  assert (Erd : rd (OpenFile x) fd = Some o) by (apply rd_Some; done). rewrite Erd. by destruct o.
Qed.

Lemma fdalloc_eq s p x f : calling s p x ->
  fdalloc f s = match freeFd (OpenFile x) 0 with
    | Some k => Ret k (set_processTable (<[p := set_OpenFile (<[Z.to_nat k := Some f]> (OpenFile x)) x]> (processTable s)) (settled s))
    | None => Ret (-1) (settled s)
    end.
Proof.
  intros Hc. unfold fdalloc. rewrite (bind_caller s p x) by done. pose proof (freeFd_spec (OpenFile x) 0) as Hf.
  destruct (freeFd (OpenFile x) 0) as [k|]; [|done]. destruct Hf as (Hk & _).
  by rewrite (bind_Ret _ _ _ _ _ (setOpenFile_eq p k (Some f) x (settled s) (proj2 (calling_settled _ _ _ Hc)) ltac:(lia))).
Qed.

(** * Writing the memory of the caller *)

Section Stores.
Context (kernelEnd : Z).

(** The caller's address space: its page table is well formed and each of its
    pages has a frame of its own. *)
Record space (s : KState) (x : Process) (free : list Z) : Prop := {
  space_vm : vm_state kernelEnd s (PageTable x) free;
  space_as : as_ok kernelEnd (kmem s) (PageTable x) free;
  space_resident : resident (kmem s) x;
  space_size : MemorySize x <= KERNBASE
}.

(** A store changes the one byte it is made to. *)
Lemma userStore_eq s p x free va b : calling s p x -> settled s = s -> space s x free -> 0 <= va < MemorySize x ->
  exists m', userStore va b s = Ret tt (set_kmem m' s) /\ space (set_kmem m' s) x free /\
    forall v, 0 <= v < KERNBASE -> userByte m' (PageTable x) v = if decide (v = va) then Some (u8 b) else userByte (kmem s) (PageTable x) v.
Proof.
  intros Hc Hs [Hvm Has Hr Hm] Hva. assert (HK : KERNBASE = 2147483648) by done. set (pg := PageTable x) in *.
  set (F := frameOf (kmem s) pg va). set (m' := upd (kmem s) (F + va mod 4096) (u8 b)). exists m'.
  assert (Hp : present (entry (kmem s) pg va) = true).
  { destruct (Hr va Hva) as [c Ec]. unfold userByte in Ec. fold pg in Ec. by destruct (present (entry (kmem s) pg va)). }
  assert (Hout : outside kernelEnd (kmem s) pg free F) by (apply (as_frame _ _ _ _ Has); [lia|done]).
  assert (Hsame : forall a, ~ in_page F a -> m' a = kmem s a).
  { intros a Ha. apply upd_ne. intros ->. apply Ha, in_frame. }
  assert (Hbytes : mem_bytes m').
  { intros a. unfold m', upd. case_match; [apply u8_range|apply (pt_bytes _ _ _ _ (vm_table _ _ _ _ Hvm))]. }
  destruct (write_outside kernelEnd s pg free F m' Hvm Hout Hbytes Hsame) as (Hs' & Hpde & Hent).
  assert (Hbyte : forall v, 0 <= v < KERNBASE -> userByte m' pg v = if decide (v = va) then Some (u8 b) else userByte (kmem s) pg v).
  { intros v Hv. unfold userByte, frameOf. rewrite Hent by lia. destruct (decide (v / 4096 = va / 4096)) as [Eq|Ne].
    - rewrite (entry_page _ _ v va) by lia. rewrite Hp. fold (frameOf (kmem s) pg va). fold F. unfold m', upd.
      case_decide as D; [subst; by rewrite Z.eqb_refl|]. rewrite (proj2 (Z.eqb_neq _ _)) by zdiv. done.
    - rewrite decide_False by zdiv. destruct (present (entry (kmem s) pg v)) eqn:Epv; [|done]. f_equal.
      assert (Hne : frameOf (kmem s) pg v <> F) by (intros E; apply Ne; apply (as_inj _ _ _ _ Has); (done || lia)).
      apply Hsame. apply (in_page_disjoint kernelEnd (frameOf (kmem s) pg v) F); [apply (as_frame _ _ _ _ Has); done|apply Hout|done|apply in_frame]. }
  split; [|split; [|exact Hbyte]].
  - unfold userStore. rewrite (bind_caller s p x) by done. rewrite Hs, bind_gets. fold pg. unfold userByte. rewrite Hp. by destruct s.
  - split; [done| | |done].
    + split.
      * intros v Hv. unfold frameOf. fold pg. cbn. rewrite Hent by lia. intros Hpv. apply (outside_pde kernelEnd (kmem s)); [done|].
        by apply (as_frame _ _ _ _ Has).
      * intros v v' Hv Hv'. unfold frameOf. fold pg. cbn. rewrite !Hent by lia. by apply (as_inj _ _ _ _ Has).
    + intros a Ha. fold pg. cbn. rewrite Hbyte by lia. case_decide; [by eexists|]. by apply Hr.
Qed.

Lemma space_bytes s x free : space s x free -> mem_bytes (kmem s).
Proof. intros H. apply (pt_bytes _ _ _ _ (vm_table _ _ _ _ (space_vm _ _ _ H))). Qed.

(** The string [d] of the process at [a]. *)
Definition userCString (m : mem) (x : Process) (a : Z) (d : list Z) : Prop :=
  nonul d /\ forall i c, (d ++ [0]) !! i = Some c -> userAt m x (a + Z.of_nat i) = c.

Lemma userBytes_string m x a d n : (forall i c, d !! i = Some c -> userAt m x (a + Z.of_nat i) = c) -> n = length d ->
  userBytes m x a n = d.
Proof.
  intros H ->. apply list_eq. intros i. unfold userBytes. rewrite list_lookup_fmap.
  destruct (decide (i < length d)%nat) as [Hi|Hi].
  - rewrite lookup_seq_lt by done. destruct (lookup_lt_is_Some_2 d i Hi) as [c Ec]. rewrite Ec. cbn. f_equal. by apply H.
  - rewrite lookup_seq_ge, lookup_ge_None_2 by lia. done.
Qed.

Lemma fetchstr_string s p x a d : calling s p x -> resident (kmem s) x -> MemorySize x <= KERNBASE -> 0 <= a ->
  userCString (kmem s) x a d -> a + Z.of_nat (length d) < MemorySize x -> fetchstr a s = Ret (Z.of_nat (length d)) (settled s).
Proof.
  intros Hc Hr Hm Ha [Hd Hbytes] Hend. assert (HK : KERNBASE = 2147483648) by done.
  destruct (fetchstr_spec s p x a Hc Hr Hm ltac:(lia)) as (r & E & H'). rewrite E.
  assert (Hend0 : userAt (kmem s) x (a + Z.of_nat (length d)) = 0) by (apply Hbytes; by rewrite lookup_app_r, Nat.sub_diag by lia).
  assert (Hin : forall v, a <= v < a + Z.of_nat (length d) -> userAt (kmem s) x v <> 0).
  { intros v Hv. destruct (lookup_lt_is_Some_2 d (Z.to_nat (v - a)) ltac:(lia)) as [c Ec].
    specialize (Hbytes (Z.to_nat (v - a)) c). rewrite lookup_app_l in Hbytes by lia. specialize (Hbytes Ec).
    replace (a + Z.of_nat (Z.to_nat (v - a))) with v in Hbytes by lia. rewrite Hbytes.
    apply (proj1 (Forall_lookup _ _) Hd) in Ec. lia. }
  destruct H' as [[-> Hn]|(H1 & H2 & H3 & H4)]; [exfalso; apply (Hn (a + Z.of_nat (length d))); [lia|done]|].
  destruct (Z.lt_total r (Z.of_nat (length d))) as [L|[L|L]]; [|by rewrite L|].
  - exfalso. apply (Hin (a + r)); [lia|done].
  - exfalso. apply (H4 (a + Z.of_nat (length d))); [lia|done].
Qed.

Lemma argstr_string s p x n d : calling s p x -> resident (kmem s) x -> MemorySize x <= KERNBASE -> mem_bytes (kmem s) ->
  argAddress (kmem s) x n + 4 <= MemorySize x ->
  let a := userWord (kmem s) x (argAddress (kmem s) x n) in
  userCString (kmem s) x a d -> a + Z.of_nat (length d) < MemorySize x ->
  argstr n s = Ret (Some (a, Z.of_nat (length d))) (settled s).
Proof.
  intros Hc Hr Hm Hb Ho a Hd Hend. pose proof (userWord_range (kmem s) x (argAddress (kmem s) x n) Hb) as Hw. fold a in Hw.
  unfold argstr. rewrite (bind_Ret _ _ _ _ _ (argint_eq s p x n Hc Hr Hm)), (proj2 (Z.leb_le _ _) Ho). fold a. rewrite (u32_i32 a) by done.
  rewrite (bind_Ret _ _ _ _ _ (fetchstr_string (settled s) p x a d (calling_settled _ _ _ Hc) Hr Hm ltac:(lia) Hd Hend)), settled_settled.
  by rewrite (proj2 (Z.ltb_ge _ _)) by lia.
Qed.

(** [safestrcpy] of a string that does not fit runs out of the array. *)
Lemma arr_safestrcpy_long (t : list Z) : forall (s r : list Z) n, nonul t -> (length s <= length t)%nat -> (length s < n)%nat ->
  arr_safestrcpy_loop s (t ++ r) n = None.
Proof.
  induction t as [|c t IH]; intros s r n Ht Hl Hn.
  - destruct s; [|cbn in Hl; lia]. destruct n as [|[|n]]; [cbn in Hn; lia|done|by destruct r].
  - destruct n as [|[|n]]; [lia|destruct s; [done|cbn in Hn; lia]|]. destruct s as [|y s]; [done|].
    apply Forall_cons in Ht as [Hc Ht]. cbn [app]. rewrite arr_safestrcpy_loop_SS, (proj2 (Z.eqb_neq c 0)) by lia. cbn [negb length] in *.
    by rewrite IH by (done || lia).
Qed.

(** The working directory that [sys_chdir] stores for the string [d]. *)
Lemma chdir_cwd (cwd d : list Z) : nonul d -> length cwd = Z.to_nat MAXCWDSIZE ->
  let n := Z.of_nat (length d) + 1 + 1 in
  if n <=? MAXCWDSIZE
  then exists r, arr_safestrcpy cwd (d ++ [47; 0]) n = Some (d ++ 47 :: 0 :: r) /\ length (d ++ 47 :: 0 :: r) = length cwd
  else arr_safestrcpy cwd (d ++ [47; 0]) n = None.
Proof.
  intros Hd Hl n. assert (Hd' : nonul (d ++ [47])) by (apply Forall_app; split; [done|by repeat constructor]).
  change [47; 0] with ([47] ++ [0]). rewrite app_assoc. destruct (Z.leb_spec n MAXCWDSIZE) as [H|H].
  - destruct (arr_safestrcpy_app (d ++ [47]) cwd [] n Hd' ltac:(lia)) as (r & E & El). exists r.
    rewrite take_ge in E, El by (rewrite length_app; cbn; lia). assert (X : (d ++ [47]) ++ 0 :: r = d ++ 47 :: 0 :: r) by (by rewrite <- app_assoc).
    by rewrite X in E, El.
  - unfold arr_safestrcpy. rewrite (proj2 (Z.leb_gt _ _)) by lia. unfold MAXCWDSIZE in *.
    apply arr_safestrcpy_long; rewrite ?length_app; cbn; [done|lia|lia].
Qed.

End Stores.

(** * Properties *)

(** C19. Pointers from a process are checked: [argptr] accepts the [n]th
    argument exactly when the argument itself lies on the stack inside the
    process and the block of [size] bytes it points to lies inside the process,
    the arithmetic not wrapping around; otherwise the call gets -1.  A string
    argument is accepted by [argstr] exactly when it ends with a NUL inside the
    process, and the length returned is the distance to the first NUL. *)
Theorem arguments_checked (s : KState) (p : nat) (x : Process) (n size : Z) :
  calling s p x -> resident (kmem s) x -> mem_bytes (kmem s) -> MemorySize x <= KERNBASE -> -2147483648 <= size < 2147483648 ->
  let arg := userWord (kmem s) x (argAddress (kmem s) x n) in
  let onStack := argAddress (kmem s) x n + 4 <= MemorySize x in
  argptr n size s =
    Ret (if decide (onStack /\ 0 <= size /\ arg < MemorySize x /\ arg + size <= MemorySize x) then Some arg else None) (settled s) /\
  exists r, argstr n s = Ret r (settled s) /\
    match r with
    | Some (addr, len) => onStack /\ addr = arg /\ 0 <= len /\ addr + len < MemorySize x /\ userAt (kmem s) x (addr + len) = 0 /\
        (forall v, addr <= v < addr + len -> userAt (kmem s) x v <> 0)
    | None => onStack -> forall v, arg <= v < MemorySize x -> userAt (kmem s) x v <> 0
    end.
Proof.
  intros Hc Hr Hb Hm Hsize arg onStack. assert (HK : KERNBASE = 2147483648) by done.
  pose proof (userWord_range (kmem s) x (argAddress (kmem s) x n) Hb) as Hw. fold arg in Hw.
  pose proof (calling_settled _ _ _ Hc) as Hc'. split.
  - unfold argptr. rewrite (bind_curproc s p x) by done.
    rewrite (bind_Ret _ _ _ _ _ (argint_eq (settled s) p x n Hc' Hr Hm)), settled_settled. change (kmem (settled s)) with (kmem s).
    unfold onStack. destruct (Z.leb_spec (argAddress (kmem s) x n + 4) (MemorySize x)) as [Ho|Ho]; [|by rewrite decide_False by lia].
    rewrite (bind_getProcess p x) by apply Hc'. fold arg. rewrite !(u32_i32 arg) by done. rewrite Z.geb_leb, Z.gtb_ltb.
    destruct (Z.ltb_spec size 0); cbn [orb]; [by rewrite decide_False by lia|].
    destruct (Z.leb_spec (MemorySize x) arg); cbn [orb]; [by rewrite decide_False by lia|]. rewrite (u32_small (arg + size)) by lia.
    destruct (Z.ltb_spec (MemorySize x) (arg + size)); [by rewrite decide_False by lia|by rewrite decide_True by lia].
  - unfold argstr. rewrite (bind_Ret _ _ _ _ _ (argint_eq s p x n Hc Hr Hm)). unfold onStack.
    destruct (Z.leb_spec (argAddress (kmem s) x n + 4) (MemorySize x)) as [Ho|Ho]; [|exists None; split; [done|lia]].
    fold arg. rewrite (u32_i32 arg) by done.
    destruct (fetchstr_spec (settled s) p x arg Hc' Hr Hm Hw) as (r & E & H'). rewrite (bind_Ret _ _ _ _ _ E), settled_settled.
    destruct H' as [[-> Hn]|(H1 & H2 & H3 & H4)]; [by exists None|]. rewrite (proj2 (Z.ltb_ge _ _)) by lia. by exists (Some (arg, r)).
Qed.

(** [dup]: for an open descriptor the result is the lowest free one, which
    then stands for the same file, and the reference is counted; without a free
    descriptor, or for a descriptor that is not open, the result is -1 and
    nothing changes. *)
Theorem sys_dup_outcome (s : KState) (p : nat) (x : Process) :
  calling s p x -> resident (kmem s) x -> MemorySize x <= KERNBASE -> length (OpenFile x) = Z.to_nat NOFILE ->
  argAddress (kmem s) x 0 + 4 <= MemorySize x -> lockFree (sync s) L_FileTable ->
  (forall f, Some f ∈ OpenFile x -> exists y, fileTable s !! f = Some y /\ 1 <= ReferenceCount y < 2147483647) ->
  match fdFile x (i32 (userWord (kmem s) x (argAddress (kmem s) x 0))), freeFd (OpenFile x) 0 with
  | Some f, Some k => exists y, fileTable s !! f = Some y /\
      sys_dup s = Ret k (set_fileTable (<[f := set_ReferenceCount (ReferenceCount y + 1) y]> (fileTable s))
        (set_processTable (<[p := set_OpenFile (<[Z.to_nat k := Some f]> (OpenFile x)) x]> (processTable s)) (settled s))) /\
      OpenFile x !! Z.to_nat k = Some None /\ (forall j, 0 <= j < k -> exists g, OpenFile x !! Z.to_nat j = Some (Some g))
  | _, _ => sys_dup s = Ret (-1) (settled s)
  end.
Proof.
  intros Hc Hr Hm Hl Ho Hlock Hrefs. assert (Hc' := calling_settled _ _ _ Hc).
  assert (E := argfd_eq s p x 0 Hc Hr Hm Hl Ho). cbv zeta in E. set (fd := i32 _) in *. unfold sys_dup. rewrite (bind_Ret _ _ _ _ _ E).
  destruct (fdFile x fd) as [f|] eqn:Ef; [|done]. cbn [fmap option_fmap option_map].
  assert (Hf : Some f ∈ OpenFile x).
  { unfold fdFile in Ef. destruct ((fd <? 0) || (fd >=? NOFILE)); [done|]. destruct (rd (OpenFile x) fd) as [[g|]|] eqn:Erd; try done.
    injection Ef as <-. apply rd_Some in Erd as [_ Erd]. by eapply list_elem_of_lookup_2. }
  destruct (Hrefs f Hf) as (y & Hy & Hcount). assert (Hfree := freeFd_spec (OpenFile x) 0).
  assert (Ea := fdalloc_eq (settled s) p x f Hc'). rewrite settled_settled in Ea.
  destruct (freeFd (OpenFile x) 0) as [k|]; rewrite (bind_Ret _ _ _ _ _ Ea); [|done].
  destruct Hfree as (Hk & Hnone & Hlow). rewrite (proj2 (Z.ltb_ge _ _)) by lia. exists y. split; [done|]. split; [|].
  - set (s1 := set_processTable _ _). assert (Hs1 : settled s1 = s1).
    { change (settled s1) with (set_processTable (processTable s1) (settled (settled s))). by rewrite settled_settled. }
    assert (Hready : table_ready s1) by (split; [apply (thread_balanced 1 _ p); [lia|apply Hc']|by apply settle_lockFree]).
    rewrite (bind_Ret _ _ _ _ _ (dup_ok f y s1 Hready Hy ltac:(lia))), Hs1. done.
  - rewrite Z.sub_0_r in Hnone. split; [done|]. intros j Hj. specialize (Hlow j Hj). by rewrite Z.sub_0_r in Hlow.
Qed.

(** C20. [chdir]: the directory is not looked up.  Unless the string holds both
    kinds of separators, a slash is appended to it, in the memory of the caller,
    and the result becomes the working directory; that copy is bounded by the
    length of the string, not by the size of [Cwd], so a string of 199 or more
    characters overruns the 200 bytes of [Cwd].  (A string without a separator
    makes the code read address 0, whose byte is assumed not to be a
    separator.) *)
Theorem sys_chdir_outcome (kernelEnd : Z) (s : KState) (p : nat) (x : Process) (free : list Z) (d : list Z) :
  calling s p x -> settled s = s -> space kernelEnd s x free -> argAddress (kmem s) x 0 + 4 <= MemorySize x ->
  length (Cwd x) = Z.to_nat MAXCWDSIZE ->
  let a := userWord (kmem s) x (argAddress (kmem s) x 0) in
  userCString (kmem s) x a d -> a + Z.of_nat (length d) + 1 < MemorySize x -> (47 ∉ d \/ 92 ∉ d) ->
  userAt (kmem s) x 0 <> 47 -> userAt (kmem s) x 0 <> 92 ->
  if Z.of_nat (length d) + 2 <=? MAXCWDSIZE
  then exists m' r, sys_chdir s = Ret 0 (set_processTable (<[p := set_Cwd (d ++ 47 :: 0 :: r) x]> (processTable s)) (set_kmem m' s)) /\
    (forall v, 0 <= v < KERNBASE -> userByte m' (PageTable x) v =
       if decide (v = a + Z.of_nat (length d)) then Some 47 else if decide (v = a + Z.of_nat (length d) + 1) then Some 0
       else userByte (kmem s) (PageTable x) v) /\
    length (d ++ 47 :: 0 :: r) = Z.to_nat MAXCWDSIZE
  else sys_chdir s = Fault "sys_chdir: Cwd".
Proof.
  intros Hc Hs Hsp Ho Hl a Hd Hend Hsep H47 H92. assert (HK : KERNBASE = 2147483648) by done. pose proof (space_size _ _ _ _ Hsp) as Hm.
  pose proof (space_resident _ _ _ _ Hsp) as Hr. pose proof (space_bytes _ _ _ _ Hsp) as Hb.
  pose proof (userWord_range (kmem s) x (argAddress (kmem s) x 0) Hb) as Hw. fold a in Hw.
  assert (E1 := argstr_string s p x 0 d Hc Hr Hm Hb Ho Hd ltac:(lia)). rewrite Hs in E1. fold a in E1.
  unfold sys_chdir. rewrite (bind_Ret _ _ _ _ _ E1), (bind_curproc s p x), Hs, Nat2Z.id by done.
  assert (E2 := userLoadBytes_eq (length d) s p x a Hc Hs Hr ltac:(lia) ltac:(lia) ltac:(lia)).
  rewrite (userBytes_string (kmem s) x a d) in E2; [|intros i c Hi; apply Hd, lookup_app_l_Some, Hi|done].
  rewrite (bind_Ret _ _ _ _ _ E2).
  assert (Hderef : forall c, derefStrchr d c s = Ret (if bool_decide (c ∈ d) then c else userAt (kmem s) x 0) s).
  { intros c. unfold derefStrchr. case_bool_decide; [done|].
    by rewrite (userLoad_eq s p x 0 _ Hc (resident_at _ x 0 Hr ltac:(lia))), Hs. }
  rewrite (bind_Ret _ _ _ _ _ (Hderef 47)).
  set (add := if negb _ then _ else _ : M KState bool).
  assert (Hadd : add s = Ret true s).
  { unfold add. case_bool_decide; cbn; [|by rewrite (proj2 (Z.eqb_neq _ _) H47)].
    rewrite (bind_Ret _ _ _ _ _ (Hderef 92)). rewrite bool_decide_false by naive_solver. by rewrite (proj2 (Z.eqb_neq _ _) H92). }
  rewrite (bind_Ret _ _ _ _ _ Hadd).
  destruct (userStore_eq kernelEnd s p x free (a + Z.of_nat (length d)) 47 Hc Hs Hsp ltac:(lia)) as (m1 & S1 & Hsp1 & B1).
  assert (Hc1 : calling (set_kmem m1 s) p x) by done.
  assert (Hs1 : settled (set_kmem m1 s) = set_kmem m1 s) by (change (settled (set_kmem m1 s)) with (set_kmem m1 (settled s)); by rewrite Hs).
  destruct (userStore_eq kernelEnd (set_kmem m1 s) p x free (a + Z.of_nat (length d) + 1) 0 Hc1 Hs1 Hsp1 ltac:(lia)) as (m2 & S2 & Hsp2 & B2).
  assert (Hs2 : settled (set_kmem m2 s) = set_kmem m2 s) by (change (settled (set_kmem m2 s)) with (set_kmem m2 (settled s)); by rewrite Hs).
  assert (Hc2 : calling (set_kmem m2 s) p x) by done. rewrite bind_assoc, (u32_small (a + Z.of_nat (length d))) by lia.
  rewrite (bind_Ret _ _ _ _ _ S1), bind_assoc, (u32_small (a + Z.of_nat (length d) + 1)) by lia. rewrite (bind_Ret _ _ _ _ _ S2), bind_mret.
  change (set_kmem m2 (set_kmem m1 s)) with (set_kmem m2 s) in *. change (kmem (set_kmem m1 s)) with m1 in *.
  assert (HB : forall v, 0 <= v < KERNBASE -> userByte m2 (PageTable x) v =
       if decide (v = a + Z.of_nat (length d)) then Some 47 else if decide (v = a + Z.of_nat (length d) + 1) then Some 0
       else userByte (kmem s) (PageTable x) v).
  { intros v Hv. rewrite B2, B1 by done. repeat case_decide; (done || lia). }
  assert (E3 := userLoadBytes_eq (Z.to_nat (Z.of_nat (length d) + 1 + 1)) (set_kmem m2 s) p x a Hc2 Hs2 (space_resident _ _ _ _ Hsp2) ltac:(lia) ltac:(lia) ltac:(lia)).
  rewrite (userBytes_string _ x a (d ++ [47; 0])) in E3; [|intros i c Hi|rewrite length_app; cbn; lia].
  2: { cbn. assert (Hil := lookup_lt_Some _ _ _ Hi). rewrite length_app in Hil. cbn in Hil. unfold userAt. rewrite HB by lia.
    destruct (decide (i < length d)%nat) as [Hlt|Hge].
    - rewrite !decide_False by lia. change (userAt (kmem s) x (a + Z.of_nat i) = c). apply Hd. rewrite lookup_app_l in * by done. done.
    - rewrite lookup_app_r in Hi by lia. destruct (i - length d)%nat as [|[|]] eqn:Ei; cbn in Hi; [|..].
      + rewrite decide_True by lia. cbn. congruence.
      + rewrite decide_False, decide_True by lia. cbn. congruence.
      + done. }
  rewrite (bind_Ret _ _ _ _ _ E3), (bind_getProcess p x) by apply Hc.
  pose proof (chdir_cwd (Cwd x) d (proj1 Hd) Hl) as Hcwd. replace (Z.of_nat (length d) + 2) with (Z.of_nat (length d) + 1 + 1) by lia. cbv zeta in Hcwd.
  destruct (Z.of_nat (length d) + 1 + 1 <=? MAXCWDSIZE).
  - destruct Hcwd as (r & -> & Hlen). exists m2, r. split; [|split; [done|by rewrite Hlen]].
    rewrite bind_checked, (bind_modify p _ x) by apply Hc. done.
  - by rewrite Hcwd.
Qed.

(** * A concrete process *)

(** A process with one page: its first byte is 85, the string bin is at 100,
    and its stack pointer is 200, with the argument [arg] at 204. *)
Definition demoFrame : Z := 2155884544.
Definition demoText : mem := fun a =>
  if a =? demoT2 then 85 else if a =? demoT2 + 100 then 98 else if a =? demoT2 + 101 then 105 else if a =? demoT2 + 102 then 110
  else if a =? demoT2 + 104 then 101 else if a =? demoT2 + 105 then 99 else if a =? demoT2 + 106 then 104 else if a =? demoT2 + 107 then 111 else 0.
Definition demoUserMem (arg : Z) : mem :=
  store32 (store32 (store32 (store32 demoText (demoFrame + 68) 200) (demoT2 + 204) arg) (demoT1 + 4 * 0) 8396807) (demoDir + 4 * 0) 8392711.

Definition demoCaller : Process :=
  set_OpenFile (Some 0%nat :: replicate 15 None) (set_Trapframe demoFrame (set_MemorySize 4096 (set_PageTable demoDir demoProcess))).

Definition demoCall (arg : Z) : KState :=
  set_fileTable [set_ReferenceCount 1 freeFile] (set_processTable (demoCaller :: replicate 63 unusedProcess) (set_kmem (demoUserMem arg) (settled demoKernel))).

Lemma demoCall_pde arg i : 0 <= i < 1024 -> pdeOf (demoUserMem arg) demoDir i = if decide (i = 0) then 8392711 else 0.
Proof.
  intros Hi. unfold pdeOf, demoUserMem. rewrite (store_same_page demoEnd) by (lia || apply demoVm_page; tauto).
  case_decide; [done|]. rewrite !load32_store32_other by (unfold demoDir, demoT1, demoT2, demoFrame; lia).
  unfold load32, demoText, padd, demoDir, demoT2. rewrite !u32_small by lia.
  repeat match goal with |- context [?a =? ?b] => rewrite (proj2 (Z.eqb_neq a b)) by lia end. done.
Qed.

Lemma demoCall_entry arg va : entry (demoUserMem arg) demoDir va = if decide (PDX va = 0 /\ PTX va = 0) then 8396807 else 0.
Proof.
  unfold entry. cbv zeta. rewrite demoCall_pde by apply PDX_range. destruct (decide (PDX va = 0)); cbn [present]; [|by rewrite decide_False by tauto].
  change (present 8392711) with true. cbv iota. replace (tableOf 8392711) with demoT1 by (vm_compute; done). unfold demoUserMem.
  pose proof (PTX_range va) as Ht. rewrite (store_other_page demoEnd) by (lia || (apply demoVm_page; tauto) || (unfold demoDir, demoT1; lia)).
  rewrite (store_same_page demoEnd) by (lia || apply demoVm_page; tauto). destruct (decide (PTX va = 0)); [by rewrite decide_True by tauto|].
  rewrite decide_False by tauto. rewrite !load32_store32_other by (unfold demoDir, demoT1, demoT2, demoFrame; lia).
  unfold load32, demoText, padd, demoT1, demoT2. rewrite !u32_small by lia.
  repeat match goal with |- context [?a =? ?b] => rewrite (proj2 (Z.eqb_neq a b)) by lia end. done.
Qed.

Lemma demoCall_present arg va : 0 <= va < KERNBASE -> present (entry (demoUserMem arg) demoDir va) = true ->
  va / 4096 = 0 /\ frameOf (demoUserMem arg) demoDir va = demoT2.
Proof.
  unfold frameOf, KERNBASE. rewrite demoCall_entry, PDX_eq, PTX_eq. intros Hva. case_decide as D; [|done]. intros _. split; [zdiv|]. vm_compute. done.
Qed.

Lemma demoCall_space arg : space demoEnd (demoCall arg) demoCaller [].
Proof.
  assert (Hb : mem_bytes (demoUserMem arg)).
  { repeat apply store32_bytes. intros a. unfold demoText. repeat case_match; lia. }
  split; [| | |done].
  - split; [split| |].
    + exact Hb.
    + split; [apply demoVm_page; tauto|apply not_elem_of_nil].
    + intros i Hi. change (PageTable demoCaller) with demoDir. cbn [demoCall kmem set_fileTable set_processTable set_kmem]. rewrite demoCall_pde by done. case_decide; [|done].
      intros _. replace (tableOf 8392711) with demoT1 by (vm_compute; done).
      split_and!; [apply demoVm_page; tauto|apply not_elem_of_nil|done].
    + intros i j Hi Hj Hne. change (PageTable demoCaller) with demoDir. cbn [demoCall kmem set_fileTable set_processTable set_kmem].
      rewrite !demoCall_pde by done. repeat case_decide; (done || lia).
    + split_and!; [done|constructor|constructor].
    + destruct demoPages_ready as [HU|[Hb1 Hl1]]; [done|]. right. split; [by apply settle_balanced|by apply settle_lockFree].
  - split; change (PageTable demoCaller) with demoDir; cbn [demoCall kmem set_fileTable set_processTable set_kmem].
    + intros va Hva Hp. destruct (demoCall_present arg va Hva Hp) as [_ ->]. split_and!; [apply demoVm_page; tauto|apply not_elem_of_nil|done|].
      intros i Hi. rewrite demoCall_pde by done. case_decide; [|done]. intros _ E. vm_compute in E. done.
    + intros va va' Hva Hva' Hp Hp' _. apply demoCall_present in Hp as [-> _], Hp' as [-> _]; done.
  - intros a Ha. change (MemorySize demoCaller) with 4096 in Ha. change (PageTable demoCaller) with demoDir. cbn [demoCall kmem set_fileTable set_processTable set_kmem].
    unfold userByte. rewrite demoCall_entry, PDX_eq, PTX_eq, decide_True by (split; zdiv). by eexists.
Qed.

Lemma demoCall_calling arg : calling (demoCall arg) 0 demoCaller.
Proof. split; [|done]. apply thread_settle. exists 0%nat, (mkCpu 0 1 0 0 (Some 0%nat)). done. Qed.

Lemma demoCall_settled arg : settled (demoCall arg) = demoCall arg.
Proof.
  change (settled (demoCall arg)) with
    (set_fileTable (fileTable (demoCall arg)) (set_processTable (processTable (demoCall arg)) (set_kmem (demoUserMem arg) (settled (settled demoKernel))))).
  by rewrite settled_settled.
Qed.

(** The pointer 4000 with 96 bytes is inside the process. *)
Lemma arguments_checked_witness : argptr 0 96 (demoCall 4000) = Ret (Some 4000) (settled (demoCall 4000)).
Proof.
  destruct (arguments_checked (demoCall 4000) 0 demoCaller 0 96) as [E _];
    [apply demoCall_calling|apply (demoCall_space 4000)|apply (space_bytes _ _ _ _ (demoCall_space 4000))|vm_compute; discriminate|lia|].
  rewrite E. vm_compute. reflexivity.
Defined.

Lemma sys_dup_outcome_witness : exists s', sys_dup (demoCall 0) = Ret 1 s' /\ ReferenceCount <$> fileTable s' !! 0%nat = Some 2.
Proof.
  assert (Ef : fdFile demoCaller (i32 (userWord (kmem (demoCall 0)) demoCaller (argAddress (kmem (demoCall 0)) demoCaller 0))) = Some 0%nat)
    by (vm_compute; reflexivity).
  assert (Ek : freeFd (OpenFile demoCaller) 0 = Some 1) by reflexivity.
  assert (Hrefs : forall f, Some f ∈ OpenFile demoCaller -> exists y, fileTable (demoCall 0) !! f = Some y /\ 1 <= ReferenceCount y < 2147483647).
  { intros f Hf. change (Some f ∈ Some 0%nat :: replicate 15 None) in Hf.
    apply elem_of_cons in Hf as [[= ->]|[Hf _]%elem_of_replicate]; [|discriminate]. exists (set_ReferenceCount 1 freeFile). split; [reflexivity|cbn; lia]. }
  assert (Hlock : lockFree (sync (demoCall 0)) L_FileTable) by (apply settle_lockFree, demoKernel_free; apply (bool_decide_unpack (L_FileTable ∈ demoLockList)); vm_compute; exact I).
  assert (Hstack : argAddress (kmem (demoCall 0)) demoCaller 0 + 4 <= MemorySize demoCaller) by (vm_compute; discriminate).
  assert (Hsize : MemorySize demoCaller <= KERNBASE) by (vm_compute; discriminate).
  pose proof (sys_dup_outcome (demoCall 0) 0 demoCaller (demoCall_calling 0) (space_resident _ _ _ _ (demoCall_space 0)) Hsize eq_refl Hstack Hlock Hrefs) as H.
  rewrite Ef, Ek in H. destruct H as (y & Hy & E & _). injection Hy as <-. eexists. split; [exact E|reflexivity].
Defined.

Lemma sys_chdir_outcome_witness :
  exists s' x', sys_chdir (demoCall 100) = Ret 0 s' /\ processTable s' !! 0%nat = Some x' /\ take 5 (Cwd x') = [98; 105; 110; 47; 0].
Proof.
  pose proof (sys_chdir_outcome demoEnd (demoCall 100) 0 demoCaller [] [98; 105; 110]) as H.
  destruct H as (m' & r & E & _);
    [apply demoCall_calling|apply demoCall_settled|apply demoCall_space|vm_compute; discriminate|reflexivity
    |split; [repeat constructor; lia|intros [|[|[|[|i]]]] c Hc; cbn in Hc; simplify_eq; vm_compute; reflexivity]
    |vm_compute; reflexivity|left; apply (bool_decide_unpack (47 ∉ [98; 105; 110])); vm_compute; exact I|vm_compute; discriminate|vm_compute; discriminate|].
  eexists _, _. split; [exact E|]. split; reflexivity.
Defined.
