(* ===== verification/Exec.v ===== *)
(** exec.c, pe.h and [sys_exec] of sysfile.c: loading a program.

    The image is a PE file: a header at offset 0x80, an optional header and a
    table of sections, each of which is copied to its virtual address.  The
    arguments are strings in the memory of the calling process; the new
    program finds them on a stack page above its sections. *)

From S2P Require Import Prelude CString CArray Types Fat12 Fat12Dir Fat12Open Spinlock Kernel Kalloc Sched Ide Disk Bio Pipe Files Vm Space Proc Syscall.

(** * Headers (pe.h) *)

Record IMAGE_FILE_HEADER : Type := mkFileHeader {
  fh_Machine : Z;
  NumberOfSections : Z;
  TimeDateStamp : Z;
  PointerToSymbolTable : Z;
  NumberOfSymbols : Z;
  SizeOfOptionalHeader : Z;
  fh_Characteristics : Z
}.

Definition IMAGE_FILE_HEADER_of_bytes (l : list Z) : IMAGE_FILE_HEADER :=
  mkFileHeader (le16 l 0) (le16 l 2) (le32 l 4) (le32 l 8) (le32 l 12) (le16 l 16) (le16 l 18).

Record IMAGE_OPTIONAL_HEADER : Type := mkOptionalHeader {
  oh_Magic : Z;
  MajorLinkerVersion : Z;
  MinorLinkerVersion : Z;
  SizeOfCode : Z;
  SizeOfInitializedData : Z;
  SizeOfUninitializedData : Z;
  AddressOfEntryPoint : Z;
  BaseOfCode : Z;
  BaseOfData : Z;
  ImageBase : Z;
  SectionAlignment : Z;
  FileAlignment : Z;
  versions : list Z;
  Reserved1 : Z;
  SizeOfImage : Z;
  SizeOfHeaders : Z;
  CheckSum : Z;
  Subsystem : Z;
  DllCharacteristics : Z;
  SizeOfStackReserve : Z;
  SizeOfStackCommit : Z;
  SizeOfHeapReserve : Z;
  SizeOfHeapCommit : Z;
  LoaderFlags : Z;
  NumberOfRvaAndSizes : Z
}.

(** [versions]: the six 16-bit fields from MajorOperatingSystemVersion on. *)
Definition IMAGE_OPTIONAL_HEADER_of_bytes (l : list Z) : IMAGE_OPTIONAL_HEADER :=
  mkOptionalHeader (le16 l 0) (nth 2 l 0) (nth 3 l 0) (le32 l 4) (le32 l 8) (le32 l 12) (le32 l 16) (le32 l 20) (le32 l 24)
    (le32 l 28) (le32 l 32) (le32 l 36) (map (fun k => le16 l (40 + 2 * k)) (seq 0 6)) (le32 l 52) (le32 l 56) (le32 l 60)
    (le32 l 64) (le16 l 68) (le16 l 70) (le32 l 72) (le32 l 76) (le32 l 80) (le32 l 84) (le32 l 88) (le32 l 92).

Record IMAGE_SECTION_HEADER : Type := mkSectionHeader {
  SectionName : list Z;
  ActualSize : Z;
  VirtualAddress : Z;
  RoundedUpSize : Z;
  OffsetInExeFile : Z;
  PointerToRelocations : Z;
  PointerToLineNumbers : Z;
  NumberOfRelocations : Z;
  NumberOfLineNumbers : Z;
  sh_Characteristics : Z
}.

Definition IMAGE_SECTION_HEADER_of_bytes (l : list Z) : IMAGE_SECTION_HEADER :=
  mkSectionHeader (take 8 l) (le32 l 8) (le32 l 12) (le32 l 16) (le32 l 20) (le32 l 24) (le32 l 28) (le16 l 32) (le16 l 34) (le32 l 36).

Record IMAGE_NT_HEADERS : Type := mkNtHeaders {
  Signature : list Z;
  FileHeader : IMAGE_FILE_HEADER;
  OptionalHeader : IMAGE_OPTIONAL_HEADER
}.

Definition IMAGE_NT_HEADERS_of_bytes (l : list Z) : IMAGE_NT_HEADERS :=
  mkNtHeaders (take 4 l) (IMAGE_FILE_HEADER_of_bytes (drop 4 l)) (IMAGE_OPTIONAL_HEADER_of_bytes (drop 24 l)).

(** sizeof *)
Definition FILE_HEADER_SIZE : Z := 20.
Definition OPTIONAL_HEADER_SIZE : Z := 96.
Definition SECTION_HEADER_SIZE : Z := 40.

(** The global as a structure. *)
Definition header : M KState IMAGE_NT_HEADERS := l ← gets imageFileHeader; mret (IMAGE_NT_HEADERS_of_bytes l).

(** [bytes] are stored over [l] from index [o] on. *)
Definition overwrite (l : list Z) (o : nat) (bytes : list Z) : list Z := take o l ++ bytes ++ drop (o + length bytes) l.

(** * exec *)

Definition setPosition (f : nat) (pos : Z) : M KState unit := x ← getSlot f; putSlot f (set_Position pos x).

(** [copyToUserVirtualMemory] where the source is not an address of the
    kernel: an array on the kernel's stack, or a string of the calling process,
    none of whose pages belong to [pgdir]. *)
Fixpoint copyOutBytes (fuel : nat) (pgdir va : Z) (buf : list Z) : M KState Z :=
  let len := Z.of_nat (length buf) in
  if negb (len >? 0) then mret 0
  else match fuel with
  | O => spin
  | S fuel =>
      let va0 := PGROUNDDOWN va in
      pa0 ← mapVirtualAddressToKernelAddress pgdir va0;
      if pa0 =? 0 then mret (-1)
      else
        let n := u32 (PGSIZE - (va - va0)) in
        let n := if n >? len then len else n in
        puts (fun s => set_kmem (storeBytes (kmem s) (padd pa0 (va - va0)) (take (Z.to_nat n) buf)) s);;
        copyOutBytes fuel pgdir (u32 (va0 + PGSIZE)) (drop (Z.to_nat n) buf)
  end.

Definition copyBytesToUser (pgdir va : Z) (buf : list Z) : M KState Z :=
  copyOutBytes (length buf / 4096 + 2)%nat pgdir va buf.

(** An unsigned 32-bit integer in memory. *)
Definition wordBytes (w : Z) : list Z := [u8 w; u8 (Z.shiftr w 8); u8 (Z.shiftr w 16); u8 (Z.shiftr w 24)].

(** [strlen] and the bytes of the caller's string at [va]; every page of the
    process lies below the next page boundary above its size. *)
Definition argumentString (va : Z) : M KState (list Z) :=
  p ← curproc;
  x ← getProcess p;
  userString (Z.to_nat (PGROUNDUP (MemorySize x) - va + 1)) va.

(** The position after the last separator of a path. *)
Fixpoint lastPart (path : list Z) (last : list Z) : option (list Z) :=
  match path with
  | [] => None
  | c :: path =>
      if c =? 0 then Some last
      else lastPart path (if (c =? 47) || (c =? 92) then path else last)
  end.

Section Exec.
Context (kernelEnd data : Z) (devices : list Device) `{Scheduler} `{BlockCache KState} `{FileTable KState}.

Definition cleanupExec (pageTable : Z) (exeFile : nat) : M KState unit :=
  (if pageTable =? 0 then mret tt else freeMemoryAndPageTable kernelEnd pageTable);;
  Files.fileClose kernelEnd exeFile.

(** The two headers are read into the global; [false]: [exec] returns -1. *)
Definition readHeaders (exeFile : nat) : M KState bool :=
  x ← getSlot exeFile;
  putSlot exeFile (set_Position 128 (set_Writable 0 (set_Readable 1 x)));;
  '(count, bytes) ← fileRead devices exeFile (FILE_HEADER_SIZE + 4);
  puts (fun s => set_imageFileHeader (overwrite (imageFileHeader s) 0 bytes) s);;
  if negb (u32 count =? FILE_HEADER_SIZE + 4) then Files.fileClose kernelEnd exeFile;; mret false
  else
    h ← header;
    if negb (nth 0 (Signature h) 0 =? 80) || negb (nth 1 (Signature h) 0 =? 69) then
      Files.fileClose kernelEnd exeFile;; mret false
    else
      setPosition exeFile (128 + FILE_HEADER_SIZE + 4);;
      '(count, bytes) ← fileRead devices exeFile OPTIONAL_HEADER_SIZE;
      puts (fun s => set_imageFileHeader (overwrite (imageFileHeader s) 24 bytes) s);;
      if negb (u32 count =? OPTIONAL_HEADER_SIZE) then Files.fileClose kernelEnd exeFile;; mret false
      else mret true.

(** The loop over the sections from [i] on: the size of the process, or [None]
    if [exec] returns -1.  The number of sections is a 16-bit field. *)
Fixpoint loadSections (fuel : nat) (i : Z) (exeFile : nat) (pgdir oldFilePosition memorySize : Z) : M KState (option Z) :=
  h ← header;
  if negb (i <? NumberOfSections (FileHeader h)) then mret (Some memorySize)
  else match fuel with
  | O => spin
  | S fuel =>
      setPosition exeFile (u32 oldFilePosition);;
      '(count, bytes) ← fileRead devices exeFile SECTION_HEADER_SIZE;
      if negb (u32 count =? SECTION_HEADER_SIZE) then Files.fileClose kernelEnd exeFile;; mret None
      else
        let sectionHeader := IMAGE_SECTION_HEADER_of_bytes bytes in
        x ← getSlot exeFile;
        memorySize ← allocateMemoryAndPageTables kernelEnd pgdir memorySize
                       (u32 (VirtualAddress sectionHeader + ActualSize sectionHeader));
        if memorySize =? 0 then cleanupExec pgdir exeFile;; mret None
        else
          r ← loadProgramSegmentIntoPageTable devices pgdir (VirtualAddress sectionHeader) exeFile
                (OffsetInExeFile sectionHeader) (ActualSize sectionHeader);
          if r <? 0 then cleanupExec pgdir exeFile;; mret None
          else loadSections fuel (i + 1) exeFile pgdir (i32 (Position x)) memorySize
  end.

(** The loop over the arguments: the stack pointer and the pointers stored in
    [ustack] from index 3 on. *)
Fixpoint pushArguments (argv : list Z) (argc : Z) (pgdir : Z) (exeFile : nat) (sp : Z) (ptrs : list Z) : M KState (option (Z * list Z)) :=
  match argv with
  | [] => mret (Some (sp, ptrs))
  | a :: argv =>
      if argc >=? MAXARG then cleanupExec pgdir exeFile;; mret None
      else
        str ← argumentString a;
        let sp := Z.land (u32 (sp - (Z.of_nat (length str) + 1))) (Z.lnot 3) in
        r ← copyBytesToUser pgdir sp (str ++ [0]);
        if r <? 0 then cleanupExec pgdir exeFile;; mret None
        else pushArguments argv (argc + 1) pgdir exeFile sp (ptrs ++ [sp])
  end.

(** Two pages above the sections, the lower one inaccessible, and the
    arguments on the upper one: the size of the process and its stack pointer. *)
Definition buildStack (pgdir : Z) (exeFile : nat) (memorySize : Z) (argv : list Z) : M KState (option (Z * Z)) :=
  let memorySize := PGROUNDUP memorySize in
  memorySize ← allocateMemoryAndPageTables kernelEnd pgdir memorySize (u32 (memorySize + 2 * PGSIZE));
  if memorySize =? 0 then cleanupExec pgdir exeFile;; mret None
  else
    clearPTEU pgdir (u32 (memorySize - 2 * PGSIZE));;
    a ← pushArguments argv 0 pgdir exeFile memorySize [];
    match a with
    | None => mret None
    | Some (sp, ptrs) =>
        let argc := Z.of_nat (length ptrs) in
        let ustack := [4294967295; argc; u32 (sp - (argc + 1) * 4)] ++ ptrs ++ [0] in
        let sp := u32 (sp - (3 + argc + 1) * 4) in
        r ← copyBytesToUser pgdir sp (concat (map wordBytes ustack));
        if r <? 0 then cleanupExec pgdir exeFile;; mret None
        else mret (Some (memorySize, sp))
    end.

(** The new program replaces the old one. *)
Definition commitImage (p : nat) (path : list Z) (pgdir memorySize sp : Z) : M KState Z :=
  last ← checked "exec: path" (lastPart path path);
  x ← getProcess p;
  name ← checked "exec: Name" (arr_safestrcpy (ProcName x) last 16);
  let oldpgdir := PageTable x in
  modifyProcess p (fun x => set_MemorySize memorySize (set_PageTable pgdir (set_ProcName name x)));;
  h ← header;
  writeWord (padd (Trapframe x) TF_EIP) (AddressOfEntryPoint (OptionalHeader h));;
  writeWord (padd (Trapframe x) TF_ESP) sp;;
  switchToUserVirtualMemory (Some p);;
  freeMemoryAndPageTable kernelEnd oldpgdir;;
  mret 0.

(** [argv]: the pointers in front of the null pointer.  [path0], [pathPart0] and
    [buf0] are the arrays on the stack of [fsFat12Open]. *)
Definition exec (path0 pathPart0 buf0 : list Z) (path : list Z) (argv : list Z) : M KState Z :=
  p ← curproc;
  x ← getProcess p;
  v ← gets volume;
  f ← fsFat12Open v (Cwd x) path path0 pathPart0 buf0 0;
  match f with
  | None => mret (-1)
  | Some exeFile =>
      ok ← readHeaders exeFile;
      if negb ok then mret (-1)
      else
        pgdir ← setupKernelVirtualMemory kernelEnd data;
        if pgdir =? 0 then Files.fileClose kernelEnd exeFile;; mret (-1)
        else
          h ← header;
          sz ← loadSections (Z.to_nat 65536) 0 exeFile pgdir
                 (128 + FILE_HEADER_SIZE + 4 + SizeOfOptionalHeader (FileHeader h)) 0;
          match sz with
          | None => mret (-1)
          | Some memorySize =>
              Files.fileClose kernelEnd exeFile;;
              st ← buildStack pgdir exeFile memorySize argv;
              match st with
              | None => mret (-1)
              | Some (memorySize, sp) => commitImage p path pgdir memorySize sp
              end
          end
  end.

(** * sys_exec (sysfile.c) *)

(** The loop of [sys_exec]: the pointers fetched, [None] for -1. *)
Fixpoint fetchArguments (n : nat) (uargv : Z) (argv : list Z) : M KState (option (list Z)) :=
  match n with
  | O => mret None
  | S n =>
      uarg ← fetchint (u32 (uargv + 4 * Z.of_nat (length argv)));
      match uarg with
      | None => mret None
      | Some uarg =>
          if uarg =? 0 then mret (Some argv)
          else
            r ← fetchstr (u32 uarg);
            if r <? 0 then mret None else fetchArguments n uargv (argv ++ [u32 uarg])
      end
  end.

Definition dotExe : list Z := [46; 101; 120; 101; 0].

(** The name in [adjustedPath]: [str] is the caller's string at [path]. *)
Definition adjustPath (path : Z) (str adjustedPath : list Z) : M KState (list Z) :=
  let pathLen := Z.of_nat (length str) in
  adjustedPath ← checked "sys_exec: adjustedPath" (arr_safestrcpy adjustedPath (str ++ [0]) 200);
  c ← userLoad (u32 (path + (pathLen - 4)));
  if c =? 46 then mret adjustedPath
  else
    tail ← checked "sys_exec: adjustedPath" (arr_safestrcpy (drop (length str) adjustedPath) dotExe (200 - pathLen));
    checked "sys_exec: adjustedPath" (wr (take (length str) adjustedPath ++ tail) (pathLen + 4) 0).

(** [adjustedPath0] (200 bytes) is the array on the stack. *)
Definition sys_exec (adjustedPath0 path0 pathPart0 buf0 : list Z) : M KState Z :=
  a ← argstr 0;
  match a with
  | None => mret (-1)
  | Some (path, len) =>
      uargv ← argint 1;
      match uargv with
      | None => mret (-1)
      | Some uargv =>
          argv ← fetchArguments (Z.to_nat MAXARG) (u32 uargv) [];
          match argv with
          | None => mret (-1)
          | Some argv =>
              str ← userLoadBytes (Z.to_nat len) path;
              adjustedPath ← adjustPath path str adjustedPath0;
              exec path0 pathPart0 buf0 adjustedPath argv
          end
      end
  end.

End Exec.

(** * Copying bytes into a space *)

Section Copies.
Context (kernelEnd : Z).
Notation page_ok := (page_ok kernelEnd).
Notation vm_state := (vm_state kernelEnd).
Notation as_ok := (as_ok kernelEnd).
Notation space_step := (space_step kernelEnd).

Lemma storeBytes_block m a l : blockWritten m (storeBytes m a l) a (Z.of_nat (length l)) (fun i => nth (Z.to_nat i) l 0).
Proof. intros x. done. Qed.

Lemma storeBytes_bytes m a l : mem_bytes m -> bytes l -> mem_bytes (storeBytes m a l).
Proof. intros Hm Hl x. unfold storeBytes. case_match; [by apply nth_byte|apply Hm]. Qed.

(** The process of [pgdir] has the bytes [l] at [va], and what it had
    elsewhere. *)
Definition placed (m m' : mem) (pgdir va : Z) (l : list Z) : Prop :=
  forall v, 0 <= v < KERNBASE -> userByte m' pgdir v =
    if decide (va <= v < va + Z.of_nat (length l)) then Some (nth (Z.to_nat (v - va)) l 0) else userByte m pgdir v.

(** The pages from [va] to [va'] are there and may be used. *)
Definition accessible (m : mem) (pgdir va va' : Z) : Prop :=
  forall v, va <= v < va' -> present (entry m pgdir v) = true /\ Z.land (entry m pgdir v) PTE_U <> 0.

(** Only the bytes of the space have changed. *)
Definition sameEntries (m m' : mem) (pgdir : Z) : Prop := forall v, 0 <= v < 4294967296 -> entry m' pgdir v = entry m pgdir v.

Lemma place_block s pgdir free va l : vm_state s pgdir free -> as_ok (kmem s) pgdir free -> bytes l -> l <> [] ->
  0 <= va -> va mod 4096 + Z.of_nat (length l) <= 4096 -> va + Z.of_nat (length l) <= KERNBASE ->
  present (entry (kmem s) pgdir va) = true ->
  let m' := storeBytes (kmem s) (frameOf (kmem s) pgdir va + va mod 4096) l in
  space_step s pgdir free (set_kmem m' s) free /\ placed (kmem s) m' pgdir va l /\ sameEntries (kmem s) m' pgdir.
Proof.
  intros Hs Has Hl Hne Hva Hfit Hk Hp m'. assert (HK : KERNBASE = 2147483648) by done.
  assert (Hlen : 0 < Z.of_nat (length l)) by (destruct l; [done|cbn; lia]).
  destruct (bytes_step kernelEnd s pgdir free va (Z.of_nat (length l)) (fun i => nth (Z.to_nat i) l 0) m') as (H1 & H2 & H3); try done.
  apply storeBytes_bytes; [apply (pt_bytes _ _ _ _ (vm_table _ _ _ _ Hs))|done].
Qed.

Lemma copyOutBytes_spec fuel : forall pgdir va buf s free,
  vm_state s pgdir free -> as_ok (kmem s) pgdir free -> bytes buf -> 0 <= va -> va + Z.of_nat (length buf) <= KERNBASE ->
  (buf = [] \/ va mod 4096 + Z.of_nat (length buf) <= 4096 * Z.of_nat fuel) -> accessible (kmem s) pgdir va (va + Z.of_nat (length buf)) ->
  exists m', copyOutBytes fuel pgdir va buf s = Ret 0 (set_kmem m' s) /\ space_step s pgdir free (set_kmem m' s) free /\
    placed (kmem s) m' pgdir va buf /\ sameEntries (kmem s) m' pgdir.
Proof.
  induction fuel as [|fuel IH]; intros pgdir va buf s free Hs Has Hb Hva Hk Hfuel Hacc.
  all: assert (Hmod : 0 <= va mod 4096 < 4096) by zdiv.
  all: destruct (decide (buf = [])) as [->|Hne];
    [exists (kmem s); split; [by destruct s|]; split; [destruct s; by apply space_step_refl|split; [intros v Hv; by rewrite decide_False by (cbn; lia)|done]]|].
  all: assert (Hlen : 0 < Z.of_nat (length buf)) by (destruct buf; [done|cbn; lia]).
  all: destruct Hfuel as [|Hfuel]; [done|].
  1: lia.
  assert (HK : KERNBASE = 2147483648) by done. cbn [copyOutBytes]. rewrite Z.gtb_ltb, (proj2 (Z.ltb_lt _ _)) by lia. cbn [negb].
  rewrite PGROUNDDOWN_eq. set (va0 := va - va mod 4096).
  assert (Hpage : va0 / 4096 = va / 4096 /\ 0 <= va0 /\ va0 + va mod 4096 = va) by (unfold va0; zdiv).
  destruct (Hacc va ltac:(lia)) as [Hp Hu]. assert (Ee : entry (kmem s) pgdir va0 = entry (kmem s) pgdir va) by (apply entry_page; lia).
  rewrite (bind_Ret _ _ _ _ _ (mapVirtual_frame kernelEnd s pgdir free va0 (vm_table _ _ _ _ Hs) Has ltac:(lia) ltac:(by rewrite Ee) ltac:(by rewrite Ee))).
  assert (Ef : frameOf (kmem s) pgdir va0 = frameOf (kmem s) pgdir va) by (unfold frameOf; by rewrite Ee). rewrite Ef.
  assert (HF : page_ok (frameOf (kmem s) pgdir va)) by (apply (as_frame _ _ _ _ Has); [lia|done]). apply page_range in HF as HFr.
  rewrite (proj2 (Z.eqb_neq (frameOf _ _ _) 0)), bind_puts by lia. replace (va - va0) with (va mod 4096) by lia.
  rewrite (padd_small _ (va mod 4096)) by lia. unfold PGSIZE. rewrite (u32_small (4096 - va mod 4096)), Z.gtb_ltb by lia.
  set (n := if _ <? _ then _ else _).
  assert (Hn : n = Z.min (Z.of_nat (length buf)) (4096 - va mod 4096)) by (unfold n; destruct (Z.ltb_spec (Z.of_nat (length buf)) (4096 - va mod 4096)); lia).
  set (l := take (Z.to_nat n) buf). assert (Hl : Z.of_nat (length l) = n) by (unfold l; rewrite length_take; lia).
  destruct (place_block s pgdir free va l) as (Hst1 & Hpl1 & Hen1); try done; try lia.
  { by apply Forall_take. }
  { intros E. rewrite E in Hl. cbn in Hl. lia. }
  set (m1 := storeBytes _ _ l) in *. assert (Hv0 : va0 + 4096 <= 2147483648) by (clear -Hva Hk HK Hlen; unfold va0; zdiv).
  rewrite (u32_small (va0 + 4096)) by lia.
  destruct (IH pgdir (va0 + 4096) (drop (Z.to_nat n) buf) (set_kmem m1 s) free) as (m2 & E2 & Hst2 & Hpl2 & Hen2).
  { apply Hst1. } { apply Hst1. } { by apply Forall_drop. } { lia. } { rewrite length_drop. lia. }
  { rewrite length_drop. destruct (decide (n = Z.of_nat (length buf))) as [E|E]; [left; apply drop_ge; lia|right].
    assert ((va0 + 4096) mod 4096 = 0) by (unfold va0; zdiv). lia. }
  { intros v Hv. rewrite length_drop in Hv. cbn. rewrite Hen1 by lia. apply Hacc. lia. }
  exists m2. split; [rewrite E2; by destruct s|]. split; [|split].
  - eapply space_step_trans; [exact Hst1|]. by destruct s.
  - intros v Hv. rewrite Hpl2 by done. rewrite length_drop. cbn [kmem set_kmem]. unfold placed in Hpl1. rewrite Hpl1, Hl by done.
    destruct (decide (va0 + 4096 <= v < va0 + 4096 + Z.of_nat (length buf - Z.to_nat n))) as [D|D].
    + rewrite decide_True by lia. f_equal. rewrite List.nth_skipn. f_equal. lia.
    + case_decide as D2; [rewrite decide_True by lia|by rewrite decide_False by lia]. f_equal. unfold l.
      rewrite List.nth_firstn, (proj2 (Nat.ltb_lt _ _)) by lia. done.
  - intros v Hv. rewrite Hen2 by done. by apply Hen1.
Qed.

End Copies.

(** * The stack of the new program *)

(** Where an argument goes: below [sp], aligned. *)
Definition below (sp : Z) (str : list Z) : Z :=
  let a := sp - (Z.of_nat (length str) + 1) in a - a mod 4.

(** The addresses of the strings, and the last one. *)
Fixpoint pointers (sp : Z) (strs : list (list Z)) : list Z :=
  match strs with
  | [] => []
  | str :: strs => below sp str :: pointers (below sp str) strs
  end.

Fixpoint stringsEnd (sp : Z) (strs : list (list Z)) : Z :=
  match strs with
  | [] => sp
  | str :: strs => stringsEnd (below sp str) strs
  end.

(** The string [str] in the address space [pgdir]. *)
Definition stringAt (m : mem) (pgdir a : Z) (str : list Z) : Prop :=
  forall i c, (str ++ [0]) !! i = Some c -> userByte m pgdir (a + Z.of_nat i) = Some c.

Lemma below_bounds sp str : below sp str + Z.of_nat (length str) + 1 <= sp /\ below sp str mod 4 = 0 /\
  sp - (Z.of_nat (length str) + 1) - 3 <= below sp str.
Proof. unfold below. zdiv. Qed.

Lemma stringsEnd_le strs : forall sp, stringsEnd sp strs <= sp.
Proof.
  induction strs as [|str strs IH]; intros sp; cbn [stringsEnd]; [lia|]. pose proof (IH (below sp str)). pose proof (below_bounds sp str). lia.
Qed.

Lemma pointers_length strs : forall sp, length (pointers sp strs) = length strs.
Proof. induction strs as [|str strs IH]; intros sp; cbn; [done|by rewrite IH]. Qed.

Lemma stringsEnd_aligned strs : forall sp, sp mod 4 = 0 -> stringsEnd sp strs mod 4 = 0.
Proof. induction strs as [|str strs IH]; intros sp Hsp; cbn [stringsEnd]; [done|]. apply IH. apply below_bounds. Qed.

Lemma land_below sp str : 0 <= below sp str -> sp < 4294967296 ->
  Z.land (u32 (sp - (Z.of_nat (length str) + 1))) (Z.lnot 3) = below sp str.
Proof.
  intros Hb Hsp. pose proof (below_bounds sp str). rewrite u32_small by lia. change 3 with (Z.ones 2).
  rewrite <- Z.ldiff_land, Z.ldiff_ones_r, Z.shiftl_mul_pow2, Z.shiftr_div_pow2 by lia. change (2 ^ 2) with 4. unfold below. zdiv.
Qed.

Lemma nonul_bytes str : nonul str -> bytes (str ++ [0]).
Proof. intros H. apply Forall_app. split; [eapply Forall_impl; [exact H|]; cbn; lia|]. by repeat constructor. Qed.

Lemma copy_fuel (l : list Z) a : a mod 4096 + Z.of_nat (length l) <= 4096 * Z.of_nat (length l / 4096 + 2)%nat.
Proof.
  pose proof (Nat.div_mod_eq (length l) 4096). pose proof (Nat.mod_upper_bound (length l) 4096). assert (a mod 4096 < 4096) by zdiv. lia.
Qed.

Section Stack.
Context (kernelEnd : Z) (p : nat) (x : Process) (pgdir : Z) (exeFile : nat).
Notation vm_state := (vm_state kernelEnd).
Notation as_ok := (as_ok kernelEnd).

(** Process [p] runs the call, in an address space apart from the new one. *)
Record caller (s : KState) (free : list Z) : Prop := {
  caller_calling : calling s p x;
  caller_settled : settled s = s;
  caller_resident : resident (kmem s) x;
  caller_size : 0 <= MemorySize x <= KERNBASE - 4096;
  caller_apart : apartSpace kernelEnd (kmem s) pgdir free (PageTable x)
}.

Definition callerString (m : mem) (a : Z) (str : list Z) : Prop :=
  userCString m x a str /\ 0 <= a /\ a + Z.of_nat (length str) < MemorySize x.

Lemma userAt_kept m m' v : (forall v, 0 <= v < KERNBASE -> userByte m' (PageTable x) v = userByte m (PageTable x) v) ->
  0 <= v < KERNBASE -> userAt m' x v = userAt m x v.
Proof. intros H Hv. unfold userAt. by rewrite H. Qed.

Lemma caller_step s free s' free' : caller s free -> space_step kernelEnd s pgdir free s' free' ->
  caller s' free' /\ (forall a str, callerString (kmem s) a str -> callerString (kmem s') a str).
Proof.
  intros [[Ht Hx] Hs Hr Hm Ha] Hst. destruct (apart_kept kernelEnd _ _ _ _ _ _ Hst Ha) as (Ha' & _ & _ & Hub).
  destruct (ss_touches _ _ _ _ _ _ Hst) as [E Hy].
  assert (Ey : sync s' = sync s) by (destruct Hy as [->|Hy]; [done|]; rewrite Hy; exact (f_equal sync Hs)). split.
  - split; [| | |done|done].
    + split; [by rewrite Ey|by rewrite E].
    + unfold settled. rewrite Ey. assert (Es : settle (sync s) = sync s) by exact (f_equal sync Hs). rewrite Es, <- Ey. by destruct s'.
    + intros a Hin. rewrite Hub by lia. by apply Hr.
  - intros a str ([Hn Hb] & H0 & H1). split_and!; [split; [done|]|done|done]. intros i c Hi. pose proof (lookup_lt_Some _ _ _ Hi) as Hl.
    rewrite length_app in Hl. cbn in Hl. rewrite (userAt_kept (kmem s)) by (done || lia). by apply Hb.
Qed.

Lemma userString_eq str : forall n a s free, caller s free -> callerString (kmem s) a str -> (length str < n)%nat -> userString n a s = Ret str s.
Proof.
  induction str as [|c str IH]; intros n a s free Hca ([Hn Hb] & H0 & H1) Hlen; (destruct n as [|n]; [lia|]); cbn [userString];
    pose proof Hca as [Hc Hs Hr Hm _]; cbn [length] in *; assert (HK : KERNBASE = 2147483648) by done.
  - rewrite (bind_Ret _ _ _ _ _ (userLoad_eq s p x a _ Hc (resident_at _ x a Hr ltac:(lia)))), Hs.
    assert (Ec : userAt (kmem s) x a = 0) by (rewrite <- (Z.add_0_r a); by apply (Hb 0%nat 0)). by rewrite Ec.
  - rewrite (bind_Ret _ _ _ _ _ (userLoad_eq s p x a _ Hc (resident_at _ x a Hr ltac:(lia)))), Hs.
    assert (Ec : userAt (kmem s) x a = c) by (rewrite <- (Z.add_0_r a); by apply (Hb 0%nat c)). rewrite Ec.
    apply Forall_cons in Hn as [Hc0 Hn]. rewrite (proj2 (Z.eqb_neq c 0)), (u32_small (a + 1)) by lia.
    rewrite (bind_Ret _ _ _ _ _ (IH n (a + 1) s free Hca ltac:(split_and!; [split; [done|]|lia|lia]; intros i d Hi;
      replace (a + 1 + Z.of_nat i) with (a + Z.of_nat (S i)) by lia; by apply Hb) ltac:(lia))). done.
Qed.

Lemma argumentString_eq a str s free : caller s free -> callerString (kmem s) a str -> argumentString a s = Ret str s.
Proof.
  intros Hca Hstr. pose proof Hca as [Hc Hs Hr Hm _]. pose proof Hstr as (_ & H0 & H1). assert (HK : KERNBASE = 2147483648) by done.
  unfold argumentString. rewrite (bind_caller s p x), Hs by done. apply (userString_eq str _ a s free); [done|done|].
  destruct (PGROUNDUP_spec (MemorySize x)) as [_ Hb]; [lia|unfold PGSIZE; lia|]. lia.
Qed.

Lemma placed_string m m' a str : placed m m' pgdir a (str ++ [0]) -> 0 <= a -> a + Z.of_nat (length str) < KERNBASE -> stringAt m' pgdir a str.
Proof.
  intros Hp H0 H1 i c Hi. pose proof (lookup_lt_Some _ _ _ Hi) as Hl. rewrite length_app in Hl. cbn [length] in Hl.
  rewrite Hp by lia. rewrite length_app. cbn [length]. rewrite decide_True by lia. f_equal.
  rewrite nth_lookup. replace (Z.to_nat (a + Z.of_nat i - a)) with i by lia. by rewrite Hi.
Qed.

Lemma stringAt_kept m m' lo hi a str : (forall v, 0 <= v < KERNBASE -> ~ (lo <= v < hi) -> userByte m' pgdir v = userByte m pgdir v) ->
  0 <= a -> hi <= a -> a + Z.of_nat (length str) < KERNBASE -> stringAt m pgdir a str -> stringAt m' pgdir a str.
Proof.
  intros H H0 Ha H1 Hs i c Hi. pose proof (lookup_lt_Some _ _ _ Hi) as Hl. rewrite length_app in Hl. cbn [length] in Hl.
  rewrite H by lia. by apply Hs.
Qed.

Lemma pushArguments_spec lo free argv : forall strs argc sp ptrs s,
  caller s free -> vm_state s pgdir free -> as_ok (kmem s) pgdir free -> Forall2 (callerString (kmem s)) argv strs ->
  0 <= argc -> argc + Z.of_nat (length argv) <= MAXARG -> 0 <= lo -> lo <= stringsEnd sp strs -> sp <= KERNBASE ->
  accessible (kmem s) pgdir lo sp ->
  exists m', pushArguments kernelEnd argv argc pgdir exeFile sp ptrs s = Ret (Some (stringsEnd sp strs, ptrs ++ pointers sp strs)) (set_kmem m' s) /\
    space_step kernelEnd s pgdir free (set_kmem m' s) free /\ sameEntries (kmem s) m' pgdir /\
    (forall v, 0 <= v < KERNBASE -> ~ (stringsEnd sp strs <= v < sp) -> userByte m' pgdir v = userByte (kmem s) pgdir v) /\
    Forall2 (stringAt m' pgdir) (pointers sp strs) strs.
Proof.
  induction argv as [|a argv IH]; intros strs argc sp ptrs s Hca Hvm Has Hstrs Hargc Hmax Hlo Hend Hsp Hacc; assert (HK : KERNBASE = 2147483648) by done.
  - apply Forall2_nil_inv_l in Hstrs as ->. exists (kmem s). cbn [stringsEnd pointers pushArguments]. rewrite app_nil_r.
    split; [by destruct s|]. split_and!; try done. destruct s. by apply space_step_refl.
  - apply Forall2_cons_inv_l in Hstrs as (str & strs' & Hstr & Hstrs & ->). cbn [pushArguments stringsEnd pointers length] in *.
    rewrite Z.geb_leb, (proj2 (Z.leb_gt _ _)) by lia. rewrite (bind_Ret _ _ _ _ _ (argumentString_eq a str s free Hca Hstr)).
    pose proof (below_bounds sp str) as (Hb1 & Hb2 & Hb3). pose proof (stringsEnd_le strs' (below sp str)) as Hse.
    rewrite (land_below sp str) by lia. set (q := below sp str) in *.
    destruct (copyOutBytes_spec kernelEnd (length (str ++ [0%Z]) / 4096 + 2)%nat pgdir q (str ++ [0]) s free) as (m1 & E1 & Hst1 & Hpl1 & Hen1); try done.
    { apply nonul_bytes, Hstr. } { lia. } { rewrite length_app. cbn [length]. lia. }
    { right. apply copy_fuel. }
    { intros v Hv. rewrite length_app in Hv. cbn [length] in Hv. apply Hacc. lia. }
    unfold copyBytesToUser. rewrite (bind_Ret _ _ _ _ _ E1). change (0 <? 0) with false. cbv iota.
    destruct (caller_step s free _ free Hca Hst1) as [Hca1 Hstr1].
    destruct (IH strs' (argc + 1) q (ptrs ++ [q]) (set_kmem m1 s)) as (m2 & E2 & Hst2 & Hen2 & Hub2 & Hf2); try done; try lia.
    { apply Hst1. } { apply Hst1. } { eapply Forall2_impl; [exact Hstrs|]. exact Hstr1. }
    { intros v Hv. cbn. rewrite Hen1 by lia. apply Hacc. lia. }
    cbn [kmem set_kmem] in *. exists m2. rewrite E2, <- app_assoc. split; [by destruct s|]. split; [|split; [|split]].
    + eapply space_step_trans; [exact Hst1|]. by destruct s.
    + intros v Hv. rewrite Hen2 by done. by apply Hen1.
    + intros v Hv Hn. rewrite Hub2 by lia. rewrite Hpl1 by done. rewrite decide_False; [done|]. rewrite length_app. cbn [length]. lia.
    + constructor; [|done]. apply (stringAt_kept m1 m2 (stringsEnd q strs') q); try done; try lia. apply (placed_string (kmem s)); [done|lia|lia].
Qed.

(** ** The guard page *)

Lemma clear_user e : present e = true -> 0 <= e < 4294967296 ->
  present (Z.land e (Z.lnot PTE_U)) = true /\ PTE_ADDR (Z.land e (Z.lnot PTE_U)) = PTE_ADDR e /\
  0 <= Z.land e (Z.lnot PTE_U) < 4294967296 /\ Z.land (Z.land e (Z.lnot PTE_U)) PTE_U = 0.
Proof.
  intros Hp He. unfold present, PTE_ADDR in *. rewrite <- !Z.land_assoc. split_and!.
  - change (Z.land (Z.lnot PTE_U) PTE_P) with PTE_P. done.
  - by change (Z.land (Z.lnot PTE_U) (Z.lnot 4095)) with (Z.lnot 4095).
  - apply Z.land_nonneg. lia.
  - rewrite <- Z.ldiff_land. pose proof (Z.lor_ldiff_and e PTE_U) as E. rewrite <- Z.add_nocarry_lor in E by (by rewrite (Z.land_comm e), Z.land_assoc, Z.land_ldiff, Z.land_0_l).
    assert (0 <= Z.land e PTE_U) by (apply Z.land_nonneg; lia). lia.
  - change (Z.land (Z.lnot PTE_U) PTE_U) with 0. apply Z.land_0_r.
Qed.

Lemma clearPTEU_spec va free s : vm_state s pgdir free -> as_ok (kmem s) pgdir free -> 0 <= va < KERNBASE ->
  present (entry (kmem s) pgdir va) = true ->
  exists m', clearPTEU pgdir va s = Ret tt (set_kmem m' s) /\ space_step kernelEnd s pgdir free (set_kmem m' s) free /\
    (forall v, 0 <= v < KERNBASE -> userByte m' pgdir v = userByte (kmem s) pgdir v) /\
    (forall v, 0 <= v < 4294967296 -> v / 4096 <> va / 4096 -> entry m' pgdir v = entry (kmem s) pgdir v) /\
    present (entry m' pgdir va) = true /\ Z.land (entry m' pgdir va) PTE_U = 0.
Proof.
  intros Hvm Has Hva Hp. assert (HK : KERNBASE = 2147483648) by done. pose proof (vm_table _ _ _ _ Hvm) as Hok.
  destruct (present (pdeOf (kmem s) pgdir (PDX va))) eqn:Ep.
  2: { exfalso. unfold entry in Hp. cbv zeta in Hp. by rewrite Ep in Hp. }
  set (e := entry (kmem s) pgdir va) in *.
  assert (Ee : load32 (kmem s) (tableOf (pdeOf (kmem s) pgdir (PDX va)) + 4 * PTX va) = e) by (unfold e, entry; cbv zeta; by rewrite Ep).
  assert (Hr : 0 <= e < 4294967296) by (rewrite <- Ee; apply load32_range, (pt_bytes _ _ _ _ Hok)).
  destruct (clear_user e Hp Hr) as (Hp' & Ha' & Hr' & Hu').
  destruct (store_entry kernelEnd s pgdir free va (Z.land e (Z.lnot PTE_U)) Hvm ltac:(lia) Hr' Ep) as (Hstep & _ & Hent). cbv zeta in *.
  set (m' := store32 _ _ _) in *. cbn [kmem set_kmem] in Hent. exists m'.
  assert (Hfr : forall v, 0 <= v < KERNBASE -> present (entry m' pgdir v) = present (entry (kmem s) pgdir v) /\ frameOf m' pgdir v = frameOf (kmem s) pgdir v).
  { intros v Hv. unfold frameOf. rewrite Hent by lia. case_decide as D; [|done]. rewrite (entry_page _ _ v va) by lia. fold e. by rewrite Hp, Hp', Ha'. }
  assert (Has' : as_ok m' pgdir free).
  { split.
    - intros v Hv. destruct (Hfr v Hv) as [-> ->]. intros Hpv. apply (step_outside _ _ _ _ _ _ Hstep). by apply (as_frame _ _ _ _ Has).
    - intros v v' Hv Hv'. destruct (Hfr v Hv) as [-> ->], (Hfr v' Hv') as [-> ->]. by apply (as_inj _ _ _ _ Has). }
  split_and!.
  - unfold clearPTEU. rewrite (bind_Ret _ _ _ _ _ (get_present kernelEnd s pgdir free va false Hok Ep)).
    destruct (pt_table _ _ _ _ Hok _ (PDX_range va) Ep) as (Htab & _). pose proof (PTX_range va). apply page_range in Htab.
    rewrite (proj2 (Z.eqb_neq _ 0)), bind_readWord, Ee by lia. done.
  - apply space_step_vm; try done. intros v Hv Hpv. left. destruct (Hfr v Hv) as [E1 E2]. cbn [kmem set_kmem] in *. by rewrite <- E1.
  - intros v Hv. unfold userByte. destruct (Hfr v Hv) as [-> ->]. destruct (present (entry (kmem s) pgdir v)) eqn:Epv; [|done]. f_equal.
    apply (step_outside _ _ _ _ _ _ Hstep (frameOf (kmem s) pgdir v)); [by apply (as_frame _ _ _ _ Has)|apply in_frame].
  - intros v Hv Hne. rewrite Hent by done. by rewrite decide_False.
  - rewrite Hent, decide_True by (done || lia). done.
  - rewrite Hent, decide_True by (done || lia). done.
Qed.

End Stack.

(** ** The words on the stack *)

(** The 32-bit word of the process at [a]. *)
Definition wordAt (m : mem) (pgdir a : Z) : option Z :=
  b0 ← userByte m pgdir a; b1 ← userByte m pgdir (a + 1); b2 ← userByte m pgdir (a + 2); b3 ← userByte m pgdir (a + 3);
  Some (b0 + 256 * b1 + 65536 * b2 + 16777216 * b3).

Lemma wordBytes_value w : 0 <= w < 4294967296 ->
  u8 w + 256 * u8 (Z.shiftr w 8) + 65536 * u8 (Z.shiftr w 16) + 16777216 * u8 (Z.shiftr w 24) = w.
Proof.
  intros Hw. unfold u8. rewrite !Z.shiftr_div_pow2 by lia. change (2 ^ 8) with 256. change (2 ^ 16) with 65536. change (2 ^ 24) with 16777216. zdiv.
Qed.

Lemma stackWords_length ws : length (concat (map wordBytes ws)) = (4 * length ws)%nat.
Proof. induction ws as [|w ws IH]; cbn [map concat]; [done|]. rewrite length_app, IH. cbn. lia. Qed.

Lemma stackWords_bytes ws : bytes (concat (map wordBytes ws)).
Proof.
  induction ws as [|w ws IH]; cbn [map concat]; [constructor|]. apply Forall_app. split; [|done].
  unfold wordBytes. repeat constructor; apply u8_range.
Qed.

Lemma stackWords_nth ws : forall k w i, ws !! k = Some w -> (i < 4)%nat -> nth (4 * k + i) (concat (map wordBytes ws)) 0 = nth i (wordBytes w) 0.
Proof.
  induction ws as [|y ws IH]; intros k w i Hk Hi; [done|]. cbn [map concat]. destruct k as [|k].
  - injection Hk as ->. rewrite app_nth1 by done. done.
  - rewrite app_nth2 by (cbn; lia). change (length (wordBytes y)) with 4%nat. replace (4 * S k + i - 4)%nat with (4 * k + i)%nat by lia. by apply IH.
Qed.

Lemma placed_words m m' pgdir sp ws k w : placed m m' pgdir sp (concat (map wordBytes ws)) -> 0 <= sp -> sp + 4 * Z.of_nat (length ws) <= KERNBASE ->
  ws !! k = Some w -> 0 <= w < 4294967296 -> wordAt m' pgdir (sp + 4 * Z.of_nat k) = Some w.
Proof.
  intros Hp H0 H1 Hk Hw. pose proof (lookup_lt_Some _ _ _ Hk) as Hl.
  assert (Hb : forall i, (i < 4)%nat -> userByte m' pgdir (sp + 4 * Z.of_nat k + Z.of_nat i) = Some (nth i (wordBytes w) 0)).
  { intros i Hi. rewrite Hp by lia. rewrite stackWords_length, decide_True by lia. f_equal.
    replace (Z.to_nat _) with (4 * k + i)%nat by lia. by apply stackWords_nth. }
  assert (H0b := Hb 0%nat ltac:(lia)). rewrite Z.add_0_r in H0b.
  assert (H1b : userByte m' pgdir (sp + 4 * Z.of_nat k + 1) = Some (nth 1 (wordBytes w) 0)) by exact (Hb 1%nat ltac:(lia)).
  assert (H2b : userByte m' pgdir (sp + 4 * Z.of_nat k + 2) = Some (nth 2 (wordBytes w) 0)) by exact (Hb 2%nat ltac:(lia)).
  assert (H3b : userByte m' pgdir (sp + 4 * Z.of_nat k + 3) = Some (nth 3 (wordBytes w) 0)) by exact (Hb 3%nat ltac:(lia)).
  unfold wordAt. rewrite H0b, H1b, H2b, H3b. cbn. f_equal. by apply wordBytes_value.
Qed.

(** The strings lie between the end and the start. *)
Lemma pointers_fit strs : forall sp, Forall2 (fun a str => stringsEnd sp strs <= a /\ a + Z.of_nat (length str) < sp) (pointers sp strs) strs.
Proof.
  induction strs as [|str strs IH]; intros sp; cbn [pointers stringsEnd]; [done|].
  pose proof (below_bounds sp str). pose proof (stringsEnd_le strs (below sp str)). constructor; [lia|].
  eapply Forall2_impl; [apply IH|]. cbn. lia.
Qed.

(** The contents of the array [ustack], for a stack pointer [sp]. *)
Definition stackFrame (sp : Z) (ptrs : list Z) : list Z := [4294967295; Z.of_nat (length ptrs); sp + 12] ++ ptrs ++ [0].

Lemma PGROUNDUP_aligned a : 0 <= a < KERNBASE -> a mod 4096 = 0 -> PGROUNDUP a = a.
Proof. intros Ha Hm. assert (HK : KERNBASE = 2147483648) by done. destruct (PGROUNDUP_spec a); unfold PGSIZE in *; [lia|lia|]. zdiv. Qed.

(** Two new pages at [base], the lower one closed to the process. *)
Lemma stack_pages kernelEnd pgdir base s free : vm_state kernelEnd s pgdir free -> as_ok kernelEnd (kmem s) pgdir free ->
  0 <= base -> base mod 4096 = 0 -> base + 8192 < KERNBASE -> (4 <= length free)%nat ->
  (forall v, base <= v < base + 8192 -> present (entry (kmem s) pgdir v) = false) ->
  exists s1 m2 free', allocateMemoryAndPageTables kernelEnd pgdir base (base + 8192) s = Ret (base + 8192) s1 /\
    clearPTEU pgdir base s1 = Ret tt (set_kmem m2 s1) /\ space_step kernelEnd s pgdir free (set_kmem m2 s1) free' /\
    accessible m2 pgdir (base + 4096) (base + 8192) /\
    (forall v, 0 <= v < base -> userByte m2 pgdir v = userByte (kmem s) pgdir v) /\
    (forall v, base <= v < base + 4096 -> Z.land (entry m2 pgdir v) PTE_U = 0).
Proof.
  intros Hvm Has H0 Hm Hk Hfree Hnone. assert (HK : KERNBASE = 2147483648) by done.
  assert (E0 : PGROUNDUP base = base) by (apply PGROUNDUP_aligned; lia).
  assert (E8 : PGROUNDUP (base + 8192) = base + 8192) by (apply PGROUNDUP_aligned; zdiv).
  assert (En : newPages base (base + 8192) = 2%nat) by (unfold newPages; rewrite E0, E8; replace (base + 8192 - base) with 8192 by lia; done).
  destruct (allocate_grown kernelEnd pgdir base (base + 8192) s free) as (s1 & f1 & E1 & Hst1 & Has1 & Hg); try done; try lia; rewrite ?E0, ?E8; try done.
  { replace ((base + 8192 - base) / 4096) with 2 by (replace (base + 8192 - base) with 8192 by lia; done). lia. }
  rewrite E0, En in Hg. pose proof (space_step_grown kernelEnd s pgdir free s1 f1 base 2 Hst1 Has1 Hg) as Hs1.
  assert (Hin : forall v, base <= v < base + 8192 -> present (entry (kmem s1) pgdir v) = true /\ Z.land (entry (kmem s1) pgdir v) PTE_U <> 0).
  { intros v Hv. destruct (grown_frame kernelEnd _ _ _ _ _ _ _ v Hg) as (G1 & G2 & _); [lia|zdiv|done]. }
  destruct (clearPTEU_spec kernelEnd pgdir base f1 s1) as (m2 & E2 & Hs2 & Hub2 & Hen2 & Hp2 & Hu2); [apply Hs1|done|lia|by apply Hin; lia|].
  exists s1, m2, f1. split; [done|]. split; [done|]. split; [by eapply space_step_trans|]. split_and!.
  - intros v Hv. rewrite Hen2 by (lia || zdiv). apply Hin. lia.
  - intros v Hv. rewrite Hub2, (grown_bytes _ _ _ _ _ _ _ _ Hg) by lia. rewrite decide_False by zdiv. done.
  - intros v Hv. rewrite (entry_page m2 pgdir v base) by (lia || zdiv). done.
Qed.

(** C17. The stack of a new program: [buildStack] gives a process that consists
    of sections up to [memorySize] an inaccessible guard page and a stack page;
    the stack holds the argument strings, byte for byte as the calling process
    had them, and below them, at the stack pointer, the frame that [main]
    expects: a return address, [argc], the address of [argv], the pointers to
    the strings and a null pointer.  The sections are not touched. *)
Theorem exec_stack_layout (kernelEnd : Z) (p : nat) (x : Process) (pgdir : Z) (exeFile : nat) (memorySize : Z) (argv : list Z)
    (strs : list (list Z)) (s : KState) (free : list Z) :
  let base := PGROUNDUP memorySize in
  let sp := stringsEnd (base + 8192) strs - 4 * (Z.of_nat (length argv) + 4) in
  caller kernelEnd p x pgdir s free -> vm_state kernelEnd s pgdir free -> as_ok kernelEnd (kmem s) pgdir free ->
  0 <= memorySize < KERNBASE -> base + 8192 < KERNBASE -> (4 <= length free)%nat ->
  (forall v, base <= v < base + 8192 -> present (entry (kmem s) pgdir v) = false) ->
  Forall2 (callerString x (kmem s)) argv strs -> Z.of_nat (length argv) <= MAXARG -> base + 4096 <= sp ->
  exists s' free', buildStack kernelEnd pgdir exeFile memorySize argv s = Ret (Some (base + 8192, sp)) s' /\
    space_step kernelEnd s pgdir free s' free' /\ caller kernelEnd p x pgdir s' free' /\
    (forall k w, stackFrame sp (pointers (base + 8192) strs) !! k = Some w -> wordAt (kmem s') pgdir (sp + 4 * Z.of_nat k) = Some w) /\
    Forall2 (stringAt (kmem s') pgdir) (pointers (base + 8192) strs) strs /\
    (forall v, 0 <= v < base -> userByte (kmem s') pgdir v = userByte (kmem s) pgdir v) /\
    (forall v, base <= v < base + 4096 -> Z.land (entry (kmem s') pgdir v) PTE_U = 0) /\
    accessible (kmem s') pgdir (base + 4096) (base + 8192).
Proof.
  intros base sp Hca Hvm Has Hm0 Hk Hfree Hnone Hstrs Hmax Hfit. assert (HK : KERNBASE = 2147483648) by done.
  destruct (PGROUNDUP_spec memorySize) as [Hbm Hbb]; [lia|unfold PGSIZE; lia|]. fold base in Hbm, Hbb. unfold PGSIZE in Hbm, Hbb.
  destruct (stack_pages kernelEnd pgdir base s free) as (s1 & m2 & f1 & E1 & E2 & Hst & Hacc & Hlow & Hguard); try done; try lia.
  destruct (caller_step kernelEnd p x pgdir s free _ f1 Hca Hst) as [Hca2 Hstr2]. set (s2 := set_kmem m2 s1) in *.
  pose proof (stringsEnd_le strs (base + 8192)) as Hse. assert (Hlen : length strs = length argv) by (symmetry; by eapply Forall2_length).
  destruct (pushArguments_spec kernelEnd p x pgdir exeFile (base + 4096) f1 argv strs 0 (base + 8192) [] s2) as (m3 & E3 & Hst3 & Hen3 & Hub3 & Hf3);
    try done; try lia; [apply Hst|apply Hst|eapply Forall2_impl; [exact Hstrs|exact Hstr2]|]. cbn [app] in E3.
  set (ptrs := pointers (base + 8192) strs) in *. assert (Hpl : length ptrs = length argv) by (unfold ptrs; by rewrite pointers_length).
  set (ws := stackFrame sp ptrs). assert (Hws : Z.of_nat (length ws) = Z.of_nat (length argv) + 4) by (unfold ws, stackFrame; rewrite !length_app, Hpl; cbn; lia).
  destruct (copyOutBytes_spec kernelEnd (length (concat (map wordBytes ws)) / 4096 + 2)%nat pgdir sp (concat (map wordBytes ws)) (set_kmem m3 s2) f1) as (m4 & E4 & Hst4 & Hpl4 & Hen4).
  { apply Hst3. } { apply Hst3. } { apply stackWords_bytes. } { lia. } { rewrite stackWords_length. lia. } { right. apply copy_fuel. }
  { intros v Hv. rewrite stackWords_length in Hv. cbn. rewrite Hen3 by lia. apply Hacc. lia. }
  assert (Hst' : space_step kernelEnd s pgdir free (set_kmem m4 (set_kmem m3 s2)) f1) by (do 2 (eapply space_step_trans; [done|]); done).
  exists (set_kmem m4 (set_kmem m3 s2)), f1. cbn [kmem set_kmem] in *. split; [|split; [done|split; [by apply (caller_step kernelEnd p x pgdir s free)|]]].
  - unfold buildStack. fold base. unfold PGSIZE. rewrite (u32_small (base + 2 * 4096)) by lia. change (2 * 4096) with 8192.
    rewrite (bind_Ret _ _ _ _ _ E1), (proj2 (Z.eqb_neq _ 0)) by lia. rewrite (u32_small (base + 8192 - 8192)) by lia.
    replace (base + 8192 - 8192) with base by lia. rewrite (bind_Ret _ _ _ _ _ E2). fold s2. rewrite (bind_Ret _ _ _ _ _ E3).
    rewrite Hpl. replace (stringsEnd (base + 8192) strs - (3 + Z.of_nat (length argv) + 1) * 4) with sp by (unfold sp; lia).
    rewrite (u32_small sp) by lia. replace (u32 (stringsEnd (base + 8192) strs - (Z.of_nat (length argv) + 1) * 4)) with (sp + 12) by (rewrite u32_small; unfold sp; lia).
    unfold ws, stackFrame in E4. rewrite Hpl in E4. unfold copyBytesToUser. rewrite (bind_Ret _ _ _ _ _ E4). done.
  - assert (Hr : Forall (fun w => 0 <= w < 4294967296) ws).
    { unfold ws, stackFrame. apply Forall_app. split; [repeat constructor; lia|]. apply Forall_app. split; [|by repeat constructor].
      eapply Forall2_Forall_l; [apply pointers_fit|]. apply Forall_true. intros str a. lia. }
    assert (Hkeep : forall v, 0 <= v < KERNBASE -> ~ (sp <= v < stringsEnd (base + 8192) strs) -> userByte m4 pgdir v = userByte m3 pgdir v).
    { intros v Hv Hn. rewrite Hpl4, stackWords_length by done. rewrite decide_False by (unfold sp in Hn; lia). done. }
    split_and!.
    + intros k w Hw. apply (placed_words m3 m4 pgdir sp ws k w); try done; [lia|lia|]. by apply (Forall_lookup_1 _ _ _ _ Hr Hw).
    + apply Forall2_same_length_lookup. split; [by apply Forall2_length in Hf3|]. intros i a str Ha Hs.
      pose proof (Forall2_lookup_lr _ _ _ _ _ _ (pointers_fit strs (base + 8192)) Ha Hs) as Hr'. cbn in Hr'.
      apply (stringAt_kept pgdir m3 m4 sp (stringsEnd (base + 8192) strs)); try done; try lia. by apply (Forall2_lookup_lr _ _ _ _ _ _ Hf3 Ha Hs).
    + intros v Hv. rewrite Hkeep, Hub3 by lia. by apply Hlow.
    + intros v Hv. rewrite Hen4, Hen3 by lia. by apply Hguard.
    + intros v Hv. rewrite Hen4, Hen3 by lia. by apply Hacc.
Qed.

(** * The name and the arguments of a program *)

(** [ptrs] are the pointers of an array at [uargv] that ends with a null
    pointer, and each of them points to a string of the process. *)
Record argumentArray (m : mem) (x : Process) (uargv : Z) (ptrs : list Z) : Prop := {
  aa_low : 0 <= uargv;
  aa_end : uargv + 4 * Z.of_nat (length ptrs) + 4 <= MemorySize x;
  aa_null : userWord m x (uargv + 4 * Z.of_nat (length ptrs)) = 0;
  aa_word i w : ptrs !! i = Some w -> userWord m x (uargv + 4 * Z.of_nat i) = w /\ w <> 0;
  aa_string w : w ∈ ptrs -> exists str, userCString m x w str /\ w + Z.of_nat (length str) < MemorySize x
}.

Lemma fetchArguments_eq x p uargv ptrs s : calling s p x -> settled s = s -> resident (kmem s) x -> MemorySize x <= KERNBASE -> mem_bytes (kmem s) ->
  argumentArray (kmem s) x uargv ptrs ->
  forall rest n acc, ptrs = acc ++ rest -> (length rest < n)%nat -> fetchArguments n uargv acc s = Ret (Some ptrs) s.
Proof.
  intros Hc Hs Hr Hm Hb [A1 A2 A3 A4 A5] rest. assert (HK : KERNBASE = 2147483648) by done.
  induction rest as [|w rest IH]; intros n acc Hp Hn; (destruct n as [|n]; [cbn in Hn; lia|]); cbn [fetchArguments].
  - rewrite app_nil_r in Hp. subst acc. rewrite (u32_small (uargv + _)) by lia.
    rewrite (bind_Ret _ _ _ _ _ (fetchint_eq s p x (uargv + 4 * Z.of_nat (length ptrs)) Hc Hr Hm ltac:(lia))), (proj2 (Z.leb_le _ _)), A3, Hs by lia. done.
  - assert (Hi : ptrs !! length acc = Some w) by (rewrite Hp; by rewrite lookup_app_r, Nat.sub_diag by lia).
    destruct (A4 _ _ Hi) as [Ew Hw]. assert (Hl : (length acc < length ptrs)%nat) by (by eapply lookup_lt_Some).
    rewrite (u32_small (uargv + _)) by lia.
    rewrite (bind_Ret _ _ _ _ _ (fetchint_eq s p x (uargv + 4 * Z.of_nat (length acc)) Hc Hr Hm ltac:(lia))), (proj2 (Z.leb_le _ _)), Ew, Hs by lia.
    pose proof (userWord_range (kmem s) x (uargv + 4 * Z.of_nat (length acc)) Hb) as Hwr. rewrite Ew in Hwr.
    rewrite (proj2 (Z.eqb_neq (i32 w) 0)) by (intros E; apply Hw; rewrite <- (u32_i32 w Hwr), E; done). rewrite (u32_i32 w) by done.
    destruct (A5 w) as (str & Hstr & Hend); [eapply list_elem_of_lookup_2; eauto|].
    rewrite (bind_Ret _ _ _ _ _ (fetchstr_string s p x w str Hc Hr Hm ltac:(lia) Hstr Hend)), (proj2 (Z.ltb_ge _ _)), Hs by lia.
    apply IH; [by rewrite <- app_assoc|cbn in Hn; lia].
Qed.

(** The name that is opened: [.exe] is added unless the fourth character from
    the end is a dot. *)
Definition dotted (d : list Z) : bool := nth (length d - 4) d 0 =? 46.
Definition exeName (d : list Z) : list Z := if dotted d then d else d ++ [46; 101; 120; 101].

Lemma adjustPath_eq s p x a d adj : calling s p x -> settled s = s -> resident (kmem s) x -> MemorySize x <= KERNBASE -> 0 <= a ->
  userCString (kmem s) x a d -> a + Z.of_nat (length d) < MemorySize x -> (4 <= length d)%nat -> length adj = 200%nat ->
  if dotted d || (Z.of_nat (length d) <=? 195)
  then exists r, adjustPath a d adj s = Ret (take 199 (exeName d) ++ 0 :: r) s
  else adjustPath a d adj s = Fault "sys_exec: adjustedPath".
Proof.
  intros Hc Hs Hr Hm Ha [Hd Hb] Hend H4 Hadj. assert (HK : KERNBASE = 2147483648) by done. unfold adjustPath.
  destruct (arr_safestrcpy_app d adj [] 200 Hd ltac:(lia)) as (tl & E1 & Hl1). rewrite E1, bind_checked. change (Z.to_nat (200 - 1)) with 199%nat in *.
  rewrite (u32_small (a + _)) by lia. replace (a + (Z.of_nat (length d) - 4)) with (a + Z.of_nat (length d - 4)) by lia.
  rewrite (bind_Ret _ _ _ _ _ (userLoad_eq s p x _ _ Hc (resident_at _ x (a + Z.of_nat (length d - 4)) Hr ltac:(lia)))), Hs.
  destruct (lookup_lt_is_Some_2 d (length d - 4) ltac:(lia)) as [ch Ech].
  rewrite (Hb (length d - 4)%nat ch) by (by apply lookup_app_l_Some).
  assert (Edot : dotted d = (ch =? 46)) by (unfold dotted; by rewrite (nth_lookup_Some _ _ _ _ Ech)). unfold exeName. rewrite Edot.
  destruct (Z.eqb_spec ch 46) as [_|_]; cbn [orb]; [by exists tl|]. rewrite Hadj in Hl1.
  destruct (Z.leb_spec (Z.of_nat (length d)) 195) as [Hle|Hgt].
  - assert (Et : take 199 d = d) by (apply take_ge; lia). rewrite Et in *. rewrite drop_app_length, take_app_length.
    destruct (arr_safestrcpy_app [46; 101; 120; 101] (0 :: tl) [] (200 - Z.of_nat (length d))) as (t2 & E2 & Hl2).
    { repeat constructor. } { rewrite length_app in Hl1. lia. }
    change ([46; 101; 120; 101] ++ [0]) with dotExe in E2. rewrite E2, bind_checked. rewrite (take_ge [46; 101; 120; 101]) in E2, Hl2 |- * by (cbn; lia).
    rewrite length_app in Hl1. unfold wr. rewrite !length_app. cbn [length app] in *. rewrite (proj2 (Z.leb_le _ _)), (proj2 (Z.ltb_lt _ _)) by lia. cbn [andb checked].
    replace (Z.to_nat (Z.of_nat (length d) + 4)) with (length d + 4)%nat by lia. rewrite insert_app_r. cbn [insert list_insert].
    exists t2. rewrite (take_ge (d ++ _)) by (rewrite length_app; cbn; lia). by rewrite <- app_assoc.
  - assert (Htail : exists t2, arr_safestrcpy (drop (length d) (take 199 d ++ 0 :: tl)) dotExe (200 - Z.of_nat (length d)) = Some t2 /\
      length (take (length d) (take 199 d ++ 0 :: tl) ++ t2) = 200%nat).
    { destruct (decide (Z.of_nat (length d) < 200)) as [Hlt|Hge].
      - destruct (arr_safestrcpy_app [46; 101; 120; 101] (drop (length d) (take 199 d ++ 0 :: tl)) [] (200 - Z.of_nat (length d))) as (t2 & E2 & Hl2).
        { repeat constructor. } { rewrite length_drop. lia. }
        eexists. split; [exact E2|]. rewrite length_app, Hl2, length_drop, length_take. lia.
      - exists []. rewrite drop_ge by lia. split; [unfold arr_safestrcpy; by rewrite (proj2 (Z.leb_le _ _)) by lia|].
        rewrite app_nil_r, take_ge by lia. done. }
    destruct Htail as (t2 & -> & Hl2). rewrite bind_checked. unfold wr. rewrite Hl2, (proj2 (Z.ltb_ge _ _)), andb_false_r by lia. done.
Qed.


(** * A concrete call *)

(** The caller of Syscall's example, an empty page directory for the new program
    and four free pages. *)
Definition execDir : Z := 2155888640.
Definition execP1 : Z := 2155892736.
Definition execP2 : Z := 2155896832.
Definition execP3 : Z := 2155900928.
Definition execP4 : Z := 2155905024.
Definition execFree : list Z := [execP1; execP2; execP3; execP4].
Definition execMem : mem := store32 (store32 (store32 (demoUserMem 100) execP1 execP2) execP2 execP3) execP3 execP4.
Definition execKernel : KState := set_FreeList execP1 (set_kmem execMem (demoCall 100)).

Ltac demo_page := vm_compute; repeat split; congruence.

Lemma execMem_low a : a < execP1 -> execMem a = demoUserMem 100 a.
Proof. unfold execP1. intros Ha. unfold execMem. rewrite !store32_out by (unfold execP1, execP2, execP3; lia). done. Qed.

Lemma execMem_word a : 0 <= a -> a + 4 <= execP1 -> load32 execMem a = load32 (demoUserMem 100) a.
Proof. unfold execP1. intros H0 Ha. apply load32_same; [lia|lia|]. intros b Hb. apply execMem_low. unfold execP1. lia. Qed.

Lemma execMem_new i : 0 <= i < 1024 -> pdeOf execMem execDir i = 0.
Proof.
  intros Hi. unfold pdeOf. rewrite execMem_word by (unfold execDir, execP1; lia). unfold demoUserMem.
  rewrite !load32_store32_other by (unfold execDir, demoDir, demoT1, demoT2, demoFrame; lia).
  unfold load32, demoText, padd, execDir, demoT2. rewrite !u32_small by lia.
  repeat match goal with |- context [?a =? ?b] => rewrite (proj2 (Z.eqb_neq a b)) by lia end. done.
Qed.

Lemma execMem_none va : entry execMem execDir va = 0.
Proof. unfold entry. cbv zeta. by rewrite execMem_new by apply PDX_range. Qed.

Lemma execMem_bytes : mem_bytes execMem.
Proof. repeat apply store32_bytes. intros a. unfold demoText. repeat case_match; lia. Qed.

Lemma exec_vm : vm_state demoEnd execKernel execDir execFree.
Proof.
  split; [split| |].
  - exact execMem_bytes.
  - split; [demo_page|]. apply (bool_decide_unpack (execDir ∉ execFree)). vm_compute. exact I.
  - intros i Hi. cbn [execKernel kmem set_FreeList set_kmem]. by rewrite execMem_new.
  - intros i j Hi Hj. cbn [execKernel kmem set_FreeList set_kmem]. by rewrite execMem_new.
  - split_and!.
    + split; [done|]. repeat split; vm_compute; done.
    + repeat constructor; demo_page.
    + apply (bool_decide_unpack (NoDup execFree)). vm_compute. exact I.
  - destruct demoPages_ready as [HU|[Hb1 Hl1]]; [done|]. right. split; [by apply settle_balanced|by apply settle_lockFree].
Qed.

Lemma exec_as : as_ok demoEnd execMem execDir execFree.
Proof. split; intros va; [intros _|intros va' _ _]; by rewrite execMem_none. Qed.

Lemma exec_apart q : page_ok demoEnd q -> q ∉ execFree -> q <> execDir -> apart demoEnd execMem execDir execFree q.
Proof.
  intros H1 H2 H3. split; [split_and!; try done; intros i Hi; by rewrite execMem_new|]. intros v Hv. by rewrite execMem_none.
Qed.

Lemma exec_old_pde i : 0 <= i < 1024 -> pdeOf execMem demoDir i = pdeOf (demoUserMem 100) demoDir i.
Proof. intros Hi. apply execMem_word; unfold demoDir, execP1; lia. Qed.

Lemma exec_old va : entry execMem demoDir va = entry (demoUserMem 100) demoDir va.
Proof.
  unfold entry. cbv zeta. pose proof (PDX_range va) as Hd. pose proof (PTX_range va) as Ht. rewrite exec_old_pde by done. rewrite demoCall_pde by done.
  destruct (decide (PDX va = 0)) as [E|E]; [|change (present 0) with false; cbv iota; reflexivity]. replace (tableOf 8392711) with demoT1 by (vm_compute; done). change (present 8392711) with true. cbv iota.
  apply execMem_word; unfold demoT1, execP1; lia.
Qed.

Lemma settled_same s : settle (sync s) = sync s -> settled s = s.
Proof. unfold settled. intros ->. by destruct s. Qed.

Lemma exec_caller : caller demoEnd 0 demoCaller execDir execKernel execFree.
Proof.
  split.
  - exact (demoCall_calling 100).
  - apply settled_same. exact (settle_settle demoKernelSync).
  - intros a Ha. change (MemorySize demoCaller) with 4096 in Ha. change (PageTable demoCaller) with demoDir. cbn [execKernel kmem set_FreeList set_kmem].
    unfold userByte. rewrite exec_old, demoCall_entry, PDX_eq, PTX_eq, decide_True by (split; zdiv). by eexists.
  - by vm_compute.
  - change (PageTable demoCaller) with demoDir. cbn [execKernel kmem set_FreeList set_kmem]. split.
    + apply exec_apart; [demo_page|apply (bool_decide_unpack (demoDir ∉ execFree)); vm_compute; exact I|done].
    + intros i Hi. rewrite exec_old_pde, demoCall_pde by done. case_decide; [|done]. intros _.
      apply exec_apart; [demo_page|apply (bool_decide_unpack (tableOf 8392711 ∉ execFree)); vm_compute; exact I|by vm_compute].
    + intros v Hv. unfold frameOf. rewrite exec_old. intros Hp. destruct (demoCall_present 100 v Hv Hp) as [_ E]. unfold frameOf in E. rewrite E.
      apply exec_apart; [demo_page|apply (bool_decide_unpack (demoT2 ∉ execFree)); vm_compute; exact I|done].
Qed.

Lemma exec_byte v : 0 <= v < 4096 -> userAt execMem demoCaller v = demoUserMem 100 (demoT2 + v).
Proof.
  intros Hv. unfold userAt, userByte, frameOf. change (PageTable demoCaller) with demoDir. rewrite exec_old, demoCall_entry, PDX_eq, PTX_eq, decide_True by (split; zdiv).
  change (present 8396807) with true. cbv iota. replace (P2V (PTE_ADDR 8396807)) with demoT2 by (vm_compute; done).
  rewrite Z.mod_small by lia. cbn [default]. apply execMem_low. unfold demoT2, execP1. lia.
Qed.

(** The string at 100. *)
Lemma exec_argument : callerString demoCaller execMem 100 [98; 105; 110].
Proof.
  split; [split|change (MemorySize demoCaller) with 4096; cbn; lia].
  - nums.
  - intros i ch Hi. assert (Hl := lookup_lt_Some _ _ _ Hi). cbn in Hl. rewrite exec_byte by lia.
    do 4 (destruct i as [|i]; [injection Hi as <-; vm_compute; reflexivity|]). lia.
Qed.

(** A program of one page is started with the argument "bin". *)
Lemma exec_stack_layout_witness :
  exists s', buildStack demoEnd execDir 0 100 [100] execKernel = Ret (Some (12288, 12264)) s' /\
    wordAt (kmem s') execDir (12264 + 4) = Some 1 /\ wordAt (kmem s') execDir (12264 + 12) = Some 12284 /\
    stringAt (kmem s') execDir 12284 [98; 105; 110].
Proof.
  destruct (exec_stack_layout demoEnd 0 demoCaller execDir 0 100 [100] [[98; 105; 110]] execKernel execFree) as (s' & f' & E & _ & _ & Hw & Hs & _).
  - exact exec_caller.
  - exact exec_vm.
  - exact exec_as.
  - by vm_compute.
  - by vm_compute.
  - cbn. lia.
  - intros v Hv. cbn [execKernel kmem set_FreeList set_kmem]. by rewrite execMem_none.
  - constructor; [exact exec_argument|constructor].
  - by vm_compute.
  - by vm_compute.
  - exists s'. split; [exact E|]. split; [exact (Hw 1%nat 1 eq_refl)|]. split; [exact (Hw 3%nat 12284 eq_refl)|].
    by apply Forall2_cons in Hs as [Hs _].
Defined.

Lemma demoCall_byte arg v : 0 <= v < 4096 -> userAt (demoUserMem arg) demoCaller v = demoUserMem arg (demoT2 + v).
Proof.
  intros Hv. unfold userAt, userByte, frameOf. change (PageTable demoCaller) with demoDir. rewrite demoCall_entry, PDX_eq, PTX_eq, decide_True by (split; zdiv).
  change (present 8396807) with true. cbv iota. replace (P2V (PTE_ADDR 8396807)) with demoT2 by (vm_compute; done).
  by rewrite Z.mod_small by lia.
Qed.

Lemma demoCall_word arg v w : 0 <= v -> v + 3 < 4096 ->
  demoUserMem arg (demoT2 + v) + 256 * demoUserMem arg (demoT2 + (v + 1)) + 65536 * demoUserMem arg (demoT2 + (v + 2)) + 16777216 * demoUserMem arg (demoT2 + (v + 3)) = w ->
  userWord (demoUserMem arg) demoCaller v = w.
Proof. intros H0 H1 E. unfold userWord. by rewrite !demoCall_byte by lia. Qed.

