(* ===== verification/Load.v ===== *)
(** Loading a program from the disk: what the loops of
    [loadProgramSegmentIntoPageTable] and of [exec] leave in the new address
    space, with the kernel's own file table, buffer cache and disk driver. *)

From S2P Require Import Prelude CString Types Fat12 Fat12Dir Spinlock Kernel Kalloc Sched Idle Ide Disk Bio Pipe Files Vm Space Proc Syscall Exec.

(** * Reading an open file *)

Section Load.
Context `{Hardware} (disk : Z -> list Z) `{!DiskLaws disk} (c p : nat) (kernelEnd : Z) (devices : list Device).
Context (v : Volume) (cs : list Z) (f : nat).
Notation vm_state := (vm_state kernelEnd).
Notation as_ok := (as_ok kernelEnd).
Notation apart := (apart kernelEnd).

(** The bytes of the file. *)
Definition fileData : list Z := chainData disk v cs.

Context (Hvol : vol_ok v) (Hchain : chain v cs) (Hdata : bytes fileData).

(** An open file whose clusters are [cs]. *)
Record readable (file : File) : Prop := {
  rf_first : cs !! 0%nat = Some (FirstCluster (FileEntry file));
  rf_size : Size_ file <= ClusterSize (mountInfo v) * Z.of_nat (length cs);
  rf_limit : Size_ file < 4294967296;
  rf_type : Type_ file = FD_FILE;
  rf_eof : Eof file = 0;
  rf_readable : Readable file <> 0
}.

Lemma readable_at pos file : readable file -> readable (set_Position pos file).
Proof. by intros [? ? ? ? ? ?]. Qed.

(** A part of the file that the driver reads correctly: it lies before the end
    of the file and starts on a sector boundary or stays inside a sector. *)
Definition served (file : File) (pos n : Z) : Prop :=
  0 < n < 2147483648 /\ 0 <= pos /\ pos + n < Size_ file /\ (pos mod 512 = 0 \/ pos mod 512 + n <= 512).

Lemma fileData_length (s : KState) : Z.of_nat (length fileData) = ClusterSize (mountInfo v) * Z.of_nat (length cs).
Proof.
  pose proof (kernelCache_laws disk c p s) as L. unfold fileData. clear Hchain Hdata. induction cs as [|k l IH]; [cbn; lia|].
  rewrite chainData_cons, length_app, Nat2Z.inj_add, IH. rewrite (@clusterData_length KState (kernelCache c p) _ disk L v k Hvol). cbn [length]. lia.
Qed.

(** The slot of [f], and everything else that reading leaves alone. *)
Record opened (s : KState) (file : File) : Prop := {
  op_cache : cache_ok disk c p s;
  op_volume : volume s = v;
  op_slot : fileTable s !! f = Some file
}.

Lemma fileRead_disk n s file : opened s file -> readable file -> served file (Position file) n ->
  exists s1, @fileRead devices (diskScheduler c p) (kernelCache c p) f n s =
      Ret (n, take (Z.to_nat n) (drop (Z.to_nat (Position file)) fileData))
        (set_fileTable (<[f := set_Position (Position file + n) file]> (fileTable s1)) s1) /\
    disk_only s s1 /\ cache_ok disk c p s1.
Proof.
  intros [Hc Hv Hf] [R1 R2 R3 R4 R5 R6] (Hn & H0 & H1 & Hsafe). pose proof (kernelCache_laws disk c p s) as L.
  destruct Hvol as (_ & Hspc & Hcs & _).
  destruct (@fsFat12Read_spec KState (kernelCache c p) _ disk L v file cs n s) as (s1 & Hr & Hok' & Hd); try done; try lia.
  { assert (Hm : Position file mod ClusterSize (mountInfo v) mod 512 = Position file mod 512).
    { rewrite Hcs. rewrite (Z.mul_comm _ 512), Z.rem_mul_r by lia. rewrite (Z.mul_comm 512), Z.mod_add, Z.mod_mod by lia. done. }
    unfold sector_safe. rewrite Hm. destruct Hsafe; [by left|right; lia]. }
  exists s1. split_and!; try done. unfold fileRead. rewrite (bind_getSlot f file) by done.
  rewrite (proj2 (Z.eqb_neq _ _) R6), R4, bind_gets, Hv, (u32_small n) by lia. rewrite (bind_Ret _ _ _ _ _ Hr). cbn beta iota.
  rewrite bind_putSlot. unfold after_read. cbn [Position set_Position Size_]. rewrite (proj2 (Z.eqb_neq _ _)) by (cbn; lia).
  by rewrite (i32_small n) by lia.
Qed.

(** * Loading a section *)

(** From [s] to [s'] the new address space and the position of the file have
    changed, and what reading the disk changes. *)
Record load_step (s : KState) (pgdir : Z) (free : list Z) (file : File) (s' : KState) : Prop := {
  ls_vm : vm_state s' pgdir free;
  ls_as : as_ok (kmem s') pgdir free;
  ls_cache : cache_ok disk c p s';
  ls_only : disk_only (set_kmem (kmem s') (set_fileTable (fileTable s') s)) s';
  ls_files : exists pos, fileTable s' = <[f := set_Position pos file]> (fileTable s);
  ls_entries : sameEntries (kmem s) (kmem s') pgdir;
  ls_apart q : apart (kmem s) pgdir free q -> apart (kmem s') pgdir free q /\ forall a, in_page q a -> kmem s' a = kmem s a
}.

Lemma load_step_refl s pgdir free file : vm_state s pgdir free -> as_ok (kmem s) pgdir free -> opened s file -> load_step s pgdir free file s.
Proof.
  intros H1 H2 [H3 H4 H5]. split; try done.
  - replace (set_kmem _ _) with s by (by destruct s). reflexivity.
  - exists (Position file). rewrite list_insert_id; [done|]. rewrite H5. by destruct file.
Qed.

Lemma load_step_opened s pgdir free file s' : load_step s pgdir free file s' -> opened s file -> exists pos, opened s' (set_Position pos file).
Proof.
  intros Hst [H3 H4 H5]. destruct (ls_files _ _ _ _ _ Hst) as [pos E]. exists pos. split; [apply Hst| |].
  - destruct (ls_only _ _ _ _ _ Hst) as (y & t & l & h & a & e & -> & _). done.
  - rewrite E. apply list_lookup_insert_eq. by eapply lookup_lt_Some.
Qed.

Lemma load_step_trans s pgdir free file s1 pos s2 : load_step s pgdir free file s1 -> load_step s1 pgdir free (set_Position pos file) s2 ->
  load_step s pgdir free file s2.
Proof.
  intros [A1 A2 A3 A4 (p1 & A5) A6 A7] [B1 B2 B3 B4 (p2 & B5) B6 B7]. split; try done.
  - etransitivity; [|exact B4]. destruct A4 as (y & t & l & h & a & e & E & Hl). rewrite E. cbn.
    exists y, t, l, h, a, e. split; [done|exact Hl].
  - exists p2. rewrite B5, A5, list_insert_insert_eq. by destruct file.
  - intros va Hva. rewrite B6 by done. by apply A6.
  - intros q Hq. destruct (A7 q Hq) as [Hq1 E1]. destruct (B7 q Hq1) as [Hq2 E2]. split; [done|]. intros a Ha. by rewrite E2, E1.
Qed.

(** Reading does not touch the memory. *)
Lemma read_vm s s1 t pgdir free : vm_state s pgdir free -> disk_only s s1 -> cache_ok disk c p s1 -> vm_state (set_fileTable t s1) pgdir free.
Proof.
  intros [V1 V2 V3] (y & t' & l & h & a & e & E & Hl) Hc. pose proof (cache_runs _ _ _ _ Hc) as Hr. rewrite E in *. split; [done|done|].
  destruct V3 as [V3|[V3 [nm V4]]]; [by left|right]. split; [|exists nm; cbn; by rewrite Hl].
  apply (thread_balanced 1 _ p); [lia|]. by eapply runsOn_thread.
Qed.

(** One page of a section. *)
Lemma load_page va pos n s pgdir free file : vm_state s pgdir free -> as_ok (kmem s) pgdir free -> opened s file -> readable file ->
  served file pos n -> n <= 4096 -> 0 <= va -> va mod 4096 = 0 -> va + n <= KERNBASE -> present (entry (kmem s) pgdir va) = true ->
  exists s1 s', @fileRead devices (diskScheduler c p) (kernelCache c p) f n (set_fileTable (<[f := set_Position pos file]> (fileTable s)) s) =
      Ret (n, take (Z.to_nat n) (drop (Z.to_nat pos) fileData)) s1 /\ frameOf (kmem s1) pgdir va = frameOf (kmem s) pgdir va /\
    s' = set_kmem (storeBytes (kmem s1) (frameOf (kmem s1) pgdir va) (take (Z.to_nat n) (drop (Z.to_nat pos) fileData))) s1 /\
    load_step s pgdir free file s' /\
    placed (kmem s) (kmem s') pgdir va (take (Z.to_nat n) (drop (Z.to_nat pos) fileData)).
Proof.
  intros Hvm Has Hop Hrd Hsv Hn Hva Hvm0 Hk Hp. pose proof Hop as [O1 O2 O3]. pose proof (lookup_lt_Some _ _ _ O3) as Hlt.
  set (s0 := set_fileTable _ s). pose proof Hsv as (Hn0 & Hpos & Hend & _).
  destruct (fileRead_disk n s0 (set_Position pos file)) as (s1 & E & Hd & Hc1); [|by apply readable_at|done|].
  { split; [by apply cache_ok_fileTable|done|]. by apply list_lookup_insert_eq. }
  cbn [Position set_Position] in E. set (dat := take _ _) in *. destruct Hd as (y & t & l & h & a & e & Es1 & Hl).
  assert (Hdl : Z.of_nat (length dat) = n).
  { unfold dat. rewrite length_take, length_drop. pose proof (fileData_length s). pose proof (rf_size _ Hrd). lia. }
  set (s2 := set_fileTable _ s1) in E. exists s2. eexists. split; [exact E|].
  assert (Em : kmem s2 = kmem s) by (unfold s2; rewrite Es1; done). rewrite Em. split; [done|]. split; [done|].
  assert (Hvm2 : vm_state s2 pgdir free).
  { apply (read_vm s0); [by destruct Hvm|by exists y, t, l, h, a, e|done]. }
  assert (Hne : dat <> []) by (intros E0; rewrite E0 in Hdl; cbn in Hdl; lia).
  destruct (place_block kernelEnd s2 pgdir free va dat) as (Hst & Hpl & Hen); rewrite ?Em; try done; try lia.
  { by apply Forall_take, Forall_drop. }
  rewrite Hvm0, Z.add_0_r, Em in *. set (m' := storeBytes _ _ _) in *. split; [|done]. split.
  - apply Hst.
  - apply Hst.
  - destruct Hc1 as [C1 C2 C3 C4 C5 C6]. by split.
  - exists y, t, l, h, a, e. unfold s2. rewrite Es1. by split.
  - exists (pos + n). unfold s2. rewrite Es1. cbn. rewrite list_insert_insert_eq. by destruct file.
  - exact Hen.
  - intros q Hq. rewrite <- Em in Hq. destruct (ss_apart _ _ _ _ _ _ Hst q Hq) as [G1 G2]. split; [exact G1|]. intros x Hx. rewrite <- Em. by apply G2.
Qed.

(** The byte at offset [j] of a section that starts at [offset] in the file;
    a section without contents in the file is zero. *)
Definition sectionByte (offset j : Z) : Z := if decide (offset = 0) then 0 else nth (Z.to_nat (offset + j)) fileData 0.

(** A section the driver reads correctly. *)
Definition loadable (file : File) (offset size : Z) : Prop :=
  offset = 0 \/ (0 < offset /\ offset mod 512 = 0 /\ offset + size < Size_ file).

(** What the process has at [va'] once the section at [va] is loaded from
    byte [i] on. *)
Definition loadedFrom (m m' : mem) (pgdir va offset size i : Z) : Prop :=
  forall w, 0 <= w < KERNBASE -> userByte m' pgdir w =
    if decide (va + i <= w < va + size) then Some (sectionByte offset (w - va)) else userByte m pgdir w.

(** A page that is cleared. *)
Lemma clear_page va n s pgdir free file : vm_state s pgdir free -> as_ok (kmem s) pgdir free -> opened s file ->
  0 < n <= 4096 -> 0 <= va -> va mod 4096 = 0 -> va + n <= KERNBASE -> present (entry (kmem s) pgdir va) = true ->
  let s' := set_kmem (memset (kmem s) (frameOf (kmem s) pgdir va) 0 n) s in
  load_step s pgdir free file s' /\
  forall w, 0 <= w < KERNBASE -> userByte (kmem s') pgdir w = if decide (va <= w < va + n) then Some 0 else userByte (kmem s) pgdir w.
Proof.
  intros Hvm Has Hop Hn Hva Hvm0 Hk Hp s'. assert (HK : KERNBASE = 2147483648) by done.
  assert (Hout : outside kernelEnd (kmem s) pgdir free (frameOf (kmem s) pgdir va)) by (apply (as_frame _ _ _ _ Has); [lia|done]).
  pose proof (page_range kernelEnd _ (proj1 Hout)) as HF.
  assert (Hw : blockWritten (kmem s) (kmem s') (frameOf (kmem s) pgdir va + va mod 4096) n (fun _ => 0)).
  { intros a. rewrite Hvm0, Z.add_0_r. unfold s'. cbn [kmem set_kmem]. by rewrite memset_fill by lia. }
  destruct (write_block kernelEnd s pgdir free va n (fun _ => 0) (kmem s') Hvm Has Hva ltac:(lia) ltac:(lia) Hk Hp Hw) as (H1 & H2 & H3 & H4 & H5 & H6).
  { intros a. rewrite Hw. case_match; [lia|]. apply (pt_bytes _ _ _ _ (vm_table _ _ _ _ Hvm)). }
  split; [|done]. destruct (load_step_refl s pgdir free file Hvm Has Hop) as [R1 R2 R3 R4 R5 R6 R7]. split; try done.
  - destruct R3 as [C1 C2 C3 C4 C5 C6]. by split.
  - intros q [Hq Hqf]. split; [split|].
    + by apply (outside_pde kernelEnd (kmem s)).
    + intros w Hw'. unfold frameOf. rewrite H4 by lia. by apply Hqf.
    + intros a Ha. apply H6. apply (in_page_disjoint kernelEnd q); [apply Hq|apply Hout| |done]. apply not_eq_sym, Hqf; [lia|done].
Qed.

Lemma load_frame s pgdir free va : vm_state s pgdir free -> present (entry (kmem s) pgdir va) = true ->
  exists pte, getPageTableEntry pgdir va false s = Ret pte s /\ pte <> 0 /\ load32 (kmem s) pte = entry (kmem s) pgdir va.
Proof.
  intros Hvm Hp. pose proof (vm_table _ _ _ _ Hvm) as Hok. destruct (present (pdeOf (kmem s) pgdir (PDX va))) eqn:Ep.
  2: { exfalso. unfold entry in Hp. cbv zeta in Hp. by rewrite Ep in Hp. }
  eexists. split; [by apply (get_present kernelEnd s pgdir free)|]. split.
  - destruct (pt_table _ _ _ _ Hok _ (PDX_range va) Ep) as (Htab & _). pose proof (PTX_range va). apply page_range in Htab. lia.
  - unfold entry. cbv zeta. by rewrite Ep.
Qed.

Notation loadPages := (@loadPages devices (diskScheduler c p) (kernelCache c p)).

Lemma loadPages_spec fuel : forall pgdir addr offset size i s free file,
  vm_state s pgdir free -> as_ok (kmem s) pgdir free -> opened s file -> readable file -> loadable file offset size ->
  0 <= addr -> addr mod 4096 = 0 -> 0 <= i -> i mod 4096 = 0 -> addr + size <= KERNBASE -> size <= i + 4096 * Z.of_nat fuel ->
  (forall w, addr <= w < addr + size -> present (entry (kmem s) pgdir w) = true) ->
  exists s', loadPages fuel pgdir addr f offset size i s = Ret 0 s' /\ load_step s pgdir free file s' /\
    loadedFrom (kmem s) (kmem s') pgdir addr offset size i.
Proof.
  induction fuel as [|fuel IH]; intros pgdir addr offset size i s free file Hvm Has Hop Hrd Hld Ha Ham Hi Him Hk Hfuel Hpres;
    assert (HK : KERNBASE = 2147483648) by done; (destruct (Z.ltb_spec i size) as [Hlt|Hge];
    [|exists s; split; [destruct fuel || idtac; cbn [Vm.loadPages]; by rewrite (proj2 (Z.ltb_ge _ _)) by lia|]; split; [by apply load_step_refl|];
      intros w Hw; by rewrite decide_False by lia]); [lia|].
  cbn [Vm.loadPages]. rewrite (proj2 (Z.ltb_lt _ _)) by lia. cbn [negb]. rewrite (u32_small (addr + i)) by lia.
  destruct (load_frame s pgdir free (addr + i) Hvm) as (pte & Eg & Hpte & Ee); [apply Hpres; lia|].
  rewrite (bind_Ret _ _ _ _ _ Eg), (proj2 (Z.eqb_neq _ _) Hpte), bind_readWord, Ee. fold (frameOf (kmem s) pgdir (addr + i)).
  unfold PGSIZE. set (n := if size - i <? 4096 then size - i else 4096).
  assert (Hn : n = Z.min (size - i) 4096) by (unfold n; destruct (Z.ltb_spec (size - i) 4096); lia).
  rewrite (u32_small (i + 4096)) by lia. assert (Hva : (addr + i) mod 4096 = 0) by zdiv.
  assert (Hrest : forall s1, load_step s pgdir free file s1 ->
    (forall w, 0 <= w < KERNBASE -> userByte (kmem s1) pgdir w = if decide (addr + i <= w < addr + i + n) then Some (sectionByte offset (w - addr)) else userByte (kmem s) pgdir w) ->
    exists s', loadPages fuel pgdir addr f offset size (i + 4096) s1 = Ret 0 s' /\ load_step s pgdir free file s' /\
      loadedFrom (kmem s) (kmem s') pgdir addr offset size i).
  { intros s1 Hst Hub. destruct (load_step_opened _ _ _ _ _ Hst Hop) as [pos Hop1].
    destruct (IH pgdir addr offset size (i + 4096) s1 free (set_Position pos file) (ls_vm _ _ _ _ _ Hst) (ls_as _ _ _ _ _ Hst) Hop1) as (s2 & E2 & Hst2 & Hub2); try done; try lia.
    { by apply readable_at. } { zdiv. } { intros w Hw. rewrite (ls_entries _ _ _ _ _ Hst) by lia. by apply Hpres. }
    exists s2. split; [done|]. split; [by eapply load_step_trans|]. intros w Hw. rewrite Hub2, Hub by done.
    destruct (decide (addr + (i + 4096) <= w < addr + size)); [by rewrite decide_True by lia|].
    case_decide; [by rewrite decide_True by lia|by rewrite decide_False by lia]. }
  destruct (Z.eqb_spec offset 0) as [->|Hoff].
  - rewrite bind_puts. destruct (clear_page (addr + i) n s pgdir free file) as [Hst Hub]; try done; try lia; [apply Hpres; lia|].
    apply Hrest; [exact Hst|]. intros w Hw. rewrite Hub by done. unfold sectionByte. by rewrite (decide_True _ _ (P := 0 = 0)).
  - destruct Hld as [->|(Ho0 & Ho1 & Ho2)]; [done|]. pose proof (op_slot _ _ Hop) as Hslot.
    assert (Hlim := rf_limit _ Hrd).
    destruct (load_page (addr + i) (offset + i) n s pgdir free file) as (s1 & s2 & E1 & Ef & E2 & Hst & Hpl); try done; try lia.
    { split_and!; try lia. left. zdiv. } { apply Hpres; lia. }
    rewrite bind_assoc || idtac. rewrite (bind_getSlot f file) by done. rewrite bind_putSlot, (u32_small (offset + i)) by lia.
    rewrite (bind_Ret _ _ _ _ _ E1). cbn beta iota. rewrite bind_puts, <- Ef, <- E2, (u32_small n), Z.eqb_refl by lia. cbn [negb].
    apply Hrest; [done|]. intros w Hw. rewrite Hpl by done.
    assert (Hdl : Z.of_nat (length (take (Z.to_nat n) (drop (Z.to_nat (offset + i)) fileData))) = n).
    { rewrite length_take, length_drop. pose proof (fileData_length s). pose proof (rf_size _ Hrd). lia. }
    rewrite Hdl. case_decide; [|done]. f_equal. unfold sectionByte. rewrite decide_False by done.
    rewrite List.nth_firstn, (proj2 (Nat.ltb_lt _ _)), List.nth_skipn by lia. f_equal. lia.
Qed.

(** * Loading all sections *)

(** What the loader leaves alone between two states. *)
Record loading (s : KState) (pgdir : Z) (free : list Z) (file : File) (s' : KState) (free' : list Z) : Prop := {
  ld_vm : vm_state s' pgdir free';
  ld_as : as_ok (kmem s') pgdir free';
  ld_cache : cache_ok disk c p s';
  ld_files : exists pos, fileTable s' = <[f := set_Position pos file]> (fileTable s);
  ld_volume : volume s' = volume s;
  ld_header : imageFileHeader s' = imageFileHeader s;
  ld_locks l : lockFree (sync s) l -> lockFree (sync s') l;
  ld_apart q : apart (kmem s) pgdir free q -> apart (kmem s') pgdir free' q /\ forall a, in_page q a -> kmem s' a = kmem s a
}.

Lemma loading_load s pgdir free file s' : load_step s pgdir free file s' -> loading s pgdir free file s' free.
Proof.
  intros [A1 A2 A3 A4 A5 A6 A7]. destruct A4 as (y & t & l & h & a & e & E & Hl). split; try done.
  - by rewrite E. - by rewrite E. - intros k [nm Hk]. exists nm. rewrite E. cbn. by rewrite Hl.
Qed.

Lemma touches_cache s s' : touches s s' -> cache_ok disk c p s -> cache_ok disk c p s'.
Proof.
  intros [E Hy] Hc. assert (Hs : cache_ok disk c p (set_sync (sync s') s)).
  { destruct Hy as [-> | ->]; [by destruct Hc|by apply cache_ok_settled]. }
  rewrite E. destruct Hs as [C1 C2 C3 C4 C5 C6]. by split.
Qed.

Lemma loading_space s pgdir free file s' free' : space_step kernelEnd s pgdir free s' free' -> opened s file -> loading s pgdir free file s' free'.
Proof.
  intros [A1 A2 A3 A4] [O1 O2 O3]. pose proof A3 as [E Hy]. split; try done.
  - by eapply touches_cache.
  - exists (Position file). rewrite E. cbn. rewrite list_insert_id; [done|]. rewrite O3. by destruct file.
  - by rewrite E.
  - by rewrite E.
  - intros l Hl. destruct Hy as [-> | ->]; [done|by apply settle_lockFree].
Qed.

Lemma loading_trans s pgdir f1 file s1 f2 pos s2 f3 : loading s pgdir f1 file s1 f2 -> loading s1 pgdir f2 (set_Position pos file) s2 f3 ->
  loading s pgdir f1 file s2 f3.
Proof.
  intros [A1 A2 A3 (p1 & A4) A5 A6 A7 A8] [B1 B2 B3 (p2 & B4) B5 B6 B7 B8]. split; try done.
  - exists p2. rewrite B4, A4, list_insert_insert_eq. by destruct file.
  - by rewrite B5.
  - by rewrite B6.
  - intros l Hl. by apply B7, A7.
  - intros q Hq. destruct (A8 q Hq) as [Hq1 E1]. destruct (B8 q Hq1) as [Hq2 E2]. split; [done|]. intros a Ha. by rewrite E2, E1.
Qed.

Lemma loading_opened s pgdir free file s' free' : loading s pgdir free file s' free' -> opened s file -> exists pos, opened s' (set_Position pos file).
Proof.
  intros Hst [O1 O2 O3]. destruct (ld_files _ _ _ _ _ _ Hst) as [pos E]. exists pos. split; [apply Hst|by rewrite (ld_volume _ _ _ _ _ _ Hst)|].
  rewrite E. apply list_lookup_insert_eq. by eapply lookup_lt_Some.
Qed.

(** The section headers [hs] in the file from position [pos] on describe
    sections in ascending order above [size] that the driver reads correctly. *)
Fixpoint sectionsFit (file : File) (size pos : Z) (hs : list IMAGE_SECTION_HEADER) : Prop :=
  match hs with
  | [] => True
  | h :: hs =>
      h = IMAGE_SECTION_HEADER_of_bytes (take 40 (drop (Z.to_nat pos) fileData)) /\ served file pos 40 /\
      VirtualAddress h mod 4096 = 0 /\ size <= VirtualAddress h /\ 0 <= ActualSize h /\
      0 < VirtualAddress h + ActualSize h < KERNBASE - 4096 /\ loadable file (OffsetInExeFile h) (ActualSize h) /\
      sectionsFit file (VirtualAddress h + ActualSize h) (pos + 40) hs
  end.

(** The end of the last section. *)
Fixpoint imageEnd (size : Z) (hs : list IMAGE_SECTION_HEADER) : Z :=
  match hs with
  | [] => size
  | h :: hs => imageEnd (VirtualAddress h + ActualSize h) hs
  end.

(** The address space of a process of [size] bytes. *)
Record sized (m : mem) (pgdir size : Z) : Prop := {
  sized_in : accessible m pgdir 0 (PGROUNDUP size);
  sized_out w : PGROUNDUP size <= w < KERNBASE -> present (entry m pgdir w) = false
}.

Lemma sized_kept m m' pgdir size : 0 <= size < KERNBASE - 4096 -> sameEntries m m' pgdir -> sized m pgdir size -> sized m' pgdir size.
Proof.
  intros Hs E [H1 H2]. assert (HK : KERNBASE = 2147483648) by done. destruct (PGROUNDUP_spec size) as [_ Hb]; [lia|unfold PGSIZE; lia|]. unfold PGSIZE in Hb.
  split; intros w Hw; rewrite E by lia; [apply H1|apply H2]; lia.
Qed.

(** Growing to the end of the next section. *)
Lemma grow_sized s pgdir free oldsz newsz : vm_state s pgdir free -> as_ok (kmem s) pgdir free -> sized (kmem s) pgdir oldsz ->
  0 <= oldsz <= newsz -> newsz < KERNBASE - 4096 -> (2 * newPages oldsz newsz <= length free)%nat ->
  exists s' free', allocateMemoryAndPageTables kernelEnd pgdir oldsz newsz s = Ret newsz s' /\ space_step kernelEnd s pgdir free s' free' /\
    sized (kmem s') pgdir newsz /\ (length free <= 2 * newPages oldsz newsz + length free')%nat /\
    (forall w, 0 <= w < PGROUNDUP oldsz -> userByte (kmem s') pgdir w = userByte (kmem s) pgdir w).
Proof.
  intros Hvm Has [Hin Hout] Hsz Hk Hfree. assert (HK : KERNBASE = 2147483648) by done.
  destruct (pages_between oldsz newsz Hsz ltac:(lia)) as (Hn & Hiff & Hom & Hob & Hnb).
  destruct (allocate_grown kernelEnd pgdir oldsz newsz s free) as (s' & free' & E & Hstep & Has' & Hg); try done; try lia.
  { unfold newPages in Hfree. zdiv. }
  { intros w Hw. apply Hout. lia. }
  exists s', free'. split; [done|]. split; [by eapply space_step_grown|]. split_and!.
  - split.
    + intros w Hw. destruct (decide (PGROUNDUP oldsz <= w)) as [D|D].
      * destruct (grown_frame kernelEnd _ _ _ _ _ _ _ w Hg) as (G1 & G2 & _); [lia|apply Hiff; lia|done].
      * rewrite (grown_other _ _ _ _ _ _ _ _ Hg) by (lia || rewrite Hiff; lia). apply Hin. lia.
    + intros w Hw. rewrite (grown_other _ _ _ _ _ _ _ _ Hg) by (lia || rewrite Hiff; lia). apply Hout. lia.
  - apply Hg.
  - intros w Hw. rewrite (grown_bytes _ _ _ _ _ _ _ _ Hg) by lia. rewrite decide_False; [done|]. rewrite Hiff. lia.
Qed.

Lemma imageEnd_bounds file hs : forall size pos, sectionsFit file size pos hs -> 0 <= size < KERNBASE - 4096 -> size <= imageEnd size hs < KERNBASE - 4096.
Proof.
  induction hs as [|h hs IH]; intros size pos Hf Hs; cbn [imageEnd sectionsFit] in *; [lia|].
  destruct Hf as (_ & _ & _ & H1 & H2 & H3 & _ & Hf). pose proof (IH _ _ Hf ltac:(lia)). lia.
Qed.

Lemma newPages_add a b e : 0 <= a <= b -> b <= e -> e < KERNBASE - 4096 -> (newPages a e = newPages a b + newPages b e)%nat.
Proof.
  intros H1 H2 H3. assert (HK : KERNBASE = 2147483648) by done.
  destruct (pages_between a b H1 ltac:(lia)) as (E1 & _ & M1 & _). destruct (pages_between b e ltac:(lia) ltac:(lia)) as (E2 & _ & M2 & _).
  destruct (pages_between a e ltac:(lia) ltac:(lia)) as (E3 & _). lia.
Qed.

Lemma PGROUNDUP_mono a b : 0 <= a <= b -> b < KERNBASE - 4096 -> PGROUNDUP a <= PGROUNDUP b.
Proof. intros H1 H2. destruct (pages_between a b H1 ltac:(lia)) as (E1 & _). lia. Qed.

Lemma sectionsFit_at q file hs : forall size pos, sectionsFit file size pos hs -> sectionsFit (set_Position q file) size pos hs.
Proof.
  induction hs as [|h hs IH]; intros size pos Hf; [done|]. destruct Hf as (H1 & H2 & H3 & H4 & H5 & H6 & H7 & H8).
  cbn [sectionsFit]. split_and!; try done; [lia|lia|by apply IH].
Qed.

(** Section [h] is loaded into the pages allocated for it. *)
Lemma load_section h s pgdir free file : vm_state s pgdir free -> as_ok (kmem s) pgdir free -> opened s file -> readable file ->
  loadable file (OffsetInExeFile h) (ActualSize h) -> 0 <= VirtualAddress h -> VirtualAddress h mod 4096 = 0 -> 0 <= ActualSize h ->
  VirtualAddress h + ActualSize h < KERNBASE - 4096 -> sized (kmem s) pgdir (VirtualAddress h + ActualSize h) ->
  exists s', @loadProgramSegmentIntoPageTable devices (diskScheduler c p) (kernelCache c p) pgdir (VirtualAddress h) f (OffsetInExeFile h) (ActualSize h) s = Ret 0 s' /\
    load_step s pgdir free file s' /\ loadedFrom (kmem s) (kmem s') pgdir (VirtualAddress h) (OffsetInExeFile h) (ActualSize h) 0.
Proof.
  intros Hvm Has Hop Hrd Hld Hva Hvm0 Hsz Hk [Hin _]. assert (HK : KERNBASE = 2147483648) by done. unfold loadProgramSegmentIntoPageTable.
  unfold PGSIZE. rewrite Hvm0. cbn [Z.eqb negb]. apply loadPages_spec; try done; try lia; [zdiv|].
  intros w Hw. destruct (PGROUNDUP_spec (VirtualAddress h + ActualSize h)) as [_ Hb]; [lia|unfold PGSIZE; lia|]. apply Hin. lia.
Qed.

(** The header of the next section. *)
Lemma read_section s file pos : opened s file -> readable file -> served file pos 40 ->
  exists s1, @fileRead devices (diskScheduler c p) (kernelCache c p) f SECTION_HEADER_SIZE (set_fileTable (<[f := set_Position pos file]> (fileTable s)) s) =
      Ret (40, take 40 (drop (Z.to_nat pos) fileData)) s1 /\ kmem s1 = kmem s /\ opened s1 (set_Position (pos + 40) file) /\
    forall pgdir free, vm_state s pgdir free -> as_ok (kmem s) pgdir free -> loading s pgdir free file s1 free.
Proof.
  intros Hop Hrd Hsv. pose proof Hop as [O1 O2 O3]. pose proof (lookup_lt_Some _ _ _ O3) as Hlt. set (s0 := set_fileTable _ s).
  destruct (fileRead_disk 40 s0 (set_Position pos file)) as (s1 & E & Hd & Hc1); [|by apply readable_at|done|].
  { split; [by apply cache_ok_fileTable|done|]. by apply list_lookup_insert_eq. }
  eexists. split; [exact E|]. pose proof Hd as (y & t & l & h & a & e & Es1 & Hl).
  split; [by rewrite Es1|]. cbn [Position set_Position]. split.
  - split; [by apply cache_ok_fileTable|by rewrite Es1|]. cbn. replace (set_Position (pos + 40) (set_Position pos file)) with (set_Position (pos + 40) file) by (by destruct file).
    apply list_lookup_insert_eq. rewrite Es1. cbn. by rewrite length_insert.
  - intros pgdir free Hvm Has. assert (Hvm0 : vm_state s0 pgdir free) by (by destruct Hvm). split.
    + by apply (read_vm s0).
    + by rewrite Es1.
    + by apply cache_ok_fileTable.
    + exists (pos + 40). rewrite Es1. cbn. rewrite list_insert_insert_eq. by destruct file.
    + by rewrite Es1.
    + by rewrite Es1.
    + intros k [nm Hk]. exists nm. rewrite Es1. cbn. by rewrite Hl.
    + intros q Hq. rewrite Es1. done.
Qed.

Notation loadSections := (@loadSections kernelEnd devices (diskScheduler c p) (kernelCache c p)).

(** The bytes of the section [h]. *)
Definition sectionAt (m : mem) (pgdir : Z) (h : IMAGE_SECTION_HEADER) : Prop :=
  forall w, VirtualAddress h <= w < VirtualAddress h + ActualSize h ->
    userByte m pgdir w = Some (sectionByte (OffsetInExeFile h) (w - VirtualAddress h)).

Lemma loadSections_spec hs : forall fuel i pgdir opos pos size s free file,
  vm_state s pgdir free -> as_ok (kmem s) pgdir free -> opened s file -> readable file -> u32 opos = pos -> sectionsFit file size pos hs ->
  sized (kmem s) pgdir size -> 0 <= size < KERNBASE - 4096 -> (length hs <= fuel)%nat ->
  i + Z.of_nat (length hs) = NumberOfSections (FileHeader (IMAGE_NT_HEADERS_of_bytes (imageFileHeader s))) ->
  (2 * newPages size (imageEnd size hs) <= length free)%nat ->
  exists s' free', loadSections fuel i f pgdir opos size s = Ret (Some (imageEnd size hs)) s' /\
    loading s pgdir free file s' free' /\ sized (kmem s') pgdir (imageEnd size hs) /\ Forall (sectionAt (kmem s') pgdir) hs /\
    (forall w, 0 <= w < PGROUNDUP size -> userByte (kmem s') pgdir w = userByte (kmem s) pgdir w) /\
    (length free <= 2 * newPages size (imageEnd size hs) + length free')%nat.
Proof.
  induction hs as [|h hs IH]; intros fuel i pgdir opos pos size s free file Hvm Has Hop Hrd Hpos Hfit Hsized Hsz Hfuel Hi Hfree.
  - exists s, free. cbn [imageEnd length] in *. split; [destruct fuel; cbn [Exec.loadSections]; unfold header; rewrite bind_assoc, bind_gets, bind_mret, (proj2 (Z.ltb_ge _ _)) by lia; done|].
    split_and!; try done; [|lia]. apply loading_space; [by apply space_step_refl|done].
  - destruct fuel as [|fuel]; [cbn in Hfuel; lia|]. pose proof (imageEnd_bounds file (h :: hs) size pos Hfit Hsz) as Hib.
    cbn [Exec.loadSections imageEnd sectionsFit length] in *. set (e := VirtualAddress h + ActualSize h) in *.
    destruct Hfit as (Eh & Hsv & Hva & Hlo & Has0 & He & Hld & Hfit). unfold header. rewrite bind_assoc, bind_gets, bind_mret, (proj2 (Z.ltb_lt _ _)) by lia.
    cbn [negb]. unfold setPosition. rewrite bind_assoc, (bind_getSlot f file), bind_putSlot, Hpos by apply Hop.
    destruct (read_section s file pos Hop Hrd Hsv) as (s1 & E1 & Em1 & Hop1 & Hl1). rewrite (bind_Ret _ _ _ _ _ E1). cbn beta iota.
    change (u32 40 =? SECTION_HEADER_SIZE) with true. cbn [negb]. rewrite <- Eh, (bind_getSlot f _ _ _ (op_slot _ _ Hop1)). fold e. cbn [Position set_Position].
    assert (HK : KERNBASE = 2147483648) by done. rewrite (u32_small e) by lia. pose proof (Hl1 pgdir free Hvm Has) as Hd1.
    pose proof (imageEnd_bounds file hs e (pos + 40) Hfit ltac:(lia)) as Hie. pose proof (newPages_add size e (imageEnd e hs) ltac:(lia) ltac:(lia) ltac:(lia)) as Hnp.
    destruct (grow_sized s1 pgdir free size e) as (s2 & f2 & E2 & Hst2 & Hsized2 & Hf2 & Hub2); [apply Hd1|apply Hd1|by rewrite Em1|lia|lia|lia|].
    rewrite (bind_Ret _ _ _ _ _ E2), (proj2 (Z.eqb_neq e 0)) by lia. pose proof (loading_space _ _ _ _ _ _ Hst2 Hop1) as Hd2.
    destruct (loading_opened _ _ _ _ _ _ Hd2 Hop1) as [q2 Hop2]. cbn [set_Position] in Hop2.
    destruct (load_section h s2 pgdir f2 (set_Position q2 file)) as (s3 & E3 & Hst3 & Hub3); try done; try apply Hst2; try lia; [by apply readable_at|].
    rewrite (bind_Ret _ _ _ _ _ E3). change (0 <? 0) with false. cbv iota. pose proof (loading_load _ _ _ _ _ Hst3) as Hd3.
    destruct (loading_opened _ _ _ _ _ _ Hd3 Hop2) as [q3 Hop3]. cbn [set_Position] in Hop3.
    assert (Hd13 : loading s pgdir free file s3 f2) by (eapply loading_trans; [exact Hd1|]; eapply loading_trans; [exact Hd2|exact Hd3]).
    destruct (IH fuel (i + 1) pgdir (i32 (pos + 40)) (pos + 40) e s3 f2 (set_Position q3 file)) as (s4 & f4 & E4 & Hd4 & Hsized4 & Hat4 & Hub4 & Hf4);
      [apply Hd3|apply Hd3|done|by apply readable_at|apply u32_i32; destruct Hsv as (_ & H0 & H1 & _); pose proof (rf_limit _ Hrd); lia|by apply sectionsFit_at
      |apply (sized_kept (kmem s2)); [lia|apply Hst3|done]|lia|lia|rewrite (ld_header _ _ _ _ _ _ Hd13); lia|lia|].
    exists s4, f4. split; [exact E4|]. split; [by eapply loading_trans|]. split; [done|].
    destruct (PGROUNDUP_spec size) as [Hrm Hrb]; [lia|unfold PGSIZE; lia|]. destruct (PGROUNDUP_spec e) as [_ Heb]; [lia|unfold PGSIZE; lia|].
    pose proof (PGROUNDUP_mono size e ltac:(lia) ltac:(lia)). unfold PGSIZE in Hrm, Hrb, Heb. split; [|split; [|lia]].
    + constructor; [|done]. intros w Hw. rewrite Hub4, Hub3 by lia. rewrite decide_True by lia. done.
    + intros w Hw. rewrite Hub4, Hub3 by lia. rewrite decide_False by zdiv. rewrite Hub2 by lia. by rewrite Em1.
Qed.

End Load.

(** * Properties *)


(** * A concrete program *)

(** One section of 100 bytes, at offset 512 of the file, for address 0. *)
Definition exeHeaderSector : list Z := replicate 384 0 ++ [100; 0; 0; 0; 0; 0; 0; 0; 0; 0; 0; 0; 0; 2; 0; 0] ++ replicate 112 0.
Definition exeDisk (sec : Z) : list Z := if sec =? clusterStart demoVolume 5 then exeHeaderSector else demoDisk sec.
Definition exeSection : IMAGE_SECTION_HEADER := IMAGE_SECTION_HEADER_of_bytes (take 40 (drop 376 exeHeaderSector)).
Definition exeKernel : KState :=
  set_fileTable [demoFile 5000 0] (set_imageFileHeader (replicate 6 0 ++ [1; 0])
    (set_FreeList demoT1 (set_kmem (store32 (fun _ => 0) demoT1 demoT2) demoCacheKernel))).

Lemma exeDisk_length sec : length (exeDisk sec) = 512%nat.
Proof. unfold exeDisk. case_match; [done|apply demoDisk_length]. Qed.

Lemma exe_opened : opened exeDisk 0 0 demoVolume 0 exeKernel (demoFile 5000 0).
Proof. split; [|done|done]. destruct (demo_cache_ok exeDisk) as [C1 C2 C3 C4 C5 C6]. by split. Qed.

Lemma exe_vm : vm_state demoEnd exeKernel demoDir [demoT1; demoT2].
Proof. destruct demoVm_state as [V1 V2 V3]. by split. Qed.

Lemma exe_chain : chain demoVolume [5; 6].
Proof. cbn [chain]. split_and!; try lia; exact I || (vm_compute; reflexivity). Qed.

Lemma exe_readable : readable demoVolume [5; 6] (demoFile 5000 0).
Proof. split; try done; vm_compute; congruence. Qed.

