(* ===== verification/Trap.v ===== *)
(** trap.c: the interrupt descriptors and the dispatch of traps, and
    [initialiseGDT] of vm.c with the descriptor formats of mmu.h.

    A trap frame is at an address of [kmem].  What cprintf prints goes to the
    console; [exit] does not return. *)

From S2P Require Import Prelude CString Types Spinlock Kernel Kalloc Sched Ide Apic Kbd Console Vm Mp Proc Syscall.

(** * Descriptors (mmu.h) *)

Definition SEG_KCODE : Z := 1.
Definition SEG_KDATA : Z := 2.
Definition NSEGS : Z := 6.

Definition STA_X : Z := 8.
Definition STA_W : Z := 2.
Definition STA_R : Z := 2.
Definition STS_IG32 : Z := 14.
Definition STS_TG32 : Z := 15.

Definition SETGATE (istrap : bool) (sel off d : Z) : gatedesc :=
  mkGate (Z.land (u32 off) 65535) (u16 sel) 0 0 (if istrap then STS_TG32 else STS_IG32) 0 d 1 (Z.shiftr (u32 off) 16).

Definition SEG (type base lim dpl : Z) : Segdesc :=
  mkSegdesc (Z.land (Z.shiftr lim 12) 65535) (Z.land (u32 base) 65535) (Z.land (Z.shiftr (u32 base) 16) 255) type 1 dpl 1
    (Z.shiftr (u32 lim) 28) 0 0 1 1 (Z.shiftr (u32 base) 24).

Definition emptySegment : Segdesc := mkSegdesc 0 0 0 0 0 0 0 0 0 0 0 0 0.

(** [c->Gdt]; it is all zeros at the start. *)
Definition getGdt (c : nat) : M KState (list Segdesc) :=
  m ← gets gdts; mret (default (replicate (Z.to_nat NSEGS) emptySegment) (m !! c)).

Definition setSegment (c : nat) (i : Z) (d : Segdesc) : M KState unit :=
  l ← getGdt c;
  l ← checked "Gdt" (wr l i d);
  puts (fun s => set_gdts (<[c := l]> (gdts s)) s).

Definition initialiseGDT : M KState unit :=
  c ← locked cpuId;
  let c := Z.to_nat c in
  setSegment c SEG_KCODE (SEG (Z.lor STA_X STA_R) 0 4294967295 0);;
  setSegment c SEG_KDATA (SEG STA_W 0 4294967295 0);;
  setSegment c SEG_UCODE (SEG (Z.lor STA_X STA_R) 0 4294967295 DPL_USER);;
  setSegment c SEG_UDATA (SEG STA_W 0 4294967295 DPL_USER);;
  puts (set_gdtr (Some c)).

(** * Trap vectors (trap.c) *)

Definition T_SYSCALL : Z := 64.

Section Vectors.
Context (vectors : Z -> Z).

(** [idt[i]] for [n] indices from [i] on. *)
Fixpoint setGates (n : nat) (i : Z) : M KState unit :=
  match n with
  | O => mret tt
  | S n =>
      l ← gets idt;
      l ← checked "idt" (wr l i (SETGATE false (Z.shiftl SEG_KCODE 3) (vectors i) 0));
      puts (set_idt l);;
      setGates n (i + 1)
  end.

Definition trapVectorsInitialise : M KState unit :=
  setGates 256 0;;
  l ← gets idt;
  l ← checked "idt" (wr l T_SYSCALL (SETGATE true (Z.shiftl SEG_KCODE 3) (vectors T_SYSCALL) DPL_USER));
  puts (set_idt l);;
  locked (spinlockInitialise L_ticks "time").

Definition interruptDescriptorTableInitialise : M KState unit := puts (set_idtLoaded 1).

End Vectors.

(** * Traps *)

Definition TF_TRAPNO : Z := 48.
Definition TF_ERR : Z := 52.

(** sizeof(Cpu) *)
Definition CPU_SIZE : Z := 176.

Section Trap.
Context (kernelEnd cpusAddress : Z) (syscalls : list (option (M KState Z))) `{Hardware} `{Scheduler}.

(** A [Cpu *] as an address. *)
Definition cpuAddress (c : nat) : Z := padd cpusAddress (CPU_SIZE * Z.of_nat c).

Definition myKilled : M KState bool := p ← curproc; x ← getProcess p; mret (negb (IsKilled x =? 0)).

(** [tf->cs & 3] *)
Definition frameRing (tf : Z) : M KState Z := m ← gets kmem; mret (Z.land (load16 m (padd tf TF_CS)) 3).

Definition systemCall (tf : Z) : M KState unit :=
  k ← myKilled;
  (if (k : bool) then exit kernelEnd else mret tt);;
  p ← curproc;
  modifyProcess p (set_Trapframe tf);;
  syscall syscalls;;
  k ← myKilled;
  if (k : bool) then exit kernelEnd else mret tt.

Definition timerInterrupt : M KState unit :=
  c ← locked myCpu;
  (if cpuAddress c =? 0 then
     acquire L_ticks;;
     puts (fun s => set_ticks (u32 (ticks s + 1)) s);;
     wakeup (Some Ch_ticks);;
     release L_ticks
   else mret tt);;
  localApicEndOfInterrupt.

Definition spuriousInterrupt (tf : Z) : M KState unit :=
  c ← locked cpuId;
  m ← gets kmem;
  cprintf (Some (chars "cpu%d: spurious interrupt at %x:%x" ++ [10])) [Num c; Num (load16 m (padd tf TF_CS)); Num (load32 m (padd tf TF_EIP))];;
  localApicEndOfInterrupt.

Definition unexpectedTrap (tf trapno : Z) : M KState unit :=
  m ← gets kmem;
  p ← currentProcess;
  ring ← frameRing tf;
  if bool_decide (p = None) || (ring =? 0) then
    c ← locked cpuId;
    cr2 ← gets cr2;
    cprintf (Some (chars "unexpected trap %d from cpu %d eip %x (cr2=0x%x)" ++ [10])) [Num trapno; Num c; Num (load32 m (padd tf TF_EIP)); Num cr2];;
    panic "trap"
  else
    p ← curproc;
    x ← getProcess p;
    c ← locked cpuId;
    cr2 ← gets cr2;
    cprintf (Some (chars "pid %d %s: trap %d err %d on cpu %d eip 0x%x addr 0x%x--kill proc" ++ [10]))
      [Num (ProcessId x); Str (upToNul (ProcName x)); Num trapno; Num (load32 m (padd tf TF_ERR)); Num c; Num (load32 m (padd tf TF_EIP)); Num cr2];;
    p ← curproc;
    modifyProcess p (set_IsKilled 1).

(** [myProcess() && myProcess()->IsKilled && (tf->cs & 3) == DPL_USER] *)
Definition exitIfKilled (tf : Z) : M KState unit :=
  p ← currentProcess;
  if bool_decide (p = None) then mret tt
  else
    k ← myKilled;
    ring ← frameRing tf;
    if k && (ring =? DPL_USER) then exit kernelEnd else mret tt.

Definition yieldOnTick (trapno : Z) : M KState unit :=
  p ← currentProcess;
  if bool_decide (p = None) then mret tt
  else
    p ← curproc;
    x ← getProcess p;
    if bool_decide (State x = RUNNING) && (trapno =? T_IRQ0 + IRQ_TIMER) then yield else mret tt.

Definition trap (tf : Z) : M KState unit :=
  trapno ← readWord (padd tf TF_TRAPNO);
  if trapno =? T_SYSCALL then systemCall tf
  else
    (if trapno =? T_IRQ0 + IRQ_TIMER then timerInterrupt
     else if trapno =? T_IRQ0 + IRQ_IDE then ideInterruptHandler;; localApicEndOfInterrupt
     else if trapno =? T_IRQ0 + IRQ_IDE + 1 then mret tt
     else if trapno =? T_IRQ0 + IRQ_KBD then keyboardInterrupt;; localApicEndOfInterrupt
     else if trapno =? T_IRQ0 + IRQ_COM1 then uartintr;; localApicEndOfInterrupt
     else if (trapno =? T_IRQ0 + 7) || (trapno =? T_IRQ0 + IRQ_SPURIOUS) then spuriousInterrupt tf
     else unexpectedTrap tf trapno);;
    exitIfKilled tf;;
    yieldOnTick trapno;;
    exitIfKilled tf.

End Trap.

(** * Descriptors *)

(** What the processor makes of a gate. *)
Definition gateTarget (g : gatedesc) : Z := off_15_0 g + 65536 * off_31_16 g.

Lemma SETGATE_target istrap sel off d : 0 <= off < 4294967296 -> gateTarget (SETGATE istrap sel off d) = off.
Proof.
  intros Ho. unfold gateTarget, SETGATE. cbn [off_15_0 off_31_16]. rewrite u32_small by lia. change 65535 with (Z.ones 16). rewrite Z.land_ones, Z.shiftr_div_pow2 by lia.
  change (2 ^ 16) with 65536. zdiv.
Qed.

Section VectorProofs.
Context (vectors : Z -> Z).

Definition kernelGate (i : Z) : gatedesc := SETGATE false (Z.shiftl SEG_KCODE 3) (vectors i) 0.

Lemma setGates_eq n : forall i s, 0 <= i -> i + Z.of_nat n <= Z.of_nat (length (idt s)) ->
  exists l, setGates vectors n i s = Ret tt (set_idt l s) /\ length l = length (idt s) /\
    (forall k, i <= k < i + Z.of_nat n -> l !! Z.to_nat k = Some (kernelGate k)) /\ (forall k, 0 <= k < i -> l !! Z.to_nat k = idt s !! Z.to_nat k).
Proof.
  induction n as [|n IH]; intros i s Hi Hn; cbn [setGates].
  - exists (idt s). split; [by destruct s|]. split; [done|]. split; [lia|done].
  - rewrite bind_gets, wr_Some, bind_checked, bind_puts by lia. fold (kernelGate i). set (l1 := <[Z.to_nat i := kernelGate i]> (idt s)).
    destruct (IH (i + 1) (set_idt l1 s)) as (l & E & Hl & H1 & H2); [lia|cbn; unfold l1; rewrite length_insert; lia|]. exists l. rewrite E. split; [done|].
    cbn [idt set_idt] in *. split; [rewrite Hl; apply length_insert|]. split.
    + intros k Hk. destruct (decide (k = i)) as [->|Hne]; [|apply H1; lia]. rewrite H2 by lia. unfold l1. rewrite list_lookup_insert_eq by lia. done.
    + intros k Hk. rewrite H2 by lia. unfold l1. by rewrite list_lookup_insert_ne by lia.
Qed.

End VectorProofs.

(** C30. The interrupt descriptors: after [trapVectorsInitialise] every one of
    the 256 vectors leads to its entry point in the kernel's code segment with
    interrupts off, and none of them can be raised by a user program, except
    the system call, which keeps interrupts on. *)
Theorem trapVectors_protect (vectors : Z -> Z) (s : KState) :
  length (idt s) = 256%nat -> (forall i, 0 <= vectors i < 4294967296) ->
  exists s', trapVectorsInitialise vectors s = Ret tt s' /\ length (idt s') = 256%nat /\
    forall i, 0 <= i < 256 -> exists g, idt s' !! Z.to_nat i = Some g /\
      gateTarget g = vectors i /\ gate_cs g = 8 /\ gate_p g = 1 /\
      gate_dpl g = (if i =? T_SYSCALL then DPL_USER else 0) /\ gate_type g = (if i =? T_SYSCALL then STS_TG32 else STS_IG32).
Proof.
  intros Hl Hv. unfold trapVectorsInitialise. destruct (setGates_eq vectors 256 0 s) as (l & E & Hll & Hg & _); [lia|lia|]. rewrite (bind_Ret _ _ _ _ _ E), bind_gets.
  cbn [idt set_idt]. rewrite wr_Some, bind_checked, bind_puts by (unfold T_SYSCALL; lia).
  set (g0 := SETGATE true _ _ _). eexists. split; [unfold locked, spinlockInitialise, puts; reflexivity|]. cbn [idt set_idt set_sync].
  split; [by rewrite length_insert, Hll|]. intros i Hi. destruct (Z.eqb_spec i T_SYSCALL) as [->|Hne].
  - exists g0. rewrite list_lookup_insert_eq by (unfold T_SYSCALL; lia). split; [done|]. unfold g0. rewrite SETGATE_target by apply Hv. done.
  - exists (kernelGate vectors i). rewrite list_lookup_insert_ne, Hg by (unfold T_SYSCALL in *; lia). split; [done|]. unfold kernelGate. rewrite SETGATE_target by apply Hv. done.
Qed.

Lemma trapVectors_protect_witness :
  exists s', trapVectorsInitialise (fun i => 2148532224 + 16 * (i mod 256)) (set_idt (replicate 256 (mkGate 0 0 0 0 0 0 0 0 0)) demoKernel) = Ret tt s' /\
    exists g, idt s' !! 64%nat = Some g /\ gate_dpl g = 3.
Proof.
  destruct (trapVectors_protect (fun i => 2148532224 + 16 * (i mod 256)) (set_idt (replicate 256 (mkGate 0 0 0 0 0 0 0 0 0)) demoKernel)) as (s' & E & _ & H).
  - reflexivity.
  - intros i. zdiv.
  - exists s'. split; [exact E|]. destruct (H 64 ltac:(lia)) as (g & Hg & _ & _ & _ & Hd & _). exists g. split; [exact Hg|exact Hd].
Defined.

(** * The clock *)

Section TimerProofs.
Context (kernelEnd cpusAddress : Z) (syscalls : list (option (M KState Z))) `{Hardware} `{Scheduler}.
Context (Hcpus : 0 < cpusAddress /\ cpusAddress + CPU_SIZE * NCPU < 4294967296).

Lemma eoi_eq s : exists h, localApicEndOfInterrupt s = Ret tt (set_io h s).
Proof.
  unfold localApicEndOfInterrupt. rewrite bind_gets. case_match; [|exists (io s); by destruct s].
  eexists. unfold localApicWrite, localApicRead, writeRegister, readRegister. autorewrite with monad. reflexivity.
Qed.

Lemma timerInterrupt_eq s p : thread (sync s) p -> iflag (sync s) = false -> (length (cpus (sync s)) <= Z.to_nat NCPU)%nat ->
  exists h, timerInterrupt cpusAddress s = Ret tt (set_io h s).
Proof.
  intros (c & cp & Hc & _) Hi Hlen. unfold timerInterrupt. rewrite (bind_Ret _ _ _ _ _ (locked_Ret _ _ _ _ (myCpu_eq _ c cp Hc Hi))).
  rewrite set_sync_id. destruct Hc as [_ Hc%lookup_lt_Some]. unfold NCPU, CPU_SIZE in *.
  assert (Ha : cpuAddress cpusAddress c <> 0) by (unfold cpuAddress, padd, CPU_SIZE; rewrite u32_small; lia).
  rewrite (proj2 (Z.eqb_neq _ _) Ha), bind_mret. apply eoi_eq.
Qed.

Lemma thread_current s p : thread (sync s) p -> currentProcess s = Ret (Some p) (settled s).
Proof.
  intros Ht. pose proof (thread_balanced 1 _ p ltac:(lia) Ht) as Hb. destruct Ht as (c & cp & Hc & _ & Hp). by rewrite (currentProcess_eq s c cp Hb Hc), Hp.
Qed.

Lemma settled_idem s : settled (settled s) = settled s.
Proof. unfold settled. cbn [sync set_sync]. by rewrite settle_settle. Qed.

Lemma myKilled_eq s p x : thread (sync s) p -> processTable s !! p = Some x -> myKilled s = Ret (negb (IsKilled x =? 0)) (settled s).
Proof.
  intros Ht Hx. unfold myKilled, curproc. rewrite bind_assoc, (bind_Ret _ _ _ _ _ (thread_current s p Ht)), bind_checked.
  by rewrite (bind_Ret _ _ _ _ _ (getProcess_eq p x (settled s) Hx)).
Qed.

Lemma exitIfKilled_alive tf s p x : thread (sync s) p -> processTable s !! p = Some x -> IsKilled x = 0 -> exitIfKilled kernelEnd tf s = Ret tt (settled s).
Proof.
  intros Ht Hx Hk. unfold exitIfKilled. rewrite (bind_Ret _ _ _ _ _ (thread_current s p Ht)), bool_decide_eq_false_2 by done.
  rewrite (bind_Ret _ _ _ _ _ (myKilled_eq (settled s) p x (thread_settle _ _ Ht) Hx)), Hk, settled_idem. cbn [Z.eqb negb]. unfold frameRing. by rewrite bind_assoc, bind_gets.
Qed.

(** The state in which [p] has given up the processor. *)
Definition yielded (p : nat) (s : KState) : KState :=
  set_sync (acq L_processTable (sync s)) (set_processTable (alter (set_State RUNNABLE) p (processTable s)) s).

Lemma yield_gives_up s p x : thread (sync s) p -> lockFree (sync s) L_processTable -> processTable s !! p = Some x ->
  resume (yielded p s) = None -> yield s = Sleep (yielded p s).
Proof.
  intros Ht Hl Hx Hres. unfold yield. pose proof (thread_balanced 1 _ p ltac:(lia) Ht) as Hb. rewrite (bind_Ret _ _ _ _ _ (acquire_entered _ s Hb Hl)).
  rewrite (bind_Ret _ _ _ _ _ (currentProcess_section L_processTable (entered L_processTable s) (sync s) p eq_refl Ht)), bind_checked.
  rewrite (bind_Ret _ _ _ _ _ (getProcess_eq p x (entered L_processTable s) Hx)), bind_putProcess.
  assert (Ey : set_processTable (<[p := set_State RUNNABLE x]> (processTable (entered L_processTable s))) (entered L_processTable s) = yielded p s).
  { unfold yielded. by rewrite (alter_at _ _ _ x Hx). }
  rewrite Ey. apply bind_Sleep. rewrite (sched_spec p (set_State RUNNABLE x) (sync s) (yielded p s) eq_refl Ht Hl).
  - by rewrite Hres.
  - cbn. by rewrite list_lookup_alter_eq, Hx.
  - done.
Qed.
End TimerProofs.

(** C31. A timer interrupt preempts the running process: it is made runnable
    and gives up the processor.  But the clock stands still: [ticks] is not
    advanced, because the address of the processor's structure is compared
    with 0, which it never is. *)
Theorem timer_preempts `{Hardware} `{Scheduler} (kernelEnd cpusAddress tf : Z) (syscalls : list (option (M KState Z))) (p : nat) (x : Process) (s : KState) :
  0 < cpusAddress /\ cpusAddress + CPU_SIZE * NCPU < 4294967296 ->
  load32 (kmem s) (padd tf TF_TRAPNO) = T_IRQ0 + IRQ_TIMER ->
  thread (sync s) p -> iflag (sync s) = false -> (length (cpus (sync s)) <= Z.to_nat NCPU)%nat -> lockFree (sync s) L_processTable ->
  processTable s !! p = Some x -> State x = RUNNING -> IsKilled x = 0 -> (forall t, resume t = None) ->
  exists s', trap kernelEnd cpusAddress syscalls tf s = Sleep s' /\
    processTable s' = alter (set_State RUNNABLE) p (processTable s) /\ ticks s' = ticks s.
Proof.
  intros Hcpus Hno Ht Hi Hlen Hl Hx Hrun Hk Hres. unfold trap, readWord. rewrite bind_assoc, bind_gets, bind_mret, Hno. change (T_IRQ0 + IRQ_TIMER =? T_SYSCALL) with false. rewrite Z.eqb_refl. cbv iota.
  destruct (timerInterrupt_eq cpusAddress Hcpus s p Ht Hi Hlen) as [h E]. rewrite (bind_Ret _ _ _ _ _ E). set (s1 := set_io h s).
  rewrite (bind_Ret _ _ _ _ _ (exitIfKilled_alive kernelEnd tf s1 p x Ht Hx Hk)).
  assert (Ht1 : thread (sync (settled s1)) p) by (by apply thread_settle).
  assert (Ey : yieldOnTick (T_IRQ0 + IRQ_TIMER) (settled s1) = yield (settled s1)).
  { unfold yieldOnTick. rewrite (bind_Ret _ _ _ _ _ (thread_current (settled s1) p Ht1)), bool_decide_eq_false_2, settled_idem by done.
    unfold curproc. rewrite bind_assoc, (bind_Ret _ _ _ _ _ (thread_current (settled s1) p Ht1)), bind_checked, settled_idem.
    rewrite (bind_Ret _ _ _ _ _ (getProcess_eq p x (settled s1) Hx)). by rewrite bool_decide_eq_true_2 by done. }
  exists (yielded p (settled s1)). split; [|done]. apply bind_Sleep. rewrite Ey.
  apply (yield_gives_up (settled s1) p x Ht1); [cbn; by apply settle_lockFree|exact Hx|apply Hres].
Qed.

(** Process 0 is interrupted by the clock. *)
Definition demoTick : KState :=
  set_kmem (store32 (fun _ => 0) 2155880368 32) (set_sync (set_iflag false demoKernelSync) demoKernel).

Lemma timer_preempts_witness :
  exists s', @trap 2148532224 2148540000 [] demoBus demoAlone 2155880320 demoTick = Sleep s' /\
    processTable s' = alter (set_State RUNNABLE) 0%nat (processTable demoTick) /\ ticks s' = ticks demoTick.
Proof.
  apply (@timer_preempts demoBus demoAlone 2148532224 2148540000 2155880320 [] 0%nat demoProcess demoTick).
  - unfold CPU_SIZE, NCPU. lia.
  - vm_compute. reflexivity.
  - apply thread_set_iflag, demoKernel_thread.
  - reflexivity.
  - apply Nat.leb_le. vm_compute. reflexivity.
  - exact demoKernel_table.
  - reflexivity.
  - reflexivity.
  - reflexivity.
  - reflexivity.
Defined.
