(* ===== verification/User.v ===== *)
(** ulib.c: the part of the C library that user programs are linked with.

    A user program has its own memory and makes system calls.  What the calls
    do to the rest of the system is the class [Calls] over a world [W]; the
    kernel's side of each call is in Syscall.  The routines work on addresses
    of the program's memory; those that loop until a NUL byte take the number
    of steps they may run, and using it up is [Spin]. *)

From S2P Require Import Prelude CString Types.

(** * The state of a program *)

(** [umem]: its memory; [freep]: the static variable of umalloc.c; [world]:
    everything outside the program. *)
Record UState (W : Type) : Type := mkUState { umem : mem; freep : Z; world : W }.

Arguments mkUState {W} umem freep world.
Arguments umem {W} u.
Arguments freep {W} u.
Arguments world {W} u.

Definition set_umem {W} (m : mem) (u : UState W) : UState W := mkUState m (freep u) (world u).
Definition set_freep {W} (p : Z) (u : UState W) : UState W := mkUState (umem u) p (world u).
Definition set_world {W} (w : W) (u : UState W) : UState W := mkUState (umem u) (freep u) w.

(** The system calls of user.h that the library and the shell use, on the
    bytes they are given or return. *)
Class Calls (W : Type) : Type := {
  call_write : Z -> list Z -> W -> Z * W;
  call_read : Z -> Z -> W -> Z * list Z * W;
  call_open : list Z -> Z -> W -> Z * W;
  call_fstat : Z -> W -> Z * list Z * W;
  call_close : Z -> W -> Z * W;
  call_sbrk : Z -> W -> Z * W
}.

Section Ulib.
Context {W : Type} `{Calls W}.
Notation U := (M (UState W)).

Definition loadByte (a : Z) : U Z := m ← gets umem; mret (m a).
Definition storeByte (a b : Z) : U unit := puts (fun u => set_umem (upd (umem u) a (u8 b)) u).
Definition loadWord (a : Z) : U Z := m ← gets umem; mret (load32 m a).
Definition storeWord (a w : Z) : U unit := puts (fun u => set_umem (store32 (umem u) a w) u).

Fixpoint loadBlock (n : nat) (a : Z) : U (list Z) :=
  match n with
  | O => mret []
  | S n => b ← loadByte a; l ← loadBlock n (padd a 1); mret (b :: l)
  end.

Fixpoint storeBlock (a : Z) (l : list Z) : U unit :=
  match l with
  | [] => mret tt
  | b :: l => storeByte a b;; storeBlock (padd a 1) l
  end.

(** The string at [a] without its NUL. *)
Fixpoint loadString (fuel : nat) (a : Z) : U (list Z) :=
  match fuel with
  | O => spin
  | S fuel => b ← loadByte a; if b =? 0 then mret [] else l ← loadString fuel (padd a 1); mret (b :: l)
  end.

(** * System calls *)

Definition outside_call {A} (c : W -> A * W) : U A := fun u => let (a, w) := c (world u) in Ret a (set_world w u).

Definition write (fd buf n : Z) : U Z := l ← loadBlock (Z.to_nat n) buf; outside_call (call_write fd l).

Definition read (fd buf n : Z) : U Z :=
  '(r, l) ← outside_call (call_read fd n);
  storeBlock buf l;;
  mret r.

Definition open (fuel : nat) (path mode : Z) : U Z := s ← loadString fuel path; outside_call (call_open s mode).

Definition fstat (fd st : Z) : U Z :=
  '(r, l) ← outside_call (call_fstat fd);
  storeBlock st l;;
  mret r.

Definition close (fd : Z) : U Z := outside_call (call_close fd).

Definition sbrk (n : Z) : U Z := outside_call (call_sbrk n).

(** * Strings *)

Fixpoint strcpy (fuel : nat) (s t : Z) : U unit :=
  match fuel with
  | O => spin
  | S fuel => b ← loadByte t; storeByte s b;; if b =? 0 then mret tt else strcpy fuel (padd s 1) (padd t 1)
  end.

Fixpoint strcmp (fuel : nat) (p q : Z) : U Z :=
  match fuel with
  | O => spin
  | S fuel =>
      a ← loadByte p;
      b ← loadByte q;
      if negb (a =? 0) && (a =? b) then strcmp fuel (padd p 1) (padd q 1) else mret (u8 a - u8 b)
  end.

Fixpoint strlen_from (fuel : nat) (s n : Z) : U Z :=
  match fuel with
  | O => spin
  | S fuel => b ← loadByte (padd s n); if b =? 0 then mret (u32 n) else strlen_from fuel s (i32 (n + 1))
  end.

Definition strlen (fuel : nat) (s : Z) : U Z := strlen_from fuel s 0.

Definition memset (dst c n : Z) : U unit := puts (fun u => set_umem (storeSequenceOfBytes (umem u) dst c (Z.to_nat n)) u).

(** 0 is the null pointer. *)
Fixpoint strchr (fuel : nat) (s c : Z) : U Z :=
  match fuel with
  | O => spin
  | S fuel => b ← loadByte s; if b =? 0 then mret 0 else if b =? u8 c then mret s else strchr fuel (padd s 1) c
  end.

(** The loop of [gets] from index [i] on; [c] is the address of the local
    variable.  The result is the index of the terminating NUL. *)
Fixpoint getsLoop (fuel : nat) (c buf max i : Z) : U Z :=
  if negb (i + 1 <? max) then mret i
  else match fuel with
  | O => spin
  | S fuel =>
      cc ← read 0 c 1;
      if cc <? 1 then mret i
      else
        b ← loadByte c;
        storeByte (padd buf i) b;;
        if (b =? 10) || (b =? 13) then mret (i + 1) else getsLoop fuel c buf max (i + 1)
  end.

Definition gets_ (c buf max : Z) : U Z :=
  i ← getsLoop (Z.to_nat max) c buf max 0;
  storeByte (padd buf i) 0;;
  mret buf.

Definition stat (fuel : nat) (n st : Z) : U Z :=
  fd ← open fuel n O_RDONLY;
  if fd <? 0 then mret (-1)
  else
    r ← fstat fd st;
    close fd;;
    mret r.

Fixpoint atoi_from (fuel : nat) (s n : Z) : U Z :=
  match fuel with
  | O => spin
  | S fuel =>
      b ← loadByte s;
      if (48 <=? i8 b) && (i8 b <=? 57) then atoi_from fuel (padd s 1) (i32 (i32 (i32 (n * 10) + i8 b) - 48)) else mret n
  end.

Definition atoi (fuel : nat) (s : Z) : U Z := atoi_from fuel s 0.

Fixpoint memmove_loop (n : nat) (dst src : Z) : U unit :=
  match n with
  | O => mret tt
  | S n => b ← loadByte src; storeByte dst b;; memmove_loop n (padd dst 1) (padd src 1)
  end.

Definition memmove (vdst vsrc n : Z) : U unit := memmove_loop (Z.to_nat n) vdst vsrc.

End Ulib.

Lemma bind_loadByte {W B} a (k : Z -> M (UState W) B) u : (loadByte a ≫= k) u = k (umem u a) u.
Proof. done. Qed.

Lemma bind_loadWord {W B} a (k : Z -> M (UState W) B) u : (loadWord a ≫= k) u = k (load32 (umem u) a) u.
Proof. done. Qed.

Lemma bind_storeByte {W B} a b (k : unit -> M (UState W) B) u :
  (storeByte a b ≫= k) u = k tt (set_umem (upd (umem u) a (u8 b)) u).
Proof. done. Qed.

Lemma bind_storeWord {W B} a w (k : unit -> M (UState W) B) u :
  (storeWord a w ≫= k) u = k tt (set_umem (store32 (umem u) a w) u).
Proof. done. Qed.

(** * A concrete world *)

(** A terminal: what is still to be typed, and what has been written. *)
Record Terminal : Type := mkTerminal { typed : list Z; shown : list Z; brk : Z }.

#[export] Instance terminalCalls : Calls Terminal := {
  call_write fd l t := (Z.of_nat (length l), mkTerminal (typed t) (shown t ++ l) (brk t));
  call_read fd n t := let l := take (Z.to_nat n) (typed t) in (Z.of_nat (length l), l, mkTerminal (drop (Z.to_nat n) (typed t)) (shown t) (brk t));
  call_open path mode t := (-1, t);
  call_fstat fd t := (-1, [], t);
  call_close fd t := (0, t);
  call_sbrk n t := if brk t + n <=? 2147483648 then (brk t, mkTerminal (typed t) (shown t) (brk t + n)) else (-1, t)
}.

(** The memory [m] with the bytes [l] at [p]. *)
Definition withBytes (p : Z) (l : list Z) (m : mem) : mem :=
  fun a => if (p <=? a) && (a <? p + Z.of_nat (length l)) then nth (Z.to_nat (a - p)) l 0 else m a.

Lemma withBytes_stored p l m : 0 <= p -> p + Z.of_nat (length l) <= 4294967296 -> stored (withBytes p l m) p l.
Proof.
  intros Hp Hl. split_and!; [done|done|]. intros i c Hi. pose proof (lookup_lt_Some _ _ _ Hi). unfold withBytes.
  rewrite (proj2 (Z.leb_le _ _)), (proj2 (Z.ltb_lt _ _)) by lia. cbn. replace (Z.to_nat (p + Z.of_nat i - p)) with i by lia.
  by rewrite nth_lookup, Hi.
Qed.

Lemma withBytes_other p l m q k : stored m q k -> (q + Z.of_nat (length k) <= p \/ p + Z.of_nat (length l) <= q) -> stored (withBytes p l m) q k.
Proof.
  intros (H1 & H2 & H3) Hd. split_and!; [done|done|]. intros i c Hi. pose proof (lookup_lt_Some _ _ _ Hi). unfold withBytes.
  destruct (Z.leb_spec p (q + Z.of_nat i)), (Z.ltb_spec (q + Z.of_nat i) (p + Z.of_nat (length l))); cbn [andb]; (lia || by apply H3).
Qed.

(** * Reading a line *)

(** What [gets] returns of the input: at most [n] bytes, up to and with the
    first end of line. *)
Fixpoint lineOf (n : nat) (inp : list Z) : list Z :=
  match n, inp with
  | S n, b :: inp => if (b =? 10) || (b =? 13) then [b] else b :: lineOf n inp
  | _, _ => []
  end.

Lemma lineOf_length n : forall inp, (length (lineOf n inp) <= n)%nat.
Proof. induction n; intros [|b inp]; cbn; try lia. case_match; cbn; [lia|]. specialize (IHn inp). lia. Qed.

Section Lines.
Context {W : Type} `{Calls W} (input : W -> list Z).
Implicit Types u : UState W.

(** [read] on descriptor 0 delivers the input byte by byte, and 0 at its end. *)
Definition delivers : Prop := forall w, exists w', input w' = tail (input w) /\
  call_read 0 1 w = match input w with [] => (0, [], w') | b :: _ => (1, [b], w') end.

Context (Hread : delivers).

Lemma read_one c u : exists w', input w' = tail (input (world u)) /\
  read 0 c 1 u = match input (world u) with
    | [] => Ret 0 (set_world w' u)
    | b :: _ => Ret 1 (set_umem (upd (umem u) c (u8 b)) (set_world w' u))
    end.
Proof.
  destruct (Hread (world u)) as (w' & Hin & E). exists w'. split; [done|]. unfold read, outside_call, mbind, M_bind. rewrite E.
  by destruct (input (world u)).
Qed.

Lemma getsLoop_spec c buf max fuel : forall i u, Forall (fun b => 0 <= b < 256) (input (world u)) ->
  0 <= i -> 0 <= buf -> buf + max <= 4294967296 -> ~ (buf <= c < buf + max) -> Z.max 0 (max - 1 - i) <= Z.of_nat fuel ->
  let line := lineOf (Z.to_nat (max - 1 - i)) (input (world u)) in
  exists u', getsLoop fuel c buf max i u = Ret (i + Z.of_nat (length line)) u' /\
    drop (length line) (input (world u)) = input (world u') /\
    (forall k b, line !! k = Some b -> umem u' (buf + i + Z.of_nat k) = b) /\
    (forall a, a <> c -> ~ (buf + i <= a < buf + i + Z.of_nat (length line)) -> umem u' a = umem u a) /\ freep u' = freep u.
Proof.
  induction fuel as [|fuel IH]; intros i u Hin Hi Hb Hmax Hc Hf line.
  - cbn [getsLoop]. rewrite (proj2 (Z.ltb_ge _ _)) by lia. cbn [negb]. exists u. unfold line. replace (Z.to_nat (max - 1 - i)) with O by lia. cbn.
    rewrite Z.add_0_r. by split_and!.
  - cbn [getsLoop]. destruct (Z.ltb_spec (i + 1) max) as [Hlt|Hge]; cbn [negb].
    2: { exists u. unfold line. replace (Z.to_nat (max - 1 - i)) with O by lia. cbn. rewrite Z.add_0_r. by split_and!. }
    destruct (read_one c u) as (w' & Hw & E). assert (En : Z.to_nat (max - 1 - i) = S (Z.to_nat (max - 1 - (i + 1)))) by lia.
    unfold line in *. rewrite En. destruct (input (world u)) as [|b inp] eqn:Ein.
    + rewrite (bind_Ret _ _ _ _ _ E). exists (set_world w' u). cbn. rewrite Z.add_0_r. by split_and!.
    + rewrite (bind_Ret _ _ _ _ _ E). apply Forall_cons in Hin as [Hb' Hin]. set (u1 := set_umem _ _).
      assert (E1 : umem u1 c = b) by (cbn; rewrite upd_eq; by apply u8_small). change (1 <? 1) with false. cbv iota. rewrite bind_loadByte, E1.
      rewrite bind_storeByte, (padd_small buf i), (u8_small b) by lia. set (u2 := set_umem _ u1).
      cbn [lineOf]. destruct ((b =? 10) || (b =? 13)).
      * exists u2. cbn [length drop]. split_and!; [done|done| |..]; [|intros a Ha Hout; cbn; rewrite !upd_ne by lia; done|done].
        intros [|k] b' Hk; cbn in Hk; [|done]. injection Hk as <-. cbn. rewrite Z.add_0_r. apply upd_eq.
      * assert (Ew : input (world u2) = inp) by done.
        destruct (IH (i + 1) u2) as (u' & E' & Hd & Hline & Hother & Hfp); rewrite ?Ew; try (done || lia).
        rewrite Ew in *. exists u'. cbn [length drop]. split_and!; [rewrite E'; f_equal; lia|done| | |done].
        -- intros [|k] b' Hk; cbn in Hk.
           ++ injection Hk as <-. rewrite Z.add_0_r, Hother by lia. cbn. apply upd_eq.
           ++ rewrite <- (Hline k b' Hk). f_equal. lia.
        -- intros a Ha Hout. rewrite Hother by lia. cbn. rewrite !upd_ne by lia. done.
Qed.

End Lines.

(** * Properties *)

(** [gets] stores one line of the input: at most [max - 1] bytes, up to and
    with the first line feed or carriage return, followed by a NUL, and takes
    exactly these bytes from the input.  Apart from its local variable and the
    first [max] bytes of the buffer it changes nothing. *)
Theorem gets_reads_line {W} `{Calls W} (input : W -> list Z) (u : UState W) (c buf max : Z) :
  delivers input -> Forall (fun b => 0 <= b < 256) (input (world u)) ->
  0 < max -> 0 <= buf -> buf + max <= 4294967296 -> ~ (buf <= c < buf + max) ->
  let line := lineOf (Z.to_nat (max - 1)) (input (world u)) in
  exists u', gets_ c buf max u = Ret buf u' /\ stored (umem u') buf (line ++ [0]) /\
    input (world u') = drop (length line) (input (world u)) /\
    (forall a, a <> c -> ~ (buf <= a < buf + max) -> umem u' a = umem u a).
Proof.
  intros Hread Hin Hm Hb Hmax Hc line. unfold gets_.
  destruct (getsLoop_spec input Hread c buf max (Z.to_nat max) 0 u Hin ltac:(lia) Hb Hmax Hc ltac:(lia)) as (u' & E & Hd & Hl & Ho & _).
  rewrite Z.sub_0_r in *. fold line in E, Hd, Hl, Ho. pose proof (lineOf_length (Z.to_nat (max - 1)) (input (world u))) as Hlen. fold line in Hlen.
  rewrite (bind_Ret _ _ _ _ _ E), bind_storeByte, (padd_small buf) by lia. rewrite Z.add_0_l. eexists. split; [reflexivity|]. split_and!.
  - split_and!; [done|rewrite length_app; cbn; lia|]. intros i b Hi. cbn [umem set_umem].
    destruct (decide (i = length line)) as [->|Hne].
    + rewrite lookup_app_r, Nat.sub_diag in Hi by lia. injection Hi as <-. apply upd_eq.
    + pose proof (lookup_lt_Some _ _ _ Hi) as Hlt. rewrite length_app in Hlt. cbn in Hlt. rewrite lookup_app_l in Hi by lia.
      rewrite upd_ne by lia. rewrite <- (Hl i b Hi). f_equal. lia.
  - done.
  - intros a Ha Hout. cbn. rewrite upd_ne by lia. apply Ho; [done|lia].
Qed.

Lemma terminal_delivers : delivers typed.
Proof. intros [[|b l] o k]; [exists (mkTerminal [] o k)|exists (mkTerminal l o k)]; split; reflexivity. Qed.

Lemma gets_reads_line_witness :
  exists u', gets_ 900 1000 100 (mkUState (fun _ => 7) 0 (mkTerminal [108; 115; 10; 97] [] 0)) = Ret 1000 u' /\
    stored (umem u') 1000 [108; 115; 10; 0] /\ typed (world u') = [97].
Proof.
  destruct (gets_reads_line typed (mkUState (fun _ => 7) 0 (mkTerminal [108; 115; 10; 97] [] 0)) 900 1000 100) as (u' & E & Hs & Hi & _);
    [exact terminal_delivers|repeat constructor; lia|lia|lia|lia|lia|].
  exists u'. split; [exact E|]. split; [exact Hs|exact Hi].
Defined.
