(* ===== verification/Printf.v ===== *)
(** printf.c, the formatted output of user programs.

    [printf] takes the address of the format and the address of the first of
    the arguments that follow it on the stack; arguments are read from there,
    also when there are fewer of them than the format asks for. *)

From S2P Require Import Prelude CString Types Numerals User.

(** "0123456789ABCDEF" *)
Definition upperDigits : list Z := [48; 49; 50; 51; 52; 53; 54; 55; 56; 57; 65; 66; 67; 68; 69; 70].

Section Printf.
Context {W : Type} `{Calls W}.
Notation U := (M (UState W)).

(** [c] is passed by address: the byte is on the stack of [putc]. *)
Definition putc (fd c : Z) : U unit := outside_call (call_write fd [u8 c]);; mret tt.

Fixpoint putAll (fd : Z) (l : list Z) : U unit :=
  match l with
  | [] => mret tt
  | c :: l => putc fd c;; putAll fd l
  end.

Definition printInt (buf : list Z) (fd xx base : Z) (sgn : bool) : U unit :=
  l ← checked "printInt: buf" (intText upperDigits buf xx base sgn);
  putAll fd l.

(** The loop over the characters of a string argument. *)
Fixpoint putString (fuel : nat) (fd s : Z) : U unit :=
  match fuel with
  | O => spin
  | S fuel => c ← loadByte s; if c =? 0 then mret tt else putc fd c;; putString fuel fd (padd s 1)
  end.

(** "(null)" *)
Definition nullText : list Z := [40; 110; 117; 108; 108; 41].

(** The loop of [printf] from [fmt[i]] on; [percent]: the variable [state] is
    the character %; [strs] bounds the length of string arguments. *)
Fixpoint printfLoop (strs fuel : nat) (buf : list Z) (fmt ap : Z) (percent : bool) : U unit :=
  match fuel with
  | O => spin
  | S fuel =>
      c ← loadByte fmt;
      if c =? 0 then mret tt
      else
        let next := padd fmt 1 in
        if negb percent then
          if c =? 37 then printfLoop strs fuel buf next ap true
          else putc 1 c;; printfLoop strs fuel buf next ap false
        else if c =? 100 then
          x ← loadWord ap;
          printInt buf 1 (i32 x) 10 true;;
          printfLoop strs fuel buf next (padd ap 4) false
        else if (c =? 120) || (c =? 112) then
          x ← loadWord ap;
          printInt buf 1 (i32 x) 16 false;;
          printfLoop strs fuel buf next (padd ap 4) false
        else if c =? 115 then
          s ← loadWord ap;
          (if s =? 0 then putAll 1 nullText else putString strs 1 s);;
          printfLoop strs fuel buf next (padd ap 4) false
        else if c =? 99 then
          x ← loadWord ap;
          putc 1 x;;
          printfLoop strs fuel buf next (padd ap 4) false
        else if c =? 37 then putc 1 c;; printfLoop strs fuel buf next ap false
        else putc 1 37;; putc 1 c;; printfLoop strs fuel buf next ap false
  end.

Definition printf (fuel : nat) (buf : list Z) (fmt ap : Z) : U unit := printfLoop fuel fuel buf fmt ap false.

End Printf.

(** [atoi] reads back what [printInt] writes. *)
Section Roundtrip.
Context {W : Type}.

Lemma atoi_from_digits (u : UState W) ds : forall p n fuel,
  stored (umem u) p ((digitChar upperDigits <$> ds) ++ [0]) -> Forall (fun d => 0 <= d < 10) ds -> (length ds < fuel)%nat ->
  0 <= n -> foldl (fun n d => n * 10 + d) n ds < 2147483648 ->
  atoi_from fuel p n u = Ret (foldl (fun n d => n * 10 + d) n ds) u.
Proof.
  assert (Hmono : forall l n, 0 <= n -> Forall (fun d => 0 <= d < 10) l -> n <= foldl (fun n d => n * 10 + d) n l).
  { induction l as [|d l IHl]; intros n Hn Hl; cbn; [lia|]. apply Forall_cons in Hl as [Hd Hl]. specialize (IHl (n * 10 + d) ltac:(lia) Hl). lia. }
  induction ds as [|d ds IH]; intros p n fuel Hs Hd Hf Hn Hv; destruct fuel as [|fuel]; try lia; cbn [fmap list_fmap app] in *.
  - apply stored_cons in Hs as (H0 & H1 & H2 & H3). cbn [atoi_from]. unfold loadByte at 1. rewrite bind_assoc, bind_gets, bind_mret, H1. done.
  - apply stored_cons in Hs as (H0 & H1 & H2 & H3). apply Forall_cons in Hd as [Hd Hds]. cbn [atoi_from foldl length] in *.
    assert (Hc : digitChar upperDigits d = 48 + d).
    { unfold digitChar. assert (d = 0 \/ d = 1 \/ d = 2 \/ d = 3 \/ d = 4 \/ d = 5 \/ d = 6 \/ d = 7 \/ d = 8 \/ d = 9) as Hcase by lia.
      by repeat (destruct Hcase as [->|Hcase]; [reflexivity|]); subst. }
    unfold loadByte at 1. rewrite bind_assoc, bind_gets, bind_mret, H1, Hc, (i8_small (48 + d)) by lia.
    rewrite (proj2 (Z.leb_le 48 _)), (proj2 (Z.leb_le _ 57)) by lia. cbn [andb].
    pose proof (Hmono ds (n * 10 + d) ltac:(lia) Hds). rewrite (i32_small (n * 10)), i32_sub_l by lia.
    replace (n * 10 + (48 + d) - 48) with (n * 10 + d) by lia. rewrite i32_small by lia. rewrite padd_small by (rewrite length_app in H2; cbn in H2; lia).
    apply IH; [done|done|lia|lia|done].
Qed.

End Roundtrip.

(** * What printf puts out *)

(** The reference: the text of format [f] with the arguments from [ap] on;
    [word a] is the word at [a], [str a] the string at [a]. *)
Fixpoint render (word : Z -> Z) (str : Z -> list Z) (f : list Z) (ap : Z) : list Z :=
  match f with
  | [] => []
  | c :: f =>
      if negb (c =? 37) then c :: render word str f ap
      else match f with
      | [] => []
      | d :: f =>
          if d =? 100 then decimal upperDigits (i32 (word ap)) ++ render word str f (padd ap 4)
          else if (d =? 120) || (d =? 112) then numeral upperDigits 16 (u32 (i32 (word ap))) ++ render word str f (padd ap 4)
          else if d =? 115 then (if word ap =? 0 then nullText else str (word ap)) ++ render word str f (padd ap 4)
          else if d =? 99 then u8 (word ap) :: render word str f (padd ap 4)
          else if d =? 37 then 37 :: render word str f ap
          else 37 :: d :: render word str f ap
      end
  end.

(** The addresses of the strings that the format prints. *)
Fixpoint stringArgs (word : Z -> Z) (f : list Z) (ap : Z) : list Z :=
  match f with
  | [] => []
  | c :: f =>
      if negb (c =? 37) then stringArgs word f ap
      else match f with
      | [] => []
      | d :: f =>
          if (d =? 100) || (d =? 120) || (d =? 112) || (d =? 99) then stringArgs word f (padd ap 4)
          else if d =? 115 then word ap :: stringArgs word f (padd ap 4)
          else stringArgs word f ap
      end
  end.

Section PrintfSpec.
Context {W : Type} `{Calls W}.
Implicit Types u : UState W.

(** Each byte is written by a call of its own. *)
Definition emit (w : W) (l : list Z) : W := foldl (fun w c => (call_write 1 [u8 c] w).2) w l.

Definition emitted (l : list Z) u : UState W := set_world (emit (world u) l) u.

Lemma emitted_app l k u : emitted (l ++ k) u = emitted k (emitted l u).
Proof. unfold emitted, emit. cbn. by rewrite foldl_app. Qed.

Lemma putc_eq c u : putc 1 c u = Ret tt (emitted [c] u).
Proof. unfold putc, outside_call, mbind, M_bind, emitted, emit. cbn. by destruct (call_write 1 [u8 c] (world u)). Qed.

Lemma putAll_eq l : forall u, putAll 1 l u = Ret tt (emitted l u).
Proof.
  induction l as [|c l IH]; intros u; cbn [putAll]; [by destruct u|].
  rewrite (bind_Ret _ _ _ _ _ (putc_eq c u)), IH. by rewrite <- (emitted_app [c] l).
Qed.

Lemma printInt_eq buf xx base sgn u : 10 <= base <= 16 -> length buf = 16%nat -> -2147483648 <= xx < 2147483648 ->
  printInt buf 1 xx base sgn u =
    Ret tt (emitted (if sgn && (xx <? 0) then 45 :: numeral upperDigits base (- xx) else numeral upperDigits base (u32 xx)) u).
Proof. intros Hb Hl Hx. unfold printInt. rewrite intText_eq by (done || cbn; lia). rewrite bind_checked. apply putAll_eq. Qed.

Lemma printDecimal_eq buf x u : length buf = 16%nat ->
  printInt buf 1 (i32 x) 10 true u = Ret tt (emitted (decimal upperDigits (i32 x)) u).
Proof.
  intros Hl. pose proof (i32_range x). rewrite printInt_eq by (lia || done). unfold decimal. cbn [andb].
  destruct (Z.ltb_spec (i32 x) 0); [done|]. by rewrite u32_small by lia.
Qed.

Lemma putString_eq l : forall fuel p u, cstring (umem u) p l -> (length l < fuel)%nat -> putString fuel 1 p u = Ret tt (emitted l u).
Proof.
  induction l as [|c l IH]; intros [|fuel] p u [Hs Hn] Hf; cbn [length] in Hf; try lia; cbn [putString app] in *.
  - apply stored_cons in Hs as (_ & H1 & _). rewrite bind_loadByte, H1. by destruct u.
  - apply stored_cons in Hs as (H0 & H1 & H2 & H3). apply Forall_cons in Hn as [Hc Hn].
    rewrite bind_loadByte, H1, (proj2 (Z.eqb_neq c 0)) by lia. rewrite (bind_Ret _ _ _ _ _ (putc_eq c u)).
    rewrite length_app in H2. cbn in H2. rewrite padd_small, IH by (done || lia). by rewrite <- (emitted_app [c] l).
Qed.

Lemma printfLoop_eq word str strs buf : length buf = 16%nat -> forall f, forall fuel p ap u, cstring (umem u) p f -> (length f < fuel)%nat ->
  word = load32 (umem u) -> (forall a, a ∈ stringArgs word f ap -> a = 0 \/ (cstring (umem u) a (str a) /\ (length (str a) < strs)%nat)) ->
  printfLoop strs fuel buf p ap false u = Ret tt (emitted (render word str f ap) u).
Proof.
  intros Hbuf f. remember (length f) as n eqn:En. revert f En. induction n as [n IH] using lt_wf_ind. intros f En fuel p ap u [Hs Hn] Hf -> Hargs.
  destruct fuel as [|fuel]; [lia|]. destruct f as [|c f]; cbn [printfLoop app] in *.
  { apply stored_cons in Hs as (_ & H1 & _). rewrite bind_loadByte, H1. by destruct u. }
  apply stored_cons in Hs as (H0 & H1 & H2 & H3). apply Forall_cons in Hn as [Hc Hn]. rewrite length_app in H2. cbn [length] in *.
  rewrite bind_loadByte, H1, (proj2 (Z.eqb_neq c 0)) by lia. cbn [negb render stringArgs] in *. rewrite (padd_small p) by lia.
  destruct (Z.eqb_spec c 37) as [->|Hc37]; cbn [negb] in *.
  2: { rewrite (bind_Ret _ _ _ _ _ (putc_eq c u)). 
    lazymatch goal with |- _ = Ret _ (emitted (_ :: ?X) _) => rewrite (emitted_app [c] X u : emitted (c :: X) u = _) end.
    apply (IH (length f)); try done; lia. }
  destruct fuel as [|fuel]; [lia|]. destruct f as [|d f]; cbn [printfLoop app] in *.
  { apply stored_cons in H3 as (_ & H4 & _). rewrite bind_loadByte, H4. by destruct u. }
  apply stored_cons in H3 as (H4 & H5 & H6 & H7). apply Forall_cons in Hn as [Hd Hn]. rewrite length_app in H6. cbn [length] in *.
  rewrite bind_loadByte, H5, (proj2 (Z.eqb_neq d 0)) by lia. cbn [negb]. rewrite (padd_small (p + 1)) by lia. set (word := load32 (umem u)) in *.
  assert (Hrec : forall l ap' u', u' = emitted l u ->
    (forall a, a ∈ stringArgs word f ap' -> a = 0 \/ (cstring (umem u) a (str a) /\ (length (str a) < strs)%nat)) ->
    printfLoop strs fuel buf (p + 1 + 1) ap' false u' = Ret tt (emitted (l ++ render word str f ap') u)).
  { intros l ap' u' -> Ha. rewrite emitted_app. apply (IH (length f)); try done; lia. }
  destruct (Z.eqb_spec d 100); cbn [orb] in *.
  { rewrite bind_loadWord, (bind_Ret _ _ _ _ _ (printDecimal_eq buf _ u Hbuf)). by apply Hrec. }
  destruct (Z.eqb_spec d 120), (Z.eqb_spec d 112); cbn [orb] in *; try lia.
  1, 2: pose proof (i32_range (word ap)); rewrite bind_loadWord; fold word;
    rewrite (bind_Ret _ _ _ _ _ (printInt_eq buf (i32 (word ap)) 16 false u ltac:(lia) Hbuf ltac:(lia))); by apply Hrec.
  destruct (Z.eqb_spec d 115).
  { rewrite (proj2 (Z.eqb_neq d 99)) in * by lia. rewrite bind_loadWord. fold word. destruct (Z.eqb_spec (word ap) 0) as [Ez|Ez].
    - rewrite (bind_Ret _ _ _ _ _ (putAll_eq nullText u)). apply Hrec; [done|]. intros a Ha. apply Hargs. by right.
    - destruct (Hargs (word ap)) as [?|[Hstr Hlen]]; [by left|done|].
      rewrite (bind_Ret _ _ _ _ _ (putString_eq _ _ _ _ Hstr Hlen)). apply Hrec; [done|]. intros a Ha. apply Hargs. by right. }
  destruct (Z.eqb_spec d 99).
  { rewrite bind_loadWord; fold word; rewrite (bind_Ret _ _ _ _ _ (putc_eq _ u)). 
    apply (Hrec [u8 (word ap)]); [|done]. unfold emitted, emit. cbn. by rewrite (u8_small (u8 _)) by apply u8_range. }
  destruct (Z.eqb_spec d 37) as [->|].
  { rewrite (bind_Ret _ _ _ _ _ (putc_eq _ u)). by apply (Hrec [37]). }
  rewrite (bind_Ret _ _ _ _ _ (putc_eq _ u)), (bind_Ret _ _ _ _ _ (putc_eq d _)). 
  apply (Hrec [37; d]); [|done]. by rewrite <- (emitted_app [37] [d]).
Qed.

End PrintfSpec.

(** * Properties *)

(** C34. [printf] puts out exactly the text that the format and its arguments
    describe ([render]), one byte per [write] call on descriptor 1, and changes
    nothing in the memory of the program. *)
Theorem printf_renders {W} `{Calls W} (u : UState W) (buf f : list Z) (str : Z -> list Z) (fmt ap : Z) (fuel : nat) :
  length buf = 16%nat -> cstring (umem u) fmt f -> (length f < fuel)%nat ->
  (forall a, a ∈ stringArgs (load32 (umem u)) f ap -> a = 0 \/ (cstring (umem u) a (str a) /\ (length (str a) < fuel)%nat)) ->
  printf fuel buf fmt ap u = Ret tt (set_world (emit (world u) (render (load32 (umem u)) str f ap)) u).
Proof. intros Hb Hf Hl Ha. unfold printf. by apply printfLoop_eq. Qed.

(** C35. Numbers survive the way through text: [printInt] in base ten never
    overruns its array of 16 bytes, the text of a number that is not negative
    is read back by [atoi], and the text of a negative one is a minus sign and
    the text of its absolute value, the smallest integer included. *)
Theorem printInt_roundtrip {W} (u : UState W) (buf : list Z) (n p : Z) (fuel : nat) :
  length buf = 16%nat -> -2147483648 <= n < 2147483648 -> (10 < fuel)%nat ->
  exists t, intText upperDigits buf n 10 true = Some t /\ (0 < length t <= 11)%nat /\
    (0 <= n -> stored (umem u) p (t ++ [0]) -> atoi fuel p u = Ret n u) /\
    (n < 0 -> exists ds, t = 45 :: (digitChar upperDigits <$> ds) /\ Forall (fun d => 0 <= d < 10) ds /\ valueOf 10 ds = - n /\ head ds <> Some 0).
Proof.
  intros Hb Hn Hf. rewrite intText_eq by (done || cbn; lia). cbn [andb]. eexists. split; [reflexivity|].
  assert (Hdig : forall x, 0 <= x <= 2147483648 -> let l := lowDigits 32 x 10 in
    (0 < length l <= 10)%nat /\ valueOf 10 (reverse l) = x /\ Forall (fun d => 0 <= d < 10) l /\ (0 < x -> last l <> Some 0)).
  { intros x Hx. apply (lowDigits_spec 10); [lia|change (10 ^ Z.of_nat 10) with 10000000000; lia|lia]. }
  destruct (Z.ltb_spec n 0) as [Hneg|Hpos].
  - destruct (Hdig (- n) ltac:(lia)) as (Hl & Hv & Hd & Hlast). unfold numeral. cbn [length]. rewrite length_fmap, length_reverse.
    split; [lia|]. split; [lia|]. intros _. exists (reverse (lowDigits 32 (- n) 10)). split_and!; [done|by apply Forall_reverse|done|].
    rewrite head_reverse. apply Hlast. lia.
  - rewrite u32_small by lia. destruct (Hdig n ltac:(lia)) as (Hl & Hv & Hd & _). unfold numeral. rewrite length_fmap, length_reverse.
    split; [lia|]. split; [|lia]. intros _ Hs. unfold atoi. unfold valueOf in Hv.
    rewrite (atoi_from_digits u (reverse (lowDigits 32 n 10))); rewrite ?Hv, ?length_reverse; (done || lia || by apply Forall_reverse).
Qed.

(** "n=%d %s%%" with the arguments -42 and the string ok. *)
Definition demoFormat : mem :=
  withBytes 1000 [110; 61; 37; 100; 32; 37; 115; 37; 37; 0] (withBytes 2000 [214; 255; 255; 255; 184; 11; 0; 0] (withBytes 3000 [111; 107; 0] (fun _ => 0))).

Lemma printf_renders_witness :
  exists u', printf 20 (replicate 16 7) 1000 2000 (mkUState demoFormat 0 (mkTerminal [] [] 0)) = Ret tt u' /\
    shown (world u') = [110; 61; 45; 52; 50; 32; 111; 107; 37].
Proof.
  eexists. split.
  - apply (printf_renders (mkUState demoFormat 0 (mkTerminal [] [] 0)) (replicate 16 7) [110; 61; 37; 100; 32; 37; 115; 37; 37] (fun _ => [111; 107]) 1000 2000 20);
      [reflexivity|split; [apply withBytes_stored; cbn; lia|repeat constructor; lia]|cbn; lia|].
    intros a Ha. vm_compute in Ha. assert (a = 3000) as -> by (inversion Ha as [|? ? ? Hn]; [reflexivity|inversion Hn]). right.
    split; [split; [|repeat constructor; lia]|cbn; lia].
    apply withBytes_other; [|cbn; lia]. apply withBytes_other; [|cbn; lia]. apply withBytes_stored; cbn; lia.
  - vm_compute. reflexivity.
Defined.

Lemma printInt_roundtrip_witness :
  atoi 20 1000 (mkUState (withBytes 1000 [49; 48; 50; 52; 0] (fun _ => 0)) 0 tt) = Ret 1024 (mkUState (withBytes 1000 [49; 48; 50; 52; 0] (fun _ => 0)) 0 tt).
Proof.
  destruct (printInt_roundtrip (mkUState (withBytes 1000 [49; 48; 50; 52; 0] (fun _ => 0)) 0 tt) (replicate 16 7) 1024 1000 20) as (t & E & _ & H & _);
    [reflexivity|lia|lia|]. vm_compute in E. injection E as <-. apply H; [lia|]. apply withBytes_stored; cbn; lia.
Defined.
