(* ===== verification/Umalloc.v ===== *)
(** umalloc.c: the heap of a user program.  Free blocks form a ring in the
    order of their addresses, linked through headers of eight bytes (a pointer
    and a size in units of eight bytes); [freep] points to some element of the
    ring.  The static header [base] is an argument: the linker places it.

    The specification is a list of free blocks and a list of blocks that the
    program owns; the loops take as fuel how far they may walk. *)

From S2P Require Import Prelude CString Types User.

(** * The code *)

Definition HEADER : Z := 8.

Section Heap.
Context {W : Type} `{Calls W} (base : Z).
Notation U := (M (UState W)).

(** [p->s.ptr] and [p->s.size]. *)
Definition getPtr (p : Z) : U Z := loadWord p.
Definition setPtr (p v : Z) : U unit := storeWord p v.
Definition getSize (p : Z) : U Z := loadWord (padd p 4).
Definition setSize (p v : Z) : U unit := storeWord (padd p 4) v.

(** The for loop of [free]: the element after which [bp] belongs. *)
Fixpoint freeSearch (fuel : nat) (bp p : Z) : U Z :=
  match fuel with
  | O => spin
  | S fuel =>
      next ← getPtr p;
      if (bp >? p) && (bp <? next) then mret p
      else if (p >=? next) && ((bp >? p) || (bp <? next)) then mret p
      else freeSearch fuel bp next
  end.

Definition free (fuel : nat) (ap : Z) : U unit :=
  let bp := padd ap (- HEADER) in
  f ← gets freep;
  p ← freeSearch fuel bp f;
  size ← getSize bp;
  next ← getPtr p;
  (if padd bp (HEADER * size) =? next then
     nsize ← getSize next;
     setSize bp (u32 (size + nsize));;
     nnext ← getPtr next;
     setPtr bp nnext
   else setPtr bp next);;
  psize ← getSize p;
  (if padd p (HEADER * psize) =? bp then
     size ← getSize bp;
     setSize p (u32 (psize + size));;
     next ← getPtr bp;
     setPtr p next
   else setPtr p bp);;
  puts (set_freep p).

(** 0 is the null pointer. *)
Definition morecore (fuel : nat) (nu : Z) : U Z :=
  let nu := if nu <? 4096 then 4096 else nu in
  p ← sbrk (i32 (u32 (nu * HEADER)));
  let p := u32 p in
  if p =? 4294967295 then mret 0
  else
    setSize p nu;;
    free fuel (padd p HEADER);;
    gets freep.

(** The for loop of [malloc], with the block [p] under consideration. *)
Fixpoint mallocLoop (walk fuel : nat) (nunits prevp p : Z) : U Z :=
  match fuel with
  | O => spin
  | S fuel =>
      size ← getSize p;
      if size >=? nunits then
        p ← (if size =? nunits then
               next ← getPtr p;
               setPtr prevp next;;
               mret p
             else
               setSize p (u32 (size - nunits));;
               let p := padd p (HEADER * u32 (size - nunits)) in
               setSize p nunits;;
               mret p);
        puts (set_freep prevp);;
        mret (padd p HEADER)
      else
        f ← gets freep;
        q ← (if p =? f then r ← morecore walk nunits; mret (if r =? 0 then None else Some r) else mret (Some p));
        match q with
        | None => mret 0
        | Some p =>
            next ← getPtr p;
            mallocLoop walk fuel nunits p next
        end
  end.

Definition malloc (fuel : nat) (nbytes : Z) : U Z :=
  let nunits := u32 (u32 (nbytes + HEADER - 1) / HEADER + 1) in
  f ← gets freep;
  prevp ← (if f =? 0 then
             setPtr base base;;
             puts (set_freep base);;
             setSize base 0;;
             mret base
           else mret f);
  p ← getPtr prevp;
  mallocLoop fuel fuel nunits prevp p.

End Heap.

(** * Blocks *)

(** A block is its address and its size in units; it occupies [extent] bytes,
    the header of [base] included. *)
Notation block := (Z * Z)%type.

Definition extent (b : block) : Z := 8 * Z.max 1 b.2.
Definition endOf (b : block) : Z := b.1 + extent b.

(** [y] lies behind [x], and behind a gap if [x] has a size. *)
Definition before (x y : block) : Prop := x.1 + 8 * x.2 < y.1 /\ x.1 + 8 <= y.1.

Fixpoint spaced (l : list block) : Prop :=
  match l with
  | [] => True
  | x :: l => Forall (before x) l /\ spaced l
  end.

(** The blocks [l] linked from [p] to [q]. *)
Fixpoint chain (m : mem) (p : Z) (l : list block) (q : Z) : Prop :=
  match l with
  | [] => p = q
  | b :: l => p = b.1 /\ load32 m (b.1 + 4) = b.2 /\ chain m (load32 m b.1) l q
  end.

(** A block lies in the address space. *)
Definition inside (b : block) : Prop := 0 < b.1 /\ 0 <= b.2 /\ endOf b <= 2147483648.

Definition apart (x y : block) : Prop := endOf x <= y.1 \/ endOf y <= x.1.

Lemma spaced_app l k : spaced (l ++ k) <-> spaced l /\ spaced k /\ Forall (fun x => Forall (before x) k) l.
Proof.
  induction l as [|x l IH]; cbn [app spaced]; [split; [by intros; split_and!|tauto]|].
  rewrite Forall_app, Forall_cons, IH. tauto.
Qed.

Lemma chain_app m l k : forall p q, chain m p (l ++ k) q <-> exists r, chain m p l r /\ chain m r k q.
Proof.
  induction l as [|b l IH]; intros p q; cbn [app chain].
  - split; [intros; by exists p|by intros (r & -> & ?)].
  - rewrite IH. naive_solver.
Qed.

(** A chain depends on the headers of its blocks only. *)
Lemma chain_frame m m' l : forall p q, Forall (fun b => load32 m' b.1 = load32 m b.1 /\ load32 m' (b.1 + 4) = load32 m (b.1 + 4)) l ->
  chain m p l q -> chain m' p l q.
Proof.
  induction l as [|b l IH]; intros p q Hf; cbn [chain]; [done|]. apply Forall_cons in Hf as [[E1 E2] Hf]. intros (H1 & H2 & H3).
  rewrite E1, E2. auto.
Qed.

(** The last address of a list that starts after [d]. *)
Definition lastAddr (d : Z) (l : list block) : Z := default d (fst <$> last l).

Lemma lastAddr_snoc d l b : lastAddr d (l ++ [b]) = b.1.
Proof. unfold lastAddr. by rewrite last_snoc. Qed.


Lemma before_trans x y z : before x y -> before y z -> 0 <= y.2 -> before x z.
Proof. unfold before. lia. Qed.

(** The ring of free blocks, [base] first. *)
Record ring_ok (base : Z) (m : mem) (N : list block) : Prop := {
  ring_chain : chain m base N base;
  ring_spaced : spaced N;
  ring_inside : Forall inside N;
  ring_base : exists l, N = (base, 0) :: l /\ Forall (fun b => 1 <= b.2) l
}.

(** Cutting a sorted list at an address that none of its blocks has. *)
Lemma spaced_cut bp N : spaced N -> Forall inside N -> Forall (fun b => b.1 <> bp) N ->
  exists P Q, N = P ++ Q /\ Forall (fun b => b.1 < bp) P /\ Forall (fun b => bp < b.1) Q.
Proof.
  induction N as [|x N IH]; cbn [spaced]; intros Hs Hi Hn; [by exists [], []|].
  destruct Hs as [Hx Hs]. apply Forall_cons in Hi as [Hi0 Hi], Hn as [Hn0 Hn]. destruct (decide (x.1 < bp)) as [Hlt|Hge].
  - destruct (IH Hs Hi Hn) as (P & Q & -> & HP & HQ). exists (x :: P), Q. split_and!; [done|by constructor|done].
  - exists [], (x :: N). split_and!; [done|constructor|constructor; [lia|]]. eapply Forall_impl; [exact Hx|]. unfold before. cbn. lia.
Qed.

Section HeapProofs.
Context {W : Type} `{Calls W} (base : Z).
Implicit Types u : UState W.

Lemma bind_getPtr {B} p (k : Z -> M (UState W) B) u : (getPtr p ≫= k) u = k (load32 (umem u) p) u.
Proof. done. Qed.

Lemma bind_getSize {B} p (k : Z -> M (UState W) B) u : 0 <= p < 4294967292 -> (getSize p ≫= k) u = k (load32 (umem u) (p + 4)) u.
Proof. intros. unfold getSize. by rewrite bind_loadWord, padd_small by lia. Qed.

Lemma setSize_eq p v u : 0 <= p < 4294967292 -> setSize p v u = Ret tt (set_umem (store32 (umem u) (p + 4) v) u).
Proof. intros. unfold setSize. by rewrite padd_small by lia. Qed.

(** ** Looking for the place of a block *)

Lemma search_forward bp P : forall p q fuel u, chain (umem u) p P q -> P <> [] -> Forall (fun b => b.1 < bp) P -> spaced P ->
  Forall inside P -> (bp < q \/ (q = base /\ base < bp /\ Forall (fun b => base <= b.1) P)) -> (length P <= fuel)%nat ->
  freeSearch fuel bp p u = Ret (lastAddr 0 P) u.
Proof.
  induction P as [|b P IH]; intros p q fuel u Hc Hne Hlt Hs Hi Hq Hf; [done|]. destruct fuel as [|fuel]; [cbn in Hf; lia|].
  cbn [chain spaced length freeSearch] in *. destruct Hc as (-> & Hsz & Hc). destruct Hs as [Hbs Hs].
  apply Forall_cons in Hlt as [Hb Hlt], Hi as [Hib Hi]. rewrite bind_getPtr, !Z.gtb_ltb, Z.geb_leb.
  rewrite (proj2 (Z.ltb_lt b.1 bp)) by done. cbn [andb orb]. rewrite andb_true_r. destruct P as [|c P].
  - cbn [chain] in Hc. rewrite Hc. unfold lastAddr. cbn. destruct (Z.ltb_spec bp q); [done|].
    destruct Hq as [?|(-> & _ & Hq)]; [lia|]. apply Forall_cons in Hq as [Hq _]. by rewrite (proj2 (Z.leb_le _ _)) by lia.
  - pose proof Hc as (Hnext & _). rewrite Hnext. apply Forall_cons in Hbs as [Hbc _]. pose proof Hlt as [Hc1 _]%Forall_cons.
    rewrite (proj2 (Z.ltb_ge bp _)), (proj2 (Z.leb_gt _ _)) by (unfold before in Hbc; lia).
    rewrite <- Hnext. rewrite (IH _ q fuel u Hc); [unfold lastAddr; cbn; f_equal|done|done|done|done| |cbn in *; lia].
    destruct Hq as [?|(? & ? & Hq)]; [by left|]. right. apply Forall_cons in Hq as [_ Hq]. done.
Qed.

Lemma search_skip bp Q : forall p fuel u, chain (umem u) p Q base -> Q <> [] -> Forall (fun b => bp < b.1) Q -> spaced Q -> Forall inside Q ->
  base < bp -> freeSearch (length Q + fuel) bp p u = freeSearch fuel bp base u.
Proof.
  induction Q as [|b Q IH]; intros p fuel u Hc Hne Hgt Hs Hi Hbase; [done|].
  cbn [chain spaced length freeSearch Nat.add] in *. destruct Hc as (-> & Hsz & Hc). destruct Hs as [Hbs Hs].
  apply Forall_cons in Hgt as [Hb Hgt], Hi as [Hib Hi]. rewrite bind_getPtr, !Z.gtb_ltb, Z.geb_leb.
  rewrite (proj2 (Z.ltb_ge b.1 bp)) by lia. cbn [andb orb]. destruct Q as [|c Q].
  - cbn [chain] in Hc. rewrite Hc, (proj2 (Z.ltb_ge bp base)), andb_false_r by lia. done.
  - pose proof Hc as (Hnext & _). rewrite Hnext. apply Forall_cons in Hbs as [Hbc _].
    rewrite (proj2 (Z.leb_gt _ _)) by (unfold before in Hbc; lia). cbn [andb]. rewrite <- Hnext. by apply IH.
Qed.

Lemma chain_suffix m p A B q : chain m p (A ++ B) q -> B <> [] -> exists b, head B = Some b /\ chain m b.1 B q.
Proof.
  intros (r & _ & HB)%chain_app Hne. destruct B as [|b B]; [done|]. exists b. split; [done|]. pose proof HB as (-> & _). done.
Qed.

Lemma lastAddr_app d A B : B <> [] -> lastAddr d (A ++ B) = lastAddr d B.
Proof. intros Hne. unfold lastAddr. rewrite last_app. destruct (last B) eqn:E; [done|]. by apply last_None in E. Qed.

(** From any element of the ring the search ends at the last block below. *)
Lemma search_ring bp P Q u fuel : ring_ok base (umem u) (P ++ Q) -> P <> [] -> Forall (fun b => b.1 < bp) P -> Forall (fun b => bp < b.1) Q ->
  freep u ∈ (P ++ Q).*1 -> (length (P ++ Q) <= fuel)%nat ->
  freeSearch fuel bp (freep u) u = Ret (lastAddr 0 P) u.
Proof.
  intros [Hc Hs Hi (l & Hl & _)] Hne HP HQ Hf Hfuel. rewrite length_app in Hfuel.
  pose proof Hs as (HsP & HsQ & HPQ)%spaced_app. pose proof Hi as [HiP HiQ]%Forall_app. pose proof Hc as (q & HcP & HcQ)%chain_app.
  assert (Hhead : exists b P', P = b :: P' /\ b.1 = base).
  { destruct P as [|b P]; [done|]. cbn in Hl. injection Hl as -> _. by exists (base, 0), P. }
  destruct Hhead as (b0 & P' & EP & Eb0). assert (Hbase : base < bp) by (rewrite EP in HP; apply Forall_cons in HP as [HP _]; lia).
  assert (HbP : Forall (fun b => base <= b.1) P).
  { rewrite EP in HsP |- *. destruct HsP as [Hb _]. constructor; [lia|]. eapply Forall_impl; [exact Hb|]. unfold before. cbn. lia. }
  assert (Hq : bp < q \/ (q = base /\ base < bp /\ Forall (fun b => base <= b.1) P)).
  { destruct Q as [|c Q]; [right; by cbn in HcQ|left]. destruct HcQ as (-> & _). by apply Forall_cons in HQ as [HQ _]. }
  assert (Hfwd : forall k, (length P <= k)%nat -> freeSearch k bp base u = Ret (lastAddr 0 P) u).
  { intros k Hk. by apply (search_forward bp P base q). }
  rewrite fmap_app in Hf. apply elem_of_app in Hf as [(b & Eb & Hin)%list_elem_of_fmap|(b & Eb & Hin)%list_elem_of_fmap]; rewrite Eb.
  - apply list_elem_of_split in Hin as (A & R & ->).
    destruct (chain_suffix _ _ _ _ _ HcP ltac:(done)) as (b' & [= <-] & Hcb). apply Forall_app in HP as [_ HP], HiP as [_ HiP].
    rewrite (search_forward bp (b :: R) b.1 q fuel u Hcb); [by rewrite lastAddr_app| |done| |done| |]; [done|by apply spaced_app in HsP as (_ & ? & _)| |rewrite length_app in Hfuel; cbn in *; lia].
    destruct Hq as [?|(? & ? & Hq)]; [by left|]. right. apply Forall_app in Hq as [_ Hq]. done.
  - apply list_elem_of_split in Hin as (A & R & ->). destruct (chain_suffix _ _ _ _ _ HcQ ltac:(done)) as (b' & [= <-] & Hcb).
    apply Forall_app in HQ as [_ HQ], HiQ as [_ HiQ]. apply spaced_app in HsQ as (_ & HsR & _). rewrite length_app in Hfuel.
    replace fuel with (length (b :: R) + (fuel - length (b :: R)))%nat by (cbn in *; lia). rewrite search_skip by done. apply Hfwd. cbn in *. lia.
Qed.

(** ** Returning a block *)

(** The free blocks from [b] on, merged with the next one if it is adjacent. *)
Definition insertRight (b : block) (Q : list block) : list block :=
  match Q with
  | c :: Q' => if b.1 + 8 * b.2 =? c.1 then (b.1, b.2 + c.2) :: Q' else b :: Q
  | [] => [b]
  end.

(** The ring with [b] between [P ++ [pr]] and [Q]. *)
Definition insertBlock (P : list block) (pr b : block) (Q : list block) : list block :=
  match insertRight b Q with
  | r :: R => if pr.1 + 8 * pr.2 =? b.1 then P ++ (pr.1, pr.2 + r.2) :: R else P ++ pr :: r :: R
  | [] => []
  end.

(** A header that is written leaves the others alone. *)
Lemma headers_kept m m' a l : Forall inside l -> Forall (fun b => b.1 + 8 <= a \/ a + 8 <= b.1) l ->
  (forall x, ~ (a <= x < a + 8) -> m' x = m x) ->
  Forall (fun b : block => load32 m' b.1 = load32 m b.1 /\ load32 m' (b.1 + 4) = load32 m (b.1 + 4)) l.
Proof.
  intros Hi Ha Hm. apply Forall_forall. intros b Hb. rewrite Forall_forall in Hi, Ha. specialize (Hi b Hb). specialize (Ha b Hb).
  unfold inside, endOf, extent in Hi. split; apply load32_same; try lia; intros x Hx; apply Hm; lia.
Qed.

Lemma chain_kept m m' a l p q : Forall inside l -> Forall (fun b => b.1 + 8 <= a \/ a + 8 <= b.1) l ->
  (forall x, ~ (a <= x < a + 8) -> m' x = m x) -> chain m p l q -> chain m' p l q.
Proof. intros Hi Ha Hm. apply chain_frame. by eapply headers_kept. Qed.

(** Writing pointer and size of the header at [a]. *)
Definition header (m : mem) (a ptr size : Z) : mem := store32 (store32 m (a + 4) size) a ptr.

Lemma header_spec m a ptr size : 0 <= a -> a + 8 <= 4294967296 -> 0 <= ptr < 4294967296 -> 0 <= size < 4294967296 ->
  load32 (header m a ptr size) a = ptr /\ load32 (header m a ptr size) (a + 4) = size /\
  (forall x, ~ (a <= x < a + 8) -> header m a ptr size x = m x).
Proof.
  intros. unfold header. rewrite load32_store32 by lia. rewrite load32_store32_other, load32_store32 by lia. split_and!; try done.
  intros x Hx. by rewrite !store32_out by lia.
Qed.

Lemma store_ptr_spec m a ptr : 0 <= a -> a + 8 <= 4294967296 -> 0 <= ptr < 4294967296 ->
  load32 (store32 m a ptr) a = ptr /\ load32 (store32 m a ptr) (a + 4) = load32 m (a + 4) /\
  (forall x, ~ (a <= x < a + 8) -> store32 m a ptr x = m x).
Proof.
  intros. rewrite load32_store32, load32_store32_other by lia. split_and!; try done. intros x Hx. by rewrite store32_out by lia.
Qed.

Definition freeRight (bp size next : Z) : M (UState W) unit :=
  if padd bp (HEADER * size) =? next then
    nsize ← getSize next; setSize bp (u32 (size + nsize));; nnext ← getPtr next; setPtr bp nnext
  else setPtr bp next.

Definition freeLeft (bp p psize : Z) : M (UState W) unit :=
  if padd p (HEADER * psize) =? bp then
    size ← getSize bp; setSize p (u32 (psize + size));; next ← getPtr bp; setPtr p next
  else setPtr p bp.

Lemma chain_end m l q : forall p, chain m p l q -> Forall inside l -> l <> [] -> 0 <= p < 4294967296.
Proof. destruct l as [|b l]; [done|]. intros p (-> & _) [Hi _]%Forall_cons _. unfold inside, endOf, extent in Hi. lia. Qed.

Lemma freeRight_spec b Q q u : chain (umem u) q Q base -> load32 (umem u) (b.1 + 4) = b.2 -> 1 <= b.2 -> inside b -> Forall inside Q -> 0 < base < b.1 ->
  Forall (fun c => endOf b <= c.1) Q -> spaced Q -> Forall (fun c => 1 <= c.2) Q ->
  exists m, freeRight b.1 b.2 q u = Ret tt (set_umem m u) /\ chain m b.1 (insertRight b Q) base /\
    (forall x, ~ (b.1 <= x < b.1 + 8) -> m x = umem u x).
Proof.
  intros Hc Hsz Hb Hi HiQ Hbase HQ HsQ H1. unfold freeRight, HEADER. pose proof Hi as Hi'. unfold inside, endOf, extent in Hi'.
  rewrite padd_small by lia. destruct Q as [|c Q]; cbn [insertRight chain] in *.
  - subst q. rewrite (proj2 (Z.eqb_neq _ _)) by lia. destruct (store_ptr_spec (umem u) b.1 base ltac:(lia) ltac:(lia) ltac:(lia)) as (E1 & E2 & E3).
    exists (store32 (umem u) b.1 base). split; [done|]. by rewrite E1, E2.
  - destruct Hc as (-> & Hcs & Hc). apply Forall_cons in HiQ as [Hic HiQ], HQ as [Hbc HQ], H1 as [Hc1 H1]. destruct HsQ as [Hcq HsQ].
    pose proof Hic as Hic'. unfold inside, endOf, extent in Hic', Hbc. destruct (Z.eqb_spec (b.1 + 8 * b.2) c.1) as [E|E].
    + rewrite bind_getSize, Hcs by lia. rewrite (bind_Ret _ _ _ _ _ (setSize_eq b.1 _ u ltac:(lia))), bind_getPtr. rewrite u32_small by lia.
      assert (Hcp : load32 (umem (set_umem (store32 (umem u) (b.1 + 4) (b.2 + c.2)) u)) c.1 = load32 (umem u) c.1) by (cbn; apply load32_store32_other; lia).
      rewrite Hcp. set (np := load32 (umem u) c.1) in *.
      assert (Hnp : 0 <= np < 4294967296) by (destruct Q as [|d Q]; [cbn in Hc; lia|by eapply chain_end]).
      destruct (header_spec (umem u) b.1 np (b.2 + c.2) ltac:(lia) ltac:(lia) Hnp ltac:(lia)) as (E1 & E2 & E3).
      exists (header (umem u) b.1 np (b.2 + c.2)). split; [done|]. split; [|done]. cbn [chain fst snd]. rewrite E1, E2. split_and!; try done.
      eapply (chain_kept (umem u) _ b.1); [done| |exact E3|done]. eapply Forall_impl; [exact Hcq|]. unfold before. cbn. lia.
    + destruct (store_ptr_spec (umem u) b.1 c.1 ltac:(lia) ltac:(lia) ltac:(lia)) as (E1 & E2 & E3).
      exists (store32 (umem u) b.1 c.1). split; [done|]. split; [|done]. cbn [chain]. rewrite E1, E2. split_and!; try done.
      * rewrite <- Hcs. apply load32_same; [lia|lia|]. intros x Hx. apply E3. lia.
      * replace (load32 (store32 (umem u) b.1 c.1) c.1) with (load32 (umem u) c.1) by (symmetry; apply load32_same; [lia|lia|]; intros x Hx; apply E3; lia).
        eapply (chain_kept (umem u) _ b.1); [done| |exact E3|done]. eapply Forall_impl; [exact Hcq|]. unfold before. cbn. lia.
Qed.

Lemma freeLeft_spec P pr bp r R u : chain (umem u) base P pr.1 -> load32 (umem u) (pr.1 + 4) = pr.2 -> chain (umem u) bp (r :: R) base ->
  Forall inside P -> inside pr -> inside r -> Forall inside R -> 0 < base -> pr.2 + r.2 < 4294967296 ->
  Forall (fun x => x.1 + 8 <= pr.1) P -> endOf pr <= bp -> Forall (fun x => bp + 8 <= x.1) R ->
  exists m, freeLeft bp pr.1 pr.2 u = Ret tt (set_umem m u) /\
    chain m base (if pr.1 + 8 * pr.2 =? bp then P ++ (pr.1, pr.2 + r.2) :: R else P ++ pr :: r :: R) base /\
    (forall x, ~ (pr.1 <= x < pr.1 + 8) -> m x = umem u x).
Proof.
  intros HcP Hsz (Er & Hrs & HcR) HiP Hipr Hir HiR Hbase Hsum HP Hend HR. unfold freeLeft, HEADER.
  pose proof Hipr as Hipr'. pose proof Hir as Hir'. unfold inside, endOf, extent in Hipr', Hir', Hend. rewrite padd_small by lia. subst bp.
  assert (HkP : forall m, (forall x, ~ (pr.1 <= x < pr.1 + 8) -> m x = umem u x) -> chain m base P pr.1).
  { intros m Hm. eapply (chain_kept (umem u) m pr.1); [done| |done|done]. eapply Forall_impl; [exact HP|]. cbn. lia. }
  assert (HkR : forall m p, (forall x, ~ (pr.1 <= x < pr.1 + 8) -> m x = umem u x) -> chain (umem u) p R base -> chain m p R base).
  { intros m p Hm. eapply (chain_kept (umem u) m pr.1); [done| |done]. eapply Forall_impl; [exact HR|]. cbn. lia. }
  destruct (Z.eqb_spec (pr.1 + 8 * pr.2) r.1) as [E|E].
  - rewrite bind_getSize, Hrs by lia. rewrite (bind_Ret _ _ _ _ _ (setSize_eq pr.1 _ u ltac:(lia))), bind_getPtr, u32_small by lia.
    assert (Hnp : load32 (umem (set_umem (store32 (umem u) (pr.1 + 4) (pr.2 + r.2)) u)) r.1 = load32 (umem u) r.1) by (cbn; apply load32_store32_other; lia).
    rewrite Hnp. set (np := load32 (umem u) r.1) in *.
    assert (Hr : 0 <= np < 4294967296).
    { destruct R as [|d R]; [cbn in HcR; destruct P as [|c P]; cbn in HcP|by eapply chain_end]; [lia|].
      destruct HcP as (Ec & _). apply Forall_cons in HiP as [Hc _]. unfold inside, endOf, extent in Hc. lia. }
    destruct (header_spec (umem u) pr.1 np (pr.2 + r.2) ltac:(lia) ltac:(lia) Hr ltac:(lia)) as (E1 & E2 & E3).
    exists (header (umem u) pr.1 np (pr.2 + r.2)). split; [done|]. split; [|done]. apply chain_app. exists pr.1. split; [by apply HkP|].
    cbn [chain fst snd]. rewrite E1, E2. split_and!; try done. by apply HkR.
  - destruct (store_ptr_spec (umem u) pr.1 r.1 ltac:(lia) ltac:(lia) ltac:(lia)) as (E1 & E2 & E3).
    exists (store32 (umem u) pr.1 r.1). split; [done|]. split; [|done]. apply chain_app. exists pr.1. split; [by apply HkP|].
    cbn [chain]. rewrite E1, E2. split_and!; try done.
    + rewrite <- Hrs. apply load32_same; [lia|lia|]. intros x Hx. apply E3. lia.
    + replace (load32 (store32 (umem u) pr.1 r.1) r.1) with (load32 (umem u) r.1) by (symmetry; apply load32_same; [lia|lia|]; intros x Hx; apply E3; lia).
      by apply HkR.
Qed.

Lemma insertRight_cons b Q : exists r R, insertRight b Q = r :: R /\ r.1 = b.1.
Proof. destruct Q as [|c Q]; cbn; [by eexists _, _|]. case_match; by eexists _, _. Qed.

Lemma insertRight_length b Q : (length (insertRight b Q) <= S (length Q))%nat.
Proof. destruct Q as [|c Q]; cbn [insertRight]; [done|]. destruct (_ =? _); cbn [length]; lia. Qed.

(** ** What stays true of the list *)

Lemma apart_sym x y : apart x y -> apart y x.
Proof. unfold apart. tauto. Qed.

(** Facts about the two merges; [x] is any block apart from the old ones. *)
Lemma insertRight_facts b Q : 1 <= b.2 -> inside b -> Forall inside Q -> Forall (fun c => endOf b <= c.1) Q -> spaced Q -> Forall (fun c => 1 <= c.2) Q ->
  spaced (insertRight b Q) /\ Forall inside (insertRight b Q) /\ Forall (fun c => 1 <= c.2) (insertRight b Q) /\
  (forall x, 0 <= x.2 -> apart x b -> Forall (apart x) Q -> Forall (apart x) (insertRight b Q)) /\
  (forall y, before y b -> Forall (before y) Q -> Forall (before y) (insertRight b Q)).
Proof.
  intros Hb Hib HiQ HQ Hs H1. destruct Q as [|c Q]; cbn [insertRight].
  - split_and!; try (by repeat constructor); intros; by constructor.
  - destruct Hs as [Hcq Hs]. apply Forall_cons in HiQ as [Hic HiQ], HQ as [Hbc HQ], H1 as [Hc1 H1].
    unfold inside, endOf, extent in Hib, Hic, Hbc. destruct (Z.eqb_spec (b.1 + 8 * b.2) c.1) as [E|E].
    + split_and!.
      * split; [|done]. eapply Forall_impl; [exact Hcq|]. unfold before. cbn. lia.
      * constructor; [|done]. unfold inside, endOf, extent. cbn. lia.
      * constructor; [cbn; lia|done].
      * intros x Hx Hxb [Hxc HxQ]%Forall_cons. constructor; [|done]. unfold apart, endOf, extent in *. cbn. lia.
      * intros y Hyb [_ HyQ]%Forall_cons. constructor; [|done]. unfold before in *. cbn. lia.
    + split_and!.
      * split; [constructor|by split]. { unfold before. lia. } eapply Forall_impl; [exact Hcq|]. unfold before. cbn. lia.
      * by repeat constructor; unfold inside, endOf, extent; try lia.
      * by repeat constructor.
      * intros x Hx Hxb HxQ. by constructor.
      * intros y Hyb HyQ. by constructor.
Qed.

(** The bytes of the free blocks. *)
Definition covered (N : list block) (a : Z) : Prop := Exists (fun c => c.1 <= a < c.1 + 8 * c.2) N.

Lemma insertRight_covered b Q a : 1 <= b.2 -> Forall (fun c => 1 <= c.2) Q ->
  covered (insertRight b Q) a <-> (b.1 <= a < b.1 + 8 * b.2) \/ covered Q a.
Proof.
  intros Hb H1. unfold covered. destruct Q as [|c Q]; cbn [insertRight].
  - rewrite Exists_cons, !Exists_nil. tauto.
  - apply Forall_cons in H1 as [Hc _]. destruct (Z.eqb_spec (b.1 + 8 * b.2) c.1) as [E|E]; rewrite !Exists_cons; [|tauto]. cbn.
    split; [intros [?|?]|intros [?|[?|?]]]; try tauto; try (left; lia). destruct (decide (a < b.1 + 8 * b.2)); [left|right; left]; lia.
Qed.

Lemma insertBlock_ring P pr b Q m : 1 <= b.2 -> inside b -> 0 <= pr.2 ->
  spaced (P ++ pr :: Q) -> Forall inside (P ++ pr :: Q) -> (exists l, P ++ pr :: Q = (base, 0) :: l /\ Forall (fun c => 1 <= c.2) l) -> 0 < base ->
  endOf pr <= b.1 -> Forall (fun c => endOf b <= c.1) Q -> chain m base (insertBlock P pr b Q) base ->
  ring_ok base m (insertBlock P pr b Q) /\ pr.1 ∈ (insertBlock P pr b Q).*1 /\ Exists (fun c => b.2 <= c.2) (insertBlock P pr b Q) /\
  (forall x, 0 <= x.2 -> apart x b -> Forall (apart x) (P ++ pr :: Q) -> Forall (apart x) (insertBlock P pr b Q)) /\
  (forall a, covered (insertBlock P pr b Q) a <-> covered (P ++ pr :: Q) a \/ b.1 <= a < b.1 + 8 * b.2).
Proof.
  intros Hb Hib Hpr Hs Hi (l & El & Hl) Hbase Hend HQ Hc.
  pose proof Hs as (HsP & (Hpq & HsQ) & HPQ)%spaced_app. pose proof Hi as [HiP [Hipr HiQ]%Forall_cons]%Forall_app.
  assert (H1 : Forall (fun c => 1 <= c.2) Q) by (destruct P; injection El as -> <-; [done|by apply Forall_app in Hl as [_ [_ ?]%Forall_cons]]).
  destruct (insertRight_facts b Q Hb Hib HiQ HQ HsQ H1) as (FS & FI & F1 & FA & FB).
  pose proof (fun a => insertRight_covered b Q a Hb H1) as FC. destruct (insertRight_cons b Q) as (r & R & ER & Er). unfold insertBlock in *. rewrite ER in *.
  destruct FS as [HrR HsR]. apply Forall_cons in FI as [Hir HiR], F1 as [Hr1 HR1].
  assert (Hbr : b.2 <= r.2).
  { destruct Q as [|c Q]; cbn in ER; [injection ER as <- _; lia|]. apply Forall_cons in H1 as [Hc1 _]. case_match; injection ER as <- _; cbn; lia. }
  unfold endOf, extent in Hend. unfold inside, endOf, extent in Hib, Hipr, Hir.
  assert (HPr : Forall (fun y => before y r /\ Forall (before y) R) P).
  { apply Forall_forall. intros y Hy. rewrite Forall_forall in HPQ. specialize (HPQ y Hy). apply Forall_cons in HPQ as [Hyp HyQ].
    assert (Hyb : before y b) by (unfold before in *; lia). specialize (FB y Hyb HyQ). by apply Forall_cons in FB. }
  assert (HprR : Forall (before pr) R). { eapply Forall_impl; [exact HrR|]. unfold before. intros z Hz. lia. }
  assert (HsPpr : Forall (fun y => before y pr) P) by (eapply Forall_impl; [exact HPQ|]; by intros y [? _]%Forall_cons).
  destruct (Z.eqb_spec (pr.1 + 8 * pr.2) b.1) as [E|E].
  - assert (Hpr1 : 1 <= pr.2) by lia. assert (HPne : exists P', P = (base, 0) :: P' /\ Forall (fun c => 1 <= c.2) P').
    { destruct P as [|x P]; injection El as -> <-; [cbn in Hpr1; lia|]. exists P. split; [done|]. by apply Forall_app in Hl as [? _]. }
    destruct HPne as (P' & -> & HP1). split_and!.
    + split; [done| |apply Forall_app; split; [done|]; constructor; [|done]; unfold inside, endOf, extent; cbn; lia|].
      * apply spaced_app. split_and!; [done|split; [|done]|].
        -- eapply Forall_impl; [exact HrR|]. unfold before. cbn. lia.
        -- apply Forall_forall. intros y Hy. rewrite Forall_forall in HPr, HsPpr. destruct (HPr y Hy) as [_ HyR]. constructor; [|done].
           specialize (HsPpr y Hy). unfold before in *. cbn. lia.
      * exists (P' ++ (pr.1, pr.2 + r.2) :: R). split; [done|]. apply Forall_app. split; [done|]. constructor; [cbn; lia|done].
    + rewrite fmap_app. apply elem_of_app. right. by left.
    + apply Exists_app. right. left. cbn. lia.
    + intros x Hx Hxb [HxP [Hxpr HxQ]%Forall_cons]%Forall_app. specialize (FA x Hx Hxb HxQ). apply Forall_cons in FA as [Hxr HxR].
      apply Forall_app. split; [done|]. constructor; [|done]. unfold apart, endOf, extent in *. cbn. lia.
    + intros a. specialize (FC a). unfold covered in *. rewrite !Exists_app, !Exists_cons in *. cbn [fst snd].
      destruct (decide (pr.1 <= a < pr.1 + 8 * (pr.2 + r.2))); destruct (decide (pr.1 <= a < pr.1 + 8 * pr.2));
        destruct (decide (r.1 <= a < r.1 + 8 * r.2)); try lia; tauto.
  - split_and!.
    + split; [done| |apply Forall_app; split; [done|]; by repeat constructor; unfold inside, endOf, extent; try lia|].
      * apply spaced_app. split_and!; [done|split; [constructor; [unfold before; lia|done]|by split]|].
        apply Forall_forall. intros y Hy. rewrite Forall_forall in HPr, HsPpr. destruct (HPr y Hy). constructor; [by apply HsPpr|by constructor].
      * destruct P as [|x P]; injection El as -> <-; eexists; (split; [reflexivity|]).
        -- by constructor.
        -- apply Forall_app in Hl as [HlP [Hlpr _]%Forall_cons]. apply Forall_app. split; [done|]. by repeat constructor.
    + rewrite fmap_app. apply elem_of_app. right. by left.
    + apply Exists_app. right. right. by left.
    + intros x Hx Hxb [HxP [Hxpr HxQ]%Forall_cons]%Forall_app. specialize (FA x Hx Hxb HxQ). apply Forall_app. split; [done|]. by constructor.
    + intros a. specialize (FC a). unfold covered in *. rewrite !Exists_app, !Exists_cons in *. tauto.
Qed.

Lemma apart_ne b c : 1 <= b.2 -> 0 <= c.2 -> apart b c -> c.1 <> b.1.
Proof. unfold apart, endOf, extent. lia. Qed.

(** [free] puts a block back: the free bytes are the old ones and those of the
    block; only headers of free blocks are written. *)
Lemma ufree_spec N b u fuel : ring_ok base (umem u) N -> freep u ∈ N.*1 -> 0 < base -> 1 <= b.2 -> inside b -> base < b.1 ->
  load32 (umem u) (b.1 + 4) = b.2 -> Forall (apart b) N -> (length N <= fuel)%nat ->
  exists N' m' f', free fuel (b.1 + 8) u = Ret tt (mkUState m' f' (world u)) /\ ring_ok base m' N' /\ f' ∈ N'.*1 /\
    Exists (fun c => b.2 <= c.2) N' /\ (forall x, 0 <= x.2 -> apart x b -> Forall (apart x) N -> Forall (apart x) N') /\
    (forall a, covered N' a <-> covered N a \/ b.1 <= a < b.1 + 8 * b.2) /\
    (forall a, ~ (b.1 <= a < b.1 + 8) -> Forall (fun c => ~ (c.1 <= a < c.1 + 8)) N -> m' a = umem u a) /\ (length N' <= S (length N))%nat.
Proof.
  intros Hring Hf Hbase Hb Hib Hbb Hsz Hap Hfuel. pose proof Hring as [Hc Hs Hi (l & El & Hl)].
  assert (Hib' := Hib). unfold inside, endOf, extent in Hib'.
  destruct (spaced_cut b.1 N Hs Hi) as (P0 & Q & -> & HP & HQ).
  { apply Forall_forall. intros c Hin. rewrite Forall_forall in Hap, Hi. specialize (Hap c Hin). specialize (Hi c Hin). apply apart_ne; [done|unfold inside in Hi; lia|done]. }
  assert (HP0 : P0 <> []).
  { intros ->. cbn in El. subst Q. apply Forall_cons in HQ as [HQ _]. cbn in HQ. lia. }
  destruct (exists_last HP0) as (P & pr & ->). clear HP0.
  unfold free, HEADER. rewrite padd_small by lia. replace (b.1 + 8 + Z.opp 8) with b.1 by lia. rewrite bind_gets.
  rewrite (bind_Ret _ _ _ _ _ (search_ring b.1 (P ++ [pr]) Q u fuel Hring ltac:(by destruct P) HP HQ Hf Hfuel)), lastAddr_snoc.
  rewrite bind_getSize, Hsz by lia. rewrite bind_getPtr. rewrite <- app_assoc in *. cbn [app] in *.
  pose proof Hc as (q0 & HcP & (-> & Hprs & HcQ))%chain_app. pose proof Hs as (HsP & (Hpq & HsQ) & HPQ)%spaced_app.
  pose proof Hi as [HiP [Hipr HiQ]%Forall_cons]%Forall_app. apply Forall_app in HP as [_ [Hprb _]%Forall_cons].
  pose proof Hap as [HapP [Happr HapQ]%Forall_cons]%Forall_app. assert (Hipr' := Hipr). unfold inside, endOf, extent in Hipr'.
  assert (H1 : Forall (fun c => 1 <= c.2) Q) by (destruct P; injection El as -> <-; [done|by apply Forall_app in Hl as [_ [_ ?]%Forall_cons]]).
  assert (HQb : Forall (fun c => endOf b <= c.1) Q).
  { apply Forall_forall. intros c Hin. rewrite Forall_forall in HapQ, HQ. specialize (HapQ c Hin). specialize (HQ c Hin).
    rewrite Forall_forall in H1. specialize (H1 c Hin). unfold apart, endOf, extent in *. lia. }
  assert (Hpre : endOf pr <= b.1) by (unfold apart, endOf, extent in *; lia). assert (Hpre' := Hpre). unfold endOf, extent in Hpre'.
  destruct (freeRight_spec b Q _ u HcQ Hsz Hb Hib HiQ ltac:(lia) HQb HsQ H1) as (m1 & E1 & Hc1 & Hm1).
  unfold freeRight, HEADER in E1. rewrite (bind_Ret _ _ _ _ _ E1). clear E1.
  set (u1 := set_umem m1 u). destruct (insertRight_facts b Q Hb Hib HiQ HQb HsQ H1) as (FS & FI & F1 & FA & FB).
  destruct (insertRight_cons b Q) as (r & R & ER & Er). rewrite ER in Hc1, FS, FI, F1, FA. destruct FS as [HrR HsR].
  apply Forall_cons in FI as [Hir HiR], F1 as [Hr1 HR1]. assert (Hir' := Hir). unfold inside, endOf, extent in Hir'.
  assert (HPpr : Forall (fun x => x.1 + 8 <= pr.1) P) by (eapply Forall_impl; [exact HPQ|]; intros y [Hy _]%Forall_cons; unfold before in Hy; lia).
  assert (HcP1 : chain (umem u1) base P pr.1).
  { eapply (chain_kept (umem u) m1 b.1); [done| |done|done]. eapply Forall_impl; [exact HPpr|]. cbn. lia. }
  assert (Hprs1 : load32 (umem u1) (pr.1 + 4) = pr.2) by (rewrite <- Hprs; apply load32_same; [lia|lia|]; intros x Hx; apply Hm1; lia).
  rewrite bind_getSize, Hprs1 by lia.
  assert (HRb : Forall (fun x => b.1 + 8 <= x.1) R) by (eapply Forall_impl; [exact HrR|]; unfold before; intros z Hz; lia).
  destruct (freeLeft_spec P pr b.1 r R u1 HcP1 Hprs1 Hc1 HiP Hipr Hir HiR Hbase ltac:(lia) HPpr Hpre HRb) as (m2 & E2 & Hc2 & Hm2).
  unfold freeLeft, HEADER in E2. rewrite (bind_Ret _ _ _ _ _ E2). clear E2.
  assert (Hc2' : chain m2 base (insertBlock P pr b Q) base) by (unfold insertBlock; by rewrite ER).
  destruct (insertBlock_ring P pr b Q m2 Hb Hib ltac:(lia) Hs Hi ltac:(by exists l) Hbase Hpre HQb Hc2') as (R1 & R2 & R3 & R4 & R5).
  exists (insertBlock P pr b Q), m2, pr.1. split; [done|]. split_and!; try done.
  - intros a Ha [_ [Hpa _]%Forall_cons]%Forall_app. rewrite Hm2 by done. by apply Hm1.
  - unfold insertBlock. rewrite ER. assert (length (r :: R) <= S (length Q))%nat by (rewrite <- ER; apply insertRight_length).
    cbn in *. case_match; rewrite !length_app; cbn; lia.
Qed.

(** ** Taking a block *)

(** The branch of [malloc] that has found a block of [size] units. *)
Definition carve (nunits prevp p size : Z) : M (UState W) Z :=
  p ← (if size =? nunits then next ← getPtr p; setPtr prevp next;; mret p
       else setSize p (u32 (size - nunits));;
         let p := padd p (HEADER * u32 (size - nunits)) in setSize p nunits;; mret p);
  puts (set_freep prevp);;
  mret (padd p HEADER).

(** What a step that hands out [blk] from the ring [N] leaves behind. *)
Definition handed (m m' : mem) (N N' : list block) (blk : block) : Prop :=
  ring_ok base m' N' /\ inside blk /\ base < blk.1 /\ load32 m' (blk.1 + 4) = blk.2 /\ Forall (apart blk) N' /\
  (forall x, 0 <= x.2 -> Forall (apart x) N -> apart x blk /\ Forall (apart x) N') /\
  (forall a, covered N a <-> covered N' a \/ blk.1 <= a < blk.1 + 8 * blk.2) /\
  (forall a, Forall (fun c => ~ (c.1 <= a < endOf c)) N -> m' a = m a).

Lemma middle_facts A pr c Q m : ring_ok base m (A ++ pr :: c :: Q) -> 0 < base ->
  1 <= c.2 /\ inside pr /\ inside c /\ before pr c /\ base < c.1 /\ Forall (fun x => x.1 + 8 <= pr.1 /\ endOf x <= c.1) A /\
  Forall (fun x => c.1 + 8 * c.2 < x.1 /\ endOf pr <= x.1) Q /\ Forall inside A /\ Forall inside Q.
Proof.
  intros [Hc Hs Hi (l & El & Hl)] Hb. pose proof Hs as (HsA & (Hpr & (HcQ & HsQ)) & HAll)%spaced_app.
  apply Forall_app in Hi as [HiA [Hipr [Hic HiQ]%Forall_cons]%Forall_cons]. apply Forall_cons in Hpr as [Hprc HprQ].
  assert (Hc1 : 1 <= c.2 /\ base < c.1).
  { destruct A as [|x A]; injection El as -> <-.
    - apply Forall_cons in Hl as [? _]. split; [done|]. unfold before in Hprc. cbn in Hprc. lia.
    - apply Forall_app in Hl as [_ [_ [? _]%Forall_cons]%Forall_cons]. split; [done|].
      apply Forall_cons in HAll as [[_ [Hx _]%Forall_cons]%Forall_cons _]. unfold before in Hx. cbn in Hx. lia. }
  split_and!; try done; try tauto.
  - apply Forall_forall. intros x Hx. rewrite Forall_forall in HAll. specialize (HAll x Hx). apply Forall_cons in HAll as [H1 [H2 _]%Forall_cons].
    rewrite Forall_forall in HiA. specialize (HiA x Hx). unfold before, inside, endOf, extent in *. lia.
  - apply Forall_forall. intros x Hx. rewrite Forall_forall in HcQ, HprQ. specialize (HcQ x Hx). specialize (HprQ x Hx).
    unfold before, inside, endOf, extent in *. lia.
Qed.

Lemma carve_spec A pr c Q nunits u : ring_ok base (umem u) (A ++ pr :: c :: Q) -> 0 < base -> 1 <= nunits <= c.2 ->
  exists N' blk m', carve nunits pr.1 c.1 c.2 u = Ret (blk.1 + 8) (mkUState m' pr.1 (world u)) /\ blk.2 = nunits /\
    handed (umem u) m' (A ++ pr :: c :: Q) N' blk /\ pr.1 ∈ N'.*1 /\ (length N' <= length (A ++ pr :: c :: Q))%nat /\ endOf blk <= endOf c.
Proof.
  intros Hring Hbase Hn. destruct (middle_facts A pr c Q (umem u) Hring Hbase) as (Hc1 & Hipr & Hic & Hprc & Hbc & HA & HQ & HiA & HiQ).
  pose proof Hring as [Hc Hs Hi (l & El & Hl)]. pose proof Hc as (q0 & HcA & (-> & Hprs & (Hnext & Hcs & HcQ)))%chain_app.
  pose proof Hs as (HsA & (Hpr & (HcQ' & HsQ)) & HAll)%spaced_app. pose proof Hipr as Hipr'. pose proof Hic as Hic'. unfold inside, endOf, extent in Hipr', Hic'.
  unfold before in Hprc. unfold carve, HEADER. destruct (Z.eqb_spec c.2 nunits) as [E|E].
  - set (np := load32 (umem u) c.1) in *. rewrite bind_assoc, bind_getPtr. fold np.
    assert (Hnp : 0 <= np < 4294967296).
    { destruct Q as [|d Q]; [cbn in HcQ|by eapply chain_end]. destruct A as [|x A]; cbn in HcA; [lia|].
      destruct HcA as (Ex & _). apply Forall_cons in HiA as [Hx _]. unfold inside, endOf, extent in Hx. lia. }
    destruct (store_ptr_spec (umem u) pr.1 np ltac:(lia) ltac:(lia) ltac:(lia)) as (E1 & E2 & E3). set (m' := store32 (umem u) pr.1 np) in *.
    exists (A ++ pr :: Q), c, m'. split; [unfold setPtr; rewrite bind_assoc, bind_storeWord, bind_mret, bind_puts, padd_small by lia; done|].
    assert (Hring' : ring_ok base m' (A ++ pr :: Q)).
    { split.
      - apply chain_app. exists pr.1. split; [eapply (chain_kept (umem u) m' pr.1); [done| |done|done]|].
        { eapply Forall_impl; [exact HA|]. cbn. lia. }
        cbn [chain]. rewrite E1, E2. split_and!; try done. eapply (chain_kept (umem u) m' pr.1); [done| |done|done].
        eapply Forall_impl; [exact HQ|]. unfold endOf, extent. cbn. lia.
      - apply spaced_app. split_and!; [done|split; [by apply Forall_cons in Hpr as [_ ?]|done]|].
        eapply Forall_impl; [exact HAll|]. intros y [? [_ ?]%Forall_cons]%Forall_cons. by constructor.
      - apply Forall_app. split; [done|]. by constructor.
      - destruct A as [|x A]; injection El as -> <-; eexists; (split; [reflexivity|]).
        + by apply Forall_cons in Hl as [_ ?].
        + apply Forall_app in Hl as [? [? [_ ?]%Forall_cons]%Forall_cons]. apply Forall_app. split; [done|]. by constructor. }
    split; [done|]. split; [|split_and!; [rewrite fmap_app; apply elem_of_app; right; by left|rewrite !length_app; cbn; lia|done]].
    unfold handed. split_and!; try done.
    + rewrite <- Hcs. apply load32_same; [lia|lia|]. intros x Hx. apply E3. lia.
    + apply Forall_app. split; [|constructor].
      * eapply Forall_impl; [exact HA|]. unfold apart. intros x [_ Hx]. by right.
      * right. unfold endOf, extent. lia.
      * eapply Forall_impl; [exact HQ|]. unfold apart, endOf, extent. intros x [Hx _]. left. lia.
    + intros x Hx [HxA [Hxpr [Hxc HxQ]%Forall_cons]%Forall_cons]%Forall_app. split; [done|]. apply Forall_app. split; [done|]. by constructor.
    + intros a. unfold covered. rewrite !Exists_app, !Exists_cons. tauto.
    + intros a [_ [Ha _]%Forall_cons]%Forall_app. apply E3. unfold endOf, extent in Ha. lia.
  - set (k := c.2 - nunits). rewrite (u32_small k), (padd_small c.1) by (unfold k; lia).
    set (blk := (c.1 + 8 * k, nunits) : block). set (c' := (c.1, k) : block).
    set (m' := store32 (store32 (umem u) (c.1 + 4) k) (blk.1 + 4) nunits).
    assert (Hm' : forall x, ~ (c.1 + 4 <= x < c.1 + 8) -> ~ (blk.1 + 4 <= x < blk.1 + 8) -> m' x = umem u x).
    { intros x Hx1 Hx2. unfold m', blk, k in *. cbn in *. by rewrite !store32_out by lia. }
    assert (Hws : load32 m' (c.1 + 4) = k /\ load32 m' (blk.1 + 4) = nunits /\ load32 m' c.1 = load32 (umem u) c.1).
    { unfold m', blk, k in *. cbn in *. split_and!; [rewrite load32_store32_other, load32_store32 by lia; done|by rewrite load32_store32 by lia|].
      by rewrite !load32_store32_other by lia. }
    destruct Hws as (Hw1 & Hw2 & Hw3). exists (A ++ pr :: c' :: Q), blk, m'. split.
    { rewrite bind_assoc, (bind_Ret _ _ _ _ _ (setSize_eq c.1 k u ltac:(lia))). cbv zeta. rewrite bind_assoc.
      rewrite (bind_Ret _ _ _ _ _ (setSize_eq (c.1 + 8 * k) nunits _ ltac:(unfold k; lia))), bind_mret, bind_puts. rewrite padd_small by (unfold k; lia). done. }
    assert (Hkeep : Forall (fun x : block => (x.1 + 8 <= c.1 \/ c.1 + 8 * c.2 <= x.1)) (A ++ pr :: Q)).
    { apply Forall_app. split; [|constructor; [left; lia|]].
      - eapply Forall_impl; [exact HA|]. unfold endOf, extent. intros x Hx. left. lia.
      - eapply Forall_impl; [exact HQ|]. intros x [Hx _]. right. lia. }
    assert (Hhdr : forall x : block, inside x -> (x.1 + 8 <= c.1 \/ c.1 + 8 * c.2 <= x.1) -> load32 m' x.1 = load32 (umem u) x.1 /\ load32 m' (x.1 + 4) = load32 (umem u) (x.1 + 4)).
    { intros x Hx Hd. unfold inside, endOf, extent in Hx. split; apply load32_same; try lia; intros a Ha; apply Hm'; unfold blk, k; cbn; lia. }
    pose proof Hkeep as [HkA [Hkpr HkQ]%Forall_cons]%Forall_app.
    assert (Hlist : forall L, Forall inside L -> Forall (fun x : block => (x.1 + 8 <= c.1 \/ c.1 + 8 * c.2 <= x.1)) L -> forall p q, chain (umem u) p L q -> chain m' p L q).
    { intros L HL1 HL2 p q. apply chain_frame. apply Forall_forall. intros x Hx. rewrite Forall_forall in HL1, HL2. apply Hhdr; [by apply HL1|by apply HL2]. }
    assert (Hring' : ring_ok base m' (A ++ pr :: c' :: Q)).
    { split.
      - apply chain_app. exists pr.1. split; [by apply Hlist|]. cbn [chain]. destruct (Hhdr pr Hipr Hkpr) as [-> ->]. rewrite Hnext.
        split_and!; try done. unfold c'. cbn. rewrite Hw3. by apply Hlist.
      - apply spaced_app. split_and!; [done| |].
        + apply Forall_cons in Hpr as [Hp1 Hp2]. split; [constructor; [exact Hp1|done]|split; [|done]].
          eapply Forall_impl; [exact HcQ'|]. unfold before, c', k. cbn. lia.
        + eapply Forall_impl; [exact HAll|]. intros y [? [? ?]%Forall_cons]%Forall_cons. constructor; [done|by constructor].
      - apply Forall_app. split; [done|]. constructor; [done|]. constructor; [|done]. unfold inside, endOf, extent, c', k. cbn. lia.
      - destruct A as [|x A]; injection El as -> <-; eexists; (split; [reflexivity|]).
        + apply Forall_cons in Hl as [_ ?]. constructor; [unfold c', k; cbn; lia|done].
        + apply Forall_app in Hl as [? [? [_ ?]%Forall_cons]%Forall_cons]. apply Forall_app. split; [done|]. constructor; [done|]. constructor; [unfold c', k; cbn; lia|done]. }
    split; [done|]. split; [|split_and!; [rewrite fmap_app; apply elem_of_app; right; by left|rewrite !length_app; cbn; lia|unfold endOf, extent, blk, k; cbn; lia]].
    unfold handed. split_and!; try done.
    + unfold inside, endOf, extent, blk, k. cbn. lia.
    + unfold blk, k. cbn. lia.
    + apply Forall_app. split; [|constructor; [|constructor]].
      * eapply Forall_impl; [exact HA|]. unfold apart, endOf, extent, blk, k. cbn. intros x [_ Hx]. lia.
      * right. unfold endOf, extent, blk, k. cbn. lia.
      * right. unfold endOf, extent, blk, c', k. cbn. lia.
      * eapply Forall_impl; [exact HQ|]. unfold apart, endOf, extent, blk, k. cbn. intros x [Hx _]. left. lia.
    + intros x Hx [HxA [Hxpr [Hxc HxQ]%Forall_cons]%Forall_cons]%Forall_app.
      split; [unfold apart, endOf, extent, blk, k in *; cbn; lia|]. apply Forall_app. split; [done|]. constructor; [done|].
      constructor; [unfold apart, endOf, extent, c', k in *; cbn; lia|done].
    + intros a. unfold covered. rewrite !Exists_app, !Exists_cons. cbn [fst snd].
      destruct (decide (c.1 <= a < c.1 + 8 * c.2)), (decide (c.1 <= a < c.1 + 8 * k)), (decide (c.1 + 8 * k <= a < c.1 + 8 * k + 8 * nunits)); unfold k in *; try lia; tauto.
    + intros a [_ [_ [Ha _]%Forall_cons]%Forall_cons]%Forall_app. apply Hm'; unfold endOf, extent, blk, k in *; cbn; lia.
Qed.

(** ** Looking for a block *)

Lemma loop_fit walk fuel nunits prevp c u : inside c -> load32 (umem u) (c.1 + 4) = c.2 -> nunits <= c.2 ->
  mallocLoop walk (S fuel) nunits prevp c.1 u = carve nunits prevp c.1 c.2 u.
Proof.
  intros Hi Hs Hn. unfold inside, endOf, extent in Hi. cbn [mallocLoop]. rewrite bind_getSize, Hs, Z.geb_leb, (proj2 (Z.leb_le _ _)) by lia. done.
Qed.

(** Blocks that are too small, up to [freep], are passed over. *)
Lemma loop_pass walk S0 : forall p q prevp fuel nunits u, chain (umem u) p S0 q -> Forall (fun b => b.2 < nunits) S0 -> Forall inside S0 ->
  freep u ∉ S0.*1 ->
  mallocLoop walk (length S0 + fuel) nunits prevp p u = mallocLoop walk fuel nunits (lastAddr prevp S0) q u.
Proof.
  induction S0 as [|b S0 IH]; intros p q prevp fuel nunits u Hc Hn Hi Hf; [cbn in Hc; by subst|].
  destruct Hc as (-> & Hs & Hc). apply Forall_cons in Hn as [Hn0 Hn], Hi as [Hi0 Hi]. cbn [fmap list_fmap] in Hf. rewrite not_elem_of_cons in Hf. destruct Hf as [Hf0 Hf].
  assert (Hi0' := Hi0). unfold inside, endOf, extent in Hi0'. cbn [length Nat.add mallocLoop].
  rewrite bind_getSize, Hs, Z.geb_leb, (proj2 (Z.leb_gt _ _)) by lia. rewrite bind_gets, (proj2 (Z.eqb_neq b.1 (freep u))) by done.
  rewrite bind_mret, bind_getPtr. rewrite (IH _ q b.1 fuel nunits u Hc Hn Hi Hf). f_equal. unfold lastAddr. rewrite last_cons. by destruct (last S0).
Qed.

Lemma first_fit nunits (N : list block) : Forall (fun b => b.2 < nunits) N \/
  exists S1 c S2, N = S1 ++ c :: S2 /\ Forall (fun b => b.2 < nunits) S1 /\ nunits <= c.2.
Proof.
  induction N as [|b N IH]; [by left|]. destruct (decide (b.2 < nunits)) as [Hlt|Hge].
  - destruct IH as [IH|(S1 & c & S2 & -> & H1 & H2)]; [left; by constructor|]. right. exists (b :: S1), c, S2. split_and!; [done|by constructor|done].
  - right. exists [], b, N. split_and!; [done|constructor|lia].
Qed.

Lemma spaced_nodup N : spaced N -> Forall inside N -> NoDup N.*1.
Proof.
  induction N as [|b N IH]; [intros; constructor|]. intros [Hb Hs] [Hi0 Hi]%Forall_cons. constructor; [|by apply IH].
  intros (c & Ec & Hc)%list_elem_of_fmap. rewrite Forall_forall in Hb. specialize (Hb c Hc). unfold before in Hb. lia.
Qed.

(** One round from [freep]: the first block that is large enough, if there is
    one; otherwise the loop comes back to [freep]. *)
Lemma loop_round walk fuel nunits N u : ring_ok base (umem u) N -> 0 < base -> freep u ∈ N.*1 -> 1 <= nunits -> (length N <= fuel)%nat ->
  (exists A pr c Q, N = A ++ pr :: c :: Q /\ nunits <= c.2 /\
     mallocLoop walk fuel nunits (freep u) (load32 (umem u) (freep u)) u = carve nunits pr.1 c.1 c.2 u) \/
  (Forall (fun b => b.2 < nunits) N /\ exists fuel', (S fuel' + length N = S fuel)%nat /\
     mallocLoop walk fuel nunits (freep u) (load32 (umem u) (freep u)) u =
       (r ← morecore walk nunits;
        match (if r =? 0 then None else Some r) with
        | None => mret 0
        | Some p => next ← getPtr p; mallocLoop walk fuel' nunits p next
        end) u).
Proof.
  intros Hring Hbase Hf Hn Hfuel. pose proof Hring as [Hc Hs Hi (l & El & Hl)]. pose proof (spaced_nodup N Hs Hi) as Hnd.
  apply list_elem_of_fmap in Hf as (f & Ef & Hin). apply list_elem_of_split in Hin as (A & N2 & ->). rewrite Ef.
  pose proof Hc as (q0 & HcA & (-> & Hfs & Hc2))%chain_app. pose proof Hi as [HiA [Hif Hi2]%Forall_cons]%Forall_app.
  rewrite fmap_app in Hnd. cbn [fmap list_fmap] in Hnd. apply NoDup_app in Hnd as (HndA & HdisA & HndN). apply NoDup_cons in HndN as [HfN2 Hnd2].
  assert (HfA : freep u ∉ A.*1) by (rewrite Ef; intros Hx; apply (HdisA f.1 Hx); by left).
  assert (HfN : freep u ∉ N2.*1) by (by rewrite Ef). rewrite length_app in Hfuel. cbn [length] in Hfuel.
  destruct (first_fit nunits N2) as [Hall2|(S1 & c & S2 & -> & H1 & H2)].
  2: { left. pose proof Hc2 as (q1 & HcS & (-> & Hcs & _))%chain_app. apply Forall_app in Hi2 as [HiS [Hic _]%Forall_cons].
    rewrite fmap_app in HfN. apply not_elem_of_app in HfN as [HfS _]. rewrite length_app in Hfuel. cbn [length] in Hfuel.
    replace fuel with (length S1 + S (fuel - length S1 - 1))%nat by lia.
    rewrite (loop_pass walk S1 _ c.1 f.1 _ nunits u HcS H1 HiS HfS), loop_fit by done.
    destruct S1 as [|x S1] using rev_ind; [by exists A, f, c, S2|]. rewrite lastAddr_snoc. exists (A ++ f :: S1), x, c, S2.
    split_and!; [by rewrite <- !app_assoc|done|done]. }
  replace fuel with (length N2 + (fuel - length N2))%nat by lia. rewrite (loop_pass walk N2 _ base f.1 _ nunits u Hc2 Hall2 Hi2 HfN).
  destruct (first_fit nunits (A ++ [f])) as [HallA|(S1 & c & S2 & ES & H1 & H2)].
  2: { left.
    assert (HS1 : S1 <> []).
    { intros ->. assert (Hc0 : c = (base, 0)); [|rewrite Hc0 in H2; cbn in H2; lia].
      destruct A as [|a A]; cbn in El, ES; [injection El as -> _; by injection ES as <- _|injection El as -> _; by injection ES as <- _]. }
    assert (Hf1 : freep u ∉ S1.*1 /\ (length S1 <= length A)%nat).
    { assert (Hpre : exists B, A = S1 ++ B).
      { destruct S2 as [|x S2' _] using rev_ind.
        - apply app_inj_tail in ES as [-> _]. exists []. by rewrite app_nil_r.
        - rewrite app_comm_cons, app_assoc in ES. apply app_inj_tail in ES as [-> _]. by exists (c :: S2'). }
      destruct Hpre as (B & ->). rewrite fmap_app in HfA. apply not_elem_of_app in HfA as [? _]. rewrite length_app. split; [done|lia]. }
    destruct Hf1 as [Hf1 Hlen1].
    assert (HcAf : chain (umem u) base (A ++ [f]) (load32 (umem u) f.1)) by (apply chain_app; exists f.1; by split).
    rewrite ES in HcAf. apply chain_app in HcAf as (q1 & HcS & (-> & Hcs & _)).
    assert (HiAf : Forall inside (A ++ [f])) by (apply Forall_app; split; [done|by constructor]). rewrite ES in HiAf. apply Forall_app in HiAf as [HiS [Hic _]%Forall_cons].
    replace (fuel - length N2)%nat with (length S1 + S (fuel - length N2 - length S1 - 1))%nat by lia.
    rewrite (loop_pass walk S1 _ c.1 _ _ nunits u HcS H1 HiS Hf1), loop_fit by done.
    destruct (exists_last HS1) as (S1' & x & ->). rewrite lastAddr_snoc. exists S1', x, c, (S2 ++ N2).
    split_and!; [|done|done]. change (A ++ f :: N2) with (A ++ [f] ++ N2). rewrite app_assoc, ES, <- !app_assoc. done. }
  right. apply Forall_app in HallA as [HallA [Hff _]%Forall_cons]. split; [apply Forall_app; split; [done|by constructor]|].
  remember (fuel - length N2 - length A - 1)%nat as fuel' eqn:Efuel. exists fuel'. split; [rewrite length_app; cbn; lia|].
  replace (fuel - length N2)%nat with (length A + S fuel')%nat by lia.
  rewrite (loop_pass walk A _ f.1 _ _ nunits u HcA HallA HiA HfA). unfold inside, endOf, extent in Hif. cbn [mallocLoop].
  rewrite bind_getSize, Hfs, Z.geb_leb, (proj2 (Z.leb_gt _ _)) by lia. rewrite bind_gets, Ef, Z.eqb_refl. rewrite bind_assoc. reflexivity.
Qed.

End HeapProofs.

(** * The heap of a program *)

Section Discipline.
Context {W : Type} `{Calls W} (base : Z) (breakOf : W -> Z).
Implicit Types u : UState W.

(** [sbrk] moves the end of the program and returns where it was, or refuses. *)
Definition sbrk_law : Prop := forall n w, 0 <= n -> exists w',
  (call_sbrk n w = (breakOf w, w') /\ breakOf w' = breakOf w + n /\ breakOf w' <= 2147483648) \/
  (call_sbrk n w = (-1, w') /\ breakOf w' = breakOf w).

Fixpoint allApart (l : list block) : Prop :=
  match l with
  | [] => True
  | b :: l => Forall (apart b) l /\ allApart l
  end.

(** [N]: the free blocks; [owned]: the blocks the program has. *)
Record heap_ok u (N owned : list block) : Prop := {
  heap_ring : ring_ok base (umem u) N;
  heap_freep : freep u ∈ N.*1;
  heap_owned : Forall (fun b => 1 <= b.2 /\ inside b /\ base < b.1 /\ load32 (umem u) (b.1 + 4) = b.2) owned;
  heap_apart : allApart owned;
  heap_free : Forall (fun b => Forall (apart b) N) owned;
  heap_break : Forall (fun b => endOf b <= breakOf (world u)) (N ++ owned)
}.

(** The bytes of the blocks in [l] are the same in both states. *)
Definition sameBytes (l : list block) (m m' : mem) : Prop := Forall (fun b => forall a, b.1 <= a < endOf b -> m' a = m a) l.

(** The units asked for: the bytes rounded up, and a header. *)
Definition unitsFor (nbytes : Z) : Z := (nbytes + 7) / 8 + 1.

Lemma owned_frame (l : list block) m m' : sameBytes l m m' ->
  Forall (fun b => 1 <= b.2 /\ inside b /\ base < b.1 /\ load32 m (b.1 + 4) = b.2) l ->
  Forall (fun b => 1 <= b.2 /\ inside b /\ base < b.1 /\ load32 m' (b.1 + 4) = b.2) l.
Proof.
  intros Hs Ho. apply Forall_forall. intros b Hb. unfold sameBytes in Hs. rewrite Forall_forall in Hs, Ho. specialize (Hs b Hb).
  destruct (Ho b Hb) as (H1 & H2 & H3 & H4). split_and!; try done. rewrite <- H4. unfold inside, endOf, extent in *.
  apply load32_same; [lia|lia|]. intros x Hx. apply Hs. lia.
Qed.

(** Blocks apart from the ring do not see its headers change. *)
Lemma sameBytes_ring l N m m' : Forall (fun b => Forall (apart b) N) l -> (forall a, Forall (fun c => ~ (c.1 <= a < endOf c)) N -> m' a = m a) -> sameBytes l m m'.
Proof.
  intros Ha Hm. apply Forall_forall. intros b Hb a Hin. apply Hm. rewrite Forall_forall in Ha. eapply Forall_impl; [by apply Ha|].
  unfold apart. intros c Hc. lia.
Qed.

Lemma cover_bound N m e : ring_ok base m N -> base + 8 <= e -> (forall a, covered N a -> a < e) -> Forall (fun b => endOf b <= e) N.
Proof.
  intros [_ _ Hi (l & -> & Hl)] Hb Hc. constructor; [unfold endOf, extent; cbn; lia|]. apply Forall_forall. intros b Hin.
  rewrite Forall_forall in Hl. specialize (Hl b Hin). assert (Ha : covered ((base, 0) :: l) (b.1 + 8 * b.2 - 1)).
  { apply Exists_cons. right. apply Exists_exists. exists b. split; [done|]. lia. }
  apply Hc in Ha. unfold endOf, extent. lia.
Qed.

Lemma covered_below N e a : Forall (fun b => endOf b <= e) N -> covered N a -> a < e.
Proof.
  intros Hb (b & Hin & Ha)%Exists_exists. rewrite Forall_forall in Hb. specialize (Hb b Hin). unfold endOf, extent in Hb. lia.
Qed.

Lemma base_below N m e : ring_ok base m N -> Forall (fun b => endOf b <= e) N -> base + 8 <= e.
Proof. intros [_ _ _ (l & -> & _)] [Hb _]%Forall_cons. done. Qed.

(** Handing out a block of a heap. *)
Lemma heap_carve u N owned A pr c Q nunits : heap_ok u N owned -> 0 < base -> N = A ++ pr :: c :: Q -> 1 <= nunits <= c.2 ->
  exists blk u' N', carve nunits pr.1 c.1 c.2 u = Ret (blk.1 + 8) u' /\ blk.2 = nunits /\ 0 < blk.1 /\
    heap_ok u' N' (blk :: owned) /\ sameBytes owned (umem u) (umem u') /\ world u' = world u /\ (length N' <= length N)%nat.
Proof.
  intros [Hring Hfp Hown Hap Hfree Hbrk] Hbase -> Hn. destruct (carve_spec base A pr c Q nunits u Hring Hbase Hn) as (N' & blk & m' & E & Hblk & Hh & Hin & Hlen & Hend).
  destruct Hh as (Hring' & Hib & Hbb & Hsz & Hapb & Hx & Hcov & Hm). exists blk, (mkUState m' pr.1 (world u)), N'.
  split; [done|]. split; [done|]. split; [lia|]. assert (Hsame : sameBytes owned (umem u) m') by (by eapply sameBytes_ring).
  assert (Hx' : Forall (fun b => apart b blk /\ Forall (apart b) N') owned).
  { apply Forall_forall. intros b Hb. rewrite Forall_forall in Hown, Hfree. destruct (Hown b Hb) as (? & _). apply Hx; [lia|by apply Hfree]. }
  apply Forall_app in Hbrk as [HbN Hbo]. pose proof HbN as [_ [_ [Hbc _]%Forall_cons]%Forall_cons]%Forall_app.
  split; [|done]. split; cbn; try done.
  - constructor; [split_and!; [lia|done|done|done]|]. by eapply owned_frame.
  - split; [|done]. eapply Forall_impl; [exact Hx'|]. intros b [Hb _]. by apply apart_sym.
  - constructor; [done|]. eapply Forall_impl; [exact Hx'|]. by intros b [_ ?].
  - apply Forall_app. split; [|constructor; [lia|done]].
    apply (cover_bound N' m'); [done|apply (base_below _ _ _ Hring HbN)|]. intros a Ha. apply (covered_below (A ++ pr :: c :: Q)); [done|]. apply Hcov. by left.
Qed.

(** Putting the block [b] into a heap, when the program's blocks [owned] are
    apart from it. *)
Lemma heap_release u N owned b fuel : heap_ok u N owned -> 0 < base -> 1 <= b.2 -> inside b -> base < b.1 -> load32 (umem u) (b.1 + 4) = b.2 ->
  Forall (apart b) N -> Forall (apart b) owned -> endOf b <= breakOf (world u) -> (length N <= fuel)%nat ->
  exists u' N', free fuel (b.1 + 8) u = Ret tt u' /\ heap_ok u' N' owned /\ sameBytes owned (umem u) (umem u') /\ world u' = world u /\
    Exists (fun c => b.2 <= c.2) N' /\ (length N' <= S (length N))%nat /\
    (forall a, covered N' a <-> covered N a \/ b.1 <= a < b.1 + 8 * b.2).
Proof.
  intros [Hring Hfp Hown Hap Hfree Hbrk] Hbase Hb Hib Hbb Hsz HapN Hapo Hend Hfuel.
  destruct (ufree_spec base N b u fuel Hring Hfp Hbase Hb Hib Hbb Hsz HapN Hfuel) as (N' & m' & f' & E & Hring' & Hf' & Hfit & Hx & Hcov & Hm & Hlen).
  exists (mkUState m' f' (world u)), N'. apply Forall_app in Hbrk as [HbN Hbo].
  assert (Hsame : sameBytes owned (umem u) m').
  { apply Forall_forall. intros x Hin a Ha. rewrite Forall_forall in Hfree, Hapo. specialize (Hfree x Hin). specialize (Hapo x Hin). apply Hm.
    - unfold apart, endOf, extent in *. lia.
    - rewrite Forall_forall in Hfree |- *. intros c Hc. specialize (Hfree c Hc). unfold apart, endOf, extent in *. lia. }
  split; [done|]. split; [|done]. split; cbn; try done.
  - by eapply owned_frame.
  - apply Forall_forall. intros x Hin. rewrite Forall_forall in Hown, Hfree, Hapo. destruct (Hown x Hin) as (? & _).
    apply Hx; [lia|by apply apart_sym, Hapo|by apply Hfree].
  - apply Forall_app. split; [|done]. apply (cover_bound N' m'); [done|apply (base_below _ _ _ Hring HbN)|].
    intros a Ha. apply Hcov in Ha as [Ha|Ha]; [by apply (covered_below N)|]. unfold endOf, extent in Hend. lia.
Qed.

Lemma heap_world u N owned w : heap_ok u N owned -> breakOf (world u) <= breakOf w -> heap_ok (set_world w u) N owned.
Proof.
  intros [? ? ? ? ? Hb] Hw. split; try done. eapply Forall_impl; [exact Hb|]. cbn. intros b Hb'. lia.
Qed.

(** A store above everything the heap knows. *)
Lemma heap_above u N owned m' : heap_ok u N owned -> (forall a, a < breakOf (world u) -> m' a = umem u a) -> heap_ok (set_umem m' u) N owned /\ sameBytes owned (umem u) m'.
Proof.
  intros [Hring Hfp Hown Hap Hfree Hbrk] Hm. apply Forall_app in Hbrk as [HbN Hbo].
  assert (Hsame : forall l, Forall (fun b => endOf b <= breakOf (world u)) l -> sameBytes l (umem u) m').
  { intros l Hl. eapply Forall_impl; [exact Hl|]. cbn. intros b Hb a Ha. apply Hm. lia. }
  split; [|by apply Hsame]. split; cbn; try done; [|by eapply owned_frame; [by apply Hsame|]|by apply Forall_app].
  destruct Hring as [Hc Hs Hi Hl]. split; [|done|done|done]. eapply chain_frame; [|exact Hc]. specialize (Hsame N HbN).
  apply Forall_forall. intros b Hb. unfold sameBytes in Hsame. rewrite Forall_forall in Hsame, Hi. specialize (Hsame b Hb). specialize (Hi b Hb).
  unfold inside, endOf, extent in *. split; apply load32_same; try lia; intros a Ha; apply Hsame; lia.
Qed.

Lemma morecore_spec u N owned nunits fuel : sbrk_law -> heap_ok u N owned -> 0 < base -> 1 <= nunits < 134217728 -> breakOf (world u) <= 2147483648 ->
  (length N <= fuel)%nat ->
  (exists w, morecore fuel nunits u = Ret 0 (set_world w u) /\ breakOf w = breakOf (world u)) \/
  (exists u' N', morecore fuel nunits u = Ret (freep u') u' /\ heap_ok u' N' owned /\ sameBytes owned (umem u) (umem u') /\
     Exists (fun c => nunits <= c.2) N' /\ (length N' <= S (length N))%nat /\ breakOf (world u') <= 2147483648).
Proof.
  intros Hlaw Hok Hbase Hn Hbr Hfuel. unfold morecore, HEADER. set (nu := if nunits <? 4096 then 4096 else nunits).
  assert (Hnu : nunits <= nu < 134217728 /\ 4096 <= nu) by (unfold nu; destruct (Z.ltb_spec nunits 4096); lia).
  rewrite (u32_small (nu * 8)), (i32_small (nu * 8)) by lia. pose proof (heap_break _ _ _ Hok) as [HbN Hbo]%Forall_app.
  pose proof (base_below _ _ _ (heap_ring _ _ _ Hok) HbN) as HbB.
  destruct (Hlaw (nu * 8) (world u) ltac:(lia)) as (w' & [(E & Ew & Hw)|(E & Ew)]).
  2: { left. exists w'. split; [|done]. unfold sbrk, outside_call, mbind, M_bind. by rewrite E. }
  right. set (p := breakOf (world u)) in *. set (b := (p, nu) : block). unfold sbrk, outside_call. unfold mbind at 1, M_bind at 1. rewrite E.
  rewrite (u32_small p), (proj2 (Z.eqb_neq p 4294967295)) by lia.
  assert (Hok1 : heap_ok (set_world w' u) N owned) by (apply heap_world; [done|fold p; lia]).
  set (m1 := store32 (umem u) (p + 4) nu). rewrite (bind_Ret _ _ _ _ _ (setSize_eq p nu _ ltac:(lia))). change (umem (set_world w' u)) with (umem u). fold m1.
  assert (Hok2 : heap_ok (set_umem m1 u) N owned /\ sameBytes owned (umem u) m1).
  { apply heap_above; [done|]. intros a Ha. fold p in Ha. unfold m1. by rewrite store32_out by lia. }
  destruct Hok2 as [Hok2 Hsame2]. apply (heap_world _ _ _ w') in Hok2; [|cbn; fold p; lia].
  assert (Hx : forall l, Forall (fun c => endOf c <= p) l -> Forall (apart b) l) by (intros l Hl; eapply Forall_impl; [exact Hl|]; intros c Hc; right; exact Hc).
  destruct (heap_release (set_world w' (set_umem m1 u)) N owned b fuel Hok2 Hbase) as (u' & N' & Ef & Hok' & Hsame & Ew' & Hfit & Hlen & _);
    [cbn; lia|unfold inside, endOf, extent, b; cbn; lia|cbn; lia|cbn; apply load32_store32; lia|by apply Hx|by apply Hx|unfold endOf, extent, b; cbn; lia|done|].
  rewrite padd_small by lia. rewrite (bind_Ret _ _ _ _ _ Ef). exists u', N'. split; [done|]. split; [done|]. split_and!; [| |done|by rewrite Ew'].
  - unfold sameBytes in *. apply Forall_forall. intros x Hin a Ha. rewrite Forall_forall in Hsame, Hsame2. rewrite (Hsame x Hin a Ha). by apply (Hsame2 x Hin).
  - eapply Exists_impl; [exact Hfit|]. cbn. intros c Hc. lia.
Qed.

(** ** Allocation *)

Lemma unitsFor_spec nbytes : 0 <= nbytes <= 1073741824 ->
  u32 (u32 (nbytes + HEADER - 1) / HEADER + 1) = unitsFor nbytes /\ 1 <= unitsFor nbytes < 134217730 /\ nbytes <= 8 * unitsFor nbytes - 8.
Proof.
  intros Hn. unfold unitsFor, HEADER. rewrite (u32_small (nbytes + 8 - 1)) by lia. replace (nbytes + 8 - 1) with (nbytes + 7) by lia.
  rewrite u32_small by zdiv. split_and!; [done|zdiv|zdiv|zdiv].
Qed.

Definition malloc_result u (nbytes : Z) (N owned : list block) (r : Z) (u' : UState W) : Prop :=
  (r = 0 /\ exists N', heap_ok u' N' owned /\ Forall (fun c => c.2 < unitsFor nbytes) N') \/
  (8 < r /\ exists N', heap_ok u' N' ((r - 8, unitsFor nbytes) :: owned)).

Lemma malloc_heap u N owned nbytes fuel : sbrk_law -> heap_ok u N owned -> 0 < base -> 0 <= nbytes <= 1000000000 -> breakOf (world u) <= 2147483648 ->
  (2 * length N + 4 <= fuel)%nat ->
  exists r u', malloc base fuel nbytes u = Ret r u' /\ malloc_result u nbytes N owned r u' /\ sameBytes owned (umem u) (umem u') /\ breakOf (world u') <= 2147483648.
Proof.
  intros Hlaw Hok Hbase Hn Hbr Hfuel. destruct (unitsFor_spec nbytes ltac:(lia)) as (Eu & Hu & Hu'). unfold malloc. rewrite Eu, bind_gets.
  assert (Hu2 : unitsFor nbytes < 134217728) by (unfold unitsFor; zdiv).
  assert (Hpos : forall v M' o, heap_ok v M' o -> 0 < freep v).
  { intros v M' o [Hr (c & -> & Hc)%list_elem_of_fmap _ _ _ _]. pose proof (ring_inside _ _ _ Hr) as Hi. rewrite Forall_forall in Hi. apply (Hi c Hc). }
  rewrite (proj2 (Z.eqb_neq _ 0)) by (specialize (Hpos u N owned Hok); lia). rewrite bind_mret, bind_getPtr.
  destruct (loop_round base fuel fuel (unitsFor nbytes) N u (heap_ring _ _ _ Hok) Hbase (heap_freep _ _ _ Hok) ltac:(lia) ltac:(lia)) as [(A & pr & c & Q & EN & Hfit & E)|(Hnone & fuel' & Hf' & E)].
  - destruct (heap_carve u N owned A pr c Q (unitsFor nbytes) Hok Hbase EN ltac:(lia)) as (blk & u' & N' & Ec & Hb2 & Hb1 & Hok' & Hsame & Ew & _).
    exists (blk.1 + 8), u'. rewrite E. split; [done|]. split; [|by rewrite Ew]. right. split; [lia|]. exists N'. replace (blk.1 + 8 - 8) with blk.1 by lia.
    rewrite <- Hb2. by destruct blk.
  - rewrite E. destruct (morecore_spec u N owned (unitsFor nbytes) fuel Hlaw Hok Hbase ltac:(lia) Hbr ltac:(lia)) as [(w & Em & Ew)|(u1 & N1 & Em & Hok1 & Hsame1 & Hfit1 & Hlen1 & Hbr1)];
      rewrite (bind_Ret _ _ _ _ _ Em).
    + exists 0, (set_world w u). split; [done|]. split; [|split; [by apply Forall_forall|cbn; lia]]. left. split; [done|]. exists N. split; [apply heap_world; [done|lia]|done].
    + rewrite (proj2 (Z.eqb_neq _ 0)) by (specialize (Hpos u1 N1 owned Hok1); lia). rewrite bind_getPtr.
      destruct (loop_round base fuel fuel' (unitsFor nbytes) N1 u1 (heap_ring _ _ _ Hok1) Hbase (heap_freep _ _ _ Hok1) ltac:(lia) ltac:(lia)) as [(A & pr & c & Q & EN & Hfit & E')|(Hnone' & _)].
      * destruct (heap_carve u1 N1 owned A pr c Q (unitsFor nbytes) Hok1 Hbase EN ltac:(lia)) as (blk & u' & N' & Ec & Hb2 & Hb1 & Hok' & Hsame & Ew & _).
        exists (blk.1 + 8), u'. rewrite E'. split; [done|]. split_and!; [|..].
        -- right. split; [lia|]. exists N'. replace (blk.1 + 8 - 8) with blk.1 by lia. rewrite <- Hb2. by destruct blk.
        -- unfold sameBytes in *. apply Forall_forall. intros x Hin a Ha. rewrite Forall_forall in Hsame, Hsame1. rewrite (Hsame x Hin a Ha). by apply (Hsame1 x Hin).
        -- by rewrite Ew.
      * exfalso. apply Exists_exists in Hfit1 as (c & Hin & Hc). rewrite Forall_forall in Hnone'. specialize (Hnone' c Hin). lia.
Qed.

(** The first call of [malloc] makes the ring of [base] alone. *)
Lemma malloc_first u nbytes : 0 < base -> base + 8 <= breakOf (world u) <= 2147483648 -> freep u = 0 ->
  exists u1, (forall fuel, malloc base fuel nbytes u = malloc base fuel nbytes u1) /\ heap_ok u1 [(base, 0)] [] /\ world u1 = world u.
Proof.
  intros Hbase Hbr Hf. set (m1 := store32 (store32 (umem u) base base) (base + 4) 0). exists (mkUState m1 base (world u)). split_and!; [| |done].
  - intros fuel. unfold malloc. rewrite !bind_gets, Hf. cbn [freep]. rewrite (proj2 (Z.eqb_neq base 0)) by lia. rewrite bind_mret. cbn [Z.eqb].
    unfold setPtr, setSize. rewrite !bind_assoc, bind_storeWord, !bind_assoc, bind_puts, !bind_assoc, bind_storeWord, bind_mret, padd_small by lia. done.
  - assert (E1 : load32 m1 base = base) by (unfold m1; rewrite load32_store32_other, load32_store32 by lia; done).
    assert (E2 : load32 m1 (base + 4) = 0) by (unfold m1; rewrite load32_store32 by lia; done).
    split; cbn; [|by left|constructor|done|constructor|constructor; [unfold endOf, extent; cbn; lia|constructor]].
    split; [by split_and!|by split_and!|constructor; [unfold inside, endOf, extent; cbn; lia|constructor]|by exists []].
Qed.

End Discipline.

(** ** More fuel does not change a result *)

Section Fuel.
Context {W : Type} `{Calls W} (base : Z).
Implicit Types u : UState W.

Lemma freeSearch_mono bp k : forall k' p u r u', freeSearch k bp p u = Ret r u' -> (k <= k')%nat -> freeSearch k' bp p u = Ret r u'.
Proof.
  induction k as [|k IH]; intros [|k'] p u r u' E Hk; try done; [lia|]. cbn [freeSearch] in *. rewrite bind_getPtr in *.
  destruct ((bp >? p) && _); [done|]. destruct ((p >=? _) && _); [done|]. apply IH; [done|lia].
Qed.

Lemma free_mono k k' ap u r u' : free k ap u = Ret r u' -> (k <= k')%nat -> free k' ap u = Ret r u'.
Proof.
  unfold free. rewrite !bind_gets. intros (p & u1 & E1 & E2)%bind_Ret_inv Hk. by rewrite (bind_Ret _ _ _ _ _ (freeSearch_mono _ _ _ _ _ _ _ E1 Hk)).
Qed.

Lemma morecore_mono k k' nu u r u' : morecore k nu u = Ret r u' -> (k <= k')%nat -> morecore k' nu u = Ret r u'.
Proof.
  unfold morecore. intros (p & u1 & E1 & E2)%bind_Ret_inv Hk. rewrite (bind_Ret _ _ _ _ _ E1). cbv zeta in *. destruct (u32 p =? 4294967295); [done|].
  apply bind_Ret_inv in E2 as (x & u2 & E2 & E3). rewrite (bind_Ret _ _ _ _ _ E2). apply bind_Ret_inv in E3 as (y & u3 & E3 & E4).
  by rewrite (bind_Ret _ _ _ _ _ (free_mono _ _ _ _ _ _ E3 Hk)).
Qed.

Lemma mallocLoop_mono walk walk' nunits k : forall k' prevp p u r u', mallocLoop walk k nunits prevp p u = Ret r u' -> (k <= k')%nat -> (walk <= walk')%nat ->
  mallocLoop walk' k' nunits prevp p u = Ret r u'.
Proof.
  induction k as [|k IH]; intros [|k'] prevp p u r u' E Hk Hw; try done; [lia|]. cbn [mallocLoop] in *.
  apply bind_Ret_inv in E as (size & u1 & E1 & E2). rewrite (bind_Ret _ _ _ _ _ E1). destruct (size >=? nunits); [done|].
  rewrite bind_gets in *. apply bind_Ret_inv in E2 as (q & u2 & E2 & E3).
  assert (E2' : (if p =? freep u1 then r0 ← morecore walk' nunits; mret (if r0 =? 0 then None else Some r0) else mret (Some p)) u1 = Ret q u2).
  { destruct (p =? freep u1); [|done]. apply bind_Ret_inv in E2 as (r0 & u3 & E2 & E4). by rewrite (bind_Ret _ _ _ _ _ (morecore_mono _ _ _ _ _ _ E2 Hw)). }
  rewrite (bind_Ret _ _ _ _ _ E2'). destruct q as [q|]; [|done]. rewrite bind_getPtr in *. apply (IH k'); [done|lia|done].
Qed.

Lemma malloc_mono k k' nbytes u r u' : malloc base k nbytes u = Ret r u' -> (k <= k')%nat -> malloc base k' nbytes u = Ret r u'.
Proof.
  unfold malloc. rewrite !bind_gets. intros (p & u1 & E1 & E2)%bind_Ret_inv Hk. rewrite (bind_Ret _ _ _ _ _ E1), bind_getPtr in *.
  by eapply mallocLoop_mono.
Qed.

End Fuel.

(** * A program and its heap *)

(** What a program does with its heap: it asks for blocks, returns blocks it
    has, and writes behind the headers of blocks it has. *)
Inductive heap_step {W} `{Calls W} (base : Z) : UState W * list block -> UState W * list block -> Prop :=
| step_malloc fuel nbytes u r u' owned : 0 <= nbytes <= 1000000000 -> malloc base fuel nbytes u = Ret r u' ->
    heap_step base (u, owned) (u', if r =? 0 then owned else (r - 8, unitsFor nbytes) :: owned)
| step_free fuel u u' l b k : free fuel (b.1 + 8) u = Ret tt u' -> heap_step base (u, l ++ b :: k) (u', l ++ k)
| step_write u owned b a v : b ∈ owned -> b.1 + 8 <= a < endOf b -> heap_step base (u, owned) (set_umem (upd (umem u) a v) u, owned).

Section Program.
Context {W : Type} `{Calls W} (base : Z) (breakOf : W -> Z).

(** Before the first [malloc], or with a ring. *)
Definition heap_inv (c : UState W * list block) : Prop :=
  breakOf (world c.1) <= 2147483648 /\
  ((freep c.1 = 0 /\ c.2 = [] /\ base + 8 <= breakOf (world c.1)) \/ exists N, heap_ok base breakOf c.1 N c.2).

Lemma allApart_middle l b k : allApart (l ++ b :: k) -> allApart (l ++ k) /\ Forall (apart b) (l ++ k).
Proof.
  induction l as [|x l IH]; cbn [app allApart]; [tauto|]. intros [Hx Hl]. destruct (IH Hl) as [H1 H2]. apply Forall_app in Hx as [Hx1 [Hx2 Hx3]%Forall_cons].
  split; [split; [by apply Forall_app|done]|]. constructor; [by apply apart_sym|done].
Qed.

Lemma malloc_inv c nbytes : sbrk_law breakOf -> 0 < base -> heap_inv c -> 0 <= nbytes <= 1000000000 ->
  exists fuel r u', (malloc base fuel nbytes c.1 = Ret r u') /\ heap_inv (u', if r =? 0 then c.2 else (r - 8, unitsFor nbytes) :: c.2) /\
    sameBytes c.2 (umem c.1) (umem u').
Proof.
  destruct c as [u owned]. cbn [fst snd]. intros Hlaw Hbase [Hbr Hinv] Hn. cbn [fst snd] in *.
  assert (Hmain : forall v N, heap_ok base breakOf v N owned -> breakOf (world v) <= 2147483648 ->
    exists fuel r u', malloc base fuel nbytes v = Ret r u' /\ heap_inv (u', if r =? 0 then owned else (r - 8, unitsFor nbytes) :: owned) /\ sameBytes owned (umem v) (umem u')).
  { intros v N Hok Hv. destruct (malloc_heap base breakOf v N owned nbytes (2 * length N + 4) Hlaw Hok Hbase Hn Hv ltac:(lia)) as (r & u' & E & Hr & Hs & Hbr').
    exists (2 * length N + 4)%nat, r, u'. split; [done|]. split; [|done]. split; [done|]. right.
    destruct Hr as [(-> & N' & Hok' & _)|(Hr & N' & Hok')]; [by exists N'|]. rewrite (proj2 (Z.eqb_neq r 0)) by lia. by exists N'. }
  destruct Hinv as [(Hf & -> & Hb)|(N & Hok)]; [|by eapply Hmain].
  destruct (malloc_first base breakOf u nbytes Hbase ltac:(lia) Hf) as (u1 & E1 & Hok1 & Ew).
  destruct (Hmain u1 _ Hok1 ltac:(by rewrite Ew)) as (fuel & r & u' & E & Hi & _). exists fuel, r, u'. rewrite E1. split; [done|]. split; [done|constructor].
Qed.

Lemma free_inv u l b k : 0 < base -> heap_inv (u, l ++ b :: k) ->
  exists fuel u', free fuel (b.1 + 8) u = Ret tt u' /\ heap_inv (u', l ++ k) /\ sameBytes (l ++ k) (umem u) (umem u').
Proof.
  intros Hbase [Hbr [(_ & E & _)|(N & [Hring Hfp Hown Hap Hfree Hbrk])]]; cbn [fst snd] in *; [by destruct l|].
  destruct (allApart_middle l b k Hap) as [Hap1 Hap2]. pose proof Hown as [Hown1 [(Hb1 & Hb2 & Hb3 & Hb4) Hown2]%Forall_cons]%Forall_app.
  pose proof Hfree as [Hfree1 [Hfreeb Hfree2]%Forall_cons]%Forall_app. pose proof Hbrk as [HbN [Hbl [Hbb Hbk]%Forall_cons]%Forall_app]%Forall_app.
  assert (Hok : heap_ok base breakOf u N (l ++ k)) by (split; [done|done|by apply Forall_app|done|by apply Forall_app|apply Forall_app; split; [done|by apply Forall_app]]).
  destruct (heap_release base breakOf u N (l ++ k) b (length N) Hok Hbase Hb1 Hb2 Hb3 Hb4 Hfreeb Hap2 Hbb ltac:(lia)) as (u' & N' & E & Hok' & Hs & Ew & _).
  exists (length N), u'. split; [done|]. split; [|done]. split; [cbn; by rewrite Ew|]. right. by exists N'.
Qed.

Lemma write_inv u owned b a v : heap_inv (u, owned) -> b ∈ owned -> b.1 + 8 <= a < endOf b -> heap_inv (set_umem (upd (umem u) a v) u, owned).
Proof.
  intros [Hbr Hi] Hb Ha. split; [done|]. destruct Hi as [(_ & E & _)|(N & [Hring Hfp Hown Hap Hfree Hbrk])]; cbn [fst snd] in *; [subst; by apply not_elem_of_nil in Hb|].
  right. exists N. assert (Hother : forall c, apart b c \/ c = b -> inside c -> load32 (upd (umem u) a v) c.1 = load32 (umem u) c.1 /\
    load32 (upd (umem u) a v) (c.1 + 4) = load32 (umem u) (c.1 + 4)).
  { intros c Hc Hi. unfold inside, endOf, extent in Hi. assert (~ (c.1 <= a < c.1 + 8)) by (destruct Hc as [Hc| ->]; [unfold apart, endOf, extent in *|]; lia).
    split; apply load32_same; try lia; intros x Hx; apply upd_ne; lia. }
  split; cbn; try done.
  - destruct Hring as [Hc Hs Hi Hl]. split; [|done|done|done]. eapply chain_frame; [|exact Hc]. apply Forall_forall. intros c Hin. rewrite Forall_forall in Hfree, Hi.
    apply Hother; [left|by apply Hi]. specialize (Hfree b Hb). rewrite Forall_forall in Hfree. by apply Hfree.
  - apply Forall_forall. intros c Hin. rewrite Forall_forall in Hown. destruct (Hown c Hin) as (H1 & H2 & H3 & H4). split_and!; try done.
    rewrite <- H4. apply Hother; [|done]. apply list_elem_of_split in Hb as (l & k & ->). destruct (allApart_middle l b k Hap) as [_ Hm].
    apply elem_of_app in Hin as [Hin|[->|Hin]%elem_of_cons]; [left|by right|left]; rewrite Forall_forall in Hm; apply Hm; apply elem_of_app; tauto.
Qed.

End Program.


Lemma terminal_sbrk : sbrk_law brk.
Proof.
  intros n t Hn. cbn. destruct (Z.leb_spec (brk t + n) 2147483648); eexists; [left|right]; (split; [reflexivity|]); cbn; [lia|done].
Qed.


(** The size wraps around for requests near the end of the address space: the
    block handed out for 4294967295 bytes has no room at all. *)
Example malloc_wraps : u32 (u32 (4294967295 + HEADER - 1) / HEADER + 1) = 1.
Proof. reflexivity. Qed.
