(* ===== verification/Shell.v ===== *)
(** sh.c, the parser of the shell.

    The line is an array of bytes [buf] that ends with a NUL at index [es];
    pointers into it are indices, and [*ps], the position of the parser, is the
    state of the computations.  [panic] prints its message and exits; here it
    is the outcome [Panic].

    The commands are trees with the constructors of sh.c.  A word is the pair
    of pointers to its first character and behind its last one.  In
    [parseexec] the pointer [cmd] reaches the same structure as [ret], below
    the redirections that were put around it; the model collects these
    redirections in a list and puts them around the command when the function
    returns.  [malloc] (Umalloc) is taken to succeed.

    The specification is a grammar over tokens: [lexes] says which tokens a
    line consists of, [tokens] prints an abstract command as tokens, [denote]
    gives the tree it stands for. *)

From S2P Require Import Prelude Types.

(** * Commands *)

Definition MAXARGS : Z := 10.

(** A pair of pointers. *)
Notation range := (nat * nat)%type.

Inductive cmd : Type :=
| EXEC (argv : list range)
| REDIR (c : cmd) (file : range) (mode fd : Z)
| PIPE (left right : cmd)
| LIST (left right : cmd)
| BACK (c : cmd).

Definition execcmd : cmd := EXEC [].
Definition redircmd (subcmd : cmd) (file : range) (mode fd : Z) : cmd := REDIR subcmd file mode fd.
Definition pipecmd (left right : cmd) : cmd := PIPE left right.
Definition listcmd (left right : cmd) : cmd := LIST left right.
Definition backcmd (subcmd : cmd) : cmd := BACK subcmd.

(** " \t\r\n\v" and "<|>&;()" *)
Definition whitespace : list Z := [32; 9; 13; 10; 11].
Definition symbols : list Z := [60; 124; 62; 38; 59; 40; 41].

Definition isSpace (c : Z) : bool := bool_decide (c ∈ whitespace).
Definition isSymbol (c : Z) : bool := bool_decide (c ∈ symbols).

(** The redirections around a command, the innermost first. *)
Definition wrap (redirs : list (range * Z * Z)) (c : cmd) : cmd :=
  foldl (fun c '(file, mode, fd) => redircmd c file mode fd) c redirs.

Section Parser.
Context (buf : list Z) (es : nat).
Notation P := (M nat).

(** [*s] *)
Definition charAt (s : nat) : Z := nth s buf 0.

(** The loops over white space and over the characters of a word. *)
Fixpoint skipSpace (n s : nat) : nat :=
  match n with
  | O => s
  | S n => if (s <? es)%nat && isSpace (charAt s) then skipSpace n (S s) else s
  end.

Fixpoint skipWord (n s : nat) : nat :=
  match n with
  | O => s
  | S n => if (s <? es)%nat && negb (isSpace (charAt s)) && negb (isSymbol (charAt s)) then skipWord n (S s) else s
  end.

(** The token and what is stored at [q] and [eq]. *)
Definition gettoken : P (Z * nat * nat) :=
  s ← gets id;
  let s := skipSpace es s in
  let q := s in
  let c := charAt s in
  let '(ret, s) :=
    if c =? 0 then (c, s)
    else if bool_decide (c ∈ [124; 40; 41; 59; 38; 60]) then (c, S s)
    else if c =? 62 then (if charAt (S s) =? 62 then (43, S (S s)) else (c, S s))
    else (97, skipWord es s) in
  let eq := s in
  puts (fun _ => skipSpace es s);;
  mret (ret, q, eq).

Definition peek (toks : list Z) : P bool :=
  s ← gets id;
  let s := skipSpace es s in
  puts (fun _ => s);;
  mret (negb (charAt s =? 0) && bool_decide (charAt s ∈ toks)).

(** The redirections that follow, added to [rs]. *)
Fixpoint parseredirs (n : nat) (rs : list (range * Z * Z)) : P (list (range * Z * Z)) :=
  b ← peek [60; 62];
  if negb b then mret rs
  else match n with
  | O => spin
  | S n =>
      '(tok, _, _) ← gettoken;
      '(t, q, eq) ← gettoken;
      if negb (t =? 97) then panic "missing File for redirection"
      else parseredirs n
        (if tok =? 60 then rs ++ [((q, eq), O_RDONLY, 0)]
         else if tok =? 62 then rs ++ [((q, eq), Z.lor O_WRONLY O_CREATE, 1)]
         else if tok =? 43 then rs ++ [((q, eq), Z.lor O_WRONLY O_CREATE, 1)]
         else rs)
  end.

(** The loop over the arguments of [parseexec]. *)
Fixpoint parseargs (n : nat) (argv : list range) (rs : list (range * Z * Z)) : P cmd :=
  b ← peek [124; 41; 38; 59];
  if (b : bool) then mret (wrap rs (EXEC argv))
  else match n with
  | O => spin
  | S n =>
      '(tok, q, eq) ← gettoken;
      if tok =? 0 then mret (wrap rs (EXEC argv))
      else if negb (tok =? 97) then panic "syntax"
      else
        let argv := argv ++ [(q, eq)] in
        if Z.of_nat (length argv) >=? MAXARGS then panic "too many args"
        else rs ← parseredirs (S es) rs; parseargs n argv rs
  end.

(** The loop over & in [parseline]. *)
Fixpoint parsebacks (n : nat) (c : cmd) : P cmd :=
  b ← peek [38];
  if negb b then mret c
  else match n with
  | O => spin
  | S n => gettoken;; parsebacks n (backcmd c)
  end.

(** [fuel] bounds the depth of the recursion. *)
Fixpoint parseline (fuel : nat) : P cmd :=
  match fuel with
  | O => spin
  | S fuel =>
      c ← parsepipe fuel;
      c ← parsebacks (S es) c;
      b ← peek [59];
      if (b : bool) then gettoken;; r ← parseline fuel; mret (listcmd c r)
      else mret c
  end
with parsepipe (fuel : nat) : P cmd :=
  match fuel with
  | O => spin
  | S fuel =>
      c ← parseexec fuel;
      b ← peek [124];
      if (b : bool) then gettoken;; r ← parsepipe fuel; mret (pipecmd c r)
      else mret c
  end
with parseexec (fuel : nat) : P cmd :=
  match fuel with
  | O => spin
  | S fuel =>
      b ← peek [40];
      if (b : bool) then parseblock fuel
      else
        rs ← parseredirs (S es) [];
        parseargs (S es) [] rs
  end
with parseblock (fuel : nat) : P cmd :=
  match fuel with
  | O => spin
  | S fuel =>
      b ← peek [40];
      if negb b then panic "parseblock"
      else
        gettoken;;
        c ← parseline fuel;
        b ← peek [41];
        if negb b then panic "syntax - missing )"
        else
          gettoken;;
          rs ← parseredirs (S es) [];
          mret (wrap rs c)
  end.

(** How deep the recursion goes: of four levels one consumes a character. *)
Definition parseFuel : nat := 4 * es + 4.

End Parser.

(** NUL-terminating the words of a command. *)
Fixpoint nulterminate (c : cmd) (buf : list Z) : list Z :=
  match c with
  | EXEC argv => foldl (fun b '(_, eq) => <[eq := 0]> b) buf argv
  | REDIR c (_, efile) _ _ => <[efile := 0]> (nulterminate c buf)
  | PIPE l r | LIST l r => nulterminate r (nulterminate l buf)
  | BACK c => nulterminate c buf
  end.

(** [strlen(s)], the index of the NUL. *)
Fixpoint lineLength (buf : list Z) : nat :=
  match buf with
  | [] => O
  | c :: buf => if c =? 0 then O else S (lineLength buf)
  end.

(** The C string that starts here. *)
Definition cstring (buf : list Z) : list Z := take (lineLength buf) buf.

(** The tree and the line with its words terminated. *)
Definition parsecmd (buf : list Z) : M nat (cmd * list Z) :=
  let es := lineLength buf in
  c ← parseline buf es (parseFuel es);
  peek buf es [];;
  s ← gets id;
  if negb (s =? es)%nat then panic "syntax"
  else mret (c, nulterminate c buf).

(** echo a b > f | cat & *)
Example parse_echo :
  parsecmd [101; 32; 97; 32; 62; 32; 102; 32; 124; 99; 38; 10; 0] 0%nat =
    Ret (BACK (PIPE (REDIR (EXEC [(0, 1); (2, 3)]) (6, 7) 513 1) (EXEC [(9, 10)]))%nat,
         [101; 0; 97; 0; 62; 32; 102; 0; 124; 99; 0; 10; 0]) 12%nat.
Proof. vm_compute. reflexivity. Qed.

(** * Tokens *)

Inductive tok : Type := Sym (c : Z) | Append | Word (w : list Z).

Definition text (t : tok) : list Z :=
  match t with
  | Sym c => [c]
  | Append => [62; 62]
  | Word w => w
  end.

(** The value of [gettoken]. *)
Definition code (t : tok) : Z :=
  match t with
  | Sym c => c
  | Append => 43
  | Word _ => 97
  end.

Definition wordChar (c : Z) : Prop := c <> 0 /\ isSpace c = false /\ isSymbol c = false.

Definition tokOk (t : tok) : Prop :=
  match t with
  | Sym c => c ∈ symbols
  | Append => True
  | Word w => w <> [] /\ Forall wordChar w
  end.

(** What may follow a token without being taken as a part of it. *)
Definition bounded (t : tok) (r : list Z) : Prop :=
  match t, r with
  | Word _, c :: _ => isSpace c = true \/ isSymbol c = true
  | Sym s, c :: _ => s = 62 -> c <> 62
  | _, _ => True
  end.

(** The tokens of a text, with any white space between them. *)
Inductive lexes : list Z -> list tok -> Prop :=
| lex_end bl : Forall (fun c => isSpace c = true) bl -> lexes bl []
| lex_tok bl t r ts : Forall (fun c => isSpace c = true) bl -> tokOk t -> bounded t r -> lexes r ts -> lexes (bl ++ text t ++ r) (t :: ts).

(** * The grammar *)

Inductive direction : Type := Input | Output | OutputEnd.

Notation redirection := (direction * list Z)%type.

(** A simple command: redirections, then words, each with the redirections
    that follow it. *)
Inductive sh : Type :=
| Simple (rs : list redirection) (ws : list (list Z * list redirection))
| Block (l : sh) (rs : list redirection)
| Pipe (e p : sh)
| Back (b : sh)
| Seq (b l : sh).

Definition redirTok (d : direction) : tok := match d with Input => Sym 60 | Output => Sym 62 | OutputEnd => Append end.

Definition redirTokens (r : redirection) : list tok := [redirTok r.1; Word r.2].

Definition redirsTokens (rs : list redirection) : list tok := concat (map redirTokens rs).

Definition wordsTokens (ws : list (list Z * list redirection)) : list tok :=
  concat (map (fun w => Word w.1 :: redirsTokens w.2) ws).

Fixpoint tokens (s : sh) : list tok :=
  match s with
  | Simple rs ws => redirsTokens rs ++ wordsTokens ws
  | Block l rs => Sym 40 :: tokens l ++ Sym 41 :: redirsTokens rs
  | Pipe e p => tokens e ++ Sym 124 :: tokens p
  | Back b => tokens b ++ [Sym 38]
  | Seq b l => tokens b ++ Sym 59 :: tokens l
  end.

(** The levels of the grammar: 0 for an element of a pipeline, 1 for a
    pipeline, 2 for one followed by any number of &, 3 for a line. *)
Inductive wf : nat -> sh -> Prop :=
| wf_simple rs ws : Z.of_nat (length ws) < MAXARGS -> wf 0 (Simple rs ws)
| wf_block l rs : wf 3 l -> wf 0 (Block l rs)
| wf_pipe e p : wf 0 e -> wf 1 p -> wf 1 (Pipe e p)
| wf_back b : wf 2 b -> wf 2 (Back b)
| wf_seq b l : wf 2 b -> wf 3 l -> wf 3 (Seq b l)
| wf_up k s : (k < 3)%nat -> wf k s -> wf (S k) s.

(** The tree of a command, with the words themselves. *)
Inductive scmd : Type :=
| SEXEC (argv : list (list Z))
| SREDIR (c : scmd) (file : list Z) (mode fd : Z)
| SPIPE (left right : scmd)
| SLIST (left right : scmd)
| SBACK (c : scmd).

Definition modeOf (d : direction) : Z := match d with Input => O_RDONLY | _ => Z.lor O_WRONLY O_CREATE end.
Definition fdOf (d : direction) : Z := match d with Input => 0 | _ => 1 end.

Definition swrap (rs : list redirection) (c : scmd) : scmd := foldl (fun c r => SREDIR c r.2 (modeOf r.1) (fdOf r.1)) c rs.

Fixpoint denote (s : sh) : scmd :=
  match s with
  | Simple rs ws => swrap (rs ++ concat (map snd ws)) (SEXEC (map fst ws))
  | Block l rs => swrap rs (denote l)
  | Pipe e p => SPIPE (denote e) (denote p)
  | Back b => SBACK (denote b)
  | Seq b l => SLIST (denote b) (denote l)
  end.

(** * Reading tokens *)

Section Lexing.
Context (l tl : list Z).
Notation buf := (l ++ 0 :: tl).
Notation es := (length l).

(** The word that a pair of pointers delimits. *)
Definition word (r : range) : list Z := take (r.2 - r.1) (drop r.1 l).

(** A word of the line, with a character behind it that is not part of one. *)
Definition proper (r : range) : Prop :=
  (r.1 < r.2 <= es)%nat /\ Forall wordChar (word r) /\ (forall c, l !! r.2 = Some c -> ~ wordChar c).

Fixpoint dropSpace (s : list Z) : list Z :=
  match s with
  | c :: s' => if isSpace c then dropSpace s' else s
  | [] => []
  end.

Lemma charAt_lt p c s : drop p l = c :: s -> charAt buf p = c.
Proof.
  intros E. unfold charAt. assert (H : l !! p = Some c) by (rewrite <- (Nat.add_0_r p), <- lookup_drop, E; done).
  rewrite nth_lookup, lookup_app_l by (by eapply lookup_lt_Some). by rewrite H.
Qed.

Lemma charAt_end p : drop p l = [] -> (p <= es)%nat -> p = es /\ charAt buf p = 0.
Proof.
  intros E Hp. assert (p = es) as ->. { apply (f_equal length) in E. rewrite length_drop in E. cbn in E. lia. }
  split; [done|]. unfold charAt. by rewrite nth_lookup, lookup_app_r, Nat.sub_diag by lia.
Qed.

Lemma drop_next p c s : drop p l = c :: s -> drop (S p) l = s /\ (p < es)%nat.
Proof.
  intros E. split; [by rewrite <- Nat.add_1_r, <- drop_drop, E|]. apply (f_equal length) in E. rewrite length_drop in E. cbn in E. lia.
Qed.

Lemma skipSpace_spec n : forall p, (p <= es)%nat -> (es - p <= n)%nat ->
  (p <= skipSpace buf es n p <= es)%nat /\ drop (skipSpace buf es n p) l = dropSpace (drop p l).
Proof.
  induction n as [|n IH]; intros p Hp Hn; cbn [skipSpace].
  - assert (p = es) as -> by lia. rewrite drop_all. split; [lia|done].
  - destruct (drop p l) as [|c s] eqn:E.
    + destruct (charAt_end p E Hp) as [-> _]. rewrite (proj2 (Nat.ltb_ge _ _)) by lia. cbn. by rewrite drop_all.
    + destruct (drop_next p c s E) as [E' Hlt]. rewrite (proj2 (Nat.ltb_lt _ _)), (charAt_lt p c s E) by lia. cbn [andb dropSpace].
      destruct (isSpace c); [|by rewrite E]. destruct (IH (S p)) as [H1 H2]; [lia|lia|]. rewrite H2, E'. split; [lia|done].
Qed.

(** The characters of a word from [p] on. *)
Lemma skipWord_spec n : forall p w r, drop p l = w ++ r -> Forall wordChar w -> (length w <= n)%nat ->
  match r with [] => True | c :: _ => isSpace c = true \/ isSymbol c = true end -> skipWord buf es n p = (p + length w)%nat.
Proof.
  assert (Hstop : forall n p r, drop p l = r -> match r with [] => True | c :: _ => isSpace c = true \/ isSymbol c = true end ->
    (p <= es)%nat -> skipWord buf es n p = p).
  { intros [|n'] p r E Hr Hp; [done|]. cbn [skipWord]. destruct r as [|c r].
    - destruct (charAt_end p E Hp) as [-> _]. by rewrite (proj2 (Nat.ltb_ge _ _)) by lia.
    - rewrite (charAt_lt p c r E). destruct Hr as [-> | ->]; cbn [negb andb]; by rewrite ?andb_false_r. }
  induction n as [|n IH]; intros p w r E Hw Hn Hr.
  - destruct w; [|cbn in Hn; lia]. cbn. lia.
  - destruct w as [|c w].
    + cbn [length app] in *. rewrite Nat.add_0_r. destruct (decide (p <= es)%nat); [by eapply Hstop|].
      cbn [skipWord]. by rewrite (proj2 (Nat.ltb_ge _ _)) by lia.
    + cbn [app length] in *. destruct (drop_next p c (w ++ r) E) as [E' Hlt]. apply Forall_cons in Hw as [(Hc0 & Hc1 & Hc2) Hw]. cbn [skipWord].
      rewrite (proj2 (Nat.ltb_lt _ _)), (charAt_lt p c (w ++ r) E), Hc1, Hc2 by lia. cbn [negb andb]. rewrite (IH (S p) w r); [lia|done|done|lia|done].
Qed.

Lemma dropSpace_lead bl s : Forall (fun c => isSpace c = true) bl -> dropSpace (bl ++ s) = dropSpace s.
Proof. induction 1 as [|c bl Hc _ IH]; [done|]. cbn. by rewrite Hc. Qed.

Lemma symbol_not_space c : c ∈ symbols -> isSpace c = false /\ c <> 0.
Proof.
  intros Hc. unfold symbols in Hc. repeat (apply elem_of_cons in Hc as [->|Hc]; [done|]). by apply not_elem_of_nil in Hc.
Qed.

Lemma text_head t : tokOk t -> exists c s, text t = c :: s /\ isSpace c = false /\ c <> 0.
Proof.
  destruct t as [c| |w]; cbn.
  - intros Hc. destruct (symbol_not_space c Hc). by exists c, [].
  - intros _. by exists 62, [62].
  - intros [Hne Hw]. destruct w as [|c w]; [done|]. apply Forall_cons in Hw as [(? & ? & _) _]. by exists c, w.
Qed.

Lemma dropSpace_token t r : tokOk t -> dropSpace (text t ++ r) = text t ++ r.
Proof. intros Ht. destruct (text_head t Ht) as (c & s & -> & Hc & _). cbn. by rewrite Hc. Qed.

Lemma lexes_dropSpace s ts : lexes s ts -> lexes (dropSpace s) ts.
Proof.
  destruct 1 as [bl Hbl|bl t r ts Hbl Ht Hb Hl].
  - rewrite <- (app_nil_r bl), dropSpace_lead by done. by apply lex_end.
  - rewrite dropSpace_lead, dropSpace_token by done. by apply (lex_tok []).
Qed.

Lemma lexes_length s ts : lexes s ts -> (length ts <= length s)%nat.
Proof.
  induction 1 as [|bl t r ts Hbl Ht Hb Hl IH]; cbn; [lia|]. destruct (text_head t Ht) as (c & s & -> & _). rewrite !length_app. cbn. lia.
Qed.

(** [first ts cs]: the next token starts with one of the characters [cs]. *)
Definition first (ts : list tok) (cs : list Z) : bool :=
  match ts with
  | [] => false
  | t :: _ => match text t with c :: _ => bool_decide (c ∈ cs) | [] => false end
  end.

(** At [p] the rest of the line consists of [ts]. *)
Definition ahead (p : nat) (ts : list tok) : Prop := (p <= es)%nat /\ lexes (drop p l) ts.

Lemma peek_spec p ts cs : ahead p ts -> exists p', peek buf es cs p = Ret (first ts cs) p' /\ ahead p' ts /\ drop p' l = dropSpace (drop p l).
Proof.
  intros [Hp Hl]. destruct (skipSpace_spec es p Hp ltac:(lia)) as [Hp' E']. exists (skipSpace buf es es p).
  pose proof (lexes_dropSpace _ _ Hl) as Hl'. rewrite <- E' in Hl'. split_and!; [|split; [lia|done]|done].
  unfold peek. rewrite bind_gets, bind_puts. unfold mret, M_ret, id. f_equal. set (p' := skipSpace buf es es p) in *.
  destruct Hl as [bl Hbl|bl t r ts Hbl Ht Hb Hl].
  - rewrite <- (app_nil_r bl), dropSpace_lead in E' by done. cbn in E'. destruct (charAt_end p' E' ltac:(lia)) as [_ ->]. done.
  - rewrite dropSpace_lead, dropSpace_token in E' by done. destruct (text_head t Ht) as (c & s & Et & _ & Hc). cbn. rewrite Et in *. cbn in E'.
    rewrite (charAt_lt p' c _ E'). by rewrite (proj2 (Z.eqb_neq _ _) Hc).
Qed.

(** Taking the next token. *)
Lemma gettoken_spec p t ts : ahead p (t :: ts) -> exists q eq p', gettoken buf es p = Ret (code t, q, eq) p' /\ ahead p' ts /\
  (forall w, t = Word w -> proper (q, eq) /\ word (q, eq) = w).
Proof.
  intros [Hp Hl]. inversion Hl as [|bl t' r ts' Hbl Ht Hb Hl' El]; subst. destruct (skipSpace_spec es p Hp ltac:(lia)) as [Hq Eq].
  rewrite <- El, dropSpace_lead, dropSpace_token in Eq by done. set (q := skipSpace buf es es p) in *.
  assert (Hrest : forall s1, drop s1 l = r -> (s1 <= es)%nat -> ahead (skipSpace buf es es s1) ts).
  { intros s1 E1 Hs1. destruct (skipSpace_spec es s1 Hs1 ltac:(lia)) as [H1 H2]. split; [lia|]. rewrite H2, E1. by apply lexes_dropSpace. }
  assert (Hlen : (q + length (text t) <= es)%nat).
  { apply (f_equal length) in Eq. rewrite length_drop, length_app in Eq. lia. }
  assert (Hdrop : drop (q + length (text t)) l = r) by (by rewrite <- drop_drop, Eq, drop_app_length).
  unfold gettoken. rewrite bind_gets. unfold id. fold q. cbv zeta.
  destruct t as [c| |w]; cbn [text code length app] in *.
  - rewrite Nat.add_1_r in *. rewrite (charAt_lt q c r Eq). cbn in Ht. destruct (symbol_not_space c Ht) as [_ Hc0]. rewrite (proj2 (Z.eqb_neq _ _) Hc0).
    assert (Hcase : c = 62 \/ c ∈ [124; 40; 41; 59; 38; 60]).
    { unfold symbols in Ht. set_solver. }
    destruct Hcase as [->|Hc].
    + rewrite bool_decide_false by (apply (bool_decide_unpack (62 ∉ [124; 40; 41; 59; 38; 60])); vm_compute; exact I). cbn [Z.eqb Pos.eqb].
      assert (Hn : charAt buf (S q) <> 62).
      { destruct r as [|c r]; [destruct (charAt_end (S q) Hdrop ltac:(lia)) as [_ ->]; done|]. rewrite (charAt_lt (S q) c r Hdrop). by apply Hb. }
      rewrite (proj2 (Z.eqb_neq _ _) Hn). eexists q, (S q), _. split; [reflexivity|]. split; [by apply Hrest|done].
    + rewrite bool_decide_true by done. eexists q, (S q), _. split; [reflexivity|]. split; [by apply Hrest|done].
  - rewrite (charAt_lt q 62 (62 :: r) Eq). cbn [Z.eqb Pos.eqb]. rewrite bool_decide_false by (apply (bool_decide_unpack (62 ∉ [124; 40; 41; 59; 38; 60])); vm_compute; exact I).
    destruct (drop_next q 62 _ Eq) as [Eq1 _]. rewrite (charAt_lt (S q) 62 r Eq1). cbn [Z.eqb Pos.eqb].
    replace (q + 2)%nat with (S (S q)) in * by lia. eexists q, (S (S q)), _. split; [reflexivity|]. split; [by apply Hrest|done].
  - destruct Ht as [Hne Hw]. destruct w as [|c w]; [done|]. pose proof Hw as [(Hc0 & Hcs & Hcy) _]%Forall_cons.
    rewrite (charAt_lt q c (w ++ r) Eq), (proj2 (Z.eqb_neq _ _) Hc0).
    assert (Hnsym : c ∉ symbols) by (by apply bool_decide_eq_false in Hcy).
    rewrite bool_decide_false, (proj2 (Z.eqb_neq c 62)) by (unfold symbols in Hnsym; set_solver).
    rewrite (skipWord_spec es q (c :: w) r Eq Hw) by (done || lia). eexists q, (q + length (c :: w))%nat, _. split; [reflexivity|].
    split; [by apply Hrest|]. intros w' [= <-]. assert (Hword : word (q, q + length (c :: w))%nat = c :: w).
    { unfold word. cbn [fst snd]. replace (q + length (c :: w) - q)%nat with (length (c :: w)) by lia. by rewrite Eq, take_app_length. }
    split; [|done]. split; [cbn; cbn in Hlen; lia|]. rewrite Hword. split; [done|]. cbn [fst snd]. intros d Hd (Hd0 & Hds & Hdy).
    assert (Hr : r !! 0%nat = Some d) by (rewrite <- Hdrop, lookup_drop, Nat.add_0_r; done). destruct r as [|d' r]; [done|]. injection Hr as ->.
    destruct Hb; congruence.
Qed.

Lemma gettoken_end p : ahead p [] -> exists q eq p', gettoken buf es p = Ret (0, q, eq) p' /\ ahead p' [].
Proof.
  intros [Hp Hl]. inversion Hl as [bl Hbl El|]; subst. destruct (skipSpace_spec es p Hp ltac:(lia)) as [Hq Eq].
  rewrite <- (app_nil_r (drop p l)), dropSpace_lead in Eq by done. cbn in Eq. set (q := skipSpace buf es es p) in *.
  destruct (charAt_end q Eq ltac:(lia)) as [Eqes Ec]. unfold gettoken. rewrite bind_gets. unfold id. fold q. cbv zeta. rewrite Ec. cbn [Z.eqb].
  eexists q, q, _. split; [reflexivity|]. destruct (skipSpace_spec es q ltac:(lia) ltac:(lia)) as [H1 H2]. split; [lia|]. rewrite H2, Eq. by apply lex_end.
Qed.

(** * Parsing *)

Fixpoint strs (c : cmd) : scmd :=
  match c with
  | EXEC argv => SEXEC (map word argv)
  | REDIR c file mode fd => SREDIR (strs c) (word file) mode fd
  | PIPE a b => SPIPE (strs a) (strs b)
  | LIST a b => SLIST (strs a) (strs b)
  | BACK c => SBACK (strs c)
  end.

Fixpoint properCmd (c : cmd) : Prop :=
  match c with
  | EXEC argv => Forall proper argv
  | REDIR c file mode fd => properCmd c /\ proper file
  | PIPE a b | LIST a b => properCmd a /\ properCmd b
  | BACK c => properCmd c
  end.

(** A redirection that was read, and the one it was written as. *)
Definition same_redir (r : range * Z * Z) (d : redirection) : Prop :=
  proper r.1.1 /\ word r.1.1 = d.2 /\ r.1.2 = modeOf d.1 /\ r.2 = fdOf d.1.

Lemma wrap_spec rs ds : Forall2 same_redir rs ds -> forall c, properCmd c -> strs (wrap rs c) = swrap ds (strs c) /\ properCmd (wrap rs c).
Proof.
  induction 1 as [|[[r m] f] d rs ds (Hp & Hw & Hm & Hf) _ IH]; intros c Hc; [done|]. cbn [wrap swrap foldl]. cbn in Hp, Hw, Hm, Hf. subst.
  destruct (IH (redircmd c r (modeOf d.1) (fdOf d.1))) as [E1 E2]; [by split|]. rewrite <- Hw. by split.
Qed.

(** What the switch of [parseredirs] does. *)
Lemma redir_item d (r : range) acc :
  (if code (redirTok d) =? 60 then acc ++ [(r, O_RDONLY, 0)]
   else if code (redirTok d) =? 62 then acc ++ [(r, Z.lor O_WRONLY O_CREATE, 1)]
   else if code (redirTok d) =? 43 then acc ++ [(r, Z.lor O_WRONLY O_CREATE, 1)]
   else acc) = acc ++ [(r, modeOf d, fdOf d)].
Proof. by destruct d. Qed.

Lemma parseredirs_spec n : forall rs acc p ts, ahead p (redirsTokens rs ++ ts) -> first ts [60; 62] = false -> (length rs <= n)%nat ->
  exists rs' p', parseredirs buf es n acc p = Ret (acc ++ rs') p' /\ ahead p' ts /\ Forall2 same_redir rs' rs.
Proof.
  assert (Hnone : forall n acc p ts, ahead p ts -> first ts [60; 62] = false -> exists p', parseredirs buf es n acc p = Ret acc p' /\ ahead p' ts).
  { intros n' acc p ts Ha Hf. destruct (peek_spec p ts [60; 62] Ha) as (p1 & E1 & Ha1 & _). exists p1.
    destruct n'; cbn [parseredirs]; rewrite (bind_Ret _ _ _ _ _ E1), Hf; done. }
  induction n as [|n IH]; intros [|[d f] rs] acc p ts Ha Hf Hn; try (cbn in Hn; lia).
  1: destruct (Hnone 0%nat acc p ts Ha Hf) as (p' & E & Ha'); exists [], p'; rewrite app_nil_r; by split_and!.
  1: destruct (Hnone (S n) acc p ts Ha Hf) as (p' & E & Ha'); exists [], p'; rewrite app_nil_r; by split_and!.
  cbn [length] in Hn. unfold redirsTokens in Ha. cbn [map concat redirTokens fst snd app] in Ha. fold (redirsTokens rs) in Ha.
  destruct (peek_spec p _ [60; 62] Ha) as (p1 & E1 & Ha1 & _). cbn [parseredirs]. rewrite (bind_Ret _ _ _ _ _ E1).
  assert (Hfirst : first (redirTok d :: Word f :: redirsTokens rs ++ ts) [60; 62] = true) by (by destruct d).
  rewrite Hfirst. cbn [negb]. destruct (gettoken_spec p1 _ _ Ha1) as (q0 & e0 & p2 & E2 & Ha2 & _). rewrite (bind_Ret _ _ _ _ _ E2).
  destruct (gettoken_spec p2 _ _ Ha2) as (q & e & p3 & E3 & Ha3 & Hw). rewrite (bind_Ret _ _ _ _ _ E3). cbn [code Z.eqb Pos.eqb negb].
  destruct (Hw f eq_refl) as [Hprop Hword]. set (item := ((q, e), modeOf d, fdOf d) : range * Z * Z).
  rewrite redir_item. fold item. destruct (IH rs (acc ++ [item]) p3 ts Ha3 Hf ltac:(lia)) as (rs' & p' & E & Ha' & Hrs).
  exists (item :: rs'), p'. rewrite E, <- app_assoc. split_and!; [done|done|]. constructor; [|done]. by split_and!.
Qed.

Lemma wordsTokens_cons w rs ws ts : wordsTokens ((w, rs) :: ws) ++ ts = Word w :: redirsTokens rs ++ wordsTokens ws ++ ts.
Proof. unfold wordsTokens. cbn. by rewrite <- app_assoc. Qed.

(** What may follow an element of a pipeline. *)
Definition stops (ts : list tok) (cs : list Z) : Prop := ts = [] \/ first ts cs = true.

Lemma lexes_tokOk x ts : lexes x ts -> Forall tokOk ts.
Proof. induction 1; by constructor. Qed.

Lemma word_first w ts cs : tokOk (Word w) -> (forall c, c ∈ cs -> c ∈ symbols) -> first (Word w :: ts) cs = false.
Proof.
  intros [Hne Hw] Hcs. destruct w as [|c w]; [done|]. apply Forall_cons in Hw as [(_ & _ & Hc) _]. cbn. apply bool_decide_eq_false. intros Hin.
  apply bool_decide_eq_false in Hc. by apply Hc, Hcs.
Qed.

Lemma stops_first ts cs ds : stops ts cs -> (forall c, c ∈ cs -> c ∉ ds) -> first ts ds = false.
Proof.
  intros [->|Hf] Hd; [done|]. destruct ts as [|t ts]; [done|]. cbn in *. destruct (text t) as [|c x]; [done|].
  apply bool_decide_eq_true in Hf. apply bool_decide_eq_false. by apply Hd.
Qed.

Ltac chars := let c := fresh in intros c; unfold symbols; rewrite ?elem_of_cons, ?elem_of_nil; intros; naive_solver.

Lemma words_first ws ts : stops ts [124; 41; 38; 59] -> Forall tokOk (wordsTokens ws ++ ts) -> first (wordsTokens ws ++ ts) [60; 62] = false.
Proof.
  destruct ws as [|[w rs] ws].
  - intros Hs _. eapply stops_first; [exact Hs|chars].
  - rewrite wordsTokens_cons. intros _ [Hw _]%Forall_cons. apply word_first; [done|chars].
Qed.

Lemma wrap_app rs ds c : wrap (rs ++ ds) c = wrap ds (wrap rs c).
Proof. unfold wrap. by rewrite foldl_app. Qed.

Lemma parseargs_spec ws : forall n argv rs p ts, ahead p (wordsTokens ws ++ ts) -> stops ts [124; 41; 38; 59] ->
  (length ws < n)%nat -> Z.of_nat (length argv + length ws) < MAXARGS ->
  exists argv' rs' p', parseargs buf es n argv rs p = Ret (wrap (rs ++ rs') (EXEC (argv ++ argv'))) p' /\ ahead p' ts /\
    Forall proper argv' /\ map word argv' = map fst ws /\ Forall2 same_redir rs' (concat (map snd ws)).
Proof.
  induction ws as [|[w ds] ws IH]; intros n argv rs p ts Ha Hs Hn Hargs; destruct n as [|n]; try (cbn in Hn; lia); cbn [parseargs].
  - destruct (peek_spec p ts [124; 41; 38; 59] Ha) as (p1 & E1 & Ha1 & _). rewrite (bind_Ret _ _ _ _ _ E1). destruct Hs as [->|Hf].
    + cbn [first]. destruct (gettoken_end p1 Ha1) as (q & e & p2 & E2 & Ha2). rewrite (bind_Ret _ _ _ _ _ E2). cbn [Z.eqb].
      exists [], [], p2. rewrite !app_nil_r. by split_and!.
    + rewrite Hf. exists [], [], p1. rewrite !app_nil_r. by split_and!.
  - rewrite wordsTokens_cons in Ha. pose proof (lexes_tokOk _ _ (proj2 Ha)) as [Hw Hok]%Forall_cons. apply Forall_app in Hok as [_ Hok].
    destruct (peek_spec p _ [124; 41; 38; 59] Ha) as (p1 & E1 & Ha1 & _). rewrite (bind_Ret _ _ _ _ _ E1), word_first by (done || chars).
    destruct (gettoken_spec p1 _ _ Ha1) as (q & e & p2 & E2 & Ha2 & Hword). rewrite (bind_Ret _ _ _ _ _ E2). cbn [code Z.eqb Pos.eqb negb].
    destruct (Hword w eq_refl) as [Hprop Heq]. cbn [length] in *. rewrite Z.geb_leb, (proj2 (Z.leb_gt _ _)) by (rewrite length_app; cbn; lia).
    assert (Hlen : (length ds <= S es)%nat).
    { pose proof (lexes_length _ _ (proj2 Ha2)) as Hle. rewrite length_drop, !length_app in Hle. unfold redirsTokens in Hle.
      assert (length ds <= length (concat (map redirTokens ds)))%nat by (clear; induction ds; cbn; lia). lia. }
    destruct (parseredirs_spec (S es) ds rs p2 _ Ha2 ltac:(by apply words_first) Hlen) as (rs1 & p3 & E3 & Ha3 & Hrs1). rewrite (bind_Ret _ _ _ _ _ E3).
    destruct (IH n (argv ++ [(q, e)]) (rs ++ rs1) p3 ts Ha3 Hs ltac:(lia) ltac:(rewrite length_app; cbn; lia)) as (argv' & rs' & p' & E & Ha' & Hp' & Hm & Hr').
    exists ((q, e) :: argv'), (rs1 ++ rs'), p'. rewrite E, <- !app_assoc. cbn [app map concat fst snd]. split_and!; [done|done|by constructor|by rewrite Heq, Hm|by apply Forall2_app].
Qed.

Definition good (c : cmd) (s : sh) : Prop := strs c = denote s /\ properCmd c.

(** What each function of the parser does with a command of its level. *)
Definition parses (k : nat) (s : sh) : Prop :=
  match k with
  | 0%nat => forall fuel p ts, ahead p (tokens s ++ ts) -> stops ts [124; 41; 38; 59] -> (4 * length (tokens s) + 1 <= fuel)%nat ->
      exists c p', parseexec buf es fuel p = Ret c p' /\ ahead p' ts /\ good c s
  | 1%nat => forall fuel p ts, ahead p (tokens s ++ ts) -> stops ts [41; 38; 59] -> (4 * length (tokens s) + 2 <= fuel)%nat ->
      exists c p', parsepipe buf es fuel p = Ret c p' /\ ahead p' ts /\ good c s
  | 2%nat => forall fuel n p ts, ahead p (tokens s ++ ts) -> stops ts [41; 38; 59] -> (4 * length (tokens s) + 2 <= fuel)%nat -> (length (tokens s) <= n)%nat ->
      exists c p' n', (parsepipe buf es fuel ≫= parsebacks buf es n) p = parsebacks buf es n' c p' /\ ahead p' ts /\ good c s /\ (n <= n' + length (tokens s))%nat
  | _ => forall fuel p ts, ahead p (tokens s ++ ts) -> stops ts [41] -> (4 * length (tokens s) + 3 <= fuel)%nat ->
      exists c p', parseline buf es fuel p = Ret c p' /\ ahead p' ts /\ good c s
  end.

Lemma ahead_length p ts : ahead p ts -> (length ts <= es)%nat.
Proof. intros [Hp Hl%lexes_length]. rewrite length_drop in Hl. lia. Qed.

Lemma redirs_length (ds : list redirection) : (length ds <= length (redirsTokens ds))%nat.
Proof. unfold redirsTokens. induction ds; cbn; lia. Qed.

Lemma words_length (ws : list (list Z * list redirection)) : (length ws <= length (wordsTokens ws))%nat.
Proof. unfold wordsTokens. induction ws as [|[w ds] ws IH]; cbn; [lia|]. rewrite length_app. cbn in *. lia. Qed.

Lemma stops_weaken ts cs ds : stops ts cs -> (forall c, c ∈ cs -> c ∈ ds) -> stops ts ds.
Proof.
  intros [->|Hf] Hd; [by left|]. right. destruct ts as [|t ts]; [done|]. cbn in *. destruct (text t) as [|c x]; [done|].
  apply bool_decide_eq_true in Hf. apply bool_decide_eq_true. by apply Hd.
Qed.

Lemma simple_parses rs ws : Z.of_nat (length ws) < MAXARGS -> parses 0 (Simple rs ws).
Proof.
  intros Hws fuel p ts Ha Hs Hf. destruct fuel as [|fuel]; [lia|]. cbn [parseexec tokens] in *. rewrite <- app_assoc in Ha.
  pose proof (lexes_tokOk _ _ (proj2 Ha)) as [_ Hok]%Forall_app. pose proof (ahead_length _ _ Ha) as Hlen. rewrite !length_app in Hlen.
  pose proof (redirs_length rs). pose proof (words_length ws). assert (Hfirst := words_first ws ts Hs Hok).
  destruct (peek_spec p _ [40] Ha) as (p1 & E1 & Ha1 & _). rewrite (bind_Ret _ _ _ _ _ E1).
  assert (H40 : first (redirsTokens rs ++ wordsTokens ws ++ ts) [40] = false).
  { destruct rs as [|[d f] rs]; [|by destruct d]. destruct ws as [|[w ds] ws]; [eapply stops_first; [exact Hs|chars]|].
    rewrite wordsTokens_cons in *. cbn [app] in *. apply Forall_cons in Hok as [Hw _]. apply word_first; [done|chars]. }
  rewrite H40. destruct (parseredirs_spec (S es) rs [] p1 _ Ha1 Hfirst ltac:(lia)) as (rs1 & p2 & E2 & Ha2 & Hr). rewrite (bind_Ret _ _ _ _ _ E2).
  destruct (parseargs_spec ws (S es) [] ([] ++ rs1) p2 ts Ha2 Hs ltac:(lia) ltac:(cbn; lia)) as (argv & rs2 & p3 & E3 & Ha3 & Hp & Hm & Hr2).
  cbn [app] in E3. eexists _, p3. split; [exact E3|]. split; [done|].
  destruct (wrap_spec (rs1 ++ rs2) (rs ++ concat (map snd ws)) ltac:(by apply Forall2_app) (EXEC argv) Hp) as [E4 Hp4].
  split; [|done]. rewrite E4. cbn. by rewrite Hm.
Qed.

Lemma block_parses b rs : parses 3 b -> parses 0 (Block b rs).
Proof.
  intros IH fuel p ts Ha Hs Hf. cbn [tokens app length] in *. rewrite length_app in Hf. cbn [length] in Hf.
  destruct fuel as [|[|fuel]]; [lia|lia|]. rewrite <- app_assoc in Ha. cbn [app] in Ha. pose proof (ahead_length _ _ Ha) as Hlen. cbn [length] in Hlen. rewrite !length_app in Hlen.
  cbn [length] in Hlen. rewrite length_app in Hlen. pose proof (redirs_length rs). cbn [parseexec parseblock].
  destruct (peek_spec p _ [40] Ha) as (p1 & E1 & Ha1 & _). rewrite (bind_Ret _ _ _ _ _ E1). cbn [first text].
  rewrite bool_decide_true by (by left). destruct (peek_spec p1 _ [40] Ha1) as (p2 & E2 & Ha2 & _). rewrite (bind_Ret _ _ _ _ _ E2). cbn [first text].
  rewrite bool_decide_true by (by left). cbn [negb]. destruct (gettoken_spec p2 _ _ Ha2) as (q & e & p3 & E3 & Ha3 & _). rewrite (bind_Ret _ _ _ _ _ E3).
  destruct (IH fuel p3 _ Ha3 ltac:(by right) ltac:(lia)) as (c & p4 & E4 & Ha4 & Hc). rewrite (bind_Ret _ _ _ _ _ E4).
  destruct (peek_spec p4 _ [41] Ha4) as (p5 & E5 & Ha5 & _). rewrite (bind_Ret _ _ _ _ _ E5). cbn [first text]. rewrite bool_decide_true by (by left). cbn [negb].
  destruct (gettoken_spec p5 _ _ Ha5) as (q' & e' & p6 & E6 & Ha6 & _). rewrite (bind_Ret _ _ _ _ _ E6).
  destruct (parseredirs_spec (S es) rs [] p6 ts Ha6 ltac:(eapply stops_first; [exact Hs|chars]) ltac:(lia)) as (rs1 & p7 & E7 & Ha7 & Hr).
  rewrite (bind_Ret _ _ _ _ _ E7). destruct Hc as [Hc1 Hc2]. destruct (wrap_spec rs1 rs Hr c Hc2) as [E8 Hp8].
  eexists _, p7. split; [reflexivity|]. split; [done|]. split; [|done]. cbn [app] in *. rewrite E8, Hc1. done.
Qed.

Lemma pipe_parses e b : parses 0 e -> parses 1 b -> parses 1 (Pipe e b).
Proof.
  intros IHe IHb fuel p ts Ha Hs Hf. cbn [tokens] in *. rewrite length_app in Hf. cbn [length] in Hf. destruct fuel as [|fuel]; [lia|].
  rewrite <- app_assoc in Ha. cbn [app] in Ha. cbn [parsepipe].
  destruct (IHe fuel p _ Ha ltac:(right; reflexivity) ltac:(lia)) as (c & p1 & E1 & Ha1 & [Hc1 Hc2]). rewrite (bind_Ret _ _ _ _ _ E1).
  destruct (peek_spec p1 _ [124] Ha1) as (p2 & E2 & Ha2 & _). rewrite (bind_Ret _ _ _ _ _ E2). cbn [first text]. rewrite bool_decide_true by (by left).
  destruct (gettoken_spec p2 _ _ Ha2) as (q & f & p3 & E3 & Ha3 & _). rewrite (bind_Ret _ _ _ _ _ E3).
  destruct (IHb fuel p3 ts Ha3 Hs ltac:(lia)) as (r & p4 & E4 & Ha4 & [Hr1 Hr2]). rewrite (bind_Ret _ _ _ _ _ E4).
  eexists _, p4. split; [reflexivity|]. split; [done|]. split; [cbn; by rewrite Hc1, Hr1|done].
Qed.

Lemma back_parses b : parses 2 b -> parses 2 (Back b).
Proof.
  intros IH fuel n p ts Ha Hs Hf Hn. cbn [tokens] in *. rewrite length_app in *. cbn [length] in *. rewrite <- app_assoc in Ha. cbn [app] in Ha.
  destruct (IH fuel n p _ Ha ltac:(right; reflexivity) ltac:(lia) ltac:(lia)) as (c & p1 & n1 & E1 & Ha1 & [Hc1 Hc2] & Hn1). rewrite E1.
  destruct n1 as [|n1]; [lia|]. destruct (peek_spec p1 _ [38] Ha1) as (p2 & E2 & Ha2 & _). cbn [parsebacks]. rewrite (bind_Ret _ _ _ _ _ E2).
  cbn [first text]. rewrite bool_decide_true by (by left). cbn [negb]. destruct (gettoken_spec p2 _ _ Ha2) as (q & f & p3 & E3 & Ha3 & _).
  rewrite (bind_Ret _ _ _ _ _ E3). exists (backcmd c), p3, n1. split; [done|]. split; [done|]. split; [|lia]. split; [cbn; by rewrite Hc1|done].
Qed.

Lemma backs_done n c p ts cs : ahead p ts -> stops ts cs -> (forall d, d ∈ cs -> d ∉ [38]) -> exists p', parsebacks buf es n c p = Ret c p' /\ ahead p' ts.
Proof.
  intros Ha Hs Hcs. destruct (peek_spec p ts [38] Ha) as (p1 & E1 & Ha1 & _). rewrite (stops_first ts cs [38] Hs Hcs) in E1.
  exists p1. destruct n; cbn [parsebacks]; rewrite (bind_Ret _ _ _ _ _ E1); done.
Qed.

Lemma seq_parses b s : parses 2 b -> parses 3 s -> parses 3 (Seq b s).
Proof.
  intros IHb IHs fuel p ts Ha Hs Hf. cbn [tokens] in *. rewrite length_app in Hf. cbn [length] in Hf. destruct fuel as [|fuel]; [lia|].
  rewrite <- app_assoc in Ha. cbn [app] in Ha. pose proof (ahead_length _ _ Ha) as Hlen. rewrite length_app in Hlen. cbn [length] in Hlen. cbn [parseline].
  destruct (IHb fuel (S es) p _ Ha ltac:(right; reflexivity) ltac:(lia) ltac:(lia)) as (c & p1 & n1 & E1 & Ha1 & [Hc1 Hc2] & _).
  destruct (backs_done n1 c p1 _ [59] Ha1 ltac:(right; reflexivity) ltac:(chars)) as (p2 & E2 & Ha2). rewrite E2 in E1.
  rewrite <- bind_assoc. rewrite (bind_Ret _ _ _ _ _ E1). destruct (peek_spec p2 _ [59] Ha2) as (p3 & E3 & Ha3 & _). rewrite (bind_Ret _ _ _ _ _ E3).
  cbn [first text]. rewrite bool_decide_true by (by left). destruct (gettoken_spec p3 _ _ Ha3) as (q & f & p4 & E4 & Ha4 & _). rewrite (bind_Ret _ _ _ _ _ E4).
  destruct (IHs fuel p4 ts Ha4 Hs ltac:(lia)) as (r & p5 & E5 & Ha5 & [Hr1 Hr2]). rewrite (bind_Ret _ _ _ _ _ E5).
  eexists _, p5. split; [reflexivity|]. split; [done|]. split; [cbn; by rewrite Hc1, Hr1|done].
Qed.

Lemma up_parses k s : (k < 3)%nat -> parses k s -> parses (S k) s.
Proof.
  intros Hk. destruct k as [|[|[|k]]]; [| | |lia]; cbn [parses]; intros IH.
  - intros fuel p ts Ha Hs Hf. destruct fuel as [|fuel]; [lia|]. cbn [parsepipe].
    destruct (IH fuel p ts Ha ltac:(eapply stops_weaken; [exact Hs|chars]) ltac:(lia)) as (c & p1 & E1 & Ha1 & Hc). rewrite (bind_Ret _ _ _ _ _ E1).
    destruct (peek_spec p1 ts [124] Ha1) as (p2 & E2 & Ha2 & _). rewrite (bind_Ret _ _ _ _ _ E2), (stops_first ts _ [124] Hs ltac:(chars)). by exists c, p2.
  - intros fuel n p ts Ha Hs Hf Hn. destruct (IH fuel p ts Ha Hs Hf) as (c & p1 & E1 & Ha1 & Hc). rewrite (bind_Ret _ _ _ _ _ E1).
    exists c, p1, n. split; [done|]. split; [done|]. split; [done|lia].
  - intros fuel p ts Ha Hs Hf. destruct fuel as [|fuel]; [lia|]. pose proof (ahead_length _ _ Ha) as Hlen. rewrite length_app in Hlen. cbn [parseline].
    destruct (IH fuel (S es) p ts Ha ltac:(eapply stops_weaken; [exact Hs|chars]) ltac:(lia) ltac:(lia)) as (c & p1 & n1 & E1 & Ha1 & Hc & _).
    destruct (backs_done n1 c p1 ts [41] Ha1 Hs ltac:(chars)) as (p2 & E2 & Ha2). rewrite E2 in E1. rewrite <- bind_assoc. rewrite (bind_Ret _ _ _ _ _ E1).
    destruct (peek_spec p2 ts [59] Ha2) as (p3 & E3 & Ha3 & _). rewrite (bind_Ret _ _ _ _ _ E3), (stops_first ts _ [59] Hs ltac:(chars)). by exists c, p3.
Qed.

Lemma wf_parses k s : wf k s -> parses k s.
Proof.
  induction 1; [by apply simple_parses|by apply block_parses|by apply pipe_parses|by apply back_parses|by apply seq_parses|by apply up_parses].
Qed.

(** * Every line *)

(** Every text without NULs consists of tokens. *)
Lemma lexes_total x : Forall (fun c => c <> 0) x -> exists ts, lexes x ts.
Proof.
  induction x as [x IH] using (induction_ltof1 _ length); unfold ltof in IH. intros Hx.
  destruct x as [|c x]; [exists []; by apply lex_end|]. apply Forall_cons in Hx as [Hc Hx].
  assert (Hrest : forall y, (length y <= length x)%nat -> Forall (fun c => c <> 0) y -> exists ts, lexes y ts) by (intros y Hy; apply IH; cbn; lia).
  destruct (isSpace c) eqn:Esp.
  { destruct (Hrest x ltac:(lia) Hx) as (ts & [bl Hbl|bl t r ts' Hbl Ht Hb Hl]).
    - exists []. apply lex_end. by constructor.
    - exists (t :: ts'). apply (lex_tok (c :: bl)); [by constructor|done|done|done]. }
  destruct (isSymbol c) eqn:Esy.
  { pose proof Esy as Hsy%bool_decide_eq_true. destruct (decide (c = 62 /\ head x = Some 62)) as [[-> Hh]|Hn].
    - destruct x as [|d x]; [done|]. injection Hh as ->. apply Forall_cons in Hx as [_ Hx]. destruct (Hrest x ltac:(cbn; lia) Hx) as (ts & Hl).
      exists (Append :: ts). by apply (lex_tok [] Append).
    - destruct (Hrest x ltac:(lia) Hx) as (ts & Hl). exists (Sym c :: ts). apply (lex_tok [] (Sym c)); try done. cbn.
      destruct x as [|d x]; [done|]. intros -> ->. by apply Hn. }
  assert (Hword : exists w r, c :: x = w ++ r /\ w <> [] /\ Forall wordChar w /\ match r with [] => True | d :: _ => isSpace d = true \/ isSymbol d = true end).
  { assert (Hw : forall y, Forall (fun c => c <> 0) y -> exists w r, y = w ++ r /\ Forall wordChar w /\ match r with [] => True | d :: _ => isSpace d = true \/ isSymbol d = true end).
    { induction y as [|d y IHy]; intros Hy; [by exists [], []|]. apply Forall_cons in Hy as [Hd Hy]. destruct (isSpace d) eqn:E1; [exists [], (d :: y); auto|].
      destruct (isSymbol d) eqn:E2; [exists [], (d :: y); auto|]. destruct (IHy Hy) as (w & r & -> & Hw & Hr). exists (d :: w), r. split_and!; [done|by constructor|done]. }
    destruct (Hw x Hx) as (w & r & -> & Hw' & Hr). exists (c :: w), r. split_and!; [done|done|by constructor|done]. }
  destruct Hword as (w & r & E & Hne & Hw & Hr). rewrite E. assert (Hlen := f_equal length E). rewrite length_app in Hlen. cbn in Hlen.
  assert (length w <> 0)%nat by (by destruct w). destruct (Hrest r ltac:(lia)) as (ts & Hl).
  { assert (Hall : Forall (fun c => c <> 0) (w ++ r)) by (rewrite <- E; by constructor). by apply Forall_app in Hall as [_ ?]. }
  exists (Word w :: ts). by apply (lex_tok [] (Word w)).
Qed.

(** The messages of the syntax errors. *)
Definition syntaxErrors : list string :=
  ["missing File for redirection"; "syntax"; "too many args"; "syntax - missing )"].

(** A computation that reports a syntax error or returns with [Q]. *)
Definition settles {A} (r : outcome nat A) (Q : A -> nat -> Prop) : Prop :=
  match r with
  | Ret a p => Q a p
  | Panic msg => msg ∈ syntaxErrors
  | _ => False
  end.

Lemma settles_bind {A B} (c : M nat A) (k : A -> M nat B) p (Q : A -> nat -> Prop) (R : B -> nat -> Prop) :
  settles (c p) Q -> (forall a p', Q a p' -> settles (k a p') R) -> settles ((c ≫= k) p) R.
Proof. unfold mbind, M_bind. destruct (c p); cbn; auto. Qed.

Lemma settles_mono {A} (r : outcome nat A) (Q R : A -> nat -> Prop) : settles r Q -> (forall a p, Q a p -> R a p) -> settles r R.
Proof. destruct r; cbn; auto. Qed.

Definition nextCode (ts : list tok) : Z := match ts with [] => 0 | t :: _ => code t end.

Lemma gettoken_any p ts : ahead p ts -> exists q eq p', gettoken buf es p = Ret (nextCode ts, q, eq) p' /\ ahead p' (tail ts) /\
  (forall w, head ts = Some (Word w) -> proper (q, eq) /\ word (q, eq) = w).
Proof.
  intros Ha. destruct ts as [|t ts].
  - destruct (gettoken_end p Ha) as (q & e & p' & E & Ha'). exists q, e, p'. by split_and!.
  - destruct (gettoken_spec p t ts Ha) as (q & e & p' & E & Ha' & Hw). exists q, e, p'. split_and!; [done|done|]. intros w [= ->]. by apply Hw.
Qed.

(** 97 is the code of the words alone. *)
Lemma nextCode_word p ts : ahead p ts -> nextCode ts = 97 -> exists w ts', ts = Word w :: ts'.
Proof.
  intros [_ Hok%lexes_tokOk] E. destruct ts as [|[c| |w] ts]; cbn in E; [done| |done|by exists w, ts]. subst.
  apply Forall_cons in Hok as [Hc _]. cbn in Hc. exfalso. revert Hc. apply (bool_decide_unpack (97 ∉ symbols)). vm_compute. exact I.
Qed.

Lemma nextCode_end p ts : ahead p ts -> nextCode ts = 0 -> ts = [].
Proof.
  intros [_ Hok%lexes_tokOk] E. destruct ts as [|[c| |w] ts]; cbn in E; [done| |done|done]. subst.
  apply Forall_cons in Hok as [Hc _]. by destruct (symbol_not_space 0 Hc).
Qed.

Lemma first_head ts c : first ts [c] = true -> c <> 62 -> isSymbol c = true -> forall p, ahead p ts -> exists ts', ts = Sym c :: ts'.
Proof.
  intros Hf Hc Hsym p [_ Hok%lexes_tokOk]. destruct ts as [|t ts]; [done|]. apply Forall_cons in Hok as [Ht _]. destruct t as [d| |w]; cbn in Hf.
  - apply bool_decide_eq_true, list_elem_of_singleton in Hf as ->. by exists ts.
  - apply bool_decide_eq_true, list_elem_of_singleton in Hf. congruence.
  - destruct Ht as [Hne Hw]. destruct w as [|d w]; [done|]. apply bool_decide_eq_true, list_elem_of_singleton in Hf as ->.
    apply Forall_cons in Hw as [(_ & _ & Hd) _]. congruence.
Qed.

Lemma first_redir ts p : first ts [60; 62] = true -> ahead p ts ->
  exists d ts', ts = redirTok d :: ts'.
Proof.
  intros Hf [_ Hok%lexes_tokOk]. destruct ts as [|t ts]; [done|]. apply Forall_cons in Hok as [Ht _]. destruct t as [d| |w]; cbn in Hf.
  - apply bool_decide_eq_true in Hf. apply elem_of_cons in Hf as [->|Hf]; [by exists Input, ts|]. apply list_elem_of_singleton in Hf as ->. by exists Output, ts.
  - by exists OutputEnd, ts.
  - exfalso. assert (first (Word w :: ts) [60; 62] = false) by (apply word_first; [done|chars]). cbn in *. congruence.
Qed.

Lemma parseredirs_any n : forall acc p ts, ahead p ts -> (length ts < n)%nat ->
  settles (parseredirs buf es n acc p) (fun r p' => exists rs ds ts', r = acc ++ rs /\ ts = redirsTokens ds ++ ts' /\ ahead p' ts' /\ Forall2 same_redir rs ds).
Proof.
  induction n as [|n IH]; intros acc p ts Ha Hn; [lia|]. cbn [parseredirs]. destruct (peek_spec p ts [60; 62] Ha) as (p1 & E1 & Ha1 & _). rewrite (bind_Ret _ _ _ _ _ E1).
  destruct (first ts [60; 62]) eqn:Ef; cbn [negb]; [|exists [], [], ts; rewrite app_nil_r; by split_and!].
  destruct (first_redir ts p Ef Ha) as (d & ts1 & ->). destruct (gettoken_spec p1 _ _ Ha1) as (q0 & e0 & p2 & E2 & Ha2 & _). rewrite (bind_Ret _ _ _ _ _ E2).
  destruct (gettoken_any p2 ts1 Ha2) as (q & e & p3 & E3 & Ha3 & Hw). rewrite (bind_Ret _ _ _ _ _ E3).
  destruct (Z.eqb_spec (nextCode ts1) 97) as [Ec|Ec]; cbn [negb]; [|by left].
  destruct (nextCode_word p2 ts1 Ha2 Ec) as (f & ts2 & ->). destruct (Hw f eq_refl) as [Hprop Hword]. cbn [tail length] in *.
  rewrite redir_item. set (item := ((q, e), modeOf d, fdOf d) : range * Z * Z).
  eapply settles_mono; [exact (IH (acc ++ [item]) p3 ts2 Ha3 ltac:(lia))|]. intros r p' (rs & ds & ts' & -> & -> & Ha' & Hrs).
  exists (item :: rs), ((d, f) :: ds), ts'. rewrite <- app_assoc. split_and!; [done|done|done|]. constructor; [by split_and!|done].
Qed.

Lemma parseargs_any n : forall argv rs p ts, ahead p ts -> (length ts < n)%nat -> Z.of_nat (length argv) < MAXARGS ->
  settles (parseargs buf es n argv rs p) (fun c p' => exists argv' rs' ws ts', c = wrap (rs ++ rs') (EXEC (argv ++ argv')) /\
    ts = wordsTokens ws ++ ts' /\ ahead p' ts' /\ Z.of_nat (length argv + length ws) < MAXARGS /\
    Forall proper argv' /\ map word argv' = map fst ws /\ Forall2 same_redir rs' (concat (map snd ws))).
Proof.
  induction n as [|n IH]; intros argv rs p ts Ha Hn Hargs; [lia|]. cbn [parseargs].
  assert (Hnone : forall p' ts', ahead p' ts' -> exists argv' rs' ws ts0, wrap rs (EXEC argv) = wrap (rs ++ rs') (EXEC (argv ++ argv')) /\
    ts' = wordsTokens ws ++ ts0 /\ ahead p' ts0 /\ Z.of_nat (length argv + length ws) < MAXARGS /\
    Forall proper argv' /\ map word argv' = map fst ws /\ Forall2 same_redir rs' (concat (map snd ws))).
  { intros p' ts' Ha'. exists [], [], [], ts'. rewrite !app_nil_r. split_and!; try done. cbn [length]. lia. }
  destruct (peek_spec p ts [124; 41; 38; 59] Ha) as (p1 & E1 & Ha1 & _). rewrite (bind_Ret _ _ _ _ _ E1).
  destruct (first ts [124; 41; 38; 59]); [by apply Hnone|]. destruct (gettoken_any p1 ts Ha1) as (q & e & p2 & E2 & Ha2 & Hw). rewrite (bind_Ret _ _ _ _ _ E2).
  destruct (Z.eqb_spec (nextCode ts) 0) as [E0|_]; [rewrite (nextCode_end p ts Ha E0) in *; by apply Hnone|].
  destruct (Z.eqb_spec (nextCode ts) 97) as [Ec|Ec]; cbn [negb]; [|by right; left].
  destruct (nextCode_word p ts Ha Ec) as (w & ts1 & ->). destruct (Hw w eq_refl) as [Hprop Hword]. cbn [tail length] in *.
  destruct (Z.geb_spec (Z.of_nat (length (argv ++ [(q, e)]))) MAXARGS) as [Hmax|Hmax]; [by do 2 right; left|].
  eapply settles_bind; [apply (parseredirs_any (S es) rs p2 ts1 Ha2); pose proof (ahead_length _ _ Ha2); lia|].
  intros r p3 (rs1 & ds & ts2 & -> & -> & Ha3 & Hrs1). rewrite length_app in Hn.
  eapply settles_mono; [exact (IH (argv ++ [(q, e)]) (rs ++ rs1) p3 ts2 Ha3 ltac:(lia) Hmax)|].
  intros c p' (argv' & rs' & ws & ts' & -> & -> & Ha' & Hlen & Hp & Hm & Hrs). exists ((q, e) :: argv'), (rs1 ++ rs'), ((w, ds) :: ws), ts'.
  rewrite <- !app_assoc, wordsTokens_cons. rewrite length_app in Hlen. cbn [length] in *. cbn [map fst snd concat app].
  split_and!; [done|done|done|lia|by constructor|by rewrite Hword, Hm|by apply Forall2_app].
Qed.

(** A sentence of level [k] that was read from [ts]. *)
Definition reads (k : nat) (ts : list tok) (c : cmd) (p' : nat) : Prop :=
  exists s ts', ts = tokens s ++ ts' /\ ahead p' ts' /\ wf k s /\ good c s.

Lemma parsebacks_any n : forall c p ts s, ahead p ts -> (length ts < n)%nat -> wf 2 s -> good c s ->
  settles (parsebacks buf es n c p) (reads 2 (tokens s ++ ts)).
Proof.
  induction n as [|n IH]; intros c p ts s Ha Hn Hs Hg; [lia|]. cbn [parsebacks]. destruct (peek_spec p ts [38] Ha) as (p1 & E1 & Ha1 & _). rewrite (bind_Ret _ _ _ _ _ E1).
  destruct (first ts [38]) eqn:Ef; cbn [negb]; [|by exists s, ts].
  destruct (first_head ts 38 Ef ltac:(done) eq_refl p Ha) as [ts1 ->].
  destruct (gettoken_spec p1 _ _ Ha1) as (q & e & p2 & E2 & Ha2 & _). rewrite (bind_Ret _ _ _ _ _ E2). cbn [length] in Hn.
  replace (tokens s ++ Sym 38 :: ts1) with (tokens (Back s) ++ ts1) by (cbn; by rewrite <- app_assoc).
  apply IH; [done|lia|by constructor|]. destruct Hg as [Hg1 Hg2]. split; [cbn; by rewrite Hg1|done].
Qed.

(** What each function does with any tokens, given what the functions it calls
    do. *)
Definition line_any (fuel : nat) : Prop := forall p ts, ahead p ts -> (4 * length ts + 3 <= fuel)%nat -> settles (parseline buf es fuel p) (reads 3 ts).
Definition pipe_any (fuel : nat) : Prop := forall p ts, ahead p ts -> (4 * length ts + 2 <= fuel)%nat -> settles (parsepipe buf es fuel p) (reads 1 ts).
Definition exec_any (fuel : nat) : Prop := forall p ts, ahead p ts -> (4 * length ts + 1 <= fuel)%nat -> settles (parseexec buf es fuel p) (reads 0 ts).
Definition block_any (fuel : nat) : Prop :=
  forall p ts, ahead p ts -> first ts [40] = true -> (4 * length ts <= fuel)%nat -> settles (parseblock buf es fuel p) (reads 0 ts).

Lemma line_step fuel : pipe_any fuel -> line_any fuel -> line_any (S fuel).
Proof.
  intros Hpipe Hline p ts Ha Hf. cbn [parseline]. eapply settles_bind; [apply (Hpipe p ts Ha); lia|].
  intros c p1 (s & ts1 & -> & Ha1 & Hs & Hg). rewrite length_app in Hf.
  eapply settles_bind; [apply (parsebacks_any (S es) c p1 ts1 s Ha1); [pose proof (ahead_length _ _ Ha1); lia|by apply wf_up; [lia|]|done]|].
  intros c2 p2 (s2 & ts2 & E2 & Ha2 & Hs2 & Hg2). pose proof (f_equal length E2) as Hlen. rewrite !length_app in Hlen. rewrite E2.
  destruct (peek_spec p2 ts2 [59] Ha2) as (p3 & E3 & Ha3 & _). rewrite (bind_Ret _ _ _ _ _ E3).
  destruct (first ts2 [59]) eqn:Ef; [|exists s2, ts2; split_and!; [done|done|by apply wf_up; [lia|]|done]].
  destruct (first_head ts2 59 Ef ltac:(done) eq_refl p2 Ha2) as [ts3 ->]. cbn [length] in Hlen.
  destruct (gettoken_spec p3 _ _ Ha3) as (q & e & p4 & E4 & Ha4 & _). rewrite (bind_Ret _ _ _ _ _ E4).
  eapply settles_bind; [apply (Hline p4 ts3 Ha4); lia|]. intros c5 p5 (s5 & ts5 & -> & Ha5 & Hs5 & Hg5).
  exists (Seq s2 s5), ts5. cbn [tokens]. rewrite <- app_assoc. destruct Hg2 as [Hg2 Hp2], Hg5 as [Hg5 Hp5].
  split_and!; [done|done|by constructor|]. split; [cbn; by rewrite Hg2, Hg5|done].
Qed.

Lemma pipe_step fuel : exec_any fuel -> pipe_any fuel -> pipe_any (S fuel).
Proof.
  intros Hexec Hpipe p ts Ha Hf. cbn [parsepipe]. eapply settles_bind; [apply (Hexec p ts Ha); lia|].
  intros c p1 (s & ts1 & -> & Ha1 & Hs & Hg). rewrite length_app in Hf.
  destruct (peek_spec p1 ts1 [124] Ha1) as (p3 & E3 & Ha3 & _). rewrite (bind_Ret _ _ _ _ _ E3).
  destruct (first ts1 [124]) eqn:Ef; [|exists s, ts1; split_and!; [done|done|by apply wf_up; [lia|]|done]].
  destruct (first_head ts1 124 Ef ltac:(done) eq_refl p1 Ha1) as [ts3 ->]. cbn [length] in Hf.
  destruct (gettoken_spec p3 _ _ Ha3) as (q & e & p4 & E4 & Ha4 & _). rewrite (bind_Ret _ _ _ _ _ E4).
  eapply settles_bind; [apply (Hpipe p4 ts3 Ha4); lia|]. intros c5 p5 (s5 & ts5 & -> & Ha5 & Hs5 & Hg5).
  exists (Pipe s s5), ts5. cbn [tokens]. rewrite <- app_assoc. destruct Hg as [Hg2 Hp2], Hg5 as [Hg5 Hp5].
  split_and!; [done|done|by constructor|]. split; [cbn; by rewrite Hg2, Hg5|done].
Qed.

Lemma exec_step fuel : block_any fuel -> exec_any (S fuel).
Proof.
  intros Hblock p ts Ha Hf. cbn [parseexec]. destruct (peek_spec p ts [40] Ha) as (p1 & E1 & Ha1 & _). rewrite (bind_Ret _ _ _ _ _ E1).
  destruct (first ts [40]) eqn:Ef; [apply (Hblock p1 ts Ha1 Ef); lia|]. pose proof (ahead_length _ _ Ha) as Hlen.
  eapply settles_bind; [apply (parseredirs_any (S es) [] p1 ts Ha1); lia|]. intros r p2 (rs & ds & ts2 & -> & -> & Ha2 & Hrs). rewrite length_app in Hlen.
  eapply settles_mono; [apply (parseargs_any (S es) [] ([] ++ rs) p2 ts2 Ha2); [lia|done]|].
  intros c p3 (argv & rs' & ws & ts3 & -> & -> & Ha3 & Hlt & Hp & Hm & Hrs'). exists (Simple ds ws), ts3. cbn [tokens app length] in *. rewrite <- app_assoc.
  split_and!; [done|done|by constructor|].
  destruct (wrap_spec (rs ++ rs') (ds ++ concat (map snd ws)) ltac:(by apply Forall2_app) (EXEC argv) Hp) as [E4 Hp4]. split; [|done]. rewrite E4. cbn. by rewrite Hm.
Qed.

Lemma block_step fuel : line_any fuel -> block_any (S fuel).
Proof.
  intros Hline p ts Ha Ef Hf. cbn [parseblock]. destruct (peek_spec p ts [40] Ha) as (p1 & E1 & Ha1 & _). rewrite (bind_Ret _ _ _ _ _ E1), Ef. cbn [negb].
  destruct (first_head ts 40 Ef ltac:(done) eq_refl p Ha) as [ts1 ->]. cbn [length] in Hf.
  destruct (gettoken_spec p1 _ _ Ha1) as (q & e & p2 & E2 & Ha2 & _). rewrite (bind_Ret _ _ _ _ _ E2).
  eapply settles_bind; [apply (Hline p2 ts1 Ha2); lia|]. intros c p3 (s & ts3 & -> & Ha3 & Hs & [Hg Hp]).
  destruct (peek_spec p3 ts3 [41] Ha3) as (p4 & E4 & Ha4 & _). rewrite (bind_Ret _ _ _ _ _ E4).
  destruct (first ts3 [41]) eqn:Ef3; cbn [negb]; [|by do 3 right; left].
  destruct (first_head ts3 41 Ef3 ltac:(done) eq_refl p3 Ha3) as [ts4 ->].
  destruct (gettoken_spec p4 _ _ Ha4) as (q' & e' & p5 & E5 & Ha5 & _). rewrite (bind_Ret _ _ _ _ _ E5).
  eapply settles_bind; [apply (parseredirs_any (S es) [] p5 ts4 Ha5); pose proof (ahead_length _ _ Ha5); lia|].
  intros r p6 (rs & ds & ts6 & -> & -> & Ha6 & Hrs). exists (Block s ds), ts6. cbn [tokens app]. rewrite <- !app_assoc. cbn [app].
  destruct (wrap_spec rs ds Hrs c Hp) as [E7 Hp7]. split_and!; [done|done|by constructor|]. split; [|done]. rewrite E7, Hg. done.
Qed.

Lemma parse_any fuel : line_any fuel /\ pipe_any fuel /\ exec_any fuel /\ block_any fuel.
Proof.
  induction fuel as [|fuel (Hl & Hp & He & Hb)].
  - split_and!; intros p ts Ha; [lia|lia|lia|]. destruct ts; cbn; [done|lia].
  - auto using line_step, pipe_step, exec_step, block_step.
Qed.

(** * The words in the line *)

Fixpoint wordsOf (c : cmd) : list range :=
  match c with
  | EXEC argv => argv
  | REDIR c file _ _ => wordsOf c ++ [file]
  | PIPE a b | LIST a b => wordsOf a ++ wordsOf b
  | BACK c => wordsOf c
  end.

Lemma properCmd_words c : properCmd c -> Forall proper (wordsOf c).
Proof.
  induction c; cbn; [done| | | |done].
  - intros [? ?]. apply Forall_app. by auto.
  - intros [? ?]. apply Forall_app. by auto.
  - intros [? ?]. apply Forall_app. by auto.
Qed.

Definition terminate (rs : list range) (b : list Z) : list Z := foldl (fun b '(_, eq) => <[eq := 0]> b) b rs.

Lemma nulterminate_words c : forall b, nulterminate c b = terminate (wordsOf c) b.
Proof.
  unfold terminate. induction c as [argv|c IH [q e] m f|a IHa b' IHb|a IHa b' IHb|c IH]; intros b; cbn; [done| | | |done].
  - by rewrite IH, foldl_app.
  - by rewrite IHa, IHb, foldl_app.
  - by rewrite IHa, IHb, foldl_app.
Qed.

Lemma terminate_lookup rs : forall b i, terminate rs b !! i = if decide (i ∈ map snd rs) then (fun _ => 0) <$> b !! i else b !! i.
Proof.
  induction rs as [|[q e] rs IH]; intros b i; cbn [terminate foldl map snd].
  - by rewrite decide_False by (apply not_elem_of_nil).
  - fold (terminate rs (<[e := 0]> b)). rewrite IH. destruct (decide (i = e)) as [->|Hne].
    + rewrite (decide_True (P := e ∈ e :: _)) by (by left). rewrite list_lookup_insert.
      destruct (decide (e = e /\ e < length b)%nat) as [[_ Hl]|Hl].
      * destruct (lookup_lt_is_Some_2 b e Hl) as [x ->]. by case_decide.
      * rewrite (lookup_ge_None_2 b e) by (apply Nat.nlt_ge; naive_solver). by case_decide.
    + rewrite list_lookup_insert_ne by done. rewrite (decide_ext (i ∈ e :: map snd rs) (i ∈ map snd rs)); [done|]. rewrite elem_of_cons. naive_solver.
Qed.

Lemma terminate_length rs : forall b, length (terminate rs b) = length b.
Proof. induction rs as [|[q e] rs IH]; intros b; [done|]. cbn [terminate foldl]. fold (terminate rs (<[e := 0]> b)). rewrite IH. apply length_insert. Qed.

Lemma cstring_word w x : Forall wordChar w -> cstring (w ++ 0 :: x) = w.
Proof.
  intros Hw. unfold cstring. assert (E : lineLength (w ++ 0 :: x) = length w).
  { induction Hw as [|c w (Hc & _) _ IH]; cbn; [done|]. by rewrite (proj2 (Z.eqb_neq _ _) Hc), IH. }
  by rewrite E, take_app_length.
Qed.

(** In the terminated line every word is a C string. *)
Lemma terminate_word rs r : Forall proper rs -> r ∈ rs -> cstring (drop r.1 (terminate rs buf)) = word r.
Proof.
  intros Hall Hr. pose proof (proj1 (Forall_forall _ _) Hall r Hr) as ((Hlt & Hle) & Hw & _). destruct r as [q e]. cbn [fst snd] in *.
  set (b := terminate rs buf). assert (Hlen : length (word (q, e)) = (e - q)%nat) by (unfold word; cbn; rewrite length_take, length_drop; lia).
  assert (Htake : take (e - q) (drop q b) = word (q, e)).
  { apply list_eq_same_length with (e - q)%nat; [done|rewrite length_take, length_drop; unfold b; rewrite terminate_length, length_app; cbn; lia|].
    intros i x y Hi Hx Hy. rewrite lookup_take_lt, lookup_drop in Hx by done. unfold b in Hx. rewrite terminate_lookup in Hx.
    pose proof (Forall_lookup_1 _ _ _ _ Hw Hy) as Hchar. unfold word in Hy. cbn [fst snd] in Hy. rewrite lookup_take_lt, lookup_drop in Hy by done.
    rewrite decide_False in Hx; [|].
    - rewrite lookup_app_l in Hx by (by eapply lookup_lt_Some). congruence.
    - intros (r' & E' & Hr')%list_elem_of_fmap. destruct (proj1 (Forall_forall _ _) Hall r' Hr') as (_ & _ & Hstop). rewrite <- E' in Hstop. by eapply Hstop. }
  assert (He : b !! e = Some 0).
  { unfold b. rewrite terminate_lookup, decide_True by (apply list_elem_of_fmap; by exists (q, e)).
    destruct (lookup_lt_is_Some_2 buf e) as [x ->]; [rewrite length_app; cbn; lia|done]. }
  rewrite <- (take_drop (e - q) (drop q b)), Htake, drop_drop. replace (q + (e - q))%nat with e by lia. rewrite (drop_S b 0 e He). by apply cstring_word.
Qed.

End Lexing.

(** The tree as the program that runs it finds it, with the strings its
    pointers point to. *)
Fixpoint strings (b : list Z) (c : cmd) : scmd :=
  match c with
  | EXEC argv => SEXEC (map (fun r => cstring (drop r.1 b)) argv)
  | REDIR c file mode fd => SREDIR (strings b c) (cstring (drop file.1 b)) mode fd
  | PIPE x y => SPIPE (strings b x) (strings b y)
  | LIST x y => SLIST (strings b x) (strings b y)
  | BACK c => SBACK (strings b c)
  end.

Lemma strings_words l b c : (forall r, r ∈ wordsOf c -> cstring (drop r.1 b) = word l r) -> strings b c = strs l c.
Proof.
  induction c as [argv|c IH file m f|x IHx y IHy|x IHx y IHy|c IH]; cbn; intros H.
  - f_equal. apply list_fmap_ext. intros i r Hr. apply H. by eapply list_elem_of_lookup_2.
  - rewrite IH, H; [done|set_solver|set_solver].
  - rewrite IHx, IHy; [done|set_solver|set_solver].
  - rewrite IHx, IHy; [done|set_solver|set_solver].
  - by rewrite IH.
Qed.

Lemma lineLength_app l tl : Forall (fun c => c <> 0) l -> lineLength (l ++ 0 :: tl) = length l.
Proof. induction 1 as [|c l Hc _ IH]; cbn; [done|]. by rewrite (proj2 (Z.eqb_neq _ _) Hc), IH. Qed.

Lemma good_strings l tl c s : good l c s -> strings (nulterminate c (l ++ 0 :: tl)) c = denote s.
Proof.
  intros [Hc Hp]. rewrite nulterminate_words, <- Hc. apply strings_words. intros r Hr. apply terminate_word; [by apply properCmd_words|done].
Qed.

Lemma parsecmd_total l tl : Forall (fun c => c <> 0) l ->
  match parsecmd (l ++ 0 :: tl) 0%nat with
  | Ret (c, b) p => p = length l /\ exists s, wf 3 s /\ lexes l (tokens s) /\ strings b c = denote s
  | Panic msg => msg ∈ syntaxErrors
  | _ => False
  end.
Proof.
  intros Hl. destruct (lexes_total l Hl) as [ts Hts]. assert (Ha : ahead l 0 ts) by (split; [lia|by rewrite drop_0]).
  unfold parsecmd. rewrite lineLength_app by done.
  assert (Hset := proj1 (parse_any l tl (parseFuel (length l))) 0%nat ts Ha ltac:(unfold parseFuel; pose proof (ahead_length _ _ _ Ha); lia)).
  unfold mbind at 1, M_bind at 1. destruct (parseline (l ++ 0 :: tl) (length l) (parseFuel (length l)) 0%nat) as [c p| | | |]; cbn in Hset; try done.
  destruct Hset as (s & ts' & -> & Ha1 & Hs & Hg). destruct (peek_spec l tl p ts' [] Ha1) as (p1 & E1 & Ha2 & Hd). rewrite (bind_Ret _ _ _ _ _ E1), bind_gets.
  unfold id. destruct (Nat.eqb_spec p1 (length l)) as [Ep|Ep]; cbn [negb]; [|by right; left].
  split; [done|]. exists s. split; [done|]. split; [|by apply good_strings].
  destruct Ha2 as [_ Hend]. rewrite Ep, drop_all in Hend. inversion Hend as [|bl t r ts1 _ Ht _ _ Enil]; subst; [by rewrite app_nil_r in Hts|].
  destruct (text_head t Ht) as (x & y & Ex & _). rewrite Ex in Enil. by destruct bl.
Qed.

(** C25. The parser is total and sound: on every line it either reports one of
    its syntax errors or consumes the whole line and returns the tree of a
    sentence of the grammar whose tokens are those of the line; it never runs
    past the line nor loops. *)
Theorem parsecmd_sound l tl : Forall (fun c => c <> 0) l ->
  match parsecmd (l ++ 0 :: tl) 0%nat with
  | Ret (c, b) p => p = length l /\ exists s, wf 3 s /\ lexes l (tokens s) /\ strings b c = denote s
  | Panic msg => msg ∈ syntaxErrors
  | _ => False
  end.
Proof. apply parsecmd_total. Qed.

(** A word, a pipe and no command behind it: the empty command. *)
Lemma parsecmd_sound_witness : parsecmd [97; 124; 0] 0%nat = Ret (PIPE (EXEC [(0, 1)%nat]) (EXEC []), [97; 0; 0]) 2%nat /\
  exists s, wf 3 s /\ lexes [97; 124] (tokens s) /\ strings [97; 0; 0] (PIPE (EXEC [(0, 1)%nat]) (EXEC [])) = denote s.
Proof.
  assert (E : parsecmd ([97; 124] ++ 0 :: []) 0%nat = Ret (PIPE (EXEC [(0, 1)%nat]) (EXEC []), [97; 0; 0]) 2%nat) by (vm_compute; reflexivity).
  pose proof (parsecmd_sound [97; 124] [] ltac:(repeat constructor; discriminate)) as H. rewrite E in H. exact (conj E (proj2 H)).
Defined.

Lemma parsecmd_sentence l tl s : Forall (fun c => c <> 0) l -> lexes l (tokens s) -> wf 3 s ->
  exists c b, parsecmd (l ++ 0 :: tl) 0%nat = Ret (c, b) (length l) /\ strings b c = denote s.
Proof.
  intros Hl Hlex Hs. assert (Ha : ahead l 0 (tokens s ++ [])) by (split; [lia|by rewrite drop_0, app_nil_r]).
  unfold parsecmd. rewrite lineLength_app by done. pose proof (ahead_length _ _ _ Ha) as Hlen. rewrite app_nil_r in Hlen.
  destruct (wf_parses l tl 3 s Hs (parseFuel (length l)) 0%nat [] Ha ltac:(by left) ltac:(unfold parseFuel; lia)) as (c & p & E & Ha1 & Hg).
  rewrite (bind_Ret _ _ _ _ _ E). destruct (peek_spec l tl p [] [] Ha1) as (p1 & E1 & [Hp1 Ha2] & Hd). rewrite (bind_Ret _ _ _ _ _ E1), bind_gets. unfold id.
  assert (p1 = length l) as ->.
  { destruct Ha1 as [_ Ha1]. inversion Ha1 as [bl Hbl Ebl|]; subst. rewrite <- (app_nil_r (drop p l)), dropSpace_lead in Hd by done.
    by destruct (charAt_end l tl p1 Hd Hp1). }
  rewrite Nat.eqb_refl. cbn [negb]. eexists c, _. split; [reflexivity|]. by apply good_strings.
Qed.

(** C24. The shell parses every line that is a sentence of its grammar: if the
    characters of the line consist of the tokens of a sentence [s] (with any
    white space), [parsecmd] returns the tree that [s] denotes, its arguments
    and file names being the C strings at its pointers in the line as
    [nulterminate] leaves it, and the whole line is consumed. *)
Theorem parsecmd_complete l tl s : Forall (fun c => c <> 0) l -> lexes l (tokens s) -> wf 3 s ->
  exists c b, parsecmd (l ++ 0 :: tl) 0%nat = Ret (c, b) (length l) /\ strings b c = denote s.
Proof. apply parsecmd_sentence. Qed.

(** "(a;b)>f&", a sentence. *)
Lemma parsecmd_complete_witness : exists c b, parsecmd [40; 97; 59; 98; 41; 62; 102; 38; 0] 0%nat = Ret (c, b) 8%nat /\
  strings b c = SBACK (SREDIR (SLIST (SEXEC [[97]]) (SEXEC [[98]])) [102] 513 1).
Proof.
  apply (parsecmd_complete [40; 97; 59; 98; 41; 62; 102; 38] [] (Back (Block (Seq (Simple [] [([97], [])]) (Simple [] [([98], [])])) [(Output, [102])]))).
  - repeat constructor; discriminate.
  - cbn. repeat (apply (lex_tok [] (Sym _)) || apply (lex_tok [] (Word [_])) || (apply lex_end; constructor));
      try (constructor; fail); try (by apply (bool_decide_unpack _); vm_compute); cbn; try (split; [discriminate|repeat constructor; discriminate]); try (right; reflexivity); try discriminate.
  - repeat first [apply wf_back | apply wf_block | apply wf_seq | apply wf_simple; vm_compute; reflexivity | apply wf_up; [lia|]].
Defined.

