(* ===== verification/Run.v ===== *)
(** The programs that run in user space: the command interpreter and the prompt
    loop of sh.c, init.c and echo.c.

    A program is an interaction tree over the system calls it makes.  [Fork]
    answers twice, 0 in the child; [Exit] does not answer, and [Exec] answers
    only if it fails.  A computation that never returns has the result type
    [Empty_set].  [Print] is a call of printf with its rendered text (Printf has
    the rendering), [Gets] a call of gets (User) with the line it stores.

    The second part is the machine on which the processes of a command run: any
    of them may make the next step.  A pipe is named by the process that made
    it.  The specification is [launches]: which programs a command starts, and
    what their standard input and output are. *)

From ITree Require Import ITree.
From Paco Require Import paco.
From S2P Require Import Prelude Types Shell.

(** * System calls *)

Inductive sysE : Type -> Type :=
| Fork : sysE Z
| Exit : sysE Empty_set
| Wait : sysE Z
| MakePipe : sysE (option (Z * Z))
| Close (fd : Z) : sysE Z
| Dup (fd : Z) : sysE Z
| Open (file : list Z) (mode : Z) : sysE Z
| Exec (path : list Z) (argv : list (list Z)) : sysE Z
| Chdir (directory : list Z) : sysE Z
| Getcwd (size : Z) : sysE (Z * list Z)
| Gets (max : Z) : sysE (list Z)
| Print (text : list Z) : sysE unit.

Notation program := (itree sysE).

#[export] Instance program_ret : MRet program := fun A a => go (RetF a).
#[export] Instance program_bind : MBind program := fun A B k t => ITree.bind t k.

Definition call {X : Type} (e : sysE X) : program X := ITree.trigger e.

(** The bytes of a message. *)
Definition str (s : string) : list Z := map (fun a => Z.of_nat (Ascii.nat_of_ascii a)) (String.list_ascii_of_string s).
Definition newline : list Z := [10].

(** * sh.c *)

Definition exit {A : Type} : program A := v ← call Exit; match (v : Empty_set) with end.

Definition shPanic {A : Type} (s : string) : program A := call (Print (str s ++ newline));; exit.

Definition fork1 : program Z :=
  pid ← call Fork;
  if pid =? -1 then shPanic "fork" else mret pid.

(** The string at a pointer into the line. *)
Definition wordAt (buf : list Z) (r : range) : list Z := cstring (drop r.1 buf).

(** [runcmd] for a command that is not null: the switch. *)
Fixpoint runSwitch (buf : list Z) (c : cmd) : program Empty_set :=
  match c with
  | EXEC [] => exit
  | EXEC ((r :: _) as argv) =>
      call (Exec (wordAt buf r) (map (wordAt buf) argv));;
      call (Print (str "exec " ++ wordAt buf r ++ str " failed" ++ newline));;
      exit
  | REDIR c file mode fd =>
      call (Close fd);;
      r ← call (Open (wordAt buf file) mode);
      if r <? 0 then call (Print (str "open " ++ wordAt buf file ++ str " failed" ++ newline));; exit
      else runSwitch buf c
  | LIST lhs rhs =>
      pid ← fork1;
      if pid =? 0 then runSwitch buf lhs
      else call Wait;; runSwitch buf rhs
  | PIPE lhs rhs =>
      p ← call MakePipe;
      match p with
      | None => shPanic "Pipe"
      | Some (p0, p1) =>
          pid ← fork1;
          if pid =? 0 then
            call (Close 1);; call (Dup p1);; call (Close p0);; call (Close p1);; runSwitch buf lhs
          else
            pid ← fork1;
            if pid =? 0 then
              call (Close 0);; call (Dup p0);; call (Close p0);; call (Close p1);; runSwitch buf rhs
            else
              call (Close p0);; call (Close p1);; call Wait;; call Wait;; exit
      end
  | BACK c =>
      pid ← fork1;
      if pid =? 0 then runSwitch buf c else exit
  end.

Definition runcmd (buf : list Z) (cmd : option cmd) : program Empty_set :=
  match cmd with
  | None => exit
  | Some c => runSwitch buf c
  end.

(** [runcmd(parsecmd(buf))]; a syntax error prints its message and exits. *)
Definition runLine (buf : list Z) : program Empty_set :=
  match parsecmd buf 0%nat with
  | Ret (c, b) _ => runcmd b (Some c)
  | Panic s => shPanic s
  | _ => ITree.spin
  end.

Definition changeDirectory (path : list Z) : program unit :=
  r ← call (Chdir path);
  if r <? 0 then call (Print (str "changeDirectory couldn't execute...")) else mret tt.

(** The string in [buffer] afterwards. *)
Definition getCurrentDirectory (bufferSize : Z) : program (list Z) :=
  '(r, buffer) ← call (Getcwd bufferSize);
  (if r <? 0 then call (Print (str "getCurrentDirectory couldn't execute...")) else mret tt);;
  mret buffer.

(** [None] at the end of the input, otherwise the [nbuf] bytes of [buf]. *)
Definition getcmd (nbuf : Z) : program (option (list Z)) :=
  buffer ← getCurrentDirectory 255;
  call (Print (buffer ++ str "$ "));;
  line ← call (Gets nbuf);
  let buf := line ++ replicate (Z.to_nat nbuf - length line) 0 in
  if nth 0 buf 0 =? 0 then mret None else mret (Some buf).

Definition isChangeDirectory (buf : list Z) : bool := (nth 0 buf 0 =? 99) && (nth 1 buf 0 =? 100) && (nth 2 buf 0 =? 32).

(** One turn of the loop in [main]. *)
Definition shellTurn (_ : unit) : program (unit + Empty_set) :=
  line ← getcmd 100;
  match line with
  | None => exit
  | Some buf =>
      if isChangeDirectory buf then
        let buf := <[(lineLength buf - 1)%nat := 0]> buf in
        changeDirectory (cstring (drop 3 buf));;
        mret (inl tt)
      else
        pid ← fork1;
        if pid =? 0 then v ← runLine buf; mret (inr v)
        else call Wait;; mret (inl tt)
  end.

Definition shMain : program Empty_set := ITree.iter shellTurn tt.

(** * init.c *)

(** The loop over [wait]. *)
Definition reapTurn (pid : Z) (_ : unit) : program (unit + unit) :=
  wpid ← call Wait;
  if (wpid >=? 0) && negb (wpid =? pid) then call (Print (str "zombie!" ++ newline));; mret (inl tt)
  else mret (inr tt).

Definition initTurn (_ : unit) : program (unit + Empty_set) :=
  call (Print (str "init: starting sh.exe" ++ newline));;
  pid ← call Fork;
  if pid <? 0 then call (Print (str "init: fork failed" ++ newline));; exit
  else if pid =? 0 then
    call (Exec (str "/usrbin/sh.exe") [str "sh.exe"]);;
    call (Print (str "init: exec sh.exe failed" ++ newline));;
    exit
  else
    ITree.iter (reapTurn pid) tt;;
    mret (inl tt).

Definition initMain : program Empty_set := ITree.iter initTurn tt.

(** * echo.c *)

(** The arguments from index [i] on. *)
Fixpoint echoLoop (args : list (list Z)) : program unit :=
  match args with
  | [] => mret tt
  | a :: args =>
      call (Print (a ++ (match args with [] => newline | _ => [32] end)));;
      echoLoop args
  end.

Definition echoMain (argv : list (list Z)) : program Empty_set := echoLoop (drop 1 argv);; exit.

(** * The processes of a command *)

(** A process is named by the way to it: the child that is the [k]-th thing its
    parent made (child or pipe) has the parent's name followed by [k]. *)
Notation pid := (list nat).

(** What a descriptor refers to: something the shell already had, a file opened
    by name, an end of a pipe. *)
Inductive Obj : Type :=
| Inherited (n : nat)
| Named (file : list Z) (mode : Z)
| ReadEnd (p : pid * nat)
| WriteEnd (p : pid * nat).

Notation table := (list (option Obj)).

Definition slot (fds : table) (fd : Z) : option Obj := if fd <? 0 then None else fds !! Z.to_nat fd ≫= id.

(** The lowest free descriptor. *)
Definition lowest (fds : table) : option nat := fst <$> list_find (fun o => o = None) fds.

Definition place (o : Obj) (fds : table) : option (nat * table) :=
  i ← lowest fds; Some (i, <[i := Some o]> fds).

(** A program that was started: its arguments and its descriptors. *)
Notation launch := (list (list Z) * table)%type.

Section Machine.
Context (canExec : list Z -> bool) (canOpen : list Z -> Z -> bool).

(** The calls that concern only the caller: the answer, and the caller's count
    and descriptors afterwards. *)
Definition answer {X : Type} (e : sysE X) (me : pid) (k : nat) (fds : table) : option (X * nat * table) :=
  match e in sysE X return option (X * nat * table) with
  | Close fd => Some (match slot fds fd with Some _ => (0, k, <[Z.to_nat fd := None]> fds) | None => (-1, k, fds) end)
  | Dup fd => Some (match (o ← slot fds fd; place o fds) with Some (i, fds) => (Z.of_nat i, k, fds) | None => (-1, k, fds) end)
  | Open file mode => Some (match (if canOpen file mode then place (Named file mode) fds else None) with
      | Some (i, fds) => (Z.of_nat i, k, fds) | None => (-1, k, fds) end)
  | MakePipe => Some (match ('(i, fds) ← place (ReadEnd (me, k)) fds; '(j, fds) ← place (WriteEnd (me, k)) fds; Some (i, j, fds)) with
      | Some (i, j, fds) => (Some (Z.of_nat i, Z.of_nat j), S k, fds) | None => (None, k, fds) end)
  | Print _ => Some (tt, k, fds)
  | _ => None
  end.

Inductive Proc : Type :=
| Running (me : pid) (made : nat) (code : program Empty_set) (fds : table)
| Started (me : pid) (argv : list (list Z)) (fds : table)
| Ended (me : pid).

Definition pidOf (p : Proc) : pid := match p with Running me _ _ _ | Started me _ _ | Ended me => me end.

Definition isChildOf (me : pid) (p : Proc) : Prop := take (length me) (pidOf p) = me /\ length (pidOf p) = S (length me).

(** The processes, and the programs started so far. *)
Notation config := (list Proc * list launch)%type.

Inductive step : config -> config -> Prop :=
| step_tau l1 l2 log me k t u fds : observe t = TauF u ->
    step (l1 ++ Running me k t fds :: l2, log) (l1 ++ Running me k u fds :: l2, log)
| step_call l1 l2 log me k t fds X (e : sysE X) kont x k' fds' : observe t = VisF e kont -> answer e me k fds = Some (x, k', fds') ->
    step (l1 ++ Running me k t fds :: l2, log) (l1 ++ Running me k' (kont x) fds' :: l2, log)
| step_fork l1 l2 log me k t fds kont pid : observe t = VisF Fork kont -> 0 < pid ->
    step (l1 ++ Running me k t fds :: l2, log) (l1 ++ Running (me ++ [k]) 0 (kont 0) fds :: Running me (S k) (kont pid) fds :: l2, log)
| step_exit l1 l2 log me k t fds kont : observe t = VisF Exit kont ->
    step (l1 ++ Running me k t fds :: l2, log) (l1 ++ Ended me :: l2, log)
| step_exec l1 l2 log me k t fds path argv kont : observe t = VisF (Exec path argv) kont -> canExec path = true ->
    step (l1 ++ Running me k t fds :: l2, log) (l1 ++ Started me argv fds :: l2, log ++ [(argv, fds)])
| step_exec_fails l1 l2 log me k t fds path argv kont : observe t = VisF (Exec path argv) kont -> canExec path = false ->
    step (l1 ++ Running me k t fds :: l2, log) (l1 ++ Running me k (kont (-1)) fds :: l2, log)
| step_ends l1 l2 log me argv fds : step (l1 ++ Started me argv fds :: l2, log) (l1 ++ Ended me :: l2, log)
| step_wait l1 l2 l' log me k t fds kont q pid : observe t = VisF Wait kont -> l1 ++ l2 ≡ₚ Ended q :: l' -> isChildOf me (Ended q) -> 0 < pid ->
    step (l1 ++ Running me k t fds :: l2, log) (Running me k (kont pid) fds :: l', log)
| step_wait_none l1 l2 log me k t fds kont : observe t = VisF Wait kont -> Forall (fun p => ~ isChildOf me p) (l1 ++ l2) ->
    step (l1 ++ Running me k t fds :: l2, log) (l1 ++ Running me k (kont (-1)) fds :: l2, log).

Definition finished (c : config) : Prop := Forall (fun p => exists me, p = Ended me) c.1.

(** ** What a process will start *)

(** Within [n] steps, its own and those of its children, the process will have
    started the programs [l], whatever answers [Fork] and [Wait] give. *)
Inductive promises : nat -> program Empty_set -> pid -> nat -> table -> list launch -> Prop :=
| pr_tau n t u me k fds l : observe t = TauF u -> promises n u me k fds l -> promises (S n) t me k fds l
| pr_call n t me k fds X (e : sysE X) kont x k' fds' l : observe t = VisF e kont -> answer e me k fds = Some (x, k', fds') ->
    promises n (kont x) me k' fds' l -> promises (S n) t me k fds l
| pr_fork n1 n2 t me k fds kont l1 l2 : observe t = VisF Fork kont -> promises n1 (kont 0) (me ++ [k]) 0 fds l1 ->
    (forall pid, 0 < pid -> promises n2 (kont pid) me (S k) fds l2) -> promises (S (n1 + n2)) t me k fds (l1 ++ l2)
| pr_exit t me k fds kont : observe t = VisF Exit kont -> promises 1 t me k fds []
| pr_exec t me k fds path argv kont : observe t = VisF (Exec path argv) kont -> canExec path = true -> promises 2 t me k fds [(argv, fds)]
| pr_exec_fails n t me k fds path argv kont l : observe t = VisF (Exec path argv) kont -> canExec path = false ->
    promises n (kont (-1)) me k fds l -> promises (S n) t me k fds l
| pr_wait n t me k fds kont l : observe t = VisF Wait kont -> (forall r, promises n (kont r) me k fds l) -> promises (S n) t me k fds l.

(** What is still to come from a process. *)
Definition owes (p : Proc) (n : nat) (l : list launch) : Prop :=
  match p with
  | Running me k t fds => promises n t me k fds l
  | Started _ _ _ => n = 1%nat /\ l = []
  | Ended _ => n = 0%nat /\ l = []
  end.

Inductive owing : list Proc -> nat -> list launch -> Prop :=
| owing_nil : owing [] 0 []
| owing_cons p ps n m l l' : owes p n l -> owing ps m l' -> owing (p :: ps) (n + m) (l ++ l').

Ltac same_call :=
  match goal with
  | H1 : observe ?t = _, H2 : observe ?t = _ |- _ => rewrite H1 in H2; inversion H2; subst; clear H2
  end;
  repeat match goal with H : existT _ _ = existT _ _ |- _ => apply Eqdep.EqdepTheory.inj_pair2 in H; subst end.

(** The case of [promises] for the call that is made. *)
Ltac cases_of Hp := inversion Hp; subst; same_call; try discriminate; try congruence.

Lemma owing_app ps qs : forall n l, owing (ps ++ qs) n l <->
  exists n1 n2 l1 l2, n = (n1 + n2)%nat /\ l = l1 ++ l2 /\ owing ps n1 l1 /\ owing qs n2 l2.
Proof.
  induction ps as [|p ps IH]; intros n l; cbn [app]; split.
  - intros H. exists 0%nat, n, [], l. split_and!; [done|done|constructor|done].
  - intros (n1 & n2 & l1 & l2 & -> & -> & H1 & H2). by inversion H1; subst.
  - inversion 1 as [|? ? n1 m l1 l' H1 H2]; subst. apply IH in H2 as (n2 & n3 & l2 & l3 & -> & -> & H2 & H3).
    exists (n1 + n2)%nat, n3, (l1 ++ l2), l3. split_and!; [lia|by rewrite app_assoc|by constructor|done].
  - intros (n1 & n2 & l1 & l2 & -> & -> & H1 & H2). inversion H1 as [|? ? m1 m2 l3 l4 H3 H4]; subst.
    rewrite <- Nat.add_assoc, <- app_assoc. constructor; [done|]. apply IH. by exists m2, n2, l4, l2.
Qed.

Lemma owing_one p n l : owes p n l -> owing [p] n l.
Proof. intros H. rewrite <- (Nat.add_0_r n), <- (app_nil_r l). constructor; [done|constructor]. Qed.

(** The order of the processes does not matter. *)
Lemma owing_perm ps qs : ps ≡ₚ qs -> forall n l, owing ps n l -> exists l', l' ≡ₚ l /\ owing qs n l'.
Proof.
  induction 1 as [|p ps qs _ IH|p q ps|ps qs rs _ IH1 _ IH2]; intros n l Ho.
  - by exists l.
  - inversion Ho as [|? ? n1 m l1 l' H1 H2]; subst. destruct (IH _ _ H2) as (l2 & P2 & O2). exists (l1 ++ l2). split; [by rewrite P2|by constructor].
  - inversion Ho as [|? ? n1 m l1 l' H1 H2]; subst. inversion H2 as [|? ? n2 m2 l2 l3 H3 H4]; subst.
    exists (l2 ++ l1 ++ l3). split; [by rewrite (Permutation_app_swap_app l1 l2)|].
    replace (n1 + (n2 + m2))%nat with (n2 + (n1 + m2))%nat by lia. constructor; [done|by constructor].
  - destruct (IH1 _ _ Ho) as (l1 & P1 & O1). destruct (IH2 _ _ O1) as (l2 & P2 & O2). exists l2. split; [by rewrite P2|done].
Qed.

(** One process is taken out, others take its place. *)
Lemma owing_middle l1 p l2 m lm : owing (l1 ++ p :: l2) m lm ->
  exists n l r lr, owes p n l /\ m = (n + r)%nat /\ lm ≡ₚ l ++ lr /\
    forall qs n' l', owing qs n' l' -> exists lm', owing (l1 ++ qs ++ l2) (n' + r) lm' /\ lm' ≡ₚ l' ++ lr.
Proof.
  intros (n1 & n2 & a & b & -> & -> & H1 & H2)%owing_app. inversion H2 as [|? ? n r l lr Hp Hr]; subst.
  exists n, l, (n1 + r)%nat, (a ++ lr). split_and!; [done|lia|apply Permutation_app_swap_app|].
  intros qs n' l' Hq. exists (a ++ l' ++ lr). split; [|apply Permutation_app_swap_app].
  replace (n' + (n1 + r))%nat with (n1 + (n' + r))%nat by lia. apply owing_app. exists n1, (n' + r)%nat, a, (l' ++ lr). split_and!; try done.
  apply owing_app. by exists n', r, l', lr.
Qed.

Lemma pays l1 p l2 qs add m l : owing (l1 ++ p :: l2) m l ->
  (forall n lp, owes p n lp -> exists n' l', (n' < n)%nat /\ owing qs n' l' /\ add ++ l' ≡ₚ lp) ->
  exists m' l', (m' < m)%nat /\ owing (l1 ++ qs ++ l2) m' l' /\ add ++ l' ≡ₚ l.
Proof.
  intros (n & lp & r & lr & Hp & -> & Hl & Hput)%owing_middle Hpay. destruct (Hpay n lp Hp) as (n' & l' & Hlt & Hq & Hadd).
  destruct (Hput qs n' l' Hq) as (lm & Hm & Hlm). exists (n' + r)%nat, lm. split; [lia|]. split; [done|]. by rewrite Hlm, Hl, <- Hadd, app_assoc.
Qed.

(** A step of one process pays for itself. *)
Lemma pays_run l1 me k t fds l2 qs log m l : owing (l1 ++ Running me k t fds :: l2) m l ->
  (forall n lp, promises n t me k fds lp -> exists n' l', (n' < n)%nat /\ owing qs n' l' /\ l' ≡ₚ lp) ->
  exists m' l', (m' < m)%nat /\ owing (l1 ++ qs ++ l2) m' l' /\ log ++ l' ≡ₚ log ++ l.
Proof.
  intros Ho Hpay. destruct (pays l1 _ l2 qs [] m l Ho) as (m' & l' & H1 & H2 & H3); [exact Hpay|]. exists m', l'. split_and!; [done|done|by rewrite <- H3].
Qed.

Lemma pays_one me k t u k' fds fds' : (forall n lp, promises n t me k fds lp -> exists n', (n' < n)%nat /\ promises n' u me k' fds' lp) ->
  forall n lp, promises n t me k fds lp -> exists n' l', (n' < n)%nat /\ owing [Running me k' u fds'] n' l' /\ l' ≡ₚ lp.
Proof. intros H n lp Hp. destruct (H n lp Hp) as (n' & Hn & Hu). exists n', lp. split_and!; [done|by apply owing_one|done]. Qed.

Lemma step_owing c c' m l : step c c' -> owing c.1 m l -> exists m' l', (m' < m)%nat /\ owing c'.1 m' l' /\ c'.2 ++ l' ≡ₚ c.2 ++ l.
Proof.
  intros Hs Ho. destruct Hs as [l1 l2 log me k t u fds Ht|l1 l2 log me k t fds X e kont x k' fds' Ht Ha|l1 l2 log me k t fds kont pid Ht Hpid
    |l1 l2 log me k t fds kont Ht|l1 l2 log me k t fds path argv kont Ht Hc|l1 l2 log me k t fds path argv kont Ht Hc
    |l1 l2 log me argv fds|l1 l2 l' log me k t fds kont q pid Ht Hperm Hch Hpid|l1 l2 log me k t fds kont Ht Hno]; cbn [fst snd] in *.
  - apply (pays_run l1 me k t fds l2 [_] log m l Ho), pays_one. intros n lp Hp. cases_of Hp. eexists. split; [|eassumption]. lia.
  - apply (pays_run l1 me k t fds l2 [_] log m l Ho), pays_one. intros n lp Hp. cases_of Hp. simplify_eq. eexists. split; [|eassumption]. lia.
  - apply (pays_run l1 me k t fds l2 [_; _] log m l Ho). intros n lp Hp. cases_of Hp.
    eexists _, _. split; [apply Nat.lt_succ_diag_r|]. split; [constructor; [eassumption|]|done]. apply owing_one. cbn [owes]. eauto.
  - apply (pays_run l1 me k t fds l2 [_] log m l Ho). intros n lp Hp. cases_of Hp.
    exists 0%nat, []. split_and!; [lia|by apply owing_one|done].
  - destruct (pays l1 (Running me k t fds) l2 [Started me argv fds] [(argv, fds)] m l Ho) as (m' & l' & H1 & H2 & H3).
    { intros n lp Hp. cbn in Hp. cases_of Hp. exists 1%nat, []. split_and!; [lia|by apply owing_one|done]. }
    exists m', l'. split_and!; [done|done|]. by rewrite <- app_assoc, H3.
  - apply (pays_run l1 me k t fds l2 [_] log m l Ho), pays_one. intros n lp Hp. cases_of Hp.
    eexists. split; [|eassumption]. lia.
  - destruct (pays l1 (Started me argv fds) l2 [Ended me] [] m l Ho) as (m' & l' & H1 & H2 & H3).
    { intros n lp [-> ->]. exists 0%nat, []. split_and!; [lia|by apply owing_one|done]. }
    exists m', l'. split_and!; [done|done|by rewrite <- H3].
  - assert (Hpm : l1 ++ Running me k t fds :: l2 ≡ₚ Running me k t fds :: Ended q :: l') by (rewrite <- Hperm; symmetry; apply Permutation_middle).
    destruct (owing_perm _ _ Hpm _ _ Ho) as (l0 & P0 & O0).
    inversion O0 as [|? ? n1 m1 a b Hr Hrest]; subst. inversion Hrest as [|? ? n2 m2 a' b' He Hl']; subst. destruct He as [-> ->].
    destruct (pays_run [] me k t fds l' [Running me k (kont pid) fds] log (n1 + m2) (a ++ b')) as (m' & l'' & H1 & H2 & H3).
    { by constructor. }
    { apply pays_one. intros n lp Hp. cases_of Hp. eexists. split; [|by auto]. lia. }
    exists m', l''. split_and!; [lia|done|]. by rewrite H3, <- P0.
  - apply (pays_run l1 me k t fds l2 [_] log m l Ho), pays_one. intros n lp Hp. cases_of Hp.
    eexists. split; [|by auto]. lia.
Qed.

(** ** Progress *)

Definition ended (p : Proc) : bool := match p with Ended _ => true | _ => false end.

(** Among the processes that have not ended one is at the greatest depth. *)
Lemma deepest ps : Forall (fun p => ended p = true) ps \/
  exists p, p ∈ ps /\ ended p = false /\ forall q, q ∈ ps -> ended q = false -> (length (pidOf q) <= length (pidOf p))%nat.
Proof.
  induction ps as [|p ps [IH|(q & Hq & Eq & Hmax)]]; [by left| |].
  - destruct (ended p) eqn:E; [left; by constructor|right]. exists p. split; [left|]. split; [done|].
    intros q [->|Hq]%elem_of_cons Eq; [lia|]. rewrite (proj1 (Forall_forall _ _) IH q Hq) in Eq. done.
  - right. destruct (decide (ended p = false /\ (length (pidOf q) < length (pidOf p))%nat)) as [[Ep Hlt]|Hno].
    + exists p. split; [left|]. split; [done|]. intros r [->|Hr]%elem_of_cons Er; [lia|]. specialize (Hmax r Hr Er). lia.
    + exists q. split; [by right|]. split; [done|]. intros r [->|Hr]%elem_of_cons Er; [|by apply Hmax].
      destruct (decide (length (pidOf q) < length (pidOf p))%nat); [exfalso; by apply Hno|lia].
Qed.

Lemma progress ps log m l : owing ps m l -> finished (ps, log) \/ exists c', step (ps, log) c'.
Proof.
  intros Ho. destruct (deepest ps) as [Hall|(p & Hp & Ep & Hmax)].
  { left. eapply Forall_impl; [exact Hall|]. intros [| |me] H; try done. by exists me. }
  right. apply list_elem_of_split in Hp as (l1 & l2 & ->). destruct (owing_middle _ _ _ _ _ Ho) as (n & lp & _ & _ & Hown & _).
  destruct p as [me k t fds|me argv fds|me]; [|eexists; apply step_ends|done]. cbn in Hown.
  inversion Hown; subst; try (eexists; econstructor; by eauto).
  - eexists. eapply (step_fork _ _ _ _ _ _ _ _ 1); [done|lia].
  - destruct (decide (Exists (fun q => isChildOf me q) (l1 ++ l2))) as [Hc|Hn].
    + apply Exists_exists in Hc as (q & Hq & Hc). destruct (ended q) eqn:Eq.
      * destruct q as [| |q]; try done. apply elem_of_Permutation in Hq as [l' Hl']. eexists. by eapply (step_wait _ _ l' _ _ _ _ _ _ q 1).
      * exfalso. specialize (Hmax q ltac:(set_solver) Eq). destruct Hc as [_ Hc]. cbn in Hmax. lia.
    + eexists. eapply step_wait_none; [done|]. by apply Forall_Exists_neg.
Qed.

Lemma finished_stops c c' : finished c -> ~ step c c'.
Proof.
  intros Hf Hs. unfold finished in Hf. destruct Hs; cbn in Hf; apply Forall_app in Hf as [_ [[? Hf] _]%Forall_cons]; discriminate.
Qed.

(** Every run ends after at most as many steps as were promised, and what was
    promised has been started. *)
Lemma runs_finish n : forall c c' m l, owing c.1 m l -> nsteps step n c c' ->
  (n <= m)%nat /\ ((finished c' /\ c'.2 ≡ₚ c.2 ++ l) \/ exists c'', step c' c'').
Proof.
  induction n as [|n IH]; intros c c' m l Ho Hn.
  - inversion Hn; subst. split; [lia|]. destruct c' as [ps log]. cbn in *. destruct (progress ps log m l Ho) as [Hf|Hs]; [left|by right].
    split; [done|]. assert (Hl : l = []); [|by rewrite Hl, app_nil_r]. clear -Ho Hf. unfold finished in Hf. cbn in Hf.
    induction Ho as [|p ps n m l l' Hp _ IH]; [done|]. apply Forall_cons in Hf as [[me ->] Hf]. destruct Hp as [_ ->]. by apply IH.
  - inversion Hn as [|? ? c1 ? Hs Hrest]; subst. destruct (step_owing c c1 m l Hs Ho) as (m' & l' & Hlt & Ho' & Hl).
    destruct (IH c1 c' m' l' Ho' Hrest) as [Hle Hcase]. split; [lia|]. destruct Hcase as [[Hf Hlog]|Hmore]; [left|by right].
    split; [done|]. by rewrite Hlog, Hl.
Qed.

(** ** The interpreter *)

Lemma promises_observe n t t' me k fds l : observe t = observe t' -> promises n t me k fds l -> promises n t' me k fds l.
Proof.
  intros E Hp. inversion Hp; subst; match goal with H : observe t = _ |- _ => rewrite E in H end;
    [eapply pr_tau|eapply pr_call|eapply pr_fork|eapply pr_exit|eapply pr_exec|eapply pr_exec_fails|eapply pr_wait]; by eauto.
Qed.

Lemma observe_call {X A} (e : sysE X) (f : X -> program A) : observe (call e ≫= f) = VisF e (fun x => ITree.bind (go (RetF x)) f).
Proof. reflexivity. Qed.

Section Steps.
Context (me : pid) (k : nat) (fds : table).

Lemma do_call {X} (e : sysE X) f x k' fds' n l : answer e me k fds = Some (x, k', fds') ->
  promises n (f x) me k' fds' l -> promises (S n) (call e ≫= f) me k fds l.
Proof. intros Ha Hp. eapply pr_call; [apply observe_call|exact Ha|]. by eapply promises_observe; [|exact Hp]. Qed.

Lemma do_exit : promises 1 exit me k fds [].
Proof. eapply pr_exit. apply observe_call. Qed.

Lemma do_exec path argv f : canExec path = true -> promises 2 (call (Exec path argv) ≫= f) me k fds [(argv, fds)].
Proof. intros Hc. eapply pr_exec; [apply observe_call|done]. Qed.

Lemma do_exec_fails path argv f n l : canExec path = false -> promises n (f (-1)) me k fds l ->
  promises (S n) (call (Exec path argv) ≫= f) me k fds l.
Proof. intros Hc Hp. eapply pr_exec_fails; [apply observe_call|done|]. by eapply promises_observe; [|exact Hp]. Qed.

Lemma do_wait f n l : (forall r, promises n (f r) me k fds l) -> promises (S n) (call Wait ≫= f) me k fds l.
Proof. intros Hp. eapply pr_wait; [apply observe_call|]. intros r. by eapply promises_observe; [|exact (Hp r)]. Qed.

(** The two ways after [fork1]. *)
Lemma do_fork child parent n1 n2 l1 l2 : promises n1 child (me ++ [k]) 0 fds l1 -> promises n2 parent me (S k) fds l2 ->
  promises (S (n1 + n2)) (pid ← fork1; if pid =? 0 then child else parent) me k fds (l1 ++ l2).
Proof.
  intros H1 H2. eapply (pr_fork _ _ _ _ _ _ (fun x => ITree.bind (ITree.bind (go (RetF x)) (fun pid => if pid =? -1 then shPanic "fork" else mret pid))
    (fun pid => if pid =? 0 then child else parent))); [reflexivity| |].
  - by eapply promises_observe; [|exact H1].
  - intros p Hp. eapply promises_observe; [|exact H2]. by destruct p; [lia| |lia].
Qed.

Lemma do_print s n l : promises n exit me k fds l -> promises (S n) (call (Print s);; exit) me k fds l.
Proof. intros Hp. by eapply do_call. Qed.

End Steps.

(** The descriptors of a process of the shell: standard input, output and error,
    nothing else. *)
Definition std (f : list Obj) : table := map Some f ++ replicate 13 None.

(** The programs that a command starts, with their descriptors.  A pipe gets its
    name from the process that makes it. *)
Fixpoint launches (c : scmd) (me : pid) (k : nat) (f : list Obj) : list launch :=
  match c with
  | SEXEC [] => []
  | SEXEC ((path :: _) as argv) => if canExec path then [(argv, std f)] else []
  | SREDIR c file mode fd => if canOpen file mode then launches c me k (<[Z.to_nat fd := Named file mode]> f) else []
  | SPIPE x y =>
      launches x (me ++ [S k]) 0 (<[1%nat := WriteEnd (me, k)]> f) ++ launches y (me ++ [S (S k)]) 0 (<[0%nat := ReadEnd (me, k)]> f)
  | SLIST x y => launches x (me ++ [k]) 0 f ++ launches y me (S k) f
  | SBACK c => launches c (me ++ [k]) 0 f
  end.

(** Redirections are of standard input and output. *)
Fixpoint redirs01 (c : scmd) : Prop :=
  match c with
  | SEXEC _ => True
  | SREDIR c _ _ fd => (fd = 0 \/ fd = 1) /\ redirs01 c
  | SPIPE x y | SLIST x y => redirs01 x /\ redirs01 y
  | SBACK c => redirs01 c
  end.

Lemma run_promises buf c : forall me k f, redirs01 (strings buf c) -> length f = 3%nat ->
  exists n, promises n (runSwitch buf c) me k (std f) (launches (strings buf c) me k f).
Proof.
  induction c as [argv|c IH file mode fd|x IHx y IHy|x IHx y IHy|c IH]; intros me k f Hfd Hf; cbn [runSwitch strings launches redirs01] in *.
  - destruct argv as [|r argv]; [exists 1%nat; apply do_exit|]. cbn [map]. fold (wordAt buf r). destruct (canExec (wordAt buf r)) eqn:E.
    + exists 2%nat. by apply do_exec.
    + eexists. apply do_exec_fails; [done|]. apply do_print, do_exit.
  - destruct f as [|o0 [|o1 [|o2 [|? ?]]]]; try done. destruct Hfd as [Hfd Hc]. fold (wordAt buf file). destruct (canOpen (wordAt buf file) mode) eqn:E.
    + destruct (IH me k (<[Z.to_nat fd := Named (wordAt buf file) mode]> [o0; o1; o2]) Hc) as [n Hn]; [by rewrite length_insert|].
      exists (S (S n)). destruct Hfd as [-> | ->]; (eapply do_call; [reflexivity|]); (eapply do_call; [cbn; rewrite E; reflexivity|]); exact Hn.
    + exists 4%nat. destruct Hfd as [-> | ->]; (eapply do_call; [reflexivity|]); (eapply do_call; [cbn; rewrite E; reflexivity|]); apply do_print, do_exit.
  - destruct f as [|o0 [|o1 [|o2 [|? ?]]]]; try done. destruct Hfd as [Hx Hy].
    destruct (IHx (me ++ [S k]) 0%nat [o0; WriteEnd (me, k); o2] Hx ltac:(done)) as [n1 H1]. destruct (IHy (me ++ [S (S k)]) 0%nat [ReadEnd (me, k); o1; o2] Hy ltac:(done)) as [n2 H2].
    eexists. eapply do_call; [reflexivity|]. cbv beta iota. apply do_fork.
    + do 4 (eapply do_call; [reflexivity|]). exact H1.
    + rewrite <- (app_nil_r (launches (strings buf y) _ _ _)). apply do_fork.
      * do 4 (eapply do_call; [reflexivity|]). exact H2.
      * do 2 (eapply do_call; [reflexivity|]). do 2 (apply do_wait; intros _). apply do_exit.
  - destruct Hfd as [Hx Hy]. destruct (IHx (me ++ [k]) 0%nat f Hx Hf) as [n1 H1]. destruct (IHy me (S k) f Hy Hf) as [n2 H2].
    eexists. apply do_fork; [exact H1|]. apply do_wait. intros _. exact H2.
  - destruct (IH (me ++ [k]) 0%nat f Hfd Hf) as [n1 H1]. eexists. rewrite <- (app_nil_r (launches _ _ _ _)). apply do_fork; [exact H1|apply do_exit].
Qed.

End Machine.

(** * Command lines *)

Lemma redirs01_swrap rs c : redirs01 c -> redirs01 (swrap rs c).
Proof. unfold swrap. revert c. induction rs as [|[[]] rs IH]; intros c Hc; cbn; [done|..]; apply IH; cbn; (split; [by (left + right)|done]). Qed.

Lemma redirs01_denote s : redirs01 (denote s).
Proof. induction s; cbn; try done; by apply redirs01_swrap. Qed.



(** * The loops *)

(** The calls that do not end a program, and the answers that are looked at:
    [Fork] succeeds and answers the parent, and a line has been typed. *)
Definition goesOn {X : Type} (e : sysE X) : bool := match e with Exit | Exec _ _ => false | _ => true end.

Definition expected {X : Type} (e : sysE X) : X -> Prop :=
  match e in sysE X return X -> Prop with
  | Fork => fun pid => 0 < pid
  | Gets _ => fun line => exists c rest, line = c :: rest /\ c <> 0
  | _ => fun _ => True
  end.

(** A program that goes on for ever. *)
Inductive keepsF (r : program Empty_set -> Prop) : itree' sysE Empty_set -> Prop :=
| keeps_tau t : r t -> keepsF r (TauF t)
| keeps_call X (e : sysE X) k : goesOn e = true -> (forall x, expected e x -> r (k x)) -> keepsF r (VisF e k).

Definition keeps_gen (r : program Empty_set -> Prop) (t : program Empty_set) : Prop := keepsF r (observe t).

Lemma keeps_mon : monotone1 keeps_gen.
Proof. intros t r r' H LE. unfold keeps_gen in *. destruct H; constructor; auto. Qed.
#[local] Hint Resolve keeps_mon : paco.

Definition keeps (t : program Empty_set) : Prop := paco1 keeps_gen bot1 t.

(** A program that goes on and returns with [Q]. *)
Inductive within {A : Type} (Q : A -> Prop) (t : program A) : Prop :=
| wi_ret a : observe t = RetF a -> Q a -> within Q t
| wi_tau u : observe t = TauF u -> within Q u -> within Q t
| wi_call X (e : sysE X) k : observe t = VisF e k -> goesOn e = true -> (forall x, expected e x -> within Q (k x)) -> within Q t.

Lemma observe_bind {A B} (t : program A) (f : A -> program B) :
  observe (t ≫= f) = match observe t with
    | RetF a => observe (f a) | TauF u => TauF (u ≫= f) | VisF e k => VisF e (fun x => k x ≫= f) end.
Proof.
  change (observe (t ≫= f)) with (observe (match observe t with
    | RetF a => f a | TauF u => go (TauF (u ≫= f)) | VisF e k => go (VisF e (fun x => k x ≫= f)) end)). by destruct (observe t).
Qed.

Lemma within_mret {A} (Q : A -> Prop) a : Q a -> within Q (mret a).
Proof. intros H. by eapply wi_ret. Qed.

Lemma within_bind {A B} (Q : A -> Prop) (R : B -> Prop) t f : within Q t -> (forall a, Q a -> within R (f a)) -> within R (t ≫= f).
Proof.
  intros Ht Hf. induction Ht as [t a E Ha|t u E _ IH|t X e k E He _ IH].
  - destruct (Hf a Ha) as [b E' Hb|u E' Hu|X e k E' He Hk].
    + eapply wi_ret; [|exact Hb]. by rewrite observe_bind, E.
    + eapply wi_tau; [|exact Hu]. by rewrite observe_bind, E.
    + eapply wi_call; [|exact He|exact Hk]. by rewrite observe_bind, E.
  - eapply wi_tau; [|exact IH]. by rewrite observe_bind, E.
  - eapply wi_call; [|exact He|exact IH]. by rewrite observe_bind, E.
Qed.

Lemma within_call {X B} (e : sysE X) (R : B -> Prop) f : goesOn e = true -> (forall x, expected e x -> within R (f x)) -> within R (call e ≫= f).
Proof. intros He Hf. eapply within_bind; [|exact Hf]. eapply (wi_call _ _ _ e); [reflexivity|done|]. intros x Hx. by eapply wi_ret. Qed.

(** A loop whose turns go on and ask for the next turn keeps going. *)
Lemma keeps_iter {I} (body : I -> program (I + Empty_set)) i : (forall i, within (fun x => exists j, x = inl j) (body i)) -> keeps (ITree.iter body i).
Proof.
  intros Hb. revert i. pcofix CIH. intros i.
  set (next := fun lr : I + Empty_set => match lr with inl j => go (TauF (ITree.iter body j)) | inr v => go (RetF v) end).
  assert (Hgo : forall t, within (fun x => exists j, x = inl j) t -> paco1 keeps_gen r (t ≫= next)).
  { intros t Ht. induction Ht as [t a E [j ->]|t u E _ IH|t X e k E He _ IH]; pfold; unfold keeps_gen; rewrite observe_bind, E; cbn.
    - constructor. right. apply CIH.
    - constructor. by left.
    - constructor; [done|]. intros x Hx. left. by apply IH. }
  specialize (Hgo _ (Hb i)). by punfold Hgo.
Qed.

Lemma getcmd_line : within (fun o => exists buf, o = Some buf) (getcmd 100).
Proof.
  unfold getcmd, getCurrentDirectory. eapply (within_bind (fun _ => True)).
  - apply within_call; [done|]. intros [r buffer] _. eapply (within_bind (fun _ => True)); [|intros _ _; by apply within_mret].
    destruct (r <? 0); [|by apply within_mret]. eapply (wi_call _ _ _ (Print _)); [reflexivity|done|]. intros x _. by apply within_mret.
  - intros buffer _. apply within_call; [done|]. intros _ _. apply within_call; [done|]. intros line (c & rest & -> & Hc). cbn [app nth].
    rewrite (proj2 (Z.eqb_neq c 0)) by done. apply within_mret. by eexists.
Qed.


(** * echo *)

(** What a program prints before it exits. *)
Inductive prints : program Empty_set -> list Z -> Prop :=
| prints_exit t k : observe t = VisF Exit k -> prints t []
| prints_print t s k l : observe t = VisF (Print s) k -> prints (k tt) l -> prints t (s ++ l).

(** Words separated by blanks, with a newline at the end. *)
Fixpoint echoText (args : list (list Z)) : list Z :=
  match args with
  | [] => []
  | [a] => a ++ newline
  | a :: args => a ++ [32] ++ echoText args
  end.

Lemma prints_observe t t' l : observe t = observe t' -> prints t l -> prints t' l.
Proof. intros E Hp. inversion Hp; subst; [eapply prints_exit|eapply prints_print]; rewrite <- ?E; done. Qed.

(** echo prints its arguments. *)
Lemma echo_prints name args : prints (echoMain (name :: args)) (echoText args).
Proof.
  unfold echoMain. change (drop 1 (name :: args)) with args. induction args as [|a args IH].
  - apply (prints_observe exit); [reflexivity|]. eapply prints_exit. apply observe_call.
  - replace (echoText (a :: args)) with ((a ++ match args with [] => newline | _ => [32] end) ++ echoText args)
      by (destruct args; cbn [echoText]; by rewrite ?app_nil_r, <- ?app_assoc).
    apply (prints_print _ _ (fun x => ITree.bind (ITree.bind (go (RetF x)) (fun _ => echoLoop args)) (fun _ => exit))); [reflexivity|].
    by eapply prints_observe; [|exact IH].
Qed.
