(* ===== verification/Boot.v ===== *)
(** kernel_main.c: the way from the boot loader to the first user process.

    [main] runs on the boot processor only; it ends in the scheduler, here up to
    the choice of the first process.  [handler] is the interrupt that may come
    in while the scheduler has interrupts enabled; [kernelEnd], [data] and the
    bounds of the first user program come from the linker, [vectors] is the
    generated table of trap entries. *)

From S2P Require Import Prelude CString CArray Types Fat12 Fat12Dir Fat12Open Spinlock Kernel Kalloc Sched Idle Sleeplock Ide Apic Disk Bio Pipe Files Console Mp Vm Space Proc Fork Trap.

(** * kernel_main.c *)

(** "cpu%d: starting %d\n" *)
Definition startingText : list Z :=
  [99; 112; 117; 37; 100; 58; 32; 115; 116; 97; 114; 116; 105; 110; 103; 32; 37; 100; 10].

(** The end of the memory that the first page table maps. *)
Definition LOWER_END : Z := 4 * 1024 * 1024.

Section Main.
Context (kernelEnd data trapret forkretAddress initcode_start initcode_end : Z) (vectors : Z -> Z).
Context (handler : M KState unit) `{Hardware} `{Scheduler}.

(** [scheduler] (proc.c) up to its first choice; [None] after an empty round. *)
Definition schedulerEntry : M KState (option nat) :=
  c ← locked myCpu;
  setCpuProcess c None;;
  locked enableInterrupts;;
  interrupted handler;;
  acquire L_processTable;;
  schedulerScan (Z.to_nat NPROC) c 0.

(** [atomicExchange(&(myCpu()->Started), 1)] *)
Definition markStarted : M KState unit :=
  c ← locked myCpu;
  x ← locked (getCpu c);
  locked (putCpu c (mkCpu (Apicid x) 1 (CliDepth x) (InterruptsEnabled x) (CpuProcess x))).

Definition mpmain : M KState (option nat) :=
  a ← locked cpuId;
  b ← locked cpuId;
  cprintf (Some startingText) [Num a; Num b];;
  interruptDescriptorTableInitialise;;
  markStarted;;
  schedulerEntry.

Definition main : M KState (option nat) :=
  initialiseLowerkernelMemory kernelEnd kernelEnd (P2V LOWER_END);;
  allocateKernelVirtualMemory kernelEnd data;;
  mpinit;;
  localApicInitialise;;
  initialiseGDT;;
  picInitialise;;
  (ioapic ← gets ioapicid; ioApicInitialise ioapic);;
  consoleInitialise;;
  processTableInitialise;;
  trapVectorsInitialise vectors;;
  diskBufferCacheInitialise;;
  filesInitialise;;
  ideInitialise;;
  initialiseRestOfkernelMemory kernelEnd (P2V LOWER_END) (P2V PHYSTOP);;
  initialiseFirstUserProcess kernelEnd data trapret forkretAddress initcode_start initcode_end;;
  mpmain.

End Main.

(** * The first process *)

Section First.
Context (kernelEnd data trapret forkretAddress : Z).
Notation page_ok := (page_ok kernelEnd).
Notation vm_state := (vm_state kernelEnd).
Notation as_ok := (as_ok kernelEnd).

(** The first page of the first process: the program, then zeros. *)
Lemma initialiseUser_spec s D F free init n : vm_state s D (F :: free) -> as_ok (kmem s) D (F :: free) -> free <> [] ->
  (forall v, 0 <= v < KERNBASE -> present (entry (kmem s) D v) = false) -> 0 < n < 4096 -> 0 <= init -> init + n <= kernelEnd ->
  exists s' free', initialiseUserVirtualMemory D init n s = Ret tt s' /\ space_step kernelEnd s D (F :: free) s' free' /\
    (forall v, 0 <= v < KERNBASE -> userByte (kmem s') D v =
      if decide (v < n) then Some (kmem s' (init + v)) else if decide (v < 4096) then Some 0 else None) /\
    (forall v, KERNBASE <= v < 4294967296 -> entry (kmem s') D v = entry (kmem s) D v).
Proof.
  intros Hvm Has Hne Hnone Hn Hi Hend. assert (HK : KERNBASE = 2147483648) by done.
  destruct (fresh_page kernelEnd s D F free Hvm) as (s1 & E1 & HF0 & HF & Hst2 & Hout2 & Hz2 & Hent2). cbv zeta in *. set (s2 := set_kmem _ s1) in *.
  destruct (as_step kernelEnd _ _ _ _ _ Hst2 Has Hent2) as [Has2 _].
  assert (Hnone2 : forall v, 0 <= v < KERNBASE -> present (entry (kmem s2) D v) = false) by (intros v Hv; rewrite Hent2 by lia; by apply Hnone).
  destruct (map_frame kernelEnd s2 D free F 0 6 (step_state _ _ _ _ _ _ Hst2) Has2 Hout2) as (s3 & f3 & E3 & Hst3 & _ & Has3 & Hent3 & Hub3); try done; try lia.
  { intros v Hv Hp. by rewrite Hnone2 in Hp. }
  { apply Hnone2. lia. }
  destruct (frame_word kernelEnd F 6 HF ltac:(lia)) as (_ & _ & _ & Hpw & Hfw). pose proof (page_range kernelEnd F HF) as HFr. assert (HFe : kernelEnd <= F) by apply HF.
  assert (Hss : space_step kernelEnd s D (F :: free) s3 f3).
  { apply space_step_vm; [by eapply vm_step_trans|done|]. intros v Hv. unfold frameOf. rewrite Hent3 by lia. case_decide.
    - intros _. right. rewrite Hfw. set_solver.
    - intros Hp. by rewrite Hnone2 in Hp. }
  set (m4 := memmove (kmem s3) F init n).
  assert (Hm4 : forall a, m4 a = if (F <=? a) && (a <? F + n) then kmem s3 (init + (a - F)) else kmem s3 a) by (intros a; apply memmove_block; lia).
  assert (Hb3 : mem_bytes (kmem s3)) by apply (pt_bytes _ _ _ _ (vm_table _ _ _ _ (ss_vm _ _ _ _ _ _ Hss))).
  assert (He0 : entry (kmem s3) D 0 = pteWord (V2P F) 6) by (rewrite Hent3, decide_True by lia; done).
  destruct (bytes_step kernelEnd s3 D f3 0 n (fun i => kmem s3 (init + i)) m4) as (Hst4 & Hub4 & Hent4);
    [apply Hss|apply Hss|lia|lia|change (0 mod 4096) with 0; lia|lia|by rewrite He0, Hpw| | |].
  { intros a. rewrite Hm4. unfold frameOf. rewrite He0, Hfw. change (0 mod 4096) with 0. by rewrite Z.add_0_r. }
  { intros a. rewrite Hm4. case_match; apply Hb3. }
  exists (set_kmem m4 s3), f3. split; [|split; [by eapply space_step_trans|split]].
  - unfold initialiseUserVirtualMemory. rewrite Z.geb_leb, (proj2 (Z.leb_gt _ _)) by (unfold PGSIZE; lia).
    rewrite (bind_Ret _ _ _ _ _ E1), (proj2 (Z.eqb_neq _ _) HF0), bind_puts. fold s2. by rewrite (bind_Ret _ _ _ _ _ E3).
  - intros v Hv. cbn [kmem set_kmem]. rewrite Hub4 by done. destruct (decide (v < n)) as [Dn|Dn].
    + rewrite decide_True by lia. rewrite Hm4. destruct (Z.leb_spec F (init + v)); [lia|]. cbn [andb]. by rewrite Z.sub_0_r.
    + rewrite decide_False by lia. rewrite Hub3 by done. change (0 / 4096) with 0. destruct (decide (v < 4096)).
      * rewrite decide_True by zdiv. f_equal. apply Hz2, in_frame.
      * rewrite decide_False by zdiv. unfold userByte. by rewrite Hnone2.
  - intros v Hv. cbn [kmem set_kmem]. rewrite Hent4, Hent3 by lia. rewrite decide_False by zdiv. apply Hent2. lia.
Qed.

(** The registers with which the first process starts. *)
Definition firstFrame (m : mem) (tf : Z) : mem :=
  let m := memset m tf 0 TRAPFRAME_SIZE in
  let ds := Z.lor (Z.shiftl SEG_UDATA 3) DPL_USER in
  let m := store16 m (padd tf TF_CS) (Z.lor (Z.shiftl SEG_UCODE 3) DPL_USER) in
  let m := store16 m (padd tf TF_DS) ds in
  let m := store16 m (padd tf TF_ES) ds in
  let m := store16 m (padd tf TF_SS) ds in
  let m := store32 m (padd tf TF_EFLAGS) FL_IF in
  let m := store32 m (padd tf TF_ESP) PGSIZE in
  store32 m (padd tf TF_EIP) 0.

(** User code and data segments, interrupts on, the stack at the end of the page,
    execution at address 0. *)
Record startsUser (m : mem) (tf : Z) : Prop := {
  su_eip : load32 m (tf + TF_EIP) = 0;
  su_esp : load32 m (tf + TF_ESP) = PGSIZE;
  su_eflags : load32 m (tf + TF_EFLAGS) = FL_IF;
  su_cs : m (tf + TF_CS) = 27 /\ m (tf + TF_CS + 1) = 0;
  su_ss : m (tf + TF_SS) = 35 /\ m (tf + TF_SS + 1) = 0
}.

Lemma store16_out m a w x : 0 <= a -> a + 2 <= 4294967296 -> ~ (a <= x < a + 2) -> store16 m a w x = m x.
Proof. intros Ha Hr Hx. unfold store16. rewrite padd_small by lia. by rewrite !upd_ne by lia. Qed.

Lemma store16_bytes m a w : mem_bytes m -> mem_bytes (store16 m a w).
Proof. intros Hm x. unfold store16, upd. repeat case_match; (apply u8_range || apply Hm). Qed.

Lemma firstFrame_spec m tf : 0 <= tf -> tf + 76 <= 4294967296 ->
  (mem_bytes m -> mem_bytes (firstFrame m tf)) /\ (forall a, ~ (tf <= a < tf + 76) -> firstFrame m tf a = m a) /\ startsUser (firstFrame m tf) tf.
Proof.
  intros H0 H1. unfold firstFrame, TRAPFRAME_SIZE, TF_CS, TF_DS, TF_ES, TF_SS, TF_EFLAGS, TF_ESP, TF_EIP. rewrite !padd_small by lia. split_and!.
  - intros Hb. do 3 apply store32_bytes. do 4 apply store16_bytes. intros a. rewrite memset_fill by lia. case_match; [apply u8_range|apply Hb].
  - intros a Ha. rewrite !store32_out, !store16_out by lia. rewrite memset_fill by lia.
    destruct (Z.leb_spec tf a), (Z.ltb_spec a (tf + 76)); cbn [andb]; (done || lia).
  - split; unfold TF_EIP, TF_ESP, TF_EFLAGS, TF_CS, TF_SS.
    + by rewrite load32_store32 by lia.
    + rewrite load32_store32_other by lia. by rewrite load32_store32 by (unfold PGSIZE; lia).
    + rewrite !load32_store32_other by lia. by rewrite load32_store32 by (unfold FL_IF; lia).
    + split; do 3 rewrite store32_out by lia; do 3 rewrite store16_out by lia; unfold store16; rewrite padd_small by lia; [by rewrite upd_ne, upd_eq by lia|by rewrite upd_eq].
    + split; do 3 rewrite store32_out by lia; unfold store16 at 1; rewrite padd_small by lia; [by rewrite upd_ne, upd_eq by lia|by rewrite upd_eq].
Qed.

Lemma ready_settled s s' : proc_ready s -> sync s' = settle (sync s) -> kmem_ready s'.
Proof. intros (H1 & _ & _ & H4) E. right. rewrite E. split; [by apply settle_balanced|by apply settle_lockFree]. Qed.

(** The last part of [initialiseFirstUserProcess]. *)
Lemma first_tail s p x T : balanced 1 (sync s) -> lockFree (sync s) L_processTable -> settled s = s -> processTable s !! p = Some x ->
  Trapframe x = frameAt T -> length (Cwd x) = 200%nat -> length (ProcName x) = 16%nat ->
  exists tc tn,
  (modifyProcess p (set_MemorySize PGSIZE);;
   x ← getProcess p;
   let tf := Trapframe x in
   puts (fun s => set_kmem (firstFrame (kmem s) tf) s);;
   name ← checked "safestrcpy" (arr_safestrcpy (ProcName x) initcodeName 16);
   modifyProcess p (set_ProcName name);;
   cwd ← checked "safestrcpy" (arr_safestrcpy (Cwd x) [47; 0] MAXCWDSIZE);
   modifyProcess p (set_Cwd cwd);;
   acquire L_processTable;;
   modifyProcess p (set_State RUNNABLE);;
   release L_processTable) s =
  Ret tt (set_processTable (<[p := set_State RUNNABLE (set_Cwd (47 :: 0 :: tc) (set_ProcName (initcodeName ++ tn) (set_MemorySize PGSIZE x)))]> (processTable s))
    (set_kmem (firstFrame (kmem s) (frameAt T)) s)).
Proof.
  intros Hb Hpt Hs Hp Htf Hc Hn. pose proof (lookup_lt_Some _ _ _ Hp) as Hlt.
  destruct (arr_safestrcpy_app [47] (Cwd x) [] MAXCWDSIZE) as (tc & Ec & _); [repeat constructor; lia|unfold MAXCWDSIZE; lia|].
  destruct (arr_safestrcpy_app [105; 110; 105; 116; 99; 111; 100; 101] (ProcName x) [] 16) as (tn & En & _); [repeat constructor; lia|lia|].
  exists tc, tn. erewrite bind_modify by exact Hp. erewrite bind_getProcess by slot_stored. cbv zeta.
  change (Trapframe (set_MemorySize PGSIZE x)) with (Trapframe x). rewrite Htf, bind_puts. change (ProcName (set_MemorySize PGSIZE x)) with (ProcName x).
  change (Cwd (set_MemorySize PGSIZE x)) with (Cwd x). unfold initcodeName in *. cbn [app] in En, Ec. rewrite En, bind_checked.
  erewrite bind_modify by slot_stored. rewrite Ec, bind_checked. erewrite bind_modify by slot_stored.
  erewrite bind_Ret; [|apply acquire_entered; [exact Hb|exact Hpt]]. erewrite bind_modify by slot_stored.
  rewrite (release_settled _ s) by done. f_equal. cbn. rewrite !list_insert_insert_eq. apply (f_equal sync) in Hs. cbn in Hs. rewrite Hs. done.
Qed.

(** What the first process needs: a free slot, a free file, pages, and its
    program inside the kernel's image. *)
Record can_boot (s : KState) (T D : Z) (free : list Z) (init n : Z) : Prop := {
  cb_ready : proc_ready s;
  cb_free : free_pages kernelEnd s (T :: D :: free);
  cb_bytes : mem_bytes (kmem s);
  cb_pages : (68 <= length free)%nat;
  cb_arrays : Forall (fun x => length (OpenFile x) = 16%nat /\ length (Cwd x) = 200%nat /\ length (ProcName x) = 16%nat) (processTable s);
  cb_code : 0 < n < 4096 /\ 0 <= init /\ init + n <= kernelEnd
}.


End First.

(** * A concrete boot *)

Definition bootKernel : KState := set_fileTable (replicate 3 freeFile) poolKernel.

Lemma bootKernel_ready : can_boot demoEnd bootKernel demoT1 demoT2 (pagesFrom 98 (demoT2 + 4096)) 2148532000 200.
Proof.
  split.
  - split_and!; [by apply demoKernel_balanced|apply demoKernel_free; unfold demoLockList; set_solver..].
  - exact pool_free.
  - exact poolMem_bytes.
  - vm_compute. lia.
  - constructor; [done|]. by apply Forall_replicate.
  - unfold demoEnd. lia.
Qed.

